(* ===== verification/_CoqProject ===== *)
-Q . S2P
Prelude.v
Threads.v
KcpBase.v
KcpCodec.v
KcpSend.v
KcpRecv.v
KcpInput.v
KcpFlush.v
KcpInv.v
KcpAck.v
KcpInputSpec.v
KcpRecvSpec.v
KcpSendSpec.v
KcpFlushSpec.v
KcpAckSpec.v
KcpTimer.v
KcpApi.v
KcpStream.v
KcpDemo.v
KcpNet.v
KcpProps.v
KcpAckProps.v
CLib.v
Dns.v
DnsSpec.v
DnsClient.v
DnsProps.v
DnsMain.v
Queue.v
WorkQueue.v
WorkProps.v
Contacts.v
ContactsSpec.v
ContactsEntry.v
ContactsFile.v
ContactsProps.v
WordCount.v
Web.v
WebProps.v
Latency.v
LatencyProps.v
KcpTest.v
KcpTestProps.v
KcpCalls.v
KcpServer.v
KcpServerProps.v
Delay.v
KcpClient.v
KcpClientProps.v
KcpSession.v
KcpSessionSpec.v
SessionNet.v
ChatServer.v
ChatServerSpec.v
ChatServerProps.v
ChatClient.v
ChatClientProps.v
ChatDelivery.v
ThreadPool.v
ThreadPoolProps.v
ConnPool.v
ConnPoolProps.v
SockIO.v
SockIOProps.v
IoServers.v
IoServersProps.v
DnsSync.v
DnsSyncProps.v
SqlStmts.v
SqlProps.v
SqlMain.v
EdgeServer.v
EdgeServerProps.v
Coroutine.v
HttpGet.v
MulServer.v
MulClient.v
Rtt.v
RttThreads.v
RttThreadsProps.v
