(* ===== verification/Prelude.v ===== *)
(** * A verification development for this repository of network exercises

    The repository is a collection of C and C++ programs.  Its core is KCP, a reliable
    transport over datagrams (2.2.3-udp-kcp-quic/ikcp.c and ikcp.h), with programs that
    run it: a test over a simulated network (test.cpp, test.h), an echo server (server.c)
    and a client that measures the round trip (client.c, delay.c, delay.h), and C++
    sessions on which a chat is built (kcp_session, kcp_server, kcp_client, chat_server,
    chat_client).  Beside it are an asynchronous DNS client and an epoll server with its
    thread pool (2.3.1-coroutine), a thread pool in C++ (test3), a pool of database
    connections and what is done with one (test4), a blocking DNS client (test5), an HTTP
    client (test6), TCP servers that wait for their clients in several ways (test7, test8), an
    HTTP server on epoll (test8), contexts that hand over control (test9, 2.3.1-coroutine),
    an address book (test2) and a word counter (test1).

    ** How the code is modelled

    A function of the source is a function here, with the source's name.  A function that
    can go wrong runs in the monad [M W A] of this file: it takes a world [W] and either
    returns a value and a new world, or faults (a failed assert, an access outside an
    object or through NULL, a read of an uninitialised cell, or a loop that has used up
    the fuel the model gives it).  [wp m Q w] says that [m] run in [w] returns without a
    fault and ends in [Q]: every theorem stated with it is a statement of total
    correctness.  An integer of the C code is a [Z] with its wrap-around written at the
    operation ([u8], [u16], [u32], [s32]).  What the outside gives (allocation, clock,
    random numbers, the results of system calls) is an argument or an oracle; what is
    given to the outside (datagrams, log lines, printed lines) is recorded in the world.

    ** The files

    KCP.
    - KcpBase.v: constants, [IKCPSEG], [struct IKCPCB] as records, allocator, log and
      output callbacks; KcpCodec.v: the little-endian codec and the segment header.
    - KcpSend.v: create, release, settings, [ikcp_send]; KcpRecv.v: [ikcp_peeksize],
      [ikcp_recv], [ikcp_parse_data]; KcpInput.v: acknowledgements and [ikcp_input];
      KcpFlush.v: [ikcp_flush], [ikcp_update], [ikcp_check].
    - KcpInv.v: the invariant [wf] (settings, sending side, receiving side, segments, ack
      list) and what keeps it; KcpAck.v, KcpInputSpec.v, KcpRecvSpec.v,
      KcpSendSpec.v, KcpFlushSpec.v, KcpAckSpec.v, KcpTimer.v: what each operation does.
    - KcpApi.v: any sequence of allowed calls; KcpDemo.v: concrete control blocks.
    - KcpProps.v, KcpAckProps.v: the properties of one control block.
    - KcpStream.v: the history of fragments a control block has queued ([source]) and has
      put together ([sink]), kept by every operation; KcpNet.v: two ends and a network
      that loses, repeats and reorders, as a step relation, and the delivery theorem.
    Programs on KCP.
    - Latency.v, LatencyProps.v: test.h, the clock, the random generator without
      replacement, the two tunnels; KcpTest.v, KcpTestProps.v: test.cpp.
    - KcpCalls.v: the effect of a call in the words its callers need (invariant, bytes and
      acknowledgements added, blocks, datagrams handed out); KcpServer.v,
      KcpServerProps.v: server.c; Delay.v: delay.h and delay.c; KcpClient.v,
      KcpClientProps.v: client.c, and a round trip through the model of the server.
    - KcpSession.v, KcpSessionSpec.v: kcp_session.h and kcp_session.cc, a control block
      with a peer and a heartbeat; ChatServer.v, ChatServerSpec.v, ChatServerProps.v:
      kcp_server.* and chat_server.cc, sessions on a heap shared by a table and a set of
      users; ChatClient.v, ChatClientProps.v: kcp_client.* and chat_client.cc, the network
      thread cut at its calls and interleaved with the lines that are typed.
    - SessionNet.v: two sessions and the network between them, over the delivery theorem of
      KcpNet.v; ChatDelivery.v: the chat client and the session it talks to.
    Intrusive lists and threads.
    - Queue.v: the IQUEUE macros of ikcp.h and the LL macros of
      server_mulport_epoll.c over a store of links.  KCP's queues are lists in the other
      files; the refinement theorem there is what relates the two.
    - Threads.v: what the models of threads share, runs of labelled steps with their
      induction and termination, a mutex and its holder, sums over the threads.
    - WorkQueue.v, WorkProps.v: the thread pool of server_mulport_epoll.c, as steps of its
      threads in any interleaving; SockIO.v, SockIOProps.v: its socket loops, jobs and
      events; MulServer.v: its main function and the queue of a listening socket.
    - ThreadPool.v, ThreadPoolProps.v: threadpool.h and mythread.cpp of test3.
    - ConnPool.v, ConnPoolProps.v: connectionpool.h of test4 and the flow of sqltest.cpp;
      SqlStmts.v: its statements and images against the class [Mysql], an interface for the
      client library; SqlProps.v: the laws of that library as a class, and the round trip
      of an image; a small database is an instance of both; SqlMain.v: main, with the pool
      and the statements together.
    - Coroutine.v: ucontext-backup.c, setjmp.c and coroutine.cpp of test9, contexts as
      places in their functions.
    Servers and clients on sockets.
    - IoServers.v, IoServersProps.v: tcpserver.cpp of test8, the loops on select, poll and
      epoll against one abstract server; EdgeServer.v, EdgeServerProps.v: tcpserver.cpp of
      test7, whose clients are edge-triggered, with the kernel's buffers in the state.
    - HttpGet.v: httptest.cpp of test6; MulClient.v: mul_port_client_epoll.c, the load
      client of test7 (and, the same code, of test8 and test9); Rtt.v: the statistics of
      the round-trip clients under tcp-udp-rtt, and the TCP server they talk to;
      RttThreads.v, RttThreadsProps.v: the two threads of its KCP client, with the mutex and
      the condition variable at which they meet.
    DNS: CLib.v (blocks of bytes, byte order, C strings); Dns.v, DnsSpec.v (the codec);
      DnsClient.v, DnsProps.v (the two clients of async_dns_client_noblock.c); DnsMain.v (its
      main, which commits a table of names while a second thread handles answers); DnsSync.v,
      DnsSyncProps.v (the one of dnstest.cpp, and that it sends the same requests).
    Address book: Contacts.v (nodes on a heap, the list, the file, the menu of
      test2/contacts.cpp); ContactsSpec.v (the heap against a list), ContactsEntry.v (the
      entries against an abstract book), ContactsFile.v (the file), ContactsProps.v.
    Word counter: WordCount.v (test1/count_word.cpp).
    HTTP server: Web.v (webserver.h, webserver.cpp, reactor.cpp of test8), WebProps.v.

    ** What the theorems show

    - Delivery (KcpNet.v): over any run of two control blocks and the network, what each
      end has received is a prefix of what the other accepted; composed with the
      simulator, test.cpp never reports an error (KcpTestProps.v); composed with the
      sessions and the chat client, what is printed are the messages of the other end, in
      order, but for the tails that the client replaces by zeros (ChatDelivery.v).
    - Safety under any use: allowed calls keep [wf] and return, blocks are accounted for,
      any byte string is an acceptable datagram (KcpProps.v); so the servers survive
      whatever they receive, the echo client whatever does not hold an object of another
      size, and the chat server's table, users and heap hold the same sessions at every
      moment.
    - Functional behaviour of each operation of KCP, branch by branch: fragmentation,
      reassembly, order, window, timers, retransmission, round-trip estimate.
    - Round trips: segment headers, DNS names, the address book's file, an image through
      the database.
    - Refinement: lists by links, the address book by an abstract book, the server on epoll
      by an abstract server.
    - Equivalence: the word counter and the maximal runs of letters, the requests of the
      DNS clients up to the byte order of their identifiers.
    - Waiting for clients: the sets of the select loop stay well formed as long as its
      descriptors and messages fit, and otherwise it goes wrong; the edge-triggered server
      leaves nothing unread that will not be reported, of the clients it could add; what
      the jobs of the thread pool echo, for every behaviour of their sockets.
    - Coroutines: the scheduler ends after one turn for each value of its counter.
    - Threads: mutual exclusion, each job at most once, and, before a shutdown, every job
      run within a bound that does not depend on the scheduler, for both thread pools; a
      connection has one owner and no caller waits for one that is there; the round-trip
      client loses no notification, and what its two threads report together are the times
      of exchanges one after the other (RttThreadsProps.v).
    - Whole programs: the DNS example resolves its table whatever the order of the answers
      (DnsMain.v); the database example closes what it opens, for images below 2 GB, and
      stores them whole when none of the results it drops was an error (SqlMain.v).
    - Errors: theorems that state what goes wrong where the code falls short (an MTU that
      overflows, name pointers that loop, a pool that cannot be shut down and one whose
      stop can hang, a chat that prints zeros for the end of a message, a read that spins,
      a request that fills its buffer, a menu that never ends, a poll loop that closes the
      wrong client, a DNS answer read past its array, connections that come together and
      of which one is accepted, a mode without a name, an object of another size, clients
      that epoll does not take, chunks of an image whose errors are dropped).

    ** Bounds and fuel

    Loops that the source bounds by its data are structural or get a fuel that is shown to
    be enough in the same theorem ([ikcp_input]: the size of the datagram; the walks of
    the address book: the number of nodes; the loops of a round of test.cpp: what waits).
    Loops that wait for the outside take their number of rounds as an argument, and the
    theorems hold for every number within the stated bounds, which keep 32-bit counters
    from wrapping: 2^31 bytes in all for the servers and the clients, 83000 acknowledgements
    a round, so 25873 rounds, for test.cpp, whose clock must also stay 20 ms below 2^32 (at the wrap its
    loop would queue messages without end).

    ** Not modelled

    - udp_socket.* and trace.h, one system call or print per method; test1.cpp, a class
      of the same kind that nothing uses; the websocket stub.
    - A call of a line thread between the two calls that [KcpSession::Update] makes on its
      control block, and two calls of [ThreadPool::stop] at the same time.
    - The copies under tcp-udp-rtt/udp-rtt of the files modelled here; only its
      chat_client.cc differs in more than comments, traces and default addresses.
    - The setting up of the stacks of contexts, and hook.c, which does not compile; the
      MySQL server: what the client library promises is the class [MysqlLaws].
    - Printing on the terminal, except where a theorem is about what is printed. *)
From stdpp Require Import base list numbers gmap strings.
From Stdlib Require Import ZArith Lia Sorted.

#[global] Open Scope Z_scope.

(** ** Machine integers *)

(** An unsigned [w]-bit value is a [Z] in [0, 2^w); the wrap-around of an
    operation is written at the operation. *)
Definition u8 (x : Z) : Z := x mod 256.
Definition u16 (x : Z) : Z := x mod 65536.
Definition u32 (x : Z) : Z := x mod 4294967296.

(** The two's complement reading of the low 32 bits. *)
Definition s32 (x : Z) : Z := (x + 2147483648) mod 4294967296 - 2147483648.

(** The same for 64 bits. *)
Definition u64 (x : Z) : Z := x mod 18446744073709551616.
Definition s64 (x : Z) : Z := (x + 9223372036854775808) mod 18446744073709551616 - 9223372036854775808.

(** ** Outcomes of a C function *)

(** The ways in which an execution has no result: a failed [assert], a call of
    [abort], an access outside an object, a null dereference, a read of an
    uninitialised cell, and (a device of the model) a loop that has used up the
    fuel it was given. *)
Inductive fault : Type :=
  | AssertFailed
  | Aborted
  | OutOfBounds
  | NullDeref
  | Uninitialised
  | OutOfFuel.

#[export] Instance fault_eq_dec : EqDecision fault.
Proof. solve_decision. Defined.

Inductive res (W A : Type) : Type :=
  | Ok (a : A) (w : W)
  | Fault (f : fault).
Arguments Ok {W A} a w.
Arguments Fault {W A} f.

(** Computations over a world [W] that may fault. *)
Definition M (W A : Type) : Type := W -> res W A.

Definition ret {W A} (a : A) : M W A := fun w => Ok a w.
Definition bind {W A B} (m : M W A) (k : A -> M W B) : M W B :=
  fun w => match m w with Ok a w' => k a w' | Fault f => Fault f end.
Definition throw {W A} (f : fault) : M W A := fun _ => Fault f.
Definition gets {W A} (f : W -> A) : M W A := fun w => Ok (f w) w.
Definition modify {W} (f : W -> W) : M W unit := fun w => Ok tt (f w).
Definition of_option {W A} (f : fault) (o : option A) : M W A :=
  match o with Some a => ret a | None => throw f end.
Definition assert {W} (b : bool) : M W unit :=
  if b then ret tt else throw AssertFailed.

Declare Scope c_scope.
Delimit Scope c_scope with c.
Notation "'let!' x := m 'in' k" := (bind m (fun x => k))
  (at level 10, x name, m at level 100, k at level 200) : c_scope.
Notation "'let!' ' pat := m 'in' k" := (bind m (fun x => match x with pat => k end))
  (at level 10, pat pattern, m at level 100, k at level 200) : c_scope.
Notation "m ;;; k" := (bind m (fun _ => k))
  (at level 199, right associativity) : c_scope.

(** [wp m Q w]: run in [w], [m] returns without a fault, and its result and the
    world it leaves satisfy [Q].  This is total correctness. *)
Definition wp {W A} (m : M W A) (Q : A -> W -> Prop) (w : W) : Prop :=
  match m w with Ok a w' => Q a w' | Fault _ => False end.

(** Splits conjunctions without unfolding definitions. *)
Ltac splits := repeat match goal with |- _ /\ _ => split end.

(** ** Record updates *)

(** [r <| f := v |>] for the fields that have an instance. *)
Class Upd {R T : Type} (proj : R -> T) : Type := mk_upd { upd : T -> R -> R }.
Arguments mk_upd {R T} proj upd.
Arguments upd {R T} proj {_} _ _.
Notation "r <| f := v |>" := (upd f v r)
  (at level 1, left associativity, format "r  <| f  :=  v |>") : c_scope.

(** [build_upd eta f] makes the update function of field [f] from the
    eta-expansion [eta] of the record, by replacing the projection. *)
Ltac build_upd eta f :=
  refine (mk_upd f _);
  let v := fresh "v" in let r := fresh "r" in
  intros v r;
  let t := constr:(eta r) in
  let t := eval cbv beta delta [eta] in t in
  let p := constr:(f r) in
  lazymatch t with
  | context C [p] => let t' := context C [v] in exact t'
  end.

(** ** Transitions *)

Section Star.
Context {S : Type} (R : S -> S -> Prop).

(** Finite sequences of steps. *)
Inductive star : S -> S -> Prop :=
  | star_refl s : star s s
  | star_step s1 s2 s3 : R s1 s2 -> star s2 s3 -> star s1 s3.

Lemma star_one s1 s2 : R s1 s2 -> star s1 s2.
Proof. intros H. eapply star_step; [exact H | apply star_refl]. Qed.

Lemma star_trans s1 s2 s3 : star s1 s2 -> star s2 s3 -> star s1 s3.
Proof. induction 1; intros; [done | eapply star_step; eauto]. Qed.

(** A property the steps preserve holds of every reachable state. *)
Lemma star_invariant (I : S -> Prop) :
  (forall s s', I s -> R s s' -> I s') ->
  forall s s', star s s' -> I s -> I s'.
Proof. intros Hpres s s' Hst. induction Hst; eauto. Qed.
End Star.

(** ** Rules of [wp] *)

Section Wp.
Context {W : Type}.
Open Scope c_scope.

Lemma wp_ret {A} (a : A) Q (w : W) : Q a w -> wp (ret a) Q w.
Proof. done. Qed.

Lemma wp_bind {A B} (m : M W A) (k : A -> M W B) Q w :
  wp m (fun a w' => wp (k a) Q w') w -> wp (bind m k) Q w.
Proof. unfold wp, bind. destruct (m w); done. Qed.

Lemma wp_assoc {A B C} (m : M W A) (k1 : A -> M W B) (k2 : B -> M W C) Q w :
  wp (bind (bind m k1) k2) Q w -> wp (bind m (fun x => bind (k1 x) k2)) Q w.
Proof. unfold wp, bind. destruct (m w); done. Qed.

Lemma wp_gets {A} (f : W -> A) Q w : Q (f w) w -> wp (gets f) Q w.
Proof. done. Qed.

Lemma wp_modify (f : W -> W) Q w : Q tt (f w) -> wp (modify f) Q w.
Proof. done. Qed.

Lemma wp_assert (b : bool) (Q : unit -> W -> Prop) w : b = true -> Q tt w -> wp (assert b) Q w.
Proof. by intros ->. Qed.

Lemma wp_of_option {A} f (o : option A) Q (w : W) a : o = Some a -> Q a w -> wp (of_option f o) Q w.
Proof. by intros ->. Qed.

Lemma wp_mono {A} (m : M W A) (Q Q' : A -> W -> Prop) w :
  wp m Q w -> (forall a w', Q a w' -> Q' a w') -> wp m Q' w.
Proof. unfold wp. destruct (m w); naive_solver. Qed.

Lemma wp_and {A} (m : M W A) (Q Q' : A -> W -> Prop) w :
  wp m Q w -> wp m Q' w -> wp m (fun a w' => Q a w' /\ Q' a w') w.
Proof. unfold wp. destruct (m w); naive_solver. Qed.

(** The result of a computation that satisfies a [wp]. *)
Lemma wp_run {A} (m : M W A) Q w : wp m Q w -> exists a w', m w = Ok a w' /\ Q a w'.
Proof. unfold wp. destruct (m w) as [a w'|]; [by exists a, w' | done]. Qed.

Lemma wp_of_run {A} (m : M W A) (Q : A -> W -> Prop) w a w' : m w = Ok a w' -> Q a w' -> wp m Q w.
Proof. unfold wp. by intros ->. Qed.
End Wp.

Create HintDb wpdb.
#[export] Hint Resolve wp_ret wp_gets wp_modify : wpdb.

(** One step of symbolic execution. *)
Ltac wp_step :=
  lazymatch goal with
  | |- wp (bind _ _) _ _ => apply wp_bind
  | |- wp (ret _) _ _ => apply wp_ret; cbv beta iota
  | |- wp (gets _) _ _ => apply wp_gets; cbv beta iota
  | |- wp (modify _) _ _ => apply wp_modify; cbv beta iota
  | |- wp (of_option _ (Some ?a)) _ _ => apply (wp_of_option _ _ _ _ a); [reflexivity | cbv beta iota]
  | |- wp (assert true) _ _ => apply wp_assert; [reflexivity | cbv beta iota]
  end.

(** ** Wrap-around arithmetic *)

Ltac mod_lia :=
  unfold u8, u16, u32, s32 in *; Z.div_mod_to_equations; lia.

Lemma u32_range x : 0 <= u32 x < 4294967296.
Proof. apply Z.mod_pos_bound. lia. Qed.

Lemma u32_id x : 0 <= x < 4294967296 -> u32 x = x.
Proof. apply Z.mod_small. Qed.

Lemma u32_u32 x : u32 (u32 x) = u32 x.
Proof. apply u32_id, u32_range. Qed.

Lemma u16_range x : 0 <= u16 x < 65536.
Proof. apply Z.mod_pos_bound. lia. Qed.

Lemma u16_id x : 0 <= x < 65536 -> u16 x = x.
Proof. apply Z.mod_small. Qed.

Lemma u8_range x : 0 <= u8 x < 256.
Proof. apply Z.mod_pos_bound. lia. Qed.

Lemma u8_id x : 0 <= x < 256 -> u8 x = x.
Proof. apply Z.mod_small. Qed.

Lemma s32_range x : -2147483648 <= s32 x < 2147483648.
Proof. unfold s32. pose proof (Z.mod_pos_bound (x + 2147483648) 4294967296). lia. Qed.

Lemma s32_id x : -2147483648 <= x < 2147483648 -> s32 x = x.
Proof. intros H. unfold s32. rewrite Z.mod_small; lia. Qed.

Lemma s64_mod x : s64 (x mod 18446744073709551616) = s64 x.
Proof. unfold s64. by rewrite Zplus_mod_idemp_l. Qed.

Lemma s64_id x : -9223372036854775808 <= x < 9223372036854775808 -> s64 x = x.
Proof. unfold s64. mod_lia. Qed.

Lemma u32_eqm x y : u32 x = u32 y <-> exists k, x = y + k * 4294967296.
Proof.
  unfold u32. split.
  - intros H. exists (x / 4294967296 - y / 4294967296).
    pose proof (Z.div_mod x 4294967296). pose proof (Z.div_mod y 4294967296). lia.
  - intros [k ->]. apply Z.mod_add. lia.
Qed.

Lemma u32_add_l x y : u32 (u32 x + y) = u32 (x + y).
Proof. unfold u32. apply Zplus_mod_idemp_l. Qed.

Lemma u32_add_r x y : u32 (x + u32 y) = u32 (x + y).
Proof. unfold u32. apply Zplus_mod_idemp_r. Qed.

Lemma u32_sub_l x y : u32 (u32 x - y) = u32 (x - y).
Proof. unfold u32. apply Zminus_mod_idemp_l. Qed.

Lemma u32_sub_r x y : u32 (x - u32 y) = u32 (x - y).
Proof. unfold u32. apply Zminus_mod_idemp_r. Qed.

Lemma s32_u32 x : s32 (u32 x) = s32 x.
Proof. unfold s32, u32. by rewrite Zplus_mod_idemp_l. Qed.

Lemma u32_s32 x : u32 (s32 x) = u32 x.
Proof. mod_lia. Qed.

Create Rewrite HintDb wrap.
#[export] Hint Rewrite u32_u32 u32_add_l u32_add_r u32_sub_l u32_sub_r s32_u32 u32_s32 : wrap.

(** The sign of a 32-bit value. *)
Lemma s32_nonneg x : 0 <= s32 x <-> u32 x < 2147483648.
Proof. mod_lia. Qed.

Lemma s32_small x : u32 x < 2147483648 -> s32 x = u32 x.
Proof. mod_lia. Qed.

Lemma s32_pos x : 0 < s32 x <-> 0 < u32 x < 2147483648.
Proof. mod_lia. Qed.

(** ** Sequence numbers

    A sequence number is compared through its distance from a base. *)
Definition off (base x : Z) : Z := u32 (x - base).

Lemma off_range base x : 0 <= off base x < 4294967296.
Proof. apply u32_range. Qed.

Lemma off_self x : off x x = 0.
Proof. unfold off. by rewrite Z.sub_diag. Qed.

Lemma off_inj base x y :
  0 <= x < 4294967296 -> 0 <= y < 4294967296 -> off base x = off base y -> x = y.
Proof.
  unfold off. intros Hx Hy [k Hk]%u32_eqm. nia.
Qed.

(** Rebasing at a point that lies before. *)
Lemma off_rebase base c x : off base c <= off base x -> off c x = off base x - off base c.
Proof.
  intros H. pose proof (off_range base c). pose proof (off_range base x).
  replace (off c x) with (u32 (off base x - off base c)).
  - apply u32_id. lia.
  - unfold off. rewrite u32_sub_l, u32_sub_r. f_equal. lia.
Qed.

Lemma off_succ base x : off base x < 4294967295 -> off base (u32 (x + 1)) = off base x + 1.
Proof.
  unfold off. intros H. pose proof (u32_range (x - base)).
  rewrite u32_sub_l. replace (x + 1 - base) with ((x - base) + 1) by lia.
  rewrite <- u32_add_l. apply u32_id. lia.
Qed.

Lemma off_base_succ base x : 0 < off base x -> off (u32 (base + 1)) x = off base x - 1.
Proof.
  unfold off. intros H. pose proof (u32_range (x - base)).
  rewrite u32_sub_r. replace (x - (base + 1)) with ((x - base) - 1) by lia.
  rewrite <- u32_sub_l. apply u32_id. lia.
Qed.

Lemma s32_eqm x y : u32 x = u32 y -> s32 x = s32 y.
Proof. intros H. by rewrite <- (s32_u32 x), H, s32_u32. Qed.

(** The signed difference of two numbers less than 2^31 beyond a base. *)
Lemma s32_off base x y :
  off base x < 2147483648 -> off base y < 2147483648 ->
  s32 (x - y) = off base x - off base y.
Proof.
  intros Hx Hy. pose proof (off_range base x). pose proof (off_range base y).
  rewrite <- (s32_id (off base x - off base y)) by lia.
  apply s32_eqm. unfold off. rewrite u32_sub_l, u32_sub_r. f_equal. lia.
Qed.

Lemma s32_off_nonneg base x : 0 <= s32 (x - base) <-> off base x < 2147483648.
Proof. apply s32_nonneg. Qed.

(** ** Lists *)

Lemma sorted_lt_app_inv (l1 l2 : list Z) :
  StronglySorted Z.lt (l1 ++ l2) <->
  StronglySorted Z.lt l1 /\ StronglySorted Z.lt l2 /\
  (forall x y, x ∈ l1 -> y ∈ l2 -> x < y).
Proof.
  induction l1 as [|a l1 IH]; cbn.
  - split; [intros H; split_and!; [constructor | done | set_solver] | tauto].
  - split.
    + intros [Hs Hf]%StronglySorted_inv. apply IH in Hs as (H1 & H2 & H3).
      rewrite List.Forall_app in Hf. destruct Hf as [Hf1 Hf2].
      rewrite List.Forall_forall in Hf2.
      split_and!; [by constructor | done |].
      intros x y [->|Hx]%elem_of_cons Hy; [by apply Hf2, list_elem_of_In | by apply H3].
    + intros (H1 & H2 & H3). apply StronglySorted_inv in H1 as [H1 Hf].
      constructor.
      * apply IH. split_and!; [done..|]. intros. apply H3; [by right | done].
      * apply List.Forall_app. split; [done|]. apply List.Forall_forall.
        intros y Hy%list_elem_of_In. apply H3; [by left | done].
Qed.

Lemma sublist_sorted_lt (l1 l2 : list Z) :
  sublist l1 l2 -> StronglySorted Z.lt l2 -> StronglySorted Z.lt l1.
Proof.
  induction 1 as [|x l1 l2 H IH|x l1 l2 H IH]; intros Hs; [done|..];
    apply StronglySorted_inv in Hs as [Hs Hf].
  - constructor; [auto|]. rewrite List.Forall_forall in *. intros y Hy.
    apply Hf. apply list_elem_of_In. eapply sublist_subseteq; [done|].
    by apply list_elem_of_In.
  - auto.
Qed.

Lemma sorted_map_ext {A} (f g : A -> Z) (l : list A) (c : Z) :
  (forall x, x ∈ l -> g x = f x - c) ->
  StronglySorted Z.lt (map f l) -> StronglySorted Z.lt (map g l).
Proof.
  induction l as [|a l IH]; cbn; intros He Hs; [constructor|].
  apply StronglySorted_inv in Hs as [Hs Hf]. constructor.
  - apply IH; [|done]. intros. apply He. by right.
  - rewrite List.Forall_forall in *. intros y Hy%in_map_iff.
    destruct Hy as (x & <- & Hx). pose proof (Hf (f x)) as H.
    rewrite !He; [| by right; apply list_elem_of_In | by left].
    apply in_map with (f := f) in Hx. specialize (H Hx). lia.
Qed.

Lemma sublist_map {A B} (f : A -> B) (l1 l2 : list A) :
  sublist l1 l2 -> sublist (map f l1) (map f l2).
Proof. induction 1; cbn; by constructor. Qed.

Lemma sublist_Forall {A} (P : A -> Prop) (l1 l2 : list A) :
  sublist l1 l2 -> Forall P l2 -> Forall P l1.
Proof.
  intros Hs Hf. apply Forall_forall. intros x Hx. rewrite Forall_forall in Hf.
  apply Hf. by eapply sublist_subseteq.
Qed.

Lemma sublist_eq_length {A} (l1 l2 : list A) : sublist l1 l2 -> length l1 = length l2 -> l1 = l2.
Proof.
  induction 1 as [|x l1 l2 H IH|x l1 l2 H IH]; cbn; intros E; [done | by f_equal; auto|].
  apply sublist_length in H. lia.
Qed.
