(* ===== verification/Threads.v ===== *)
(** * What the models of threads share: a list of places, one of which changes per step. *)
From S2P Require Import Prelude.
From Stdlib Require Import Lia.
From stdpp Require Import base list numbers gmap.

Section Places.
Context {P : Type}.
Implicit Types (l : list P) (m : option nat).

(** A mutex is held exactly by the thread whose place is one of those between lock and
    unlock. *)
Definition owned (holds : P -> bool) l m : Prop := forall i w, l !! i = Some w -> (holds w = true <-> m = Some i).

Lemma owned_update holds l m m' i w w' :
  owned holds l m -> l !! i = Some w -> (holds w' = true <-> m' = Some i) ->
  (forall k, k <> i -> (m' = Some k <-> m = Some k)) -> owned holds (<[i := w']> l) m'.
Proof.
  intros Ho Hw Hi Hk k x Hx. destruct (decide (k = i)) as [->|Hne].
  - rewrite list_lookup_insert_eq in Hx by (by eapply lookup_lt_Some). by injection Hx as <-.
  - rewrite list_lookup_insert_ne in Hx by done. rewrite Hk by done. by apply Ho.
Qed.

(** A thread that neither takes nor gives the mutex. *)
Lemma owned_move holds l m i w w' : owned holds l m -> l !! i = Some w -> holds w' = holds w -> owned holds (<[i := w']> l) m.
Proof. intros Ho Hw E. eapply owned_update; [done | done | rewrite E; by apply Ho | done]. Qed.

Lemma owned_take holds l i w w' : owned holds l None -> l !! i = Some w -> holds w' = true -> owned holds (<[i := w']> l) (Some i).
Proof. intros Ho Hw E. eapply owned_update; [done | done | done |]. intros k Hk. split; congruence. Qed.

Lemma owned_give holds l m i w w' : owned holds l m -> l !! i = Some w -> holds w = true -> holds w' = false -> owned holds (<[i := w']> l) None.
Proof.
  intros Ho Hw E E'. pose proof (proj1 (Ho i w Hw) E) as ->. eapply owned_update; [done | done | rewrite E'; done |].
  intros k Hk. split; congruence.
Qed.

(** What the threads have in hand, and what they weigh. *)
Lemma concat_map_insert {A} (f : P -> list A) l i w w' :
  l !! i = Some w -> f w ++ concat (map f (<[i := w']> l)) ≡ₚ f w' ++ concat (map f l).
Proof.
  revert i. induction l as [|x l IH]; intros [|i] H; cbn in *; [done | done | |].
  - injection H as ->. rewrite !(assoc_L (++)). by rewrite (Permutation_app_comm (f w)).
  - rewrite !(assoc_L (++)), (Permutation_app_comm _ (f x)), (Permutation_app_comm (f w') (f x)).
    rewrite <- !(assoc_L (++)). by rewrite IH.
Qed.

Lemma concat_map_same {A} (f : P -> list A) l i w w' :
  l !! i = Some w -> f w' = f w -> concat (map f (<[i := w']> l)) ≡ₚ concat (map f l).
Proof. intros Hw E. pose proof (concat_map_insert f _ i w w' Hw) as H. rewrite E in H. by apply Permutation_app_inv_l in H. Qed.

Lemma sum_map_insert (f : P -> nat) l i w w' :
  l !! i = Some w -> (sum_list (map f (<[i := w']> l)) + f w = sum_list (map f l) + f w')%nat.
Proof.
  revert i. induction l as [|x l IH]; intros [|i] Hw; cbn in *; [done | done | |].
  - injection Hw as ->. lia.
  - pose proof (IH i Hw) as E. unfold insert in *. lia.
Qed.

Lemma Exists_insert (Q : P -> Prop) l i w w' : l !! i = Some w -> Q w' -> Exists Q (<[i := w']> l).
Proof. intros Hw Hq. apply Exists_exists. exists w'. split; [|done]. apply list_elem_of_insert. by eapply lookup_lt_Some. Qed.
End Places.

(** ** Runs of a machine whose steps are labelled *)

Section Runs.
Context {E S : Type} (step : E -> S -> option S).

Inductive steps : list E -> S -> S -> Prop :=
  | steps_nil s : steps [] s s
  | steps_cons e es s1 s2 s3 : step e s1 = Some s2 -> steps es s2 s3 -> steps (e :: es) s1 s3.

Definition run_steps (es : list E) (s : S) : option S :=
  fold_left (fun o e => match o with Some s => step e s | None => None end) es (Some s).

Lemma run_steps_ok es s s' : run_steps es s = Some s' -> steps es s s'.
Proof.
  unfold run_steps. revert s. induction es as [|e es IH]; intros s H; cbn in H; [injection H as <-; constructor|].
  destruct (step e s) as [s1|] eqn:Es; [|by exfalso; clear -H; induction es].
  econstructor; [exact Es | by apply IH].
Qed.

(** Induction over the steps of a run: an invariant that every allowed step keeps. *)
Lemma steps_invariant (allowed : E -> Prop) (I : S -> Prop) es s s' :
  (forall e s1 s2, allowed e -> I s1 -> step e s1 = Some s2 -> I s2) ->
  Forall allowed es -> steps es s s' -> I s -> I s'.
Proof.
  intros Hk Ha Hr. induction Hr as [s|e es s1 s2 s3 Hs Hr IH]; [done|].
  apply Forall_cons_1 in Ha as [He Ha]. intros Hi. apply IH; [done|]. by eapply Hk.
Qed.

(** Termination: every step of a kind makes a measure smaller, so there are no more steps
    than it says, and taking steps as long as there are any comes to an end. *)
Lemma steps_measure (allowed : E -> Prop) (I : S -> Prop) (mu : S -> nat) es s s' :
  (forall e s1 s2, allowed e -> I s1 -> step e s1 = Some s2 -> I s2 /\ (mu s2 < mu s1)%nat) ->
  Forall allowed es -> steps es s s' -> I s -> I s' /\ (length es + mu s' <= mu s)%nat.
Proof.
  intros Hk Ha Hr. induction Hr as [s|e es s1 s2 s3 Hs Hr IH]; intros Hi; [split; [done | cbn [length]; lia]|].
  apply Forall_cons_1 in Ha as [He Ha]. destruct (Hk _ _ _ He Hi Hs) as [Hi2 Hlt]. destruct (IH Ha Hi2). split; [done | cbn [length]; lia].
Qed.

Lemma steps_rest (allowed : E -> Prop) (I : S -> Prop) (mu : S -> nat) (enabled : S -> option E) s :
  (forall e s1 s2, allowed e -> I s1 -> step e s1 = Some s2 -> I s2 /\ (mu s2 < mu s1)%nat) ->
  (forall s1 e, enabled s1 = Some e -> allowed e /\ is_Some (step e s1)) ->
  I s -> exists es s', Forall allowed es /\ steps es s s' /\ enabled s' = None.
Proof.
  intros Hk He. remember (mu s) as n eqn:En. revert s En. induction (lt_wf n) as [n _ IH]. intros s -> Hi.
  destruct (enabled s) as [e|] eqn:Ee.
  - destruct (He _ _ Ee) as [Ha [s1 Hs]]. destruct (Hk _ _ _ Ha Hi Hs) as [Hi1 Hlt].
    destruct (IH _ Hlt s1 eq_refl Hi1) as (es & s' & H1 & H2 & H3). exists (e :: es), s'.
    splits; [by constructor | by econstructor | done].
  - exists [], s. splits; [done | constructor | done].
Qed.
End Runs.
