(* ===== verification/KcpBase.v ===== *)
(** * ikcp.h / ikcp.c: constants, segments, the control block, and the calls to
    the outside (allocator, log callback, output callback). *)
From S2P Require Import Prelude.
From stdpp Require Import base list numbers strings.
Open Scope Z_scope.
Open Scope c_scope.

(** ** Constants (ikcp.c, "KCP BASIC") *)
Definition IKCP_RTO_NDL : Z := 30.
Definition IKCP_RTO_MIN : Z := 100.
Definition IKCP_RTO_DEF : Z := 200.
Definition IKCP_RTO_MAX : Z := 60000.
Definition IKCP_CMD_PUSH : Z := 81.
Definition IKCP_CMD_ACK : Z := 82.
Definition IKCP_CMD_WASK : Z := 83.
Definition IKCP_CMD_WINS : Z := 84.
Definition IKCP_ASK_SEND : Z := 1.
Definition IKCP_ASK_TELL : Z := 2.
Definition IKCP_WND_SND : Z := 32.
Definition IKCP_WND_RCV : Z := 128.
Definition IKCP_MTU_DEF : Z := 1400.
Definition IKCP_INTERVAL : Z := 100.
Definition IKCP_OVERHEAD : Z := 24.
Definition IKCP_DEADLINK : Z := 20.
Definition IKCP_THRESH_INIT : Z := 2.
Definition IKCP_THRESH_MIN : Z := 2.
Definition IKCP_PROBE_INIT : Z := 7000.
Definition IKCP_PROBE_LIMIT : Z := 120000.
Definition IKCP_FASTACK_LIMIT : Z := 5.

(** Bits of [logmask] (ikcp.h). *)
Definition IKCP_LOG_OUTPUT : Z := 1.
Definition IKCP_LOG_INPUT : Z := 2.
Definition IKCP_LOG_RECV : Z := 8.
Definition IKCP_LOG_IN_DATA : Z := 16.
Definition IKCP_LOG_IN_ACK : Z := 32.
Definition IKCP_LOG_IN_PROBE : Z := 64.
Definition IKCP_LOG_IN_WINS : Z := 128.

(** ** Data *)

(** [struct IKCPSEG].  The link [node] is the segment's place in a queue, and
    queues are lists here (Queue.v relates the two); [seg_data] is the storage
    behind [data[1]], one byte per element. *)
Record IKCPSEG : Type := mkseg {
  seg_conv : Z;
  seg_cmd : Z;
  seg_frg : Z;
  seg_wnd : Z;
  seg_ts : Z;
  seg_sn : Z;
  seg_una : Z;
  seg_len : Z;
  seg_resendts : Z;
  seg_rto : Z;
  seg_fastack : Z;
  seg_xmit : Z;
  seg_data : list Z;
}.

(** [struct IKCPCB].  [acklist] is NULL or an array whose cells may be
    uninitialised; [buffer] is NULL or the size of the block it points to (its
    bytes live only inside one [ikcp_flush]); [output] and [writelog] say
    whether the callback is set; [user] is an opaque pointer. *)
Record ikcpcb : Type := mkcb {
  conv : Z;
  mtu : Z;
  mss : Z;
  state : Z;
  snd_una : Z;
  snd_nxt : Z;
  rcv_nxt : Z;
  ts_recent : Z;
  ts_lastack : Z;
  ssthresh : Z;
  rx_rttval : Z;
  rx_srtt : Z;
  rx_rto : Z;
  rx_minrto : Z;
  snd_wnd : Z;
  rcv_wnd : Z;
  rmt_wnd : Z;
  cwnd : Z;
  probe : Z;
  current : Z;
  interval : Z;
  ts_flush : Z;
  xmit : Z;
  nrcv_buf : Z;
  nsnd_buf : Z;
  nrcv_que : Z;
  nsnd_que : Z;
  nodelay : Z;
  updated : Z;
  ts_probe : Z;
  probe_wait : Z;
  dead_link : Z;
  incr : Z;
  snd_queue : list IKCPSEG;
  rcv_queue : list IKCPSEG;
  snd_buf : list IKCPSEG;
  rcv_buf : list IKCPSEG;
  acklist : option (list (option Z));
  ackcount : Z;
  ackblock : Z;
  user : Z;
  buffer : option Z;
  fastresend : Z;
  fastlimit : Z;
  nocwnd : Z;
  stream : Z;
  logmask : Z;
  output : bool;
  writelog : bool;
}.

(** Eta-expansions, from which the field updates are built. *)
Definition eta_seg (s : IKCPSEG) : IKCPSEG :=
  mkseg
    (seg_conv s) (seg_cmd s) (seg_frg s) (seg_wnd s) (seg_ts s) (seg_sn s)
    (seg_una s) (seg_len s) (seg_resendts s) (seg_rto s) (seg_fastack s)
    (seg_xmit s) (seg_data s).
Definition eta_cb (k : ikcpcb) : ikcpcb :=
  mkcb
    (conv k) (mtu k) (mss k) (state k) (snd_una k) (snd_nxt k) (rcv_nxt k)
    (ts_recent k) (ts_lastack k) (ssthresh k) (rx_rttval k) (rx_srtt k)
    (rx_rto k) (rx_minrto k) (snd_wnd k) (rcv_wnd k) (rmt_wnd k) (cwnd k)
    (probe k) (current k) (interval k) (ts_flush k) (xmit k) (nrcv_buf k)
    (nsnd_buf k) (nrcv_que k) (nsnd_que k) (nodelay k) (updated k) (ts_probe
    k) (probe_wait k) (dead_link k) (incr k) (snd_queue k) (rcv_queue k)
    (snd_buf k) (rcv_buf k) (acklist k) (ackcount k) (ackblock k) (user k)
    (buffer k) (fastresend k) (fastlimit k) (nocwnd k) (stream k) (logmask
    k) (output k) (writelog k).

#[export] Instance upd_seg_conv : Upd seg_conv := ltac:(build_upd eta_seg seg_conv).
#[export] Instance upd_seg_cmd : Upd seg_cmd := ltac:(build_upd eta_seg seg_cmd).
#[export] Instance upd_seg_frg : Upd seg_frg := ltac:(build_upd eta_seg seg_frg).
#[export] Instance upd_seg_wnd : Upd seg_wnd := ltac:(build_upd eta_seg seg_wnd).
#[export] Instance upd_seg_ts : Upd seg_ts := ltac:(build_upd eta_seg seg_ts).
#[export] Instance upd_seg_sn : Upd seg_sn := ltac:(build_upd eta_seg seg_sn).
#[export] Instance upd_seg_una : Upd seg_una := ltac:(build_upd eta_seg seg_una).
#[export] Instance upd_seg_len : Upd seg_len := ltac:(build_upd eta_seg seg_len).
#[export] Instance upd_seg_resendts : Upd seg_resendts := ltac:(build_upd eta_seg seg_resendts).
#[export] Instance upd_seg_rto : Upd seg_rto := ltac:(build_upd eta_seg seg_rto).
#[export] Instance upd_seg_fastack : Upd seg_fastack := ltac:(build_upd eta_seg seg_fastack).
#[export] Instance upd_seg_xmit : Upd seg_xmit := ltac:(build_upd eta_seg seg_xmit).
#[export] Instance upd_seg_data : Upd seg_data := ltac:(build_upd eta_seg seg_data).
#[export] Instance upd_conv : Upd conv := ltac:(build_upd eta_cb conv).
#[export] Instance upd_mtu : Upd mtu := ltac:(build_upd eta_cb mtu).
#[export] Instance upd_mss : Upd mss := ltac:(build_upd eta_cb mss).
#[export] Instance upd_state : Upd state := ltac:(build_upd eta_cb state).
#[export] Instance upd_snd_una : Upd snd_una := ltac:(build_upd eta_cb snd_una).
#[export] Instance upd_snd_nxt : Upd snd_nxt := ltac:(build_upd eta_cb snd_nxt).
#[export] Instance upd_rcv_nxt : Upd rcv_nxt := ltac:(build_upd eta_cb rcv_nxt).
#[export] Instance upd_ts_recent : Upd ts_recent := ltac:(build_upd eta_cb ts_recent).
#[export] Instance upd_ts_lastack : Upd ts_lastack := ltac:(build_upd eta_cb ts_lastack).
#[export] Instance upd_ssthresh : Upd ssthresh := ltac:(build_upd eta_cb ssthresh).
#[export] Instance upd_rx_rttval : Upd rx_rttval := ltac:(build_upd eta_cb rx_rttval).
#[export] Instance upd_rx_srtt : Upd rx_srtt := ltac:(build_upd eta_cb rx_srtt).
#[export] Instance upd_rx_rto : Upd rx_rto := ltac:(build_upd eta_cb rx_rto).
#[export] Instance upd_rx_minrto : Upd rx_minrto := ltac:(build_upd eta_cb rx_minrto).
#[export] Instance upd_snd_wnd : Upd snd_wnd := ltac:(build_upd eta_cb snd_wnd).
#[export] Instance upd_rcv_wnd : Upd rcv_wnd := ltac:(build_upd eta_cb rcv_wnd).
#[export] Instance upd_rmt_wnd : Upd rmt_wnd := ltac:(build_upd eta_cb rmt_wnd).
#[export] Instance upd_cwnd : Upd cwnd := ltac:(build_upd eta_cb cwnd).
#[export] Instance upd_probe : Upd probe := ltac:(build_upd eta_cb probe).
#[export] Instance upd_current : Upd current := ltac:(build_upd eta_cb current).
#[export] Instance upd_interval : Upd interval := ltac:(build_upd eta_cb interval).
#[export] Instance upd_ts_flush : Upd ts_flush := ltac:(build_upd eta_cb ts_flush).
#[export] Instance upd_xmit : Upd xmit := ltac:(build_upd eta_cb xmit).
#[export] Instance upd_nrcv_buf : Upd nrcv_buf := ltac:(build_upd eta_cb nrcv_buf).
#[export] Instance upd_nsnd_buf : Upd nsnd_buf := ltac:(build_upd eta_cb nsnd_buf).
#[export] Instance upd_nrcv_que : Upd nrcv_que := ltac:(build_upd eta_cb nrcv_que).
#[export] Instance upd_nsnd_que : Upd nsnd_que := ltac:(build_upd eta_cb nsnd_que).
#[export] Instance upd_nodelay : Upd nodelay := ltac:(build_upd eta_cb nodelay).
#[export] Instance upd_updated : Upd updated := ltac:(build_upd eta_cb updated).
#[export] Instance upd_ts_probe : Upd ts_probe := ltac:(build_upd eta_cb ts_probe).
#[export] Instance upd_probe_wait : Upd probe_wait := ltac:(build_upd eta_cb probe_wait).
#[export] Instance upd_dead_link : Upd dead_link := ltac:(build_upd eta_cb dead_link).
#[export] Instance upd_incr : Upd incr := ltac:(build_upd eta_cb incr).
#[export] Instance upd_snd_queue : Upd snd_queue := ltac:(build_upd eta_cb snd_queue).
#[export] Instance upd_rcv_queue : Upd rcv_queue := ltac:(build_upd eta_cb rcv_queue).
#[export] Instance upd_snd_buf : Upd snd_buf := ltac:(build_upd eta_cb snd_buf).
#[export] Instance upd_rcv_buf : Upd rcv_buf := ltac:(build_upd eta_cb rcv_buf).
#[export] Instance upd_acklist : Upd acklist := ltac:(build_upd eta_cb acklist).
#[export] Instance upd_ackcount : Upd ackcount := ltac:(build_upd eta_cb ackcount).
#[export] Instance upd_ackblock : Upd ackblock := ltac:(build_upd eta_cb ackblock).
#[export] Instance upd_user : Upd user := ltac:(build_upd eta_cb user).
#[export] Instance upd_buffer : Upd buffer := ltac:(build_upd eta_cb buffer).
#[export] Instance upd_fastresend : Upd fastresend := ltac:(build_upd eta_cb fastresend).
#[export] Instance upd_fastlimit : Upd fastlimit := ltac:(build_upd eta_cb fastlimit).
#[export] Instance upd_nocwnd : Upd nocwnd := ltac:(build_upd eta_cb nocwnd).
#[export] Instance upd_stream : Upd stream := ltac:(build_upd eta_cb stream).
#[export] Instance upd_logmask : Upd logmask := ltac:(build_upd eta_cb logmask).
#[export] Instance upd_output : Upd output := ltac:(build_upd eta_cb output).
#[export] Instance upd_writelog : Upd writelog := ltac:(build_upd eta_cb writelog).

(** Computes the fields of updated records. *)
Ltac kcp_simpl :=
  cbn [upd
    seg_conv upd_seg_conv seg_cmd upd_seg_cmd seg_frg upd_seg_frg seg_wnd
    upd_seg_wnd seg_ts upd_seg_ts seg_sn upd_seg_sn seg_una upd_seg_una
    seg_len upd_seg_len seg_resendts upd_seg_resendts seg_rto upd_seg_rto
    seg_fastack upd_seg_fastack seg_xmit upd_seg_xmit seg_data upd_seg_data
    conv upd_conv mtu upd_mtu mss upd_mss state upd_state snd_una
    upd_snd_una snd_nxt upd_snd_nxt rcv_nxt upd_rcv_nxt ts_recent
    upd_ts_recent ts_lastack upd_ts_lastack ssthresh upd_ssthresh rx_rttval
    upd_rx_rttval rx_srtt upd_rx_srtt rx_rto upd_rx_rto rx_minrto
    upd_rx_minrto snd_wnd upd_snd_wnd rcv_wnd upd_rcv_wnd rmt_wnd
    upd_rmt_wnd cwnd upd_cwnd probe upd_probe current upd_current interval
    upd_interval ts_flush upd_ts_flush xmit upd_xmit nrcv_buf upd_nrcv_buf
    nsnd_buf upd_nsnd_buf nrcv_que upd_nrcv_que nsnd_que upd_nsnd_que
    nodelay upd_nodelay updated upd_updated ts_probe upd_ts_probe probe_wait
    upd_probe_wait dead_link upd_dead_link incr upd_incr snd_queue
    upd_snd_queue rcv_queue upd_rcv_queue snd_buf upd_snd_buf rcv_buf
    upd_rcv_buf acklist upd_acklist ackcount upd_ackcount ackblock
    upd_ackblock user upd_user buffer upd_buffer fastresend upd_fastresend
    fastlimit upd_fastlimit nocwnd upd_nocwnd stream upd_stream logmask
    upd_logmask output upd_output writelog upd_writelog] in *.

Ltac kcp_simpl_goal :=
  cbn [upd
    seg_conv upd_seg_conv seg_cmd upd_seg_cmd seg_frg upd_seg_frg seg_wnd
    upd_seg_wnd seg_ts upd_seg_ts seg_sn upd_seg_sn seg_una upd_seg_una
    seg_len upd_seg_len seg_resendts upd_seg_resendts seg_rto upd_seg_rto
    seg_fastack upd_seg_fastack seg_xmit upd_seg_xmit seg_data upd_seg_data
    conv upd_conv mtu upd_mtu mss upd_mss state upd_state snd_una
    upd_snd_una snd_nxt upd_snd_nxt rcv_nxt upd_rcv_nxt ts_recent
    upd_ts_recent ts_lastack upd_ts_lastack ssthresh upd_ssthresh rx_rttval
    upd_rx_rttval rx_srtt upd_rx_srtt rx_rto upd_rx_rto rx_minrto
    upd_rx_minrto snd_wnd upd_snd_wnd rcv_wnd upd_rcv_wnd rmt_wnd
    upd_rmt_wnd cwnd upd_cwnd probe upd_probe current upd_current interval
    upd_interval ts_flush upd_ts_flush xmit upd_xmit nrcv_buf upd_nrcv_buf
    nsnd_buf upd_nsnd_buf nrcv_que upd_nrcv_que nsnd_que upd_nsnd_que
    nodelay upd_nodelay updated upd_updated ts_probe upd_ts_probe probe_wait
    upd_probe_wait dead_link upd_dead_link incr upd_incr snd_queue
    upd_snd_queue rcv_queue upd_rcv_queue snd_buf upd_snd_buf rcv_buf
    upd_rcv_buf acklist upd_acklist ackcount upd_ackcount ackblock
    upd_ackblock user upd_user buffer upd_buffer fastresend upd_fastresend
    fastlimit upd_fastlimit nocwnd upd_nocwnd stream upd_stream logmask
    upd_logmask output upd_output writelog upd_writelog].

(** ** The world *)

(** What the code does outside its own objects. *)
Inductive event : Type :=
  | EOutput (data : list Z)                    (** [kcp->output(data, size, kcp, user)] *)
  | ELog (fmt : string) (args : list Z)        (** [kcp->writelog(...)] *)
  | EPrintf (fmt : string) (args : list Z).    (** [printf] on the standard output *)

(** The world of the library: how many times the allocator was called, how many
    blocks it has handed out and not got back, and the events so far. *)
Record world : Type := mkworld {
  w_allocs : nat;
  w_live : Z;
  w_events : list event;
}.

(** The allocator behind [ikcp_malloc]: the [n]-th call for [size] bytes returns
    NULL or memory with unspecified contents. *)
Class Allocator := malloc : nat -> Z -> option (nat -> Z).

Definition ikcp_malloc {alloc : Allocator} (size : Z) : M world (option (nat -> Z)) :=
  fun w =>
    match malloc (w_allocs w) size with
    | None => Ok None (mkworld (S (w_allocs w)) (w_live w) (w_events w))
    | Some mem => Ok (Some mem) (mkworld (S (w_allocs w)) (w_live w + 1) (w_events w))
    end.

Definition ikcp_free : M world unit :=
  modify (fun w => mkworld (w_allocs w) (w_live w - 1) (w_events w)).

Definition emit (e : event) : M world unit :=
  modify (fun w => mkworld (w_allocs w) (w_live w) (w_events w ++ [e])).

(** [sizeof(IKCPSEG)] and [sizeof(struct IKCPCB)] with 64-bit pointers. *)
Definition sizeof_IKCPSEG : Z := 72.
Definition sizeof_IKCPCB : Z := 272.

(** A fresh segment: its fields hold whatever the memory held. *)
Definition ikcp_segment_new {alloc : Allocator} (size : Z) : M world (option IKCPSEG) :=
  let! p := ikcp_malloc (sizeof_IKCPSEG + size) in
  ret (match p with
       | None => None
       | Some mem =>
         let field i := u32 (mem i) in
         Some (mkseg (field 0%nat) (field 1%nat) (field 2%nat) (field 3%nat) (field 4%nat) (field 5%nat)
                     (field 6%nat) (field 7%nat) (field 8%nat) (field 9%nat) (field 10%nat) (field 11%nat)
                     (map (fun i => u8 (mem (12 + i)%nat)) (seq 0 (Z.to_nat size))))
       end).

Definition ikcp_segment_delete (s : IKCPSEG) : M world unit := ikcp_free.

(** [memcpy] of [n] bytes from a block with contents [src]. *)
Definition memcpy_from (src : list Z) (n : Z) : M world (list Z) :=
  if n <=? Z.of_nat (length src) then ret (take (Z.to_nat n) src) else throw OutOfBounds.

(** [memcpy] of [src] into a block with contents [dst] at offset [off]. *)
Definition memcpy_to (dst : list Z) (off : Z) (src : list Z) : M world (list Z) :=
  if off + Z.of_nat (length src) <=? Z.of_nat (length dst)
  then ret (take (Z.to_nat off) dst ++ src ++ drop (Z.to_nat off + length src) dst)
  else throw OutOfBounds.

(** ** Log and output *)

Definition ikcp_canlog (kcp : ikcpcb) (mask : Z) : bool :=
  if (Z.land mask (logmask kcp) =? 0) || negb (writelog kcp) then false else true.

Definition ikcp_log (kcp : ikcpcb) (mask : Z) (fmt : string) (args : list Z) : M world unit :=
  if (Z.land mask (logmask kcp) =? 0) || negb (writelog kcp) then ret tt
  else emit (ELog fmt args).

(** The recurring [if (ikcp_canlog(kcp, mask)) ikcp_log(kcp, mask, ...)]. *)
Definition log_if (kcp : ikcpcb) (mask : Z) (fmt : string) (args : list Z) : M world unit :=
  if ikcp_canlog kcp mask then ikcp_log kcp mask fmt args else ret tt.

Definition ikcp_output (kcp : ikcpcb) (data : list Z) : M world unit :=
  assert (output kcp);;;
  log_if kcp IKCP_LOG_OUTPUT "[RO] %ld bytes" [Z.of_nat (length data)];;;
  if Z.of_nat (length data) =? 0 then ret tt else emit (EOutput data).

(** ** Unsigned helpers *)
Definition _imin_ (a b : Z) : Z := if a <=? b then a else b.
Definition _imax_ (a b : Z) : Z := if b <=? a then a else b.
Definition _ibound_ (lower middle upper : Z) : Z := _imin_ (_imax_ lower middle) upper.
Definition _itimediff (later earlier : Z) : Z := s32 (later - earlier).
