(* ===== verification/KcpCodec.v ===== *)
(** * ikcp.c: encoding and decoding of integers and of segment headers.

    A write pointer is represented by the bytes written so far, a read pointer by
    the bytes that remain.  Integers are little-endian; the definitions follow
    the byte-by-byte branch of the [#if], which on a little-endian machine is the
    [memcpy] branch. *)
From S2P Require Import Prelude KcpBase.
From stdpp Require Import base list numbers.
Open Scope Z_scope.

Definition ikcp_encode8u (p : list Z) (c : Z) : list Z := p ++ [u8 c].

Definition ikcp_decode8u (p : list Z) : option (Z * list Z) :=
  match p with
  | c :: p' => Some (c, p')
  | _ => None
  end.

Definition ikcp_encode16u (p : list Z) (w : Z) : list Z :=
  p ++ [Z.land w 255; u8 (Z.shiftr w 8)].

Definition ikcp_decode16u (p : list Z) : option (Z * list Z) :=
  match p with
  | p0 :: p1 :: p' =>
    let w := p1 in
    let w := u16 (p0 + Z.shiftl w 8) in
    Some (w, p')
  | _ => None
  end.

Definition ikcp_encode32u (p : list Z) (l : Z) : list Z :=
  p ++ [Z.land (Z.shiftr l 0) 255; Z.land (Z.shiftr l 8) 255;
        Z.land (Z.shiftr l 16) 255; Z.land (Z.shiftr l 24) 255].

Definition ikcp_decode32u (p : list Z) : option (Z * list Z) :=
  match p with
  | p0 :: p1 :: p2 :: p3 :: p' =>
    let l := p3 in
    let l := u32 (p2 + Z.shiftl l 8) in
    let l := u32 (p1 + Z.shiftl l 8) in
    let l := u32 (p0 + Z.shiftl l 8) in
    Some (l, p')
  | _ => None
  end.

(** [ikcp_encode_seg]: the 24-byte header. *)
Definition ikcp_encode_seg (ptr : list Z) (seg : IKCPSEG) : list Z :=
  let ptr := ikcp_encode32u ptr (seg_conv seg) in
  let ptr := ikcp_encode8u ptr (u8 (seg_cmd seg)) in
  let ptr := ikcp_encode8u ptr (u8 (seg_frg seg)) in
  let ptr := ikcp_encode16u ptr (u16 (seg_wnd seg)) in
  let ptr := ikcp_encode32u ptr (seg_ts seg) in
  let ptr := ikcp_encode32u ptr (seg_sn seg) in
  let ptr := ikcp_encode32u ptr (seg_una seg) in
  let ptr := ikcp_encode32u ptr (seg_len seg) in
  ptr.

(** [ikcp_getconv]: the conversation id at the head of a datagram. *)
Definition ikcp_getconv (ptr : list Z) : option Z :=
  match ikcp_decode32u ptr with
  | Some (conv, _) => Some conv
  | None => None
  end.

(** A segment as it is on the wire: header, then data. *)
Definition frame (seg : IKCPSEG) : list Z := ikcp_encode_seg [] seg ++ seg_data seg.
Definition frames (segs : list IKCPSEG) : list Z := concat (map frame segs).

(** ** Round trips *)

Lemma land_255 x : Z.land x 255 = x mod 256.
Proof. apply (Z.land_ones x 8). lia. Qed.

Ltac bytes :=
  rewrite ?land_255, ?Z.shiftr_0_r, ?Z.shiftr_div_pow2, ?Z.shiftl_mul_pow2 by lia;
  change (2 ^ 8) with 256; change (2 ^ 16) with 65536; change (2 ^ 24) with 16777216.

Lemma decode_encode8u c rest : ikcp_decode8u (ikcp_encode8u [] c ++ rest) = Some (u8 c, rest).
Proof. done. Qed.

Lemma decode_encode16u w rest :
  ikcp_decode16u (ikcp_encode16u [] w ++ rest) = Some (u16 w, rest).
Proof. cbn. do 2 f_equal. bytes. mod_lia. Qed.

Lemma decode_encode32u l rest :
  ikcp_decode32u (ikcp_encode32u [] l ++ rest) = Some (u32 l, rest).
Proof.
  cbn [ikcp_encode32u ikcp_decode32u app]. do 2 f_equal. bytes.
  assert (forall a b, u32 (a + u32 b * 256) = u32 (a + b * 256)) as Hw
    by (intros; mod_lia).
  rewrite Hw, (u32_id (_ + _ * 256)) by mod_lia.
  unfold u32. Z.div_mod_to_equations. lia.
Qed.

(** The encoders append to what was written. *)
Lemma ikcp_encode8u_app p c : ikcp_encode8u p c = p ++ ikcp_encode8u [] c.
Proof. done. Qed.
Lemma ikcp_encode16u_app p c : ikcp_encode16u p c = p ++ ikcp_encode16u [] c.
Proof. done. Qed.
Lemma ikcp_encode32u_app p c : ikcp_encode32u p c = p ++ ikcp_encode32u [] c.
Proof. done. Qed.

Lemma ikcp_encode_seg_app p seg : ikcp_encode_seg p seg = p ++ ikcp_encode_seg [] seg.
Proof.
  unfold ikcp_encode_seg, ikcp_encode32u, ikcp_encode16u, ikcp_encode8u.
  by rewrite <- !(assoc_L (++)).
Qed.

Lemma ikcp_encode_seg_length seg : length (ikcp_encode_seg [] seg) = 24%nat.
Proof. done. Qed.

Lemma frame_length seg : length (frame seg) = (24 + length (seg_data seg))%nat.
Proof. unfold frame. by rewrite length_app, ikcp_encode_seg_length. Qed.

Lemma frames_cons seg segs : frames (seg :: segs) = frame seg ++ frames segs.
Proof. done. Qed.

Lemma frames_app segs1 segs2 : frames (segs1 ++ segs2) = frames segs1 ++ frames segs2.
Proof. unfold frames. by rewrite map_app, concat_app. Qed.

(** A header is the concatenation of its fields. *)
Lemma ikcp_encode_seg_split seg rest :
  ikcp_encode_seg [] seg ++ rest =
  ikcp_encode32u [] (seg_conv seg) ++ ikcp_encode8u [] (u8 (seg_cmd seg)) ++
  ikcp_encode8u [] (u8 (seg_frg seg)) ++ ikcp_encode16u [] (u16 (seg_wnd seg)) ++
  ikcp_encode32u [] (seg_ts seg) ++ ikcp_encode32u [] (seg_sn seg) ++
  ikcp_encode32u [] (seg_una seg) ++ ikcp_encode32u [] (seg_len seg) ++ rest.
Proof. done. Qed.

(** The bytes the encoders produce are bytes. *)
Lemma encode_seg_bytes seg : Forall (fun b => 0 <= b < 256) (ikcp_encode_seg [] seg).
Proof.
  cbn. repeat (apply List.Forall_cons; [rewrite ?land_255; mod_lia |]). apply List.Forall_nil.
Qed.
