(* ===== verification/KcpSend.v ===== *)
(** * ikcp.c: life cycle and configuration of a control block, and [ikcp_send]. *)
From S2P Require Import Prelude KcpBase.
From stdpp Require Import base list numbers strings.
Open Scope Z_scope.
Open Scope c_scope.

Section Ops.
Context {alloc : Allocator}.

(** ** Life cycle *)

Definition ikcp_create (conv user : Z) : M world (option ikcpcb) :=
  let! kcp := ikcp_malloc sizeof_IKCPCB in
  match kcp with
  | None => ret None
  | Some _ =>
    let mtu := IKCP_MTU_DEF in
    let mss := u32 (mtu - IKCP_OVERHEAD) in
    let size := u32 ((mtu + IKCP_OVERHEAD) * 3) in
    let! buffer := ikcp_malloc size in
    match buffer with
    | None => ikcp_free;;; ret None
    | Some _ =>
      ret (Some {|
        conv := conv; user := user;
        snd_una := 0; snd_nxt := 0; rcv_nxt := 0;
        ts_recent := 0; ts_lastack := 0; ts_probe := 0; probe_wait := 0;
        snd_wnd := IKCP_WND_SND; rcv_wnd := IKCP_WND_RCV; rmt_wnd := IKCP_WND_RCV;
        cwnd := 0; incr := 0; probe := 0;
        mtu := mtu; mss := mss; stream := 0;
        buffer := Some size;
        snd_queue := []; rcv_queue := []; snd_buf := []; rcv_buf := [];
        nrcv_buf := 0; nsnd_buf := 0; nrcv_que := 0; nsnd_que := 0;
        state := 0;
        acklist := None; ackblock := 0; ackcount := 0;
        rx_srtt := 0; rx_rttval := 0; rx_rto := IKCP_RTO_DEF; rx_minrto := IKCP_RTO_MIN;
        current := 0; interval := IKCP_INTERVAL; ts_flush := IKCP_INTERVAL;
        nodelay := 0; updated := 0; logmask := 0;
        ssthresh := IKCP_THRESH_INIT;
        fastresend := 0; fastlimit := IKCP_FASTACK_LIMIT; nocwnd := 0;
        xmit := 0; dead_link := IKCP_DEADLINK;
        output := false; writelog := false
      |})
    end
  end.

(** [while (!iqueue_is_empty(q)) { iqueue_del(head); ikcp_segment_delete(head); }] *)
Fixpoint ikcp_free_queue (q : list IKCPSEG) : M world unit :=
  match q with
  | [] => ret tt
  | seg :: q' => ikcp_segment_delete seg;;; ikcp_free_queue q'
  end.

Definition ikcp_release (kcp : ikcpcb) : M world unit :=
  ikcp_free_queue (snd_buf kcp);;;
  ikcp_free_queue (rcv_buf kcp);;;
  ikcp_free_queue (snd_queue kcp);;;
  ikcp_free_queue (rcv_queue kcp);;;
  (match buffer kcp with Some _ => ikcp_free | None => ret tt end);;;
  (match acklist kcp with Some _ => ikcp_free | None => ret tt end);;;
  ikcp_free.

(** ** Configuration *)

Definition ikcp_setoutput (kcp : ikcpcb) (cb : bool) : ikcpcb :=
  kcp<|output := cb|>.

Definition ikcp_setmtu (kcp : ikcpcb) (mtu_ : Z) : M world (Z * ikcpcb) :=
  if (mtu_ <? 50) || (mtu_ <? IKCP_OVERHEAD) then ret (-1, kcp)
  else
    let size := u32 (u32 (mtu_ + IKCP_OVERHEAD) * 3) in
    let! p := ikcp_malloc size in
    match p with
    | None => ret (-2, kcp)
    | Some _ =>
      let kcp := kcp<|mtu := u32 mtu_|> in
      let kcp := kcp<|mss := u32 (mtu kcp - IKCP_OVERHEAD)|> in
      ikcp_free;;;
      ret (0, kcp<|buffer := Some size|>)
    end.

(** The clamp on the flush interval. *)
Definition clamp_interval (interval : Z) : Z :=
  if 5000 <? interval then 5000 else if interval <? 10 then 10 else interval.

Definition ikcp_interval (kcp : ikcpcb) (interval_ : Z) : Z * ikcpcb :=
  (0, kcp<|interval := clamp_interval interval_|>).

Definition ikcp_nodelay (kcp : ikcpcb) (nodelay_ interval_ resend nc : Z) : Z * ikcpcb :=
  let kcp :=
    if 0 <=? nodelay_ then
      let kcp := kcp<|nodelay := nodelay_|> in
      if negb (nodelay_ =? 0) then kcp<|rx_minrto := IKCP_RTO_NDL|>
      else kcp<|rx_minrto := IKCP_RTO_MIN|>
    else kcp in
  let kcp :=
    if 0 <=? interval_ then kcp<|interval := clamp_interval interval_|> else kcp in
  let kcp := if 0 <=? resend then kcp<|fastresend := resend|> else kcp in
  let kcp := if 0 <=? nc then kcp<|nocwnd := nc|> else kcp in
  (0, kcp).

Definition ikcp_wndsize (kcp : ikcpcb) (sndwnd rcvwnd : Z) : Z * ikcpcb :=
  let kcp := if 0 <? sndwnd then kcp<|snd_wnd := sndwnd|> else kcp in
  let kcp := if 0 <? rcvwnd then kcp<|rcv_wnd := _imax_ rcvwnd IKCP_WND_RCV|> else kcp in
  (0, kcp).

Definition ikcp_waitsnd (kcp : ikcpcb) : Z := s32 (nsnd_buf kcp + nsnd_que kcp).

(** ** [ikcp_send] *)

(** Stream mode: top up the last queued segment.  Returns the control block, what
    is left of the caller's buffer, and the remaining length. *)
Definition ikcp_send_stream (kcp : ikcpcb) (buffer : option (list Z)) (len : Z)
    : M world (ikcpcb * option (list Z) * Z) :=
  match last (snd_queue kcp) with
  | None => ret (kcp, buffer, len)
  | Some old =>
    if seg_len old <? mss kcp then
      let capacity := s32 (mss kcp - seg_len old) in
      let extend := if len <? capacity then len else capacity in
      let! seg := ikcp_segment_new (s32 (seg_len old + extend)) in
      match seg with
      | None => throw AssertFailed
      | Some seg =>
        let! d := memcpy_from (seg_data old) (seg_len old) in
        let! data := memcpy_to (seg_data seg) 0 d in
        let! ' (data, buffer) :=
          match buffer with
          | Some b =>
            let! d := memcpy_from b extend in
            let! data := memcpy_to data (seg_len old) d in
            ret (data, Some (drop (Z.to_nat extend) b))
          | None => ret (data, None)
          end in
        let seg := seg<|seg_data := data|><|seg_len := u32 (seg_len old + extend)|><|seg_frg := 0|> in
        ikcp_segment_delete old;;;
        ret (kcp<|snd_queue := removelast (snd_queue kcp) ++ [seg]|>, buffer, s32 (len - extend))
      end
    else ret (kcp, buffer, len)
  end.

(** The number of fragments. *)
Definition ikcp_send_count (kcp : ikcpcb) (len : Z) : Z :=
  if len <=? s32 (mss kcp) then 1
  else s32 (u32 (u32 (len + mss kcp) - 1) / mss kcp).

(** The fragment loop, for the [n] fragments from index [i] on. *)
Fixpoint ikcp_send_loop (n : nat) (count i : Z) (kcp : ikcpcb)
    (buffer : option (list Z)) (len : Z) : M world (Z * ikcpcb) :=
  match n with
  | O => ret (0, kcp)
  | S n' =>
    let size := if s32 (mss kcp) <? len then s32 (mss kcp) else len in
    let! seg := ikcp_segment_new size in
    match seg with
    | None => throw AssertFailed
    | Some seg =>
      let! data :=
        match buffer with
        | Some b =>
          if 0 <? len then
            let! d := memcpy_from b size in
            memcpy_to (seg_data seg) 0 d
          else ret (seg_data seg)
        | None => ret (seg_data seg)
        end in
      let seg := seg<|seg_data := data|><|seg_len := u32 size|>
                    <|seg_frg := if stream kcp =? 0 then u32 (count - i - 1) else 0|> in
      let kcp := kcp<|snd_queue := snd_queue kcp ++ [seg]|><|nsnd_que := u32 (nsnd_que kcp + 1)|> in
      let buffer := option_map (drop (Z.to_nat size)) buffer in
      ikcp_send_loop n' count (i + 1) kcp buffer (s32 (len - size))
    end
  end.

Definition ikcp_send (kcp : ikcpcb) (buffer : option (list Z)) (len : Z) : M world (Z * ikcpcb) :=
  assert (0 <? mss kcp);;;
  if len <? 0 then ret (-1, kcp)
  else
    let! ' (kcp, buffer, len) :=
      if negb (stream kcp =? 0) then ikcp_send_stream kcp buffer len
      else ret (kcp, buffer, len) in
    if negb (stream kcp =? 0) && (len <=? 0) then ret (0, kcp)
    else
      let count := ikcp_send_count kcp len in
      if IKCP_WND_RCV <=? count then ret (-2, kcp)
      else
        let count := if count =? 0 then 1 else count in
        ikcp_send_loop (Z.to_nat count) count 0 kcp buffer len.

End Ops.
