(* ===== verification/KcpRecv.v ===== *)
(** * ikcp.c: [ikcp_peeksize], [ikcp_recv], and the receive side of [ikcp_input]:
    [ikcp_parse_data] and the transfer from [rcv_buf] to [rcv_queue]. *)
From S2P Require Import Prelude KcpBase.
From stdpp Require Import base list numbers strings.
Open Scope Z_scope.
Open Scope c_scope.

(** ** [ikcp_peeksize] *)

(** The loop: add lengths up to and including the segment with [frg == 0]. *)
Fixpoint ikcp_peek_sum (p : list IKCPSEG) (length : Z) : Z :=
  match p with
  | [] => length
  | seg :: p' =>
    let length := s32 (length + seg_len seg) in
    if seg_frg seg =? 0 then length else ikcp_peek_sum p' length
  end.

Definition ikcp_peeksize (kcp : ikcpcb) : Z :=
  match rcv_queue kcp with
  | [] => -1
  | seg :: _ =>
    if seg_frg seg =? 0 then s32 (seg_len seg)
    else if nrcv_que kcp <? u32 (seg_frg seg + 1) then -1
    else ikcp_peek_sum (rcv_queue kcp) 0
  end.

(** ** Moving available data from [rcv_buf] to [rcv_queue] *)

(** The loop that [ikcp_recv] and [ikcp_parse_data] share; [l] is what is left of
    [rcv_buf]. *)
Fixpoint ikcp_move_loop (l : list IKCPSEG) (kcp : ikcpcb) : ikcpcb :=
  match l with
  | [] => kcp
  | seg :: l' =>
    if (seg_sn seg =? rcv_nxt kcp) && (nrcv_que kcp <? rcv_wnd kcp) then
      ikcp_move_loop l'
        kcp<|rcv_buf := l'|><|nrcv_buf := u32 (nrcv_buf kcp - 1)|>
           <|rcv_queue := rcv_queue kcp ++ [seg]|><|nrcv_que := u32 (nrcv_que kcp + 1)|>
           <|rcv_nxt := u32 (rcv_nxt kcp + 1)|>
    else kcp
  end.

Definition ikcp_move (kcp : ikcpcb) : ikcpcb := ikcp_move_loop (rcv_buf kcp) kcp.

(** ** [ikcp_recv] *)

(** The merge loop.  [buffer] is the caller's block, [off] how far the pointer into
    it has advanced, [len] the bytes counted so far. *)
Fixpoint ikcp_recv_merge (ispeek : bool) (p : list IKCPSEG) (kcp : ikcpcb)
    (buffer : option (list Z)) (off len : Z) : M world (ikcpcb * option (list Z) * Z) :=
  match p with
  | [] => ret (kcp, buffer, len)
  | seg :: p' =>
    let! ' (buffer, off) :=
      match buffer with
      | Some b =>
        let! d := memcpy_from (seg_data seg) (seg_len seg) in
        let! b := memcpy_to b off d in
        ret (Some b, off + seg_len seg)
      | None => ret (None, off)
      end in
    let len := s32 (len + seg_len seg) in
    let fragment := seg_frg seg in
    log_if kcp IKCP_LOG_RECV "recv sn=%lu" [seg_sn seg];;;
    let! kcp :=
      if ispeek then ret kcp
      else
        ikcp_segment_delete seg;;;
        ret kcp<|rcv_queue := p'|><|nrcv_que := u32 (nrcv_que kcp - 1)|> in
    if fragment =? 0 then ret (kcp, buffer, len)
    else ikcp_recv_merge ispeek p' kcp buffer off len
  end.

(** [ikcp_recv]: the return value, the control block and the caller's block. *)
Definition ikcp_recv (kcp : ikcpcb) (buffer : option (list Z)) (len : Z)
    : M world (Z * ikcpcb * option (list Z)) :=
  let ispeek := len <? 0 in
  match rcv_queue kcp with
  | [] => ret (-1, kcp, buffer)
  | _ :: _ =>
    let len := if len <? 0 then s32 (- len) else len in
    let peeksize := ikcp_peeksize kcp in
    if peeksize <? 0 then ret (-2, kcp, buffer)
    else if len <? peeksize then ret (-3, kcp, buffer)
    else
      let recover := rcv_wnd kcp <=? nrcv_que kcp in
      let! ' (kcp, buffer, len) := ikcp_recv_merge ispeek (rcv_queue kcp) kcp buffer 0 0 in
      assert (len =? peeksize);;;
      let kcp := ikcp_move kcp in
      let kcp :=
        if (nrcv_que kcp <? rcv_wnd kcp) && recover
        then kcp<|probe := Z.lor (probe kcp) IKCP_ASK_TELL|> else kcp in
      ret (len, kcp, buffer)
  end.

(** ** [ikcp_parse_data] *)

(** The backward scan for the place of a segment, on [rcv_buf] read from its tail.
    [None]: a segment with this number is there ([repeat]). *)
Fixpoint ikcp_insert_rev (newseg : IKCPSEG) (rev_buf : list IKCPSEG) : option (list IKCPSEG) :=
  match rev_buf with
  | [] => Some [newseg]
  | seg :: prev =>
    if seg_sn seg =? seg_sn newseg then None
    else if 0 <? _itimediff (seg_sn newseg) (seg_sn seg) then Some (newseg :: rev_buf)
    else option_map (cons seg) (ikcp_insert_rev newseg prev)
  end.

Definition ikcp_parse_data (kcp : ikcpcb) (newseg : IKCPSEG) : M world ikcpcb :=
  let sn := seg_sn newseg in
  if (0 <=? _itimediff sn (u32 (rcv_nxt kcp + rcv_wnd kcp))) || (_itimediff sn (rcv_nxt kcp) <? 0)
  then ikcp_segment_delete newseg;;; ret kcp
  else
    let! kcp :=
      match ikcp_insert_rev newseg (rev (rcv_buf kcp)) with
      | Some rev_buf => ret kcp<|rcv_buf := rev rev_buf|><|nrcv_buf := u32 (nrcv_buf kcp + 1)|>
      | None => ikcp_segment_delete newseg;;; ret kcp
      end in
    ret (ikcp_move kcp).
