(* ===== verification/KcpInput.v ===== *)
(** * ikcp.c: acknowledgement processing, the ack list, and [ikcp_input]. *)
From S2P Require Import Prelude KcpBase KcpCodec KcpRecv.
From stdpp Require Import base list numbers strings.
Open Scope Z_scope.
Open Scope c_scope.

(** ** Round-trip time and retransmission timeout *)

(** [ikcp_update_ack].  [int] arithmetic wraps, which is what the compiled code
    does; KcpAckProps.v shows for which times it never does. *)
Definition ikcp_update_ack (kcp : ikcpcb) (rtt : Z) : ikcpcb :=
  let kcp :=
    if rx_srtt kcp =? 0 then kcp<|rx_srtt := rtt|><|rx_rttval := Z.quot rtt 2|>
    else
      let delta := s32 (rtt - rx_srtt kcp) in
      let delta := if delta <? 0 then - delta else delta in
      let kcp := kcp<|rx_rttval := s32 (Z.quot (s32 (3 * rx_rttval kcp) + delta) 4)|> in
      let kcp := kcp<|rx_srtt := Z.quot (s32 (s32 (7 * rx_srtt kcp) + rtt)) 8|> in
      if rx_srtt kcp <? 1 then kcp<|rx_srtt := 1|> else kcp in
  let rto := s32 (u32 (rx_srtt kcp) + _imax_ (interval kcp) (u32 (s32 (4 * rx_rttval kcp)))) in
  kcp<|rx_rto := s32 (_ibound_ (u32 (rx_minrto kcp)) (u32 rto) IKCP_RTO_MAX)|>.

(** ** The send buffer *)

Definition ikcp_shrink_buf (kcp : ikcpcb) : ikcpcb :=
  match snd_buf kcp with
  | seg :: _ => kcp<|snd_una := seg_sn seg|>
  | [] => kcp<|snd_una := snd_nxt kcp|>
  end.

(** The number is not one of a segment in flight. *)
Definition sn_out_of_flight (kcp : ikcpcb) (sn : Z) : bool :=
  (_itimediff sn (snd_una kcp) <? 0) || (0 <=? _itimediff sn (snd_nxt kcp)).

(** The loop of [ikcp_parse_ack]: what is left of the list, and the segment taken out. *)
Fixpoint ikcp_parse_ack_loop (sn : Z) (p : list IKCPSEG) : list IKCPSEG * option IKCPSEG :=
  match p with
  | [] => ([], None)
  | seg :: next =>
    if sn =? seg_sn seg then (next, Some seg)
    else if _itimediff sn (seg_sn seg) <? 0 then (p, None)
    else let (next', o) := ikcp_parse_ack_loop sn next in (seg :: next', o)
  end.

Definition ikcp_parse_ack (kcp : ikcpcb) (sn : Z) : M world ikcpcb :=
  if sn_out_of_flight kcp sn then ret kcp
  else
    let (l, o) := ikcp_parse_ack_loop sn (snd_buf kcp) in
    match o with
    | Some seg =>
      ikcp_segment_delete seg;;;
      ret kcp<|snd_buf := l|><|nsnd_buf := u32 (nsnd_buf kcp - 1)|>
    | None => ret kcp
    end.

(** The loop of [ikcp_parse_una]; [p] is the current [snd_buf]. *)
Fixpoint ikcp_parse_una_loop (una : Z) (p : list IKCPSEG) (kcp : ikcpcb) : M world ikcpcb :=
  match p with
  | [] => ret kcp
  | seg :: next =>
    if 0 <? _itimediff una (seg_sn seg) then
      ikcp_segment_delete seg;;;
      ikcp_parse_una_loop una next kcp<|snd_buf := next|><|nsnd_buf := u32 (nsnd_buf kcp - 1)|>
    else ret kcp
  end.

Definition ikcp_parse_una (kcp : ikcpcb) (una : Z) : M world ikcpcb :=
  ikcp_parse_una_loop una (snd_buf kcp) kcp.

(** The loop of [ikcp_parse_fastack] ([IKCP_FASTACK_CONSERVE] is not defined, so
    the time stamp is not looked at). *)
Fixpoint ikcp_fastack_loop (sn : Z) (p : list IKCPSEG) : list IKCPSEG :=
  match p with
  | [] => []
  | seg :: next =>
    if _itimediff sn (seg_sn seg) <? 0 then p
    else if negb (sn =? seg_sn seg)
      then seg<|seg_fastack := u32 (seg_fastack seg + 1)|> :: ikcp_fastack_loop sn next
      else seg :: ikcp_fastack_loop sn next
  end.

Definition ikcp_parse_fastack (kcp : ikcpcb) (sn ts : Z) : ikcpcb :=
  if sn_out_of_flight kcp sn then kcp
  else kcp<|snd_buf := ikcp_fastack_loop sn (snd_buf kcp)|>.

(** ** The ack list *)

(** [for (newblock = 8; newblock < newsize; newblock <<= 1);] with fuel. *)
Fixpoint ack_newblock (fuel : nat) (newblock newsize : Z) : option Z :=
  if newblock <? newsize then
    match fuel with
    | O => None
    | S fuel => ack_newblock fuel (u32 (Z.shiftl newblock 1)) newsize
    end
  else Some newblock.

(** Stores [v] in cell [i] of the ack list. *)
Definition acklist_set (l : list (option Z)) (i : Z) (v : Z) : M world (list (option Z)) :=
  if (0 <=? i) && (i <? Z.of_nat (length l)) then ret (<[Z.to_nat i := Some v]> l)
  else throw OutOfBounds.

(** The copy loop of a reallocation: the first [n] cells. *)
Definition acklist_copy (old : list (option Z)) (n : Z) (new : list (option Z))
    : M world (list (option Z)) :=
  if (n <=? Z.of_nat (length old)) && (n <=? Z.of_nat (length new))
  then ret (take (Z.to_nat n) old ++ drop (Z.to_nat n) new)
  else throw OutOfBounds.

Section Ops.
Context {alloc : Allocator}.

Definition ikcp_ack_push (kcp : ikcpcb) (sn ts : Z) : M world ikcpcb :=
  let newsize := u32 (ackcount kcp + 1) in
  let! kcp :=
    if ackblock kcp <? newsize then
      let! newblock := of_option OutOfFuel (ack_newblock 32 8 newsize) in
      let! p := ikcp_malloc (newblock * 4 * 2) in
      match p with
      | None => throw AssertFailed
      | Some _ =>
        let fresh := replicate (Z.to_nat (newblock * 2)) None in
        let! l :=
          match acklist kcp with
          | Some old =>
            let! l := acklist_copy old (ackcount kcp * 2) fresh in
            ikcp_free;;; ret l
          | None => ret fresh
          end in
        ret kcp<|acklist := Some l|><|ackblock := newblock|>
      end
    else ret kcp in
  match acklist kcp with
  | None => throw NullDeref
  | Some l =>
    let! l := acklist_set l (ackcount kcp * 2 + 0) sn in
    let! l := acklist_set l (ackcount kcp * 2 + 1) ts in
    ret kcp<|acklist := Some l|><|ackcount := u32 (ackcount kcp + 1)|>
  end.

(** One read of the ack list. *)
Definition acklist_get (kcp : ikcpcb) (i : Z) : M world Z :=
  match acklist kcp with
  | None => throw NullDeref
  | Some l =>
    if i <? 0 then throw OutOfBounds
    else
      match l !! Z.to_nat i with
      | None => throw OutOfBounds
      | Some None => throw Uninitialised
      | Some (Some v) => ret v
      end
  end.

Definition ikcp_ack_get (kcp : ikcpcb) (p : Z) : M world (Z * Z) :=
  let! sn := acklist_get kcp (p * 2 + 0) in
  let! ts := acklist_get kcp (p * 2 + 1) in
  ret (sn, ts).

(** ** [ikcp_input] *)

(** How the loop ends: the function returns, or the loop is left. *)
Inductive input_end : Type :=
  | IReturn (code : Z) (kcp : ikcpcb)
  | IBreak (kcp : ikcpcb) (flag maxack latest_ts : Z).

(** The header of a segment, as the loop decodes it after [conv]. *)
Record header : Type := mkheader {
  h_cmd : Z; h_frg : Z; h_wnd : Z; h_ts : Z; h_sn : Z; h_una : Z; h_len : Z
}.

Definition decode_header (data : list Z) : option (header * list Z) :=
  match ikcp_decode8u data with None => None | Some (cmd, data) =>
  match ikcp_decode8u data with None => None | Some (frg, data) =>
  match ikcp_decode16u data with None => None | Some (wnd, data) =>
  match ikcp_decode32u data with None => None | Some (ts, data) =>
  match ikcp_decode32u data with None => None | Some (sn, data) =>
  match ikcp_decode32u data with None => None | Some (una, data) =>
  match ikcp_decode32u data with None => None | Some (len, data) =>
  Some (mkheader cmd frg wnd ts sn una len, data)
  end end end end end end end.

(** [IKCP_CMD_PUSH]: acknowledge, and take the data when it is in the window. *)
Definition ikcp_input_push (kcp : ikcpcb) (h : header) (data : list Z) : M world ikcpcb :=
  log_if kcp IKCP_LOG_IN_DATA "input psh: sn=%lu ts=%lu" [h_sn h; h_ts h];;;
  if _itimediff (h_sn h) (u32 (rcv_nxt kcp + rcv_wnd kcp)) <? 0 then
    let! kcp := ikcp_ack_push kcp (h_sn h) (h_ts h) in
    if 0 <=? _itimediff (h_sn h) (rcv_nxt kcp) then
      let! seg := ikcp_segment_new (h_len h) in
      match seg with
      | None => throw NullDeref
      | Some seg =>
        let seg := seg<|seg_conv := conv kcp|><|seg_cmd := h_cmd h|><|seg_frg := h_frg h|>
                      <|seg_wnd := h_wnd h|><|seg_ts := h_ts h|><|seg_sn := h_sn h|>
                      <|seg_una := h_una h|><|seg_len := h_len h|> in
        let! payload :=
          if 0 <? h_len h then
            let! d := memcpy_from data (h_len h) in
            memcpy_to (seg_data seg) 0 d
          else ret (seg_data seg) in
        ikcp_parse_data kcp seg<|seg_data := payload|>
      end
    else ret kcp
  else ret kcp.

(** [IKCP_CMD_ACK] up to the bookkeeping of [maxack]. *)
Definition ikcp_input_ack (kcp : ikcpcb) (h : header) : M world ikcpcb :=
  let kcp :=
    if 0 <=? _itimediff (current kcp) (h_ts h)
    then ikcp_update_ack kcp (_itimediff (current kcp) (h_ts h)) else kcp in
  let! kcp := ikcp_parse_ack kcp (h_sn h) in
  ret (ikcp_shrink_buf kcp).

(** The loop body after the header: one segment. *)
Definition ikcp_input_seg (kcp : ikcpcb) (h : header) (data : list Z) (flag maxack latest_ts : Z)
    : M world (ikcpcb * Z * Z * Z) :=
  let kcp := kcp<|rmt_wnd := h_wnd h|> in
  let! kcp := ikcp_parse_una kcp (h_una h) in
  let kcp := ikcp_shrink_buf kcp in
  if h_cmd h =? IKCP_CMD_ACK then
    let! kcp := ikcp_input_ack kcp h in
    let ' (flag, maxack, latest_ts) :=
      if flag =? 0 then (1, h_sn h, h_ts h)
      else if 0 <? _itimediff (h_sn h) maxack then (flag, h_sn h, h_ts h)
      else (flag, maxack, latest_ts) in
    log_if kcp IKCP_LOG_IN_ACK "input ack: sn=%lu rtt=%ld rto=%ld"
      [h_sn h; _itimediff (current kcp) (h_ts h); rx_rto kcp];;;
    ret (kcp, flag, maxack, latest_ts)
  else if h_cmd h =? IKCP_CMD_PUSH then
    let! kcp := ikcp_input_push kcp h data in
    ret (kcp, flag, maxack, latest_ts)
  else if h_cmd h =? IKCP_CMD_WASK then
    let kcp := kcp<|probe := Z.lor (probe kcp) IKCP_ASK_TELL|> in
    log_if kcp IKCP_LOG_IN_PROBE "input probe" [];;;
    ret (kcp, flag, maxack, latest_ts)
  else
    log_if kcp IKCP_LOG_IN_WINS "input wins: %lu" [h_wnd h];;;
    ret (kcp, flag, maxack, latest_ts).

(** The guard on the command byte. *)
Definition known_cmd (cmd : Z) : bool :=
  (cmd =? IKCP_CMD_PUSH) || (cmd =? IKCP_CMD_ACK) || (cmd =? IKCP_CMD_WASK) || (cmd =? IKCP_CMD_WINS).

(** The loop.  Every round takes at least 24 from [size], so a fuel above
    [size / 24] is enough ([ikcp_input] gives [size]). *)
Fixpoint ikcp_input_loop (fuel : nat) (kcp : ikcpcb) (data : list Z) (size flag maxack latest_ts : Z)
    : M world input_end :=
  match fuel with
  | O => throw OutOfFuel
  | S fuel =>
    if size <? IKCP_OVERHEAD then ret (IBreak kcp flag maxack latest_ts)
    else
      let! ' (conv_, data) := of_option OutOfBounds (ikcp_decode32u data) in
      if negb (conv_ =? conv kcp) then ret (IReturn (-1) kcp)
      else
        let! ' (h, data) := of_option OutOfBounds (decode_header data) in
        let size := size - IKCP_OVERHEAD in
        if (size <? h_len h) || (s32 (h_len h) <? 0) then ret (IReturn (-2) kcp)
        else if negb (known_cmd (h_cmd h)) then ret (IReturn (-3) kcp)
        else
          let! ' (kcp, flag, maxack, latest_ts) := ikcp_input_seg kcp h data flag maxack latest_ts in
          ikcp_input_loop fuel kcp (drop (Z.to_nat (h_len h)) data) (size - h_len h)
            flag maxack latest_ts
  end.

(** The congestion window after an acknowledgement that advanced [snd_una]. *)
Definition ikcp_input_cwnd (kcp : ikcpcb) (prev_una : Z) : ikcpcb :=
  if 0 <? _itimediff (snd_una kcp) prev_una then
    if cwnd kcp <? rmt_wnd kcp then
      let mss_ := mss kcp in
      let kcp :=
        if cwnd kcp <? ssthresh kcp then
          kcp<|cwnd := u32 (cwnd kcp + 1)|><|incr := u32 (incr kcp + mss_)|>
        else
          let kcp := if incr kcp <? mss_ then kcp<|incr := mss_|> else kcp in
          let kcp := kcp<|incr := u32 (incr kcp + u32 (u32 (mss_ * mss_) / incr kcp + mss_ / 16))|> in
          if u32 (u32 (cwnd kcp + 1) * mss_) <=? incr kcp
          then kcp<|cwnd := u32 (u32 (incr kcp + mss_) - 1) / (if 0 <? mss_ then mss_ else 1)|>
          else kcp in
      if rmt_wnd kcp <? cwnd kcp then
        kcp<|cwnd := rmt_wnd kcp|><|incr := u32 (rmt_wnd kcp * mss_)|>
      else kcp
    else kcp
  else kcp.

Definition ikcp_input (kcp : ikcpcb) (data : option (list Z)) (size : Z) : M world (Z * ikcpcb) :=
  let prev_una := snd_una kcp in
  log_if kcp IKCP_LOG_INPUT "[RI] %d bytes" [s32 size];;;
  match data with
  | Some d =>
    if s32 size <? IKCP_OVERHEAD then
      emit (EPrintf "%s conv:%u, data:%p, size:%ld" [conv kcp; size]);;; ret (-1, kcp)
    else
      let! r := ikcp_input_loop (Z.to_nat size + 1) kcp d size 0 0 0 in
      match r with
      | IReturn code kcp => ret (code, kcp)
      | IBreak kcp flag maxack latest_ts =>
        let kcp := if negb (flag =? 0) then ikcp_parse_fastack kcp maxack latest_ts else kcp in
        ret (0, ikcp_input_cwnd kcp prev_una)
      end
  | None =>
    emit (EPrintf "%s conv:%u, data:%p, size:%ld" [conv kcp; size]);;; ret (-1, kcp)
  end.

End Ops.
