(* ===== verification/KcpFlush.v ===== *)
(** * ikcp.c: [ikcp_flush], [ikcp_update], [ikcp_check].

    [ikcp_flush] is one function in the source; its stages are definitions here,
    composed in the order of the source. *)
From S2P Require Import Prelude KcpBase KcpCodec KcpInput.
From stdpp Require Import base list numbers strings.
Open Scope Z_scope.
Open Scope c_scope.

Definition ikcp_wnd_unused (kcp : ikcpcb) : Z :=
  if nrcv_que kcp <? rcv_wnd kcp then s32 (u32 (rcv_wnd kcp - nrcv_que kcp)) else 0.

(** [ptr = buffer] after an [ikcp_output] when [need] more bytes would pass the MTU. *)
Definition flush_room (kcp : ikcpcb) (ptr : list Z) (need : Z) : M world (list Z) :=
  if s32 (mtu kcp) <? s32 (Z.of_nat (length ptr) + need)
  then ikcp_output kcp ptr;;; ret []
  else ret ptr.

(** The bytes written so far must lie in the block [kcp->buffer]. *)
Definition flush_put (kcp : ikcpcb) (ptr : list Z) : M world (list Z) :=
  match buffer kcp with
  | None => throw NullDeref
  | Some cap => if Z.of_nat (length ptr) <=? cap then ret ptr else throw OutOfBounds
  end.

(** ** Acknowledgements *)

(** [n] iterations from index [i]; the local [seg] keeps the last [sn] and [ts]. *)
Fixpoint flush_acks (n : nat) (i : Z) (kcp : ikcpcb) (seg : IKCPSEG) (ptr : list Z)
    : M world (IKCPSEG * list Z) :=
  match n with
  | O => ret (seg, ptr)
  | S n' =>
    let! ptr := flush_room kcp ptr IKCP_OVERHEAD in
    let! ' (sn, ts) := ikcp_ack_get kcp i in
    let seg := seg<|seg_sn := sn|><|seg_ts := ts|> in
    let! ptr := flush_put kcp (ikcp_encode_seg ptr seg) in
    flush_acks n' (i + 1) kcp seg ptr
  end.

(** ** Window probes *)

Definition flush_probe_timer (kcp : ikcpcb) : ikcpcb :=
  if rmt_wnd kcp =? 0 then
    if probe_wait kcp =? 0 then
      let kcp := kcp<|probe_wait := IKCP_PROBE_INIT|> in
      kcp<|ts_probe := u32 (current kcp + probe_wait kcp)|>
    else if 0 <=? _itimediff (current kcp) (ts_probe kcp) then
      let kcp := if probe_wait kcp <? IKCP_PROBE_INIT then kcp<|probe_wait := IKCP_PROBE_INIT|> else kcp in
      let kcp := kcp<|probe_wait := u32 (probe_wait kcp + probe_wait kcp / 2)|> in
      let kcp := if IKCP_PROBE_LIMIT <? probe_wait kcp then kcp<|probe_wait := IKCP_PROBE_LIMIT|> else kcp in
      let kcp := kcp<|ts_probe := u32 (current kcp + probe_wait kcp)|> in
      kcp<|probe := Z.lor (probe kcp) IKCP_ASK_SEND|>
    else kcp
  else kcp<|ts_probe := 0|><|probe_wait := 0|>.

(** One of the two probing commands. *)
Definition flush_probe (bit cmd : Z) (kcp : ikcpcb) (seg : IKCPSEG) (ptr : list Z)
    : M world (IKCPSEG * list Z) :=
  if negb (Z.land (probe kcp) bit =? 0) then
    let seg := seg<|seg_cmd := cmd|> in
    let! ptr := flush_room kcp ptr IKCP_OVERHEAD in
    let! ptr := flush_put kcp (ikcp_encode_seg ptr seg) in
    ret (seg, ptr)
  else ret (seg, ptr).

(** ** From [snd_queue] to [snd_buf] *)

Definition flush_window (kcp : ikcpcb) : Z :=
  let cwnd_ := _imin_ (snd_wnd kcp) (rmt_wnd kcp) in
  if nocwnd kcp =? 0 then _imin_ (cwnd kcp) cwnd_ else cwnd_.

(** The loop; [l] is the current [snd_queue]. *)
Fixpoint flush_move (l : list IKCPSEG) (cwnd_ wnd current_ : Z) (kcp : ikcpcb) : ikcpcb :=
  match l with
  | [] => kcp
  | newseg :: l' =>
    if _itimediff (snd_nxt kcp) (u32 (snd_una kcp + cwnd_)) <? 0 then
      let newseg := newseg<|seg_conv := conv kcp|><|seg_cmd := IKCP_CMD_PUSH|><|seg_wnd := wnd|>
                          <|seg_ts := current_|><|seg_sn := snd_nxt kcp|><|seg_una := rcv_nxt kcp|>
                          <|seg_resendts := current_|><|seg_rto := u32 (rx_rto kcp)|>
                          <|seg_fastack := 0|><|seg_xmit := 0|> in
      flush_move l' cwnd_ wnd current_
        kcp<|snd_queue := l'|><|snd_buf := snd_buf kcp ++ [newseg]|>
           <|nsnd_que := u32 (nsnd_que kcp - 1)|><|nsnd_buf := u32 (nsnd_buf kcp + 1)|>
           <|snd_nxt := u32 (snd_nxt kcp + 1)|>
    else kcp
  end.

(** ** Data segments *)

(** Why a segment of [snd_buf] is sent, if it is. *)
Inductive sending : Type := NotSent | FirstSent | TimedOut | FastResent.

Definition flush_decide (kcp : ikcpcb) (current_ resent : Z) (segment : IKCPSEG) : sending :=
  if seg_xmit segment =? 0 then FirstSent
  else if 0 <=? _itimediff current_ (seg_resendts segment) then TimedOut
  else if resent <=? seg_fastack segment then
    if (s32 (seg_xmit segment) <=? fastlimit kcp) || (fastlimit kcp <=? 0) then FastResent else NotSent
  else NotSent.

(** The retransmission state of the segment, for each case. *)
Definition flush_rearm (kcp : ikcpcb) (current_ rtomin : Z) (why : sending) (segment : IKCPSEG) : IKCPSEG :=
  match why with
  | NotSent => segment
  | FirstSent =>
    let segment := segment<|seg_xmit := u32 (seg_xmit segment + 1)|><|seg_rto := u32 (rx_rto kcp)|> in
    segment<|seg_resendts := u32 (u32 (current_ + seg_rto segment) + rtomin)|>
  | TimedOut =>
    let segment := segment<|seg_xmit := u32 (seg_xmit segment + 1)|> in
    let segment :=
      if nodelay kcp =? 0
      then segment<|seg_rto := u32 (seg_rto segment + _imax_ (seg_rto segment) (u32 (rx_rto kcp)))|>
      else
        let step := if nodelay kcp <? 2 then s32 (seg_rto segment) else rx_rto kcp in
        segment<|seg_rto := u32 (seg_rto segment + Z.quot step 2)|> in
    segment<|seg_resendts := u32 (current_ + seg_rto segment)|>
  | FastResent =>
    let segment := segment<|seg_xmit := u32 (seg_xmit segment + 1)|><|seg_fastack := 0|> in
    segment<|seg_resendts := u32 (current_ + seg_rto segment)|>
  end.

(** Writing one segment: header and data. *)
Definition flush_write (kcp : ikcpcb) (ptr : list Z) (segment : IKCPSEG) : M world (list Z) :=
  let need := s32 (u32 (IKCP_OVERHEAD + seg_len segment)) in
  let! ptr := flush_room kcp ptr need in
  let! ptr := flush_put kcp (ikcp_encode_seg ptr segment) in
  if 0 <? seg_len segment then
    let! d := memcpy_from (seg_data segment) (seg_len segment) in
    flush_put kcp (ptr ++ d)
  else ret ptr.

(** The loop over [snd_buf]; [done] are the segments already passed. *)
Fixpoint flush_data (p done : list IKCPSEG) (current_ resent rtomin wnd : Z) (kcp : ikcpcb)
    (ptr : list Z) (change lost : Z) : M world (ikcpcb * list Z * Z * Z) :=
  match p with
  | [] => ret (kcp<|snd_buf := done|>, ptr, change, lost)
  | segment :: p' =>
    let why := flush_decide kcp current_ resent segment in
    let segment := flush_rearm kcp current_ rtomin why segment in
    let kcp := match why with TimedOut => kcp<|xmit := u32 (xmit kcp + 1)|> | _ => kcp end in
    let lost := match why with TimedOut => 1 | _ => lost end in
    let change := match why with FastResent => change + 1 | _ => change end in
    match why with
    | NotSent => flush_data p' (done ++ [segment]) current_ resent rtomin wnd kcp ptr change lost
    | _ =>
      let segment := segment<|seg_ts := current_|><|seg_wnd := wnd|><|seg_una := rcv_nxt kcp|> in
      let! ptr := flush_write kcp ptr segment in
      let kcp := if dead_link kcp <=? seg_xmit segment then kcp<|state := u32 (-1)|> else kcp in
      flush_data p' (done ++ [segment]) current_ resent rtomin wnd kcp ptr change lost
    end
  end.

(** ** Congestion control after the sends *)

Definition flush_cwnd (kcp : ikcpcb) (resent cwnd_ change lost : Z) : ikcpcb :=
  let kcp :=
    if negb (change =? 0) then
      let inflight := u32 (snd_nxt kcp - snd_una kcp) in
      let kcp := kcp<|ssthresh := inflight / 2|> in
      let kcp := if ssthresh kcp <? IKCP_THRESH_MIN then kcp<|ssthresh := IKCP_THRESH_MIN|> else kcp in
      let kcp := kcp<|cwnd := u32 (ssthresh kcp + resent)|> in
      kcp<|incr := u32 (cwnd kcp * mss kcp)|>
    else kcp in
  let kcp :=
    if negb (lost =? 0) then
      let kcp := kcp<|ssthresh := cwnd_ / 2|> in
      let kcp := if ssthresh kcp <? IKCP_THRESH_MIN then kcp<|ssthresh := IKCP_THRESH_MIN|> else kcp in
      kcp<|cwnd := 1|><|incr := mss kcp|>
    else kcp in
  if cwnd kcp <? 1 then kcp<|cwnd := 1|><|incr := mss kcp|> else kcp.

(** ** [ikcp_flush] *)

(** The segment on the stack that carries acknowledgements and probes. *)
Definition flush_template (kcp : ikcpcb) : IKCPSEG :=
  {| seg_conv := conv kcp; seg_cmd := IKCP_CMD_ACK; seg_frg := 0;
     seg_wnd := u32 (ikcp_wnd_unused kcp); seg_una := rcv_nxt kcp;
     seg_len := 0; seg_sn := 0; seg_ts := 0;
     seg_resendts := 0; seg_rto := 0; seg_fastack := 0; seg_xmit := 0; seg_data := [] |}.

(** Acknowledgements, then probes; leaves [ackcount] and [probe] at 0. *)
Definition flush_control (kcp : ikcpcb) (ptr : list Z) : M world (ikcpcb * list Z) :=
  let! ' (seg, ptr) := flush_acks (Z.to_nat (s32 (ackcount kcp))) 0 kcp (flush_template kcp) ptr in
  let kcp := kcp<|ackcount := 0|> in
  let kcp := flush_probe_timer kcp in
  let! ' (seg, ptr) := flush_probe IKCP_ASK_SEND IKCP_CMD_WASK kcp seg ptr in
  let! ' (seg, ptr) := flush_probe IKCP_ASK_TELL IKCP_CMD_WINS kcp seg ptr in
  ret (kcp<|probe := 0|>, ptr).

Definition ikcp_flush (kcp : ikcpcb) : M world ikcpcb :=
  let current_ := current kcp in
  if updated kcp =? 0 then ret kcp
  else
    let wnd := u32 (ikcp_wnd_unused kcp) in
    let! ' (kcp, ptr) := flush_control kcp [] in
    let cwnd_ := flush_window kcp in
    let kcp := flush_move (snd_queue kcp) cwnd_ wnd current_ kcp in
    let resent := if 0 <? fastresend kcp then fastresend kcp else 4294967295 in
    let rtomin := if nodelay kcp =? 0 then u32 (Z.shiftr (rx_rto kcp) 3) else 0 in
    let! ' (kcp, ptr, change, lost) :=
      flush_data (snd_buf kcp) [] current_ resent rtomin wnd kcp ptr 0 0 in
    (if 0 <? Z.of_nat (length ptr) then ikcp_output kcp ptr else ret tt);;;
    ret (flush_cwnd kcp resent cwnd_ change lost).

(** ** [ikcp_update] and [ikcp_check] *)

Definition ikcp_update (kcp : ikcpcb) (current_ : Z) : M world ikcpcb :=
  let kcp := kcp<|current := current_|> in
  let kcp := if updated kcp =? 0 then kcp<|updated := 1|><|ts_flush := current kcp|> else kcp in
  let slap := _itimediff (current kcp) (ts_flush kcp) in
  let ' (kcp, slap) :=
    if (10000 <=? slap) || (slap <? -10000) then (kcp<|ts_flush := current kcp|>, 0) else (kcp, slap) in
  if 0 <=? slap then
    let kcp := kcp<|ts_flush := u32 (ts_flush kcp + interval kcp)|> in
    let kcp :=
      if 0 <=? _itimediff (current kcp) (ts_flush kcp)
      then kcp<|ts_flush := u32 (current kcp + interval kcp)|> else kcp in
    ikcp_flush kcp
  else ret kcp.

(** The scan of [snd_buf]: [None] when a segment is due ([return current]). *)
Fixpoint check_packets (p : list IKCPSEG) (current_ tm_packet : Z) : option Z :=
  match p with
  | [] => Some tm_packet
  | seg :: p' =>
    let diff := _itimediff (seg_resendts seg) current_ in
    if diff <=? 0 then None
    else check_packets p' current_ (if diff <? tm_packet then diff else tm_packet)
  end.

Definition ikcp_check (kcp : ikcpcb) (current_ : Z) : Z :=
  let ts_flush_ := ts_flush kcp in
  if updated kcp =? 0 then current_
  else
    let ts_flush_ :=
      if (10000 <=? _itimediff current_ ts_flush_) || (_itimediff current_ ts_flush_ <? -10000)
      then current_ else ts_flush_ in
    if 0 <=? _itimediff current_ ts_flush_ then current_
    else
      let tm_flush := _itimediff ts_flush_ current_ in
      match check_packets (snd_buf kcp) current_ 2147483647 with
      | None => current_
      | Some tm_packet =>
        let minimal := if tm_packet <? tm_flush then tm_packet else tm_flush in
        let minimal := if interval kcp <=? minimal then interval kcp else minimal in
        u32 (current_ + minimal)
      end.
