(* ===== verification/KcpInv.v ===== *)
(** * The invariant of a control block, in five independent parts, and the lemmas
    by which the operations preserve them. *)
From S2P Require Import Prelude KcpBase KcpCodec KcpSend KcpRecv KcpInput KcpFlush.
From stdpp Require Import base list numbers strings.
From Stdlib Require Import Sorted.
Open Scope Z_scope.
Open Scope c_scope.

(** ** The invariant *)

(** A segment owns as many bytes as it says. *)
Definition seg_ok (s : IKCPSEG) : Prop :=
  Z.of_nat (length (seg_data s)) = seg_len s /\ seg_len s < 2147483648 /\
  0 <= seg_sn s < 4294967296.

(** The bytes a queue holds. *)
Definition payload (l : list IKCPSEG) : list Z := concat (map seg_data l).

(** Configuration: the MTU, the MSS derived from it, the flush block sized for it. *)
Definition wf_cfg (k : ikcpcb) : Prop :=
  50 <= mtu k < 1073741824 /\ mss k = mtu k - IKCP_OVERHEAD /\
  buffer k = Some (3 * (mtu k + IKCP_OVERHEAD)) /\
  0 <= snd_wnd k < 2147483648 /\ 0 < rcv_wnd k < 2147483648 /\ 0 <= rmt_wnd k < 65536 /\
  0 <= cwnd k.

(** The send side: what is in flight is numbered, in order, from [snd_una] to
    before [snd_nxt], and fits a 16-bit window. *)
Definition wf_snd (k : ikcpcb) : Prop :=
  0 <= snd_nxt k < 4294967296 /\
  off (snd_una k) (snd_nxt k) < 65536 /\
  StronglySorted Z.lt (map (fun s => off (snd_una k) (seg_sn s)) (snd_buf k)) /\
  Forall (fun s => off (snd_una k) (seg_sn s) < off (snd_una k) (snd_nxt k)) (snd_buf k) /\
  snd_una k = match snd_buf k with s :: _ => seg_sn s | [] => snd_nxt k end /\
  nsnd_buf k = u32 (Z.of_nat (length (snd_buf k))) /\
  nsnd_que k = u32 (Z.of_nat (length (snd_queue k))).

(** The receive side: [rcv_buf] is strictly ordered from [rcv_nxt] on. *)
Definition wf_rcv (k : ikcpcb) : Prop :=
  0 <= rcv_nxt k < 4294967296 /\
  StronglySorted Z.lt (map (fun s => off (rcv_nxt k) (seg_sn s)) (rcv_buf k)) /\
  Forall (fun s => off (rcv_nxt k) (seg_sn s) < 2147483648) (rcv_buf k) /\
  nrcv_buf k = u32 (Z.of_nat (length (rcv_buf k))) /\
  nrcv_que k = Z.of_nat (length (rcv_queue k)) /\
  Z.of_nat (length (rcv_queue k)) <= 2147483648.

(** The segments the queues hold; those to be sent fit the MSS. *)
Definition wf_segs (k : ikcpcb) : Prop :=
  Forall seg_ok (snd_buf k) /\ Forall seg_ok (rcv_buf k) /\ Forall seg_ok (rcv_queue k) /\
  Forall (fun s => Z.of_nat (length (seg_data s)) = seg_len s) (snd_queue k) /\
  Forall (fun s => seg_len s <= mss k) (snd_buf k ++ snd_queue k).

(** The ack list: as many initialised pairs as [ackcount] says, inside the block. *)
Definition wf_ack (k : ikcpcb) : Prop :=
  0 <= ackcount k <= ackblock k /\
  match acklist k with
  | None => ackblock k = 0
  | Some l =>
    Z.of_nat (length l) = 2 * ackblock k /\
    forall i, (i < 2 * Z.to_nat (ackcount k))%nat -> exists v, l !! i = Some (Some v)
  end.

Record wf (k : ikcpcb) : Prop := mkwf {
  wf_is_cfg : wf_cfg k;
  wf_is_snd : wf_snd k;
  wf_is_rcv : wf_rcv k;
  wf_is_segs : wf_segs k;
  wf_is_ack : wf_ack k;
}.

(** Blocks a control block owns: itself, its flush block, its ack list, and its
    segments. *)
Definition heap (k : ikcpcb) : Z :=
  1 + (if buffer k is Some _ then 1 else 0) + (if acklist k is Some _ then 1 else 0) +
  Z.of_nat (length (snd_queue k) + length (rcv_queue k) + length (snd_buf k) + length (rcv_buf k)).

(** No block is lost or freed twice between [(k, w)] and [(k', w')]. *)
Definition balanced (k : ikcpcb) (w : world) (k' : ikcpcb) (w' : world) : Prop :=
  w_live w' - heap k' = w_live w - heap k.

(** Datagrams handed to the output callback. *)
Definition outputs (w : world) : list (list Z) :=
  omap (fun e => match e with EOutput d => Some d | _ => None end) (w_events w).

(** ** Numbers in flight and in the receive buffer *)

Section Seq.
Context (base : Z).

Lemma itimediff_off x y :
  off base x < 2147483648 -> off base y < 2147483648 ->
  _itimediff x y = off base x - off base y.
Proof. apply s32_off. Qed.
End Seq.

Lemma itimediff_neg_base base x : _itimediff x base < 0 <-> ~ off base x < 2147483648.
Proof. unfold _itimediff. pose proof (s32_off_nonneg base x). lia. Qed.

Lemma itimediff_nonneg_base base x : 0 <= _itimediff x base <-> off base x < 2147483648.
Proof. apply s32_off_nonneg. Qed.

(** ** The send buffer: any sublist of it, rebased by [ikcp_shrink_buf] *)

Lemma wf_snd_shrink k l n :
  wf_snd k -> Forall seg_ok (snd_buf k) -> sublist l (snd_buf k) ->
  n = u32 (Z.of_nat (length l)) ->
  wf_snd (ikcp_shrink_buf k<|snd_buf := l|><|nsnd_buf := n|>).
Proof.
  intros (Hn & Hfl & Hs & Hlt & Hh & Hnb & Hnq) Hok Hsub ->.
  set (c := match l with s :: _ => seg_sn s | [] => snd_nxt k end).
  assert (off (snd_una k) c <= off (snd_una k) (snd_nxt k)) as Hc.
  { subst c. destruct l as [|s l]; [done|].
    apply Z.lt_le_incl. rewrite Forall_forall in Hlt. apply Hlt.
    eapply sublist_subseteq; [done | by left]. }
  assert (forall s, s ∈ l -> off (snd_una k) c <= off (snd_una k) (seg_sn s)) as Hle.
  { intros s Hin. subst c. destruct l as [|s0 l]; [by apply elem_of_nil in Hin|].
    eapply (sublist_map (fun s => off (snd_una k) (seg_sn s))) in Hsub.
    apply sublist_sorted_lt in Hsub; [|done]. cbn in Hsub.
    apply StronglySorted_inv in Hsub as [_ Hf].
    apply elem_of_cons in Hin as [->|Hin]; [done|].
    rewrite List.Forall_forall in Hf.
    apply Z.lt_le_incl, Hf, in_map_iff. exists s. by rewrite <- list_elem_of_In. }
  assert (forall x, off (snd_una k) c <= off (snd_una k) x ->
                    off c x = off (snd_una k) x - off (snd_una k) c) as Hr
    by (intros; by apply off_rebase).
  assert (wf_snd (k<|snd_una := c|><|snd_buf := l|>
                   <|nsnd_buf := u32 (Z.of_nat (length l))|>)) as Hgoal.
  { unfold wf_snd. kcp_simpl_goal. split_and!; [lia | lia | | | | done | done | done].
    - rewrite Hr by done. pose proof (off_range (snd_una k) c). lia.
    - apply (sorted_map_ext (fun s => off (snd_una k) (seg_sn s)) _ _ (off (snd_una k) c)).
      + intros s Hin. apply Hr. auto.
      + eapply (sublist_map (fun s => off (snd_una k) (seg_sn s))) in Hsub.
        by eapply sublist_sorted_lt.
    - apply Forall_forall. intros s Hin. rewrite !Hr by auto.
      rewrite Forall_forall in Hlt. apply Z.sub_lt_mono_r, Hlt.
      by eapply sublist_subseteq. }
  unfold ikcp_shrink_buf. subst c. by destruct l.
Qed.

(** ** The receive buffer *)

Lemma add_1_succ a b : a + 1 + b = a + Z.succ b.
Proof. lia. Qed.
Lemma sub_1_succ a b : a - 1 - b = a - Z.succ b.
Proof. lia. Qed.

(** Where [ikcp_insert_rev] puts a segment. *)
Lemma insert_rev_spec base new rl :
  off base (seg_sn new) < 2147483648 ->
  StronglySorted Z.lt (map (fun s => off base (seg_sn s)) (rev rl)) ->
  Forall (fun s => off base (seg_sn s) < 2147483648) rl ->
  match ikcp_insert_rev new rl with
  | None => exists s, s ∈ rl /\ seg_sn s = seg_sn new
  | Some r => exists l1 l2, rl = l1 ++ l2 /\ r = l1 ++ new :: l2 /\
      Forall (fun s => seg_sn s <> seg_sn new /\ off base (seg_sn new) <= off base (seg_sn s)) l1 /\
      Forall (fun s => off base (seg_sn s) < off base (seg_sn new)) l2
  end.
Proof.
  intros Hnew. induction rl as [|seg prev IH]; cbn [ikcp_insert_rev]; intros Hs Hf.
  { exists [], []. by repeat constructor. }
  apply Forall_cons in Hf as [Hseg Hf]. cbn [rev] in Hs. rewrite map_app in Hs.
  apply sorted_lt_app_inv in Hs as (Hs & _ & Hlt).
  destruct (Z.eqb_spec (seg_sn seg) (seg_sn new)) as [He|He].
  { exists seg. split; [by left | done]. }
  rewrite (itimediff_off base) by done.
  destruct (Z.ltb_spec 0 (off base (seg_sn new) - off base (seg_sn seg))) as [Hd|Hd].
  { exists [], (seg :: prev). split_and!; [done | done | constructor |].
    constructor; [lia|]. apply Forall_forall. intros s Hin.
    etransitivity; [|apply Z.lt_0_sub; exact Hd].
    apply Hlt; [|by left]. apply list_elem_of_In, in_map_iff. exists s.
    split; [done|]. by apply in_rev, list_elem_of_In; rewrite rev_involutive. }
  specialize (IH Hs Hf). destruct (ikcp_insert_rev new prev) as [r|]; cbn [option_map].
  - destruct IH as (l1 & l2 & -> & -> & H1 & H2).
    exists (seg :: l1), l2. split_and!; [done | done | | done].
    constructor; [split; [done | lia] | done].
  - destruct IH as (s & Hin & Hsn). exists s. split; [by right | done].
Qed.

(** What [ikcp_move] does: a run of consecutive numbers, from [rcv_nxt] on, goes
    from the front of [rcv_buf] to the back of [rcv_queue]. *)
Definition moved (k k' : ikcpcb) (l1 l2 : list IKCPSEG) : Prop :=
  rcv_buf k = l1 ++ l2 /\
  (forall i s, l1 !! i = Some s -> seg_sn s = u32 (rcv_nxt k + Z.of_nat i)) /\
  k' = k<|rcv_buf := l2|><|nrcv_buf := u32 (nrcv_buf k - Z.of_nat (length l1))|>
        <|rcv_queue := rcv_queue k ++ l1|><|nrcv_que := u32 (nrcv_que k + Z.of_nat (length l1))|>
        <|rcv_nxt := u32 (rcv_nxt k + Z.of_nat (length l1))|>.

(** Where it stops. *)
Definition stopped (k : ikcpcb) : Prop :=
  match rcv_buf k with
  | [] => True
  | s :: _ => seg_sn s <> rcv_nxt k \/ rcv_wnd k <= nrcv_que k
  end.

Lemma wf_rcv_u32 k : wf_rcv k ->
  u32 (nrcv_buf k) = nrcv_buf k /\ u32 (nrcv_que k) = nrcv_que k /\ u32 (rcv_nxt k) = rcv_nxt k.
Proof.
  intros (? & ? & ? & -> & -> & ?). rewrite u32_u32. split_and!; [done | |]; apply u32_id; lia.
Qed.

(** One round keeps the invariant of the receive side. *)
Lemma wf_rcv_move1 k seg l :
  wf_rcv k -> wf_cfg k -> rcv_buf k = seg :: l -> seg_sn seg = rcv_nxt k -> nrcv_que k < rcv_wnd k ->
  wf_rcv k<|rcv_buf := l|><|nrcv_buf := u32 (nrcv_buf k - 1)|>
          <|rcv_queue := rcv_queue k ++ [seg]|><|nrcv_que := u32 (nrcv_que k + 1)|>
          <|rcv_nxt := u32 (rcv_nxt k + 1)|>.
Proof.
  intros (Hn & Hs & Hf & Hb & Hq & Hle) (_ & _ & _ & _ & Hw & _) Hl Hsn Hlt.
  rewrite Hl in *. cbn [map] in Hs. apply StronglySorted_inv in Hs as [Hs Hpos].
  apply Forall_cons in Hf as [_ Hf]. rewrite Hsn, off_self in Hpos.
  assert (forall s, s ∈ l -> off (u32 (rcv_nxt k + 1)) (seg_sn s) = off (rcv_nxt k) (seg_sn s) - 1) as Hr.
  { intros s Hin. apply off_base_succ. rewrite List.Forall_forall in Hpos.
    apply Hpos, in_map_iff. exists s. by rewrite <- list_elem_of_In. }
  unfold wf_rcv. kcp_simpl_goal. rewrite length_app. cbn [length] in *.
  split_and!; [apply u32_range | apply u32_range | | | | | lia].
  - by apply (sorted_map_ext (fun s => off (rcv_nxt k) (seg_sn s)) _ _ 1).
  - apply Forall_forall. intros s Hin. rewrite Hr by done.
    rewrite Forall_forall in Hf. specialize (Hf s Hin). lia.
  - rewrite Hb, u32_sub_l. f_equal. lia.
  - rewrite u32_id by lia. lia.
Qed.

Lemma ikcp_move_loop_spec l k :
  wf_cfg k -> wf_rcv k -> rcv_buf k = l ->
  exists l1 l2, moved k (ikcp_move_loop l k) l1 l2 /\ wf_rcv (ikcp_move_loop l k) /\
    stopped (ikcp_move_loop l k).
Proof.
  revert k. induction l as [|seg l IH]; intros k Hc Hwf Hl.
  { exists [], []. destruct (wf_rcv_u32 k Hwf) as (E1 & E2 & E3).
    split; [|split; [exact Hwf | unfold stopped; cbn [ikcp_move_loop]; by rewrite Hl]]. unfold moved. cbn [length app].
    rewrite Z.sub_0_r, !Z.add_0_r, E1, E2, E3, app_nil_r.
    split_and!; [done | done |]. cbn [ikcp_move_loop]. rewrite <- Hl. by destruct k. }
  cbn [ikcp_move_loop].
  destruct (Z.eqb_spec (seg_sn seg) (rcv_nxt k)) as [Hsn|Hsn]; cbn [andb].
  1: destruct (Z.ltb_spec (nrcv_que k) (rcv_wnd k)) as [Hq|Hq].
  1: { pose proof (wf_rcv_move1 k seg l Hwf Hc Hl Hsn Hq) as Hwf'.
    match type of Hwf' with wf_rcv ?x => set (k1 := x) in * end.
    destruct (IH k1 Hc Hwf' eq_refl) as (l1 & l2 & (Hl1 & Hsn1 & Hk') & Hwf'' & Hst).
    exists (seg :: l1), l2. split; [|split; done]. split_and!.
    - rewrite Hl. cbn. f_equal. exact Hl1.
    - intros [|i] s Hi; [cbn in Hi; simplify_eq; rewrite Z.add_0_r, <- Hsn|].
      + symmetry. apply u32_id. rewrite Hsn. destruct Hwf; done.
      + apply Hsn1 in Hi. rewrite Hi. subst k1. kcp_simpl_goal. rewrite u32_add_l.
        f_equal. lia.
    - rewrite Hk'. subst k1. kcp_simpl_goal. cbn [length].
      rewrite <- (assoc_L (++)), u32_sub_l, !u32_add_l, !Nat2Z.inj_succ. cbn [app].
      rewrite !add_1_succ, sub_1_succ. done. }
  all: exists [], (seg :: l); destruct (wf_rcv_u32 k Hwf) as (E1 & E2 & E3);
    (split; [|split; [exact Hwf | unfold stopped; rewrite Hl; tauto]]);
    unfold moved; cbn [length app]; rewrite Z.sub_0_r, !Z.add_0_r, E1, E2, E3, app_nil_r, <- Hl;
    (split_and!; [done | done | by destruct k]).
Qed.

(** A segment put into [rcv_buf], in front of those with larger numbers. *)
Definition inserted (k : ikcpcb) (seg : IKCPSEG) (k' : ikcpcb) : Prop :=
  exists b1 b2, rcv_buf k = b1 ++ b2 /\
    Forall (fun s => off (rcv_nxt k) (seg_sn s) < off (rcv_nxt k) (seg_sn seg)) b1 /\
    Forall (fun s => off (rcv_nxt k) (seg_sn seg) < off (rcv_nxt k) (seg_sn s)) b2 /\
    k' = k<|rcv_buf := b1 ++ seg :: b2|><|nrcv_buf := u32 (nrcv_buf k + 1)|>.

(** The world after [n] more calls of [ikcp_free]. *)
Definition freed (n : nat) (w : world) : world :=
  mkworld (w_allocs w) (w_live w - Z.of_nat n) (w_events w).

Lemma wp_free Q w : Q tt (freed 1 w) -> wp ikcp_free Q w.
Proof. done. Qed.

Lemma wp_emit e Q w :
  Q tt (mkworld (w_allocs w) (w_live w) (w_events w ++ [e])) -> wp (emit e) Q w.
Proof. done. Qed.

Lemma freed_0 w : freed 0 w = w.
Proof. destruct w. unfold freed. cbn. by rewrite Z.sub_0_r. Qed.

Lemma freed_freed n m w : freed n (freed m w) = freed (m + n) w.
Proof. unfold freed. cbn. f_equal. lia. Qed.

(** The receiver accepts a number. *)
Definition in_window (k : ikcpcb) (sn : Z) : bool :=
  (_itimediff sn (u32 (rcv_nxt k + rcv_wnd k)) <? 0) && (0 <=? _itimediff sn (rcv_nxt k)).

Lemma wf_rcv_inserted k seg k' :
  wf_rcv k -> 0 <= seg_sn seg < 4294967296 -> off (rcv_nxt k) (seg_sn seg) < 2147483648 ->
  inserted k seg k' -> wf_rcv k'.
Proof.
  intros (Hn & Hs & Hf & Hb & Hq & Hle) Hsn Ho (b1 & b2 & Hl & H1 & H2 & ->).
  rewrite Hl in *. unfold wf_rcv. kcp_simpl_goal.
  rewrite map_app in *. apply sorted_lt_app_inv in Hs as (Hs1 & Hs2 & Hlt).
  apply Forall_app in Hf as [Hf1 Hf2].
  assert (forall P b x, Forall (fun s => P (off (rcv_nxt k) (seg_sn s))) b ->
            x ∈ map (fun s => off (rcv_nxt k) (seg_sn s)) b -> P x) as Hin.
  { intros P b x Hb0 Hx%list_elem_of_In%in_map_iff. destruct Hx as (s & <- & Hx%list_elem_of_In).
    rewrite Forall_forall in Hb0. by apply Hb0. }
  split_and!; [lia | lia | | | | done | done].
  - apply sorted_lt_app_inv. cbn [map]. split_and!; [done | |].
    + constructor; [done|]. apply List.Forall_forall. intros y Hy%list_elem_of_In.
      by apply (Hin (fun y => off (rcv_nxt k) (seg_sn seg) < y) b2).
    + intros x y Hx [->|Hy]%elem_of_cons; [|by apply Hlt].
      by apply (Hin (fun x => x < off (rcv_nxt k) (seg_sn seg)) b1).
  - apply Forall_app. split; [done|]. by apply Forall_cons.
  - rewrite Hb, u32_add_l, !length_app. cbn [length]. f_equal. lia.
Qed.

Lemma ikcp_parse_data_spec k seg w :
  wf_cfg k -> wf_rcv k -> Forall seg_ok (rcv_buf k) -> 0 <= seg_sn seg < 4294967296 ->
  wp (ikcp_parse_data k seg)
     (fun k' w' => wf_rcv k' /\
        (in_window k (seg_sn seg) = false /\ k' = k /\ w' = freed 1 w \/
         in_window k (seg_sn seg) = true /\ stopped k' /\ exists k1 l1 l2, moved k1 k' l1 l2 /\
           ((exists s, s ∈ rcv_buf k /\ seg_sn s = seg_sn seg) /\ k1 = k /\ w' = freed 1 w \/
            inserted k seg k1 /\ w' = w))) w.
Proof.
  intros Hc Hwf Hok Hsn. unfold ikcp_parse_data, in_window.
  destruct (Z.leb_spec 0 (_itimediff (seg_sn seg) (u32 (rcv_nxt k + rcv_wnd k)))) as [Hhi|Hhi];
    cbn [orb].
  { destruct (Z.ltb_spec (_itimediff (seg_sn seg) (u32 (rcv_nxt k + rcv_wnd k))) 0); [lia|].
    wp_step. apply wp_free. wp_step. auto. }
  destruct (Z.ltb_spec (_itimediff (seg_sn seg) (u32 (rcv_nxt k + rcv_wnd k))) 0); [|lia].
  destruct (Z.ltb_spec (_itimediff (seg_sn seg) (rcv_nxt k)) 0) as [Hlo|Hlo].
  { destruct (Z.leb_spec 0 (_itimediff (seg_sn seg) (rcv_nxt k))); [lia|].
    wp_step. apply wp_free. wp_step. auto. }
  destruct (Z.leb_spec 0 (_itimediff (seg_sn seg) (rcv_nxt k))); [|lia]. cbn [andb].
  apply itimediff_nonneg_base in Hlo.
  pose proof Hwf as (Hn & Hs & Hf & Hb & Hq & Hle).
  pose proof (insert_rev_spec (rcv_nxt k) seg (rev (rcv_buf k)) Hlo) as Hins.
  rewrite rev_involutive in Hins. specialize (Hins Hs).
  specialize (Hins ltac:(by apply Forall_forall; intros s Hin%list_elem_of_In;
    apply in_rev in Hin; rewrite Forall_forall in Hf; apply Hf, list_elem_of_In)).
  wp_step. destruct (ikcp_insert_rev seg (rev (rcv_buf k))) as [r|].
  - destruct Hins as (l1 & l2 & Hl & -> & H1 & H2).
    wp_step. wp_step.
    set (k1 := k<|rcv_buf := _|><|nrcv_buf := _|>).
    assert (inserted k seg k1) as Hi.
    { exists (rev l2), (rev l1). subst k1. rewrite rev_app_distr. cbn [rev].
      rewrite <- (assoc_L (++)). cbn [app]. split_and!; [| | | done].
      - by rewrite <- rev_app_distr, <- Hl, rev_involutive.
      - by apply List.Forall_rev.
      - apply List.Forall_rev. apply Forall_forall. intros s Hin.
        rewrite Forall_forall in H1. destruct (H1 s Hin) as [Hne Hle'].
        assert (off (rcv_nxt k) (seg_sn s) <> off (rcv_nxt k) (seg_sn seg)) as Hno; [|lia].
        intros E. apply Hne. eapply off_inj; [| done | exact E].
        rewrite Forall_forall in Hok. apply Hok. rewrite <- rev_involutive, Hl.
        apply list_elem_of_In, in_rev. rewrite rev_involutive.
        apply list_elem_of_In, elem_of_app. by left. }
    pose proof (wf_rcv_inserted k seg k1 Hwf Hsn Hlo Hi) as Hwf1.
    destruct (ikcp_move_loop_spec (rcv_buf k1) k1) as (m1 & m2 & Hm & Hwf' & Hst); [done.. |].
    split; [done|]. right. eauto 10.
  - destruct Hins as (s & Hin & Hs'). wp_step. apply wp_free. wp_step. wp_step.
    destruct (ikcp_move_loop_spec (rcv_buf k) k) as (m1 & m2 & Hm & Hwf' & Hst); [done.. |].
    split; [done|]. right. split; [done|]. split; [done|]. exists k, m1, m2.
    split; [done|]. left. split; [|done]. exists s. split; [|done].
    apply list_elem_of_In, in_rev, list_elem_of_In. done.
Qed.

Lemma wf_moved k k' l1 l2 : wf k -> moved k k' l1 l2 -> wf_rcv k' -> wf k' /\ heap k' = heap k.
Proof.
  intros [Hc Hs _ (H1 & H2 & H3 & H4 & H5) Ha] (Hl & _ & ->) Hr. rewrite Hl in H2.
  apply Forall_app in H2 as [H2a H2b]. split.
  - constructor; [exact Hc | exact Hs | exact Hr | | exact Ha].
    unfold wf_segs. kcp_simpl_goal. rewrite Forall_app. auto.
  - unfold heap. kcp_simpl_goal. rewrite Hl, !length_app. lia.
Qed.

Lemma wf_inserted k seg k' :
  wf k -> seg_ok seg -> inserted k seg k' -> wf_rcv k' -> wf k' /\ heap k' = heap k + 1.
Proof.
  intros [Hc Hs _ (H1 & H2 & H3 & H4 & H5) Ha] Hseg (b1 & b2 & Hl & _ & _ & ->) Hr.
  rewrite Hl in H2. apply Forall_app in H2 as [H2a H2b]. split.
  - constructor; [exact Hc | exact Hs | exact Hr | | exact Ha].
    unfold wf_segs. kcp_simpl_goal. rewrite Forall_app, Forall_cons. auto 10.
  - unfold heap. kcp_simpl_goal. rewrite Hl, !length_app. cbn [length]. lia.
Qed.

(** [ikcp_parse_data] takes over the segment: it is queued or freed. *)
Lemma wf_parse_data k seg w :
  wf k -> seg_ok seg ->
  wp (ikcp_parse_data k seg)
     (fun k' w' => wf k' /\ w_live w' - heap k' = w_live w - heap k - 1 /\
        ackcount k' = ackcount k) w.
Proof.
  intros Hwf Hseg. pose proof Hwf as [Hc _ Hr Hsegs _]. pose proof Hseg as (_ & _ & Hsn).
  eapply wp_mono; [apply ikcp_parse_data_spec; [done | done | apply Hsegs | done]|].
  intros k' w' [Hr' [(_ & -> & ->)|(Hwin & _ & k1 & l1 & l2 & Hm & Hcase)]].
  { splits; [done | cbn; lia | done]. }
  destruct Hcase as [(_ & -> & ->)|[Hi ->]].
  - destruct (wf_moved k k' l1 l2) as [? ->]; [done..|].
    splits; [done | cbn; lia |]. by destruct Hm as (_ & _ & ->).
  - assert (wf_rcv k1) as Hr1.
    { eapply (wf_rcv_inserted k seg); [done.. | | done].
      unfold in_window in Hwin. apply andb_true_iff in Hwin as [_ Hwin%Z.leb_le].
      by apply itimediff_nonneg_base. }
    destruct (wf_inserted k seg k1) as [Hwf1 Hh]; [done..|].
    destruct (wf_moved k1 k' l1 l2) as [? ->]; [done..|].
    splits; [done | lia |]. destruct Hm as (_ & _ & ->). by destruct Hi as (? & ? & _ & _ & _ & ->).
Qed.

(** ** Acknowledgement processing *)

(** How many segments [ikcp_parse_una_loop] drops. *)
Fixpoint una_count (una : Z) (p : list IKCPSEG) : nat :=
  match p with
  | [] => 0
  | seg :: next => if 0 <? _itimediff una (seg_sn seg) then S (una_count una next) else 0
  end.

Lemma ikcp_parse_una_spec una k w :
  wf_snd k ->
  wp (ikcp_parse_una k una)
     (fun k' w' => let n := una_count una (snd_buf k) in
        k' = k<|snd_buf := drop n (snd_buf k)|>
              <|nsnd_buf := u32 (Z.of_nat (length (drop n (snd_buf k))))|> /\
        w' = freed n w) w.
Proof.
  intros (_ & _ & _ & _ & _ & Hn & _). unfold ikcp_parse_una.
  remember (snd_buf k) as p eqn:Hp. revert k w Hn Hp.
  induction p as [|seg next IH]; cbn [ikcp_parse_una_loop una_count]; intros k w Hn Hp.
  - wp_step. rewrite freed_0. split; [|done]. cbn in *. rewrite <- Hn, Hp. by destruct k.
  - destruct (0 <? _itimediff una (seg_sn seg)).
    + wp_step. apply wp_free. eapply wp_mono; [apply IH; [|done]|].
      * kcp_simpl_goal. rewrite Hn, u32_sub_l. cbn [length]. f_equal. lia.
      * intros k' w' [-> ->]. rewrite freed_freed. split; done.
    + wp_step. rewrite freed_0. split; [|done]. cbn [drop]. rewrite <- Hn, Hp. by destruct k.
Qed.

Lemma sublist_parse_ack sn p : sublist (ikcp_parse_ack_loop sn p).1 p.
Proof.
  induction p as [|seg next IH]; cbn [ikcp_parse_ack_loop]; [constructor|].
  destruct (sn =? seg_sn seg); [by apply sublist_cons|].
  destruct (_itimediff sn (seg_sn seg) <? 0); [done|].
  destruct (ikcp_parse_ack_loop sn next) as [next' o]. by apply sublist_skip.
Qed.

Lemma length_parse_ack sn p :
  length p = (length (ikcp_parse_ack_loop sn p).1 +
              if (ikcp_parse_ack_loop sn p).2 is Some _ then 1 else 0)%nat.
Proof.
  induction p as [|seg next IH]; cbn [ikcp_parse_ack_loop]; [done|].
  destruct (sn =? seg_sn seg); [cbn; lia|].
  destruct (_itimediff sn (seg_sn seg) <? 0); [cbn; lia|].
  destruct (ikcp_parse_ack_loop sn next) as [next' o]. cbn in *. lia.
Qed.

(** What an acknowledgement does to a control block, as one relation: the new send
    buffer is a sublist of the old one, and every segment that left it was freed. *)
Definition snd_reduced (k : ikcpcb) (w : world) (k' : ikcpcb) (w' : world) : Prop :=
  exists l, sublist l (snd_buf k) /\
    k' = k<|snd_buf := l|><|nsnd_buf := u32 (Z.of_nat (length l))|> /\
    w' = freed (length (snd_buf k) - length l) w.

Lemma sublist_drop {A} n (l : list A) : sublist (drop n l) l.
Proof. revert n. induction l; intros [|n]; cbn; [done..|]. by apply sublist_cons. Qed.

Lemma ikcp_parse_una_reduced una k w :
  wf_snd k -> wp (ikcp_parse_una k una) (fun k' w' => snd_reduced k w k' w') w.
Proof.
  intros H. eapply wp_mono; [by apply ikcp_parse_una_spec|]. intros k' w' [-> ->].
  eexists. split; [apply sublist_drop | split; [done|]]. f_equal. rewrite length_drop.
  assert (una_count una (snd_buf k) <= length (snd_buf k))%nat; [|lia].
  generalize (snd_buf k). clear. intros l. induction l; cbn; [done|]. destruct (0 <? _); lia.
Qed.

Lemma ikcp_parse_ack_reduced sn k w :
  wf_snd k -> wp (ikcp_parse_ack k sn) (fun k' w' => snd_reduced k w k' w') w.
Proof.
  intros (_ & _ & _ & _ & _ & Hn & _).
  assert (snd_reduced k w k w) as Hsame.
  { exists (snd_buf k). rewrite Nat.sub_diag, freed_0, <- Hn.
    split; [done | split; [by destruct k | done]]. }
  unfold ikcp_parse_ack. destruct (sn_out_of_flight k sn); [by apply wp_ret|].
  pose proof (sublist_parse_ack sn (snd_buf k)) as Hsub.
  pose proof (length_parse_ack sn (snd_buf k)) as Hlen.
  destruct (ikcp_parse_ack_loop sn (snd_buf k)) as [l [s|]]; [|by apply wp_ret].
  wp_step. apply wp_free. wp_step. cbn [fst snd] in *. exists l. split; [done|]. split.
  - rewrite Hn, Hlen, u32_sub_l. repeat f_equal. lia.
  - f_equal. lia.
Qed.

(** [ikcp_shrink_buf] restores the invariant, and no block is lost. *)
Lemma wf_reduced k w k' w' :
  wf k -> snd_reduced k w k' w' ->
  wf (ikcp_shrink_buf k') /\ balanced k w (ikcp_shrink_buf k') w'.
Proof.
  intros [Hc Hs Hr (H1 & H2 & H3 & H4 & H5) Ha] (l & Hsub & -> & ->).
  pose proof (wf_snd_shrink k l _ Hs H1 Hsub eq_refl) as Hs'.
  assert (forall u, wf_segs (k<|snd_buf := l|><|nsnd_buf := u32 (Z.of_nat (length l))|>
                              <|snd_una := u|>)) as Hsegs.
  { intros u. unfold wf_segs. kcp_simpl_goal. apply Forall_app in H5 as [H5 H6].
    rewrite Forall_app. split_and!; [by eapply sublist_Forall | done.. | by eapply sublist_Forall | done]. }
  assert (length l <= length (snd_buf k))%nat by by apply sublist_length.
  unfold ikcp_shrink_buf in *. kcp_simpl_goal.
  split; [destruct l; (constructor; [exact Hc | exact Hs' | exact Hr | apply Hsegs | exact Ha])|].
  unfold balanced, heap, freed. destruct l; kcp_simpl_goal; cbn [w_live length] in *; lia.
Qed.
