(* ===== verification/KcpAck.v ===== *)
(** * The ack list: what [ikcp_ack_push] stores, [ikcp_ack_get] reads back. *)
From S2P Require Import Prelude KcpBase KcpCodec KcpSend KcpRecv KcpInput KcpFlush KcpInv.
From stdpp Require Import base list numbers strings.
Open Scope Z_scope.
Open Scope c_scope.

(** ** The pending acknowledgements *)

(** The list a block of cells represents, for [n] pairs. *)
Definition cell (l : list (option Z)) (i : nat) : Z := default 0 (default None (l !! i)).
Definition ack_pairs (l : list (option Z)) (n : nat) : list (Z * Z) :=
  map (fun i => (cell l (2 * i), cell l (2 * i + 1))) (seq 0 n).
Definition acks (k : ikcpcb) : list (Z * Z) :=
  match acklist k with None => [] | Some l => ack_pairs l (Z.to_nat (ackcount k)) end.

Lemma ack_pairs_ext l l' n :
  (forall i, (i < 2 * n)%nat -> cell l i = cell l' i) -> ack_pairs l n = ack_pairs l' n.
Proof.
  intros H. apply map_ext_in. intros i Hi%in_seq. rewrite !H by lia. done.
Qed.

Lemma ack_pairs_S l n : ack_pairs l (S n) = ack_pairs l n ++ [(cell l (2 * n), cell l (2 * n + 1))].
Proof. unfold ack_pairs. by rewrite seq_S, map_app. Qed.

(** ** Growth *)

(** The doubling loop ends within its fuel, and above [newsize]. *)
Lemma ack_newblock_spec fuel nb newsize :
  0 < nb -> newsize <= 2147483648 -> newsize <= nb * 2 ^ Z.of_nat fuel ->
  exists nb', ack_newblock fuel nb newsize = Some nb' /\ newsize <= nb' /\ nb <= nb' /\
    (nb' = nb \/ nb' < 2 * newsize).
Proof.
  revert nb. induction fuel as [|fuel IH]; intros nb Hnb Hmax Hf; cbn [ack_newblock].
  - destruct (Z.ltb_spec nb newsize); [cbn in Hf; lia|]. exists nb. auto with lia.
  - destruct (Z.ltb_spec nb newsize) as [Hlt|]; [|exists nb; auto with lia].
    rewrite Z.shiftl_mul_pow2, u32_id by lia. change (2 ^ 1) with 2.
    rewrite Nat2Z.inj_succ, Z.pow_succ_r in Hf by lia.
    destruct (IH (nb * 2)) as (nb' & -> & H1 & H2 & H3); [lia..|].
    exists nb'. split_and!; [done | lia | lia |]. lia.
Qed.

Section Push.
Context {alloc : Allocator} (alloc_ok : forall n size, malloc n size <> None).

Lemma wp_malloc size Q w :
  (forall mem, Q (Some mem) (mkworld (S (w_allocs w)) (w_live w + 1) (w_events w))) ->
  wp (ikcp_malloc size) Q w.
Proof.
  intros H. unfold wp, ikcp_malloc. destruct (malloc _ _) eqn:E; [done|].
  by apply alloc_ok in E.
Qed.

(** The two stores at the end of [ikcp_ack_push]. *)
Lemma acklist_store l n sn ts w :
  0 <= n -> 2 * n + 1 < Z.of_nat (length l) ->
  (forall i, (i < 2 * Z.to_nat n)%nat -> exists v, l !! i = Some (Some v)) ->
  wp (let! l := acklist_set l (n * 2 + 0) sn in acklist_set l (n * 2 + 1) ts)
    (fun l' w' => w' = w /\ length l' = length l /\
       (forall i, (i < 2 * Z.to_nat (n + 1))%nat -> exists v, l' !! i = Some (Some v)) /\
       ack_pairs l' (Z.to_nat (n + 1)) = ack_pairs l (Z.to_nat n) ++ [(sn, ts)]) w.
Proof.
  intros Hn Hlen Hinit. unfold acklist_set.
  rewrite (proj2 (andb_true_iff _ _)) by lia. wp_step. wp_step.
  rewrite length_insert, (proj2 (andb_true_iff _ _)) by lia. wp_step.
  set (i0 := Z.to_nat (n * 2 + 0)). set (i1 := Z.to_nat (n * 2 + 1)).
  assert (<[i1 := Some ts]> (<[i0 := Some sn]> l) !! i0 = Some (Some sn)) as L0.
  { rewrite list_lookup_insert_ne by lia. apply list_lookup_insert_eq. lia. }
  assert (<[i1 := Some ts]> (<[i0 := Some sn]> l) !! i1 = Some (Some ts)) as L1.
  { apply list_lookup_insert_eq. rewrite length_insert. lia. }
  assert (forall i, (i < 2 * Z.to_nat n)%nat ->
            <[i1 := Some ts]> (<[i0 := Some sn]> l) !! i = l !! i) as L.
  { intros i Hi. rewrite !list_lookup_insert_ne by lia. done. }
  split_and!; [done | by rewrite !length_insert | |].
  - intros i Hi. destruct (decide (i = i0)) as [->|]; [by eauto|].
    destruct (decide (i = i1)) as [->|]; [by eauto|]. rewrite L by lia. apply Hinit. lia.
  - replace (Z.to_nat (n + 1)) with (S (Z.to_nat n)) by lia. rewrite ack_pairs_S.
    replace (2 * Z.to_nat n)%nat with i0 by lia. replace (i0 + 1)%nat with i1 by lia.
    unfold cell at 1 2. rewrite L0, L1. cbn [default]. f_equal.
    apply ack_pairs_ext. intros i Hi. unfold cell. by rewrite L.
Qed.

(** [ikcp_ack_push] appends one acknowledgement, growing the block when it is full. *)
Lemma ikcp_ack_push_spec k sn ts w :
  wf_ack k -> ackcount k < 2147483647 ->
  wp (ikcp_ack_push k sn ts)
    (fun k' w' => exists l nb,
       k' = k<|acklist := Some l|><|ackblock := nb|><|ackcount := ackcount k + 1|> /\
       wf_ack k' /\ acks k' = acks k ++ [(sn, ts)] /\ balanced k w k' w' /\
       w_events w' = w_events w) w.
Proof.
  intros (Hcnt & Hl) Hmax. unfold ikcp_ack_push. rewrite u32_id by lia. wp_step.
  assert (forall k1 l1 w1, acklist k1 = Some l1 -> ackcount k1 = ackcount k ->
    (forall i, (i < 2 * Z.to_nat (ackcount k))%nat -> exists v, l1 !! i = Some (Some v)) ->
    ackcount k + 1 <= ackblock k1 -> Z.of_nat (length l1) = 2 * ackblock k1 ->
    ack_pairs l1 (Z.to_nat (ackcount k)) = acks k ->
    wp (match acklist k1 with
        | None => throw NullDeref
        | Some l =>
          let! l := acklist_set l (ackcount k1 * 2 + 0) sn in
          let! l := acklist_set l (ackcount k1 * 2 + 1) ts in
          ret k1<|acklist := Some l|><|ackcount := u32 (ackcount k1 + 1)|>
        end)
      (fun k' w' => exists l, k' = k1<|acklist := Some l|><|ackcount := ackcount k + 1|> /\
         wf_ack k' /\ acks k' = acks k ++ [(sn, ts)] /\ w' = w1) w1) as Hstore.
  { intros k1 l1 w1 E1 E2 Hi Hb Hlen Hacks. rewrite E1, E2.
    pose proof (acklist_store l1 (ackcount k) sn ts w1 ltac:(lia) ltac:(lia) Hi) as Hst.
    unfold wp, bind in *. destruct (acklist_set l1 (ackcount k * 2 + 0) sn w1) as [l2 w2|]; [|done].
    destruct (acklist_set l2 (ackcount k * 2 + 1) ts w2) as [l3 w3|]; [|done].
    destruct Hst as (-> & Hlen3 & Hi3 & Hp). cbn [ret]. exists l3.
    rewrite u32_id by lia. splits; [done | | | done].
    - unfold wf_ack. kcp_simpl_goal. splits; [lia | lia | lia | exact Hi3].
    - unfold acks at 1. kcp_simpl_goal. by rewrite Hp, Hacks. }
  destruct (Z.ltb_spec (ackblock k) (ackcount k + 1)) as [Hfull|Hroom].
  - destruct (ack_newblock_spec 32 8 (ackcount k + 1)) as (nb & -> & Hnb & Hnb8 & _); [lia..|].
    wp_step. wp_step. wp_step. apply wp_malloc. intros mem. cbn beta iota.
    set (fresh := replicate (Z.to_nat (nb * 2)) None).
    assert (length fresh = Z.to_nat (nb * 2)) as Hfresh by apply length_replicate.
    wp_step. destruct (acklist k) as [old|] eqn:El; wp_step.
    + destruct Hl as [Hlen Hi]. unfold acklist_copy.
      rewrite (proj2 (andb_true_iff _ _)) by lia. wp_step. wp_step. apply wp_free. wp_step.
      wp_step. set (l1 := take _ old ++ drop _ fresh).
      assert (forall i, (i < 2 * Z.to_nat (ackcount k))%nat -> l1 !! i = old !! i) as L1.
      { intros i Hlt. subst l1. rewrite lookup_app_l by (rewrite length_take; lia).
        apply lookup_take_lt. lia. }
      eapply wp_mono; [eapply (Hstore _ l1); [done | done | | | |]|]; kcp_simpl_goal.
      * intros i Hlt. rewrite L1 by done. by apply Hi.
      * lia.
      * subst l1. rewrite length_app, length_take, length_drop. lia.
      * unfold acks. rewrite El. apply ack_pairs_ext. intros i Hlt. unfold cell. by rewrite L1.
      * intros k' w' (l' & -> & Hwf & Hacks & ->). exists l', nb.
        splits; [done | done | done | | done].
        unfold balanced, heap. kcp_simpl_goal. rewrite El. cbn. lia.
    + wp_step. assert (ackcount k = 0) as H0 by lia.
      eapply wp_mono; [eapply (Hstore _ fresh); [done | done | | | |]|]; kcp_simpl_goal.
      * lia.
      * lia.
      * lia.
      * unfold acks. by rewrite El, H0.
      * intros k' w' (l' & -> & Hwf & Hacks & ->). exists l', nb.
        splits; [done | done | done | | done].
        unfold balanced, heap. kcp_simpl_goal. rewrite El. cbn. lia.
  - wp_step. assert (exists l, acklist k = Some l /\ Z.of_nat (length l) = 2 * ackblock k /\
      forall i, (i < 2 * Z.to_nat (ackcount k))%nat -> exists v, l !! i = Some (Some v))
      as (l & El & Hlen & Hi) by (destruct (acklist k); [by eauto | lia]).
    eapply wp_mono; [eapply Hstore; [done | done | done | lia | lia | by unfold acks; rewrite El]|].
    intros k' w' (l' & -> & Hwf & Hacks & ->). exists l', (ackblock k).
    splits; [by destruct k | done | done | | done].
    unfold balanced, heap. kcp_simpl_goal. rewrite El. lia.
Qed.
End Push.
