(* ===== verification/KcpInputSpec.v ===== *)
(** * [ikcp_input] on any datagram: it returns, it touches no memory outside its
    arguments, it keeps the invariant, and it loses no block; and it reads back the segments
    that [ikcp_flush] wrote. *)
From S2P Require Import Prelude KcpBase KcpCodec KcpSend KcpRecv KcpInput KcpFlush KcpInv KcpAck.
From stdpp Require Import base list numbers strings.
Open Scope Z_scope.
Open Scope c_scope.

(** ** Decoding *)

Lemma decode32u_total d :
  (4 <= length d)%nat ->
  exists v r, ikcp_decode32u d = Some (v, r) /\ 0 <= v < 4294967296 /\ length d = (4 + length r)%nat.
Proof.
  intros H. do 4 (destruct d as [|? d]; [cbn in H; lia|]). cbn.
  eexists _, d. split; [done|]. split; [apply u32_range | done].
Qed.

Lemma decode16u_total d :
  (2 <= length d)%nat ->
  exists v r, ikcp_decode16u d = Some (v, r) /\ 0 <= v < 65536 /\ length d = (2 + length r)%nat.
Proof.
  intros H. do 2 (destruct d as [|? d]; [cbn in H; lia|]). cbn.
  eexists _, d. split; [done|]. split; [apply u16_range | done].
Qed.

Lemma decode8u_total d :
  (1 <= length d)%nat -> exists v r, ikcp_decode8u d = Some (v, r) /\ length d = (1 + length r)%nat.
Proof. intros H. destruct d as [|v d]; [cbn in H; lia|]. by exists v, d. Qed.

(** The ranges that decoding establishes. *)
Definition header_ok (h : header) : Prop :=
  0 <= h_wnd h < 65536 /\ 0 <= h_ts h < 4294967296 /\ 0 <= h_sn h < 4294967296 /\
  0 <= h_una h < 4294967296 /\ 0 <= h_len h < 4294967296.

Ltac decode1 lem d :=
  let v := fresh "v" in let r := fresh "r" in let E := fresh "E" in
  destruct (lem d) as (v & r & E & ?); [lia | rewrite E; clear E].

Lemma decode_header_total d :
  (20 <= length d)%nat ->
  exists h r, decode_header d = Some (h, r) /\ header_ok h /\ length d = (20 + length r)%nat.
Proof.
  intros H. unfold decode_header.
  decode1 decode8u_total d. decode1 decode8u_total r. decode1 decode16u_total r0.
  decode1 decode32u_total r1. decode1 decode32u_total r2. decode1 decode32u_total r3.
  decode1 decode32u_total r4.
  eexists _, r5. split; [done|]. unfold header_ok. cbn [h_wnd h_ts h_sn h_una h_len]. split; lia.
Qed.

(** ** Pure steps that keep the invariant *)

Lemma wf_update_ack k rtt : wf k -> wf (ikcp_update_ack k rtt) /\ heap (ikcp_update_ack k rtt) = heap k.
Proof.
  intros [Hc Hs Hr Hg Ha]. unfold ikcp_update_ack.
  destruct (rx_srtt k =? 0); [|destruct (_ <? 1)]; split; first
    [by constructor | done].
Qed.

Lemma ackcount_update_ack k rtt : ackcount (ikcp_update_ack k rtt) = ackcount k.
Proof. unfold ikcp_update_ack. destruct (rx_srtt k =? 0); [|destruct (_ <? 1)]; done. Qed.

Lemma ackcount_shrink k : ackcount (ikcp_shrink_buf k) = ackcount k.
Proof. unfold ikcp_shrink_buf. by destruct (snd_buf k). Qed.

(** [ikcp_fastack_loop] only changes the [fastack] counters. *)
Lemma fastack_loop_spec sn p :
  Forall2 (fun s s' => exists n, s' = s<|seg_fastack := n|>) p (ikcp_fastack_loop sn p).
Proof.
  assert (forall p0 : list IKCPSEG, Forall2 (fun s s' => exists n, s' = s<|seg_fastack := n|>) p0 p0)
    as Hrefl.
  { induction p0 as [|s p0 IH]; constructor; [|done]. exists (seg_fastack s). by destruct s. }
  induction p as [|seg next IH]; cbn [ikcp_fastack_loop]; [constructor|].
  destruct (_itimediff sn (seg_sn seg) <? 0); [apply Hrefl|].
  destruct (negb (sn =? seg_sn seg)); constructor; eauto. exists (seg_fastack seg). by destruct seg.
Qed.

(** A send buffer that differs in the retransmission fields only. *)
Definition same_wire (s s' : IKCPSEG) : Prop :=
  seg_sn s' = seg_sn s /\ seg_len s' = seg_len s /\ seg_data s' = seg_data s /\ seg_frg s' = seg_frg s.

Lemma same_wire_seg_ok s s' : same_wire s s' -> seg_ok s -> seg_ok s'.
Proof. unfold seg_ok. by intros (-> & -> & -> & _). Qed.

Lemma Forall2_same_wire (P : IKCPSEG -> Prop) l l' :
  (forall s s', same_wire s s' -> P s -> P s') ->
  Forall2 same_wire l l' -> Forall P l -> Forall P l'.
Proof. intros HP. induction 1; intros Hf; inversion Hf; subst; constructor; eauto. Qed.

Lemma wf_same_wire k l :
  wf k -> Forall2 same_wire (snd_buf k) l ->
  wf k<|snd_buf := l|> /\ heap k<|snd_buf := l|> = heap k.
Proof.
  intros [Hc (H1 & H2 & H3 & H4 & H5 & H6 & H7) Hr (G1 & G2 & G3 & G4 & G5) Ha] Hl.
  assert (map (fun s => off (snd_una k) (seg_sn s)) l =
          map (fun s => off (snd_una k) (seg_sn s)) (snd_buf k)) as Hmap.
  { clear -Hl. induction Hl as [|s s' ? ? (E & _)]; cbn; [done|]. by rewrite E, IHHl. }
  pose proof (Forall2_length _ _ _ Hl) as Hlen. split.
  - constructor; [exact Hc | | exact Hr | | exact Ha].
    + unfold wf_snd. kcp_simpl_goal. rewrite Hmap, <- Hlen. splits; [lia | lia | lia | done | | | done | done].
      * eapply Forall2_same_wire; [|done|done]. by intros s s' (-> & _).
      * destruct Hl as [|s s' ? ? (E & _)]; [done|]. by rewrite E.
    + unfold wf_segs. kcp_simpl_goal. apply Forall_app in G5 as [G5 G6]. rewrite Forall_app.
      splits; [| done | done | done | | done].
      * eapply Forall2_same_wire; [|done|done]. apply same_wire_seg_ok.
      * eapply Forall2_same_wire; [|done|done]. by intros s s' (_ & -> & _).
  - unfold heap. kcp_simpl_goal. by rewrite Hlen.
Qed.

Lemma wf_parse_fastack k sn ts :
  wf k -> wf (ikcp_parse_fastack k sn ts) /\ heap (ikcp_parse_fastack k sn ts) = heap k.
Proof.
  intros Hwf. unfold ikcp_parse_fastack. destruct (sn_out_of_flight k sn); [done|].
  apply wf_same_wire; [done|]. eapply Forall2_impl; [apply fastack_loop_spec|].
  by intros s s' [n ->].
Qed.

Lemma wf_input_cwnd k una : wf k -> wf (ikcp_input_cwnd k una) /\ heap (ikcp_input_cwnd k una) = heap k.
Proof.
  intros [Hc Hs Hr Hg Ha].
  assert (0 <= cwnd (ikcp_input_cwnd k una) /\ exists c i,
    ikcp_input_cwnd k una = k<|cwnd := c|><|incr := i|>) as (Hcw & c & i & E).
  { destruct Hc as (? & ? & ? & ? & ? & ? & ?). unfold ikcp_input_cwnd.
    repeat match goal with |- context [if ?b then _ else _] => destruct b end;
      (split; [kcp_simpl_goal; first [apply u32_range | lia |
                apply Z.div_pos; [apply u32_range | unfold IKCP_OVERHEAD in *; lia]]
              | destruct k; repeat eexists]). }
  rewrite E in *. split; [|done]. constructor; [|exact Hs | exact Hr | exact Hg | exact Ha].
  destruct Hc as (? & ? & ? & ? & ? & ? & ?). unfold wf_cfg. kcp_simpl. splits; done || lia.
Qed.

(** ** Effects *)

Section Safe.
Context {alloc : Allocator} (alloc_ok : forall n size, malloc n size <> None).

(** A fresh segment has the storage it was asked for. *)
Lemma ikcp_segment_new_spec size w :
  wp (ikcp_segment_new size)
    (fun o w' => exists s, o = Some s /\ length (seg_data s) = Z.to_nat size /\
       w_live w' = w_live w + 1 /\ w_events w' = w_events w) w.
Proof.
  unfold ikcp_segment_new. wp_step. apply wp_malloc; [done|]. intros mem. wp_step.
  eexists. split; [done|]. kcp_simpl_goal. by rewrite length_map, length_seq.
Qed.

(** Logging changes nothing but the events. *)
Lemma wp_log_if kcp mask fmt args Q w :
  (forall w', w_live w' = w_live w -> w_allocs w' = w_allocs w -> outputs w' = outputs w -> Q tt w') ->
  wp (log_if kcp mask fmt args) Q w.
Proof.
  intros H. unfold log_if, ikcp_log. repeat case_match; apply H; try done.
  unfold outputs. cbn. by rewrite omap_app, app_nil_r.
Qed.

Lemma memcpy_from_spec src n Q w :
  n <= Z.of_nat (length src) -> Q (take (Z.to_nat n) src) w -> wp (memcpy_from src n) Q w.
Proof. intros H HQ. unfold memcpy_from. by rewrite (proj2 (Z.leb_le _ _)). Qed.

(** Copying exactly as many bytes as the block has replaces its contents. *)
Lemma memcpy_to_full dst src Q w :
  length src = length dst -> Q src w -> wp (memcpy_to dst 0 src) Q w.
Proof.
  intros H HQ. unfold memcpy_to. rewrite (proj2 (Z.leb_le _ _)) by lia.
  cbn [Z.to_nat take app]. rewrite drop_ge by lia. by rewrite app_nil_r.
Qed.

(** [IKCP_CMD_PUSH]. *)
Lemma wf_input_push k h d w :
  wf k -> header_ok h -> h_len h < 2147483648 -> h_len h <= Z.of_nat (length d) ->
  ackcount k < 2147483647 ->
  wp (ikcp_input_push k h d)
    (fun k' w' => wf k' /\ balanced k w k' w' /\ ackcount k' <= ackcount k + 1) w.
Proof.
  intros Hwf (_ & _ & Hsn & _ & Hlen) Hlen' Hd Hack. unfold ikcp_input_push.
  wp_step. apply wp_log_if. intros w1 Hw1 _ _.
  destruct (_ <? 0); [|wp_step; unfold balanced; splits; [done | lia | lia]].
  wp_step. eapply wp_mono; [apply ikcp_ack_push_spec; [done | apply Hwf | done]|].
  intros k1 w2 (l & nb & Ek1 & Hack1 & _ & Hbal & _).
  assert (wf k1) as Hwf1 by (destruct Hwf as [? ? ? ? _]; rewrite Ek1 in *; by constructor).
  assert (ackcount k1 = ackcount k + 1) as Hcnt by by rewrite Ek1.
  unfold balanced in Hbal.
  destruct (0 <=? _); [|wp_step; unfold balanced; splits; [done | lia | lia]].
  wp_step. eapply wp_mono; [apply ikcp_segment_new_spec|].
  intros o w3 (s & -> & Hds & Hl3 & _). wp_step.
  assert (forall pl w4, length pl = Z.to_nat (h_len h) -> w_live w4 = w_live w3 ->
    wp (ikcp_parse_data k1 s<|seg_conv := conv k1|><|seg_cmd := h_cmd h|><|seg_frg := h_frg h|>
                      <|seg_wnd := h_wnd h|><|seg_ts := h_ts h|><|seg_sn := h_sn h|>
                      <|seg_una := h_una h|><|seg_len := h_len h|><|seg_data := pl|>)
      (fun k' w' => wf k' /\ balanced k w k' w' /\ ackcount k' <= ackcount k + 1) w4) as Hparse.
  { intros pl w4 Hpl Hl4. eapply wp_mono; [apply wf_parse_data; [done|]|].
    - unfold seg_ok. kcp_simpl_goal. lia.
    - intros k' w' (Hk' & Hb' & Ha'). unfold balanced. splits; [done | lia | lia]. }
  destruct (Z.ltb_spec 0 (h_len h)).
  - wp_step. apply memcpy_from_spec; [lia|]. apply memcpy_to_full.
    + kcp_simpl_goal. rewrite length_take, Hds. lia.
    + apply Hparse; [|done]. rewrite length_take. lia.
  - wp_step. apply Hparse; [|done]. kcp_simpl_goal. lia.
Qed.

(** [IKCP_CMD_ACK]. *)
Lemma wf_input_ack k h w :
  wf k ->
  wp (ikcp_input_ack k h)
    (fun k' w' => wf k' /\ balanced k w k' w' /\ ackcount k' = ackcount k) w.
Proof.
  intros Hwf. unfold ikcp_input_ack.
  set (k1 := if 0 <=? _ then _ else _).
  assert (wf k1 /\ heap k1 = heap k /\ ackcount k1 = ackcount k) as (Hwf1 & Hh & Ha).
  { subst k1. destruct (0 <=? _); [|done].
    destruct (wf_update_ack k (_itimediff (current k) (h_ts h)) Hwf).
    by rewrite ackcount_update_ack. }
  wp_step. eapply wp_mono; [apply ikcp_parse_ack_reduced, Hwf1|]. intros k2 w2 Hred. wp_step.
  destruct (wf_reduced _ _ _ _ Hwf1 Hred) as [? Hb]. rewrite ackcount_shrink.
  splits; [done | unfold balanced in *; lia |]. destruct Hred as (l & _ & -> & _). exact Ha.
Qed.

(** One segment of a datagram. *)
Lemma wf_input_seg k h d flag maxack ts w :
  wf k -> header_ok h -> h_len h < 2147483648 -> h_len h <= Z.of_nat (length d) ->
  ackcount k < 2147483647 ->
  wp (ikcp_input_seg k h d flag maxack ts)
    (fun r w' => let ' (k', _, _, _) := r in
       wf k' /\ balanced k w k' w' /\ ackcount k' <= ackcount k + 1) w.
Proof.
  intros Hwf Hh Hlen Hd Hack. unfold ikcp_input_seg.
  assert (wf k<|rmt_wnd := h_wnd h|>) as Hwf0.
  { destruct Hwf as [(? & ? & ? & ? & ? & ?) ? ? ? ?]. constructor; [|done..].
    unfold wf_cfg. kcp_simpl_goal. destruct Hh as (? & _). splits; first [done | lia]. }
  wp_step. eapply wp_mono; [apply ikcp_parse_una_reduced, Hwf0|]. intros k1 w1 Hred.
  destruct (wf_reduced _ _ _ _ Hwf0 Hred) as [Hwf1 Hb1].
  assert (ackcount (ikcp_shrink_buf k1) = ackcount k) as Ha1
    by (rewrite ackcount_shrink; by destruct Hred as (l & _ & -> & _)).
  generalize dependent (ikcp_shrink_buf k1). clear k1 Hred. intros k1 Hwf1 Hb1 Ha1.
  assert (w_live w1 - heap k1 = w_live w - heap k) as Hb1' by exact Hb1.
  destruct (h_cmd h =? IKCP_CMD_ACK); [|destruct (h_cmd h =? IKCP_CMD_PUSH)].
  - wp_step. eapply wp_mono; [by apply wf_input_ack|]. intros k2 w2 (Hwf2 & Hb2 & Ha2).
    destruct (if flag =? 0 then _ else _) as [[flag' maxack'] ts'].
    wp_step. apply wp_log_if. intros w3 Hw3 _ _. wp_step.
    unfold balanced in *. splits; [done | lia | lia].
  - wp_step. eapply wp_mono; [apply wf_input_push; try done; lia|].
    intros k2 w2 (Hwf2 & Hb2 & Ha2). wp_step. unfold balanced in *. splits; [done | lia | lia].
  - destruct (h_cmd h =? IKCP_CMD_WASK); wp_step; apply wp_log_if; intros w3 Hw3 _ _; wp_step;
      unfold balanced in *; (splits; [by destruct Hwf1; constructor | unfold heap in *; kcp_simpl_goal; lia | kcp_simpl_goal; lia]).
Qed.

(** The loop: [size] bytes are there, and every segment pushes at most one
    acknowledgement. *)
Lemma wf_input_loop fuel k d size flag maxack ts w :
  wf k -> size <= Z.of_nat (length d) -> (Z.to_nat size < fuel)%nat ->
  ackcount k + size / 24 < 2147483648 ->
  wp (ikcp_input_loop fuel k d size flag maxack ts)
    (fun r w' => match r with IReturn _ k' | IBreak k' _ _ _ => wf k' /\ balanced k w k' w' end) w.
Proof.
  revert k d size flag maxack ts w.
  induction fuel as [|fuel IH]; intros k d size flag maxack ts w Hwf Hd Hfuel Hack; [lia|].
  cbn [ikcp_input_loop]. unfold IKCP_OVERHEAD.
  destruct (Z.ltb_spec size 24) as [Hsz|Hsz]; [by wp_step|].
  destruct (decode32u_total d) as (cv & d1 & -> & Hcv & Hd1); [lia|]. wp_step. wp_step.
  destruct (negb (cv =? conv k)); [by wp_step|].
  destruct (decode_header_total d1) as (h & d2 & -> & Hh & Hd2); [lia|]. wp_step. wp_step.
  assert (0 <= h_len h < 4294967296) as Hr by apply Hh.
  destruct (Z.ltb_spec (size - 24) (h_len h)) as [Hl|Hl]; cbn [orb]; [by wp_step|].
  destruct (Z.ltb_spec (s32 (h_len h)) 0) as [Hs|Hs]; [by wp_step|].
  apply s32_nonneg in Hs. rewrite u32_id in Hs by lia.
  destruct (negb (known_cmd (h_cmd h))); [by wp_step|].
  assert (size / 24 = (size - 24) / 24 + 1) as Hdiv
    by (rewrite <- (Z.div_add _ 1 24) by lia; f_equal; lia).
  pose proof (Z.div_pos (size - 24) 24).
  assert ((size - 24 - h_len h) / 24 <= (size - 24) / 24) by (apply Z.div_le_mono; lia).
  wp_step. eapply wp_mono; [apply wf_input_seg; try done; lia|].
  intros [[[k' flag'] maxack'] ts'] w' (Hwf' & Hb' & Ha').
  eapply wp_mono; [apply IH; [done | rewrite length_drop; lia | lia | lia]|].
  intros [c k''|k'' ? ? ?] w'' [? Hb'']; (split; [done | unfold balanced in *; lia]).
Qed.

(** [ikcp_input]. *)
Lemma wf_input k data size w :
  wf k -> (if data is Some d then size <= Z.of_nat (length d) else True) -> 0 <= size ->
  ackcount k + size / 24 < 2147483648 ->
  wp (ikcp_input k data size) (fun r w' => wf r.2 /\ balanced k w r.2 w') w.
Proof.
  intros Hwf Hd Hsize Hack. unfold ikcp_input. wp_step. apply wp_log_if. intros w1 Hw1 _ _.
  assert (forall c w2, w_live w2 = w_live w1 -> wp (emit c;;; ret (-1, k))
    (fun r w' => wf r.2 /\ balanced k w r.2 w') w2) as Hfail.
  { intros c w2 E. wp_step. apply wp_emit. wp_step. unfold balanced. cbn. split; [done | lia]. }
  destruct data as [d|]; [|by apply Hfail].
  destruct (s32 size <? IKCP_OVERHEAD); [by apply Hfail|].
  wp_step. eapply wp_mono; [apply wf_input_loop; [done | done | lia | done]|].
  intros [code k'|k' flag maxack ts] w2 [Hwf' Hb]; wp_step; unfold balanced in *; cbn [snd].
  - split; [done | lia].
  - set (k2 := if negb (flag =? 0) then _ else _).
    assert (wf k2 /\ heap k2 = heap k') as [Hwf2 Hh2]
      by (subst k2; destruct (negb (flag =? 0)); [by apply wf_parse_fastack | done]).
    destruct (wf_input_cwnd k2 (snd_una k) Hwf2) as [? ->]. split; [done | lia].
Qed.
End Safe.

(** ** The wire format *)

(** The header of a segment, as its 24 bytes can represent it. *)
Definition header_of (s : IKCPSEG) : header :=
  mkheader (u8 (seg_cmd s)) (u8 (seg_frg s)) (u16 (seg_wnd s)) (u32 (seg_ts s)) (u32 (seg_sn s))
    (u32 (seg_una s)) (u32 (seg_len s)).

(** The two decoding steps of the loop of [ikcp_input]. *)
Definition decode_seg (data : list Z) : option (Z * header * list Z) :=
  match ikcp_decode32u data with
  | None => None
  | Some (cv, data) =>
    match decode_header data with
    | None => None
    | Some (h, data) => Some (cv, h, data)
    end
  end.

Lemma u8_u8 x : u8 (u8 x) = u8 x.
Proof. apply u8_id, u8_range. Qed.
Lemma u16_u16 x : u16 (u16 x) = u16 x.
Proof. apply u16_id, u16_range. Qed.

Lemma decode_header_encode s rest :
  decode_header (ikcp_encode8u [] (u8 (seg_cmd s)) ++ ikcp_encode8u [] (u8 (seg_frg s)) ++
    ikcp_encode16u [] (u16 (seg_wnd s)) ++ ikcp_encode32u [] (seg_ts s) ++ ikcp_encode32u [] (seg_sn s) ++
    ikcp_encode32u [] (seg_una s) ++ ikcp_encode32u [] (seg_len s) ++ rest) = Some (header_of s, rest).
Proof.
  unfold decode_header. rewrite !decode_encode8u, decode_encode16u, !decode_encode32u.
  unfold header_of. by rewrite !u8_u8, u16_u16.
Qed.

Lemma decode_conv_encode s rest :
  ikcp_decode32u (ikcp_encode_seg [] s ++ rest) = Some (u32 (seg_conv s),
    ikcp_encode8u [] (u8 (seg_cmd s)) ++ ikcp_encode8u [] (u8 (seg_frg s)) ++
    ikcp_encode16u [] (u16 (seg_wnd s)) ++ ikcp_encode32u [] (seg_ts s) ++ ikcp_encode32u [] (seg_sn s) ++
    ikcp_encode32u [] (seg_una s) ++ ikcp_encode32u [] (seg_len s) ++ rest).
Proof. rewrite ikcp_encode_seg_split. apply decode_encode32u. Qed.

Lemma decode_seg_frame s rest :
  decode_seg (frame s ++ rest) = Some (u32 (seg_conv s), header_of s, seg_data s ++ rest).
Proof.
  unfold frame, decode_seg. rewrite <- (assoc_L (++)), decode_conv_encode.
  by rewrite decode_header_encode.
Qed.
