(* ===== verification/KcpRecvSpec.v ===== *)
(** * [ikcp_peeksize] and [ikcp_recv]: which bytes of the receive queue the caller
    gets, and what is left. *)
From S2P Require Import Prelude KcpBase KcpCodec KcpSend KcpRecv KcpInput KcpFlush KcpInv.
From S2P Require Import KcpAck KcpInputSpec.
From stdpp Require Import base list numbers strings.
Open Scope Z_scope.
Open Scope c_scope.

(** The segments of the first message of a queue: up to the first [frg == 0]. *)
Fixpoint first_message (q : list IKCPSEG) : list IKCPSEG :=
  match q with
  | [] => []
  | seg :: q' => if seg_frg seg =? 0 then [seg] else seg :: first_message q'
  end.

(** A queue holds a whole message when [ikcp_peeksize] says so. *)
Definition ready (k : ikcpcb) : bool :=
  match rcv_queue k with
  | [] => false
  | seg :: _ => (seg_frg seg =? 0) || (u32 (seg_frg seg + 1) <=? nrcv_que k)
  end.

Lemma first_message_prefix q : first_message q ++ drop (length (first_message q)) q = q.
Proof.
  induction q as [|seg q IH]; cbn; [done|]. destruct (seg_frg seg =? 0); [done|].
  cbn. by rewrite IH.
Qed.

Lemma payload_app l1 l2 : payload (l1 ++ l2) = payload l1 ++ payload l2.
Proof. unfold payload. by rewrite map_app, concat_app. Qed.

Lemma payload_cons s l : payload (s :: l) = seg_data s ++ payload l.
Proof. done. Qed.

Lemma payload_first_message q :
  (length (payload (first_message q)) <= length (payload q))%nat.
Proof.
  rewrite <- (first_message_prefix q) at 2. rewrite payload_app, length_app. lia.
Qed.

(** The signed sums do not overflow when the queue holds less than 2^31 bytes. *)
Lemma peek_sum_spec q n :
  Forall seg_ok q -> 0 <= n -> n + Z.of_nat (length (payload q)) < 2147483648 ->
  ikcp_peek_sum q n = n + Z.of_nat (length (payload (first_message q))).
Proof.
  revert n. induction q as [|seg q IH]; intros n Hq Hn Hb; cbn [ikcp_peek_sum first_message].
  - cbn. lia.
  - apply Forall_cons in Hq as [(Hd & _) Hq]. rewrite payload_cons, length_app in Hb.
    rewrite s32_id by lia. destruct (seg_frg seg =? 0).
    + cbn. rewrite length_app. cbn. lia.
    + rewrite IH by (done || lia). rewrite payload_cons, length_app. lia.
Qed.

Lemma ikcp_peeksize_spec k :
  Forall seg_ok (rcv_queue k) -> Z.of_nat (length (payload (rcv_queue k))) < 2147483648 ->
  ikcp_peeksize k =
    if ready k then Z.of_nat (length (payload (first_message (rcv_queue k)))) else -1.
Proof.
  intros Hq Hb. unfold ikcp_peeksize, ready. destruct (rcv_queue k) as [|seg q] eqn:E; [done|].
  cbn [first_message]. destruct (seg_frg seg =? 0) eqn:Ef; cbn [orb].
  - apply Forall_cons in Hq as [(Hd & Hl & _) _]. rewrite s32_id by lia.
    cbn. rewrite app_nil_r. lia.
  - rewrite Z.ltb_antisym. destruct (_ <=? _); cbn [negb]; [|done].
    rewrite peek_sum_spec by (done || lia). cbn [first_message]. by rewrite Ef.
Qed.

Section Recv.
Context {alloc : Allocator}.

(** Overwriting a block from [o] on. *)
Definition splice (b : list Z) (o : nat) (d : list Z) : list Z :=
  take o b ++ d ++ drop (o + length d) b.

Lemma splice_splice b o d1 d2 :
  (o + length d1 + length d2 <= length b)%nat ->
  splice (splice b o d1) (o + length d1) d2 = splice b o (d1 ++ d2).
Proof.
  intros H. unfold splice.
  assert (length (take o b) = o) as Ho by (rewrite length_take; lia).
  rewrite (assoc_L (++) (take o b) d1).
  rewrite take_app_length' by (rewrite length_app; lia).
  rewrite drop_app_ge by (rewrite length_app; lia).
  rewrite drop_drop, !length_app, <- !(assoc_L (++)). do 4 f_equal. lia.
Qed.

Lemma length_splice b o d : (o + length d <= length b)%nat -> length (splice b o d) = length b.
Proof. intros H. unfold splice. rewrite !length_app, length_take, length_drop. lia. Qed.

(** The control block after [n] segments were taken from the head of its queue. *)
Definition consumed (n : nat) (k : ikcpcb) : ikcpcb :=
  k<|rcv_queue := drop n (rcv_queue k)|><|nrcv_que := Z.of_nat (length (rcv_queue k) - n)|>.

(** The merge loop copies the first message. *)
Lemma recv_merge_spec ispeek p k buf o len w :
  Forall seg_ok p -> (ispeek = false -> rcv_queue k = p /\ nrcv_que k = Z.of_nat (length p)) ->
  Z.of_nat (length p) <= 2147483648 -> p <> [] ->
  0 <= len -> len + Z.of_nat (length (payload p)) < 2147483648 ->
  (if buf is Some b then (o + length (payload (first_message p)) <= length b)%nat else True) ->
  wp (ikcp_recv_merge ispeek p k buf (Z.of_nat o) len)
    (fun r w' => let m := first_message p in
       r = (if ispeek then k else consumed (length m) k,
            option_map (fun b => splice b o (payload m)) buf,
            len + Z.of_nat (length (payload m))) /\
       w_live w' = w_live w - (if ispeek then 0 else Z.of_nat (length m)) /\
       outputs w' = outputs w) w.
Proof.
  revert k buf o len w. induction p as [|seg p IH]; [done|].
  intros k buf o len w Hok Hk Hlen _ Hl0 Hsum Hbuf. cbn [ikcp_recv_merge].
  apply Forall_cons in Hok as [(Hd & Hs & _) Hok].
  rewrite payload_cons, length_app in Hsum.
  assert (length (seg_data seg) <= length (payload (first_message (seg :: p))))%nat as Hhd
    by (cbn [first_message]; destruct (_ =? 0); rewrite payload_cons, length_app; lia).
  wp_step.
  set (buf1 := option_map (fun b => splice b o (seg_data seg)) buf).
  assert (wp (match buf with
      | Some b => let! d := memcpy_from (seg_data seg) (seg_len seg)
                  in let! b := memcpy_to b (Z.of_nat o) d in ret (Some b, Z.of_nat o + seg_len seg)
      | None => ret (None, Z.of_nat o) end)
    (fun r w' => r.1 = buf1 /\ r.2 = Z.of_nat (if buf is Some _ then o + length (seg_data seg) else o)
       /\ w' = w) w) as Hcopy.
  { destruct buf as [b|]; [|by wp_step]. wp_step. apply memcpy_from_spec; [lia|].
    wp_step. unfold memcpy_to. rewrite take_ge by lia. rewrite (proj2 (Z.leb_le _ _)) by lia.
    wp_step. wp_step. cbn [fst snd]. rewrite Nat2Z.id. splits; [done | lia | done]. }
  eapply wp_mono; [exact Hcopy|]. intros [b1 o1] w1 (Eb1 & Ho1 & ->). cbn [fst snd] in Eb1, Ho1. subst b1.
  rewrite s32_id by lia. wp_step. apply wp_log_if. intros w2 Hw2 _ Hout2. wp_step.
  set (k1 := if ispeek then k else consumed 1 k).
  assert (wp (if ispeek then ret k else
      ikcp_segment_delete seg;;;
      ret k<|rcv_queue := p|><|nrcv_que := u32 (nrcv_que k - 1)|>)
    (fun k' w' => k' = k1 /\ w_live w' = w_live w - (if ispeek then 0 else 1) /\ outputs w' = outputs w) w2)
    as Hdel.
  { destruct ispeek; [wp_step; splits; [done | lia | done]|]. destruct (Hk eq_refl) as [E1 E2].
    cbn [length] in E2, Hlen. wp_step. apply wp_free. wp_step. subst k1. unfold consumed.
    rewrite E1, E2, u32_id by (cbn [length] in *; lia). splits; [| cbn; lia | done].
    cbn [drop length]. do 2 f_equal. lia. }
  eapply wp_mono; [exact Hdel|]. intros k' w3 (-> & Hw3 & Hout3). cbn [first_message].
  destruct (seg_frg seg =? 0) eqn:Ef.
  - wp_step. cbn [length]. rewrite payload_cons. change (payload []) with (@nil Z).
    rewrite app_nil_r. splits; [|destruct ispeek; lia|done]. subst buf1. f_equal. lia.
  - assert (ispeek = false -> rcv_queue k1 = p /\ nrcv_que k1 = Z.of_nat (length p)) as Hk1.
    { intros ->. destruct (Hk eq_refl) as [E1 E2]. subst k1. unfold consumed. rewrite E1.
      kcp_simpl_goal. cbn [length]. split; [done | lia]. }
    cbn [first_message] in Hbuf. rewrite Ef, payload_cons, length_app in Hbuf.
    destruct (decide (p = [])) as [->|Hp].
    + cbn [ikcp_recv_merge]. wp_step. cbn [first_message length]. rewrite payload_cons.
      change (payload []) with (@nil Z).
      rewrite app_nil_r. splits; [|destruct ispeek; lia|done]. subst buf1. f_equal. lia.
    + rewrite Ho1. eapply wp_mono; [apply IH; try done; [cbn [length] in Hlen; lia | lia | lia |]|].
      * subst buf1. destruct buf as [b|]; cbn [option_map]; [|done].
        rewrite length_splice by lia. lia.
      * intros r w4 (-> & Hw4 & Hout4). cbn [length]. rewrite payload_cons, length_app.
        splits; [|destruct ispeek; lia | congruence]. f_equal; [f_equal|lia].
        -- subst k1. destruct ispeek; [done|]. destruct (Hk eq_refl) as [E1 E2].
           unfold consumed. by rewrite E1.
        -- subst buf1. destruct buf as [b|]; cbn [option_map]; [|done].
           f_equal. apply splice_splice. lia.
Qed.

Lemma wf_consumed n k :
  wf k -> (n <= length (rcv_queue k))%nat ->
  wf (consumed n k) /\ heap (consumed n k) = heap k - Z.of_nat n.
Proof.
  intros [Hc Hs (H1 & H2 & H3 & H4 & H5 & H6) (G1 & G2 & G3 & G4 & G5) Ha] Hn.
  unfold consumed. split.
  - constructor; [exact Hc | exact Hs | | | exact Ha].
    + unfold wf_rcv. kcp_simpl_goal. rewrite length_drop. splits; try done; lia.
    + unfold wf_segs. kcp_simpl_goal. splits; try done. by apply Forall_drop.
  - unfold heap. kcp_simpl_goal. rewrite length_drop. lia.
Qed.

(** What [ikcp_recv] does, on every path.  [size] is the length of the first message. *)
Definition recv_post (k : ikcpcb) (buf : option (list Z)) (len : Z) (w : world)
    (r : Z * ikcpcb * option (list Z)) (w' : world) : Prop :=
  let m := first_message (rcv_queue k) in
  let size := Z.of_nat (length (payload m)) in
  if bool_decide (rcv_queue k = []) then r = (-1, k, buf) /\ w' = w
  else if negb (ready k) then r = (-2, k, buf) /\ w' = w
  else if Z.abs len <? size then r = (-3, k, buf) /\ w' = w
  else
    let k1 := if len <? 0 then k else consumed (length m) k in
    exists k2 l1 l2, moved k1 k2 l1 l2 /\ stopped k2 /\
      r = (size,
           if (nrcv_que k2 <? rcv_wnd k) && (rcv_wnd k <=? nrcv_que k)
           then k2<|probe := Z.lor (probe k) IKCP_ASK_TELL|> else k2,
           option_map (fun b => splice b 0 (payload m)) buf) /\
      wf r.1.2 /\ balanced k w r.1.2 w' /\ outputs w' = outputs w.

Lemma first_message_length q : (length (first_message q) <= length q)%nat.
Proof.
  pose proof (f_equal length (first_message_prefix q)) as H.
  rewrite length_app in H. lia.
Qed.

Lemma ikcp_recv_spec k buf len w :
  wf k -> Z.of_nat (length (payload (rcv_queue k))) < 2147483648 ->
  -2147483648 < len < 2147483648 ->
  (if buf is Some b then Z.abs len <= Z.of_nat (length b) else True) ->
  wp (ikcp_recv k buf len) (recv_post k buf len w) w.
Proof.
  intros Hwf Hb Hlen Hbuf. pose proof Hwf as [_ _ (_ & _ & _ & _ & Hnq & Hmax) (_ & _ & Hok & _) _].
  unfold ikcp_recv, recv_post. rewrite ikcp_peeksize_spec by done.
  destruct (rcv_queue k) as [|s0 q0] eqn:Eq.
  { rewrite bool_decide_true by done. by wp_step. }
  rewrite bool_decide_false by done. cbv beta iota. rewrite <- Eq in *.
  replace (if len <? 0 then s32 (- len) else len) with (Z.abs len)
    by (destruct (Z.ltb_spec len 0); [rewrite s32_id|]; lia).
  destruct (ready k); cbn [negb]; [|by apply wp_ret].
  set (m := first_message (rcv_queue k)). set (size := Z.of_nat (length (payload m))).
  rewrite (proj2 (Z.ltb_ge size 0)) by lia.
  destruct (Z.ltb_spec (Z.abs len) size) as [Hsz|Hsz]; [by wp_step|].
  wp_step. eapply wp_mono.
  { apply (recv_merge_spec (len <? 0) _ _ _ 0 0); try done.
    - by rewrite Eq.
    - destruct buf as [b|]; [|done]. fold m. lia. }
  fold m. intros r w1 (-> & Hw1 & Hout1). rewrite Z.add_0_l. fold size. rewrite Z.eqb_refl.
  wp_step. wp_step. wp_step.
  set (k1 := if len <? 0 then k else consumed (length m) k).
  assert (wf k1 /\ heap k1 = heap k - (if len <? 0 then 0 else Z.of_nat (length m)) /\
          rcv_wnd k1 = rcv_wnd k /\ probe k1 = probe k)
    as (Hwf1 & Hh1 & Hrw & Hpr).
  { subst k1. destruct (len <? 0); [splits; [done | lia | done..]|].
    destruct (wf_consumed (length m) k); [done | apply first_message_length | done]. }
  clearbody k1.
  destruct (ikcp_move_loop_spec (rcv_buf k1) k1) as (l1 & l2 & Hm & Hr2 & Hst); [apply Hwf1..|done|].
  fold (ikcp_move k1) in *. destruct (wf_moved _ _ _ _ Hwf1 Hm Hr2) as [Hwf2 Hh2].
  assert (rcv_wnd (ikcp_move k1) = rcv_wnd k /\ probe (ikcp_move k1) = probe k) as [-> ->].
  { destruct Hm as (_ & _ & ->). done. }
  exists (ikcp_move k1), l1, l2. splits; [done | done | done | | | congruence]; cbn [fst snd].
  - destruct (_ && _); [|done]. by destruct Hwf2; constructor.
  - unfold balanced in *. destruct (_ && _); unfold heap in *; kcp_simpl_goal; lia.
Qed.
End Recv.
