(* ===== verification/KcpSendSpec.v ===== *)
(** * [ikcp_send]: fragmentation in message mode, filling up in stream mode. *)
From S2P Require Import Prelude KcpBase KcpCodec KcpSend KcpRecv KcpInput KcpFlush KcpInv.
From S2P Require Import KcpAck KcpInputSpec KcpRecvSpec.
From stdpp Require Import base list numbers strings.
Open Scope Z_scope.
Open Scope c_scope.

(** What the loop appends: [n] segments, each within the MSS. *)
Definition fragments (mss_ : Z) (frg : nat -> Z) (fs : list IKCPSEG) : Prop :=
  Forall (fun s => Z.of_nat (length (seg_data s)) = seg_len s /\ seg_len s <= mss_) fs /\
  forall j s, fs !! j = Some s -> seg_frg s = frg j.

(** The caller's bytes, when there is a buffer. *)
Definition carries (buf : option (list Z)) (len : Z) (bytes : list Z) : Prop :=
  Z.of_nat (length bytes) = len /\
  match buf with Some b => bytes = take (Z.to_nat len) b | None => True end.

Definition has_bytes (buf : option (list Z)) (len : Z) : Prop :=
  match buf with Some b => len <= Z.of_nat (length b) | None => True end.

(** The number of fragments covers the message, and is the least that does. *)
Lemma send_count_spec k len :
  wf_cfg k -> 0 <= len < 2147483648 ->
  1 <= ikcp_send_count k len /\ len <= ikcp_send_count k len * mss k /\
  ((ikcp_send_count k len - 1) * mss k < len \/ ikcp_send_count k len = 1) /\
  ikcp_send_count k len < 2147483648.
Proof.
  intros (Hm & Hs & _) Hlen. unfold IKCP_OVERHEAD in *. unfold ikcp_send_count.
  rewrite (s32_id (mss k)) by lia. destruct (Z.leb_spec len (mss k)); [lia|].
  rewrite (u32_id (len + mss k)), u32_id by lia.
  pose proof (Z.div_mod (len + mss k - 1) (mss k) ltac:(lia)) as Hd.
  pose proof (Z.mod_pos_bound (len + mss k - 1) (mss k) ltac:(lia)) as Hb.
  set (q := (len + mss k - 1) / mss k) in *.
  assert (1 <= q < 2147483648) by nia. rewrite s32_id by lia. nia.
Qed.

Section Send.
Context {alloc : Allocator} (alloc_ok : forall n size, malloc n size <> None).

Lemma carries_app buf n m x y :
  carries buf n x -> 0 <= m -> carries (option_map (drop (Z.to_nat n)) buf) m y ->
  carries buf (n + m) (x ++ y).
Proof.
  intros [Hx Hx'] Hm [Hy Hy']. split; [rewrite length_app; lia|].
  destruct buf as [b|]; [|done]. cbn [option_map] in Hy'. subst x y.
  rewrite Z2Nat.inj_add, take_take_drop by lia. done.
Qed.

(** Filling a fresh segment of [size] bytes. *)
Lemma send_fill buf seg_ size len w :
  length (seg_data seg_) = Z.to_nat size -> 0 <= size <= len -> (0 < len -> 0 < size) -> has_bytes buf len ->
  wp (match buf with
      | Some b => if 0 <? len then let! d := memcpy_from b size in memcpy_to (seg_data seg_) 0 d
                  else ret (seg_data seg_)
      | None => ret (seg_data seg_) end)
    (fun data w' => carries buf size data /\ w' = w) w.
Proof.
  intros Hd Hsz Hpos Hb. destruct buf as [b|]; [|wp_step; split; [split; [lia | done] | done]].
  cbn in Hb. destruct (Z.ltb_spec 0 len).
  - wp_step. apply memcpy_from_spec; [lia|]. apply memcpy_to_full; [rewrite length_take; lia|].
    split; [split; [rewrite length_take; lia | done] | done].
  - wp_step. assert (size = 0) as -> by lia. cbn in Hd.
    split; [split; [lia|] | done]. by apply nil_length_inv in Hd as ->.
Qed.

Lemma send_loop_spec n count i k buf len w :
  0 < mss k < 2147483648 -> 0 <= len < 2147483648 -> len <= Z.of_nat n * mss k -> has_bytes buf len ->
  u32 (nsnd_que k) = nsnd_que k ->
  wp (ikcp_send_loop n count i k buf len)
    (fun r w' => exists fs,
       r = (0, k<|snd_queue := snd_queue k ++ fs|><|nsnd_que := u32 (nsnd_que k + Z.of_nat n)|>) /\
       length fs = n /\ carries buf len (payload fs) /\
       fragments (mss k) (fun j => if stream k =? 0 then u32 (count - (i + Z.of_nat j) - 1) else 0) fs /\
       w_live w' = w_live w + Z.of_nat n /\ outputs w' = outputs w) w.
Proof.
  revert i k buf len w. induction n as [|n IH]; intros i k buf len w Hm Hlen Hn Hb Hq;
    cbn [ikcp_send_loop].
  { wp_step. exists []. rewrite app_nil_r, Z.add_0_r, Hq. splits; [by destruct k | done | | | lia | done].
    - split; [cbn; lia|]. assert (len = 0) as -> by lia. by destruct buf.
    - split; [constructor | by intros j s]. }
  set (size := if s32 (mss k) <? len then s32 (mss k) else len).
  assert (size = Z.min len (mss k)) as Hsize.
  { subst size. rewrite s32_id by lia. destruct (Z.ltb_spec (mss k) len); lia. }
  clearbody size. wp_step. eapply wp_mono; [by apply ikcp_segment_new_spec|].
  intros o w1 (s & -> & Hds & Hl1 & He1). wp_step.
  eapply wp_mono; [apply (send_fill buf s size len); [done | lia | lia | done]|].
  intros data w2 [Hdata ->].
  set (seg := s<|seg_data := data|><|seg_len := _|><|seg_frg := _|>).
  rewrite (s32_id (len - size)) by lia.
  eapply wp_mono; [apply IH; kcp_simpl_goal|].
  - done.
  - lia.
  - lia.
  - destruct buf as [b|]; cbn in *; [rewrite length_drop; lia | done].
  - by rewrite u32_u32.
  - intros r w3 (fs & -> & Hlen_fs & Hc & [Hf Hfrg] & Hl3 & Ho3). kcp_simpl_goal.
    kcp_simpl. exists (seg :: fs). splits.
    + by rewrite <- (assoc_L (++)), u32_add_l, add_1_succ, <- Nat2Z.inj_succ.
    + cbn [length]. lia.
    + rewrite payload_cons. replace len with (size + (len - size)) by lia.
      apply carries_app; [exact Hdata | lia | exact Hc].
    + split.
      * constructor; [|done]. subst seg. kcp_simpl_goal. destruct Hdata as [Hdl _].
        rewrite u32_id by lia. lia.
      * intros [|j] s0 Hj; cbn in Hj; [injection Hj as <-; subst seg; kcp_simpl_goal|].
        -- destruct (stream k =? 0); [|done]. f_equal. lia.
        -- rewrite (Hfrg _ _ Hj). destruct (stream k =? 0); [|done]. f_equal. lia.
    + lia.
    + rewrite Ho3. unfold outputs. by rewrite He1.
Qed.

(** [memcpy] inside a block. *)
Lemma memcpy_to_spec dst o src Q w :
  (o + length src <= length dst)%nat -> Q (splice dst o src) w -> wp (memcpy_to dst (Z.of_nat o) src) Q w.
Proof.
  intros H HQ. unfold memcpy_to. rewrite (proj2 (Z.leb_le _ _)) by lia. rewrite Nat2Z.id. exact HQ.
Qed.

Lemma splice_full b d : length d = length b -> splice b 0 d = d.
Proof. intros H. unfold splice. cbn [take app]. rewrite drop_ge by lia. by rewrite app_nil_r. Qed.

(** Replacing the queue of segments to be sent. *)
Lemma wf_snd_queue k q n :
  wf k -> Forall (fun s => Z.of_nat (length (seg_data s)) = seg_len s /\ seg_len s <= mss k) q ->
  n = u32 (Z.of_nat (length q)) ->
  wf k<|snd_queue := q|><|nsnd_que := n|> /\
  heap k<|snd_queue := q|><|nsnd_que := n|> =
    heap k + Z.of_nat (length q) - Z.of_nat (length (snd_queue k)).
Proof.
  intros [Hc (? & ? & ? & ? & ? & ? & _) Hr (? & ? & ? & _ & Hl) Ha] Hq ->.
  apply Forall_app in Hl as [Hl _]. split; [|unfold heap; kcp_simpl_goal; lia].
  constructor; [exact Hc | unfold wf_snd; kcp_simpl_goal; splits; first [done | lia] | exact Hr | | exact Ha].
  unfold wf_segs. kcp_simpl_goal. rewrite Forall_app.
  splits; try done; (eapply Forall_impl; [exact Hq | tauto]).
Qed.

Lemma queue_bounds k s : wf k -> s ∈ snd_queue k ->
  Z.of_nat (length (seg_data s)) = seg_len s /\ seg_len s <= mss k.
Proof.
  intros [_ _ _ (_ & _ & _ & H1 & H2) _] Hin. apply Forall_app in H2 as [_ H2].
  rewrite Forall_forall in H1, H2. auto.
Qed.

(** Stream mode tops up the last queued segment with [x] bytes. *)
Definition topped_up (k : ikcpcb) (buf : option (list Z)) (x : Z) (k' : ikcpcb) : Prop :=
  x = 0 /\ k' = k \/
  exists q old new d, snd_queue k = q ++ [old] /\ k' = k<|snd_queue := q ++ [new]|> /\
    carries buf x d /\ seg_data new = seg_data old ++ d /\
    Z.of_nat (length (seg_data new)) = seg_len new /\ seg_len new <= mss k /\ seg_frg new = 0.

Lemma send_stream_spec k buf len w :
  wf k -> 0 <= len < 2147483648 -> has_bytes buf len ->
  wp (ikcp_send_stream k buf len)
    (fun r w' => exists x k' buf', r = (k', buf', len - x) /\ 0 <= x <= len /\ topped_up k buf x k' /\
       match buf, buf' with
       | Some b, Some b' => b' = drop (Z.to_nat x) b | None, None => True | _, _ => False end /\
       w_live w' = w_live w /\ outputs w' = outputs w) w.
Proof.
  intros Hwf Hlen Hb. pose proof Hwf as [(Hm & Hs & _) _ _ _ _]. unfold IKCP_OVERHEAD in Hs.
  assert (forall w, exists x k' buf', (k, buf, len) = (k', buf', len - x) /\ 0 <= x <= len /\
     topped_up k buf x k' /\ match buf, buf' with
       | Some b, Some b' => b' = drop (Z.to_nat x) b | None, None => True | _, _ => False end /\
     w_live w = w_live w /\ outputs w = outputs w) as Hid.
  { intros w0. exists 0, k, buf. rewrite Z.sub_0_r. splits; [done | lia | lia | by left | by destruct buf | done..]. }
  unfold ikcp_send_stream. destruct (last (snd_queue k)) as [old|] eqn:El; [|by apply wp_ret].
  destruct (seg_len old <? mss k) eqn:Elt; [|by apply wp_ret]. apply Z.ltb_lt in Elt.
  apply last_Some in El as [q Eq].
  destruct (queue_bounds k old) as [Hold _]; [done | rewrite Eq; apply elem_of_app; right; by left |].
  rewrite (s32_id (mss k - seg_len old)) by lia.
  set (x := if len <? mss k - seg_len old then len else mss k - seg_len old).
  assert (0 <= x <= len /\ seg_len old + x <= mss k) as [Hx Hxm].
  { subst x. destruct (Z.ltb_spec len (mss k - seg_len old)); lia. }
  clearbody x. rewrite (s32_id (seg_len old + x)), (u32_id (seg_len old + x)) by lia.
  wp_step. eapply wp_mono; [by apply ikcp_segment_new_spec|].
  intros o w1 (s & -> & Hds & Hl1 & He1). wp_step. apply memcpy_from_spec; [lia|].
  rewrite take_ge by lia. wp_step. apply (memcpy_to_spec _ 0); [lia|].
  wp_step.
  assert (forall data w2, (exists d, carries buf x d /\ data = seg_data old ++ d) -> w2 = w1 ->
    wp (ikcp_segment_delete old;;;
        ret (k<|snd_queue := removelast (snd_queue k) ++
               [s<|seg_data := data|><|seg_len := seg_len old + x|><|seg_frg := 0|>]|>,
             option_map (drop (Z.to_nat x)) buf, s32 (len - x)))
     (fun r w' => exists x k' buf', r = (k', buf', len - x) /\ 0 <= x <= len /\ topped_up k buf x k' /\
       match buf, buf' with
       | Some b, Some b' => b' = drop (Z.to_nat x) b | None, None => True | _, _ => False end /\
       w_live w' = w_live w /\ outputs w' = outputs w) w2) as Hfin.
  { intros data w2 (d & Hd & ->) ->. wp_step. apply wp_free. wp_step.
    rewrite s32_id, Eq, removelast_last by lia.
    eexists x, _, _. splits; [done | lia | lia | | by destruct buf | cbn; lia | unfold outputs; cbn; by rewrite He1].
    right. eexists q, old, _, d. splits; [done | done | done | done | | |]; kcp_simpl_goal; [|lia|done].
    rewrite length_app. destruct Hd. lia. }
  destruct buf as [b|]; cbn [option_map] in Hfin; cbn in Hb.
  - wp_step. apply memcpy_from_spec; [lia|]. wp_step. rewrite <- Hold.
    apply memcpy_to_spec; [rewrite length_splice, length_take by lia; lia|]. wp_step.
    rewrite Hold. apply Hfin; [|done]. exists (take (Z.to_nat x) b).
    split; [split; [rewrite length_take; lia | done]|].
    rewrite (splice_splice _ 0) by (rewrite length_take; lia).
    apply splice_full. rewrite length_app, length_take. lia.
  - wp_step. apply Hfin; [|done]. exists (drop (length (seg_data old)) (seg_data s)).
    split; [split; [rewrite length_drop; lia | done] | done].
Qed.

Lemma wf_topped_up k buf x k' :
  wf k -> topped_up k buf x k' -> wf k' /\ heap k' = heap k /\ mss k' = mss k /\ stream k' = stream k.
Proof.
  intros Hwf [[_ ->]|(q & old & new & d & Eq & -> & _ & _ & H1 & H2 & _)]; [done|].
  assert (Forall (fun s => Z.of_nat (length (seg_data s)) = seg_len s /\ seg_len s <= mss k) (q ++ [new])) as Hf.
  { apply Forall_app. split; [|by repeat constructor]. apply Forall_forall. intros s Hs.
    apply queue_bounds; [done|]. rewrite Eq. apply elem_of_app. by left. }
  destruct (wf_snd_queue k (q ++ [new]) (nsnd_que k) Hwf Hf) as [Hwf' Hh].
  { pose proof Hwf as [_ (_ & _ & _ & _ & _ & _ & ->) _ _ _]. rewrite Eq, !length_app. done. }
  splits; [|unfold heap in *; kcp_simpl_goal; kcp_simpl; rewrite Eq, !length_app in *; cbn [length] in *; lia | done | done].
  destruct Hwf'. by constructor.
Qed.

(** What [ikcp_send] does, on every path. *)
Definition send_post (k : ikcpcb) (buf : option (list Z)) (len : Z) (r : Z * ikcpcb) : Prop :=
  if len <? 0 then r = (-1, k)
  else exists x k1, 0 <= x <= len /\ topped_up k buf x k1 /\ (stream k = 0 -> x = 0 /\ k1 = k) /\
    let count := ikcp_send_count k (len - x) in
    if negb (stream k =? 0) && (len - x <=? 0) then r = (0, k1)
    else if IKCP_WND_RCV <=? count then r = (-2, k1)
    else exists fs,
      r = (0, k1<|snd_queue := snd_queue k1 ++ fs|><|nsnd_que := u32 (nsnd_que k1 + count)|>) /\
      Z.of_nat (length fs) = count /\
      carries (option_map (drop (Z.to_nat x)) buf) (len - x) (payload fs) /\
      fragments (mss k) (fun j => if stream k =? 0 then count - 1 - Z.of_nat j else 0) fs.

Lemma ikcp_send_spec k buf len w :
  wf k -> len < 2147483648 -> has_bytes buf len ->
  wp (ikcp_send k buf len)
    (fun r w' => send_post k buf len r /\ wf r.2 /\ balanced k w r.2 w' /\ outputs w' = outputs w) w.
Proof.
  intros Hwf Hlen Hb. pose proof Hwf as [Hcfg _ _ _ _]. pose proof Hcfg as (Hm & Hs & _).
  unfold IKCP_OVERHEAD in Hs. unfold ikcp_send, send_post.
  rewrite (proj2 (Z.ltb_lt 0 (mss k))) by lia. wp_step. wp_step.
  destruct (Z.ltb_spec len 0) as [|H0]; [by wp_step|]. wp_step.
  assert (wp (if negb (stream k =? 0) then ikcp_send_stream k buf len else ret (k, buf, len))
    (fun r w' => exists x k1 buf', r = (k1, buf', len - x) /\ 0 <= x <= len /\ topped_up k buf x k1 /\
       (stream k = 0 -> x = 0 /\ k1 = k) /\ buf' = option_map (drop (Z.to_nat x)) buf /\
       w_live w' = w_live w /\ outputs w' = outputs w) w) as Htop.
  { destruct (Z.eqb_spec (stream k) 0) as [E|E]; cbn [negb].
    - wp_step. exists 0, k, buf. rewrite Z.sub_0_r.
      splits; [done | lia | lia | by left | done | by destruct buf | done..].
    - eapply wp_mono; [by apply send_stream_spec|].
      intros r w1 (x & k1 & buf' & -> & Hx & Ht & Hbuf & Hl & Ho). exists x, k1, buf'.
      splits; [done | lia | lia | done | done | | done | done].
      destruct buf, buf'; cbn; first [done | by subst]. }
  eapply wp_mono; [exact Htop|]. clear Htop.
  intros r w1 (x & k1 & buf' & -> & Hx & Ht & Hst & -> & Hl1 & Ho1).
  destruct (wf_topped_up _ _ _ _ Hwf Ht) as (Hwf1 & Hh1 & Hmss & Hstr).
  assert (balanced k w k1 w1) as Hbal1 by (unfold balanced; lia).
  assert (ikcp_send_count k1 (len - x) = ikcp_send_count k (len - x)) as ->
    by (unfold ikcp_send_count; by rewrite Hmss).
  rewrite Hstr.
  destruct (negb (stream k =? 0) && (len - x <=? 0)) eqn:Edone.
  { wp_step. cbn [snd]. splits; [|done|done|done]. exists x, k1. rewrite Edone. splits; try lia; done. }
  destruct (send_count_spec k (len - x)) as (Hc1 & Hc2 & _ & Hc3); [done | lia|].
  set (count := ikcp_send_count k (len - x)) in *.
  destruct (Z.leb_spec IKCP_WND_RCV count) as [Hbig|Hsmall].
  { wp_step. cbn [snd]. splits; [|done|done|done]. exists x, k1. rewrite Edone. fold count.
    rewrite (proj2 (Z.leb_le _ _)) by lia. splits; try lia; done. }
  rewrite (proj2 (Z.eqb_neq count 0)) by lia.
  pose proof Hwf1 as [_ (_ & _ & _ & _ & _ & _ & Hnq) _ _ _].
  eapply wp_mono; [apply send_loop_spec; try done; rewrite ?Hmss; try lia|].
  - destruct buf as [b|]; cbn in *; [rewrite length_drop; lia | done].
  - by rewrite Hnq, u32_u32.
  - intros r w2 (fs & -> & Hlf & Hcar & Hfr & Hl2 & Ho2). cbn [snd].
    rewrite Hmss, Hstr in Hfr. rewrite Z2Nat.id in * by lia.
    assert (Forall (fun s => Z.of_nat (length (seg_data s)) = seg_len s /\ seg_len s <= mss k1)
              (snd_queue k1 ++ fs)) as Hf.
    { apply Forall_app. split; [apply Forall_forall; intros; by apply queue_bounds|].
      rewrite Hmss. apply Hfr. }
    destruct (wf_snd_queue k1 _ (u32 (nsnd_que k1 + count)) Hwf1 Hf) as [Hwf2 Hh2].
    { rewrite Hnq, u32_add_l, length_app. f_equal. lia. }
    splits; [|done| |congruence].
    + exists x, k1. rewrite Edone. fold count.
      rewrite (proj2 (Z.leb_gt _ _)) by lia. splits; [lia | lia | done | done |].
      exists fs. splits; [done | lia | done |]. destruct Hfr as [Hfr1 Hfr2].
      split; [done|]. intros j s Hj. rewrite (Hfr2 j s Hj).
      destruct (stream k =? 0); [|done]. apply lookup_lt_Some in Hj.
      rewrite u32_id; lia.
    + unfold balanced in *. rewrite Hh2, length_app. lia.
Qed.
End Send.
