(* ===== verification/KcpFlushSpec.v ===== *)
(** * [ikcp_flush]: the datagrams it hands to the output callback, and the control
    block it leaves. *)
From S2P Require Import Prelude KcpBase KcpCodec KcpSend KcpRecv KcpInput KcpFlush KcpInv.
From S2P Require Import KcpAck KcpInputSpec.
From stdpp Require Import base list numbers strings.
Open Scope Z_scope.
Open Scope c_scope.

(** ** Packing segments into datagrams *)

Definition size (l : list IKCPSEG) : Z := Z.of_nat (length (frames l)).

(** From the segments [cur] in the flush block, adding [new]: the datagrams [b] were
    handed out, the segments [c] are in the block.  Segments keep their order, none
    is lost, none is cut, and no datagram passes the MTU. *)
Definition packed (m : Z) (cur new : list IKCPSEG) (ptr : list Z) (w w' : world) : Prop :=
  exists b c, ptr = frames c /\ size c <= m /\ outputs w' = outputs w ++ map frames b /\
    concat b ++ c = cur ++ new /\ Forall (fun d => d <> [] /\ size d <= m) b /\
    w_live w' = w_live w.

Lemma packed_refl m cur w w' :
  size cur <= m -> outputs w' = outputs w -> w_live w' = w_live w -> packed m cur [] (frames cur) w w'.
Proof.
  intros Hs Ho Hl. exists [], cur. cbn [map concat app]. rewrite !app_nil_r.
  splits; [done | done | done | done | constructor | done].
Qed.

(** Packing composes. *)
Lemma packed_seq m cur new1 ptr1 w w1 :
  packed m cur new1 ptr1 w w1 ->
  exists c, ptr1 = frames c /\ size c <= m /\
    forall new2 ptr2 w2, packed m c new2 ptr2 w1 w2 -> packed m cur (new1 ++ new2) ptr2 w w2.
Proof.
  intros (b1 & c1 & -> & Hs1 & Ho1 & Hc1 & Hf1 & Hl1). exists c1. splits; [done | done |].
  intros new2 ptr2 w2 (b2 & c2 & -> & Hs2 & Ho2 & Hc2 & Hf2 & Hl2).
  exists (b1 ++ b2), c2. splits; [done | done | | | by apply Forall_app | lia].
  - by rewrite Ho2, Ho1, map_app, (assoc_L (++)).
  - by rewrite concat_app, <- (assoc_L (++)), Hc2, !(assoc_L (++)), Hc1.
Qed.

Lemma size_app l1 l2 : size (l1 ++ l2) = size l1 + size l2.
Proof. unfold size. rewrite frames_app, length_app. lia. Qed.

Lemma frames_one s : frames [s] = frame s.
Proof. rewrite frames_cons. apply app_nil_r. Qed.

Lemma size_one s : size [s] = 24 + Z.of_nat (length (seg_data s)).
Proof. unfold size. rewrite frames_one, frame_length. lia. Qed.

Lemma size_0_nil c : size c = 0 -> c = [].
Proof.
  destruct c as [|s c]; [done|]. change (s :: c) with ([s] ++ c). rewrite size_app, size_one.
  unfold size. lia.
Qed.

Section Flush.
Context (k : ikcpcb) (Hcfg : wf_cfg k) (Hout : output k = true).

Lemma wp_output data Q w :
  (forall w', w_live w' = w_live w -> 
     outputs w' = outputs w ++ (if decide (data = []) then [] else [data]) -> Q tt w') ->
  wp (ikcp_output k data) Q w.
Proof.
  intros H. unfold ikcp_output. rewrite Hout. wp_step. wp_step. wp_step.
  apply wp_log_if. intros w1 Hl1 _ Ho1.
  destruct (Z.eqb_spec (Z.of_nat (length data)) 0) as [E|E].
  - wp_step. apply H; [done|]. rewrite decide_True, app_nil_r; [done|].
    apply nil_length_inv. lia.
  - apply wp_emit. apply H; [done|]. rewrite decide_False by (intros ->; done).
    unfold outputs in *. cbn [w_events]. rewrite omap_app, Ho1. done.
Qed.

(** The MTU test, the datagram it may send, and the bounds check on the block. *)
Lemma flush_room_spec cur need w :
  size cur <= mtu k -> 0 <= need <= mtu k ->
  wp (flush_room k (frames cur) need)
    (fun ptr w' => exists c, ptr = frames c /\ size c + need <= mtu k /\
       forall new ptr' w2, 
         packed (mtu k) c new ptr' w' w2 -> packed (mtu k) cur new ptr' w w2) w.
Proof.
  intros Hsz Hneed. destruct Hcfg as (Hm & _). unfold flush_room. fold (size cur).
  assert (0 <= size cur) by (unfold size; lia).
  rewrite (s32_id (mtu k)), (s32_id (size cur + need)) by lia.
  destruct (Z.ltb_spec (mtu k) (size cur + need)) as [Hlt|Hge].
  - wp_step. apply wp_output. intros w1 Hl1 Ho1. wp_step. exists [].
    splits; [done | change (size []) with 0; lia |]. intros new ptr' w2 (b & c & -> & Hs & Ho & Hc & Hf & Hl).
    destruct (decide (frames cur = [])) as [E|E].
    + assert (cur = []) as -> by (apply size_0_nil; unfold size; by rewrite E).
      exists b, c. splits; try done; [|lia]. by rewrite Ho, Ho1, app_nil_r.
    + exists (cur :: b), c. splits; [done | done | | | | lia].
      * rewrite Ho, Ho1, <- (assoc_L (++)). done.
      * cbn [concat]. by rewrite <- (assoc_L (++)), Hc.
      * constructor; [|done]. split; [by intros -> | done].
  - wp_step. exists cur. splits; [done | lia | done].
Qed.

Lemma flush_put_spec ptr (Q : list Z -> world -> Prop) w :
  Z.of_nat (length ptr) <= 3 * (mtu k + 24) -> Q ptr w -> wp (flush_put k ptr) Q w.
Proof.
  intros H HQ. destruct Hcfg as (_ & _ & Hb & _). unfold flush_put, IKCP_OVERHEAD in *. rewrite Hb.
  by rewrite (proj2 (Z.leb_le _ _)).
Qed.

(** Packing one more segment into the block. *)
Lemma packed_one c s w :
  size c + size [s] <= mtu k -> packed (mtu k) c [s] (frames (c ++ [s])) w w.
Proof.
  intros H. exists [], (c ++ [s]). cbn [map concat app]. rewrite app_nil_r.
  splits; [done | rewrite size_app; lia | done | done | constructor | done].
Qed.

(** A segment without data: acknowledgements and probes. *)
Lemma flush_put_ctl c seg w Q :
  size c + 24 <= mtu k -> seg_data seg = [] ->
  (forall ptr, packed (mtu k) c [seg] ptr w w -> Q ptr w) ->
  wp (flush_put k (ikcp_encode_seg (frames c) seg)) Q w.
Proof.
  intros Hc Hd HQ. destruct Hcfg as (Hm & _).
  assert (ikcp_encode_seg (frames c) seg = frames (c ++ [seg])) as ->.
  { rewrite ikcp_encode_seg_app, frames_app, frames_one. unfold frame. by rewrite Hd, app_nil_r. }
  assert (size [seg] = 24) as Hs by (rewrite size_one, Hd; done).
  apply flush_put_spec; [fold (size (c ++ [seg])); rewrite size_app; lia|].
  apply HQ, packed_one. lia.
Qed.

Lemma flush_ctl_spec cur seg w :
  size cur <= mtu k -> seg_data seg = [] ->
  wp (let! ptr := flush_room k (frames cur) IKCP_OVERHEAD in flush_put k (ikcp_encode_seg ptr seg))
    (fun ptr w' => packed (mtu k) cur [seg] ptr w w') w.
Proof.
  intros Hsz Hd. destruct Hcfg as (Hm & _). wp_step.
  eapply wp_mono; [apply flush_room_spec; unfold IKCP_OVERHEAD; lia|].
  unfold IKCP_OVERHEAD. intros ptr w1 (c & -> & Hc & Hpack).
  apply flush_put_ctl; [lia | done |]. intros ptr Hp. by apply Hpack.
Qed.

(** A data segment. *)
Lemma flush_write_spec cur seg w :
  size cur <= mtu k -> Z.of_nat (length (seg_data seg)) = seg_len seg -> seg_len seg <= mss k ->
  wp (flush_write k (frames cur) seg) (fun ptr w' => packed (mtu k) cur [seg] ptr w w') w.
Proof.
  intros Hsz Hd Hl. destruct Hcfg as (Hm & Hs & _). unfold flush_write, IKCP_OVERHEAD in *.
  rewrite u32_id, s32_id by lia. wp_step.
  eapply wp_mono; [apply flush_room_spec; lia|]. intros ptr w1 (c & -> & Hc & Hpack). wp_step.
  assert (ikcp_encode_seg (frames c) seg ++ seg_data seg = frames (c ++ [seg])) as Hfr.
  { rewrite ikcp_encode_seg_app, frames_app, frames_one. unfold frame. by rewrite (assoc_L (++)). }
  assert (size [seg] = 24 + seg_len seg) as Hone by (rewrite size_one; lia).
  assert (size (c ++ [seg]) <= 3 * (mtu k + 24)) as Hcap by (rewrite size_app; lia).
  unfold size in Hcap. rewrite <- Hfr, length_app in Hcap.
  apply flush_put_spec; [lia|].
  destruct (Z.ltb_spec 0 (seg_len seg)).
  - wp_step. apply memcpy_from_spec; [lia|]. rewrite take_ge by lia.
    apply flush_put_spec; [rewrite length_app; lia|].
    rewrite Hfr. apply Hpack, packed_one. lia.
  - wp_step. assert (seg_data seg = []) as E by (apply nil_length_inv; lia).
    rewrite E, app_nil_r in Hfr. rewrite Hfr. apply Hpack, packed_one. lia.
Qed.
End Flush.

(** ** What is sent *)

(** Acknowledgements, in the order they were pushed. *)
Definition ack_seg (seg : IKCPSEG) (p : Z * Z) : IKCPSEG := seg<|seg_sn := p.1|><|seg_ts := p.2|>.

(** The template after the last acknowledgement. *)
Definition after_acks (seg : IKCPSEG) (l : list (Z * Z)) : IKCPSEG :=
  match last l with Some p => ack_seg seg p | None => seg end.

Definition probe_segs (k : ikcpcb) (seg : IKCPSEG) : list IKCPSEG :=
  (if Z.land (probe k) IKCP_ASK_SEND =? 0 then [] else [seg<|seg_cmd := IKCP_CMD_WASK|>]) ++
  (if Z.land (probe k) IKCP_ASK_TELL =? 0 then [] else [seg<|seg_cmd := IKCP_CMD_WINS|>]).

(** The control segments of a flush. *)
Definition control_segs (k : ikcpcb) : list IKCPSEG :=
  map (ack_seg (flush_template k)) (acks k) ++
  probe_segs (flush_probe_timer k<|ackcount := 0|>) (after_acks (flush_template k) (acks k)).

(** The control block once they are written. *)
Definition after_control (k : ikcpcb) : ikcpcb :=
  (flush_probe_timer k<|ackcount := 0|>)<|probe := 0|>.

Lemma flush_probe_timer_fields k :
  exists tp pw pr, flush_probe_timer k = k<|ts_probe := tp|><|probe_wait := pw|><|probe := pr|>.
Proof.
  exists (ts_probe (flush_probe_timer k)), (probe_wait (flush_probe_timer k)), (probe (flush_probe_timer k)).
  unfold flush_probe_timer.
  repeat match goal with |- context [if ?b then _ else _] => destruct b end;
    first [reflexivity | by destruct k].
Qed.

(** Each read of the ack list finds an initialised pair. *)
Lemma ack_get_spec k i w :
  wf_ack k -> (i < Z.to_nat (ackcount k))%nat ->
  wp (ikcp_ack_get k (Z.of_nat i)) (fun r w' => acks k !! i = Some r /\ w' = w) w.
Proof.
  intros (Hc & Hl) Hi. destruct (acklist k) as [l|] eqn:El; [|lia]. destruct Hl as [_ Hl].
  destruct (Hl (2 * i)%nat) as [sn Hsn]; [lia|]. destruct (Hl (2 * i + 1)%nat) as [ts Hts]; [lia|].
  unfold ikcp_ack_get, acklist_get. rewrite El.
  rewrite !(proj2 (Z.ltb_ge _ 0)) by lia.
  replace (Z.to_nat (Z.of_nat i * 2 + 0)) with (2 * i)%nat by lia.
  replace (Z.to_nat (Z.of_nat i * 2 + 1)) with (2 * i + 1)%nat by lia.
  rewrite Hsn, Hts. wp_step. wp_step. wp_step. wp_step. wp_step. split; [|done].
  unfold acks. rewrite El. unfold ack_pairs, cell.
  change (map ?f ?s !! i) with ((f <$> s) !! i).
  rewrite list_lookup_fmap, lookup_seq_lt by done. cbn [fmap option_fmap option_map Nat.add].
  by rewrite Hsn, Hts.
Qed.

(** Data moved within the same world. *)
Lemma last_ack_seg seg p l : after_acks (ack_seg seg p) l = after_acks seg (p :: l).
Proof.
  unfold after_acks. rewrite last_cons. by destruct (last l).
Qed.

Lemma flush_acks_spec k n i seg cur w :
  wf_cfg k -> output k = true -> wf_ack k -> (i + n)%nat = Z.to_nat (ackcount k) ->
  length (acks k) = Z.to_nat (ackcount k) -> seg_data seg = [] -> size cur <= mtu k ->
  wp (flush_acks n (Z.of_nat i) k seg (frames cur))
    (fun r w' => r.1 = after_acks seg (drop i (acks k)) /\
       packed (mtu k) cur (map (ack_seg seg) (drop i (acks k))) r.2 w w') w.
Proof.
  intros Hcfg Hout Hack. revert i seg cur w.
  induction n as [|n IH]; intros i seg cur w Hn Hlen Hd Hsz; cbn [flush_acks].
  { wp_step. rewrite drop_ge by lia. split; [done|]. by apply packed_refl. }
  wp_step. pose proof Hcfg as (Hm & _).
  eapply wp_mono; [apply flush_room_spec; try done; unfold IKCP_OVERHEAD; lia|].
  unfold IKCP_OVERHEAD. intros ptr w1 (c & -> & Hc & Hpack).
  wp_step. eapply wp_mono; [apply ack_get_spec; [done | lia]|].
  intros [sn ts] w2 [Hi ->]. rewrite (drop_S _ _ _ Hi). cbn [map]. wp_step.
  apply flush_put_ctl; [done | lia | done |]. intros ptr Hp.
  apply Hpack in Hp. apply packed_seq in Hp as (c2 & -> & Hc2 & Hp).
  replace (Z.of_nat i + 1) with (Z.of_nat (S i)) by lia.
  eapply wp_mono; [apply IH; [lia | done | done | done]|].
  intros [seg' ptr'] w3 [Hseg Hp3]. cbn [fst snd] in *. split.
  - by rewrite Hseg, (last_ack_seg seg (sn, ts)).
  - change (ack_seg seg (sn, ts) :: ?l) with ([ack_seg seg (sn, ts)] ++ l). by apply Hp.
Qed.

Lemma acks_length k : wf_ack k -> length (acks k) = Z.to_nat (ackcount k).
Proof.
  intros (Hc & Hl). unfold acks. destruct (acklist k); [|cbn; lia].
  unfold ack_pairs. by rewrite length_map, length_seq.
Qed.

(** One probe. *)
Lemma flush_probe_spec k bit cmd seg cur w :
  wf_cfg k -> output k = true -> seg_data seg = [] -> size cur <= mtu k ->
  wp (flush_probe bit cmd k seg (frames cur))
    (fun r w' => r.1 = (if Z.land (probe k) bit =? 0 then seg else seg<|seg_cmd := cmd|>) /\
       packed (mtu k) cur (if Z.land (probe k) bit =? 0 then [] else [seg<|seg_cmd := cmd|>]) r.2 w w') w.
Proof.
  intros Hcfg Hout Hd Hsz. unfold flush_probe. destruct (Z.land (probe k) bit =? 0); cbn [negb].
  - wp_step. split; [done|]. by apply packed_refl.
  - pose proof (flush_ctl_spec k Hcfg Hout cur seg<|seg_cmd := cmd|> w Hsz Hd) as H.
    cbv zeta. apply wp_assoc, wp_bind. eapply wp_mono; [exact H|].
    intros ptr w' Hp. wp_step. by split.
Qed.

(** All control segments. *)
Lemma flush_control_spec k w :
  wf k -> output k = true -> ackcount k < 2147483648 ->
  wp (flush_control k [])
    (fun r w' => r.1 = after_control k /\ packed (mtu k) [] (control_segs k) r.2 w w') w.
Proof.
  intros [Hcfg _ _ _ Hack] Hout Hcnt. unfold flush_control. pose proof Hack as (Hc & _).
  rewrite s32_id by lia. wp_step. change (@nil Z) with (frames []).
  eapply wp_mono; [apply (flush_acks_spec k _ 0); try done; [by apply acks_length|]|].
  { destruct Hcfg as (Hm & _). change (size []) with 0. lia. }
  intros [seg ptr] w1 [Hseg Hp]. cbn [fst snd] in Hseg, Hp. rewrite drop_0 in *. subst seg.
  apply packed_seq in Hp as (c1 & -> & Hc1 & Hp1).
  set (seg := after_acks (flush_template k) (acks k)) in *.
  assert (seg_data seg = []) as Hd by (subst seg; unfold after_acks; by destruct (last (acks k))).
  set (k1 := flush_probe_timer k<|ackcount := 0|>).
  destruct (flush_probe_timer_fields k<|ackcount := 0|>) as (tp & pw & pr & Ek1).
  assert (wf_cfg k1 /\ output k1 = true /\ mtu k1 = mtu k) as (Hcfg1 & Hout1 & Hm1)
    by (subst k1; rewrite Ek1; done).
  wp_step. rewrite <- Hm1 in *.
  eapply wp_mono; [by apply flush_probe_spec|]. intros [seg1 ptr1] w2 [Hseg1 Hp2]. cbn [fst snd] in Hseg1, Hp2. subst seg1.
  pose proof Hp2 as Hp2'. apply packed_seq in Hp2' as (c2 & -> & Hc2 & Hp2').
  wp_step. eapply wp_mono; [apply flush_probe_spec; try done; by destruct (_ =? 0)|].
  intros [seg2 ptr2] w3 [_ Hp3]. cbn [snd] in Hp3. wp_step. cbn [fst snd]. split; [done|].
  unfold control_segs. apply Hp1. unfold probe_segs. apply Hp2'.
  destruct (Z.land (probe k1) IKCP_ASK_SEND =? 0); exact Hp3.
Qed.

(** ** Moving segments into the window *)

(** The segment as it enters [snd_buf]. *)
Definition stamp (k : ikcpcb) (wnd current_ sn : Z) (s : IKCPSEG) : IKCPSEG :=
  s<|seg_conv := conv k|><|seg_cmd := IKCP_CMD_PUSH|><|seg_wnd := wnd|><|seg_ts := current_|>
   <|seg_sn := sn|><|seg_una := rcv_nxt k|><|seg_resendts := current_|><|seg_rto := u32 (rx_rto k)|>
   <|seg_fastack := 0|><|seg_xmit := 0|>.

(** Consecutive numbers from [sn] on. *)
Fixpoint stamped (k : ikcpcb) (wnd current_ sn : Z) (l : list IKCPSEG) : list IKCPSEG :=
  match l with
  | [] => []
  | s :: l' => stamp k wnd current_ sn s :: stamped k wnd current_ (u32 (sn + 1)) l'
  end.

(** The control block after [n] segments have moved. *)
Definition moved_out (k : ikcpcb) (wnd current_ : Z) (n : nat) : ikcpcb :=
  k<|snd_queue := drop n (snd_queue k)|>
   <|snd_buf := snd_buf k ++ stamped k wnd current_ (snd_nxt k) (take n (snd_queue k))|>
   <|nsnd_que := u32 (Z.of_nat (length (drop n (snd_queue k))))|>
   <|nsnd_buf := u32 (Z.of_nat (length (snd_buf k) + length (take n (snd_queue k))))|>
   <|snd_nxt := u32 (snd_nxt k + Z.of_nat (length (take n (snd_queue k))))|>.

Lemma stamped_length k wnd cur sn l : length (stamped k wnd cur sn l) = length l.
Proof. revert sn. induction l as [|s l IH]; intros sn; cbn; [done|]. by rewrite IH. Qed.

Lemma stamped_forall (P : IKCPSEG -> Prop) k wnd cur sn l :
  (forall s n, 0 <= n < 4294967296 -> s ∈ l -> P (stamp k wnd cur n s)) -> 0 <= sn < 4294967296 ->
  Forall P (stamped k wnd cur sn l).
Proof.
  revert sn. induction l as [|s l IH]; intros sn H Hsn; cbn; constructor.
  - apply H; [done | by left].
  - apply IH; [|apply u32_range]. intros; apply H; [done | by right].
Qed.

(** One segment. *)
Lemma wf_snd_move1 k wnd cur s l c :
  wf_snd k -> snd_queue k = s :: l -> off (snd_una k) (snd_nxt k) < c -> c < 65536 ->
  wf_snd (moved_out k wnd cur 1) /\
  off (snd_una k) (u32 (snd_nxt k + 1)) = off (snd_una k) (snd_nxt k) + 1.
Proof.
  intros (Hn & Hfl & Hs & Hlt & Hh & Hnb & Hnq) Hl Hc Hc16.
  assert (off (snd_una k) (u32 (snd_nxt k + 1)) = off (snd_una k) (snd_nxt k) + 1) as Hoff
    by (apply off_succ; lia).
  split; [|done]. unfold wf_snd, moved_out. rewrite Hl, !firstn_cons, take_0, skipn_cons, drop_0.
  cbn [stamped length]. kcp_simpl_goal.
  change (Z.of_nat 1) with 1.
  splits; [apply u32_range | apply u32_range | rewrite Hoff; lia | | | | | done].
  - rewrite map_app. apply sorted_lt_app_inv. cbn [map stamp]. kcp_simpl_goal.
    splits; [done | repeat constructor |].
    intros x y Hx%list_elem_of_In Hy%list_elem_of_singleton. subst y.
    apply in_map_iff in Hx as (s' & <- & Hin%list_elem_of_In).
    rewrite Forall_forall in Hlt. by apply Hlt.
  - apply Forall_app. rewrite Hoff. split.
    + eapply Forall_impl; [exact Hlt|]. cbv beta. intros; lia.
    + constructor; [|constructor]. unfold stamp. kcp_simpl_goal. lia.
  - destruct (snd_buf k); [cbn; done | done].
  - by rewrite length_app.
Qed.

Lemma moved_out_0 k wnd cur : wf_snd k -> moved_out k wnd cur 0 = k.
Proof.
  intros (Hn & _ & _ & _ & _ & Hnb & Hnq). unfold moved_out. rewrite take_0, drop_0. cbn [stamped length].
  rewrite app_nil_r, Nat.add_0_r, Z.add_0_r, <- Hnb, <- Hnq, u32_id by done. by destruct k.
Qed.

Lemma moved_out_S k wnd cur n s l :
  snd_queue k = s :: l ->
  moved_out (moved_out k wnd cur 1) wnd cur n = moved_out k wnd cur (S n).
Proof.
  intros Hl. unfold moved_out. rewrite Hl, !firstn_cons, take_0, !skipn_cons, drop_0. kcp_simpl_goal.
  cbn [stamped length app]. rewrite <- (assoc_L (++)). cbn [app].
  change (Z.of_nat 1) with 1. rewrite u32_add_l, length_app. cbn [length].
  replace (snd_nxt k + 1 + Z.of_nat (length (take n l))) with
    (snd_nxt k + Z.of_nat (S (length (take n l)))) by lia.
  replace (length (snd_buf k) + 1 + length (take n l))%nat with
    (length (snd_buf k) + S (length (take n l)))%nat by lia.
  assert (forall k' sn l, conv k' = conv k -> rcv_nxt k' = rcv_nxt k -> rx_rto k' = rx_rto k ->
            stamped k' wnd cur sn l = stamped k wnd cur sn l) as E.
  { intros k' sn l' E1 E2 E3. revert sn. induction l' as [|x l' IH]; intros sn; cbn; [done|].
    rewrite IH. unfold stamp. by rewrite E1, E2, E3. }
  rewrite E by done. done.
Qed.

(** The loop moves as many as the window has room for. *)
Lemma flush_move_spec c wnd cur k :
  wf_snd k -> 0 <= c < 65536 ->
  exists n, flush_move (snd_queue k) c wnd cur k = moved_out k wnd cur n /\
    (n <= length (snd_queue k))%nat /\ wf_snd (moved_out k wnd cur n) /\
    off (snd_una k) (snd_nxt (moved_out k wnd cur n)) = off (snd_una k) (snd_nxt k) + Z.of_nat n /\
    (n = 0%nat \/ off (snd_una k) (snd_nxt k) + Z.of_nat n <= c) /\
    (n = length (snd_queue k) \/ c <= off (snd_una k) (snd_nxt k) + Z.of_nat n).
Proof.
  intros Hwf Hc. remember (snd_queue k) as l eqn:Hl. revert k Hwf Hl.
  induction l as [|s l IH]; intros k Hwf Hl; cbn [flush_move].
  { exists 0%nat. rewrite moved_out_0 by done. splits; [done | lia | done | lia | by left | by left]. }
  pose proof Hwf as (Hn & Hfl & _).
  assert (off (snd_una k) (u32 (snd_una k + c)) = c) as Ho.
  { unfold off. rewrite u32_sub_l. replace (snd_una k + c - snd_una k) with c by lia. apply u32_id. lia. }
  rewrite (itimediff_off (snd_una k)) by lia. rewrite Ho.
  destruct (Z.ltb_spec (off (snd_una k) (snd_nxt k) - c) 0) as [Hlt|Hge].
  - destruct (wf_snd_move1 k wnd cur s l c) as [Hwf1 Hoff]; [done | done | lia | lia |].
    assert (snd_queue (moved_out k wnd cur 1) = l) as Hl1
      by (unfold moved_out; rewrite <- Hl; done).
    destruct (IH (moved_out k wnd cur 1) Hwf1 (eq_sym Hl1)) as (n & E & Hn' & Hw & Ho' & Hle & Hend).
    exists (S n). rewrite (moved_out_S k wnd cur n s l) in * by done.
    assert (off (snd_una (moved_out k wnd cur 1)) (snd_nxt (moved_out k wnd cur 1)) =
            off (snd_una k) (snd_nxt k) + 1) as E1.
    { unfold moved_out. rewrite <- Hl. kcp_simpl_goal. exact Hoff. }
    rewrite E1 in *. change (snd_una (moved_out k wnd cur 1)) with (snd_una k) in *.
    cbn [length]. splits; [| lia | done | lia | lia | lia].
    rewrite <- E. f_equal. unfold moved_out. rewrite <- Hl, firstn_cons, take_0, skipn_cons, drop_0. cbn [stamped length].
    destruct Hwf as (_ & _ & _ & _ & _ & Hnb & Hnq).
    rewrite Hnb, Hnq, <- Hl, u32_sub_l, u32_add_l. cbn [length]. change (Z.of_nat 1) with 1.
    replace (Z.of_nat (S (length l)) - 1) with (Z.of_nat (length l)) by lia.
    replace (Z.of_nat (length (snd_buf k) + 1)) with (Z.of_nat (length (snd_buf k)) + 1) by lia. done.
  - exists 0%nat. rewrite moved_out_0 by done. splits; [done | lia | done | lia | by left |]. right. lia.
Qed.

(** ** Sending from the window *)

(** The parameters of one flush, as the loop over [snd_buf] uses them. *)
Definition decide_seg (k : ikcpcb) (resent : Z) (s : IKCPSEG) : sending :=
  flush_decide k (current k) resent s.

Definition is_sent (k : ikcpcb) (resent : Z) (s : IKCPSEG) : bool :=
  match decide_seg k resent s with NotSent => false | _ => true end.
Definition is_lost (k : ikcpcb) (resent : Z) (s : IKCPSEG) : bool :=
  match decide_seg k resent s with TimedOut => true | _ => false end.
Definition is_fast (k : ikcpcb) (resent : Z) (s : IKCPSEG) : bool :=
  match decide_seg k resent s with FastResent => true | _ => false end.

(** A segment of [snd_buf] after the flush. *)
Definition flush_seg (k : ikcpcb) (resent rtomin wnd : Z) (s : IKCPSEG) : IKCPSEG :=
  if is_sent k resent s
  then (flush_rearm k (current k) rtomin (decide_seg k resent s) s)
         <|seg_ts := current k|><|seg_wnd := wnd|><|seg_una := rcv_nxt k|>
  else s.

(** The segments that are sent, as they are sent. *)
Definition sent_segs (k : ikcpcb) (resent rtomin wnd : Z) (l : list IKCPSEG) : list IKCPSEG :=
  map (flush_seg k resent rtomin wnd) (List.filter (is_sent k resent) l).

(** Some segment has been sent [dead_link] times. *)
Definition link_dead (k : ikcpcb) (l : list IKCPSEG) : bool :=
  existsb (fun s => dead_link k <=? seg_xmit s) l.

Lemma flush_seg_wire k resent rtomin wnd s : same_wire s (flush_seg k resent rtomin wnd s).
Proof.
  unfold flush_seg, is_sent, flush_rearm, same_wire.
  destruct (decide_seg k resent s); [done | done | | done].
  by destruct (nodelay k =? 0).
Qed.

(** One iteration. *)
Lemma flush_data_cons resent rtomin wnd s p l k ptr change lost :
  exists x, flush_data (s :: p) l (current k) resent rtomin wnd k ptr change lost =
  let fs := flush_seg k resent rtomin wnd s in
  if is_sent k resent s then
    let! ptr := flush_write k ptr fs in
    flush_data p (l ++ [fs]) (current k) resent rtomin wnd
      k<|xmit := x|><|state := if dead_link k <=? seg_xmit fs then u32 (-1) else state k|>
      ptr (if is_fast k resent s then change + 1 else change) (if is_lost k resent s then 1 else lost)
  else flush_data p (l ++ [fs]) (current k) resent rtomin wnd k ptr change lost.
Proof.
  cbn [flush_data]. unfold flush_seg, is_sent, is_fast, is_lost. fold (decide_seg k resent s).
  assert (forall x, k<|xmit := xmit k|><|state := x|> = k<|state := x|>) as Ex by (intros; by destruct k).
  assert (forall k : ikcpcb, k<|state := state k|> = k) as Es by (intros k'; by destruct k').
  assert (forall (b : bool) (k : ikcpcb), (if b then k<|state := u32 (-1)|> else k) =
            k<|state := if b then u32 (-1) else state k|>) as Ed by (intros [] ?; by rewrite ?Es).
  destruct (decide_seg k resent s).
  1: by exists 0.
  1, 3: exists (xmit k); cbv zeta; rewrite Ex, <- Ed; reflexivity.
  eexists. cbv zeta. rewrite Ed. reflexivity.
Qed.

Lemma if_orb {A} (a b : bool) (x y : A) :
  (if a then x else if b then x else y) = if b || a then x else y.
Proof. by destruct a, b. Qed.

Lemma flush_data_spec resent rtomin wnd p : forall l k cur change lost w,
  wf_cfg k -> output k = true -> size cur <= mtu k ->
  Forall (fun s => Z.of_nat (length (seg_data s)) = seg_len s /\ seg_len s <= mss k) p ->
  wp (flush_data p l (current k) resent rtomin wnd k (frames cur) change lost)
    (fun r w' => exists x ptr,
       r = (k<|xmit := x|>
             <|state := if link_dead k (sent_segs k resent rtomin wnd p) then u32 (-1) else state k|>
             <|snd_buf := l ++ map (flush_seg k resent rtomin wnd) p|>, ptr,
            change + Z.of_nat (length (List.filter (is_fast k resent) p)),
            if existsb (is_lost k resent) p then 1 else lost) /\
       packed (mtu k) cur (sent_segs k resent rtomin wnd p) ptr w w') w.
Proof.
  induction p as [|s p IH]; intros l k cur change lost w Hcfg Hout Hsz Hf.
  { cbn [flush_data]. wp_step. exists (xmit k), (frames cur). split; [|by apply packed_refl].
    cbn. rewrite app_nil_r, Z.add_0_r. by destruct k. }
  apply Forall_cons in Hf as [[Hlen Hmss] Hf].
  destruct (flush_data_cons resent rtomin wnd s p l k (frames cur) change lost) as [x ->]. cbv zeta.
  destruct (flush_seg_wire k resent rtomin wnd s) as (_ & El & Ed & _).
  unfold sent_segs. cbn [List.filter map existsb].
  set (fs := flush_seg k resent rtomin wnd s) in *.
  destruct (is_sent k resent s) eqn:Es.
  - wp_step. eapply wp_mono; [apply flush_write_spec; rewrite ?El, ?Ed; done|].
    cbv beta. intros ptr1 w1 Hp1. apply packed_seq in Hp1 as (c & -> & Hc & Hp1).
    match goal with |- context [k<|xmit := x|><|state := ?z|>] => set (k2 := k<|xmit := x|><|state := z|>) end.
    change (current k) with (current k2).
    eapply wp_mono; [apply IH; done|]. cbv beta. intros r w2 (y & ptr2 & -> & Hp2).
    exists y, ptr2. split; [|exact (Hp1 _ _ _ Hp2)].
    f_equal; [f_equal; [f_equal|]|].
    + rewrite <- (assoc_L (++)). cbn [app].
      change (link_dead k2 (sent_segs k2 resent rtomin wnd p))
        with (link_dead k (sent_segs k resent rtomin wnd p)).
      change (flush_seg k2) with (flush_seg k). cbn [map]. fold fs.
      change (link_dead k (fs :: ?r)) with ((dead_link k <=? seg_xmit fs) || link_dead k r).
      unfold k2. kcp_simpl_goal. by rewrite if_orb.
    + change (is_fast k2) with (is_fast k). destruct (is_fast k resent s); cbn [length]; lia.
    + change (is_lost k2) with (is_lost k). by rewrite if_orb.
  - eapply wp_mono; [apply IH; done|]. cbv beta. intros r w2 (y & ptr2 & -> & Hp2).
    exists y, ptr2. unfold is_sent, is_fast, is_lost in *. destruct (decide_seg k resent s); try done.
    rewrite <- (assoc_L (++)). done.
Qed.

(** ** The whole flush *)

Definition flush_resent (k : ikcpcb) : Z := if 0 <? fastresend k then fastresend k else 4294967295.
Definition flush_rtomin (k : ikcpcb) : Z := if nodelay k =? 0 then u32 (Z.shiftr (rx_rto k) 3) else 0.

(** The control block between the window loop and the sends, when [n] segments move. *)
Definition flush_mid (k : ikcpcb) (n : nat) : ikcpcb :=
  moved_out (after_control k) (u32 (ikcp_wnd_unused k)) (current k) n.

(** [snd_buf] after the flush, and the data segments the flush sends. *)
Definition flushed_buf (k : ikcpcb) (n : nat) : list IKCPSEG :=
  map (flush_seg (flush_mid k n) (flush_resent k) (flush_rtomin k) (u32 (ikcp_wnd_unused k)))
      (snd_buf (flush_mid k n)).
Definition flushed_data (k : ikcpcb) (n : nat) : list IKCPSEG :=
  sent_segs (flush_mid k n) (flush_resent k) (flush_rtomin k) (u32 (ikcp_wnd_unused k))
            (snd_buf (flush_mid k n)).

(** [n] is how many segments the window has room for. *)
Definition fills_window (k : ikcpcb) (n : nat) : Prop :=
  let flight := off (snd_una k) (snd_nxt k) in
  let room := flush_window k in
  (n <= length (snd_queue k))%nat /\
  (n = 0%nat \/ flight + Z.of_nat n <= room) /\
  (n = length (snd_queue k) \/ room <= flight + Z.of_nat n).

Lemma flush_window_range k : wf_cfg k -> 0 <= flush_window k <= rmt_wnd k.
Proof.
  intros (_ & _ & _ & ? & ? & ? & ?). unfold flush_window, _imin_.
  repeat match goal with |- context [if ?a <=? ?b then _ else _] => destruct (Z.leb_spec a b) end;
    destruct (nocwnd k =? 0); lia.
Qed.

Lemma after_control_fields k :
  exists tp pw, after_control k = k<|ackcount := 0|><|ts_probe := tp|><|probe_wait := pw|><|probe := 0|>.
Proof.
  unfold after_control. destruct (flush_probe_timer_fields k<|ackcount := 0|>) as (tp & pw & pr & ->).
  by exists tp, pw.
Qed.

(** Only the congestion window and its two companions differ. *)
Definition cc_eq (k k' : ikcpcb) : Prop :=
  exists t c i, k' = k<|ssthresh := t|><|cwnd := c|><|incr := i|>.

Lemma cc_refl k : cc_eq k k.
Proof. exists (ssthresh k), (cwnd k), (incr k). by destruct k. Qed.

Lemma cc_ssthresh k k' v : cc_eq k k' -> cc_eq k k'<|ssthresh := v|>.
Proof. intros (t & c & i & ->). by exists v, c, i. Qed.

Lemma cc_cwnd k k' v : cc_eq k k' -> cc_eq k k'<|cwnd := v|>.
Proof. intros (t & c & i & ->). by exists t, v, i. Qed.

Lemma cc_incr k k' v : cc_eq k k' -> cc_eq k k'<|incr := v|>.
Proof. intros (t & c & i & ->). by exists t, c, v. Qed.

Lemma cc_if (b : bool) k k1 k2 : cc_eq k k1 -> cc_eq k k2 -> cc_eq k (if b then k1 else k2).
Proof. by destruct b. Qed.

Lemma flush_cwnd_eq k resent c change lost :
  cc_eq k (flush_cwnd k resent c change lost) /\ 1 <= cwnd (flush_cwnd k resent c change lost).
Proof.
  unfold flush_cwnd.
  set (k1 := if negb (change =? 0) then _ else k).
  assert (cc_eq k k1) as H1.
  { subst k1. apply cc_if; [|apply cc_refl].
    apply cc_incr, cc_cwnd, cc_if; [apply cc_ssthresh|]; apply cc_ssthresh, cc_refl. }
  set (k2 := if negb (lost =? 0) then _ else k1).
  assert (cc_eq k k2) as H2.
  { subst k2. apply cc_if; [|done].
    apply cc_incr, cc_cwnd, cc_if; [apply cc_ssthresh|]; by apply cc_ssthresh. }
  clearbody k2. destruct (Z.ltb_spec (cwnd k2) 1); (split; [|first [done | lia]]); [|done].
  by apply cc_incr, cc_cwnd.
Qed.

Lemma wf_cc_eq k k' : cc_eq k k' -> wf k -> 0 <= cwnd k' -> wf k' /\ heap k' = heap k.
Proof.
  intros (t & c & i & ->) [(H1 & H2 & H3 & H4 & H5 & H6 & _) Hs Hr Hg Ha] Hc. split; [|done].
  constructor; [|exact Hs | exact Hr | exact Hg | exact Ha]. unfold wf_cfg. kcp_simpl. tauto.
Qed.

(** The control block after the loop over [snd_buf]. *)
Lemma wf_sent m x st l :
  wf m -> Forall2 same_wire (snd_buf m) l ->
  wf m<|xmit := x|><|state := st|><|snd_buf := l|> /\
  heap m<|xmit := x|><|state := st|><|snd_buf := l|> = heap m.
Proof.
  intros [H1 H2 H3 H4 H5] Hl.
  exact (wf_same_wire m<|xmit := x|><|state := st|> l
    (mkwf m<|xmit := x|><|state := st|> H1 H2 H3 H4 H5) Hl).
Qed.

Lemma wf_moved_out k wnd cur n :
  wf k -> wf_snd (moved_out k wnd cur n) ->
  wf (moved_out k wnd cur n) /\ heap (moved_out k wnd cur n) = heap k.
Proof.
  intros [Hc Hs Hr (H1 & H2 & H3 & H4 & H5) Ha] Hs'. destruct Hs as (Hn & _).
  assert (Forall (fun s => seg_len s <= mss k) (snd_queue k)) as H6 by (by apply Forall_app in H5 as [_ H5]).
  split.
  - constructor; [exact Hc | exact Hs' | exact Hr | | exact Ha].
    rewrite !Forall_forall in *. destruct Hc as (Hm & Hms & _). unfold IKCP_OVERHEAD in Hms.
    assert (forall P : IKCPSEG -> Prop, (forall s, s ∈ snd_buf k -> P s) ->
       (forall s m, 0 <= m < 4294967296 -> s ∈ snd_queue k -> P (stamp k wnd cur m s)) ->
       Forall P (snd_buf (moved_out k wnd cur n))) as Hall.
    { intros P HP1 HP2. apply Forall_app. split; [by apply Forall_forall|].
      apply stamped_forall; [|done]. intros s m Hm' Hin. apply HP2; [done|].
      apply sublist_subseteq with (take n (snd_queue k)); [apply sublist_take | done]. }
    unfold wf_segs. splits; try (by apply Forall_forall).
    + apply Hall; [done|]. intros s m Hm' Hin. unfold seg_ok, stamp. kcp_simpl_goal.
      pose proof (H4 s Hin). pose proof (H6 s Hin). lia.
    + unfold moved_out. kcp_simpl_goal. apply Forall_drop, Forall_forall. exact H4.
    + apply Forall_app. split.
      * apply Hall; [intros s Hin; apply H5, elem_of_app; by left|].
        intros s m _ Hin. exact (H6 s Hin).
      * unfold moved_out. kcp_simpl_goal. apply Forall_drop, Forall_forall. exact H6.
  - unfold heap, moved_out. kcp_simpl_goal.
    rewrite length_app, stamped_length, length_take, length_drop. lia.
Qed.

Lemma wf_after_control k : wf k -> wf (after_control k) /\ heap (after_control k) = heap k.
Proof.
  intros [Hc Hs Hr Hg (Ha & Hl)]. destruct (after_control_fields k) as (tp & pw & ->). split; [|done].
  constructor; [exact Hc | exact Hs | exact Hr | exact Hg |]. unfold wf_ack. kcp_simpl_goal.
  split; [lia|]. destruct (acklist k); [|done]. split; [apply Hl | intros i Hi; cbn in Hi; lia].
Qed.

Lemma flush_mid_spec k :
  wf k -> exists n, 
    flush_move (snd_queue k) (flush_window (after_control k)) (u32 (ikcp_wnd_unused k)) (current k)
      (after_control k) = flush_mid k n /\
    fills_window k n /\ wf (flush_mid k n) /\ heap (flush_mid k n) = heap k /\
    snd_una (flush_mid k n) = snd_una k /\ snd_queue (flush_mid k n) = drop n (snd_queue k) /\
    off (snd_una k) (snd_nxt (flush_mid k n)) = off (snd_una k) (snd_nxt k) + Z.of_nat n.
Proof.
  intros Hwf. destruct (wf_after_control k Hwf) as [Hwf1 Hheap].
  destruct (flush_move_spec (flush_window (after_control k)) (u32 (ikcp_wnd_unused k)) (current k)
    (after_control k)) as (n & E & Hn & Hs & Ho & H1 & H2); [apply Hwf1 | |].
  { pose proof (flush_window_range _ (wf_is_cfg _ Hwf1)). destruct Hwf1 as [(_ & _ & _ & _ & _ & ? & _) _ _ _ _].
    lia. }
  destruct (wf_moved_out _ _ _ _ Hwf1 Hs) as [Hwf2 Hheap2].
  fold (flush_mid k n) in *. exists n.
  destruct (after_control_fields k) as (tp & pw & Eac). 
  assert (snd_queue (after_control k) = snd_queue k /\ snd_una (after_control k) = snd_una k /\
    snd_nxt (after_control k) = snd_nxt k /\ flush_window (after_control k) = flush_window k)
    as (Eq & Eu & En & Ew) by (by rewrite Eac).
  rewrite Ew, ?Eq, ?Eu, ?En in *.
  splits; [done | done | done | congruence | | | exact Ho].
  - unfold flush_mid, moved_out. kcp_simpl_goal. by rewrite Eu.
  - unfold flush_mid, moved_out. kcp_simpl_goal. by rewrite Eq.
Qed.

(** What a flush does not touch. *)
Definition frame_of (k : ikcpcb) :=
  (ts_flush k, updated k, current k, interval k, output k, mtu k, snd_una k,
   (rcv_nxt k, rcv_queue k, rcv_buf k, nrcv_que k, rcv_wnd k, rx_rto k, conv k, stream k)).

(** What a flush leaves, and what it hands out. *)
Definition flush_post (k : ikcpcb) (w : world) (k' : ikcpcb) (w' : world) : Prop :=
  exists n batches, fills_window k n /\
    outputs w' = outputs w ++ map frames batches /\
    concat batches = control_segs k ++ flushed_data k n /\
    Forall (fun d => d <> [] /\ size d <= mtu k) batches /\
    wf k' /\ balanced k w k' w' /\
    snd_buf k' = flushed_buf k n /\ snd_queue k' = drop n (snd_queue k) /\
    off (snd_una k) (snd_nxt k') = off (snd_una k) (snd_nxt k) + Z.of_nat n /\
    ackcount k' = 0 /\ probe k' = 0 /\ 1 <= cwnd k' /\ frame_of k' = frame_of k.

Lemma flush_seg_wires k resent rtomin wnd l :
  Forall2 same_wire l (map (flush_seg k resent rtomin wnd) l).
Proof. induction l; cbn; constructor; [apply flush_seg_wire | done]. Qed.

(** All of [cur ++ new] has left, as datagrams that keep the order. *)
Definition sent_all (m : Z) (cur new : list IKCPSEG) (w w' : world) : Prop :=
  exists b, outputs w' = outputs w ++ map frames b /\ concat b = cur ++ new /\
    Forall (fun d => d <> [] /\ size d <= m) b /\ w_live w' = w_live w.

Lemma sent_all_seq m cur new1 new2 w w1 w2 b c :
  outputs w1 = outputs w ++ map frames b -> concat b ++ c = cur ++ new1 ->
  Forall (fun d => d <> [] /\ size d <= m) b -> w_live w1 = w_live w ->
  sent_all m c new2 w1 w2 -> sent_all m cur (new1 ++ new2) w w2.
Proof.
  intros Ho Hc Hf Hl (b2 & Ho2 & Hc2 & Hf2 & Hl2). exists (b ++ b2).
  splits; [| | by apply Forall_app | lia].
  - by rewrite Ho2, Ho, map_app, (assoc_L (++)).
  - by rewrite concat_app, Hc2, (assoc_L (++)), Hc, (assoc_L (++)).
Qed.

(** The last datagram. *)
Lemma flush_tail_spec k c w :
  wf_cfg k -> output k = true -> size c <= mtu k ->
  wp (if 0 <? Z.of_nat (length (frames c)) then ikcp_output k (frames c) else ret tt)
    (fun _ w' => sent_all (mtu k) c [] w w') w.
Proof.
  intros Hcfg Hout Hsz. fold (size c). destruct (Z.ltb_spec 0 (size c)) as [Hpos|Hz].
  - apply wp_output; [done|]. intros w' Hl Ho.
    assert (frames c <> []) as Hne by (intros E; unfold size in Hpos; rewrite E in Hpos; cbn in Hpos; lia).
    rewrite decide_False in Ho by done. exists [c]. cbn [map concat]. splits; try done.
    constructor; [|constructor]. split; [by intros -> | done].
  - wp_step. exists []. assert (c = []) as ->.
    { apply size_0_nil. unfold size in *. lia. }
    cbn. rewrite app_nil_r. by splits; try constructor.
Qed.

(** The second half of a flush, from any control block: data, last datagram, window. *)
Lemma flush_finish_spec m cur resent rtomin wnd cw w :
  wf m -> output m = true -> size cur <= mtu m ->
  wp (let! ' (kcp, ptr, change, lost) :=
        flush_data (snd_buf m) [] (current m) resent rtomin wnd m (frames cur) 0 0 in
      (if 0 <? Z.of_nat (length ptr) then ikcp_output kcp ptr else ret tt);;;
      ret (flush_cwnd kcp resent cw change lost))
    (fun k' w' => sent_all (mtu m) cur (sent_segs m resent rtomin wnd (snd_buf m)) w w' /\
       wf k' /\ heap k' = heap m /\ 1 <= cwnd k' /\
       snd_buf k' = map (flush_seg m resent rtomin wnd) (snd_buf m) /\ snd_queue k' = snd_queue m /\
       snd_nxt k' = snd_nxt m /\ ackcount k' = ackcount m /\ probe k' = probe m /\ frame_of k' = frame_of m) w.
Proof.
  intros Hwf Hout Hsz. wp_step.
  eapply wp_mono; [apply flush_data_spec; [apply Hwf | done | done |]|].
  { destruct Hwf as [_ _ _ (G1 & _ & _ & _ & G5) _]. apply Forall_app in G5 as [G5 _].
    rewrite Forall_forall in *. intros s Hin. split; [by apply G1 | by apply G5]. }
  cbv beta. intros r w2 (x & ptr & -> & b & c & -> & Hc & Ho & Hcc & Hf & Hl). cbv beta iota.
  destruct (wf_sent m x (if link_dead m (sent_segs m resent rtomin wnd (snd_buf m))
    then u32 (-1) else state m) _ Hwf (flush_seg_wires m resent rtomin wnd _)) as [Hwf2 Hheap2].
  cbn [app]. match goal with |- context [ikcp_output ?k _] => set (k2 := k) in * end.
  wp_step. eapply wp_mono; [apply (flush_tail_spec k2); [apply Hwf2 | done | done]|]. cbv beta.
  intros _ w3 Hs. wp_step. change (mtu k2) with (mtu m) in Hs.
  match goal with |- context [flush_cwnd k2 ?r ?c ?a ?l] => set (k3 := flush_cwnd k2 r c a l);
    destruct (flush_cwnd_eq k2 r c a l) as [Hcc3 Hcw3]; fold k3 in Hcc3, Hcw3 end.
  destruct (wf_cc_eq k2 k3) as [Hwf3 Hheap3]; [done | done | lia |].
  clearbody k3. destruct Hcc3 as (t & cw' & i & ->).
  splits; [| exact Hwf3 | congruence | exact Hcw3 | done..].
  rewrite <- (app_nil_r (sent_segs _ _ _ _ _)). by eapply sent_all_seq.
Qed.

Lemma ikcp_flush_spec k w :
  wf k -> output k = true -> updated k <> 0 -> ackcount k < 2147483648 ->
  wp (ikcp_flush k) (flush_post k w) w.
Proof.
  intros Hwf Hout Hup Hcnt. unfold ikcp_flush. rewrite (proj2 (Z.eqb_neq _ _) Hup).
  cbv zeta. wp_step. eapply wp_mono; [by apply flush_control_spec|]. cbv beta.
  intros r w1 [E1 (b1 & c1 & E2 & Hc1 & Ho1 & Hcc1 & Hf1 & Hl1)]. destruct r as [k1 ptr1].
  cbn [fst snd] in E1, E2. subst k1 ptr1.
  destruct (flush_mid_spec k Hwf) as (n & Em & Hfill & Hwfm & Hheap & Hu & Hq & Ho).
  destruct (after_control_fields k) as (tp & pw & Eac).
  assert (snd_queue (after_control k) = snd_queue k) as -> by (by rewrite Eac).
  rewrite Em.
  assert (current k = current (flush_mid k n) /\ fastresend (flush_mid k n) = fastresend k /\
    nodelay (flush_mid k n) = nodelay k /\ rx_rto (flush_mid k n) = rx_rto k /\
    output (flush_mid k n) = output k /\ mtu (flush_mid k n) = mtu k /\
    probe (flush_mid k n) = 0 /\ ackcount (flush_mid k n) = 0 /\ frame_of (flush_mid k n) = frame_of k)
    as (Ecur & Ef & En & Er & Eo & Emtu & Epr & Eack & Efr) by (unfold flush_mid; by rewrite Eac).
  rewrite Ef, En, Er. fold (flush_resent k). fold (flush_rtomin k). rewrite Ecur.
  eapply wp_mono; [apply flush_finish_spec; [done | congruence | congruence]|]. cbv beta.
  rewrite Emtu. intros k' w' (Hs & Hwf' & Hh' & Hcw & Hb' & Hq' & Hn' & Ha' & Hp' & Hfr).
  apply (sent_all_seq _ [] (control_segs k) _ w _ _ b1 c1) in Hs as (b & Hob & Hcb & Hfb & Hlb); try done.
  exists n, b. unfold balanced. rewrite Hn'.
  splits; [exact Hfill | exact Hob | exact Hcb | exact Hfb | exact Hwf' | congruence | exact Hb' |
    congruence | exact Ho | congruence | congruence | exact Hcw | congruence].
Qed.
