(* ===== verification/KcpAckSpec.v ===== *)
(** * What acknowledgements do: the round-trip estimator, the segments they remove,
    fast acknowledgements, the congestion window, and the probe timer. *)
From S2P Require Import Prelude KcpBase KcpCodec KcpSend KcpRecv KcpInput KcpFlush KcpInv.
From S2P Require Import KcpAck KcpInputSpec KcpFlushSpec.
From stdpp Require Import base list numbers strings.
From Stdlib Require Import Sorted.
Open Scope Z_scope.
Open Scope c_scope.

(** ** Round-trip time *)

(** Below this bound no sum of [ikcp_update_ack] leaves 31 bits. *)
Definition rtt_max : Z := 268435455.

Definition rtt_ok (k : ikcpcb) : Prop :=
  0 <= rx_srtt k <= rtt_max /\ 0 <= rx_rttval k <= rtt_max /\
  0 <= interval k <= 5000 /\ 0 <= rx_minrto k <= IKCP_RTO_MAX.

(** The estimator over the integers. *)
Definition srtt_spec (k : ikcpcb) (rtt : Z) : Z :=
  if rx_srtt k =? 0 then rtt else Z.max 1 ((7 * rx_srtt k + rtt) / 8).
Definition rttval_spec (k : ikcpcb) (rtt : Z) : Z :=
  if rx_srtt k =? 0 then rtt / 2 else (3 * rx_rttval k + Z.abs (rtt - rx_srtt k)) / 4.
Definition rto_spec (k : ikcpcb) (rtt : Z) : Z :=
  Z.min (Z.max (rx_minrto k) (srtt_spec k rtt + Z.max (interval k) (4 * rttval_spec k rtt))) IKCP_RTO_MAX.

Lemma imin_min a b : _imin_ a b = Z.min a b.
Proof. unfold _imin_. destruct (Z.leb_spec a b); lia. Qed.

Lemma imax_max a b : _imax_ a b = Z.max a b.
Proof. unfold _imax_. destruct (Z.leb_spec b a); lia. Qed.

Lemma ikcp_update_ack_spec k rtt :
  rtt_ok k -> 0 <= rtt <= rtt_max ->
  ikcp_update_ack k rtt =
    k<|rx_srtt := srtt_spec k rtt|><|rx_rttval := rttval_spec k rtt|><|rx_rto := rto_spec k rtt|> /\
  rtt_ok (ikcp_update_ack k rtt).
Proof.
  unfold rtt_ok, rtt_max, IKCP_RTO_MAX. intros (Hs & Hv & Hi & Hm) Hr.
  assert (0 <= srtt_spec k rtt <= 268435455 /\ 0 <= rttval_spec k rtt <= 268435455) as [Hs' Hv'].
  { unfold srtt_spec, rttval_spec. destruct (Z.eqb_spec (rx_srtt k) 0); Z.div_mod_to_equations; lia. }
  assert (ikcp_update_ack k rtt =
    k<|rx_srtt := srtt_spec k rtt|><|rx_rttval := rttval_spec k rtt|><|rx_rto := rto_spec k rtt|>) as E;
    [|split; [exact E | rewrite E; exact (conj Hs' (conj Hv' (conj Hi Hm)))]].
  unfold ikcp_update_ack.
  set (k1 := if rx_srtt k =? 0 then _ else _).
  assert (k1 = k<|rx_srtt := srtt_spec k rtt|><|rx_rttval := rttval_spec k rtt|>) as ->.
  { subst k1. clear Hs' Hv'. unfold srtt_spec, rttval_spec. destruct (Z.eqb_spec (rx_srtt k) 0) as [E0|E0].
    { by rewrite Z.quot_div_nonneg by lia. }
    rewrite (s32_id (rtt - rx_srtt k)) by lia.
    assert ((if rtt - rx_srtt k <? 0 then - (rtt - rx_srtt k) else rtt - rx_srtt k) =
      Z.abs (rtt - rx_srtt k)) as -> by (destruct (Z.ltb_spec (rtt - rx_srtt k) 0); lia).
    kcp_simpl_goal.
    rewrite (s32_id (3 * _)), (s32_id (7 * _)), (s32_id (7 * _ + _)), !Z.quot_div_nonneg by lia.
    rewrite s32_id by (Z.div_mod_to_equations; lia).
    destruct (Z.ltb_spec ((7 * rx_srtt k + rtt) / 8) 1); [rewrite Z.max_l by lia | rewrite Z.max_r by lia]; done. }
  cbv zeta. unfold rto_spec. kcp_simpl_goal.
  generalize dependent (srtt_spec k rtt). generalize dependent (rttval_spec k rtt). intros v Hv' s Hs'.
  rewrite (s32_id (4 * v)), !(u32_id (4 * v)), (u32_id s), (u32_id (rx_minrto k)) by lia.
  rewrite imax_max, (s32_id (s + _)), (u32_id (s + _)) by lia.
  unfold _ibound_. rewrite imin_min, imax_max, s32_id; [done | unfold IKCP_RTO_MAX; lia].
Qed.

(** ** Segments removed from the send buffer *)

(** The numbers in [snd_buf], as distances from [snd_una]. *)
Lemma snd_buf_off k : wf_snd k ->
  StronglySorted Z.lt (map (fun s => off (snd_una k) (seg_sn s)) (snd_buf k)) /\
  Forall (fun s => off (snd_una k) (seg_sn s) < 65536) (snd_buf k).
Proof.
  intros (_ & Hf & Hs & Hlt & _). split; [done|]. eapply Forall_impl; [exact Hlt|]. cbv beta. intros; lia.
Qed.

(** A prefix test on a sorted list is a filter. *)
Lemma una_filter base una l :
  off base una < 2147483648 -> StronglySorted Z.lt (map (fun s => off base (seg_sn s)) l) ->
  Forall (fun s => off base (seg_sn s) < 65536) l ->
  drop (una_count una l) l = List.filter (fun s => off base una <=? off base (seg_sn s)) l.
Proof.
  intros Hu. induction l as [|s l IH]; intros Hs Hf; cbn [una_count List.filter]; [done|].
  apply Forall_cons in Hf as [Hs0 Hf]. cbn [map] in Hs. apply StronglySorted_inv in Hs as [Hs Hall].
  rewrite (itimediff_off base) by lia.
  destruct (Z.ltb_spec 0 (off base una - off base (seg_sn s))) as [H|H].
  - rewrite (proj2 (Z.leb_gt _ _)) by lia. cbn [drop]. by apply IH.
  - rewrite (proj2 (Z.leb_le _ _)) by lia. cbn [drop]. f_equal.
    assert (forall s', s' ∈ l -> off base (seg_sn s) < off base (seg_sn s')) as Hgt.
    { intros s' Hin. rewrite List.Forall_forall in Hall. apply Hall, in_map_iff. exists s'.
      by rewrite <- list_elem_of_In. }
    clear -H Hgt. induction l as [|s' l IH]; cbn; [done|].
    rewrite (proj2 (Z.leb_le _ _)) by (specialize (Hgt s' ltac:(by left)); lia). f_equal.
    apply IH. intros s'' Hin. apply Hgt. by right.
Qed.

(** Searching a number in a sorted list removes exactly that number. *)
Lemma ack_filter base sn l :
  off base sn < 2147483648 -> 0 <= sn < 4294967296 ->
  StronglySorted Z.lt (map (fun s => off base (seg_sn s)) l) ->
  Forall (fun s => off base (seg_sn s) < 65536) l -> Forall seg_ok l ->
  (ikcp_parse_ack_loop sn l).1 = List.filter (fun s => negb (seg_sn s =? sn)) l.
Proof.
  intros Hu Hsn. induction l as [|s l IH]; intros Hs Hf Hok; cbn [ikcp_parse_ack_loop List.filter]; [done|].
  apply Forall_cons in Hf as [Hs0 Hf]. apply Forall_cons in Hok as [Hok0 Hok].
  cbn [map] in Hs. apply StronglySorted_inv in Hs as [Hs Hall].
  assert (off base sn <= off base (seg_sn s) ->
    List.filter (fun s => negb (seg_sn s =? sn)) l = l) as Hrest.
  { intros H. assert (forall s', s' ∈ l -> off base (seg_sn s) < off base (seg_sn s')) as Hgt.
    { intros s' Hin. rewrite List.Forall_forall in Hall. apply Hall, in_map_iff. exists s'.
      by rewrite <- list_elem_of_In. }
    clear -H Hgt. induction l as [|s' l IH]; cbn; [done|].
    specialize (Hgt s' ltac:(by left)) as Hlt.
    rewrite (proj2 (Z.eqb_neq (seg_sn s') sn)) by (intros <-; lia). cbn [negb]. f_equal.
    apply IH. intros s'' Hin. apply Hgt. by right. }
  rewrite (Z.eqb_sym (seg_sn s)).
  destruct (Z.eqb_spec sn (seg_sn s)) as [->|Hne]; cbn [negb fst]; [by rewrite Hrest by lia|].
  rewrite (itimediff_off base) by lia.
  destruct (Z.ltb_spec (off base sn - off base (seg_sn s)) 0) as [H|H]; cbn [fst].
  - by rewrite Hrest by lia.
  - rewrite <- IH by done. by destruct (ikcp_parse_ack_loop sn l).
Qed.

(** [ikcp_parse_una] keeps the segments from [una] on. *)
Lemma parse_una_filter k una w :
  wf_snd k -> off (snd_una k) una < 2147483648 ->
  wp (ikcp_parse_una k una) (fun k' w' =>
    snd_buf k' = List.filter (fun s => off (snd_una k) una <=? off (snd_una k) (seg_sn s)) (snd_buf k) /\
    k' = k<|snd_buf := snd_buf k'|><|nsnd_buf := u32 (Z.of_nat (length (snd_buf k')))|> /\
    w' = freed (length (snd_buf k) - length (snd_buf k')) w) w.
Proof.
  intros Hwf Hu. eapply wp_mono; [by apply ikcp_parse_una_spec|]. cbv zeta beta. intros k' w' [-> ->].
  destruct (snd_buf_off k Hwf) as [Hs Hf]. kcp_simpl_goal.
  splits; [by apply una_filter | done |]. f_equal. rewrite length_drop.
  assert (una_count una (snd_buf k) <= length (snd_buf k))%nat; [|lia].
  generalize (snd_buf k). clear. intros l. induction l; cbn; [done|]. destruct (0 <? _); lia.
Qed.

(** [ikcp_parse_ack] removes the segment with this number, wherever it is. *)
Lemma parse_ack_filter k sn w :
  wf_snd k -> Forall seg_ok (snd_buf k) -> 0 <= sn < 4294967296 ->
  wp (ikcp_parse_ack k sn) (fun k' w' =>
    snd_buf k' = List.filter (fun s => negb (seg_sn s =? sn)) (snd_buf k) /\
    k' = k<|snd_buf := snd_buf k'|><|nsnd_buf := u32 (Z.of_nat (length (snd_buf k')))|> /\
    w' = freed (length (snd_buf k) - length (snd_buf k')) w) w.
Proof.
  intros Hwf Hok Hsn. destruct (snd_buf_off k Hwf) as [Hs Hf].
  pose proof Hwf as (_ & Hfl & _ & Hlt & _ & Hn & _).
  assert (forall w0, List.filter (fun s => negb (seg_sn s =? sn)) (snd_buf k) = snd_buf k ->
    wp (ret k) (fun k' w' =>
      snd_buf k' = List.filter (fun s => negb (seg_sn s =? sn)) (snd_buf k) /\
      k' = k<|snd_buf := snd_buf k'|><|nsnd_buf := u32 (Z.of_nat (length (snd_buf k')))|> /\
      w' = freed (length (snd_buf k) - length (snd_buf k')) w0) w0) as Hsame.
  { intros w0 E. wp_step. rewrite Nat.sub_diag, freed_0, <- Hn. splits; [done | by destruct k | done]. }
  unfold ikcp_parse_ack, sn_out_of_flight. 
  destruct (Z.ltb_spec (_itimediff sn (snd_una k)) 0) as [H1|H1];
    [|destruct (Z.leb_spec 0 (_itimediff sn (snd_nxt k))) as [H2|H2]]; cbn [orb].
  1, 2: apply Hsame.
  - apply itimediff_neg_base in H1. rewrite Forall_forall in Hf.
    assert (forall s, s ∈ snd_buf k -> seg_sn s <> sn) as Hne by (intros s Hin <-; apply Hf in Hin; lia).
    clear -Hne. induction (snd_buf k) as [|s l IH]; cbn; [done|].
    rewrite (proj2 (Z.eqb_neq (seg_sn s) sn)) by (apply Hne; by left). cbn [negb]. f_equal.
    apply IH. intros s' Hin. apply Hne. by right.
  - assert (off (snd_una k) sn < 2147483648) as Ho by (by apply itimediff_nonneg_base).
    rewrite (itimediff_off (snd_una k)) in H2 by lia. rewrite Forall_forall in Hlt.
    assert (forall s, s ∈ snd_buf k -> seg_sn s <> sn) as Hne by (intros s Hin <-; apply Hlt in Hin; lia).
    clear -Hne. induction (snd_buf k) as [|s l IH]; cbn; [done|].
    rewrite (proj2 (Z.eqb_neq (seg_sn s) sn)) by (apply Hne; by left). cbn [negb]. f_equal.
    apply IH. intros s' Hin. apply Hne. by right.
  - assert (off (snd_una k) sn < 2147483648) as Ho by (by apply itimediff_nonneg_base).
    pose proof (ack_filter (snd_una k) sn (snd_buf k) Ho Hsn Hs Hf Hok) as E.
    pose proof (length_parse_ack sn (snd_buf k)) as Hlen.
    pose proof (sublist_parse_ack sn (snd_buf k)) as Hsub.
    destruct (ikcp_parse_ack_loop sn (snd_buf k)) as [l [s|]]; cbn [fst snd] in *.
    + wp_step. apply wp_free. wp_step. kcp_simpl_goal. splits; [done | | f_equal; lia].
      rewrite Hn, Hlen, u32_sub_l. repeat f_equal. lia.
    + apply Hsame. rewrite <- E. apply sublist_eq_length; [done | lia].
Qed.

(** ** Fast acknowledgements *)

(** One more skip for every segment before [sn]. *)
Definition skip_seg (k : ikcpcb) (sn : Z) (s : IKCPSEG) : IKCPSEG :=
  if off (snd_una k) (seg_sn s) <? off (snd_una k) sn
  then s<|seg_fastack := u32 (seg_fastack s + 1)|> else s.

Lemma parse_fastack_spec k sn ts :
  wf_snd k -> Forall seg_ok (snd_buf k) -> 0 <= sn < 4294967296 ->
  ikcp_parse_fastack k sn ts =
    if off (snd_una k) sn <? off (snd_una k) (snd_nxt k)
    then k<|snd_buf := map (skip_seg k sn) (snd_buf k)|> else k.
Proof.
  intros Hwf Hok Hsn. destruct (snd_buf_off k Hwf) as [Hs Hf].
  pose proof Hwf as (_ & Hfl & _). unfold ikcp_parse_fastack, sn_out_of_flight.
  destruct (Z.ltb_spec (_itimediff sn (snd_una k)) 0) as [H1|H1]; cbn [orb].
  { apply itimediff_neg_base in H1. by rewrite (proj2 (Z.ltb_ge _ _)) by lia. }
  apply itimediff_nonneg_base in H1. rewrite (itimediff_off (snd_una k)) by lia.
  destruct (Z.leb_spec 0 (off (snd_una k) sn - off (snd_una k) (snd_nxt k))) as [H2|H2].
  { by rewrite (proj2 (Z.ltb_ge _ _)) by lia. }
  rewrite (proj2 (Z.ltb_lt _ _)) by lia. f_equal. unfold skip_seg. clear H2 Hfl Hwf.
  induction (snd_buf k) as [|s l IH]; cbn [ikcp_fastack_loop map]; [done|].
  apply Forall_cons in Hf as [Hf0 Hf]. apply Forall_cons in Hok as [Hok0 Hok].
  cbn [map] in Hs. apply StronglySorted_inv in Hs as [Hs Hall].
  rewrite (itimediff_off (snd_una k)) by lia.
  destruct (Z.ltb_spec (off (snd_una k) sn - off (snd_una k) (seg_sn s)) 0) as [H3|H3].
  - rewrite (proj2 (Z.ltb_ge _ _)) by lia. f_equal.
    rewrite List.Forall_forall in Hall. symmetry. rewrite <- (map_id l) at 2.
    apply map_ext_in. intros s' Hin. rewrite (proj2 (Z.ltb_ge _ _)); [done|].
    apply (in_map (fun s => off (snd_una k) (seg_sn s))) in Hin. apply Hall in Hin. lia.
  - rewrite IH by done. destruct (Z.eqb_spec sn (seg_sn s)) as [->|Hne]; cbn [negb].
    + by rewrite Z.ltb_irrefl.
    + rewrite (proj2 (Z.ltb_lt _ _)); [done|].
      assert (off (snd_una k) (seg_sn s) <> off (snd_una k) sn); [|lia].
      intros E. apply Hne. symmetry. eapply off_inj; [apply Hok0 | done | exact E].
Qed.
