(* ===== verification/KcpTimer.v ===== *)
(** * [ikcp_update] and [ikcp_check]: when the protocol runs.

    Times are 32-bit milliseconds that wrap around; they are compared through the
    sign of their 32-bit difference. *)
From S2P Require Import Prelude KcpBase KcpCodec KcpSend KcpRecv KcpInput KcpFlush KcpInv.
From S2P Require Import KcpAck KcpInputSpec KcpFlushSpec.
From stdpp Require Import base list numbers strings.
Open Scope Z_scope.
Open Scope c_scope.

(** [ikcp_update] flushes at this time. *)
Definition due (k : ikcpcb) (now : Z) : bool :=
  (updated k =? 0) || (0 <=? _itimediff now (ts_flush k)) || (_itimediff now (ts_flush k) <? -10000).

(** The flush time [ikcp_update] sets when it is due. *)
Definition next_flush (k : ikcpcb) (now : Z) : Z :=
  let slap := _itimediff now (ts_flush k) in
  let base := if (updated k =? 0) || (10000 <=? slap) || (slap <? -10000) then now else ts_flush k in
  if 0 <=? _itimediff now (u32 (base + interval k)) then u32 (now + interval k)
  else u32 (base + interval k).

(** The control block [ikcp_update] hands to [ikcp_flush]. *)
Definition primed (k : ikcpcb) (now : Z) : ikcpcb :=
  k<|current := now|><|updated := if updated k =? 0 then 1 else updated k|>
   <|ts_flush := next_flush k now|>.

(** Some segment has reached its retransmission time. *)
Definition expired (k : ikcpcb) (now : Z) : bool :=
  existsb (fun s => _itimediff (seg_resendts s) now <=? 0) (snd_buf k).

(** The wait that [ikcp_check] announces. *)
Definition wait (k : ikcpcb) (now : Z) : Z :=
  foldr Z.min (Z.min (interval k) (_itimediff (ts_flush k) now))
    (map (fun s => _itimediff (seg_resendts s) now) (snd_buf k)).

Lemma itimediff_self x : _itimediff x x = 0.
Proof. unfold _itimediff. by rewrite Z.sub_diag. Qed.

Lemma ikcp_update_eq k now :
  ikcp_update k now = if due k now then ikcp_flush (primed k now) else ret k<|current := now|>.
Proof.
  unfold ikcp_update, due, primed, next_flush. kcp_simpl_goal.
  destruct (Z.eqb_spec (updated k) 0) as [E|E]; kcp_simpl_goal; cbn [orb].
  - rewrite itimediff_self. cbn [Z.leb Z.ltb Z.compare orb]. kcp_simpl_goal.
    destruct (0 <=? _itimediff now (u32 (now + interval k))); done.
  - assert (forall v k', updated k' = v -> k'<|updated := v|> = k') as Eu by (intros v [] <-; done).
    destruct (Z.leb_spec 10000 (_itimediff now (ts_flush k))) as [H1|H1]; cbn [orb].
    + rewrite (proj2 (Z.leb_le 0 (_itimediff now (ts_flush k)))) by lia. cbn [orb Z.leb Z.compare]. kcp_simpl_goal.
      destruct (0 <=? _itimediff now (u32 (now + interval k))); by destruct k.
    + destruct (Z.ltb_spec (_itimediff now (ts_flush k)) (-10000)) as [H2|H2]; cbn [orb].
      * rewrite orb_true_r. cbn [Z.leb Z.compare]. kcp_simpl_goal.
        destruct (0 <=? _itimediff now (u32 (now + interval k))); by destruct k.
      * rewrite orb_false_r. destruct (0 <=? _itimediff now (ts_flush k)); [|done]. kcp_simpl_goal.
        destruct (0 <=? _itimediff now (u32 (ts_flush k + interval k))); by destruct k.
Qed.

(** The next flush lies after now, and at most one interval away. *)
Lemma next_flush_spec k now :
  0 <= now < 4294967296 -> 0 <= ts_flush k < 4294967296 -> 0 < interval k <= 5000 -> due k now = true ->
  0 <= next_flush k now < 4294967296 /\ 0 < _itimediff (next_flush k now) now <= interval k.
Proof.
  intros Hn Ht Hi. unfold due, next_flush, _itimediff. intros Hd.
  destruct (Z.eqb_spec (updated k) 0); cbn [orb] in *;
    repeat match goal with
    | |- context [if ?a <=? ?b then _ else _] => destruct (Z.leb_spec a b); cbn [orb] in *
    | |- context [(?a <=? ?b) || _] => destruct (Z.leb_spec a b); cbn [orb] in *
    | |- context [if ?a <? ?b then _ else _] => destruct (Z.ltb_spec a b); cbn [orb] in *
    end;
    rewrite ?orb_true_iff, ?Z.leb_le, ?Z.ltb_lt in *; mod_lia.
Qed.

Lemma foldr_min a b l : foldr Z.min (Z.min a b) l = Z.min a (foldr Z.min b l).
Proof. induction l; cbn; lia. Qed.

Lemma check_packets_spec now l m :
  check_packets l now m =
  if existsb (fun s => _itimediff (seg_resendts s) now <=? 0) l then None
  else Some (foldr Z.min m (map (fun s => _itimediff (seg_resendts s) now) l)).
Proof.
  revert m. induction l as [|s l IH]; intros m; cbn [check_packets existsb map foldr]; [done|].
  destruct (Z.leb_spec (_itimediff (seg_resendts s) now) 0); cbn [orb]; [done|].
  rewrite IH. destruct (existsb _ l); [done|]. f_equal.
  rewrite <- foldr_min. f_equal. destruct (Z.ltb_spec (_itimediff (seg_resendts s) now) m); lia.
Qed.

Lemma ikcp_check_eq k now :
  0 <= now < 4294967296 -> 0 <= ts_flush k < 4294967296 ->
  ikcp_check k now = if due k now || expired k now then now else u32 (now + wait k now).
Proof.
  intros Hn Ht. unfold ikcp_check, due, expired, wait.
  destruct (updated k =? 0); cbn [orb]; [done|]. rewrite check_packets_spec.
  destruct (Z.leb_spec 10000 (_itimediff now (ts_flush k))) as [H1|H1]; cbn [orb].
  { rewrite itimediff_self, (proj2 (Z.leb_le 0 (_itimediff now (ts_flush k)))) by lia. done. }
  destruct (Z.ltb_spec (_itimediff now (ts_flush k)) (-10000)) as [H2|H2].
  { by rewrite itimediff_self, orb_true_r. }
  destruct (Z.leb_spec 0 (_itimediff now (ts_flush k))) as [H3|H3]; cbn [orb]; [done|].
  destruct (existsb _ (snd_buf k)); [done|]. f_equal. f_equal.
  set (l := map _ (snd_buf k)).
  assert (_itimediff (ts_flush k) now <= 10000) by (unfold _itimediff in *; mod_lia).
  replace (Z.min (interval k) (_itimediff (ts_flush k) now)) with
    (Z.min (interval k) (Z.min (_itimediff (ts_flush k) now) 2147483647)) by lia.
  rewrite !foldr_min.
  destruct (Z.ltb_spec (foldr Z.min 2147483647 l) (_itimediff (ts_flush k) now)) as [H4|H4];
  match goal with |- context [interval k <=? ?b] => destruct (Z.leb_spec (interval k) b) end; lia.
Qed.

(** The wait is the least of the interval, the time to the flush, and the time to
    each retransmission. *)
Lemma wait_spec k now :
  wait k now <= interval k /\ wait k now <= _itimediff (ts_flush k) now /\
  (forall s, s ∈ snd_buf k -> wait k now <= _itimediff (seg_resendts s) now) /\
  (forall d, d <= interval k -> d <= _itimediff (ts_flush k) now ->
     (forall s, s ∈ snd_buf k -> d <= _itimediff (seg_resendts s) now) -> d <= wait k now).
Proof.
  unfold wait. generalize (snd_buf k) as l. intros l. induction l as [|s l (I1 & I2 & I3 & I4)]; cbn [map foldr].
  - splits; [lia | lia | by intros s ?%elem_of_nil | lia].
  - splits; [lia | lia | |].
    + intros s' [->|Hin]%elem_of_cons; [lia|]. specialize (I3 _ Hin). lia.
    + intros d H1 H2 H3. apply Z.min_glb; [apply H3; by left|]. apply I4; [done | done|].
      intros s' Hin. apply H3. by right.
Qed.

(** A flush happens exactly when it is due. *)
Lemma ikcp_update_spec k now w :
  wf k -> output k = true -> ackcount k < 2147483648 ->
  wp (ikcp_update k now) (fun k' w' =>
    if due k now then flush_post (primed k now) w k' w' else k' = k<|current := now|> /\ w' = w) w.
Proof.
  intros [? ? ? ? ?] Ho Ha. rewrite ikcp_update_eq. destruct (due k now); [|by wp_step].
  apply ikcp_flush_spec; [by constructor | done | | done].
  unfold primed. kcp_simpl_goal. by destruct (Z.eqb_spec (updated k) 0).
Qed.

(** Shifting the time that is compared. *)
Lemma itimediff_shift x now e :
  -2147483648 <= _itimediff x now - e < 2147483648 ->
  _itimediff x (u32 (now + e)) = _itimediff x now - e.
Proof.
  intros H. rewrite <- (s32_id (_itimediff x now - e)) by done. unfold _itimediff in *.
  apply s32_eqm. rewrite u32_sub_r. rewrite <- (u32_sub_l (s32 (x - now))), u32_s32, u32_sub_l. f_equal. lia.
Qed.

Lemma itimediff_flip x y : _itimediff x y <> -2147483648 -> _itimediff y x = - _itimediff x y.
Proof. unfold _itimediff. mod_lia. Qed.

Lemma itimediff_range x y : -2147483648 <= _itimediff x y < 2147483648.
Proof. apply s32_range. Qed.

(** Being due at a later time, measured from now. *)
Lemma due_later k now e :
  due k now = false -> 0 <= e <= 10000 ->
  due k (u32 (now + e)) = (_itimediff (ts_flush k) now <=? e).
Proof.
  unfold due. intros Hd He. rewrite !orb_false_iff in Hd. destruct Hd as [[-> H1%Z.leb_gt] H2%Z.ltb_ge].
  cbn [orb]. pose proof (itimediff_flip now (ts_flush k) ltac:(lia)) as Hf.
  assert (_itimediff (u32 (now + e)) (ts_flush k) = e - _itimediff (ts_flush k) now) as ->.
  { rewrite itimediff_flip; rewrite itimediff_shift; lia. }
  rewrite (proj2 (Z.ltb_ge (e - _) (-10000))), orb_false_r by lia.
  destruct (Z.leb_spec 0 (e - _itimediff (ts_flush k) now)),
    (Z.leb_spec (_itimediff (ts_flush k) now) e); lia || done.
Qed.

Lemma expired_later k now e :
  expired k now = false -> 0 <= e <= 10000 ->
  expired k (u32 (now + e)) = existsb (fun s => _itimediff (seg_resendts s) now <=? e) (snd_buf k).
Proof.
  unfold expired. induction (snd_buf k) as [|s l IH]; cbn [existsb]; [done|].
  intros [H1%Z.leb_gt H2]%orb_false_iff He. rewrite IH by done. f_equal.
  pose proof (itimediff_range (seg_resendts s) now). rewrite itimediff_shift by lia.
  destruct (Z.leb_spec (_itimediff (seg_resendts s) now - e) 0), (Z.leb_spec (_itimediff (seg_resendts s) now) e);
    lia || done.
Qed.

(** The least of a list is one of its elements, or the start. *)
Lemma foldr_min_in m l : foldr Z.min m l = m \/ foldr Z.min m l ∈ l.
Proof.
  induction l as [|a l IH]; cbn; [by left|]. destruct (Z.min_spec a (foldr Z.min m l)) as [[_ ->]|[_ ->]].
  - right. by left.
  - destruct IH as [->|IH]; [by left | right; by right].
Qed.

(** The answer of [ikcp_check] as a delay: nothing is due or expired before it. *)
Lemma ikcp_check_delay k now :
  0 <= now < 4294967296 -> 0 <= ts_flush k < 4294967296 -> 0 < interval k <= 5000 ->
  exists d, ikcp_check k now = u32 (now + d) /\ 0 <= d <= interval k /\
    (d = 0 <-> due k now = true \/ expired k now = true) /\
    (forall e, 0 <= e < d -> due k (u32 (now + e)) = false /\ expired k (u32 (now + e)) = false) /\
    (d = interval k \/ due k (u32 (now + d)) = true \/ expired k (u32 (now + d)) = true).
Proof.
  intros Hn Ht Hi. rewrite ikcp_check_eq by done.
  destruct (due k now || expired k now) eqn:Ede.
  { apply orb_true_iff in Ede. exists 0. rewrite Z.add_0_r, (u32_id now) by done. splits; [done | lia | lia | done | lia | tauto]. }
  apply orb_false_iff in Ede as [Ed Ee]. rewrite Ed, Ee.
  destruct (wait_spec k now) as (W1 & W2 & W3 & W4).
  assert (0 < _itimediff (ts_flush k) now) as Hd.
  { unfold due in Ed. rewrite !orb_false_iff in Ed. destruct Ed as [[_ H1%Z.leb_gt] H2%Z.ltb_ge].
    rewrite itimediff_flip; lia. }
  assert (forall s, s ∈ snd_buf k -> 1 <= _itimediff (seg_resendts s) now) as He.
  { intros s Hin. unfold expired in Ee. apply not_true_iff_false in Ee. rewrite existsb_exists in Ee.
    destruct (Z_le_dec 1 (_itimediff (seg_resendts s) now)); [done|]. destruct Ee. exists s.
    split; [by apply list_elem_of_In | apply Z.leb_le; lia]. }
  pose proof (W4 1 ltac:(lia) ltac:(lia) He) as W. exists (wait k now). splits; [done | lia | lia | | |].
  - split; [lia | by intros [?|?]].
  - intros e Hlt. rewrite due_later, expired_later by (done || lia).
    split; [apply Z.leb_gt; lia|]. apply not_true_iff_false. rewrite existsb_exists.
    intros (s & Hin%list_elem_of_In & H%Z.leb_le). specialize (W3 s Hin). lia.
  - rewrite due_later, expired_later by (done || lia).
    unfold wait in *. destruct (foldr_min_in (Z.min (interval k) (_itimediff (ts_flush k) now))
      (map (fun s => _itimediff (seg_resendts s) now) (snd_buf k))) as [E|Hin].
    + rewrite E in *. destruct (Z.min_spec (interval k) (_itimediff (ts_flush k) now)) as [[_ ->]|[_ ->]];
        [by left|]. right; left. apply Z.leb_refl.
    + right; right. apply existsb_exists. apply list_elem_of_In, in_map_iff in Hin as (s & E & Hin).
      exists s. split; [done|]. apply Z.leb_le. lia.
Qed.
