(* ===== verification/KcpApi.v ===== *)
(** * The library as its user sees it: any sequence of calls on a control block. *)
From S2P Require Import Prelude KcpBase KcpCodec KcpSend KcpRecv KcpInput KcpFlush KcpInv.
From S2P Require Import KcpAck KcpInputSpec KcpRecvSpec KcpSendSpec KcpFlushSpec KcpTimer.
From stdpp Require Import base list numbers strings.
Open Scope Z_scope.
Open Scope c_scope.

(** A call of the interface of ikcp.h, with its arguments. *)
Inductive call : Type :=
  | CSetoutput (cb : bool)
  | CSend (buf : option (list Z)) (len : Z)
  | CRecv (buf : option (list Z)) (len : Z)
  | CInput (data : option (list Z)) (size : Z)
  | CUpdate (now : Z)
  | CFlush
  | CSetmtu (m : Z)
  | CInterval (i : Z)
  | CNodelay (nodelay_ interval_ resend nc : Z)
  | CWndsize (sndwnd rcvwnd : Z).

(** What the caller must see to: buffers as long as it says, [int] arguments, an
    output callback before the first flush, fewer than 2^31 bytes to be received and
    acknowledgements to be sent, and no smaller MTU while larger segments wait. *)
Definition allowed (k : ikcpcb) (c : call) : Prop :=
  match c with
  | CSetoutput _ => True
  | CSend buf len => len < 2147483648 /\ has_bytes buf len
  | CRecv buf len => 
    Z.of_nat (length (payload (rcv_queue k))) < 2147483648 /\ -2147483648 < len < 2147483648 /\
    if buf is Some b then Z.abs len <= Z.of_nat (length b) else True
  | CInput data size =>
    (if data is Some d then size <= Z.of_nat (length d) else True) /\ 0 <= size /\
    ackcount k + size / 24 < 2147483648
  | CUpdate _ | CFlush => output k = true /\ ackcount k < 2147483648
  | CSetmtu m => m < 1073741824 /\ Forall (fun s => seg_len s <= m - 24) (snd_buf k ++ snd_queue k)
  | CInterval _ | CNodelay _ _ _ _ => True
  | CWndsize s r => s < 2147483648 /\ r < 2147483648
  end.

Section Api.
Context {alloc : Allocator}.

Definition perform (c : call) (k : ikcpcb) : M world ikcpcb :=
  match c with
  | CSetoutput cb => ret (ikcp_setoutput k cb)
  | CSend buf len => let! ' (_, k) := ikcp_send k buf len in ret k
  | CRecv buf len => let! ' (_, k, _) := ikcp_recv k buf len in ret k
  | CInput data size => let! ' (_, k) := ikcp_input k data size in ret k
  | CUpdate now => ikcp_update k now
  | CFlush => ikcp_flush k
  | CSetmtu m => let! ' (_, k) := ikcp_setmtu k m in ret k
  | CInterval i => ret (ikcp_interval k i).2
  | CNodelay nd i rs nc => ret (ikcp_nodelay k nd i rs nc).2
  | CWndsize s r => ret (ikcp_wndsize k s r).2
  end.

(** One call that the caller may make. *)
Inductive api_step : ikcpcb * world -> ikcpcb * world -> Prop :=
  | api_call c k w k' w' :
      allowed k c -> perform c k w = Ok k' w' -> api_step (k, w) (k', w').

(** ** Every operation keeps the invariant *)

Section Safe.
Context (alloc_ok : forall n size, malloc n size <> None).

Lemma ikcp_create_spec cv us w :
  wp (ikcp_create cv us) (fun r w' => exists k, r = Some k /\ wf k /\ conv k = cv /\ 
     w_live w' - heap k = w_live w /\ outputs w' = outputs w) w.
Proof.
  unfold ikcp_create. wp_step. apply wp_malloc; [done|]. intros m1. wp_step.
  apply wp_malloc; [done|]. intros m2. wp_step. eexists. split; [done|].
  splits; [| done | unfold heap; cbn; lia | done].
  constructor.
  - unfold wf_cfg. cbn. splits; done || lia.
  - unfold wf_snd. cbn. rewrite off_self. splits; try done; constructor.
  - unfold wf_rcv. cbn. splits; try done; constructor.
  - unfold wf_segs. cbn. splits; constructor.
  - unfold wf_ack. cbn. done.
Qed.

Lemma free_queue_spec q Q w : Q tt (freed (length q) w) -> wp (ikcp_free_queue q) Q w.
Proof.
  revert w. induction q as [|s q IH]; intros w HQ; cbn [ikcp_free_queue length] in *.
  - wp_step. by rewrite freed_0 in HQ.
  - wp_step. apply wp_free. apply IH. by rewrite freed_freed.
Qed.

Lemma wp_free_opt {A} (o : option A) (Q : unit -> world -> Prop) w :
  Q tt (freed (if o is Some _ then 1 else 0) w) ->
  wp (match o with Some _ => ikcp_free | None => ret tt end) Q w.
Proof. destruct o; intros HQ; [by apply wp_free | wp_step; by rewrite freed_0 in HQ]. Qed.

(** Releasing a control block gives back every block it owns. *)
Lemma ikcp_release_spec k w :
  wp (ikcp_release k) (fun _ w' => w_live w' = w_live w - heap k /\ outputs w' = outputs w) w.
Proof.
  unfold ikcp_release, heap.
  do 4 (wp_step; apply free_queue_spec).
  wp_step. apply wp_free_opt. wp_step. apply wp_free_opt. apply wp_free.
  split; [|done]. cbn [freed w_live]. destruct (buffer k), (acklist k); lia.
Qed.

Lemma wf_setmtu k m w :
  wf k -> m < 1073741824 -> Forall (fun s => seg_len s <= m - 24) (snd_buf k ++ snd_queue k) ->
  wp (ikcp_setmtu k m) (fun r w' => wf r.2 /\ balanced k w r.2 w' /\
    (if m <? 50 then r = (-1, k) else r.1 = 0 /\ mtu r.2 = m /\ mss r.2 = m - 24) /\
    outputs w' = outputs w) w.
Proof.
  intros Hwf Hm Hf. unfold ikcp_setmtu, IKCP_OVERHEAD.
  destruct (Z.ltb_spec m 50) as [H50|H50]; cbn [orb].
  { wp_step. unfold balanced. splits; done. }
  destruct Hwf as [(H1 & H2 & H3 & H4) Hs Hr (G1 & G2 & G3 & G4 & _) Ha].
  rewrite (proj2 (Z.ltb_ge m 24)) by lia. wp_step. apply wp_malloc; [done|]. intros mem.
  wp_step. apply wp_free. wp_step. cbn [fst snd].
  assert (u32 m = m) as Eu by (apply u32_id; lia).
  assert (u32 (m - 24) = m - 24) as Eu2 by (apply u32_id; lia).
  assert (u32 (u32 (m + 24) * 3) = 3 * (m + 24)) as Eu3 by (rewrite (u32_id (m + 24)), u32_id; lia).
  kcp_simpl_goal. rewrite Eu, Eu2, Eu3. splits; [| | done..].
  - constructor; done.
  - unfold balanced, heap. kcp_simpl_goal. rewrite H3. cbn. lia.
Qed.

Lemma wf_nodelay k nd i rs nc : wf k -> wf (ikcp_nodelay k nd i rs nc).2 /\ 
  heap (ikcp_nodelay k nd i rs nc).2 = heap k.
Proof.
  intros [? ? ? ? ?]. unfold ikcp_nodelay. cbv zeta.
  destruct (0 <=? nd), (negb (nd =? 0)), (0 <=? i), (0 <=? rs), (0 <=? nc);
    (split; [by constructor | done]).
Qed.

Lemma wf_wndsize k s r : wf k -> s < 2147483648 -> r < 2147483648 ->
  wf (ikcp_wndsize k s r).2 /\ heap (ikcp_wndsize k s r).2 = heap k.
Proof.
  intros [(H1 & H2 & H3 & H4 & H5 & H6 & H7) ? Hr ? ?] Hs' Hr'. unfold ikcp_wndsize, IKCP_WND_RCV, _imax_.
  split; [|by destruct (0 <? s), (0 <? r)]. cbn [snd].
  destruct (Z.ltb_spec 0 s), (Z.ltb_spec 0 r); (constructor; [| done | exact Hr | done | done]);
    unfold wf_cfg; kcp_simpl_goal; splits; try done; try lia;
    destruct (Z.leb_spec 128 r); lia.
Qed.

(** No allowed call faults; each keeps the invariant and the balance of the heap. *)
Lemma perform_spec c k w :
  wf k -> allowed k c -> wp (perform c k) (fun k' w' => wf k' /\ balanced k w k' w') w.
Proof.
  intros Hwf Hal. unfold balanced. destruct c; cbn [perform allowed] in *.
  - wp_step. destruct Hwf. split; [by constructor | done].
  - destruct Hal. wp_step. eapply wp_mono; [by apply ikcp_send_spec|]. intros [] ? (_ & ? & ? & _). by wp_step.
  - destruct Hal as (? & ? & ?). wp_step. eapply wp_mono; [by apply ikcp_recv_spec|]. intros [[r k'] b] w' Hp.
    wp_step. unfold recv_post in Hp. cbn [fst snd] in Hp.
    destruct (bool_decide _); [by destruct Hp as [[= _ -> _] ->]|].
    destruct (negb (ready k)); [by destruct Hp as [[= _ -> _] ->]|].
    destruct (_ <? _); [by destruct Hp as [[= _ -> _] ->]|].
    by destruct Hp as (? & ? & ? & _ & _ & _ & ? & ? & _).
  - destruct Hal as (? & ? & ?). wp_step. eapply wp_mono; [by apply wf_input|]. intros [] ? [? ?]. by wp_step.
  - destruct Hal. eapply wp_mono; [by apply ikcp_update_spec|]. cbv beta. intros k' w' Hp. destruct (due k now).
    + destruct Hp as (n & b & _ & _ & _ & _ & ? & Hb & _). split; [done|]. exact Hb.
    + destruct Hp as [-> ->]. destruct Hwf. split; [by constructor | done].
  - destruct Hal. destruct (decide (updated k = 0)) as [E|E].
    + unfold ikcp_flush. rewrite (proj2 (Z.eqb_eq _ _) E). by wp_step.
    + eapply wp_mono; [by apply ikcp_flush_spec|]. intros k' w' (n & b & _ & _ & _ & _ & ? & ? & _). done.
  - destruct Hal. wp_step. eapply wp_mono; [by apply wf_setmtu|]. intros [] ? (? & ? & _). by wp_step.
  - wp_step. destruct Hwf. split; [by constructor | done].
  - wp_step. destruct (wf_nodelay k nodelay_ interval_ resend nc Hwf) as [? ->]. done.
  - destruct Hal. wp_step. destruct (wf_wndsize k sndwnd rcvwnd Hwf) as [? ->]; done.
Qed.

Lemma api_step_wf s s' : wf s.1 -> api_step s s' -> wf s'.1 /\ balanced s.1 s.2 s'.1 s'.2.
Proof.
  intros Hwf Hst. destruct Hst as [c k w k' w' Hal Hrun]. cbn [fst snd] in *.
  pose proof (perform_spec c k w Hwf Hal) as Hp. unfold wp in Hp. by rewrite Hrun in Hp.
Qed.

Lemma api_star_wf s s' : wf s.1 -> star api_step s s' -> wf s'.1 /\ balanced s.1 s.2 s'.1 s'.2.
Proof.
  intros Hwf Hst. induction Hst as [s|s1 s2 s3 H12 _ IH]; [done|].
  destruct (api_step_wf _ _ Hwf H12) as [Hwf2 Hb]. destruct (IH Hwf2) as [Hwf3 Hb3].
  split; [done|]. unfold balanced in *. lia.
Qed.
End Safe.
End Api.
