(* ===== verification/KcpStream.v ===== *)
(** * What a session carries: the invariants of its two ends.

    [hist] is the sequence of all fragments that one end has queued since it was
    created, in order.  [source]: what that end still holds, numbered and not, is that
    sequence.  [sink]: what the other end has put together is a piece of it.  Each
    operation of ikcp.c keeps both, on every path. *)
From S2P Require Import Prelude KcpBase KcpCodec KcpSend KcpRecv KcpInput KcpFlush KcpInv.
From S2P Require Import KcpAck KcpInputSpec KcpRecvSpec KcpSendSpec KcpFlushSpec KcpTimer.
From Stdlib Require Import Lia.
From stdpp Require Import base list numbers strings.
Open Scope Z_scope.
Open Scope c_scope.

(** A fragment: its fragment number and its bytes. *)
Definition frag (s : IKCPSEG) : Z * list Z := (seg_frg s, seg_data s).

Definition numbered (hist : list (Z * list Z)) (s : IKCPSEG) : Prop := hist !! Z.to_nat (seg_sn s) = Some (frag s).

Definition carried (cv : Z) (hist : list (Z * list Z)) (s : IKCPSEG) : Prop :=
  seg_conv s = cv /\ seg_cmd s = IKCP_CMD_PUSH /\ numbered hist s.

Definition hist_ok (hist : list (Z * list Z)) : Prop :=
  Z.of_nat (length hist) < 2147483648 /\ Forall (fun f => 0 <= f.1 < 256) hist.

(** The sending end. *)
Record source (cv : Z) (hist : list (Z * list Z)) (k : ikcpcb) : Prop := mksource {
  so_conv : conv k = cv;
  so_stream : stream k = 0;
  so_next : snd_nxt k + Z.of_nat (length (snd_queue k)) = Z.of_nat (length hist);
  so_queue : map frag (snd_queue k) = drop (Z.to_nat (snd_nxt k)) hist;
  so_buf : Forall (carried cv hist) (snd_buf k);
}.

(** The receiving end, when [c] fragments have been handed to its user. *)
Record sink (hist : list (Z * list Z)) (c : nat) (k : ikcpcb) : Prop := mksink {
  si_next : Z.of_nat c <= rcv_nxt k <= Z.of_nat (length hist);
  si_queue : map frag (rcv_queue k) = take (Z.to_nat (rcv_nxt k) - c) (drop c hist);
  si_buf : Forall (numbered hist) (rcv_buf k);
}.

(** A datagram of the other end. *)
Definition control (cv : Z) (s : IKCPSEG) : Prop :=
  seg_conv s = cv /\ (seg_cmd s = IKCP_CMD_ACK \/ seg_cmd s = IKCP_CMD_WASK \/ seg_cmd s = IKCP_CMD_WINS) /\
  seg_data s = [] /\ seg_len s = 0.
Definition genuine_seg (cv : Z) (hist : list (Z * list Z)) (s : IKCPSEG) : Prop :=
  control cv s \/ carried cv hist s /\ seg_ok s /\ 0 <= seg_frg s < 256.
Definition genuine (cv : Z) (hist : list (Z * list Z)) (d : list Z) : Prop :=
  exists segs, d = frames segs /\ Forall (genuine_seg cv hist) segs.

(** ** More fragments may be queued *)

Lemma numbered_app hist h s : numbered hist s -> numbered (hist ++ h) s.
Proof. apply lookup_app_l_Some. Qed.

Lemma carried_app cv hist h s : carried cv hist s -> carried cv (hist ++ h) s.
Proof. intros (? & ? & ?). split; [done|]. split; [done | by apply numbered_app]. Qed.

Lemma genuine_app cv hist h d : genuine cv hist d -> genuine cv (hist ++ h) d.
Proof.
  intros (segs & -> & Hf). exists segs. split; [done|]. eapply Forall_impl; [exact Hf|].
  intros s [?|[? ?]]; [by left | right; split; [by apply carried_app | done]].
Qed.

Lemma sink_app hist h c k : sink hist c k -> sink (hist ++ h) c k.
Proof.
  intros [H1 H2 H3]. constructor.
  - rewrite length_app. lia.
  - rewrite H2, drop_app_le by lia. rewrite take_app_le; [done|]. rewrite length_drop. lia.
  - eapply Forall_impl; [exact H3|]. intros s. apply numbered_app.
Qed.

(** ** What the invariants depend on *)

Lemma source_ext cv hist k k' :
  conv k' = conv k -> stream k' = stream k -> snd_nxt k' = snd_nxt k -> snd_queue k' = snd_queue k ->
  Forall (carried cv hist) (snd_buf k') -> source cv hist k -> source cv hist k'.
Proof. intros E1 E2 E3 E4 Hf [H1 H2 H3 H4 H5]. constructor; rewrite ?E1, ?E2, ?E3, ?E4; done. Qed.

Lemma sink_ext hist c k k' :
  rcv_nxt k' = rcv_nxt k -> rcv_queue k' = rcv_queue k -> rcv_buf k' = rcv_buf k -> sink hist c k -> sink hist c k'.
Proof. intros E1 E2 E3 [H1 H2 H3]. constructor; rewrite ?E1, ?E2, ?E3; done. Qed.

Lemma sublist_carried cv hist l l' : sublist l l' -> Forall (carried cv hist) l' -> Forall (carried cv hist) l.
Proof. apply sublist_Forall. Qed.

(** The two halves together; every step that is not about one of them keeps it. *)
Definition ends (cv : Z) (ho hi : list (Z * list Z)) (c : nat) (k : ikcpcb) : Prop := source cv ho k /\ sink hi c k.

(** Closes the goal that an update of unrelated fields keeps [ends]. *)
Ltac keep_ends H :=
  destruct H as [Hso Hsi]; split;
  [ apply (source_ext _ _ _ _) with (6 := Hso); first [reflexivity | apply (so_buf _ _ _ Hso)]
  | apply (sink_ext _ _ _ _) with (4 := Hsi); reflexivity ].

(** ** A run of consecutive numbers *)

Lemma run_matches hist l : forall r,
  0 <= r <= Z.of_nat (length hist) -> Z.of_nat (length hist) < 2147483648 ->
  (forall i s, l !! i = Some s -> seg_sn s = u32 (r + Z.of_nat i)) -> Forall (numbered hist) l ->
  map frag l = take (length l) (drop (Z.to_nat r) hist) /\ r + Z.of_nat (length l) <= Z.of_nat (length hist).
Proof.
  induction l as [|s l IH]; intros r Hr Hb Hn Hf; cbn [map length].
  { split; [done | lia]. }
  apply Forall_cons in Hf as [Hs Hf]. pose proof (Hn 0%nat s eq_refl) as E. rewrite Z.add_0_r, u32_id in E by lia.
  unfold numbered in Hs. rewrite E in Hs. pose proof (lookup_lt_Some _ _ _ Hs).
  destruct (IH (r + 1)) as [H1 H2]; [lia | done | | done |].
  { intros i s' Hi. rewrite (Hn (S i) s' Hi). f_equal. lia. }
  split; [|lia]. rewrite (drop_S _ _ _ Hs). cbn [take]. rewrite H1.
  replace (Z.to_nat (r + 1)) with (S (Z.to_nat r)) by lia. done.
Qed.

Lemma sink_moved hist c k k' l1 l2 :
  hist_ok hist -> moved k k' l1 l2 -> sink hist c k -> sink hist c k'.
Proof.
  intros [Hb _] (Hl & Hn & ->) [H1 H2 H3]. rewrite Hl in H3. apply Forall_app in H3 as [H3 H4].
  destruct (run_matches hist l1 (rcv_nxt k)) as [E1 E2]; [lia | done | done | done |].
  assert (u32 (rcv_nxt k + Z.of_nat (length l1)) = rcv_nxt k + Z.of_nat (length l1)) as Eu by (apply u32_id; lia).
  constructor; kcp_simpl_goal; rewrite ?Eu; [lia | | done].
  rewrite map_app, H2, E1. replace (Z.to_nat (rcv_nxt k)) with (c + (Z.to_nat (rcv_nxt k) - c))%nat at 2 by lia.
  rewrite <- drop_drop, take_take_drop. f_equal. lia.
Qed.

Lemma sink_inserted hist c k seg k' : numbered hist seg -> inserted k seg k' -> sink hist c k -> sink hist c k'.
Proof.
  intros Hn (b1 & b2 & Hl & _ & _ & ->) [H1 H2 H3]. rewrite Hl in H3. apply Forall_app in H3 as [H3 H4].
  constructor; kcp_simpl_goal; [done | done |]. apply Forall_app. split; [done|]. by apply Forall_cons.
Qed.

(** ** Flushing *)

Lemma flush_seg_keeps k resent rtomin wnd s : exists ts rs rto wn una fa xm,
  flush_seg k resent rtomin wnd s =
    s<|seg_ts := ts|><|seg_resendts := rs|><|seg_rto := rto|><|seg_wnd := wn|><|seg_una := una|>
     <|seg_fastack := fa|><|seg_xmit := xm|>.
Proof.
  set (x := flush_seg k resent rtomin wnd s).
  exists (seg_ts x), (seg_resendts x), (seg_rto x), (seg_wnd x), (seg_una x), (seg_fastack x), (seg_xmit x).
  subst x. unfold flush_seg, is_sent, flush_rearm. destruct s.
  destruct (decide_seg _ _ _), (nodelay k =? 0); reflexivity.
Qed.

Lemma flush_seg_carried cv hist k resent rtomin wnd s :
  carried cv hist s -> carried cv hist (flush_seg k resent rtomin wnd s).
Proof. intros H. destruct (flush_seg_keeps k resent rtomin wnd s) as (? & ? & ? & ? & ? & ? & ? & ->). exact H. Qed.

Lemma stamped_carried hist k wnd cur l : forall sn,
  0 <= sn -> sn + Z.of_nat (length l) < 4294967296 ->
  map frag l = take (length l) (drop (Z.to_nat sn) hist) ->
  Forall (carried (conv k) hist) (stamped k wnd cur sn l).
Proof.
  induction l as [|s l IH]; intros sn Hs Hl Hm; cbn [stamped map length] in *; constructor.
  - split; [done|]. split; [done|]. unfold numbered, stamp. kcp_simpl_goal.
    apply (f_equal (fun l => l !! 0%nat)) in Hm. cbn [lookup list_lookup] in Hm.
    rewrite lookup_take_lt, lookup_drop, Nat.add_0_r in Hm by lia. rewrite <- Hm. done.
  - destruct (drop (Z.to_nat sn) hist) as [|f h] eqn:Ed; [done|]. cbn [take] in Hm. injection Hm as _ Hm.
    rewrite u32_id by lia. apply IH; [lia | lia |]. rewrite Hm. f_equal.
    replace (Z.to_nat (sn + 1)) with (Z.to_nat sn + 1)%nat by lia. by rewrite <- drop_drop, Ed.
Qed.

(** The numbers of a source: [snd_una] does not pass [snd_nxt]. *)
Lemma source_next cv hist k n x :
  wf_snd k -> hist_ok hist -> source cv hist k -> (n <= length (snd_queue k))%nat -> 0 <= x < 4294967296 ->
  off (snd_una k) x = off (snd_una k) (snd_nxt k) + Z.of_nat n -> x = snd_nxt k + Z.of_nat n.
Proof.
  intros (Hx & Hfl & _) [Hb _] [_ _ Hn _ _] Hnq Hr E. apply (off_inj (snd_una k)); [done | lia |].
  rewrite E. unfold off in *. 
  replace (snd_nxt k + Z.of_nat n - snd_una k) with (snd_nxt k - snd_una k + Z.of_nat n) by lia.
  rewrite <- (u32_add_l (snd_nxt k - snd_una k)). pose proof (u32_range (snd_nxt k - snd_una k)). symmetry.
  apply u32_id. lia.
Qed.

Lemma control_segs_control k : Forall (control (conv k)) (control_segs k).
Proof.
  assert (forall seg l, control (conv k) seg -> control (conv k) (after_acks seg l)) as Ha.
  { intros seg l H. unfold after_acks. by destruct (last l). }
  assert (control (conv k) (flush_template k)) as Ht by (split; [done|]; split; [by left | done]).
  unfold control_segs, probe_segs. rewrite !Forall_app. split; [|split].
  - apply Forall_forall. intros s Hs%list_elem_of_In%in_map_iff. destruct Hs as (p & <- & _). exact Ht.
  - destruct (_ =? 0); constructor; [|constructor]. destruct (Ha _ (acks k) Ht) as (? & _ & ?).
    split; [done|]. split; [right; by left | done].
  - destruct (_ =? 0); constructor; [|constructor]. destruct (Ha _ (acks k) Ht) as (? & _ & ?).
    split; [done|]. split; [by right; right | done].
Qed.

Lemma ends_flush_post cv ho hi c k w k' w' :
  wf k -> hist_ok ho -> ends cv ho hi c k -> flush_post k w k' w' ->
  wf k' /\ ends cv ho hi c k' /\ exists ds, outputs w' = outputs w ++ ds /\ Forall (genuine cv ho) ds.
Proof.
  intros Hwf Hok [Hso Hsi] (n & bs & (Hn & _) & Ho & Hc & _ & Hwf' & _ & Hb & Hq & Hnx & _ & _ & _ & Hfr).
  unfold frame_of in Hfr. injection Hfr as _ _ _ _ _ _ Eu Er1 Er2 Er3 _ _ _ Ecv Est.
  pose proof Hso as [S1 S2 S3 S4 S5]. pose proof Hok as [Hlt Hfrg].
  assert (snd_nxt k' = snd_nxt k + Z.of_nat n) as Enx.
  { apply (source_next cv ho k n); [apply Hwf | done | done | done | apply (wf_is_snd _ Hwf') | done]. }
  assert (0 <= snd_nxt k < 4294967296) as Hrange by apply (wf_is_snd _ Hwf).
  assert (Forall (carried cv ho) (snd_buf (flush_mid k n))) as Hmid.
  { destruct (after_control_fields k) as (tp & pw & Eac). unfold flush_mid. rewrite Eac. unfold moved_out. kcp_simpl_goal.
    apply Forall_app. split; [done|].
    match goal with |- Forall _ (stamped ?K _ _ _ _) => replace cv with (conv K) by exact S1 end.
    apply stamped_carried; [lia | |].
    - rewrite length_take. lia.
    - rewrite <- firstn_map, S4, length_take. f_equal. lia. }
  split; [done|]. split.
  - split.
    + constructor; [congruence | congruence | | |].
      * rewrite Enx, Hq, length_drop. lia.
      * rewrite Enx, Hq, <- skipn_map, S4, drop_drop. f_equal. lia.
      * rewrite Hb. unfold flushed_buf. apply Forall_forall. intros s Hs%list_elem_of_In%in_map_iff.
        destruct Hs as (s0 & <- & Hs0%list_elem_of_In). apply flush_seg_carried. rewrite Forall_forall in Hmid. auto.
    + by apply (sink_ext hi c k).
  - exists (map frames bs). split; [done|].
    assert (Forall (genuine_seg cv ho) (concat bs)) as Hall.
    { rewrite Hc. apply Forall_app. split.
      - eapply Forall_impl; [apply control_segs_control|]. intros s Hs. left. by rewrite <- S1.
      - apply Forall_forall. intros s Hs. right. 
        apply list_elem_of_In, in_map_iff in Hs. destruct Hs as (s0 & <- & [Hs0 _]%filter_In).
        match goal with |- carried _ _ ?x /\ _ => assert (x ∈ snd_buf k') as Hin;
          [rewrite Hb; apply list_elem_of_In, in_map; exact Hs0 | assert (carried cv ho x) as Hx] end.
        { apply flush_seg_carried. rewrite Forall_forall in Hmid. by apply Hmid, list_elem_of_In. }
        split; [exact Hx|]. split.
        { destruct (wf_is_segs _ Hwf') as (G & _). rewrite Forall_forall in G. by apply G. }
        destruct Hx as (_ & _ & Hx). apply list_elem_of_lookup_2 in Hx. rewrite Forall_forall in Hfrg. apply (Hfrg _ Hx). }
    apply Forall_forall. intros d Hd%list_elem_of_In%in_map_iff. destruct Hd as (segs & <- & Hin%list_elem_of_In).
    exists segs. split; [done|]. apply Forall_forall. intros s Hs. rewrite Forall_forall in Hall. apply Hall.
    apply list_elem_of_In, in_concat. exists segs. by rewrite <- !list_elem_of_In.
Qed.

Lemma ends_update cv ho hi c k now w :
  wf k -> output k = true -> ackcount k < 2147483648 -> hist_ok ho -> ends cv ho hi c k ->
  wp (ikcp_update k now) (fun k' w' => wf k' /\ output k' = true /\ ends cv ho hi c k' /\ ackcount k' <= ackcount k /\
    exists ds, outputs w' = outputs w ++ ds /\ Forall (genuine cv ho) ds) w.
Proof.
  intros Hwf Hout Hack Hok He. eapply wp_mono; [by apply ikcp_update_spec|]. cbv beta. intros k' w' Hp.
  destruct (due k now).
  - assert (output k' = true) as Ho.
    { destruct Hp as (n & b & _ & _ & _ & _ & _ & _ & _ & _ & _ & _ & _ & _ & Hfr). injection Hfr as _ _ _ _ E _ _ _ _ _ _ _ _ _ _.
      rewrite E. exact Hout. }
    destruct (ends_flush_post cv ho hi c (primed k now) w k' w') as (H1 & H2 & H3); [| done | | done |].
    + destruct Hwf. by constructor.
    + keep_ends He.
    + splits; try done. destruct Hp as (n & b & _ & _ & _ & _ & _ & _ & _ & _ & _ & -> & _). apply (wf_is_ack _ Hwf).
  - destruct Hp as [-> ->]. split; [by destruct Hwf; constructor|]. split; [done|]. split; [keep_ends He|].
    split; [done|]. exists []. by rewrite app_nil_r.
Qed.

Lemma ends_flush cv ho hi c k w :
  wf k -> output k = true -> ackcount k < 2147483648 -> hist_ok ho -> ends cv ho hi c k ->
  wp (ikcp_flush k) (fun k' w' => wf k' /\ output k' = true /\ ends cv ho hi c k' /\ ackcount k' <= ackcount k /\
    exists ds, outputs w' = outputs w ++ ds /\ Forall (genuine cv ho) ds) w.
Proof.
  intros Hwf Hout Hack Hok He. destruct (Z.eq_dec (updated k) 0) as [E|E].
  - unfold ikcp_flush. rewrite E. cbv zeta. cbn [Z.eqb]. wp_step. splits; try done. exists []. by rewrite app_nil_r.
  - eapply wp_mono; [by apply ikcp_flush_spec|]. intros k' w' Hp.
    destruct (ends_flush_post cv ho hi c k w k' w') as (H1 & H2 & H3); [done..|]. splits; try done;
      [|destruct Hp as (n & b & _ & _ & _ & _ & _ & _ & _ & _ & _ & -> & _); apply (wf_is_ack _ Hwf)].
    destruct Hp as (n & b & _ & _ & _ & _ & _ & _ & _ & _ & _ & _ & _ & _ & Hfr). injection Hfr as _ _ _ _ E' _ _ _ _ _ _ _ _ _ _.
    congruence.
Qed.

(** ** Receiving datagrams *)

Section Input.
Context {alloc : Allocator} (alloc_ok : forall n size, malloc n size <> None).
Context (cv : Z) (ho hi : list (Z * list Z)) (c : nat) (ho_ok : hist_ok ho) (hi_ok : hist_ok hi).
Context (cv_range : 0 <= cv < 4294967296).

Lemma ends_reduced k w k' w' :
  wf k -> ends cv ho hi c k -> snd_reduced k w k' w' ->
  wf (ikcp_shrink_buf k') /\ ends cv ho hi c (ikcp_shrink_buf k') /\ outputs w' = outputs w /\
  output (ikcp_shrink_buf k') = output k /\ ackcount (ikcp_shrink_buf k') = ackcount k.
Proof.
  intros Hwf [Hso Hsi] Hr. destruct (wf_reduced _ _ _ _ Hwf Hr) as [Hwf' _]. split; [done|].
  destruct Hr as (l & Hsub & -> & ->). unfold ikcp_shrink_buf. kcp_simpl_goal.
  assert (Forall (carried cv ho) l) as Hl by (eapply sublist_Forall; [done | apply Hso]).
  split; [|destruct l; done].
  split; [apply (source_ext cv ho k) | apply (sink_ext hi c k)]; destruct l; done.
Qed.

Lemma ends_update_ack k rtt : ends cv ho hi c k -> ends cv ho hi c (ikcp_update_ack k rtt) /\
  output (ikcp_update_ack k rtt) = output k.
Proof.
  intros He. unfold ikcp_update_ack. destruct (rx_srtt k =? 0); [|destruct (_ <? 1)]; (split; [keep_ends He | done]).
Qed.

(** Taking a genuine data segment. *)
Lemma ends_input_push k s rest w :
  wf k -> carried cv hi s -> seg_ok s -> 0 <= seg_frg s < 256 -> ackcount k < 2147483647 -> ends cv ho hi c k ->
  wp (ikcp_input_push k (header_of s) (seg_data s ++ rest)) (fun k' w' =>
    ends cv ho hi c k' /\ outputs w' = outputs w /\ output k' = output k) w.
Proof.
  intros Hwf (_ & Hcmd & Hnum) (Hlen & Hlen2 & Hsn) Hfrg Hack He. unfold ikcp_input_push. wp_step.
  apply wp_log_if. intros w1 _ _ Ho1. cbn [header_of h_sn h_ts h_len h_cmd h_frg h_wnd h_una].
  rewrite (u32_id (seg_sn s)), (u32_id (seg_len s)) by lia.
  destruct (_ <? 0); [|by wp_step]. wp_step.
  eapply wp_mono; [apply ikcp_ack_push_spec; [done | apply Hwf | done]|].
  intros k1 w2 (l & nb & Ek1 & Hack1 & _ & _ & Hev).
  assert (outputs w2 = outputs w) as Ho2 by (unfold outputs in *; by rewrite Hev).
  assert (wf k1) as Hwf1 by (destruct Hwf as [? ? ? ? _]; rewrite Ek1 in *; by constructor).
  assert (ends cv ho hi c k1) as He1 by (rewrite Ek1; keep_ends He).
  assert (output k1 = output k) as Hout1 by by rewrite Ek1.
  destruct (0 <=? _); [|wp_step; by splits]. wp_step.
  eapply wp_mono; [apply ikcp_segment_new_spec, alloc_ok|]. intros o w3 (seg & -> & Hds & _ & Hev3). wp_step.
  assert (outputs w3 = outputs w) as Ho3 by (unfold outputs in *; by rewrite Hev3).
  assert (forall new, seg_ok new -> seg_sn new = seg_sn s -> frag new = frag s ->
    wp (ikcp_parse_data k1 new) (fun k' w' => ends cv ho hi c k' /\ outputs w' = outputs w /\ output k' = output k) w3) as Hparse.
  { intros new Hnew Es Ef. eapply wp_mono; [apply ikcp_parse_data_spec; [apply Hwf1.. | lia]|].
    intros k' w' [_ [(_ & -> & ->)|(_ & _ & k2 & l1 & l2 & Hm & Hcase)]]; [done|].
    assert (ends cv ho hi c k2 /\ output k2 = output k1 /\ outputs w' = outputs w3) as (He2 & Hout2 & Ho').
    { destruct Hcase as [(_ & -> & ->)|[Hi ->]]; [done|]. destruct He1 as [Hso Hsi]. split; [|split; [|done]].
      - split; [|apply (sink_inserted _ _ k1 new); [|done..]; unfold numbered; by rewrite Es, Ef].
        destruct Hi as (? & ? & _ & _ & _ & ->). apply (source_ext cv ho k1); try done. apply Hso.
      - by destruct Hi as (? & ? & _ & _ & _ & ->). }
    destruct He2 as [Hso Hsi]. splits; [|congruence|].
    - split; [|by apply (sink_moved _ _ k2 k' l1 l2)]. destruct Hm as (_ & _ & ->).
      apply (source_ext cv ho k2); try done. apply Hso.
    - destruct Hm as (_ & _ & ->). cbn. congruence. }
  destruct (Z.ltb_spec 0 (seg_len s)) as [Hpos|Hpos].
  - wp_step. apply memcpy_from_spec; [rewrite length_app; lia|].
    rewrite take_app_le by lia. rewrite take_ge by lia. apply memcpy_to_full.
    + kcp_simpl_goal. lia.
    + apply Hparse; [unfold seg_ok; kcp_simpl_goal; lia | done |]. unfold frag. kcp_simpl_goal. by rewrite u8_id.
  - wp_step. apply Hparse; [unfold seg_ok; kcp_simpl_goal; lia | done |]. unfold frag. kcp_simpl_goal.
    rewrite u8_id by done. f_equal. destruct (seg_data s); [|cbn in *; lia]. destruct (seg_data seg); [done | cbn in *; lia].
Qed.

Lemma header_of_ok s : 0 <= seg_len s < 2147483648 ->
  header_ok (header_of s) /\ h_len (header_of s) = seg_len s.
Proof.
  intros Hl. unfold header_ok, header_of. cbn [h_wnd h_ts h_sn h_una h_len]. rewrite (u32_id (seg_len s)) by lia.
  pose proof (u16_range (seg_wnd s)). pose proof (u32_range (seg_ts s)). pose proof (u32_range (seg_sn s)).
  pose proof (u32_range (seg_una s)). splits; lia.
Qed.

Lemma genuine_len s : genuine_seg cv hi s ->
  seg_conv s = cv /\ known_cmd (u8 (seg_cmd s)) = true /\ 0 <= seg_len s < 2147483648 /\
  Z.of_nat (length (seg_data s)) = seg_len s.
Proof.
  intros [(H1 & H2 & H3 & H4)|((H1 & H2 & _) & (H3 & H4 & _) & _)].
  - rewrite H3, H4. split; [done|]. split; [by destruct H2 as [-> | [-> | ->]] | cbn; lia].
  - rewrite H2. splits; done || lia.
Qed.

(** One genuine segment. *)
Lemma ends_input_seg k s rest flag maxack ts w :
  wf k -> genuine_seg cv hi s -> ackcount k < 2147483647 -> ends cv ho hi c k ->
  wp (ikcp_input_seg k (header_of s) (seg_data s ++ rest) flag maxack ts) (fun r w' => let ' (k', _, _, _) := r in
    ends cv ho hi c k' /\ outputs w' = outputs w /\ output k' = output k) w.
Proof.
  intros Hwf Hg Hack He. unfold ikcp_input_seg. set (k0 := k<|rmt_wnd := h_wnd (header_of s)|>).
  assert (wf k0) as Hwf0.
  { destruct Hwf as [(? & ? & ? & ? & ? & ?) ? ? ? ?]. constructor; [|done..].
    unfold wf_cfg. subst k0. unfold header_of. cbn [h_wnd]. kcp_simpl_goal. pose proof (u16_range (seg_wnd s)). splits; first [done | lia]. }
  assert (ends cv ho hi c k0) as He0 by keep_ends He.
  assert (output k = output k0 /\ ackcount k = ackcount k0) as [-> Hack0] by done. rewrite Hack0 in Hack.
  clearbody k0. clear Hwf He Hack0 k.
  wp_step. eapply wp_mono; [apply ikcp_parse_una_reduced, Hwf0|]. intros k1 w1 Hred.
  destruct (ends_reduced _ _ _ _ Hwf0 He0 Hred) as (Hwf1 & He1 & Ho1 & Hout1 & Hack1).
  revert Hwf1 He1 Hout1 Hack1. generalize (ikcp_shrink_buf k1). clear k1 Hred. intros k1 Hwf1 He1 Hout1 Hack1.
  assert (forall mask fmt args (fl ma t : Z) w2, outputs w2 = outputs w ->
    wp (log_if k1 mask fmt args;;; ret (k1, fl, ma, t)) (fun r w' => let ' (k', _, _, _) := r in
      ends cv ho hi c k' /\ outputs w' = outputs w /\ output k' = output k0) w2) as Hlog.
  { intros. wp_step. apply wp_log_if. intros w3 _ _ Ho3. wp_step. splits; congruence || done. }
  destruct Hg as [Hc|(Hc & Hok & Hfrg)].
  - destruct Hc as (_ & Hcmd & _). cbn [header_of h_cmd]. destruct Hcmd as [E | [E | E]]; rewrite E; cbn [u8 Z.modulo Z.eqb].
    + change (u8 IKCP_CMD_ACK =? IKCP_CMD_ACK) with true. cbv iota. wp_step. unfold ikcp_input_ack.
      set (k2 := if 0 <=? _ then _ else k1).
      assert (wf k2 /\ ends cv ho hi c k2 /\ output k2 = output k0) as (Hwf2 & He2 & Hout2).
      { subst k2. destruct (0 <=? _); [|done]. destruct (ends_update_ack k1 (_itimediff (current k1) (h_ts (header_of s))) He1) as [? ->].
        by split; [apply wf_update_ack|]. }
      wp_step. eapply wp_mono; [apply ikcp_parse_ack_reduced, Hwf2|]. intros k3 w3 Hred. wp_step.
      destruct (ends_reduced _ _ _ _ Hwf2 He2 Hred) as (Hwf3 & He3 & Ho3 & Hout3 & _).
      destruct (if flag =? 0 then _ else _) as [[fl ma] t]. wp_step. apply wp_log_if. intros w4 _ _ Ho4. wp_step.
      splits; congruence || done.
    + change (u8 IKCP_CMD_WASK =? IKCP_CMD_ACK) with false. change (u8 IKCP_CMD_WASK =? IKCP_CMD_PUSH) with false.
      change (u8 IKCP_CMD_WASK =? IKCP_CMD_WASK) with true. cbv iota. wp_step. apply wp_log_if. intros w3 _ _ Ho3. wp_step.
      splits; [keep_ends He1 | congruence | done].
    + change (u8 IKCP_CMD_WINS =? IKCP_CMD_ACK) with false. change (u8 IKCP_CMD_WINS =? IKCP_CMD_PUSH) with false.
      change (u8 IKCP_CMD_WINS =? IKCP_CMD_WASK) with false. cbv iota. by apply Hlog.
  - pose proof Hc as (_ & Hcmd & _). cbn [header_of h_cmd]. rewrite Hcmd.
    change (u8 IKCP_CMD_PUSH =? IKCP_CMD_ACK) with false. change (u8 IKCP_CMD_PUSH =? IKCP_CMD_PUSH) with true. cbv iota.
    wp_step. eapply wp_mono; [apply ends_input_push; try done; lia|]. intros k2 w2 (He2 & Ho2 & Hout2). wp_step.
    splits; congruence || done.
Qed.

(** A genuine datagram, segment after segment. *)
Lemma ends_input_loop segs : forall fuel k flag maxack ts w,
  wf k -> Forall (genuine_seg cv hi) segs -> ackcount k + Z.of_nat (length (frames segs)) / 24 < 2147483648 ->
  (length (frames segs) < fuel)%nat -> ends cv ho hi c k ->
  wp (ikcp_input_loop fuel k (frames segs) (Z.of_nat (length (frames segs))) flag maxack ts) (fun r w' =>
    (exists k' fl ma t, r = IBreak k' fl ma t /\ wf k' /\ ends cv ho hi c k' /\ output k' = output k /\
      ackcount k' <= ackcount k + Z.of_nat (length (frames segs)) / 24) /\ outputs w' = outputs w) w.
Proof.
  induction segs as [|s segs IH]; intros fuel k flag maxack ts w Hwf Hg Hack Hfuel He;
    (destruct fuel as [|fuel]; [lia|]); cbn [ikcp_input_loop]; unfold IKCP_OVERHEAD.
  { change (Z.of_nat (length (frames [])) <? 24) with true. cbv iota. wp_step. split; [|done].
    eexists _, _, _, _. splits; try done. change (Z.of_nat (length (frames [])) / 24) with 0. lia. }
  apply Forall_cons in Hg as [Hs Hg]. pose proof (genuine_len s Hs) as (Hcv & Hcmd & Hlen & Hd).
  assert (frames (s :: segs) = frame s ++ frames segs) as Efr by done. rewrite Efr in *.
  rewrite length_app, frame_length in *. set (m := length (frames segs)) in *.
  rewrite (proj2 (Z.ltb_ge _ 24)) by lia. unfold frame. rewrite <- (assoc_L (++)), decode_conv_encode.
  wp_step. wp_step. rewrite Hcv, u32_id, (so_conv _ _ _ (proj1 He)), Z.eqb_refl by done. cbn [negb].
  rewrite decode_header_encode. wp_step. wp_step.
  destruct (header_of_ok s Hlen) as [Hho Hhl]. rewrite Hhl.
  rewrite (proj2 (Z.ltb_ge _ (seg_len s))) by lia. rewrite s32_id by lia. rewrite (proj2 (Z.ltb_ge (seg_len s) 0)) by lia.
  cbn [orb]. assert (known_cmd (h_cmd (header_of s)) = true) as -> by exact Hcmd. cbn [negb].
  assert (Z.of_nat (24 + length (seg_data s) + m) / 24 = Z.of_nat (length (seg_data s) + m) / 24 + 1) as Hdiv
    by (rewrite <- (Z.div_add _ 1 24) by lia; f_equal; lia).
  assert (Z.of_nat m / 24 <= Z.of_nat (length (seg_data s) + m) / 24) by (apply Z.div_le_mono; lia).
  pose proof (Z.div_pos (Z.of_nat m) 24).
  wp_step. eapply wp_mono; [apply wp_and; [apply ends_input_seg; try done; lia |
    apply (wf_input_seg alloc_ok k (header_of s) (seg_data s ++ frames segs)); try done; rewrite ?Hhl, ?length_app; lia]|].
  intros [[[k' fl] ma] t] w1 [(He' & Ho' & Hout') (Hwf' & _ & Hack')].
  rewrite drop_app_length' by lia.
  replace (Z.of_nat (24 + length (seg_data s) + m) - 24 - seg_len s) with (Z.of_nat m) by lia.
  eapply wp_mono; [apply IH; try done; lia|].
  intros r w2 ((k'' & fl' & ma' & t' & -> & ? & ? & ? & ?) & ?). split; [|congruence]. exists k'', fl', ma', t'.
  splits; congruence || done || lia.
Qed.

Lemma ends_input k d w :
  wf k -> genuine cv hi d -> ackcount k + Z.of_nat (length d) / 24 < 2147483648 -> Z.of_nat (length d) < 2147483648 ->
  ends cv ho hi c k ->
  wp (ikcp_input k (Some d) (Z.of_nat (length d))) (fun r w' =>
    wf r.2 /\ output r.2 = output k /\ ends cv ho hi c r.2 /\ outputs w' = outputs w /\
    ackcount r.2 <= ackcount k + Z.of_nat (length d) / 24) w.
Proof.
  intros Hwf (segs & -> & Hg) Hack Hlen He. unfold ikcp_input. wp_step. apply wp_log_if. intros w1 _ _ Ho1.
  rewrite s32_id by lia. destruct (_ <? IKCP_OVERHEAD).
  { pose proof (Z.div_pos (Z.of_nat (length (frames segs))) 24).
    wp_step. apply wp_emit. wp_step. splits; try done; [|cbn; lia].
    unfold outputs in *. cbn. rewrite omap_app. cbn. by rewrite app_nil_r. }
  wp_step. eapply wp_mono; [apply ends_input_loop; try done; lia|].
  intros r w2 [(k' & fl & ma & t & -> & Hwf' & He' & Hout' & Hack') Ho']. wp_step. cbn [snd].
  set (k2 := if negb (fl =? 0) then _ else k').
  assert (wf k2 /\ ends cv ho hi c k2 /\ output k2 = output k /\ ackcount k2 = ackcount k') as (Hwf2 & He2 & Hout2 & Hack2).
  { subst k2. destruct (negb (fl =? 0)); [|done]. split; [by apply wf_parse_fastack|].
    unfold ikcp_parse_fastack. destruct (sn_out_of_flight k' ma); [done|]. split; [|done].
    destruct He' as [Hso Hsi]. split; [|by apply (sink_ext hi c k')]. apply (source_ext cv ho k'); try done. kcp_simpl_goal.
    apply Forall_forall. intros s Hs. apply list_elem_of_lookup in Hs as [i Hi].
    destruct (Forall2_lookup_r _ _ _ _ _ (fastack_loop_spec ma (snd_buf k')) Hi) as (s0 & Hs0 & n & ->).
    pose proof (so_buf _ _ _ Hso) as Hf. rewrite Forall_forall in Hf. by apply (Hf s0), list_elem_of_lookup_2 with i. }
  split; [by apply wf_input_cwnd|].
  assert (exists cw i, ikcp_input_cwnd k2 (snd_una k) = k2<|cwnd := cw|><|incr := i|>) as (cw & i & ->).
  { exists (cwnd (ikcp_input_cwnd k2 (snd_una k))), (incr (ikcp_input_cwnd k2 (snd_una k))).
    unfold ikcp_input_cwnd. destruct k2. repeat case_match; done. }
  split; [done|]. split; [keep_ends He2|]. split; [congruence|]. kcp_simpl_goal. lia.
Qed.
End Input.

(** ** Messages *)

(** [fs] are the fragments of the message [m]. *)
Definition message (m : list Z) (fs : list (Z * list Z)) : Prop :=
  concat (map snd fs) = m /\ fs <> [] /\
  forall j f, fs !! j = Some f -> f.1 = Z.of_nat (length fs) - 1 - Z.of_nat j.

Lemma payload_frag l : payload l = concat (map snd (map frag l)).
Proof. unfold payload. by rewrite map_map. Qed.

Lemma message_tail x m f fs : message m (f :: fs) -> fs <> [] -> concat (map snd fs) = x -> message x fs.
Proof.
  intros (_ & _ & H) Hne Hx. split; [done|]. split; [done|].
  intros j g Hj. rewrite (H (S j) g Hj). cbn [length]. lia.
Qed.

Lemma first_message_of m fs q1 q2 : message m fs -> map frag q1 = fs -> first_message (q1 ++ q2) = q1.
Proof.
  revert m fs. induction q1 as [|s q1 IH]; intros m fs Hm Hq; cbn [map] in Hq; subst fs.
  { by destruct Hm as (_ & ? & _). }
  cbn [app first_message]. pose proof Hm as (_ & _ & H). pose proof (H 0%nat (frag s) eq_refl) as H0.
  cbn [frag fst length] in H0. rewrite length_map in H0. destruct q1 as [|s1 q1].
  - cbn [length] in H0. by rewrite (proj2 (Z.eqb_eq (seg_frg s) 0)) by lia.
  - cbn [length] in H0. rewrite (proj2 (Z.eqb_neq (seg_frg s) 0)) by lia. f_equal.
    eapply IH; [eapply message_tail; [exact Hm | done | done] | done].
Qed.

(** The segments on the receiving side. *)
Definition waiting (k : ikcpcb) : nat := (length (rcv_queue k) + length (rcv_buf k))%nat.

Section Calls.
Context {alloc : Allocator} (alloc_ok : forall n size, malloc n size <> None).
Context (cv : Z).

Lemma ends_send ho hi c k b w :
  wf k -> hist_ok ho -> ends cv ho hi c k -> Z.of_nat (length ho) + 128 <= 2147483648 -> Z.of_nat (length b) < 2147483648 ->
  wp (ikcp_send k (Some b) (Z.of_nat (length b))) (fun r w' => wf r.2 /\ output r.2 = output k /\ outputs w' = outputs w /\ ackcount r.2 = ackcount k /\
    (ikcp_send_count k (Z.of_nat (length b)) < 128 -> r.1 = 0) /\ waiting r.2 = waiting k /\
    if r.1 =? 0 then exists fs, message b fs /\ Z.of_nat (length fs) = ikcp_send_count k (Z.of_nat (length b)) /\ hist_ok (ho ++ fs) /\ ends cv (ho ++ fs) hi c r.2
    else ends cv ho hi c r.2) w.
Proof.
  intros Hwf [Hb1 Hb2] [Hso Hsi] Hroom Hlen.
  eapply wp_mono; [apply (ikcp_send_spec alloc_ok); [done | done | cbn; lia]|].
  intros r w' (Hp & Hwf' & _ & Ho). split; [done|]. unfold send_post in Hp.
  rewrite (proj2 (Z.ltb_ge _ 0)) in Hp by lia. destruct Hp as (x & k1 & _ & _ & Hx & Hp).
  destruct (Hx (so_stream _ _ _ Hso)) as [-> ->]. rewrite (so_stream _ _ _ Hso) in Hp. cbn [Z.eqb negb andb] in Hp.
  rewrite Z.sub_0_r in Hp. destruct (IKCP_WND_RCV <=? _) eqn:Ec; unfold IKCP_WND_RCV in Ec.
  { apply Z.leb_le in Ec. rewrite Hp. cbn. splits; try done. lia. }
  destruct Hp as (fs & -> & Hn & [Hl Hcar] & _ & Hfrg). cbn [fst snd Z.eqb]. split; [done|]. split; [done|]. split; [done|]. split; [done|]. split; [done|].
  apply Z.leb_gt in Ec.
  pose proof (send_count_spec k (Z.of_nat (length b)) (wf_is_cfg _ Hwf) ltac:(lia)) as (Hc1 & _).
  assert (length (map frag fs) = length fs) as El by apply length_map.
  assert (forall j f, map frag fs !! j = Some f -> f.1 = Z.of_nat (length fs) - 1 - Z.of_nat j) as Hj.
  { intros j f Hj. rewrite list_lookup_fmap in Hj. destruct (fs !! j) as [s|] eqn:Es; [|done]. cbn in Hj. injection Hj as <-.
    cbn. rewrite (Hfrg j s Es). lia. }
  exists (map frag fs). split; [|split; [by rewrite El | split]].
  - split; [|split].
    + rewrite <- payload_frag, Hcar. cbn [option_map Z.to_nat drop]. rewrite drop_0. apply take_ge. lia.
    + destruct fs; [cbn in Hn; lia | done].
    + rewrite El. exact Hj.
  - split; [rewrite length_app; lia|]. apply Forall_app. split; [done|]. apply Forall_forall. intros f Hf.
    apply list_elem_of_lookup in Hf as [j Hf]. rewrite (Hj j f Hf). apply lookup_lt_Some in Hf. lia.
  - split; [|apply (sink_ext hi c k); done]. destruct Hso as [S1 S2 S3 S4 S5]. constructor; kcp_simpl_goal; try done.
    + rewrite !length_app, El. lia.
    + rewrite map_app, S4, drop_app_le by lia. done.
    + eapply Forall_impl; [exact S5|]. intros s. apply carried_app.
Qed.

(** The [j]-th message of the other end comes out whole. *)
Lemma ends_recv ho ms hs j k buf size w :
  let hi := concat hs in let c := length (concat (take j hs)) in
  wf k -> hist_ok hi -> Forall2 message ms hs -> (j <= length hs)%nat -> ends cv ho hi c k ->
  Z.of_nat (length (payload (rcv_queue k))) < 2147483648 -> 0 <= size < 2147483648 -> size <= Z.of_nat (length buf) ->
  wp (ikcp_recv k (Some buf) size) (fun r w' => wf r.1.2 /\ output r.1.2 = output k /\ outputs w' = outputs w /\ ackcount r.1.2 = ackcount k /\
    if r.1.1 <? 0 then ends cv ho hi c r.1.2
    else exists m buf', ms !! j = Some m /\ r.2 = Some buf' /\ r.1.1 = Z.of_nat (length m) /\
      take (length m) buf' = m /\ (j < length hs)%nat /\ (waiting r.1.2 < waiting k)%nat /\ ends cv ho hi (length (concat (take (S j) hs))) r.1.2) w.
Proof.
  intros hi c Hwf Hok Hms Hj [Hso Hsi] Hpay Hlen Hbuf.
  eapply wp_mono; [apply ikcp_recv_spec; [done | done | lia | cbn; lia]|].
  intros r w' Hp. unfold recv_post in Hp. case_bool_decide as Hemp; [destruct Hp as [-> ->]; cbn; by splits|].
  destruct (ready k) eqn:Hrd; cbn [negb] in Hp; [|destruct Hp as [-> ->]; cbn; by splits].
  set (m := first_message (rcv_queue k)) in *.
  destruct (Z.ltb_spec (Z.abs size) (Z.of_nat (length (payload m)))) as [Hs|Hs]; [destruct Hp as [-> ->]; cbn; by splits|].
  rewrite (proj2 (Z.ltb_ge size 0)) in Hp by lia.
  destruct Hp as (k2 & l1 & l2 & Hm & _ & -> & Hwf' & _ & Ho). cbn [fst snd] in *.
  set (kr := if _ && _ then _ else k2) in *.
  rewrite (proj2 (Z.ltb_ge _ 0)) by lia. split; [done|].
  assert (output kr = output k2 /\ ackcount kr = ackcount k2) as [Hout Hack] by (subst kr; by destruct (_ && _)).
  assert (output k2 = output k /\ ackcount k2 = ackcount k) as [Hout2 Hack2] by (destruct Hm as (_ & _ & ->); done).
  split; [congruence|]. split; [done|]. split; [congruence|].
  destruct Hsi as [I1 I2 I3]. pose proof (wf_is_rcv _ Hwf) as (_ & _ & _ & _ & Hnq & Hnmax).
  assert (exists fs mj, hs !! j = Some fs /\ ms !! j = Some mj /\ message mj fs) as (fs & mj & Hfs & Hmj & Hmsg).
  { destruct (lookup_lt_is_Some_2 hs j) as [fs Hfs].
    - destruct (Nat.lt_ge_cases j (length hs)) as [?|Hge]; [done|]. exfalso. apply Hemp.
      assert (rcv_nxt k = Z.of_nat c) as E. { subst c. rewrite take_ge in * by lia. subst hi. lia. }
      rewrite E in I2. rewrite Nat2Z.id, Nat.sub_diag in I2. by destruct (rcv_queue k).
    - destruct (Forall2_lookup_r _ _ _ _ _ Hms Hfs) as (mj & Hmj & Hmsg). by exists fs, mj. }
  assert (drop c hi = fs ++ concat (drop (S j) hs)) as Hdrop.
  { subst hi c. rewrite <- (take_drop j hs) at 2. rewrite concat_app, drop_app_length.
    by rewrite (drop_S _ _ _ Hfs). }
  assert (length (rcv_queue k) = (Z.to_nat (rcv_nxt k) - c)%nat) as Hql.
  { rewrite <- (length_map frag), I2, length_take, length_drop. lia. }
  assert (length fs <= length (rcv_queue k))%nat as Hfl.
  { unfold ready in Hrd. destruct (rcv_queue k) as [|s q] eqn:Eq; [done|]. rewrite <- Eq in *.
    destruct Hmsg as (_ & Hne & Hfrg). destruct fs as [|f fs]; [done|].
    assert (frag s = f) as Ef.
    { assert (map frag (rcv_queue k) !! 0%nat = Some (frag s)) as H0 by (by rewrite Eq).
      rewrite I2, Hdrop, lookup_take_lt in H0 by (rewrite Eq in Hql; cbn in Hql; lia). cbn in H0. by injection H0. }
    pose proof (Hfrg 0%nat f eq_refl) as H0. rewrite <- Ef in H0. cbn [frag fst length] in *.
    apply orb_true_iff in Hrd as [Hrd%Z.eqb_eq|Hrd%Z.leb_le].
    - rewrite Hrd in H0. rewrite Eq. cbn. lia.
    - rewrite u32_id in Hrd; [lia|]. destruct Hok as [Hok _]. assert (length (f :: fs) <= length hi)%nat; [|cbn in *; lia].
      rewrite <- (take_drop c hi), Hdrop, !length_app. cbn. lia. }
  assert (map frag (take (length fs) (rcv_queue k)) = fs) as Hq1.
  { rewrite <- firstn_map, I2, Hdrop, take_take, Nat.min_l, take_app_length by lia. done. }
  assert (m = take (length fs) (rcv_queue k)) as Em.
  { subst m. rewrite <- (take_drop (length fs) (rcv_queue k)) at 1. by apply (first_message_of mj fs). }
  assert (payload m = mj) as Epay by (rewrite payload_frag, Em, Hq1; apply Hmsg).
  assert (length m = length fs) as Elen by (rewrite Em, length_take; lia).
  assert (length (concat (take (S j) hs)) = (c + length fs)%nat) as Ec'.
  { rewrite (take_S_r _ _ _ Hfs), concat_app, length_app. cbn. rewrite app_nil_r. done. }
  exists mj, (splice buf 0 (payload m)). rewrite Epay in *. split; [done|]. split; [done|]. split; [done|]. split.
  { unfold splice. rewrite take_0. cbn [app]. by rewrite take_app_length. }
  split; [by apply lookup_lt_Some in Hfs|]. split.
  { assert (waiting kr = waiting k2) as -> by (subst kr; by destruct (_ && _)).
    destruct Hm as (Hl & _ & ->). unfold consumed, waiting in *. kcp_simpl. rewrite Hl, !length_app, length_drop, Elen.
    destruct Hmsg as (_ & Hne & _). destruct fs; [done|]. cbn [length] in *. lia. }
  assert (sink hi (length (concat (take (S j) hs))) k2) as Hsi2.
  { apply (sink_moved hi _ (consumed (length m) k) k2 l1 l2); [done | done |]. rewrite Ec', Elen. unfold consumed.
    constructor; kcp_simpl_goal; [lia | | done].
    rewrite <- skipn_map, I2, skipn_firstn_comm, drop_drop. f_equal. lia. }
  assert (source cv ho k2) as Hso2.
  { destruct Hm as (_ & _ & ->). unfold consumed. apply (source_ext cv ho k); try done. apply Hso. }
  subst kr. destruct (_ && _); [|done]. split; [apply (source_ext cv ho k2); try done; apply Hso2 |
    by apply (sink_ext hi _ k2)].
Qed.
End Calls.
