(* ===== verification/KcpDemo.v ===== *)
(** * Concrete control blocks, on which the theorems are applied. *)
From S2P Require Import Prelude KcpBase KcpCodec KcpSend KcpRecv KcpInput KcpFlush KcpInv.
From S2P Require Import KcpAck KcpInputSpec KcpRecvSpec KcpSendSpec KcpFlushSpec KcpTimer.
From S2P Require Import KcpApi.
From stdpp Require Import base list numbers strings.
From Stdlib Require Import Sorted.
Open Scope Z_scope.
Open Scope c_scope.

(** The allocator never fails. *)
Definition alloc_total {alloc : Allocator} : Prop := forall n size, malloc n size <> None.

(** An allocator that never fails and hands out zeroed memory. *)
#[export] Instance demo_alloc : Allocator := fun _ _ => Some (fun _ => 0).

Definition world0 : world := mkworld 0 0 [].

(** A sequence of calls. *)
Fixpoint run_calls (cs : list call) (k : ikcpcb) : M world ikcpcb :=
  match cs with
  | [] => ret k
  | c :: cs => let! k := perform c k in run_calls cs k
  end.

Definition run_from (r : res world (option ikcpcb)) (cs : list call) : option (ikcpcb * world) :=
  match r with
  | Ok (Some k) w => match run_calls cs k w with Ok k' w' => Some (k', w') | Fault _ => None end
  | _ => None
  end.

Definition dummy : ikcpcb * world :=
  (mkcb 0 0 0 0 0 0 0 0 0 0 0 0 0 0 0 0 0 0 0 0 0 0 0 0 0 0 0 0 0 0 0 0 0 [] [] [] [] None 0 0 0 None
     0 0 0 0 0 false false, world0).

Definition demo (cs : list call) : ikcpcb * world :=
  default dummy (run_from (ikcp_create 7 0 world0) cs).

(** A whole message. *)
Definition say (l : list Z) : call := CSend (Some l) (Z.of_nat (length l)).

(** What a peer puts out that has sent [msgs] and is updated once. *)
Definition peer_datagrams (conv : Z) (msgs : list (list Z)) : list (list Z) :=
  match run_from (ikcp_create conv 0 world0) ([CSetoutput true; CNodelay 1 10 2 1] ++ map say msgs ++ [CUpdate 0]) with
  | Some (_, w) => outputs w
  | None => []
  end.

(** Arbitrary bytes. *)
Definition seq_bytes (n : nat) : list Z := map Z.of_nat (seq 0 n).

(** A data segment. *)
Definition demo_seg (sn : Z) : IKCPSEG := mkseg 7 81 0 128 0 sn 0 2 0 0 0 0 [8; 9].

(** Two 3-byte messages sent and flushed once at time 0. *)
Definition sender_calls : list call :=
  [CSetoutput true; CSend (Some [1; 2; 3]) 3; CSend (Some [4; 5; 6]) 3; CNodelay 1 10 2 1;
   CUpdate 0; CSend (Some [7]) 1].
Definition sender : ikcpcb := Eval vm_compute in (demo sender_calls).1.

(** What the sender put on the wire. *)
Definition wire : list (list Z) := Eval vm_compute in outputs (demo sender_calls).2.

(** A receiver that has taken both messages, and owes their acknowledgements. *)
Definition receiver_calls : list call :=
  [CSetoutput true; CUpdate 5; CInput (Some (concat wire)) (Z.of_nat (length (concat wire)))].
Definition receiver : ikcpcb := Eval vm_compute in (demo receiver_calls).1.

(** ** The invariant as a test *)

Fixpoint sorted_b (l : list Z) : bool :=
  match l with [] => true | a :: l' => forallb (fun b => a <? b) l' && sorted_b l' end.

Definition in_b (lo x hi : Z) : bool := (lo <=? x) && (x <? hi).
Definition seg_b (s : IKCPSEG) : bool :=
  (Z.of_nat (length (seg_data s)) =? seg_len s) && (seg_len s <? 2147483648) && in_b 0 (seg_sn s) 4294967296.

Definition cfg_b (k : ikcpcb) : bool :=
  in_b 50 (mtu k) 1073741824 && (mss k =? mtu k - IKCP_OVERHEAD) &&
  (if buffer k is Some b then b =? 3 * (mtu k + IKCP_OVERHEAD) else false) &&
  in_b 0 (snd_wnd k) 2147483648 && in_b 1 (rcv_wnd k) 2147483648 && in_b 0 (rmt_wnd k) 65536 &&
  (0 <=? cwnd k).
Definition snd_b (k : ikcpcb) : bool :=
  in_b 0 (snd_nxt k) 4294967296 && (off (snd_una k) (snd_nxt k) <? 65536) &&
  sorted_b (map (fun s => off (snd_una k) (seg_sn s)) (snd_buf k)) &&
  forallb (fun s => off (snd_una k) (seg_sn s) <? off (snd_una k) (snd_nxt k)) (snd_buf k) &&
  (snd_una k =? match snd_buf k with s :: _ => seg_sn s | [] => snd_nxt k end) &&
  (nsnd_buf k =? u32 (Z.of_nat (length (snd_buf k)))) &&
  (nsnd_que k =? u32 (Z.of_nat (length (snd_queue k)))).
Definition rcv_b (k : ikcpcb) : bool :=
  in_b 0 (rcv_nxt k) 4294967296 && sorted_b (map (fun s => off (rcv_nxt k) (seg_sn s)) (rcv_buf k)) &&
  forallb (fun s => off (rcv_nxt k) (seg_sn s) <? 2147483648) (rcv_buf k) &&
  (nrcv_buf k =? u32 (Z.of_nat (length (rcv_buf k)))) &&
  (nrcv_que k =? Z.of_nat (length (rcv_queue k))) && (Z.of_nat (length (rcv_queue k)) <=? 2147483648).
Definition segs_b (k : ikcpcb) : bool :=
  forallb seg_b (snd_buf k) && forallb seg_b (rcv_buf k) && forallb seg_b (rcv_queue k) &&
  forallb (fun s => Z.of_nat (length (seg_data s)) =? seg_len s) (snd_queue k) &&
  forallb (fun s => seg_len s <=? mss k) (snd_buf k ++ snd_queue k).
Definition ack_b (k : ikcpcb) : bool :=
  (0 <=? ackcount k) && (ackcount k <=? ackblock k) &&
  match acklist k with
  | None => ackblock k =? 0
  | Some l => (Z.of_nat (length l) =? 2 * ackblock k) &&
      forallb (fun c => if c is Some _ then true else false) (take (2 * Z.to_nat (ackcount k)) l)
  end.
Definition wf_b (k : ikcpcb) : bool := cfg_b k && snd_b k && rcv_b k && segs_b k && ack_b k.

Lemma demo_alloc_ok : forall n size, malloc n size <> None.
Proof. done. Qed.

Lemma sorted_b_ok l : sorted_b l = true -> StronglySorted Z.lt l.
Proof.
  induction l as [|a l IH]; cbn; intros H; constructor; apply andb_true_iff in H as [H1 H2]; [auto|].
  rewrite forallb_forall in H1. apply List.Forall_forall. intros x Hx. by apply Z.ltb_lt, H1.
Qed.

Lemma forallb_ok {A} (f : A -> bool) (P : A -> Prop) l :
  (forall x, f x = true -> P x) -> forallb f l = true -> Forall P l.
Proof.
  intros HP H. rewrite forallb_forall in H. apply Forall_forall. intros x Hx. apply HP, H.
  by apply list_elem_of_In.
Qed.

(** Turns a conjunction of tests into its facts. *)
Ltac tests :=
  repeat match goal with
  | H : _ && _ = true |- _ => apply andb_true_iff in H as [? ?]
  | H : in_b _ _ _ = true |- _ => unfold in_b in H
  | H : (_ =? _) = true |- _ => apply Z.eqb_eq in H
  | H : (_ <? _) = true |- _ => apply Z.ltb_lt in H
  | H : (_ <=? _) = true |- _ => apply Z.leb_le in H
  end.

Lemma seg_b_ok s : seg_b s = true -> seg_ok s.
Proof. unfold seg_b, seg_ok. intros H. tests. lia. Qed.

Lemma wf_b_ok k : wf_b k = true -> wf k.
Proof.
  unfold wf_b. intros H. tests. constructor.
  - unfold cfg_b, wf_cfg in *. tests. destruct (buffer k); [|done]. tests. subst. splits; lia || done.
  - unfold snd_b, wf_snd in *. tests. splits; try done; [by apply sorted_b_ok|].
    eapply forallb_ok; [|done]. intros s Hs; cbv beta in *; by tests.
  - unfold rcv_b, wf_rcv in *. tests. splits; try done; [by apply sorted_b_ok|].
    eapply forallb_ok; [|done]. intros s Hs; cbv beta in *; by tests.
  - unfold segs_b, wf_segs in *. tests.
    splits; (eapply forallb_ok; [|eassumption]); try apply seg_b_ok; intros s Hs; cbv beta in *; by tests.
  - unfold ack_b, wf_ack in *. tests. split; [lia|]. destruct (acklist k) as [l|]; tests; [|done].
    split; [done|]. intros i Hi. rewrite forallb_forall in *.
    destruct (lookup_lt_is_Some_2 l i) as [c Hc]; [lia|].
    match goal with H : forall x, _ |- _ => specialize (H c) end.
    destruct c as [v|]; [by exists v|]. exfalso. enough (false = true) by done.
    match goal with H : _ -> false = true |- _ => apply H end.
    apply list_elem_of_In, list_elem_of_lookup. exists i. by rewrite lookup_take_lt.
Qed.

Lemma sender_wf : wf sender.
Proof. apply wf_b_ok. vm_compute. reflexivity. Qed.

Lemma receiver_wf : wf receiver.
Proof. apply wf_b_ok. vm_compute. reflexivity. Qed.
