(* ===== verification/KcpNet.v ===== *)
(** * Two ends and the network between them.

    The network holds every datagram the other end ever put out; it may deliver any of
    them, any number of times, in any order, or not at all.  What the user of one end
    receives is then what the user of the other end sent, in order, each message once
    and whole. *)
From S2P Require Import Prelude KcpBase KcpCodec KcpSend KcpRecv KcpInput KcpFlush KcpInv.
From S2P Require Import KcpAck KcpInputSpec KcpRecvSpec KcpSendSpec KcpFlushSpec KcpTimer KcpApi KcpStream KcpDemo.
From Stdlib Require Import Lia.
From stdpp Require Import base list numbers strings.
Open Scope Z_scope.
Open Scope c_scope.

(** An end: its control block, the world it acts on, the messages its user has sent and
    received. *)
Record endpoint : Type := mkep {
  ep_kcp : ikcpcb;
  ep_world : world;
  ep_sent : list (list Z);
  ep_got : list (list Z);
}.

Section Net.
Context {alloc : Allocator}.

(** A call of the user or of the timer, or the arrival of a datagram of [avail].  The
    conditions are those of the interface ([allowed] in KcpApi.v); a session carries
    fewer than 2^31 fragments each way, so that numbers do not wrap around. *)
Inductive ep_step (avail : list (list Z)) : endpoint -> endpoint -> Prop :=
  | ep_send k w sent got b r k' w' :
    Z.of_nat (length b) < 2147483648 ->
    snd_nxt k + Z.of_nat (length (snd_queue k)) + 128 <= 2147483648 ->
    ikcp_send k (Some b) (Z.of_nat (length b)) w = Ok (r, k') w' ->
    ep_step avail (mkep k w sent got) (mkep k' w' (if r =? 0 then sent ++ [b] else sent) got)
  | ep_recv k w sent got buf size n k' buf' w' :
    0 <= size < 2147483648 -> size <= Z.of_nat (length buf) -> Z.of_nat (length (payload (rcv_queue k))) < 2147483648 ->
    ikcp_recv k (Some buf) size w = Ok (n, k', Some buf') w' ->
    ep_step avail (mkep k w sent got) (mkep k' w' sent (if n <? 0 then got else got ++ [take (Z.to_nat n) buf']))
  | ep_update k w sent got now k' w' :
    ackcount k < 2147483648 -> ikcp_update k now w = Ok k' w' ->
    ep_step avail (mkep k w sent got) (mkep k' w' sent got)
  | ep_flush k w sent got k' w' :
    ackcount k < 2147483648 -> ikcp_flush k w = Ok k' w' ->
    ep_step avail (mkep k w sent got) (mkep k' w' sent got)
  | ep_input k w sent got d r k' w' :
    d ∈ avail -> Z.of_nat (length d) < 2147483648 -> ackcount k + Z.of_nat (length d) / 24 < 2147483648 ->
    ikcp_input k (Some d) (Z.of_nat (length d)) w = Ok (r, k') w' ->
    ep_step avail (mkep k w sent got) (mkep k' w' sent got)
  | ep_nodelay k w sent got nd i rs nc :
    ep_step avail (mkep k w sent got) (mkep (ikcp_nodelay k nd i rs nc).2 w sent got)
  | ep_wndsize k w sent got s r :
    s < 2147483648 -> r < 2147483648 ->
    ep_step avail (mkep k w sent got) (mkep (ikcp_wndsize k s r).2 w sent got).

Inductive net_step : endpoint * endpoint -> endpoint * endpoint -> Prop :=
  | net_left a a' b : ep_step (outputs (ep_world b)) a a' -> net_step (a, b) (a', b)
  | net_right a b b' : ep_step (outputs (ep_world a)) b b' -> net_step (a, b) (a, b').

(** ** The invariant *)

Section Safe.
Context (alloc_ok : forall n size, malloc n size <> None).
Context (cv : Z) (cv_range : 0 <= cv < 4294967296).

(** [hso]: the fragments of each message sent; [hsi]: those of the other end, of whose
    messages [msi] the first [j] were received. *)
Record ep_ok (msi : list (list Z)) (hso hsi : list (list (Z * list Z))) (j : nat) (e : endpoint) : Prop := mkepok {
  eo_wf : wf (ep_kcp e);
  eo_out : output (ep_kcp e) = true;
  eo_hist : hist_ok (concat hso);
  eo_sent : Forall2 message (ep_sent e) hso;
  eo_got : ep_got e = take j msi;
  eo_j : (j <= length hsi)%nat;
  eo_ends : ends cv (concat hso) (concat hsi) (length (concat (take j hsi))) (ep_kcp e);
  eo_wire : Forall (genuine cv (concat hso)) (outputs (ep_world e));
}.

(** The other end has sent more. *)
Lemma ep_ok_more msi hso hsi j e m h :
  ep_ok msi hso hsi j e -> length msi = length hsi -> ep_ok (msi ++ m) hso (hsi ++ h) j e.
Proof.
  intros [H1 H2 H3 H4 H5 H6 [Hso Hsi] H8] Hl. constructor; try done.
  - rewrite H5, take_app_le by lia. done.
  - rewrite length_app. lia.
  - rewrite take_app_le by lia. rewrite concat_app. split; [done|]. by apply sink_app.
Qed.

Lemma wire_grows cv' hist w w' ds : outputs w' = outputs w ++ ds ->
  Forall (genuine cv' hist) (outputs w) -> Forall (genuine cv' hist) ds -> Forall (genuine cv' hist) (outputs w').
Proof. intros -> H1 H2. by apply Forall_app. Qed.

(** Each step of an end keeps the invariant; only its own history may grow, and what it has
    put out. *)
Lemma ep_step_ok avail e e' msi hso hsi j :
  Forall2 message msi hsi -> hist_ok (concat hsi) -> Forall (genuine cv (concat hsi)) avail ->
  ep_ok msi hso hsi j e -> ep_step avail e e' ->
  exists m h j', ep_sent e' = ep_sent e ++ m /\ ep_ok msi (hso ++ h) hsi j' e' /\
    exists ds, outputs (ep_world e') = outputs (ep_world e) ++ ds.
Proof.
  intros Hms Hhi Hav Hep Hst. assert (forall l : list (list Z), exists ds, l = l ++ ds) as Hsame by (intros l; exists []; by rewrite app_nil_r). destruct Hst as
    [k w sent got b r k' w' Hb Hroom Hrun|k w sent got buf size n k' buf' w' Hsz Hb Hpay Hrun|k w sent got now k' w' Ha Hrun
    |k w sent got k' w' Ha Hrun|k w sent got d r k' w' Hd Hdl Ha Hrun|k w sent got nd i rs nc|k w sent got s r Hs Hr];
    destruct Hep as [H1 H2 H3 H4 H5 H6 H7 H8]; cbn [ep_kcp ep_world ep_sent ep_got] in *.
  - pose proof (ends_send alloc_ok cv _ _ _ k b w H1 H3 H7) as Hp. rewrite <- (so_next _ _ _ (proj1 H7)) in Hp.
    specialize (Hp Hroom Hb). unfold wp in Hp. rewrite Hrun in Hp. cbn [fst snd] in Hp.
    destruct Hp as (P1 & P2 & P3 & _ & _ & _ & P4). destruct (r =? 0).
    + destruct P4 as (fs & Hm & _ & Hh & He). exists [b], [fs], j. split; [done|].
      rewrite <- (app_nil_r fs) in He, Hh. change (fs ++ []) with (concat [fs]) in He, Hh. rewrite <- concat_app in He, Hh.
      split; [|cbn; rewrite P3; apply Hsame]. constructor; cbn [ep_kcp ep_world ep_sent ep_got]; try done; [congruence | by apply Forall2_app; [|constructor]|].
      rewrite P3. eapply Forall_impl; [exact H8|]. intros d. rewrite concat_app. apply genuine_app.
    + exists [], [], j. rewrite !app_nil_r. split; [done|]. split; [constructor; cbn; try done; congruence | cbn; rewrite P3; apply Hsame].
  - pose proof (ends_recv cv (concat hso) msi hsi j k buf size w H1 Hhi Hms H6 H7 Hpay Hsz Hb) as Hp.
    unfold wp in Hp. rewrite Hrun in Hp. cbn [fst snd] in Hp. destruct Hp as (P1 & P2 & P3 & _ & P4).
    destruct (n <? 0).
    + exists [], [], j. rewrite !app_nil_r. split; [done|]. split; [constructor; cbn; try done; congruence | cbn; rewrite P3; apply Hsame].
    + destruct P4 as (m & b2 & Q1 & [= <-] & -> & Q3 & Q4 & _ & Q5). exists [], [], (S j). rewrite !app_nil_r. split; [done|].
      split; [|cbn; rewrite P3; apply Hsame]. constructor; cbn; try done; [congruence | | by rewrite P3].
      rewrite H5, Nat2Z.id, Q3. by rewrite (take_S_r _ _ _ Q1).
  - pose proof (ends_update cv _ _ _ k now w H1 H2 Ha H3 H7) as Hp. unfold wp in Hp. rewrite Hrun in Hp.
    destruct Hp as (P1 & P2 & P3 & _ & ds & P4 & P5). exists [], [], j. rewrite !app_nil_r. split; [done|].
    split; [constructor; cbn; try done; by eapply wire_grows | by exists ds].
  - pose proof (ends_flush cv _ _ _ k w H1 H2 Ha H3 H7) as Hp. unfold wp in Hp. rewrite Hrun in Hp.
    destruct Hp as (P1 & P2 & P3 & _ & ds & P4 & P5). exists [], [], j. rewrite !app_nil_r. split; [done|].
    split; [constructor; cbn; try done; by eapply wire_grows | by exists ds].
  - rewrite Forall_forall in Hav. pose proof (ends_input alloc_ok cv _ _ _ Hhi cv_range k d w H1 (Hav d Hd) Ha Hdl H7) as Hp.
    unfold wp in Hp. rewrite Hrun in Hp. cbn [fst snd] in Hp. destruct Hp as (P1 & P2 & P3 & P4 & _).
    exists [], [], j. rewrite !app_nil_r. split; [done|]. split; [constructor; cbn; try done; congruence | cbn; rewrite P4; apply Hsame].
  - exists [], [], j. rewrite !app_nil_r. split; [done|]. destruct (wf_nodelay k nd i rs nc H1) as [P1 _].
    assert (exists a b c d e, (ikcp_nodelay k nd i rs nc).2 = k<|nodelay := a|><|rx_minrto := b|><|interval := c|>
      <|fastresend := d|><|nocwnd := e|>) as (? & ? & ? & ? & ? & E).
    { set (x := (ikcp_nodelay k nd i rs nc).2). exists (nodelay x), (rx_minrto x), (interval x), (fastresend x), (nocwnd x).
      subst x. unfold ikcp_nodelay. destruct k. repeat case_match; reflexivity. }
    split; [|apply Hsame]. constructor; cbn [ep_kcp ep_world ep_sent ep_got]; try done; rewrite E; [done|]. keep_ends H7.
  - exists [], [], j. rewrite !app_nil_r. split; [done|]. destruct (wf_wndsize k s r H1 Hs Hr) as [P1 _].
    assert (exists a b, (ikcp_wndsize k s r).2 = k<|snd_wnd := a|><|rcv_wnd := b|>) as (? & ? & E).
    { set (x := (ikcp_wndsize k s r).2). exists (snd_wnd x), (rcv_wnd x). subst x. unfold ikcp_wndsize. destruct k.
      repeat case_match; reflexivity. }
    split; [|apply Hsame]. constructor; cbn [ep_kcp ep_world ep_sent ep_got]; try done; rewrite E; [done|]. keep_ends H7.
Qed.

(** The invariant of a session. *)
Definition session_ok (s : endpoint * endpoint) : Prop :=
  exists ha hb ja jb, ep_ok (ep_sent s.2) ha hb ja s.1 /\ ep_ok (ep_sent s.1) hb ha jb s.2.

Lemma net_step_ok s s' : session_ok s -> net_step s s' -> session_ok s'.
Proof.
  intros (ha & hb & ja & jb & Ha & Hb) Hst. 
  destruct Hst as [a a' b Hst|a b b' Hst]; cbn [fst snd] in *.
  - destruct (ep_step_ok _ _ _ _ _ _ _ (eo_sent _ _ _ _ _ Hb) (eo_hist _ _ _ _ _ Hb) (eo_wire _ _ _ _ _ Hb) Ha Hst)
      as (m & h & j' & Em & Ha' & _). exists (ha ++ h), hb, j', jb. cbn [fst snd]. split; [done|].
    rewrite Em. apply ep_ok_more; [done|]. by eapply Forall2_length, eo_sent.
  - destruct (ep_step_ok _ _ _ _ _ _ _ (eo_sent _ _ _ _ _ Ha) (eo_hist _ _ _ _ _ Ha) (eo_wire _ _ _ _ _ Ha) Hb Hst)
      as (m & h & j' & Em & Hb' & _). exists ha, (hb ++ h), ja, j'. cbn [fst snd]. split; [|done].
    rewrite Em. apply ep_ok_more; [done|]. by eapply Forall2_length, eo_sent.
Qed.

(** A control block just created, with its output callback set. *)
Definition fresh (k : ikcpcb) : Prop :=
  wf k /\ output k = true /\ conv k = cv /\ stream k = 0 /\ snd_nxt k = 0 /\ rcv_nxt k = 0 /\
  snd_queue k = [] /\ snd_buf k = [] /\ rcv_queue k = [] /\ rcv_buf k = [].

Lemma fresh_ok k w : fresh k -> outputs w = [] -> ep_ok [] [] [] 0 (mkep k w [] []).
Proof.
  intros (H1 & H2 & H3 & H4 & H5 & H6 & H7 & H8 & H9 & H10) Hw.
  constructor; cbn [ep_kcp ep_world ep_sent ep_got concat take length]; [done | done | | constructor | done | lia | | by rewrite Hw; constructor].
  - split; [cbn; lia | constructor].
  - split; constructor; rewrite ?H3, ?H4, ?H5, ?H6, ?H7, ?H8, ?H9, ?H10; try done; try constructor; cbn; lia.
Qed.

Lemma ep_ok_prefix msi hso hsi j e : ep_ok msi hso hsi j e -> ep_got e `prefix_of` msi.
Proof. intros [_ _ _ _ -> _ _ _]. exists (drop j msi). by rewrite take_drop. Qed.
End Safe.

Lemma create_fresh cv us w0 : (forall n size, malloc n size <> None) -> 
  wp (ikcp_create cv us) (fun o w => exists k, o = Some k /\ fresh cv (ikcp_setoutput k true) /\
    outputs w = outputs w0 /\ ackcount k = 0) w0.
Proof.
  intros Hal. pose proof (ikcp_create_spec Hal cv us w0) as Hp. apply wp_run in Hp as (o & w & Hrun & k & -> & Hwf & Hcv & _ & Ho).
  eapply wp_of_run; [exact Hrun|]. exists k. split; [done|].
  unfold ikcp_create in Hrun. unfold bind in Hrun. repeat (case_match; try done); injection Hrun as <- _.
  all: split; [split; [destruct Hwf; by constructor | done] | done].
Qed.
End Net.

(** C1: reliable, ordered delivery.  Two control blocks with the same conversation id, any
    interleaving of sends, receives, updates, flushes and settings at both ends, and a
    network that loses, repeats and reorders datagrams as it likes: at every moment the
    messages received at each end are the first of those accepted for sending at the
    other, in order, each once, whole and unchanged; and any call the interface allows
    returns. *)
Theorem kcp_delivery (alloc : Allocator) cv ua ub w0 ka wa kb wb a b :
  alloc_total -> 0 <= cv < 4294967296 -> outputs w0 = [] ->
  ikcp_create cv ua w0 = Ok (Some ka) wa -> ikcp_create cv ub w0 = Ok (Some kb) wb ->
  star net_step (mkep (ikcp_setoutput ka true) wa [] [], mkep (ikcp_setoutput kb true) wb [] []) (a, b) ->
  ep_got b `prefix_of` ep_sent a /\ ep_got a `prefix_of` ep_sent b /\
  forall e c, e = a \/ e = b -> allowed (ep_kcp e) c -> exists k' w', perform c (ep_kcp e) (ep_world e) = Ok k' w'.
Proof.
  intros Hal Hcv Hw0 Ha Hb Hst.
  assert (session_ok cv (a, b)) as (ha & hb & ja & jb & Hoa & Hob).
  { refine (star_invariant net_step (session_ok cv) _ _ _ Hst _).
    { intros s s' Hs Hn. by apply (net_step_ok Hal cv Hcv s s'). }
    exists [], [], 0%nat, 0%nat. cbn [fst snd ep_sent].
    pose proof (create_fresh cv ua w0 Hal) as Hpa. unfold wp in Hpa. rewrite Ha in Hpa. destruct Hpa as (? & [= <-] & Fa & Oa & _).
    pose proof (create_fresh cv ub w0 Hal) as Hpb. unfold wp in Hpb. rewrite Hb in Hpb. destruct Hpb as (? & [= <-] & Fb & Ob & _).
    split; (apply fresh_ok; [done | congruence]). }
  cbn [fst snd] in *. split; [by eapply ep_ok_prefix|]. split; [by eapply ep_ok_prefix|].
  intros e c He Hall. assert (wf (ep_kcp e)) as Hwf by (destruct He as [-> | ->]; [apply Hoa | apply Hob]).
  pose proof (perform_spec Hal c (ep_kcp e) (ep_world e) Hwf Hall) as Hp.
  apply wp_run in Hp as (k' & w' & Hr & _). by exists k', w'.
Qed.

(** ** A run *)

Definition created : ikcpcb * world :=
  match ikcp_create 7 0 world0 with Ok (Some k) w => (k, w) | _ => dummy end.
Definition end0 : endpoint := mkep (ikcp_setoutput created.1 true) created.2 [] [].

(** The end after a call that returns a control block, or a code and one. *)
Definition then_call (m : ikcpcb -> M world ikcpcb) (sent : list (list Z)) (e : endpoint) : endpoint :=
  match m (ep_kcp e) (ep_world e) with Ok k w => mkep k w (ep_sent e ++ sent) (ep_got e) | Fault _ => e end.
Definition code_dropped {A} (m : M world (A * ikcpcb)) : M world ikcpcb := let! ' (_, k) := m in ret k.

Definition end_sent : endpoint := Eval vm_compute in
  then_call (fun k => code_dropped (ikcp_send k (Some [1; 2; 3]) 3)) [[1; 2; 3]]
    (then_call (fun k => ret (ikcp_nodelay k 1 10 2 1).2) [] end0).
Definition end_flushed : endpoint := Eval vm_compute in then_call (fun k => ikcp_update k 0) [] end_sent.
Definition datagram : list Z := Eval vm_compute in default [] (head (outputs (ep_world end_flushed))).
Definition end_input : endpoint := Eval vm_compute in
  then_call (fun k => code_dropped (ikcp_input k (Some datagram) (Z.of_nat (length datagram)))) [] end0.
Definition end_received : endpoint := Eval vm_compute in
  match ikcp_recv (ep_kcp end_input) (Some [0; 0; 0; 0]) 4 (ep_world end_input) with
  | Ok (n, k, Some b) w => mkep k w [] [take (Z.to_nat n) b]
  | _ => end_input
  end.

Lemma demo_run : star net_step (end0, end0) (end_flushed, end_received).
Proof.
  eapply star_step; [apply net_left; apply (ep_nodelay _ _ _ _ _ 1 10 2 1)|].
  eapply star_step; [apply net_left; eapply (ep_send _ _ _ _ _ [1; 2; 3] 0); try (vm_compute; reflexivity); vm_compute; discriminate|].
  eapply star_step; [apply net_left; eapply (ep_update _ _ _ _ _ 0); vm_compute; reflexivity|].
  eapply star_step; [apply net_right; eapply (ep_input _ _ _ _ _ datagram 0); [left | vm_compute; reflexivity..]|].
  eapply star_step; [apply net_right; eapply (ep_recv _ _ _ _ _ [0; 0; 0; 0] 4 3 _ [1; 2; 3; 0]); [lia | cbn; lia | vm_compute; reflexivity..]|].
  apply star_refl.
Qed.

Lemma kcp_delivery_witness :
  ep_got end_received = [[1; 2; 3]] /\
  (ep_got end_received `prefix_of` ep_sent end_flushed /\ ep_got end_flushed `prefix_of` ep_sent end_received /\
   forall e c, e = end_flushed \/ e = end_received -> allowed (ep_kcp e) c ->
     exists k' w', perform c (ep_kcp e) (ep_world e) = Ok k' w').
Proof.
  split; [reflexivity|].
  apply (kcp_delivery demo_alloc 7 0 0 world0 created.1 created.2 created.1 created.2 end_flushed end_received);
    [exact demo_alloc_ok | lia | reflexivity | vm_compute; reflexivity | vm_compute; reflexivity | exact demo_run].
Defined.
