(* ===== verification/KcpProps.v ===== *)
(** * What the KCP engine promises: the main theorems, each with an instance. *)
From S2P Require Import Prelude KcpBase KcpCodec KcpSend KcpRecv KcpInput KcpFlush KcpInv.
From S2P Require Import KcpAck KcpInputSpec KcpRecvSpec KcpSendSpec KcpFlushSpec.
From S2P Require Import KcpAckSpec KcpTimer KcpApi KcpDemo.
From stdpp Require Import base list numbers strings.
Open Scope Z_scope.
Open Scope c_scope.

(** ** The library under any use *)

(** C3: from [ikcp_create] on, after any sequence of allowed calls, the invariant
    holds, the library holds exactly the blocks its control block owns, and every
    allowed call returns: no assertion fails and no access is out of bounds. *)
Theorem kcp_api_safe (alloc : Allocator) cv us w0 k0 w1 k w c :
  alloc_total -> ikcp_create cv us w0 = Ok (Some k0) w1 -> star api_step (k0, w1) (k, w) -> allowed k c ->
  wf k /\ w_live w = w_live w0 + heap k /\
  exists k' w', perform c k w = Ok k' w' /\ wf k' /\ balanced k w k' w'.
Proof.
  intros Hal Hc Hst Hc2. pose proof (ikcp_create_spec Hal cv us w0) as Hp.
  unfold wp in Hp. rewrite Hc in Hp. destruct Hp as (k1 & [= <-] & Hwf & _ & Hlive & _).
  destruct (api_star_wf Hal (k0, w1) (k, w) Hwf Hst) as [Hwf' Hb]. cbn [fst snd] in *.
  split; [done|]. split; [unfold balanced in Hb; lia|].
  apply (perform_spec Hal c k w) in Hc2 as Hp; [|done]. apply wp_run in Hp as (k' & w' & E & Hp). eauto.
Qed.

Lemma kcp_api_safe_witness :
  exists k' w', perform (CSend (Some [1; 2]) 2) (demo []).1 (demo []).2 = Ok k' w' /\ wf k' /\
    balanced (demo []).1 (demo []).2 k' w'.
Proof.
  apply (kcp_api_safe demo_alloc 7 0 world0 (demo []).1 (demo []).2 (demo []).1 (demo []).2).
  - exact demo_alloc_ok.
  - vm_compute. reflexivity.
  - apply star_refl.
  - cbn. lia.
Defined.

(** C4: releasing a control block after any use gives back every block: the library
    leaks nothing and frees nothing twice. *)
Theorem kcp_no_leak (alloc : Allocator) cv us w0 k0 w1 k w :
  alloc_total -> ikcp_create cv us w0 = Ok (Some k0) w1 -> star api_step (k0, w1) (k, w) ->
  wp (ikcp_release k) (fun _ w' => w_live w' = w_live w0 /\ outputs w' = outputs w) w.
Proof.
  intros Hal Hc Hst. pose proof (ikcp_create_spec Hal cv us w0) as Hp.
  unfold wp in Hp. rewrite Hc in Hp. destruct Hp as (k1 & [= <-] & Hwf & _ & Hlive & _).
  destruct (api_star_wf Hal (k0, w1) (k, w) Hwf Hst) as [_ Hb]. cbn [fst snd] in *.
  eapply wp_mono; [apply ikcp_release_spec|]. cbv beta. intros _ w' [-> ->].
  unfold balanced in Hb. split; [lia | done].
Qed.

Lemma kcp_no_leak_witness :
  wp (ikcp_release (demo []).1) (fun _ w' => w_live w' = w_live world0 /\ outputs w' = outputs (demo []).2) (demo []).2.
Proof.
  apply (kcp_no_leak demo_alloc 7 0 world0 (demo []).1 (demo []).2).
  - exact demo_alloc_ok.
  - vm_compute. reflexivity.
  - apply star_refl.
Defined.

(** ** Input *)

Definition input_code (c : Z) : Prop := c = 0 \/ c = -1 \/ c = -2 \/ c = -3.

Lemma input_loop_code {alloc : Allocator} fuel k d size flag maxack ts w :
  match ikcp_input_loop fuel k d size flag maxack ts w with
  | Ok (IReturn c _) _ => input_code c
  | _ => True
  end.
Proof.
  unfold input_code. revert k d size flag maxack ts w.
  induction fuel as [|fuel IH]; intros k d size flag maxack ts w; cbn [ikcp_input_loop]; [done|].
  destruct (size <? IKCP_OVERHEAD); [done|].
  destruct (ikcp_decode32u d) as [[cv d1]|]; [|done]. unfold of_option, ret, bind, throw.
  destruct (negb (cv =? conv k)); [tauto|]. destruct (decode_header d1) as [[h d2]|]; [|done].
  destruct (_ || _); [tauto|]. destruct (negb _); [tauto|].
  destruct (ikcp_input_seg k h d2 flag maxack ts w) as [[[[k' f] m] t] w'|]; [|done]. apply IH.
Qed.

(** C5: [ikcp_input] accepts any datagram whatsoever, well-formed or hostile: it
    returns one of its four codes, reads nothing outside the datagram, keeps the
    invariant, and loses no block. *)
Theorem kcp_input_total (alloc : Allocator) k d w :
  alloc_total -> wf k -> ackcount k + Z.of_nat (length d) / 24 < 2147483648 ->
  wp (ikcp_input k (Some d) (Z.of_nat (length d)))
    (fun r w' => input_code r.1 /\ wf r.2 /\ balanced k w r.2 w') w.
Proof.
  intros Hal Hwf Hack. apply wp_and; [|apply wf_input; done || lia].
  pose proof (wf_input Hal k (Some d) (Z.of_nat (length d)) w Hwf (Z.le_refl _) ltac:(lia) Hack) as Hp.
  apply wp_run in Hp as ([c k'] & w' & E & _). eapply wp_of_run; [exact E|]. cbn [fst].
  unfold ikcp_input, bind in E. destruct (log_if _ _ _ _ w) as [[] w1|]; [|done].
  destruct (_ <? _); [cbn in E; injection E as <- <- <-; unfold input_code; tauto|].
  pose proof (input_loop_code (Z.to_nat (Z.of_nat (length d)) + 1) k d (Z.of_nat (length d)) 0 0 0 w1) as Hc.
  destruct (ikcp_input_loop _ _ _ _ _ _ _ w1) as [[c' k1|k1 f m t] w2|]; [| |done];
    injection E as <- _ _; [done | by left].
Qed.

Lemma kcp_input_total_witness :
  wp (ikcp_input receiver (Some (seq_bytes 40)) 40)
    (fun r w' => input_code r.1 /\ wf r.2 /\ balanced receiver world0 r.2 w') world0.
Proof.
  apply (kcp_input_total demo_alloc receiver (seq_bytes 40)).
  - exact demo_alloc_ok.
  - exact receiver_wf.
  - vm_compute. reflexivity.
Defined.

(** C6: what a flush puts on the wire.  The datagrams are, in order and cut only at
    segment boundaries, the acknowledgements and probes that were pending and the
    segments of the window that are new, timed out or skipped often enough; none is
    empty or passes the MTU; the window takes exactly the queued segments it has room
    for; and what was pending is cleared. *)
Theorem kcp_flush_sends (alloc : Allocator) k w :
  wf k -> output k = true -> updated k <> 0 -> ackcount k < 2147483648 ->
  wp (ikcp_flush k) (fun k' w' => exists n batches,
    fills_window k n /\ concat batches = control_segs k ++ flushed_data k n /\
    outputs w' = outputs w ++ map frames batches /\
    Forall (fun d => d <> [] /\ Z.of_nat (length (frames d)) <= mtu k) batches /\
    snd_buf k' = flushed_buf k n /\ snd_queue k' = drop n (snd_queue k) /\ ackcount k' = 0 /\
    wf k' /\ balanced k w k' w') w.
Proof.
  intros Hwf Ho Hu Ha. eapply wp_mono; [by apply ikcp_flush_spec|]. cbv beta.
  intros k' w' (n & b & H1 & H2 & H3 & H4 & H5 & H6 & H7 & H8 & _ & H9 & _). by exists n, b.
Qed.

Lemma kcp_flush_sends_witness :
  wp (ikcp_flush sender) (fun k' w' => exists n batches,
    fills_window sender n /\ concat batches = control_segs sender ++ flushed_data sender n /\
    outputs w' = outputs world0 ++ map frames batches /\
    Forall (fun d => d <> [] /\ Z.of_nat (length (frames d)) <= mtu sender) batches /\
    snd_buf k' = flushed_buf sender n /\ snd_queue k' = drop n (snd_queue sender) /\ ackcount k' = 0 /\
    wf k' /\ balanced sender world0 k' w') world0.
Proof.
  apply (kcp_flush_sends demo_alloc sender world0); [exact sender_wf | reflexivity | discriminate | reflexivity].
Defined.

(** ** Sending and receiving *)

(** C7: in message mode [ikcp_send] queues a message as the least number of fragments
    of at most one MSS whose bytes, in order, are the message; the fragment numbers
    count down to 0; a message of 128 fragments or more is refused, and then nothing
    is queued. *)
Theorem kcp_send_message (alloc : Allocator) k b len w :
  alloc_total -> wf k -> stream k = 0 -> 0 <= len <= Z.of_nat (length b) -> len < 2147483648 ->
  let count := Z.max 1 ((len + mss k - 1) / mss k) in
  wp (ikcp_send k (Some b) len) (fun r w' => wf r.2 /\ balanced k w r.2 w' /\
    if 128 <=? count then r = (-2, k)
    else r.1 = 0 /\ exists fs, snd_queue r.2 = snd_queue k ++ fs /\ Z.of_nat (length fs) = count /\
      payload fs = take (Z.to_nat len) b /\
      forall j s, fs !! j = Some s ->
        Z.of_nat (length (seg_data s)) <= mss k /\ seg_frg s = count - 1 - Z.of_nat j) w.
Proof.
  intros Hal Hwf Hst Hlen Hmax count. pose proof Hwf as [Hcfg _ _ _ _].
  assert (ikcp_send_count k len = count) as Ecnt.
  { pose proof (send_count_spec k len Hcfg ltac:(lia)) as (H1 & H2 & H3 & _).
    destruct Hcfg as (Hm & Hs & _). unfold IKCP_OVERHEAD in *. unfold count.
    destruct (Z.eq_dec len 0) as [->|Hne].
    - rewrite Z.div_small by lia. nia.
    - assert ((len + mss k - 1) / mss k = ikcp_send_count k len) as ->; [|lia].
      symmetry. apply (Z.div_unique _ _ _ (len + mss k - 1 - mss k * ikcp_send_count k len)); nia. }
  eapply wp_mono; [apply (ikcp_send_spec Hal k (Some b) len w Hwf Hmax); cbn; lia|]. cbv beta.
  intros r w' (Hp & Hwf' & Hb & _). split; [done|]. split; [done|].
  unfold send_post in Hp. rewrite (proj2 (Z.ltb_ge len 0)) in Hp by lia.
  destruct Hp as (x & k1 & _ & _ & Hx & Hp). destruct (Hx Hst) as [-> ->].
  rewrite Hst, Z.sub_0_r, Ecnt in Hp. cbn [Z.eqb negb andb] in Hp. unfold IKCP_WND_RCV in Hp.
  destruct (128 <=? count); [done|]. destruct Hp as (fs & -> & Hl & [_ Hc] & Hf & Hfrg).
  split; [done|]. exists fs. splits; [done | done | by rewrite Hc |].
  intros j s Hj. split; [|by apply Hfrg]. rewrite Forall_forall in Hf.
  apply list_elem_of_lookup_2, Hf in Hj. lia.
Qed.

Lemma kcp_send_message_witness :
  wp (ikcp_send sender (Some (seq_bytes 2000)) 2000) (fun r w' => wf r.2 /\ balanced sender world0 r.2 w' /\
    if 128 <=? Z.max 1 ((2000 + mss sender - 1) / mss sender) then r = (-2, sender)
    else r.1 = 0 /\ exists fs, snd_queue r.2 = snd_queue sender ++ fs /\
      Z.of_nat (length fs) = Z.max 1 ((2000 + mss sender - 1) / mss sender) /\
      payload fs = take (Z.to_nat 2000) (seq_bytes 2000) /\
      forall j s, fs !! j = Some s ->
        Z.of_nat (length (seg_data s)) <= mss sender /\
        seg_frg s = Z.max 1 ((2000 + mss sender - 1) / mss sender) - 1 - Z.of_nat j) world0.
Proof.
  apply (kcp_send_message demo_alloc sender (seq_bytes 2000) 2000 world0);
    [exact demo_alloc_ok | exact sender_wf | reflexivity | vm_compute; split; discriminate | reflexivity].
Defined.

(** C8: [ikcp_recv] hands over exactly the first complete message: its bytes at the
    start of the caller's block, its length as the result; the message leaves the
    queue (unless it was a peek), what has become contiguous moves up behind it, and
    the invariant is kept.  Without a complete message, or with too small a block, it
    reports -1, -2 or -3 and changes nothing. *)
Theorem kcp_recv_message (alloc : Allocator) k b len w :
  wf k -> Z.of_nat (length (payload (rcv_queue k))) < 2147483648 ->
  -2147483648 < len < 2147483648 -> Z.abs len <= Z.of_nat (length b) ->
  wp (ikcp_recv k (Some b) len) (fun r w' =>
    let m := first_message (rcv_queue k) in
    (r.1.1 < 0 -> r.1.2 = k /\ r.2 = Some b /\ w' = w /\
       (rcv_queue k = [] \/ ready k = false \/ Z.abs len < Z.of_nat (length (payload m)))) /\
    (0 <= r.1.1 -> r.1.1 = Z.of_nat (length (payload m)) /\ ready k = true /\
       (exists b', r.2 = Some b' /\ length b' = length b /\ take (length (payload m)) b' = payload m) /\
       (exists l, rcv_queue r.1.2 = (if len <? 0 then rcv_queue k else drop (length m) (rcv_queue k)) ++ l) /\
       wf r.1.2 /\ balanced k w r.1.2 w')) w.
Proof.
  intros Hwf Hp Hl Hb. eapply wp_mono; [by apply (ikcp_recv_spec k (Some b) len w)|]. cbv beta zeta.
  intros [[c k'] b'] w' Hpost. unfold recv_post in Hpost. cbn [fst snd].
  case_bool_decide as Hemp; [destruct Hpost as [[= -> -> ->] ->]; split; [tauto | lia]|].
  destruct (ready k) eqn:Er; cbn [negb] in Hpost;
    [|destruct Hpost as [[= -> -> ->] ->]; split; [tauto | lia]].
  set (m := first_message (rcv_queue k)) in *.
  destruct (Z.ltb_spec (Z.abs len) (Z.of_nat (length (payload m)))) as [Hs|Hs].
  { destruct Hpost as [[= -> -> ->] ->]. split; [tauto | lia]. }
  destruct Hpost as (k2 & l1 & l2 & (_ & _ & Hk2) & _ & [= -> Ek ->] & Hwf' & Hbal & _).
  split; [lia|]. intros _. split; [done|]. split; [done|]. cbn [fst snd option_map] in *.
  split; [|split; [|done]].
  - exists (splice b 0 (payload m)). split; [done|]. split; [apply length_splice; lia|].
    unfold splice. rewrite take_0. cbn [app]. by rewrite take_app_length.
  - exists l1. transitivity (rcv_queue k2); [rewrite Ek; by destruct (_ && _)|]. rewrite Hk2.
    by destruct (len <? 0).
Qed.

Lemma kcp_recv_message_witness :
  wp (ikcp_recv receiver (Some [0; 0; 0; 9]) 4) (fun r w' =>
    let m := first_message (rcv_queue receiver) in
    (r.1.1 < 0 -> r.1.2 = receiver /\ r.2 = Some [0; 0; 0; 9] /\ w' = world0 /\
       (rcv_queue receiver = [] \/ ready receiver = false \/ Z.abs 4 < Z.of_nat (length (payload m)))) /\
    (0 <= r.1.1 -> r.1.1 = Z.of_nat (length (payload m)) /\ ready receiver = true /\
       (exists b', r.2 = Some b' /\ length b' = length [0; 0; 0; 9] /\
          take (length (payload m)) b' = payload m) /\
       (exists l, rcv_queue r.1.2 =
          (if 4 <? 0 then rcv_queue receiver else drop (length m) (rcv_queue receiver)) ++ l) /\
       wf r.1.2 /\ balanced receiver world0 r.1.2 w')) world0.
Proof.
  apply (kcp_recv_message demo_alloc receiver [0; 0; 0; 9] 4 world0);
    [exact receiver_wf | vm_compute; reflexivity | lia | vm_compute; discriminate].
Defined.

(** The receive buffer with a segment put in its place, or left alone when a segment
    with that number is there. *)
Definition placed (k : ikcpcb) (seg : IKCPSEG) (b : list IKCPSEG) : Prop :=
  ((exists s, s ∈ rcv_buf k /\ seg_sn s = seg_sn seg) /\ b = rcv_buf k) \/
  exists b1 b2, rcv_buf k = b1 ++ b2 /\ b = b1 ++ seg :: b2 /\
    Forall (fun s => off (rcv_nxt k) (seg_sn s) < off (rcv_nxt k) (seg_sn seg)) b1 /\
    Forall (fun s => off (rcv_nxt k) (seg_sn seg) < off (rcv_nxt k) (seg_sn s)) b2.

(** C9: reordering.  [ikcp_parse_data] ignores a segment outside the window; otherwise
    the buffer, with the segment in its place and no duplicate, is cut at some point:
    what is before it carries the consecutive numbers from [rcv_nxt] on and joins the
    queue, and the cut is where a number is missing or the queue is full. *)
Theorem kcp_parse_data_in_order k seg w :
  wf k -> seg_ok seg ->
  wp (ikcp_parse_data k seg) (fun k' w' =>
    if in_window k (seg_sn seg) then
      exists b n, placed k seg b /\ (n <= length b)%nat /\
        rcv_queue k' = rcv_queue k ++ take n b /\ rcv_buf k' = drop n b /\
        rcv_nxt k' = u32 (rcv_nxt k + Z.of_nat n) /\
        (forall i s, take n b !! i = Some s -> seg_sn s = u32 (rcv_nxt k + Z.of_nat i)) /\
        stopped k' /\ wf k'
    else k' = k /\ w' = freed 1 w) w.
Proof.
  intros Hwf Hseg. pose proof Hwf as [Hc _ Hr Hsegs _]. pose proof Hseg as (_ & _ & Hsn).
  eapply wp_mono; [apply wp_and; [by apply wf_parse_data |
    apply ikcp_parse_data_spec; [done | done | apply Hsegs | done]]|].
  cbv beta. intros k' w' [(Hwf' & _ & _) [_ [(-> & -> & ->)|(-> & Hst & k1 & l1 & l2 & (Hl & Hn & E) & Hcase)]]];
    [done|].
  assert (placed k seg (rcv_buf k1) /\ rcv_queue k1 = rcv_queue k /\ rcv_nxt k1 = rcv_nxt k /\
    rcv_wnd k1 = rcv_wnd k) as (Hp & Eq & En & _).
  { destruct Hcase as [(Hs & -> & _)|[(b1 & b2 & Hb & H1 & H2 & ->) _]]; (splits; [| done..]); [by left|].
    right. by exists b1, b2. }
  exists (rcv_buf k1), (length l1). rewrite Hl, take_app_length, drop_app_length, length_app, <- Hl.
  splits; [done | lia | | | | | done | done].
  - rewrite E, <- Eq. done.
  - by rewrite E.
  - rewrite E, <- En. done.
  - rewrite <- En. exact Hn.
Qed.

Lemma kcp_parse_data_in_order_witness :
  wp (ikcp_parse_data receiver (demo_seg 2)) (fun k' w' =>
    if in_window receiver (seg_sn (demo_seg 2)) then
      exists b n, placed receiver (demo_seg 2) b /\ (n <= length b)%nat /\
        rcv_queue k' = rcv_queue receiver ++ take n b /\ rcv_buf k' = drop n b /\
        rcv_nxt k' = u32 (rcv_nxt receiver + Z.of_nat n) /\
        (forall i s, take n b !! i = Some s -> seg_sn s = u32 (rcv_nxt receiver + Z.of_nat i)) /\
        stopped k' /\ wf k'
    else k' = receiver /\ w' = freed 1 world0) world0.
Proof.
  apply (kcp_parse_data_in_order receiver (demo_seg 2) world0);
    [exact receiver_wf | unfold seg_ok; cbn; lia].
Defined.

(** ** Time *)

(** C10: [ikcp_update] flushes exactly when the flush time has come (or lies more than
    10 s away, or this is the first call), with the clock set; the next flush time it
    leaves lies after now, at most one interval away, so a second call at the same
    time does not flush. *)
Theorem kcp_update_when_due (alloc : Allocator) k now w :
  wf k -> output k = true -> ackcount k < 2147483648 -> 0 <= now < 4294967296 ->
  0 <= ts_flush k < 4294967296 -> 0 < interval k <= 5000 ->
  wp (ikcp_update k now) (fun k' w' =>
    current k' = now /\ updated k' <> 0 /\ wf k' /\ balanced k w k' w' /\
    due k' now = false /\ 0 < _itimediff (ts_flush k') now /\
    if due k now then _itimediff (ts_flush k') now <= interval k /\
       exists n batches, concat batches = control_segs (primed k now) ++ flushed_data (primed k now) n /\
         outputs w' = outputs w ++ map frames batches
    else ts_flush k' = ts_flush k /\ outputs w' = outputs w /\ snd_buf k' = snd_buf k) w.
Proof.
  intros Hwf Ho Ha Hn Ht Hi. eapply wp_mono; [by apply ikcp_update_spec|]. cbv beta.
  intros k' w' Hp. destruct (due k now) eqn:Ed.
  - destruct Hp as (n & b & _ & Hout & Hc & _ & Hwf' & Hb & _ & _ & _ & _ & _ & _ & Hfr).
    unfold frame_of in Hfr. injection Hfr as E1 E2 E3 _ _ _ _ _ _ _ _ _ _.
    destruct (next_flush_spec k now Hn Ht Hi Ed) as [Hr Hd].
    assert (ts_flush k' = next_flush k now) as Ets by exact E1.
    assert (current k' = now) as Ecur by exact E3.
    assert (updated k' <> 0) as Hu by (rewrite E2; by destruct (Z.eqb_spec (updated k) 0)).
    rewrite Ets. splits; [done | done | done | exact Hb | | lia | lia | by exists n, b].
    unfold due. rewrite Ets, (proj2 (Z.eqb_neq _ _) Hu). cbn [orb]. rewrite itimediff_flip by lia.
    by rewrite (proj2 (Z.leb_gt 0 _)), (proj2 (Z.ltb_ge _ (-10000))) by lia.
  - destruct Hp as [-> ->]. destruct Hwf. pose proof Ed as Ed'. unfold due in Ed.
    rewrite !orb_false_iff in Ed. destruct Ed as [[Hu%Z.eqb_neq Hs%Z.leb_gt] Hs2%Z.ltb_ge].
    splits; try done. kcp_simpl_goal. rewrite itimediff_flip by lia. lia.
Qed.

Lemma kcp_update_when_due_witness :
  wp (ikcp_update sender 10) (fun k' w' =>
    current k' = 10 /\ updated k' <> 0 /\ wf k' /\ balanced sender world0 k' w' /\
    due k' 10 = false /\ 0 < _itimediff (ts_flush k') 10 /\
    if due sender 10 then _itimediff (ts_flush k') 10 <= interval sender /\
       exists n batches, concat batches = control_segs (primed sender 10) ++ flushed_data (primed sender 10) n /\
         outputs w' = outputs world0 ++ map frames batches
    else ts_flush k' = ts_flush sender /\ outputs w' = outputs world0 /\ snd_buf k' = snd_buf sender) world0.
Proof.
  apply (kcp_update_when_due demo_alloc sender 10 world0);
    [exact sender_wf | reflexivity | reflexivity | lia | split; [discriminate | reflexivity] |
     split; [reflexivity | discriminate]].
Defined.

(** C11: [ikcp_check] answers with the earliest time, at most an interval away, at which
    the flush is due or a segment in flight has reached its retransmission time.  Called
    before that time, [ikcp_update] only sets the clock; called at that time it flushes
    exactly if the flush is due.  (When only a segment has expired it has to wait for the
    flush all the same: [kcp_check_too_early].) *)
Theorem kcp_check_earliest (alloc : Allocator) k now :
  0 <= now < 4294967296 -> 0 <= ts_flush k < 4294967296 -> 0 < interval k <= 5000 ->
  exists d, ikcp_check k now = u32 (now + d) /\ 0 <= d <= interval k /\
    (d = 0 <-> due k now = true \/ expired k now = true) /\
    (forall e, 0 <= e < d -> expired k (u32 (now + e)) = false /\
       ikcp_update k (u32 (now + e)) = ret k<|current := u32 (now + e)|>) /\
    (d = interval k \/ due k (u32 (now + d)) = true \/ expired k (u32 (now + d)) = true) /\
    ikcp_update k (u32 (now + d)) =
      (if due k (u32 (now + d)) then ikcp_flush (primed k (u32 (now + d))) else ret k<|current := u32 (now + d)|>).
Proof.
  intros Hn Ht Hi. destruct (ikcp_check_delay k now Hn Ht Hi) as (d & E & Hd & H0 & Hq & He).
  exists d. splits; [exact E | lia | lia | exact H0 | | exact He | apply ikcp_update_eq].
  intros e Hlt. destruct (Hq e Hlt) as [Hdue Hexp]. split; [exact Hexp|]. by rewrite ikcp_update_eq, Hdue.
Qed.

Lemma kcp_check_earliest_witness :
  exists d, ikcp_check sender 3 = u32 (3 + d) /\ 0 <= d <= interval sender /\
    (d = 0 <-> due sender 3 = true \/ expired sender 3 = true) /\
    (forall e, 0 <= e < d -> expired sender (u32 (3 + e)) = false /\
       ikcp_update sender (u32 (3 + e)) = ret sender<|current := u32 (3 + e)|>) /\
    (d = interval sender \/ due sender (u32 (3 + d)) = true \/ expired sender (u32 (3 + d)) = true) /\
    ikcp_update sender (u32 (3 + d)) =
      (if due sender (u32 (3 + d)) then ikcp_flush (primed sender (u32 (3 + d))) else ret sender<|current := u32 (3 + d)|>).
Proof.
  apply (kcp_check_earliest demo_alloc sender 3);
    [lia | split; [discriminate | reflexivity] | split; [reflexivity | discriminate]].
Defined.

(** A segment has expired and the flush is not due: the answer is "now" at every
    millisecond until the flush, and each of these calls of [ikcp_update] does nothing. *)
Example kcp_check_too_early :
  let k := sender<|snd_buf := map (fun s => s<|seg_resendts := 2|>) (snd_buf sender)|><|updated := 1|><|ts_flush := 10|> in
  map (ikcp_check k) [2; 3; 9] = [2; 3; 9] /\
  map (fun now => ikcp_update k now world0) [2; 3; 9] = map (fun now => Ok k<|current := now|> world0) [2; 3; 9].
Proof. vm_compute. split; reflexivity. Qed.
