(* ===== verification/KcpAckProps.v ===== *)
(** * What the KCP engine promises about acknowledgements, retransmission, windows and
    the wire format; and three cases in which the code falls short. *)
From S2P Require Import Prelude KcpBase KcpCodec KcpSend KcpRecv KcpInput KcpFlush KcpInv.
From S2P Require Import KcpAck KcpInputSpec KcpRecvSpec KcpSendSpec KcpFlushSpec.
From S2P Require Import KcpAckSpec KcpTimer KcpApi KcpDemo.
From stdpp Require Import base list numbers strings.
Open Scope Z_scope.
Open Scope c_scope.

(** C12: every segment the flush writes can be read back: the decoder of [ikcp_input]
    finds the conversation id, the header fields (reduced to their width on the wire)
    and the data, and leaves the rest of the datagram. *)
Theorem kcp_wire_round_trip s rest :
  ikcp_getconv (frame s ++ rest) = Some (u32 (seg_conv s)) /\
  decode_seg (frame s ++ rest) = Some (u32 (seg_conv s), header_of s, seg_data s ++ rest) /\
  length (frame s) = (24 + length (seg_data s))%nat /\
  Forall (fun b => 0 <= b < 256) (ikcp_encode_seg [] s).
Proof.
  splits; [| apply decode_seg_frame | apply frame_length | apply encode_seg_bytes].
  unfold ikcp_getconv, frame. by rewrite <- (assoc_L (++)), decode_conv_encode.
Qed.

(** A cumulative acknowledgement ([una] at most half the number space ahead)
    removes exactly the segments before it, and frees each once. *)
Theorem kcp_una_removes_prefix k una w :
  wf k -> off (snd_una k) una < 2147483648 ->
  wp (ikcp_parse_una k una) (fun k' w' =>
    snd_buf k' = List.filter (fun s => off (snd_una k) una <=? off (snd_una k) (seg_sn s)) (snd_buf k) /\
    wf (ikcp_shrink_buf k') /\ balanced k w (ikcp_shrink_buf k') w' /\
    Forall (fun s => _itimediff una (seg_sn s) <= 0) (snd_buf k')) w.
Proof.
  intros Hwf Hu. destruct (snd_buf_off k (wf_is_snd _ Hwf)) as [_ Hf].
  eapply wp_mono; [apply wp_and; [apply parse_una_filter; [apply Hwf | done] |
    apply ikcp_parse_una_reduced, Hwf]|].
  cbv beta. intros k' w' [(E & _ & _) Hred]. split; [done|].
  destruct (wf_reduced k w k' w' Hwf Hred) as [? ?]. split; [done|]. split; [done|].
  rewrite E. rewrite Forall_forall in *. intros s Hin%list_elem_of_In.
  apply filter_In in Hin as [Hin%list_elem_of_In Hle%Z.leb_le].
  specialize (Hf s Hin). rewrite (itimediff_off (snd_una k)) by lia. lia.
Qed.

Lemma kcp_una_removes_prefix_witness :
  wp (ikcp_parse_una sender 1) (fun k' w' =>
    snd_buf k' = List.filter (fun s => off (snd_una sender) 1 <=? off (snd_una sender) (seg_sn s)) (snd_buf sender) /\
    wf (ikcp_shrink_buf k') /\ balanced sender world0 (ikcp_shrink_buf k') w' /\
    Forall (fun s => _itimediff 1 (seg_sn s) <= 0) (snd_buf k')) world0.
Proof. apply (kcp_una_removes_prefix sender 1 world0); [exact sender_wf | reflexivity]. Defined.

(** A selective acknowledgement removes exactly the segment with its number (none
    when the number is not in flight), although the scan stops at the first larger
    number, and although numbers wrap around. *)
Theorem kcp_ack_removes_one k sn w :
  wf k -> 0 <= sn < 4294967296 ->
  wp (ikcp_parse_ack k sn) (fun k' w' =>
    snd_buf k' = List.filter (fun s => negb (seg_sn s =? sn)) (snd_buf k) /\
    wf (ikcp_shrink_buf k') /\ balanced k w (ikcp_shrink_buf k') w' /\
    (length (snd_buf k) <= length (snd_buf k') + 1)%nat) w.
Proof.
  intros Hwf Hsn. eapply wp_mono; [apply wp_and; [apply parse_ack_filter; [apply Hwf | apply Hwf | done] |
    apply ikcp_parse_ack_reduced, Hwf]|].
  cbv beta. intros k' w' [(E & _ & _) Hred]. split; [done|].
  destruct (wf_reduced k w k' w' Hwf Hred) as [? ?]. split; [done|]. split; [done|].
  destruct (snd_buf_off k (wf_is_snd _ Hwf)) as [Hs _]. rewrite E. clear -Hs.
  induction (snd_buf k) as [|s l IH]; cbn [List.filter length]; [lia|].
  cbn [map] in Hs. apply Sorted.StronglySorted_inv in Hs as [Hs Hall].
  destruct (Z.eqb_spec (seg_sn s) sn) as [Heq|]; cbn [negb length]; [|specialize (IH Hs); lia].
  assert (List.filter (fun s => negb (seg_sn s =? sn)) l = l) as ->; [|lia].
  rewrite List.Forall_forall in Hall. apply forallb_filter_id, forallb_forall. intros s' Hin.
  apply (in_map (fun s => off (snd_una k) (seg_sn s))) in Hin. apply Hall in Hin.
  destruct (Z.eqb_spec (seg_sn s') sn) as [Heq'|]; [|done]. rewrite Heq, Heq' in Hin. lia.
Qed.

Lemma kcp_ack_removes_one_witness :
  wp (ikcp_parse_ack sender 1) (fun k' w' =>
    snd_buf k' = List.filter (fun s => negb (seg_sn s =? 1)) (snd_buf sender) /\
    wf (ikcp_shrink_buf k') /\ balanced sender world0 (ikcp_shrink_buf k') w' /\
    (length (snd_buf sender) <= length (snd_buf k') + 1)%nat) world0.
Proof. apply (kcp_ack_removes_one sender 1 world0); [exact sender_wf | lia]. Defined.

(** After an acknowledgement of number [maxack] in flight, exactly the segments
    still waiting before it count one more skip; nothing else changes. *)
Theorem kcp_fastack_counts k sn ts :
  wf k -> 0 <= sn < 4294967296 ->
  let k' := ikcp_parse_fastack k sn ts in
  wf k' /\ snd_buf k' =
    (if off (snd_una k) sn <? off (snd_una k) (snd_nxt k)
     then map (fun s => if off (snd_una k) (seg_sn s) <? off (snd_una k) sn
                        then s<|seg_fastack := u32 (seg_fastack s + 1)|> else s) (snd_buf k)
     else snd_buf k).
Proof.
  intros Hwf Hsn k'. split; [by apply wf_parse_fastack|]. subst k'.
  rewrite parse_fastack_spec by (done || apply Hwf). by destruct (_ <? _).
Qed.

Lemma kcp_fastack_counts_witness :
  let k' := ikcp_parse_fastack sender 1 0 in
  wf k' /\ snd_buf k' =
    (if off (snd_una sender) 1 <? off (snd_una sender) (snd_nxt sender)
     then map (fun s => if off (snd_una sender) (seg_sn s) <? off (snd_una sender) 1
                        then s<|seg_fastack := u32 (seg_fastack s + 1)|> else s) (snd_buf sender)
     else snd_buf sender).
Proof. apply (kcp_fastack_counts sender 1 0); [exact sender_wf | lia]. Defined.

(** C13: what [ikcp_update_ack] computes from a round-trip time of up to 2^28 ms, exactly
    and without overflow: srtt is smoothed by an eighth, and is at least 1 after the first
    measurement; rttval is smoothed by a quarter; the timeout is srtt plus the greater of
    the interval and 4 * rttval (the comment above the function says srtt + 4 * rttval),
    and lies between the configured minimum and 60 s.  The estimates stay below 2^28, so
    the next measurement is covered too. *)
Theorem kcp_rto_exact k rtt :
  rtt_ok k -> 0 <= rtt <= rtt_max ->
  let k' := ikcp_update_ack k rtt in
  rx_srtt k' = (if rx_srtt k =? 0 then rtt else Z.max 1 ((7 * rx_srtt k + rtt) / 8)) /\
  rx_rttval k' = (if rx_srtt k =? 0 then rtt / 2 else (3 * rx_rttval k + Z.abs (rtt - rx_srtt k)) / 4) /\
  rx_rto k' = Z.min (Z.max (rx_minrto k) (rx_srtt k' + Z.max (interval k) (4 * rx_rttval k'))) IKCP_RTO_MAX /\
  rx_minrto k <= rx_rto k' <= IKCP_RTO_MAX /\ rtt_ok k'.
Proof.
  intros Hok Hr k'. destruct (ikcp_update_ack_spec k rtt Hok Hr) as [E Hok']. fold k' in E, Hok'.
  rewrite E in *. destruct Hok as (_ & _ & _ & Hm). unfold IKCP_RTO_MAX in Hm.
  splits; [done | done | done | | | exact Hok']; kcp_simpl_goal; unfold rto_spec, IKCP_RTO_MAX; lia.
Qed.

Lemma kcp_rto_exact_witness :
  let k' := ikcp_update_ack sender 35 in
  rx_srtt k' = (if rx_srtt sender =? 0 then 35 else Z.max 1 ((7 * rx_srtt sender + 35) / 8)) /\
  rx_rttval k' = (if rx_srtt sender =? 0 then 35 / 2
                  else (3 * rx_rttval sender + Z.abs (35 - rx_srtt sender)) / 4) /\
  rx_rto k' = Z.min (Z.max (rx_minrto sender) (rx_srtt k' + Z.max (interval sender) (4 * rx_rttval k'))) IKCP_RTO_MAX /\
  rx_minrto sender <= rx_rto k' <= IKCP_RTO_MAX /\ rtt_ok k'.
Proof.
  apply (kcp_rto_exact sender 35); unfold rtt_ok, rtt_max, IKCP_RTO_MAX; cbn; lia.
Defined.

(** A sequence of [ikcp_ack_push]. *)
Fixpoint push_all {alloc : Allocator} (ps : list (Z * Z)) (k : ikcpcb) : M world ikcpcb :=
  match ps with
  | [] => ret k
  | (sn, ts) :: ps => let! k := ikcp_ack_push k sn ts in push_all ps k
  end.

(** The ack list is a queue.  After any sequence of [ikcp_ack_push], across any
    number of reallocations, [ikcp_ack_get] reads the pairs in the order they were
    pushed, every cell it reads is initialised and inside the block, and the old
    blocks have been freed. *)
Theorem kcp_ack_list (alloc : Allocator) k ps w :
  alloc_total -> wf_ack k -> ackcount k + Z.of_nat (length ps) < 2147483647 ->
  wp (push_all ps k) (fun k' w' => balanced k w k' w' /\ wf_ack k' /\
    ackcount k' = ackcount k + Z.of_nat (length ps) /\
    forall i p, (acks k ++ ps) !! i = Some p -> ikcp_ack_get k' (Z.of_nat i) w' = Ok p w') w.
Proof.
  intros Hal. revert k w.
  assert (forall k w, wf_ack k -> ackcount k + Z.of_nat (length ps) < 2147483647 ->
    wp (push_all ps k) (fun k' w' => balanced k w k' w' /\ wf_ack k' /\
      ackcount k' = ackcount k + Z.of_nat (length ps) /\ acks k' = acks k ++ ps) w) as Hpush.
  { induction ps as [|[sn ts] ps IH]; intros k w Hwf Hmax; cbn [push_all length] in *.
    - wp_step. rewrite app_nil_r. unfold balanced. splits; lia || done.
    - wp_step. eapply wp_mono; [apply (ikcp_ack_push_spec Hal); [done | lia]|]. cbv beta.
      intros k1 w1 (l & nb & E & Hwf1 & Hacks & Hb & _).
      assert (ackcount k1 = ackcount k + 1) as Ec by (by rewrite E).
      eapply wp_mono; [apply IH; [done | lia]|]. cbv beta. intros k2 w2 (Hb2 & Hwf2 & Hc2 & Ha2).
      unfold balanced in *. splits; [lia | done | lia |].
      by rewrite Ha2, Hacks, <- (assoc_L (++)). }
  intros k w Hwf Hmax. eapply wp_mono; [by apply Hpush|]. cbv beta.
  intros k' w' (Hb & Hwf' & Hc & Ha). splits; [done | done | done |].
  intros i p Hi. rewrite <- Ha in Hi.
  assert (i < Z.to_nat (ackcount k'))%nat as Hlt
    by (rewrite <- (acks_length k' Hwf'); by apply lookup_lt_Some in Hi).
  pose proof (ack_get_spec k' i w' Hwf' Hlt) as Hg. apply wp_run in Hg as (r & w2 & Hr & Hr' & ->).
  rewrite Hr. congruence.
Qed.

Lemma kcp_ack_list_witness :
  wp (push_all [(5, 1); (6, 2)] receiver) (fun k' w' => balanced receiver world0 k' w' /\ wf_ack k' /\
    ackcount k' = ackcount receiver + 2 /\
    forall i p, (acks receiver ++ [(5, 1); (6, 2)]) !! i = Some p ->
      ikcp_ack_get k' (Z.of_nat i) w' = Ok p w') world0.
Proof.
  apply (kcp_ack_list demo_alloc receiver [(5, 1); (6, 2)] world0);
    [exact demo_alloc_ok | exact (wf_is_ack _ receiver_wf) | reflexivity].
Defined.

(** C14: flow control.  A flush never puts more in flight than the send window, the
    peer's window and (unless it is switched off) the congestion window allow, except
    for what was in flight already; and it leaves nothing queued while there is room. *)
Theorem kcp_flow_control (alloc : Allocator) k w :
  wf k -> output k = true -> updated k <> 0 -> ackcount k < 2147483648 ->
  wp (ikcp_flush k) (fun k' _ =>
    let flight k := off (snd_una k) (snd_nxt k) in
    (flight k' = flight k \/
     flight k' <= snd_wnd k /\ flight k' <= rmt_wnd k /\ (nocwnd k = 0 -> flight k' <= cwnd k)) /\
    (snd_queue k' = [] \/ flight k' >= flush_window k) /\
    Z.of_nat (length (snd_queue k)) - Z.of_nat (length (snd_queue k')) = flight k' - flight k) w.
Proof.
  intros Hwf Ho Hu Ha. eapply wp_mono; [by apply ikcp_flush_spec|]. cbv beta zeta.
  intros k' w' (n & b & (Hn & H1 & H2) & _ & _ & _ & Hwf' & _ & _ & Hq & Hf & _ & _ & _ & Hfr).
  unfold frame_of in Hfr. injection Hfr as _ _ _ _ _ _ E _ _ _ _ _ _ _ _. rewrite E, Hf, Hq, length_drop.
  assert (flush_window k <= snd_wnd k /\ flush_window k <= rmt_wnd k /\
    (nocwnd k = 0 -> flush_window k <= cwnd k)) as (W1 & W2 & W3).
  { unfold flush_window. rewrite !imin_min. destruct (Z.eqb_spec (nocwnd k) 0); lia. }
  splits; [| | lia].
  - destruct H1 as [->|H1]; [left; lia | right]. splits; [lia | lia | intros H0; specialize (W3 H0); lia].
  - destruct H2 as [->|H2]; [left | right; lia]. by rewrite drop_all.
Qed.

Lemma kcp_flow_control_witness :
  wp (ikcp_flush sender) (fun k' _ =>
    let flight k := off (snd_una k) (snd_nxt k) in
    (flight k' = flight sender \/
     flight k' <= snd_wnd sender /\ flight k' <= rmt_wnd sender /\ (nocwnd sender = 0 -> flight k' <= cwnd sender)) /\
    (snd_queue k' = [] \/ flight k' >= flush_window sender) /\
    Z.of_nat (length (snd_queue sender)) - Z.of_nat (length (snd_queue k')) = flight k' - flight sender) world0.
Proof.
  apply (kcp_flow_control demo_alloc sender world0); [exact sender_wf | reflexivity | discriminate | reflexivity].
Defined.

(** Zero-window probing.  While the peer announces no window, the wait between
    probes starts at 7 s, grows by half after each probe up to 120 s, and a probe is
    asked for exactly when the wait is over; an open window stops it. *)
Theorem kcp_probe_timer k :
  probe_wait k = 0 \/ IKCP_PROBE_INIT <= probe_wait k <= IKCP_PROBE_LIMIT ->
  let k' := flush_probe_timer k in
  if negb (rmt_wnd k =? 0) then probe_wait k' = 0 /\ ts_probe k' = 0 /\ probe k' = probe k
  else if probe_wait k =? 0 then
    probe_wait k' = IKCP_PROBE_INIT /\ ts_probe k' = u32 (current k + IKCP_PROBE_INIT) /\ probe k' = probe k
  else if 0 <=? _itimediff (current k) (ts_probe k) then
    probe_wait k' = Z.min (probe_wait k + probe_wait k / 2) IKCP_PROBE_LIMIT /\
    IKCP_PROBE_INIT <= probe_wait k' <= IKCP_PROBE_LIMIT /\
    ts_probe k' = u32 (current k + probe_wait k') /\ Z.testbit (probe k') 0 = true
  else k' = k.
Proof.
  unfold IKCP_PROBE_INIT, IKCP_PROBE_LIMIT. intros Hw. cbv zeta. unfold flush_probe_timer.
  unfold IKCP_PROBE_INIT, IKCP_PROBE_LIMIT.
  destruct (rmt_wnd k =? 0); cbn [negb]; [|done].
  destruct (Z.eqb_spec (probe_wait k) 0) as [E|E]; [done|].
  destruct (0 <=? _itimediff (current k) (ts_probe k)); [|done].
  rewrite (proj2 (Z.ltb_ge (probe_wait k) 7000)) by lia.
  kcp_simpl_goal. rewrite u32_id by (Z.div_mod_to_equations; lia).
  assert (Z.testbit (Z.lor (probe k) IKCP_ASK_SEND) 0 = true) as Hbit
    by (rewrite Z.lor_spec; apply orb_true_r).
  destruct (Z.ltb_spec 120000 (probe_wait k + probe_wait k / 2)); kcp_simpl_goal;
    (splits; [Z.div_mod_to_equations; lia.. | done | done]).
Qed.

Lemma kcp_probe_timer_witness :
  let k := receiver<|rmt_wnd := 0|><|probe_wait := 7000|><|ts_probe := 2|> in
  let k' := flush_probe_timer k in
  if negb (rmt_wnd k =? 0) then probe_wait k' = 0 /\ ts_probe k' = 0 /\ probe k' = probe k
  else if probe_wait k =? 0 then
    probe_wait k' = IKCP_PROBE_INIT /\ ts_probe k' = u32 (current k + IKCP_PROBE_INIT) /\ probe k' = probe k
  else if 0 <=? _itimediff (current k) (ts_probe k) then
    probe_wait k' = Z.min (probe_wait k + probe_wait k / 2) IKCP_PROBE_LIMIT /\
    IKCP_PROBE_INIT <= probe_wait k' <= IKCP_PROBE_LIMIT /\
    ts_probe k' = u32 (current k + probe_wait k') /\ Z.testbit (probe k') 0 = true
  else k' = k.
Proof.
  apply (kcp_probe_timer receiver<|rmt_wnd := 0|><|probe_wait := 7000|><|ts_probe := 2|>).
  right. cbn. unfold IKCP_PROBE_INIT, IKCP_PROBE_LIMIT. lia.
Defined.

(** Retransmission back-off.  A segment is sent when it is new, when its time has
    come, or when enough later ones were acknowledged; each send counts, the timeout
    at least doubles (or, without delay, grows by half), and the next retransmission
    is that timeout away. *)
Theorem kcp_backoff k now rtomin why s :
  0 <= seg_rto s < 536870912 -> 0 < rx_rto k <= IKCP_RTO_MAX -> 0 <= rtomin <= IKCP_RTO_MAX ->
  0 <= seg_xmit s < 4294967295 ->
  let s' := flush_rearm k now rtomin why s in
  same_wire s s' /\
  match why with
  | NotSent => s' = s
  | FirstSent => seg_rto s' = rx_rto k /\ _itimediff (seg_resendts s') now = rx_rto k + rtomin
  | TimedOut =>
    seg_rto s' = seg_rto s + (if nodelay k =? 0 then Z.max (seg_rto s) (rx_rto k)
                              else if nodelay k <? 2 then seg_rto s / 2 else rx_rto k / 2) /\
    _itimediff (seg_resendts s') now = seg_rto s'
  | FastResent => seg_rto s' = seg_rto s /\ seg_fastack s' = 0 /\ _itimediff (seg_resendts s') now = seg_rto s
  end /\
  seg_xmit s' = match why with NotSent => seg_xmit s | _ => seg_xmit s + 1 end.
Proof.
  unfold IKCP_RTO_MAX. intros Hr Hx Hm Ht. cbv zeta. set (s' := flush_rearm k now rtomin why s).
  assert (forall r, 0 <= r < 2147483648 -> _itimediff (u32 (now + r)) now = r) as Hi.
  { intros r Hr'. unfold _itimediff. rewrite <- s32_u32, u32_sub_l.
    replace (now + r - now) with r by lia. rewrite s32_u32. by apply s32_id; lia. }
  assert (u32 (seg_xmit s + 1) = seg_xmit s + 1) as Hxm by (apply u32_id; lia).
  subst s'. destruct why; cbn [flush_rearm]; kcp_simpl_goal.
  - done.
  - rewrite (u32_id (rx_rto k)), u32_add_l, <- Z.add_assoc, Hi by lia. done.
  - rewrite (u32_id (rx_rto k)), imax_max, s32_id, Hxm by lia.
    assert (0 <= seg_rto s / 2 <= seg_rto s /\ 0 <= rx_rto k / 2 <= rx_rto k) as [? ?]
      by (Z.div_mod_to_equations; lia).
    destruct (nodelay k =? 0); [|destruct (nodelay k <? 2)]; kcp_simpl_goal;
      rewrite ?Z.quot_div_nonneg by lia; rewrite (u32_id (seg_rto s + _)), Hi by lia; done.
  - rewrite Hi by lia. done.
Qed.

Lemma kcp_backoff_witness :
  let s := demo_seg 2 in
  let s' := flush_rearm sender 100 0 TimedOut s in
  same_wire s s' /\
  (seg_rto s' = seg_rto s + (if nodelay sender =? 0 then Z.max (seg_rto s) (rx_rto sender)
                              else if nodelay sender <? 2 then seg_rto s / 2 else rx_rto sender / 2) /\
    _itimediff (seg_resendts s') 100 = seg_rto s') /\
  seg_xmit s' = seg_xmit s + 1.
Proof.
  apply (kcp_backoff sender 100 0 TimedOut (demo_seg 2)); unfold IKCP_RTO_MAX; cbn; lia.
Defined.

(** The congestion window after an acknowledgement never shrinks and never passes
    the peer's window; in slow start it grows by exactly one. *)
Theorem kcp_cwnd_grows k una :
  wf k -> mss k < 65536 -> 0 <= incr k < 2147483648 ->
  let k' := ikcp_input_cwnd k una in
  cwnd k <= cwnd k' <= Z.max (cwnd k) (rmt_wnd k) /\
  (0 < _itimediff (snd_una k) una -> cwnd k < rmt_wnd k -> cwnd k < ssthresh k -> cwnd k' = cwnd k + 1) /\
  (_itimediff (snd_una k) una <= 0 -> k' = k).
Proof.
  intros Hwf Hmss Hincr k'. destruct (wf_is_cfg _ Hwf) as (Hm & Hms & _ & _ & _ & Hrw & Hcw).
  unfold IKCP_OVERHEAD in Hms. subst k'. unfold ikcp_input_cwnd.
  destruct (Z.ltb_spec 0 (_itimediff (snd_una k) una)); [|split; [lia|]; split; [lia | done]].
  destruct (Z.ltb_spec (cwnd k) (rmt_wnd k)); [|split; [lia|]; split; lia].
  destruct (Z.ltb_spec (cwnd k) (ssthresh k)).
  - kcp_simpl_goal. rewrite (u32_id (cwnd k + 1)) by lia.
    rewrite (proj2 (Z.ltb_ge _ _)) by lia. kcp_simpl_goal. lia.
  - set (k1 := if incr k <? mss k then k<|incr := mss k|> else k).
    assert (mss k <= incr k1 < 2147483648 /\ cwnd k1 = cwnd k /\ rmt_wnd k1 = rmt_wnd k) as (Hi1 & Ec & Er)
      by (subst k1; destruct (Z.ltb_spec (incr k) (mss k)); cbn; lia).
    clearbody k1. cbv zeta. kcp_simpl_goal. rewrite Ec, Er.
    pose proof (u32_range (mss k * mss k)) as Hsq.
    assert (0 <= u32 (mss k * mss k) / incr k1 <= 165191050) as Hq.
    { split; [apply Z.div_pos; lia|]. apply Z.div_le_upper_bound; nia. }
    assert (0 <= mss k / 16 <= 4096) as Hd by (Z.div_mod_to_equations; lia).
    set (g := u32 (mss k * mss k) / incr k1) in *.
    rewrite (u32_id (g + mss k / 16)), (u32_id (incr k1 + _)) by lia.
    rewrite (u32_id (cwnd k + 1)), (u32_id ((cwnd k + 1) * mss k)) by nia.
    destruct (Z.leb_spec ((cwnd k + 1) * mss k) (incr k1 + (g + mss k / 16))) as [Hle|]; kcp_simpl_goal.
    + rewrite (proj2 (Z.ltb_lt 0 (mss k))) by lia. rewrite (u32_id (_ + mss k)), (u32_id (_ - 1)) by lia.
      assert (cwnd k + 1 <= (incr k1 + (g + mss k / 16) + mss k - 1) / mss k)
        by (apply Z.div_le_lower_bound; lia).
      match goal with |- context [if rmt_wnd k <? ?c then _ else _] => destruct (Z.ltb_spec (rmt_wnd k) c) end;
        kcp_simpl_goal; (splits; intros; lia).
    + rewrite (proj2 (Z.ltb_ge (rmt_wnd k) (cwnd k))) by lia. kcp_simpl_goal. splits; intros; lia.
Qed.

Lemma kcp_cwnd_grows_witness :
  let k' := ikcp_input_cwnd sender 4294967295 in
  cwnd sender <= cwnd k' <= Z.max (cwnd sender) (rmt_wnd sender) /\
  (0 < _itimediff (snd_una sender) 4294967295 -> cwnd sender < rmt_wnd sender ->
     cwnd sender < ssthresh sender -> cwnd k' = cwnd sender + 1) /\
  (_itimediff (snd_una sender) 4294967295 <= 0 -> k' = sender).
Proof.
  apply (kcp_cwnd_grows sender 4294967295); [exact sender_wf | reflexivity | split; [discriminate | reflexivity]].
Defined.

(** [ikcp_setmtu] refuses less than 50 bytes; otherwise it replaces the flush
    block by one that has room for three datagrams, frees the old one, and keeps the
    invariant, provided no queued segment is larger than the new MSS. *)
Theorem kcp_setmtu_safe (alloc : Allocator) k m w :
  alloc_total -> wf k -> m < 1073741824 -> Forall (fun s => seg_len s <= m - 24) (snd_buf k ++ snd_queue k) ->
  wp (ikcp_setmtu k m) (fun r w' => wf r.2 /\ balanced k w r.2 w' /\ outputs w' = outputs w /\
    if m <? 50 then r = (-1, k)
    else r.1 = 0 /\ mtu r.2 = m /\ mss r.2 = m - IKCP_OVERHEAD /\ buffer r.2 = Some (3 * (m + IKCP_OVERHEAD))) w.
Proof.
  intros Hal Hwf Hm Hf. eapply wp_mono; [by apply (wf_setmtu Hal)|]. cbv beta.
  intros r w' (Hwf' & Hb & Hr & Ho). splits; [done | done | done |].
  destruct (m <? 50); [done|]. destruct Hr as (H1 & H2 & H3).
  destruct (wf_is_cfg _ Hwf') as (_ & _ & Hbuf & _). rewrite H2 in Hbuf. done.
Qed.

Lemma kcp_setmtu_safe_witness :
  wp (ikcp_setmtu sender 576) (fun r w' => wf r.2 /\ balanced sender world0 r.2 w' /\ outputs w' = outputs world0 /\
    if 576 <? 50 then r = (-1, sender)
    else r.1 = 0 /\ mtu r.2 = 576 /\ mss r.2 = 576 - IKCP_OVERHEAD /\
      buffer r.2 = Some (3 * (576 + IKCP_OVERHEAD))) world0.
Proof.
  apply (kcp_setmtu_safe demo_alloc sender 576 world0);
    [exact demo_alloc_ok | exact sender_wf | lia | repeat (apply Forall_cons; split; [cbn; lia|]); apply Forall_nil; exact I].
Defined.

(** ** Where the code falls short *)

(** The result of a sequence of calls on a new control block. *)
Definition after_calls (cs : list call) : res world ikcpcb :=
  match ikcp_create 7 0 world0 with
  | Ok (Some k) w => run_calls cs k w
  | _ => Fault OutOfFuel
  end.

(** The proviso of [kcp_setmtu_safe] is needed.  [ikcp_setmtu] does not look at the segments
    that wait: after a 1376-byte message is queued and the MTU set to 50, the next
    flush with an open window writes past the end of the flush block. *)
Theorem kcp_setmtu_overflow :
  after_calls [CSetoutput true; CSend (Some (seq_bytes 1376)) 1376; CSetmtu 50; CUpdate 0; CUpdate 100] = Fault OutOfBounds.
Proof. vm_compute. reflexivity. Qed.

(** In stream mode a send that is refused for its length (-2) has already put its
    first bytes at the end of the last queued segment: a caller that tries again
    sends them twice. *)
Theorem kcp_stream_send_partial :
  exists k, after_calls [CSetoutput true; CSetmtu 50] = Ok k (mkworld 3 2 []) /\
  let k1 := k<|stream := 1|> in
  exists k2 w2 k3 w3,
    ikcp_send k1 (Some [7]) 1 world0 = Ok (0, k2) w2 /\
    ikcp_send k2 (Some (seq_bytes 4000)) 4000 w2 = Ok (-2, k3) w3 /\
    payload (snd_queue k2) = [7] /\ payload (snd_queue k3) = 7 :: seq_bytes 25.
Proof.
  eexists. split; [vm_compute; reflexivity|]. cbv zeta.
  do 4 eexists. repeat (split; [vm_compute; reflexivity|]). vm_compute. reflexivity.
Qed.
