(* ===== verification/CLib.v ===== *)
(** * What the other programs use of the C library: byte blocks, byte order,
    strings and allocation. *)
From S2P Require Import Prelude KcpBase.
From stdpp Require Import base list numbers strings.
Open Scope Z_scope.
Open Scope c_scope.

(** ** Blocks of bytes *)

(** [p[i]] for a readable block. *)
Definition rd8 (blk : list Z) (i : Z) : M world Z :=
  if i <? 0 then throw OutOfBounds else of_option OutOfBounds (blk !! Z.to_nat i).

(** A 16-bit load on a little-endian machine, as it is on the platforms of this code. *)
Definition rd16 (blk : list Z) (i : Z) : M world Z :=
  let! lo := rd8 blk i in
  let! hi := rd8 blk (i + 1) in
  ret (lo + 256 * hi).

(** [htons] and [ntohs] there. *)
Definition htons (x : Z) : Z := 256 * (x mod 256) + (x / 256) mod 256.
Definition ntohs (x : Z) : Z := htons x.

(** The two bytes of a 16-bit store. *)
Definition bytes16 (x : Z) : list Z := [x mod 256; (x / 256) mod 256].

(** [memcpy] out of a block at an offset. *)
Definition rdn {A} (blk : list A) (i n : Z) : M world (list A) :=
  if (0 <=? i) && (0 <=? n) && (i + n <=? Z.of_nat (length blk))
  then ret (take (Z.to_nat n) (drop (Z.to_nat i) blk)) else throw OutOfBounds.

(** [memcpy] of [src] into a block of cells, some of which may be uninitialised. *)
Definition wrn {A} (blk : list A) (i : Z) (src : list A) : M world (list A) :=
  if (0 <=? i) && (i + Z.of_nat (length src) <=? Z.of_nat (length blk))
  then ret (take (Z.to_nat i) blk ++ src ++ drop (Z.to_nat i + length src) blk) else throw OutOfBounds.

(** ** Strings: lists of the bytes before the terminator *)

(** [strlen] of what a block holds. *)
Fixpoint cstr (blk : list Z) : list Z :=
  match blk with
  | [] => []
  | c :: blk' => if c =? 0 then [] else c :: cstr blk'
  end.

(** The calls of [strtok] with a single delimiter, until it returns NULL: the maximal
    runs of other characters. *)
Fixpoint split_at (d : Z) (s cur : list Z) : list (list Z) :=
  match s with
  | [] => [rev cur]
  | c :: s' => if c =? d then rev cur :: split_at d s' [] else split_at d s' (c :: cur)
  end.
Definition strtok_all (d : Z) (s : list Z) : list (list Z) :=
  List.filter (fun t => negb (bool_decide (t = []))) (split_at d s []).

(** Decimal digits, as [%ld] and a stream print a number. *)
Fixpoint decimal_of (fuel : nat) (n : Z) : list Z :=
  match fuel with
  | O => []
  | S fuel => if n <? 10 then [48 + n] else decimal_of fuel (n / 10) ++ [48 + n mod 10]
  end.
Definition text (s : string) : list Z := map (fun a => Z.of_nat (Ascii.nat_of_ascii a)) (String.list_ascii_of_string s).

(** Decimal digits of a number below 1000. *)
Definition decimal (n : Z) : list Z :=
  if n <? 10 then [48 + n]
  else if n <? 100 then [48 + n / 10; 48 + n mod 10]
  else [48 + n / 100; 48 + n / 10 mod 10; 48 + n mod 10].

(** [inet_ntop(AF_INET, ...)]. *)
Definition inet_ntop (ip : list Z) : list Z :=
  match ip with
  | [a; b; c; d] => decimal a ++ 46 :: decimal b ++ 46 :: decimal c ++ 46 :: decimal d
  | _ => []
  end.

(** ** Allocation *)

Section Alloc.
Context {alloc : Allocator}.

(** [malloc(n)]: cells without a value; [calloc]: zeros. *)
Definition c_malloc (n : Z) : M world (option (list (option Z))) :=
  let! p := ikcp_malloc n in
  ret (option_map (fun _ => replicate (Z.to_nat n) None) p).
Definition c_calloc (n : Z) : M world (option (list Z)) :=
  let! p := ikcp_malloc n in
  ret (option_map (fun _ => replicate (Z.to_nat n) 0) p).
End Alloc.

Definition c_free : M world unit := ikcp_free.

(** ** Lemmas *)

Lemma wp_rd8 blk i c (Q : Z -> world -> Prop) w :
  0 <= i -> blk !! Z.to_nat i = Some c -> Q c w -> wp (rd8 blk i) Q w.
Proof. intros Hi Hc HQ. unfold rd8. rewrite (proj2 (Z.ltb_ge i 0)) by lia. by rewrite Hc. Qed.

Lemma wp_rd16 blk i lo hi (Q : Z -> world -> Prop) w :
  0 <= i -> blk !! Z.to_nat i = Some lo -> blk !! Z.to_nat (i + 1) = Some hi ->
  Q (lo + 256 * hi) w -> wp (rd16 blk i) Q w.
Proof.
  intros Hi H1 H2 HQ. unfold rd16. wp_step. eapply wp_rd8; [done..|].
  wp_step. eapply wp_rd8; [lia | done |]. by wp_step.
Qed.

Lemma wp_rdn {A} (blk : list A) i n (Q : list A -> world -> Prop) w :
  0 <= i -> 0 <= n -> i + n <= Z.of_nat (length blk) ->
  Q (take (Z.to_nat n) (drop (Z.to_nat i) blk)) w -> wp (rdn blk i n) Q w.
Proof.
  intros H1 H2 H3 HQ. unfold rdn.
  rewrite (proj2 (Z.leb_le 0 i)), (proj2 (Z.leb_le 0 n)), (proj2 (Z.leb_le (i + n) _)) by lia. done.
Qed.

Lemma wp_wrn {A} (blk : list A) i src (Q : list A -> world -> Prop) w :
  0 <= i -> i + Z.of_nat (length src) <= Z.of_nat (length blk) ->
  Q (take (Z.to_nat i) blk ++ src ++ drop (Z.to_nat i + length src) blk) w -> wp (wrn blk i src) Q w.
Proof.
  intros H1 H2 HQ. unfold wrn. by rewrite (proj2 (Z.leb_le 0 i)), (proj2 (Z.leb_le (i + _) _)) by lia.
Qed.

(** Writing at the end of what is known of a block. *)
Lemma wp_wrn_app {A} (a b src : list A) i (Q : list A -> world -> Prop) w :
  i = Z.of_nat (length a) -> (length src <= length b)%nat ->
  Q (a ++ src ++ drop (length src) b) w -> wp (wrn (a ++ b) i src) Q w.
Proof.
  intros -> Hl HQ. apply wp_wrn; [lia | rewrite length_app; lia|].
  rewrite Nat2Z.id, take_app_length. by rewrite drop_app_add.
Qed.

(** Reading there. *)
Lemma wp_rdn_app {A} (a b c : list A) i n (Q : list A -> world -> Prop) w :
  i = Z.of_nat (length a) -> n = Z.of_nat (length b) -> Q b w -> wp (rdn (a ++ b ++ c) i n) Q w.
Proof.
  intros -> -> HQ. apply wp_rdn; [lia | lia | rewrite !length_app; lia|].
  by rewrite !Nat2Z.id, drop_app_length, take_app_length.
Qed.

Lemma wp_rd8_app a c b i (Q : Z -> world -> Prop) w :
  i = Z.of_nat (length a) -> Q c w -> wp (rd8 (a ++ c :: b) i) Q w.
Proof.
  intros -> HQ. eapply wp_rd8; [lia | | exact HQ]. rewrite Nat2Z.id. by apply list_lookup_middle.
Qed.

(** A 16-bit number in network order. *)
Lemma wp_rd16_app a hi lo b i (Q : Z -> world -> Prop) w :
  i = Z.of_nat (length a) -> 0 <= hi < 256 -> 0 <= lo < 256 ->
  (forall v, ntohs v = 256 * hi + lo -> Q v w) -> wp (rd16 (a ++ hi :: lo :: b) i) Q w.
Proof.
  intros -> H1 H2 HQ. eapply wp_rd16; [lia | | |].
  - rewrite Nat2Z.id. by apply list_lookup_middle.
  - replace (Z.to_nat (Z.of_nat (length a) + 1)) with (length a + 1)%nat by lia.
    by rewrite lookup_app_r, Nat.add_comm, Nat.add_sub by lia.
  - apply HQ. unfold ntohs, htons. Z.div_mod_to_equations. lia.
Qed.

(** The bytes of a 16-bit number in network order, loaded and swapped back. *)
Lemma ntohs_bytes hi lo : 0 <= hi < 256 -> 0 <= lo < 256 -> ntohs (hi + 256 * lo) = 256 * hi + lo.
Proof. intros H1 H2. unfold ntohs, htons. Z.div_mod_to_equations. lia. Qed.

Lemma htons_htons x : 0 <= x < 65536 -> htons (htons x) = x.
Proof. intros H. unfold htons. Z.div_mod_to_equations. lia. Qed.

Lemma cstr_app s blk : Forall (fun c => c <> 0) s -> cstr (s ++ 0 :: blk) = s.
Proof.
  induction s as [|c s IH]; intros H; cbn; [done|]. apply Forall_cons in H as [Hc H].
  rewrite (proj2 (Z.eqb_neq c 0)) by done. by rewrite IH.
Qed.

(** Loads at a distance from a known prefix. *)
Lemma lookup_shift {A} (a l : list A) k : 0 <= k ->
  (a ++ l) !! Z.to_nat (Z.of_nat (length a) + k) = l !! Z.to_nat k.
Proof.
  intros H. replace (Z.to_nat (Z.of_nat (length a) + k)) with (length a + Z.to_nat k)%nat by lia.
  by rewrite lookup_app_r, Nat.add_comm, Nat.add_sub by lia.
Qed.

Lemma wp_rd8_at a l k i c (Q : Z -> world -> Prop) w :
  i = Z.of_nat (length a) + k -> 0 <= k -> l !! Z.to_nat k = Some c -> Q c w -> wp (rd8 (a ++ l) i) Q w.
Proof. intros -> Hk Hc HQ. eapply wp_rd8; [lia | by rewrite lookup_shift | done]. Qed.

Lemma wp_rd16_at a l k i hi lo (Q : Z -> world -> Prop) w :
  i = Z.of_nat (length a) + k -> 0 <= k -> l !! Z.to_nat k = Some hi -> l !! Z.to_nat (k + 1) = Some lo ->
  Q (hi + 256 * lo) w -> wp (rd16 (a ++ l) i) Q w.
Proof.
  intros -> Hk H1 H2 HQ. eapply wp_rd16; [lia | by rewrite lookup_shift | | exact HQ].
  rewrite <- Z.add_assoc, lookup_shift by lia. done.
Qed.

Section AllocSpec.
Context {alloc : Allocator} (alloc_ok : forall n size, malloc n size <> None).

Lemma wp_c_calloc n Q w :
  (forall w', w_live w' = w_live w + 1 -> w_events w' = w_events w -> Q (Some (replicate (Z.to_nat n) 0)) w') ->
  wp (c_calloc n) Q w.
Proof.
  intros H. unfold wp, c_calloc, ikcp_malloc, bind, ret. destruct (malloc _ _) eqn:E; [by apply H|].
  by apply alloc_ok in E.
Qed.

Lemma wp_c_malloc n Q w :
  (forall w', w_live w' = w_live w + 1 -> w_events w' = w_events w -> Q (Some (replicate (Z.to_nat n) None)) w') ->
  wp (c_malloc n) Q w.
Proof.
  intros H. unfold wp, c_malloc, ikcp_malloc, bind, ret. destruct (malloc _ _) eqn:E; [by apply H|].
  by apply alloc_ok in E.
Qed.
End AllocSpec.
