(* ===== verification/Dns.v ===== *)
(** * async_dns_client_noblock.c: building a DNS query and reading the response. *)
From S2P Require Import Prelude KcpBase CLib.
From stdpp Require Import base list numbers strings.
Open Scope Z_scope.
Open Scope c_scope.

Definition DNS_HOST : Z := 1.
Definition DNS_CNAME : Z := 5.

(** [struct dns_header]: its fields hold values in network order. *)
Record dns_header : Type := mkdns {
  dh_id : Z; dh_flags : Z; dh_qdcount : Z; dh_ancount : Z; dh_nscount : Z; dh_arcount : Z
}.

(** [struct dns_question]; [qname] points to a block whose cells may hold nothing. *)
Record dns_question : Type := mkquestion {
  dq_length : Z; dq_qtype : Z; dq_qclass : Z; dq_qname : list (option Z)
}.

(** [struct dns_item]. *)
Record dns_item : Type := mkitem { di_domain : list Z; di_ip : list Z }.

(** [dns_create_header]; [rnd] is the value of [random()]. *)
Definition dns_create_header (rnd : Z) : dns_header :=
  {| dh_id := u16 rnd; dh_flags := Z.lor 0 (htons 256); dh_qdcount := htons 1;
     dh_ancount := 0; dh_nscount := 0; dh_arcount := 0 |}.

(** The loop over the labels: a length byte, then [strncpy] of the label and its
    terminator; the pointer moves past the label only. *)
Fixpoint dns_write_labels (tokens : list (list Z)) (qname : list (option Z)) (qname_p : Z)
    : M world (list (option Z)) :=
  match tokens with
  | [] => ret qname
  | token :: tokens' =>
    let len := Z.of_nat (length token) in
    let! qname := wrn qname qname_p [Some (u8 len)] in
    let qname_p := qname_p + 1 in
    let! qname := wrn qname qname_p (map Some token ++ [Some 0]) in
    let qname_p := qname_p + len in
    dns_write_labels tokens' qname qname_p
  end.

(** [is_pointer]. *)
Definition is_pointer (n : Z) : bool := Z.land n 192 =? 192.

(** [dns_parse_name]: one fuel per round of the loop and per recursive call.  [pos] is
    the offset of the write pointer in the block [out]. *)
Fixpoint dns_parse_name (fuel : nat) (chunk : list Z) (ptr pos : Z) (out : list Z) (len : Z)
    : M world (list Z * Z) :=
  match fuel with
  | O => throw OutOfFuel
  | S fuel =>
    let! flag := rd8 chunk ptr in
    if flag =? 0 then ret (out, len)
    else if is_pointer flag then
      let! n := rd8 chunk (ptr + 1) in
      dns_parse_name fuel chunk n len out len
    else
      let ptr := ptr + 1 in
      let! label := rdn chunk ptr flag in
      let! out := wrn out pos label in
      let pos := pos + flag in
      let ptr := ptr + flag in
      let len := len + flag in
      let! next := rd8 chunk ptr in
      if negb (next =? 0) then
        let! out := wrn out pos [46] in
        dns_parse_name fuel chunk ptr (pos + 1) out (len + 1)
      else dns_parse_name fuel chunk ptr pos out len
  end.

(** The inner loop that skips one question's name. *)
Fixpoint dns_skip_name (fuel : nat) (buffer : list Z) (ptr : Z) : M world Z :=
  match fuel with
  | O => throw OutOfFuel
  | S fuel =>
    let! flag := rd8 buffer ptr in
    let ptr := ptr + (flag + 1) in
    if flag =? 0 then ret ptr else dns_skip_name fuel buffer ptr
  end.

Fixpoint dns_skip_questions (n : nat) (buffer : list Z) (ptr : Z) : M world Z :=
  match n with
  | O => ret ptr
  | S n =>
    let! ptr := dns_skip_name (length buffer + 1) buffer ptr in
    dns_skip_questions n buffer (ptr + 4)
  end.

Section Dns.
Context {alloc : Allocator}.

(** [dns_create_question]: the return code and the question. *)
Definition dns_create_question (hostname : list Z) : M world (Z * option dns_question) :=
  let! qname := c_malloc (Z.of_nat (length hostname) + 2) in
  match qname with
  | None => ret (-2, None)
  | Some qname =>
    let length_ := Z.of_nat (length hostname) + 2 in
    let! dup := c_malloc (Z.of_nat (length hostname) + 1) in
    match dup with
    | None => throw NullDeref
    | Some _ =>
      let! qname := dns_write_labels (strtok_all 46 hostname) qname 0 in
      c_free;;;
      ret (0, Some (mkquestion length_ (htons 1) (htons 1) qname))
    end
  end.

(** The bytes of a header in memory. *)
Definition header_bytes (h : dns_header) : list (option Z) :=
  map Some (bytes16 (dh_id h) ++ bytes16 (dh_flags h) ++ bytes16 (dh_qdcount h) ++
    bytes16 (dh_ancount h) ++ bytes16 (dh_nscount h) ++ bytes16 (dh_arcount h)).

(** [dns_build_request] into a block. *)
Definition dns_build_request (header : dns_header) (question : dns_question) (request : list (option Z))
    : M world (Z * list (option Z)) :=
  let header_s := 12 in
  let question_s := dq_length question + 2 + 2 in
  let length_ := question_s + header_s in
  let offset := 0 in
  let! request := wrn request offset (header_bytes header) in
  let offset := offset + 12 in
  let! qname := rdn (dq_qname question) 0 (dq_length question) in
  let! request := wrn request offset qname in
  let offset := offset + dq_length question in
  let! request := wrn request offset (map Some (bytes16 (dq_qtype question))) in
  let offset := offset + 2 in
  let! request := wrn request offset (map Some (bytes16 (dq_qclass question))) in
  ret (length_, request).

(** One answer of type A: the item that is stored. *)
Definition dns_store_item (aname ip : list Z) : M world dns_item :=
  let! d := c_calloc (Z.of_nat (length aname) + 1) in
  let! i := c_calloc (Z.of_nat (length ip) + 1) in
  match d, i with
  | Some _, Some _ => ret (mkitem aname ip)
  | _, _ => throw NullDeref
  end.

(** The loop over the answers.  [list_] are the items stored so far ([cnt] of them);
    [cap] is how many the block [list] has room for. *)
Fixpoint dns_answers (n : nat) (fuel : nat) (buffer : list Z) (ptr cap : Z) (list_ : list dns_item)
    : M world (list dns_item) :=
  match n with
  | O => ret list_
  | S n =>
    let! ' (aname, _) := dns_parse_name fuel buffer ptr 0 (replicate 128 0) 0 in
    let ptr := ptr + 2 in
    let! type := rd16 buffer ptr in
    let type := htons type in
    let ptr := ptr + 4 in
    let! ttl := rd16 buffer ptr in
    let ttl := htons ttl in
    let ptr := ptr + 4 in
    let! datalen := rd16 buffer ptr in
    let datalen := ntohs datalen in
    let ptr := ptr + 2 in
    if type =? DNS_CNAME then
      dns_parse_name fuel buffer ptr 0 (replicate 128 0) 0;;;
      dns_answers n fuel buffer (ptr + datalen) cap list_
    else if type =? DNS_HOST then
      let! list_ :=
        if datalen =? 4 then
          let! netip := rdn buffer ptr datalen in
          let ip := inet_ntop netip in
          emit (EPrintf "%s has address %s" (cstr aname ++ 32 :: ip));;;
          emit (EPrintf "Time to live: %d minutes , %d seconds" [Z.quot ttl 60; Z.rem ttl 60]);;;
          let! item := dns_store_item (cstr aname) ip in
          if Z.of_nat (length list_) <? cap then ret (list_ ++ [item]) else throw OutOfBounds
        else ret list_ in
      dns_answers n fuel buffer (ptr + datalen) cap list_
    else dns_answers n fuel buffer ptr cap list_
  end.

(** [dns_parse_response]: the count (or -1) and the list.  [fuel] bounds the rounds of
    each [dns_parse_name]. *)
Definition dns_parse_response (fuel : nat) (buffer : list Z) : M world (Z * option (list dns_item)) :=
  let ptr := 4 in
  let! querys := rd16 buffer ptr in
  let querys := ntohs querys in
  let ptr := ptr + 2 in
  let! answers := rd16 buffer ptr in
  let answers := ntohs answers in
  let ptr := ptr + 6 in
  let! ptr := dns_skip_questions (Z.to_nat querys) buffer ptr in
  let! list_ := c_calloc (answers * 16) in
  match list_ with
  | None => ret (-1, None)
  | Some _ =>
    let! list_ := dns_answers (Z.to_nat answers) fuel buffer ptr answers [] in
    ret (Z.of_nat (length list_), Some list_)
  end.

(** [dns_async_client_free_domains]: every name, every address, then the list. *)
Fixpoint dns_free_items (l : list dns_item) : M world unit :=
  match l with
  | [] => ret tt
  | _ :: l => c_free;;; c_free;;; dns_free_items l
  end.
Definition dns_async_client_free_domains (l : list dns_item) : M world unit :=
  dns_free_items l;;; c_free.

End Dns.
