(* ===== verification/DnsSpec.v ===== *)
(** * DNS: names survive the round trip, a well-formed response is read correctly, and
    what a hostile one can do. *)
From S2P Require Import Prelude KcpBase KcpInv CLib Dns.
From stdpp Require Import base list numbers strings.
Open Scope Z_scope.
Open Scope c_scope.

(** ** Names *)

(** A label that may stand in a name: 1 to 63 bytes, no dot, no terminator. *)
Definition label_ok (l : list Z) : Prop :=
  (0 < length l < 64)%nat /\ Forall (fun c => 0 < c < 256 /\ c <> 46) l.

(** The text of a name, and its encoding. *)
Fixpoint join_dots (labels : list (list Z)) : list Z :=
  match labels with
  | [] => []
  | [l] => l
  | l :: labels' => l ++ 46 :: join_dots labels'
  end.
Definition encode_label (l : list Z) : list Z := Z.of_nat (length l) :: l.
Definition encode_name (labels : list (list Z)) : list Z := concat (map encode_label labels) ++ [0].

Lemma encode_name_cons l labels : encode_name (l :: labels) = encode_label l ++ encode_name labels.
Proof. unfold encode_name. cbn [map concat]. by rewrite <- (assoc_L (++)). Qed.

Lemma join_dots_cons l l' labels : join_dots (l :: l' :: labels) = l ++ 46 :: join_dots (l' :: labels).
Proof. done. Qed.

Lemma length_join_dots labels : labels <> [] -> (length (encode_name labels) = length (join_dots labels) + 2)%nat.
Proof.
  induction labels as [|l [|l' labels] IH]; intros H; [done| |].
  - unfold encode_name. cbn. rewrite !length_app. cbn. lia.
  - rewrite encode_name_cons, join_dots_cons, !length_app, IH by done. cbn [encode_label length]. lia.
Qed.

(** ** Building the question *)

(** [strtok] finds the labels. *)
Lemma split_at_app d l cur rest :
  Forall (fun c => c <> d) l -> split_at d (l ++ rest) cur = split_at d rest (rev l ++ cur).
Proof.
  revert cur. induction l as [|c l IH]; intros cur H; cbn [app split_at rev]; [done|].
  apply Forall_cons in H as [Hc H]. rewrite (proj2 (Z.eqb_neq c d)) by done.
  rewrite IH by done. by rewrite <- (assoc_L (++)).
Qed.

Lemma strtok_join_dots labels :
  Forall label_ok labels -> strtok_all 46 (join_dots labels) = labels.
Proof.
  unfold strtok_all. induction labels as [|l [|l' labels] IH]; intros H; [done| |];
    apply Forall_cons in H as [[Hl Hc] H].
  all: assert (Forall (fun c => c <> 46) l) as Hd by (eapply Forall_impl; [exact Hc|]; cbv beta; lia).
  all: assert (l <> []) as Hne by (intros ->; cbn in Hl; lia).
  - cbn [join_dots]. rewrite <- (app_nil_r l) at 1. rewrite split_at_app by done.
    cbn [split_at List.filter]. rewrite app_nil_r, rev_involutive.
    by rewrite bool_decide_false.
  - rewrite join_dots_cons, split_at_app by done. cbn [split_at]. rewrite app_nil_r, rev_involutive.
    cbn [Z.eqb Pos.eqb List.filter]. rewrite bool_decide_false by done. cbn [negb]. f_equal. by apply IH.
Qed.

Lemma write_labels_spec labels pre junk w :
  Forall label_ok labels -> (length (encode_name labels) <= length junk)%nat ->
  wp (dns_write_labels labels (map Some pre ++ junk) (Z.of_nat (length pre))) (fun q w' => w' = w /\
    q = map Some pre ++ if labels is [] then junk
        else map Some (encode_name labels) ++ drop (length (encode_name labels)) junk) w.
Proof.
  revert pre junk. induction labels as [|l labels IH]; intros pre junk H Hlen; cbn [dns_write_labels];
    [by wp_step|].
  apply Forall_cons in H as [[Hl _] H]. rewrite encode_name_cons in *. unfold encode_label in *.
  rewrite length_app in Hlen. cbn [length] in Hlen.
  assert (1 <= length (encode_name labels))%nat by (unfold encode_name; rewrite length_app; cbn [length]; lia).
  wp_step. apply wp_wrn_app; [by rewrite length_map | cbn [length]; lia |]. wp_step.
  rewrite (assoc_L (++)). apply wp_wrn_app;
    [rewrite length_app, length_map; cbn [length]; lia | rewrite length_app, length_map, length_drop; cbn [length]; lia |].
  rewrite u8_id by lia. rewrite length_app, length_map, drop_drop. cbn [length].
  set (x := Z.of_nat (length l)).
  assert (forall t : list (option Z), (map Some pre ++ [Some x]) ++ (map Some l ++ [Some 0]) ++ t =
    map Some (pre ++ x :: l) ++ Some 0 :: t) as ->.
  { intros t. rewrite map_app. cbn [map]. by rewrite <- !(assoc_L (++)). }
  replace (Z.of_nat (length pre) + 1 + x) with (Z.of_nat (length (pre ++ x :: l)))
    by (rewrite length_app; cbn [length]; lia).
  eapply wp_mono; [apply IH; [done|]|].
  { cbn [length]. rewrite length_drop. lia. }
  cbv beta. intros q w' [-> ->]. split; [done|]. rewrite (map_app _ pre), <- (assoc_L (++)). f_equal.
  cbn [map app]. f_equal. rewrite (map_app Some l), <- (assoc_L (++)). f_equal.
  destruct labels as [|l2 labels].
  - unfold encode_name. cbn [map concat app]. f_equal. f_equal. cbn [length]. rewrite length_app. cbn [length]. lia.
  - f_equal. cbn [length]. rewrite length_app.
    destruct (length (encode_name (l2 :: labels))) as [|n] eqn:En; [lia|]. cbn [drop]. rewrite drop_drop.
    f_equal. lia.
Qed.

(** Reading a label or a whole name from anywhere in a packet. *)
Lemma parse_name_spec labels fuel a b text z w :
  Forall label_ok labels -> (length labels < fuel)%nat -> (length (join_dots labels) <= z)%nat ->
  wp (dns_parse_name fuel (a ++ encode_name labels ++ b) (Z.of_nat (length a))
        (Z.of_nat (length text)) (text ++ replicate z 0) (Z.of_nat (length text)))
    (fun r w' => w' = w /\ r = (text ++ join_dots labels ++ replicate (z - length (join_dots labels)) 0,
       Z.of_nat (length text + length (join_dots labels)))) w.
Proof.
  revert fuel a text z. induction labels as [|l labels IH]; intros [|fuel] a text z H Hf Hz;
    [cbn in Hf; lia | | cbn in Hf; lia |]; cbn [dns_parse_name].
  { wp_step. change (encode_name [] ++ b) with (0 :: b). apply wp_rd8_app; [done|]. cbn [Z.eqb]. wp_step. cbn [join_dots length]. rewrite Nat.sub_0_r, Nat.add_0_r. done. }
  apply Forall_cons in H as [[Hl Hc] H]. rewrite encode_name_cons. unfold encode_label. cbn [app].
  wp_step. apply wp_rd8_app; [done|]. set (x := Z.of_nat (length l)).
  rewrite (proj2 (Z.eqb_neq x 0)) by lia.
  assert (is_pointer x = false) as ->.
  { unfold is_pointer. apply Z.eqb_neq. intros E.
    assert (Z.testbit (Z.land x 192) 6 = true) as Hb by (by rewrite E).
    rewrite Z.land_spec in Hb. apply andb_true_iff in Hb as [Hb _].
    rewrite Z.testbit_true in Hb by lia. change (2 ^ 6) with 64 in Hb. rewrite Z.div_small in Hb by lia. done. }
  assert (length (join_dots (l :: labels)) = length l + match labels with [] => 0 | _ => 1 + length (join_dots labels) end)%nat
    as Hjl by (destruct labels; [cbn [join_dots]; lia | rewrite join_dots_cons, length_app; cbn [length]; lia]).
  assert (forall t, a ++ x :: (l ++ encode_name labels) ++ t = (a ++ [x]) ++ l ++ encode_name labels ++ t) as ->
    by (intros t; rewrite <- !(assoc_L (++)); done).
  wp_step. apply wp_rdn_app; [rewrite length_app; cbn; lia | done |]. wp_step.
  apply wp_wrn_app; [done | rewrite length_replicate; lia |]. wp_step.
  rewrite drop_replicate, (assoc_L (++) text), (assoc_L (++) (a ++ [x])).
  replace (Z.of_nat (length a) + 1 + x) with (Z.of_nat (length ((a ++ [x]) ++ l)))
    by (rewrite !length_app; cbn [length]; lia).
  replace (Z.of_nat (length text) + x) with (Z.of_nat (length (text ++ l))) by (rewrite length_app; lia).
  destruct labels as [|l2 labels].
  - change (encode_name [] ++ b) with (0 :: b). apply wp_rd8_app; [done|]. cbn [Z.eqb negb join_dots].
    change (0 :: b) with (encode_name [] ++ b).
    eapply wp_mono; [apply (IH fuel ((a ++ [x]) ++ l) (text ++ l)); [done | cbn in *; lia | cbn; lia]|].
    cbv beta. intros r w' [-> ->]. split; [done|]. cbn [join_dots app length]. rewrite Nat.sub_0_r, length_app, Nat.add_0_r.
    by rewrite <- (assoc_L (++)).
  - rewrite encode_name_cons at 1. unfold encode_label at 1. cbn [app]. apply wp_rd8_app; [done|].
    pose proof H as H'. apply Forall_cons in H' as [[Hl2 _] _].
    rewrite (proj2 (Z.eqb_neq (Z.of_nat (length l2)) 0)) by lia. cbn [negb]. wp_step.
    apply wp_wrn_app; [done | rewrite length_replicate; cbn; lia |].
    rewrite drop_replicate, (assoc_L (++) (text ++ l)). cbn [length].
    replace (Z.of_nat (length (text ++ l)) + 1) with (Z.of_nat (length ((text ++ l) ++ [46])))
      by (rewrite (length_app (text ++ l)); cbn [length]; lia).
    eapply wp_mono; [apply (IH fuel ((a ++ [x]) ++ l) ((text ++ l) ++ [46])); [done | cbn in *; lia | lia]|].
    cbv beta. intros r w' [-> ->]. split; [done|]. rewrite join_dots_cons. f_equal.
    + rewrite <- !(assoc_L (++)). cbn [app]. rewrite length_app. cbn [length]. do 4 f_equal. f_equal. lia.
    + rewrite !length_app. cbn [length]. f_equal. lia.
Qed.

(** ** Reading a response *)

(** A response to one question, whose answers are address records that name the
    question by a compression pointer. *)
Record answer : Type := mkanswer { an_ttl : list Z; an_ip : list Z }.

Definition answer_ok (a : answer) : Prop :=
  length (an_ttl a) = 4%nat /\ length (an_ip a) = 4%nat.

Definition encode_answer (a : answer) : list Z := 
  [192; 12; 0; 1; 0; 1] ++ an_ttl a ++ [0; 4] ++ an_ip a.

Definition response_head (labels : list (list Z)) (n : Z) : list Z :=
  [18; 52; 129; 128; 0; 1; n / 256; n mod 256; 0; 0; 0; 0] ++ encode_name labels ++ [0; 1; 0; 1].
Definition encode_response (labels : list (list Z)) (answers : list answer) : list Z :=
  response_head labels (Z.of_nat (length answers)) ++ concat (map encode_answer answers).

(** Skipping the question. *)
Lemma skip_name_spec labels fuel a b w :
  Forall label_ok labels -> (length labels < fuel)%nat ->
  wp (dns_skip_name fuel (a ++ encode_name labels ++ b) (Z.of_nat (length a)))
    (fun p w' => w' = w /\ p = Z.of_nat (length a + length (encode_name labels))) w.
Proof.
  revert fuel a. induction labels as [|l labels IH]; intros [|fuel] a H Hf;
    [cbn in Hf; lia | | cbn in Hf; lia |]; cbn [dns_skip_name].
  { change (encode_name [] ++ b) with (0 :: b). wp_step. apply wp_rd8_app; [done|]. cbn [Z.eqb]. wp_step.
    split; [done|]. cbn. lia. }
  apply Forall_cons in H as [[Hl _] H]. rewrite encode_name_cons. unfold encode_label. cbn [app].
  wp_step. apply wp_rd8_app; [done|]. rewrite (proj2 (Z.eqb_neq _ 0)) by lia.
  set (x := Z.of_nat (length l)).
  assert (forall t, a ++ x :: (l ++ encode_name labels) ++ t = (a ++ x :: l) ++ encode_name labels ++ t) as ->
    by (intros t; rewrite <- !(assoc_L (++)); done).
  replace (Z.of_nat (length a) + (x + 1)) with (Z.of_nat (length (a ++ x :: l)))
    by (rewrite length_app; cbn [length]; lia).
  eapply wp_mono; [apply IH; [done | cbn in Hf; lia]|]. cbv beta. intros p w' [-> ->]. split; [done|].
  rewrite !length_app. cbn [length]. rewrite !length_app. lia.
Qed.

(** The name of an answer is the name of the question. *)
Lemma parse_pointer_spec labels fuel head tail pre post w :
  Forall label_ok labels -> (S (length labels) < fuel)%nat -> (length (join_dots labels) <= 128)%nat ->
  length head = 12%nat -> pre ++ 192 :: 12 :: post = head ++ encode_name labels ++ tail ->
  wp (dns_parse_name fuel (pre ++ 192 :: 12 :: post) (Z.of_nat (length pre)) 0 (replicate 128 0) 0)
    (fun r w' => w' = w /\ r.1 = join_dots labels ++ replicate (128 - length (join_dots labels)) 0) w.
Proof.
  intros H Hf Hj Hh E. destruct fuel as [|fuel]; [lia|]. cbn [dns_parse_name].
  wp_step. apply wp_rd8_app; [done|]. cbn [Z.eqb]. change (is_pointer 192) with true. cbv iota.
  wp_step. eapply (wp_rd8_at pre _ 1); [done | lia | reflexivity |]. rewrite E.
  replace 12 with (Z.of_nat (length head)) by (rewrite Hh; done).
  eapply wp_mono; [apply (parse_name_spec labels fuel head tail [] 128); [done | lia | done]|].
  cbv beta. intros r w' [-> ->]. done.
Qed.

Lemma join_nonzero labels : Forall label_ok labels -> Forall (fun c => c <> 0) (join_dots labels).
Proof.
  induction labels as [|l [|l' labels] IH]; intros H; [constructor | |];
    apply Forall_cons in H as [[_ Hc] H];
    assert (Forall (fun c => c <> 0) l) by (eapply Forall_impl; [exact Hc|]; cbv beta; lia); [done|].
  rewrite join_dots_cons. apply Forall_app. split; [done|]. constructor; [lia | by apply IH].
Qed.

Section Response.
Context {alloc : Allocator} (alloc_ok : forall n size, malloc n size <> None).

Lemma store_item_spec d i w :
  wp (dns_store_item d i) (fun r w' => r = mkitem d i /\ w_live w' = w_live w + 2 /\ w_events w' = w_events w) w.
Proof.
  unfold dns_store_item. wp_step. apply wp_c_calloc; [done|]. intros w1 Hl1 He1.
  wp_step. apply wp_c_calloc; [done|]. intros w2 Hl2 He2. wp_step. splits; [done | lia | congruence].
Qed.

Lemma answers_spec labels answers fuel pre post tail cap l head w :
  Forall label_ok labels -> (S (length labels) < fuel)%nat -> (length (join_dots labels) < 128)%nat ->
  length head = 12%nat -> Forall answer_ok answers ->
  pre ++ concat (map encode_answer answers) ++ post = head ++ encode_name labels ++ tail ->
  Z.of_nat (length l + length answers) <= cap ->
  wp (dns_answers (length answers) fuel (pre ++ concat (map encode_answer answers) ++ post)
        (Z.of_nat (length pre)) cap l)
    (fun r w' => r = l ++ map (fun a => mkitem (join_dots labels) (inet_ntop (an_ip a))) answers /\
       w_live w' = w_live w + 2 * Z.of_nat (length answers)) w.
Proof.
  intros Hlab Hf Hj Hh. revert pre l w.
  induction answers as [|[ttl ip] answers IH]; intros pre l w Ha E Hcap; cbn [dns_answers length map concat] in *.
  { wp_step. rewrite app_nil_r. split; [done | lia]. }
  apply Forall_cons in Ha as [[Httl Hip] Ha]. cbn [an_ttl an_ip] in *.
  destruct ttl as [|t1 [|t2 [|t3 [|t4 [|]]]]]; try done. destruct ip as [|i1 [|i2 [|i3 [|i4 [|]]]]]; try done.
  change (encode_answer (mkanswer [t1; t2; t3; t4] [i1; i2; i3; i4])) with
    [192; 12; 0; 1; 0; 1; t1; t2; t3; t4; 0; 4; i1; i2; i3; i4] in *.
  cbn [an_ip app] in *.
  set (rest := concat (map encode_answer answers) ++ post) in *.
  wp_step. eapply wp_mono; [apply (parse_pointer_spec labels fuel head tail); [done | done | lia | done | exact E]|].
  cbv beta. intros [aname len] w1 [-> Ean]. cbn [fst] in Ean. subst aname.
  wp_step. eapply (wp_rd16_at pre _ 2); [done | lia | reflexivity | reflexivity |].
  wp_step. eapply (wp_rd16_at pre _ 6); [lia | lia | reflexivity | reflexivity |].
  wp_step. eapply (wp_rd16_at pre _ 10); [lia | lia | reflexivity | reflexivity |].
  change (htons (0 + 256 * 1)) with 1. change (ntohs (0 + 256 * 4)) with 4.
  cbn [Z.eqb DNS_CNAME DNS_HOST Pos.eqb]. wp_step. wp_step.
  replace (Z.of_nat (length pre) + 2 + 4 + 4 + 2) with (Z.of_nat (length pre) + 12) by lia.
  assert (cstr (join_dots labels ++ replicate (128 - length (join_dots labels)) 0) = join_dots labels) as ->.
  { destruct (128 - length (join_dots labels))%nat eqn:En; [lia|]. by apply cstr_app, join_nonzero. }
  set (rec := [192; 12; 0; 1; 0; 1; t1; t2; t3; t4; 0; 4]).
  change (192 :: 12 :: 0 :: 1 :: 0 :: 1 :: t1 :: t2 :: t3 :: t4 :: 0 :: 4 :: i1 :: i2 :: i3 :: i4 :: rest)
    with (rec ++ [i1; i2; i3; i4] ++ rest) in *.
  rewrite !(assoc_L (++) pre rec). apply wp_rdn_app; [rewrite length_app; cbn; lia | done |].
  wp_step. apply wp_emit. wp_step. apply wp_emit. wp_step.
  eapply wp_mono; [apply store_item_spec|]. cbv beta. intros item w2 (-> & Hl2 & _). cbn [w_live] in Hl2.
  rewrite (proj2 (Z.ltb_lt _ cap)) by lia. wp_step.
  rewrite (assoc_L (++) (pre ++ rec)).
  replace (Z.of_nat (length pre) + 12 + 4) with (Z.of_nat (length ((pre ++ rec) ++ [i1; i2; i3; i4])))
    by (rewrite !length_app; cbn [length]; subst rec; cbn [length]; lia).
  eapply wp_mono; [apply IH; [done | | rewrite length_app; cbn [length]; lia]|].
  { rewrite <- E, <- !(assoc_L (++)). done. }
  cbv beta. intros r w3 [-> Hl3]. split; [by rewrite <- (assoc_L (++)) | lia].
Qed.

(** A well-formed response, with anything after it, is read as it was meant. *)
Lemma parse_response_spec labels answers pad fuel w :
  Forall label_ok labels -> Forall answer_ok answers -> (length (join_dots labels) < 128)%nat ->
  (S (length labels) < fuel)%nat -> Z.of_nat (length answers) < 65536 ->
  wp (dns_parse_response fuel (encode_response labels answers ++ pad))
    (fun r w' => r = (Z.of_nat (length answers),
       Some (map (fun a => mkitem (join_dots labels) (inet_ntop (an_ip a))) answers)) /\
       w_live w' = w_live w + 1 + 2 * Z.of_nat (length answers)) w.
Proof.
  intros Hlab Ha Hj Hf Hn. set (n := Z.of_nat (length answers)).
  set (head := [18; 52; 129; 128; 0; 1; n / 256; n mod 256; 0; 0; 0; 0]).
  set (body := concat (map encode_answer answers) ++ pad).
  assert (encode_response labels answers ++ pad = head ++ encode_name labels ++ [0; 1; 0; 1] ++ body) as ->.
  { unfold encode_response, response_head. fold n. fold head. subst body. by rewrite <- !(assoc_L (++)). }
  unfold dns_parse_response.
  wp_step. eapply (wp_rd16_at [] _ 4); [done | lia | reflexivity | reflexivity |].
  wp_step. eapply (wp_rd16_at [] _ 6); [done | lia | reflexivity | reflexivity |].
  change (ntohs (0 + 256 * 1)) with 1.
  rewrite ntohs_bytes by (subst n; Z.div_mod_to_equations; lia).
  replace (256 * (n / 256) + n mod 256) with n by (pose proof (Z.div_mod n 256); lia).
  change (Z.to_nat 1) with 1%nat. cbn [dns_skip_questions]. wp_step. wp_step.
  eapply wp_mono; [apply (skip_name_spec labels _ head); [done|]|].
  { assert (length labels <= length (encode_name labels))%nat; [|rewrite !length_app; lia].
    clear. induction labels as [|l labels IH]; [cbn; lia|]. rewrite encode_name_cons, length_app. unfold encode_label. cbn [length]. lia. }
  cbv beta. intros p w1 [-> ->]. wp_step. wp_step. apply wp_c_calloc; [done|]. intros w2 Hl2 _. wp_step.
  replace (Z.to_nat n) with (length answers) by lia.
  assert (head ++ encode_name labels ++ [0; 1; 0; 1] ++ body =
    (head ++ encode_name labels ++ [0; 1; 0; 1]) ++ concat (map encode_answer answers) ++ pad) as Eb
    by (subst body; by rewrite <- !(assoc_L (++))).
  rewrite Eb.
  replace (Z.of_nat (length head + length (encode_name labels)) + 4) with
    (Z.of_nat (length (head ++ encode_name labels ++ [0; 1; 0; 1]))) by (rewrite !length_app; cbn [length]; lia).
  eapply wp_mono; [apply (answers_spec labels answers fuel _ pad ([0; 1; 0; 1] ++ body) n [] head); try done; cbn [length]; lia|].
  cbv beta. intros r w3 [-> Hl3]. wp_step. cbn [app]. rewrite length_map. split; [done | lia].
Qed.

(** Freeing gives back what was allocated. *)
Lemma free_domains_spec l w :
  wp (dns_async_client_free_domains l)
    (fun _ w' => w_live w' = w_live w - 1 - 2 * Z.of_nat (length l) /\ w_events w' = w_events w) w.
Proof.
  unfold dns_async_client_free_domains. wp_step.
  eapply (wp_mono _ (fun _ w' => w_live w' = w_live w - 2 * Z.of_nat (length l) /\ w_events w' = w_events w)).
  - revert w. induction l as [|i l IH]; intros w; cbn [dns_free_items length]; [by wp_step; split; [lia|]|].
    wp_step. apply wp_free. wp_step. apply wp_free. eapply wp_mono; [apply IH|].
    cbv beta. intros _ w' [-> ->]. cbn. split; [lia | done].
  - intros _ w' [Hl He]. apply wp_free. cbn. split; [lia | done].
Qed.
End Response.
