(* ===== verification/DnsClient.v ===== *)
(** * async_dns_client_noblock.c: the clients around the DNS codec.

    What the system calls return is an argument of the definitions. *)
From S2P Require Import Prelude KcpBase KcpInv CLib Dns DnsSpec.
From stdpp Require Import base list numbers strings.
Open Scope Z_scope.
Open Scope c_scope.

(** [struct ep_arg]; the callback is a name. *)
Record ep_arg : Type := mkep { ea_sockfd : Z; ea_cb : nat }.

(** What the client changes outside its memory: the sockets it holds open, what epoll
    watches, the datagrams sent and the callbacks made. *)
Record net : Type := mknet {
  n_open : list Z;
  n_watch : list ep_arg;
  n_sent : list (list (option Z));
  n_calls : list (nat * option (list dns_item) * Z);
}.
Definition dnsw : Type := world * net.

Definition lift {A} (m : M world A) : M dnsw A :=
  fun w => match m w.1 with Ok a w' => Ok a (w', w.2) | Fault f => Fault f end.
Definition on_net (f : net -> net) : M dnsw unit := modify (fun w => (w.1, f w.2)).

Definition net_open (fd : Z) : M dnsw unit :=
  on_net (fun n => mknet (fd :: n_open n) (n_watch n) (n_sent n) (n_calls n)).
Definition net_close (fd : Z) : M dnsw unit :=
  on_net (fun n => mknet (List.filter (fun x => negb (x =? fd)) (n_open n)) (n_watch n) (n_sent n) (n_calls n)).
Definition net_send (d : list (option Z)) : M dnsw unit :=
  on_net (fun n => mknet (n_open n) (n_watch n) (n_sent n ++ [d]) (n_calls n)).
Definition net_watch (a : ep_arg) : M dnsw unit :=
  on_net (fun n => mknet (n_open n) (a :: n_watch n) (n_sent n) (n_calls n)).
Definition net_unwatch (fd : Z) : M dnsw unit :=
  on_net (fun n => mknet (n_open n) (List.filter (fun a => negb (ea_sockfd a =? fd)) (n_watch n)) (n_sent n) (n_calls n)).
Definition net_call (cb : nat) (l : option (list dns_item)) (count : Z) : M dnsw unit :=
  on_net (fun n => mknet (n_open n) (n_watch n) (n_sent n) (n_calls n ++ [(cb, l, count)])).

(** [set_block]: [F_GETFL] and [F_SETFL] results; the flags it sets. *)
Definition O_NONBLOCK : Z := 2048.
Definition set_block (getfl setfl : Z) (block : bool) : Z * Z :=
  let flags := getfl in
  if flags <? 0 then (flags, flags)
  else
    let flags := if block then Z.land flags (Z.lnot O_NONBLOCK) else Z.lor flags O_NONBLOCK in
    if setfl <? 0 then (-1, flags) else (0, flags).

(** The 1024-byte block a datagram is received into, zeroed beforehand. *)
Definition recv_block (d : list Z) : list Z := take 1024 (d ++ replicate 1024 0).

Section Client.
Context {alloc : Allocator}.

(** The query both clients send: header, question, request. *)
Definition dns_query (rnd : Z) (domain : list Z) : M world (Z * list (option Z)) :=
  let header := dns_create_header rnd in
  let! ' (_, question) := dns_create_question domain in
  let question := default (mkquestion 0 0 0 []) question in
  dns_build_request header question (replicate 1024 (Some 0)).

(** [dns_async_client_commit]: [sockfd] and [ctl] are the results of [socket] and
    [epoll_ctl]. *)
Definition dns_async_client_commit (sockfd ctl rnd : Z) (domain : list Z) (cb : nat) : M dnsw Z :=
  if sockfd <? 0 then throw Aborted
  else
    net_open sockfd;;;
    lift (emit (EPrintf "url:%s" domain));;;
    let! ' (req_len, request) := lift (dns_query rnd domain) in
    net_send (take (Z.to_nat req_len) request);;;
    let! eparg := lift (c_calloc 16) in
    match eparg with
    | None => ret (-1)
    | Some _ =>
      (if 0 <=? ctl then net_watch (mkep sockfd cb) else ret tt);;;
      ret ctl
    end.

(** One ready event of [dns_async_client_proc]: [received] is the datagram, if any. *)
Definition dns_async_ready (fuel : nat) (data : ep_arg) (received : list Z) : M dnsw unit :=
  let sockfd := ea_sockfd data in
  let! ' (count, domain_list) := lift (dns_parse_response fuel (recv_block received)) in
  net_call (ea_cb data) domain_list count;;;
  net_unwatch sockfd;;;
  net_close sockfd;;;
  lift (match domain_list with Some l => dns_async_client_free_domains l | None => ret tt end);;;
  lift c_free.

(** The loop of [dns_async_client_proc] over the results of [epoll_wait]: [None] is an
    error other than an interruption, which ends it. *)
Fixpoint dns_async_client_proc (fuel : nat) (waits : list (option (list (ep_arg * list Z)))) : M dnsw unit :=
  match waits with
  | [] => ret tt
  | None :: _ => ret tt
  | Some ready :: waits =>
    (fix events (l : list (ep_arg * list Z)) : M dnsw unit :=
       match l with
       | [] => dns_async_client_proc fuel waits
       | (data, d) :: l => dns_async_ready fuel data d;;; events l
       end) ready
  end.

(** [dns_async_client_init]: [epfd] and [thr] are the results of [epoll_create] and
    [pthread_create]; the context is the descriptor. *)
Definition dns_async_client_init (epfd thr : Z) : M dnsw (option Z) :=
  if epfd <? 0 then ret None
  else
    net_open epfd;;;
    let! ctx := lift (c_calloc 4) in
    match ctx with
    | None => net_close epfd;;; ret None
    | Some _ => if negb (thr =? 0) then ret None else ret (Some epfd)
    end.

(** The wait loop of [dns_client_commit]: it spins until [recvfrom] returns data. *)
Fixpoint dns_client_wait (recvs : list (option (list Z))) : option (list Z) :=
  match recvs with
  | [] => None
  | Some (c :: d) :: _ => Some (c :: d)
  | _ :: recvs => dns_client_wait recvs
  end.

(** [dns_client_commit], the blocking client. *)
Definition dns_client_commit (fuel : nat) (sockfd rnd : Z) (domain : list Z) (recvs : list (option (list Z)))
    : M dnsw Z :=
  if sockfd <? 0 then throw Aborted
  else
    net_open sockfd;;;
    lift (emit (EPrintf "url:%s" domain));;;
    let! ' (req_len, request) := lift (dns_query rnd domain) in
    net_send (take (Z.to_nat req_len) request);;;
    match dns_client_wait recvs with
    | None => throw OutOfFuel
    | Some d =>
      lift (emit (EPrintf "recvfrom n : %d" [Z.of_nat (length d)]));;;
      lift (dns_parse_response fuel (recv_block d));;;
      ret 0
    end.
End Client.

(** ** The query *)

Section ClientSpec.
Context {alloc : Allocator} (alloc_ok : forall n size, malloc n size <> None).

Lemma wp_lift {A} (m : M world A) (Q : A -> dnsw -> Prop) w n :
  wp m (fun a w' => Q a (w', n)) w -> wp (lift m) Q (w, n).
Proof. unfold wp, lift. cbn [fst snd]. by destruct (m w). Qed.

Lemma wp_on_net f (Q : unit -> dnsw -> Prop) w n : Q tt (w, f n) -> wp (on_net f) Q (w, n).
Proof. done. Qed.

(** The bytes of a query for a name. *)
Definition query_bytes (rnd : Z) (labels : list (list Z)) : list Z :=
  bytes16 (u16 rnd) ++ [1; 0; 0; 1; 0; 0; 0; 0; 0; 0] ++ encode_name labels ++ [0; 1; 0; 1].

Lemma create_question_spec labels w :
  Forall label_ok labels -> labels <> [] ->
  wp (dns_create_question (join_dots labels)) (fun r w' =>
    r = (0, Some (mkquestion (Z.of_nat (length (encode_name labels))) 256 256 (map Some (encode_name labels)))) /\
    w_live w' = w_live w + 1 /\ w_events w' = w_events w) w.
Proof.
  intros H Hne. unfold dns_create_question. pose proof (length_join_dots labels Hne) as Hlen.
  wp_step. apply wp_c_malloc; [done|]. intros w1 Hl1 He1. wp_step.
  apply wp_c_malloc; [done|]. intros w2 Hl2 He2. wp_step. rewrite strtok_join_dots by done.
  replace (Z.to_nat (Z.of_nat (length (join_dots labels)) + 2)) with (length (encode_name labels)) by lia.
  eapply wp_mono; [apply (write_labels_spec labels [] (replicate (length (encode_name labels)) None) w2); [done|]|].
  { by rewrite length_replicate. }
  cbv beta. intros q w3 [-> ->]. wp_step. apply wp_free. wp_step. cbn [map app].
  destruct labels as [|l labels]; [done|]. rewrite drop_replicate, Nat.sub_diag, app_nil_r.
  cbn [freed w_live w_events]. splits; [|lia|congruence].
  replace (Z.of_nat (length (encode_name (l :: labels)))) with (Z.of_nat (length (join_dots (l :: labels))) + 2) by lia.
  done.
Qed.

Lemma build_request_spec rnd labels w :
  (length (encode_name labels) <= 1008)%nat ->
  wp (dns_build_request (dns_create_header rnd)
       (mkquestion (Z.of_nat (length (encode_name labels))) 256 256 (map Some (encode_name labels)))
       (replicate 1024 (Some 0)))
    (fun r w' => r = (Z.of_nat (length (query_bytes rnd labels)),
         map Some (query_bytes rnd labels) ++ replicate (1024 - length (query_bytes rnd labels)) (Some 0)) /\
       w' = w) w.
Proof.
  intros Hlen. unfold dns_build_request. cbn [dq_length dq_qname dq_qtype dq_qclass].
  set (N := length (encode_name labels)) in *.
  assert (length (header_bytes (dns_create_header rnd)) = 12%nat) as Eh by done.
  assert (length (map (@Some Z) (bytes16 256)) = 2%nat) as E2 by done.
  change (replicate 1024 (Some 0)) with ([] ++ replicate 1024 (Some 0)).
  wp_step. apply wp_wrn_app; [done | by rewrite Eh, length_replicate; lia |].
  rewrite drop_replicate, Eh. wp_step.
  rewrite <- (app_nil_r (map Some (encode_name labels))).
  apply (wp_rdn_app [] _ []); [done | by rewrite length_map |].
  wp_step. rewrite app_nil_l. apply wp_wrn_app; [by rewrite Eh | rewrite length_map, length_replicate; lia |].
  rewrite drop_replicate, (assoc_L (++)), length_map. fold N.
  wp_step. apply wp_wrn_app; [rewrite length_app, length_map, Eh; fold N; lia | rewrite E2, length_replicate; lia |].
  rewrite drop_replicate, E2, (assoc_L (++)).
  wp_step. apply wp_wrn_app;
    [rewrite !length_app, length_map, Eh, E2; fold N; lia | rewrite E2, length_replicate; lia |].
  rewrite drop_replicate, E2. wp_step. split; [|done].
  assert (length (query_bytes rnd labels) = 16 + N)%nat as EN by (unfold query_bytes; rewrite !length_app; cbn; lia).
  rewrite EN. apply f_equal2; [lia|].
  assert (header_bytes (dns_create_header rnd) = map Some (bytes16 (u16 rnd) ++ [1; 0; 0; 1; 0; 0; 0; 0; 0; 0]))
    as -> by done.
  unfold query_bytes. rewrite !map_app, <- !(assoc_L (++)).
  by replace (1024 - 12 - N - 2 - 2)%nat with (1024 - (16 + N))%nat by lia.
Qed.

(** A query: the request, and the block of the name, which nothing points to any more. *)
Lemma query_spec rnd labels w :
  Forall label_ok labels -> labels <> [] -> (length (encode_name labels) <= 1008)%nat ->
  wp (dns_query rnd (join_dots labels)) (fun r w' =>
    r = (Z.of_nat (length (query_bytes rnd labels)),
         map Some (query_bytes rnd labels) ++ replicate (1024 - length (query_bytes rnd labels)) (Some 0)) /\
    w_live w' = w_live w + 1) w.
Proof.
  intros H Hne Hlen. unfold dns_query. wp_step.
  eapply wp_mono; [by apply create_question_spec|]. cbv beta. intros r1 w1 (-> & Hl & _).
  cbn [default option_fmap option_map from_option id].
  eapply wp_mono; [by apply build_request_spec|]. cbv beta. by intros r2 w2 [-> ->].
Qed.
End ClientSpec.
