(* ===== verification/DnsProps.v ===== *)
(** * What the DNS client promises, and where it does not keep it. *)
From S2P Require Import Prelude KcpBase KcpInv CLib Dns DnsSpec DnsClient KcpDemo.
From stdpp Require Import base list numbers strings.
Open Scope Z_scope.
Open Scope c_scope.

(** The bytes of a text. *)
Definition text (s : string) : list Z :=
  (fix go (s : string) : list Z :=
     match s with EmptyString => [] | String c s => Z.of_nat (Ascii.nat_of_ascii c) :: go s end) s.

Definition demo_name : list (list Z) := [text "www"; text "baidu"; text "com"].
Definition demo_answers : list answer :=
  [mkanswer [0; 0; 1; 44] [110; 242; 68; 3]; mkanswer [0; 0; 1; 44] [110; 242; 68; 4]].
Definition net0 : net := mknet [] [] [] [].

Lemma label_ok_dec l : (if bool_decide ((0 < length l < 64)%nat) then
    forallb (fun c => (0 <? c) && (c <? 256) && negb (c =? 46)) l else false) = true -> label_ok l.
Proof.
  case_bool_decide as H; [|done]. intros Hf. split; [done|]. rewrite forallb_forall in Hf.
  apply Forall_forall. intros c Hc%list_elem_of_In. apply Hf in Hc.
  rewrite !andb_true_iff, negb_true_iff, Z.ltb_lt, Z.ltb_lt, Z.eqb_neq in Hc. lia.
Qed.

Lemma demo_name_ok : Forall label_ok demo_name.
Proof. repeat (apply Forall_cons; split; [apply label_ok_dec; vm_compute; reflexivity|]). by apply Forall_nil. Qed.

(** C15: the query for a host name (labels of 1 to 63 characters, none of them a dot or
    a zero, that fit in the request) is well formed: a header with a fresh id, recursion
    desired and one question; the name as length-prefixed labels; type A, class IN.
    Every byte is defined and none is written outside its block.  Afterwards one block
    more is live than before, that of the name, to which the result does not point. *)
Theorem dns_query_exact (alloc : Allocator) rnd labels w :
  alloc_total -> Forall label_ok labels -> labels <> [] -> (length (encode_name labels) <= 1008)%nat ->
  wp (dns_query rnd (join_dots labels)) (fun r w' =>
    r.1 = Z.of_nat (length (query_bytes rnd labels)) /\
    take (Z.to_nat r.1) r.2 = map Some (query_bytes rnd labels) /\ length r.2 = 1024%nat /\
    Forall (fun b => 0 <= b < 256) (query_bytes rnd labels) /\ w_live w' = w_live w + 1) w.
Proof.
  intros Hal H Hne Hlen. eapply wp_mono; [by apply (query_spec Hal)|]. cbv beta. intros r w' [-> Hlive]. cbn [fst snd].
  assert (length (query_bytes rnd labels) <= 1024)%nat as Hq
    by (unfold query_bytes; rewrite !length_app; cbn [length bytes16]; lia).
  splits; [done | | rewrite length_app, length_map, length_replicate; lia | | exact Hlive].
  - rewrite Nat2Z.id. apply take_app_length'. by rewrite length_map.
  - unfold query_bytes, encode_name, bytes16. rewrite !Forall_app. splits; try (repeat constructor; mod_lia).
    clear Hne Hlen Hq. induction H as [|l labels [Hl Hc] H IH]; [by apply Forall_nil|]. cbn [map concat].
    apply Forall_app. split; [|done]. unfold encode_label. constructor; [lia|].
    eapply Forall_impl; [exact Hc|]. cbv beta. lia.
Qed.

Lemma dns_query_exact_witness :
  wp (dns_query 4660 (join_dots demo_name)) (fun r w' =>
    r.1 = Z.of_nat (length (query_bytes 4660 demo_name)) /\
    take (Z.to_nat r.1) r.2 = map Some (query_bytes 4660 demo_name) /\ length r.2 = 1024%nat /\
    Forall (fun b => 0 <= b < 256) (query_bytes 4660 demo_name) /\ w_live w' = w_live world0 + 1) world0.
Proof.
  apply (dns_query_exact demo_alloc 4660 demo_name world0);
    [exact demo_alloc_ok | exact demo_name_ok | discriminate | vm_compute; lia].
Defined.

(** Name compression.  A name is read back as its dotted text wherever it stands
    in the packet, directly or through a compression pointer to it, and what was in the
    destination before it stays. *)
Theorem dns_name_round_trip labels head tail fuel w :
  Forall label_ok labels -> (length (join_dots labels) <= 128)%nat -> (S (length labels) < fuel)%nat ->
  let chunk := head ++ encode_name labels ++ tail in
  let expect := join_dots labels ++ replicate (128 - length (join_dots labels)) 0 in
  wp (dns_parse_name fuel chunk (Z.of_nat (length head)) 0 (replicate 128 0) 0)
    (fun r _ => r = (expect, Z.of_nat (length (join_dots labels)))) w /\
  (forall i n, chunk !! i = Some 192 -> chunk !! S i = Some n -> n = Z.of_nat (length head) ->
   wp (dns_parse_name fuel chunk (Z.of_nat i) 0 (replicate 128 0) 0)
     (fun r _ => r = (expect, Z.of_nat (length (join_dots labels)))) w).
Proof.
  intros H Hj Hf chunk expect.
  assert (forall f, (length labels < f)%nat ->
    wp (dns_parse_name f chunk (Z.of_nat (length head)) 0 (replicate 128 0) 0)
      (fun r _ => r = (expect, Z.of_nat (length (join_dots labels)))) w) as Hdirect.
  { intros f Hf'. eapply wp_mono; [apply (parse_name_spec labels f head tail [] 128); [done | lia | lia]|].
    cbv beta. intros r w' [_ ->]. done. }
  split; [apply Hdirect; lia|]. intros i n H1 H2 ->.
  destruct fuel as [|fuel]; [lia|]. cbn [dns_parse_name].
  wp_step. eapply wp_rd8; [lia | rewrite Nat2Z.id; exact H1|]. cbn [Z.eqb].
  change (is_pointer 192) with true. cbv iota.
  wp_step. eapply wp_rd8; [lia | replace (Z.to_nat (Z.of_nat i + 1)) with (S i) by lia; exact H2|].
  apply Hdirect. lia.
Qed.

Lemma dns_name_round_trip_witness :
  let chunk := seq_bytes 12 ++ encode_name demo_name ++ [192; 12] in
  let expect := join_dots demo_name ++ replicate (128 - length (join_dots demo_name)) 0 in
  wp (dns_parse_name 10 chunk (Z.of_nat (length (seq_bytes 12))) 0 (replicate 128 0) 0)
    (fun r _ => r = (expect, Z.of_nat (length (join_dots demo_name)))) world0 /\
  (forall i n, chunk !! i = Some 192 -> chunk !! S i = Some n -> n = Z.of_nat (length (seq_bytes 12)) ->
   wp (dns_parse_name 10 chunk (Z.of_nat i) 0 (replicate 128 0) 0)
     (fun r _ => r = (expect, Z.of_nat (length (join_dots demo_name)))) world0).
Proof.
  apply (dns_name_round_trip demo_name (seq_bytes 12) [192; 12] 10 world0);
    [exact demo_name_ok | vm_compute; lia | vm_compute; lia].
Defined.

(** What a query leaves: its socket open and watched, the request sent, and two blocks. *)
Lemma commit_spec (alloc : Allocator) sockfd rnd labels cb w n :
  alloc_total -> 0 <= sockfd -> Forall label_ok labels -> labels <> [] -> (length (encode_name labels) <= 1008)%nat ->
  wp (dns_async_client_commit sockfd 0 rnd (join_dots labels) cb) (fun r s => r = 0 /\
    s.2 = mknet (sockfd :: n_open n) (mkep sockfd cb :: n_watch n) (n_sent n ++ [map Some (query_bytes rnd labels)]) (n_calls n) /\
    w_live s.1 = w_live w + 2) (w, n).
Proof.
  intros Hal Hs Hlab Hne Hq. unfold dns_async_client_commit. rewrite (proj2 (Z.ltb_ge sockfd 0)) by done.
  wp_step. apply wp_on_net. wp_step. apply wp_lift, wp_emit. wp_step. apply wp_lift.
  eapply wp_mono; [by apply (query_spec Hal)|]. cbv beta. intros r w1 [-> Hl1].
  wp_step. apply wp_on_net. wp_step. apply wp_lift, (wp_c_calloc Hal). intros w3 Hl3 _.
  wp_step. cbn [Z.leb Z.compare]. apply wp_on_net. wp_step. cbn [n_calls n_sent n_open n_watch fst snd freed w_live] in *.
  splits; [done | | lia]. do 2 f_equal. rewrite Nat2Z.id. f_equal. apply take_app_length'. by rewrite length_map.
Qed.

(** What a well-formed response leaves: the callback made, the socket gone, a block less. *)
Lemma ready_spec (alloc : Allocator) sockfd labels answers cb fuel w n :
  alloc_total -> Forall label_ok labels -> labels <> [] -> (length (join_dots labels) < 128)%nat -> Forall answer_ok answers ->
  (length (encode_response labels answers) <= 1024)%nat -> (S (length labels) < fuel)%nat ->
  wp (dns_async_ready fuel (mkep sockfd cb) (encode_response labels answers)) (fun _ s =>
    s.2 = mknet (List.filter (fun x => negb (x =? sockfd)) (n_open n)) (List.filter (fun a => negb (ea_sockfd a =? sockfd)) (n_watch n)) (n_sent n)
      (n_calls n ++ [(cb, Some (map (fun a => mkitem (join_dots labels) (inet_ntop (an_ip a))) answers), Z.of_nat (length answers))]) /\
    w_live s.1 = w_live w - 1) (w, n).
Proof.
  intros Hal Hlab Hne Hj Hans Hlen Hf. assert (length answers <= 1024)%nat as Hn.
  { unfold encode_response in Hlen. rewrite length_app in Hlen.
    assert (length answers <= length (concat (map encode_answer answers)))%nat; [|lia].
    clear. induction answers as [|a answers IH]; [done|]. cbn [map concat length].
    rewrite length_app. unfold encode_answer at 1. rewrite length_app. cbn [length]. lia. }
  unfold dns_async_ready. cbn [ea_sockfd ea_cb]. wp_step. apply wp_lift. unfold recv_block.
  rewrite take_app_ge by lia. rewrite take_replicate.
  eapply wp_mono; [apply (parse_response_spec Hal); [done | done | done | done | lia]|].
  cbv beta. intros r4 w4 [-> Hl4]. wp_step. apply wp_on_net. wp_step. apply wp_on_net. wp_step. apply wp_on_net.
  wp_step. apply wp_lift. eapply wp_mono; [apply free_domains_spec|]. cbv beta. intros _ w5 [Hl5 _].
  apply wp_lift, wp_free. cbn [n_calls n_sent n_open n_watch fst snd freed w_live] in *. rewrite length_map in Hl5. split; [done | lia].
Qed.

(** Nothing is taken out of a list by a test that all pass. *)
Lemma filter_all {A} (f : A -> bool) l : Forall (fun x => f x = true) l -> List.filter f l = l.
Proof. induction 1 as [|x l Hx _ IH]; cbn; [done | by rewrite Hx, IH]. Qed.

Lemma filter_other fd l : Forall (fun x => x <> fd) l -> List.filter (fun x => negb (x =? fd)) l = l.
Proof. intros H. apply filter_all. eapply Forall_impl; [exact H|]. cbv beta. intros x Hx. by apply negb_true_iff, Z.eqb_neq. Qed.
Lemma unwatch_other fd l : Forall (fun a => ea_sockfd a <> fd) l -> List.filter (fun a => negb (ea_sockfd a =? fd)) l = l.
Proof. intros H. apply filter_all. eapply Forall_impl; [exact H|]. cbv beta. intros x Hx. by apply negb_true_iff, Z.eqb_neq. Qed.

(** A whole exchange.  A query is committed and the well-formed response arrives:
    the callback is made once, with one item per address record, in order, each with
    the queried name and the address in dotted form; the socket is closed and no longer
    watched.  One block is never given back: the question's name. *)
Theorem dns_exchange (alloc : Allocator) sockfd rnd labels answers cb fuel w n :
  alloc_total -> 0 <= sockfd -> Forall label_ok labels -> labels <> [] ->
  (length (join_dots labels) < 128)%nat -> Forall answer_ok answers ->
  (length (encode_response labels answers) <= 1024)%nat -> (S (length labels) < fuel)%nat ->
  Forall (fun x => x <> sockfd) (n_open n) -> Forall (fun a => ea_sockfd a <> sockfd) (n_watch n) ->
  wp (dns_async_client_commit sockfd 0 rnd (join_dots labels) cb;;;
      dns_async_ready fuel (mkep sockfd cb) (encode_response labels answers))
    (fun _ s =>
       n_calls s.2 = n_calls n ++ [(cb, Some (map (fun a => mkitem (join_dots labels) (inet_ntop (an_ip a))) answers),
                                   Z.of_nat (length answers))] /\
       n_sent s.2 = n_sent n ++ [map Some (query_bytes rnd labels)] /\
       n_open s.2 = n_open n /\ n_watch s.2 = n_watch n /\
       w_live s.1 = w_live w + 1) (w, n).
Proof.
  intros Hal Hs Hlab Hne Hj Hans Hlen Hf Hopen Hwatch.
  assert (length (encode_name labels) <= 1008)%nat as Hq by (rewrite length_join_dots by done; lia).
  wp_step. eapply wp_mono; [by apply commit_spec|]. cbv beta. intros r [w1 n1] (_ & Hn1 & Hl1). cbn [fst snd] in *. subst n1.
  eapply wp_mono; [by apply ready_spec|]. cbv beta. intros _ [w2 n2] [Hn2 Hl2]. cbn [fst snd] in *. subst n2.
  cbn [n_calls n_sent n_open n_watch List.filter ea_sockfd]. rewrite Z.eqb_refl. cbn [negb].
  rewrite filter_other, unwatch_other by done. splits; try done. lia.
Qed.

Lemma dns_exchange_witness :
  wp (dns_async_client_commit 5 0 99 (join_dots demo_name) 1;;;
      dns_async_ready 10 (mkep 5 1) (encode_response demo_name demo_answers))
    (fun _ s =>
       n_calls s.2 = n_calls net0 ++ [(1%nat, Some (map (fun a => mkitem (join_dots demo_name) (inet_ntop (an_ip a))) demo_answers),
                                   Z.of_nat (length demo_answers))] /\
       n_sent s.2 = n_sent net0 ++ [map Some (query_bytes 99 demo_name)] /\
       n_open s.2 = n_open net0 /\ n_watch s.2 = n_watch net0 /\
       w_live s.1 = w_live world0 + 1) (world0, net0).
Proof.
  apply (dns_exchange demo_alloc 5 99 demo_name demo_answers 1 10 world0 net0).
  - exact demo_alloc_ok.
  - lia.
  - exact demo_name_ok.
  - discriminate.
  - vm_compute. lia.
  - repeat (apply Forall_cons; split; [split; reflexivity|]). by apply Forall_nil.
  - vm_compute. lia.
  - vm_compute. lia.
  - by apply Forall_nil.
  - by apply Forall_nil.
Defined.

(** ** Hostile and unusual responses *)

(** A compression pointer that points at itself makes the parser recurse without
    end: no fuel is enough, whatever else the packet holds. *)
Theorem dns_pointer_loop chunk p fuel pos out len w :
  chunk !! p = Some 192 -> chunk !! S p = Some (Z.of_nat p) ->
  dns_parse_name fuel chunk (Z.of_nat p) pos out len w = Fault OutOfFuel.
Proof.
  intros H1 H2. revert pos. induction fuel as [|fuel IH]; intros pos; cbn [dns_parse_name]; [done|].
  unfold bind, rd8. rewrite (proj2 (Z.ltb_ge (Z.of_nat p) 0)), (proj2 (Z.ltb_ge (Z.of_nat p + 1) 0)) by lia.
  rewrite Nat2Z.id, H1. cbn [of_option ret Z.eqb]. change (is_pointer 192) with true. cbv iota.
  replace (Z.to_nat (Z.of_nat p + 1)) with (S p) by lia. rewrite H2. cbn [of_option ret]. apply IH.
Qed.

Lemma dns_pointer_loop_witness :
  dns_parse_name 1000 (seq_bytes 12 ++ [192; 12]) 12 0 (replicate 128 0) 0 world0 = Fault OutOfFuel.
Proof. apply (dns_pointer_loop (seq_bytes 12 ++ [192; 12]) 12 1000 0 (replicate 128 0) 0 world0); reflexivity. Defined.

(** A response with a record of another type before the address: [type], [data]. *)
Definition other_record (type : Z) (data : list Z) : list Z :=
  [192; 12; 0; type; 0; 1; 0; 0; 1; 44; 0; Z.of_nat (length data)] ++ data.
Definition mixed_response : list Z :=
  response_head demo_name 2 ++ other_record 28 (seq_bytes 16) ++ encode_answer (mkanswer [0; 0; 1; 44] [110; 242; 68; 3]).
Definition long_labels : list (list Z) := replicate 3 (replicate 60 97).

(** Three things the parser gets wrong.  A name of more than 128 characters is
    written past the end of the 128-byte array; a record of a type other than A or
    CNAME is not skipped, so the address record behind it is missed; and of the four
    bytes of the time to live only the upper two are read, so 300 s is printed as 0. *)
Theorem dns_parser_limits :
  (exists w, dns_parse_name 10 (encode_name long_labels) 0 0 (replicate 128 0) 0 w = Fault OutOfBounds) /\
  dns_parse_response 10 (recv_block mixed_response) world0 = Ok (0, Some []) (mkworld 1 1 []) /\
  exists w, dns_parse_response 10 (recv_block (encode_response demo_name (take 1 demo_answers))) world0 =
    Ok (1, Some [mkitem (join_dots demo_name) (text "110.242.68.3")]) w /\
    EPrintf "Time to live: %d minutes , %d seconds" [0; 0] ∈ w_events w.
Proof.
  split; [exists world0; vm_compute; reflexivity|]. split; [vm_compute; reflexivity|].
  eexists. split; [vm_compute; reflexivity|]. cbn [w_events]. apply list_elem_of_In. right. left. reflexivity.
Qed.
