(* ===== verification/DnsMain.v ===== *)
(** * async_dns_client_noblock.c from [main] on: a table of names, and two threads.

    [main] commits one query after the other, while the thread that
    [dns_async_client_init] has started waits for the answers and handles them.  The two
    share the set of epoll and the table of descriptors, where a socket is watched from the
    last call of its commit on.  A step is the commit of the next name, or the handling of
    one ready socket; the answers come in any order, between the commits and after them. *)
From S2P Require Import Prelude Threads KcpBase KcpInv KcpDemo CLib Dns DnsSpec DnsClient DnsProps.
From Stdlib Require Import Lia.
From stdpp Require Import base list numbers strings gmap.
Open Scope Z_scope.
Open Scope c_scope.

Definition domain : list (list Z) := [
  text "www.0voice.com"; text "draw.0voice.wang"; text "www.baidu.com"; text "tieba.baidu.com";
  text "news.baidu.com"; text "zhidao.baidu.com"; text "music.baidu.com"; text "image.baidu.com";
  text "v.baidu.com"; text "map.baidu.com"; text "baijiahao.baidu.com"; text "xueshu.baidu.com";
  text "cloud.baidu.com"; text "www.163.com"; text "open.163.com"; text "auto.163.com";
  text "gov.163.com"; text "money.163.com"; text "sports.163.com"; text "tech.163.com";
  text "edu.163.com"; text "www.taobao.com"; text "q.taobao.com"; text "sf.taobao.com";
  text "yun.taobao.com"; text "baoxian.taobao.com"; text "www.tmall.com"; text "suning.tmall.com";
  text "www.tencent.com"; text "www.qq.com"; text "www.aliyun.com"; text "www.ctrip.com";
  text "hotels.ctrip.com"; text "hotels.ctrip.com"; text "vacations.ctrip.com"; text "flights.ctrip.com";
  text "trains.ctrip.com"; text "bus.ctrip.com"; text "car.ctrip.com"; text "piao.ctrip.com";
  text "tuan.ctrip.com"; text "you.ctrip.com"; text "g.ctrip.com"; text "lipin.ctrip.com";
  text "ct.ctrip.com"].

(** [dns_async_client_result_callback]: the lines it prints. *)
Definition dns_async_client_result_callback (l : option (list dns_item)) (count : Z) : list (list Z) :=
  map (fun i => text "name:" ++ di_domain i ++ text ", ip:" ++ di_ip i) (take (Z.to_nat count) (default [] l)).
(** Its name among the callbacks. *)
Definition result_cb : nat := 0.

#[export] Instance ep_arg_eq_dec : EqDecision ep_arg.
Proof. solve_decision. Defined.

(** ** The program *)

(** What the calls change, how many names are committed, the sockets that wait with the
    names they were opened for, the answers that came with theirs, and the fault that ended
    the program if there was one. *)
Record dns_prog : Type := mkprog {
  dp_world : dnsw;
  dp_next : nat;
  dp_out : list (Z * nat);
  dp_handled : list (nat * list Z);
  dp_fault : option fault;
}.
Definition eta_prog (s : dns_prog) : dns_prog := mkprog (dp_world s) (dp_next s) (dp_out s) (dp_handled s) (dp_fault s).
#[export] Instance upd_dp_world : Upd dp_world := ltac:(build_upd eta_prog dp_world).
#[export] Instance upd_dp_next : Upd dp_next := ltac:(build_upd eta_prog dp_next).
#[export] Instance upd_dp_out : Upd dp_out := ltac:(build_upd eta_prog dp_out).
#[export] Instance upd_dp_handled : Upd dp_handled := ltac:(build_upd eta_prog dp_handled).
#[export] Instance upd_dp_fault : Upd dp_fault := ltac:(build_upd eta_prog dp_fault).

(** The next name is committed, with the results of [socket], [epoll_ctl] and [random]; a
    ready socket is handled, with what [recvfrom] gives. *)
Inductive dns_event : Type :=
  | Commit (sockfd ctl rnd : Z)
  | Answer (a : ep_arg) (d : list Z).

Section Main.
Context {alloc : Allocator}.

Definition on_world {A} (m : M dnsw A) (k : dns_prog -> dns_prog) (s : dns_prog) : dns_prog :=
  match m (dp_world s) with Ok _ w => k (s<|dp_world := w|>) | Fault f => s<|dp_fault := Some f|> end.

Definition committed (sockfd : Z) (s : dns_prog) : dns_prog := s<|dp_out := (sockfd, dp_next s) :: dp_out s|><|dp_next := S (dp_next s)|>.

Definition handled (a : ep_arg) (d : list Z) (s : dns_prog) : dns_prog :=
  let waits := fun p : Z * nat => p.1 =? ea_sockfd a in
  s<|dp_handled := dp_handled s ++ map (fun p => (p.2, d)) (List.filter waits (dp_out s))|>
   <|dp_out := List.filter (fun p => negb (waits p)) (dp_out s)|>.

(** [socket] gives no descriptor that is in use, and epoll reports what it watches. *)
Definition dns_step (fuel : nat) (e : dns_event) (s : dns_prog) : option dns_prog :=
  match dp_fault s, e with
  | Some _, _ => None
  | None, Commit sockfd ctl rnd =>
    match domain !! dp_next s with
    | None => None
    | Some d =>
      if bool_decide (sockfd ∈ n_open (dp_world s).2) then None
      else Some (on_world (dns_async_client_commit sockfd ctl rnd d result_cb) (committed sockfd) s)
    end
  | None, Answer a d =>
    if bool_decide (a ∈ n_watch (dp_world s).2) then Some (on_world (dns_async_ready fuel a d) id (handled a d s)) else None
  end.

(** [main] up to its loop; None when it returns -2. *)
Definition dns_async_main (epfd thr : Z) (w : world) : res dnsw (option dns_prog) :=
  match dns_async_client_init epfd thr (w, mknet [] [] [] []) with
  | Ok (Some _) w => Ok (Some (mkprog w 0 [] [] None)) w
  | Ok None w => Ok None w
  | Fault f => Fault f
  end.
End Main.

(** ** The table *)

(** The labels of a name. *)
Fixpoint labels_of (d : list Z) : list (list Z) :=
  match d with
  | [] => [[]]
  | c :: d =>
    if c =? 46 then [] :: labels_of d
    else match labels_of d with [] => [[c]] | l :: ls => (c :: l) :: ls end
  end.
Definition labels (k : nat) : list (list Z) := labels_of (default [] (domain !! k)).

(** A name the client can ask for. *)
Definition askable (d : list Z) : bool :=
  bool_decide (join_dots (labels_of d) = d) && bool_decide (labels_of d <> []) && bool_decide (length d < 128)%nat &&
  bool_decide (length (labels_of d) < 5)%nat &&
  forallb (fun l => if bool_decide (0 < length l < 64)%nat then forallb (fun c => (0 <? c) && (c <? 256) && negb (c =? 46)) l else false) (labels_of d).

Lemma domain_askable : forallb askable domain = true.
Proof. vm_compute. reflexivity. Qed.

Lemma domain_ok k d : domain !! k = Some d ->
  join_dots (labels k) = d /\ labels k <> [] /\ (length (join_dots (labels k)) < 128)%nat /\ (length (labels k) < 5)%nat /\ Forall label_ok (labels k).
Proof.
  intros Hk. pose proof domain_askable as Ha. rewrite forallb_forall in Ha. specialize (Ha d).
  unfold labels. rewrite Hk. cbn [default from_option id].
  assert (askable d = true) as Hd by (apply Ha, list_elem_of_In; by eapply list_elem_of_lookup_2). unfold askable in Hd.
  rewrite !andb_true_iff, !bool_decide_eq_true in Hd. destruct Hd as [[[[H1 H2] H3] H4] H5].
  splits; try done; [by rewrite H1|]. apply Forall_forall. intros l Hl%list_elem_of_In. rewrite forallb_forall in H5. by apply label_ok_dec, H5.
Qed.

(** ** What a run has done *)

(** Every answer that came was a well-formed response for the name of its socket. *)
Definition well_answered (h : nat * list Z) : Prop :=
  exists answers, Forall answer_ok answers /\ h.2 = encode_response (labels h.1) answers /\ (length h.2 <= 1024)%nat.

(** The callback made for an answer: the items are those of the records, in order. *)
Definition called (h : nat * list Z) (c : nat * option (list dns_item) * Z) : Prop :=
  exists answers, h.2 = encode_response (labels h.1) answers /\
    c = (result_cb, Some (map (fun a => mkitem (join_dots (labels h.1)) (inet_ntop (an_ip a))) answers), Z.of_nat (length answers)).

Record prog_ok (epfd L : Z) (s : dns_prog) : Prop := mkprog_ok {
  p_fault : dp_fault s = None;
  p_watch : n_watch (dp_world s).2 = map (fun p => mkep p.1 result_cb) (dp_out s);
  p_open : n_open (dp_world s).2 = map fst (dp_out s) ++ [epfd];
  p_nodup : NoDup (map fst (dp_out s) ++ [epfd]);
  p_sent : exists ids, length ids = dp_next s /\ n_sent (dp_world s).2 = zip_with (fun id k => map Some (query_bytes id (labels k))) ids (seq 0 (dp_next s));
  p_calls : Forall2 called (dp_handled s) (n_calls (dp_world s).2);
  p_all : map fst (dp_handled s) ++ map snd (dp_out s) ≡ₚ seq 0 (dp_next s);
  p_next : (dp_next s <= length domain)%nat;
  p_live : w_live (dp_world s).1 = L + Z.of_nat (dp_next s) + Z.of_nat (length (dp_out s));
}.

(** The system's results for a query that goes out. *)
Definition goes_out (e : dns_event) : Prop := match e with Commit sockfd ctl _ => 0 <= sockfd /\ ctl = 0 | Answer _ _ => True end.

Section Props.
Context {alloc : Allocator} (alloc_ok : forall n size, malloc n size <> None).

Lemma prog_commit epfd L fuel sockfd ctl rnd s s' : prog_ok epfd L s -> goes_out (Commit sockfd ctl rnd) ->
  dns_step fuel (Commit sockfd ctl rnd) s = Some s' -> prog_ok epfd L s'.
Proof.
  intros Hs [Hfd ->] H. pose proof Hs as [P1 P2 P3 P4 (ids & P5 & P5') P6 P7 P8 P9]. unfold dns_step in H. rewrite P1 in H.
  destruct (domain !! dp_next s) as [d|] eqn:Ed; [|done]. case_bool_decide as Hno; [done|]. injection H as <-.
  destruct (domain_ok _ _ Ed) as (D1 & D2 & D3 & D4 & D5). destruct (dp_world s) as [w n] eqn:Ew. cbn [fst snd] in *.
  destruct (wp_run _ _ _ (commit_spec alloc sockfd rnd (labels (dp_next s)) result_cb w n alloc_ok Hfd D5 D2 ltac:(rewrite length_join_dots by done; lia)))
    as (r & [w' n'] & Hr & _ & Hn & Hl). cbn [fst snd] in Hn, Hl. subst n'.
  unfold on_world, committed. rewrite Ew, <- D1, Hr. constructor; cbn -[domain seq].
  - done.
  - by rewrite P2.
  - by rewrite P3.
  - rewrite P3 in Hno. by constructor.
  - exists (ids ++ [rnd]). rewrite length_app, P5. split; [cbn; lia|]. rewrite P5'.
    rewrite seq_S, zip_with_app by (by rewrite length_seq). done.
  - done.
  - rewrite seq_S. cbn. rewrite <- Permutation_middle, P7. apply Permutation_cons_append.
  - apply lookup_lt_Some in Ed. lia.
  - lia.
Qed.

(** A socket waits for one name. *)
Lemma out_split epfd s fd : NoDup (map fst (dp_out s) ++ [epfd]) -> mkep fd result_cb ∈ map (fun p : Z * nat => mkep p.1 result_cb) (dp_out s) ->
  exists l1 k l2, dp_out s = l1 ++ (fd, k) :: l2 /\ Forall (fun p => p.1 <> fd) (l1 ++ l2) /\ epfd <> fd.
Proof.
  intros Hnd ([fd' k] & [= ->] & Hin)%list_elem_of_fmap. apply list_elem_of_split in Hin as (l1 & l2 & E). cbn. exists l1, k, l2.
  rewrite E, map_app in Hnd. cbn in Hnd. rewrite <- (assoc_L (++)) in Hnd. cbn in Hnd. apply NoDup_app in Hnd as (_ & H1 & H2).
  apply NoDup_cons in H2 as [H2 _]. splits; [done | | intros ->; apply H2, elem_of_app; right; by apply list_elem_of_singleton].
  apply Forall_app. split; apply Forall_forall; intros [x j] Hx E'; cbn in E'; subst x; [apply (H1 fd') | apply H2, elem_of_app; left].
  - apply list_elem_of_fmap. by exists (fd', j).
  - by left.
  - apply list_elem_of_fmap. by exists (fd', j).
Qed.

Lemma out_filter {A} (f : A -> bool) l1 x l2 : Forall (fun y => f y = true) (l1 ++ l2) -> f x = false ->
  List.filter f (l1 ++ x :: l2) = l1 ++ l2 /\ List.filter (fun y => negb (f y)) (l1 ++ x :: l2) = [x].
Proof.
  intros [H1 H2]%Forall_app Hx. rewrite !List.filter_app. cbn. rewrite Hx. cbn. rewrite !(filter_all f) by done. split; [done|].
  assert (forall l, Forall (fun y => f y = true) l -> List.filter (fun y => negb (f y)) l = []) as Hn.
  { intros l Hl. induction Hl as [|y l Hy _ IH]; cbn; [done|]. by rewrite Hy. }
  by rewrite !Hn.
Qed.

Lemma handled_split a d s l1 k l2 : dp_out s = l1 ++ (ea_sockfd a, k) :: l2 -> Forall (fun p => p.1 <> ea_sockfd a) (l1 ++ l2) ->
  handled a d s = s<|dp_handled := dp_handled s ++ [(k, d)]|><|dp_out := l1 ++ l2|>.
Proof.
  intros E H. unfold handled. rewrite E. destruct (out_filter (fun p : Z * nat => negb (p.1 =? ea_sockfd a)) l1 (ea_sockfd a, k) l2) as [E1 E2].
  - eapply Forall_impl; [exact H|]. cbv beta. intros p Hp. by apply negb_true_iff, Z.eqb_neq.
  - cbn. by rewrite Z.eqb_refl.
  - rewrite E1, (List.filter_ext _ (fun p => negb (negb (p.1 =? ea_sockfd a)))); [by rewrite E2|]. intros p. by rewrite negb_involutive.
Qed.

Lemma prog_answer epfd L fuel a d s s' : (5 < fuel)%nat -> prog_ok epfd L s -> dns_step fuel (Answer a d) s = Some s' ->
  Forall well_answered (dp_handled s') -> prog_ok epfd L s'.
Proof.
  intros Hfuel Hs H Hw. pose proof Hs as [P1 P2 P3 P4 (ids & P5 & P5') P6 P7 P8 P9]. unfold dns_step in H. rewrite P1 in H.
  case_bool_decide as Hin; [|done]. injection H as <-. rewrite P2 in Hin.
  assert (a = mkep (ea_sockfd a) result_cb) as Ea by (by apply list_elem_of_fmap in Hin as (? & -> & _)). rewrite Ea in Hin.
  destruct (out_split epfd s _ P4 Hin) as (l1 & k & l2 & E & Hne & Hep). rewrite (handled_split a d s l1 k l2 E Hne) in *.
  assert (k < dp_next s)%nat as Hk.
  { assert (k ∈ map fst (dp_handled s) ++ map snd (dp_out s)) as Hi by (rewrite E, map_app; cbn; rewrite !elem_of_app, elem_of_cons; auto).
    rewrite P7 in Hi. apply elem_of_seq in Hi. lia. }
  destruct (lookup_lt_is_Some_2 domain k ltac:(lia)) as [name Hname]. destruct (domain_ok _ _ Hname) as (_ & D2 & D3 & D4 & D5).
  assert (well_answered (k, d)) as (answers & A1 & A2 & A3).
  { unfold on_world in Hw. destruct (dns_async_ready _ _ _ _); apply Forall_app in Hw as [_ Hw]; by apply Forall_cons_1 in Hw as [Hw _]. }
  cbn [fst snd] in A1, A2, A3. subst d. clear Hw Hin. destruct (dp_world s) as [w n] eqn:Ew. cbn [fst snd] in *.
  destruct (wp_run _ _ _ (ready_spec alloc (ea_sockfd a) (labels k) answers result_cb fuel w n alloc_ok D5 D2 D3 A1 A3 ltac:(lia)))
    as ([] & [w' n'] & Hr & Hn & Hl). cbn [fst snd] in Hn, Hl. subst n'.
  unfold on_world. cbn [dp_world upd upd_dp_handled upd_dp_out]. rewrite Ew, Ea, Hr. cbn [ea_sockfd].
  assert (Forall (fun x => x <> ea_sockfd a) (map fst (l1 ++ l2) ++ [epfd])) as Hopen.
  { apply Forall_app. split; [|by constructor]. apply Forall_fmap. eapply Forall_impl; [exact Hne|]. done. }
  constructor; cbn -[domain seq].
  - done.
  - rewrite P2, E, !map_app. cbn [map fst]. rewrite List.filter_app. cbn [List.filter ea_sockfd]. rewrite Z.eqb_refl. cbn [negb].
    apply Forall_app in Hne as [N1 N2]. rewrite !unwatch_other; [done|..]; apply Forall_fmap; (eapply Forall_impl; [eassumption|]); done.
  - rewrite P3, E, !map_app. cbn [map fst]. rewrite <- !(assoc_L (++)), List.filter_app. cbn [app List.filter]. rewrite Z.eqb_refl. cbn [negb].
    rewrite map_app, <- (assoc_L (++)) in Hopen. apply Forall_app in Hopen as [N1 N2]. by rewrite !filter_other.
  - rewrite E, map_app in P4. cbn in P4. rewrite <- (assoc_L (++)) in P4. cbn in P4. rewrite map_app, <- (assoc_L (++)).
    rewrite <- Permutation_middle in P4. by apply NoDup_cons in P4 as [_ ?].
  - by exists ids.
  - apply Forall2_app; [done|]. constructor; [|done]. by exists answers.
  - rewrite <- P7, E, !map_app. cbn. rewrite <- !(assoc_L (++)). cbn. f_equiv. apply Permutation_middle.
  - done.
  - rewrite P9, E in *. rewrite !length_app in *. cbn in *. lia.
Qed.

Lemma handled_grow fuel e s s' : dns_step fuel e s = Some s' -> exists l, dp_handled s' = dp_handled s ++ l.
Proof.
  unfold dns_step, on_world. destruct (dp_fault s); [done|]. destruct e as [fd ctl rnd|a d].
  - destruct (domain !! dp_next s); [|done]. case_bool_decide; [done|]. intros [= <-]. exists []. rewrite app_nil_r. by destruct (dns_async_client_commit _ _ _ _ _ _).
  - case_bool_decide; [|done]. intros [= <-]. eexists. by destruct (dns_async_ready _ _ _ _).
Qed.

Lemma prog_start epfd w s nw : 0 <= epfd -> dns_async_main epfd 0 w = Ok (Some s) nw -> prog_ok epfd (w_live w + 1) s.
Proof.
  intros He. assert (wp (dns_async_client_init epfd 0) (fun r s => r = Some epfd /\ s.2 = mknet [epfd] [] [] [] /\ w_live s.1 = w_live w + 1) (w, mknet [] [] [] [])) as Hi.
  { unfold dns_async_client_init. rewrite (proj2 (Z.ltb_ge epfd 0)) by done. wp_step. apply wp_on_net. wp_step.
    apply wp_lift, (wp_c_calloc alloc_ok). intros w1 Hl _. cbn [negb Z.eqb]. wp_step. by splits. }
  destruct (wp_run _ _ _ Hi) as (r & [w1 n1] & Hr & -> & Hn & Hl). cbn [fst snd] in Hn, Hl. subst n1.
  unfold dns_async_main. rewrite Hr. intros [= <- <-]. constructor; cbn -[domain]; try done.
  - by constructor; [apply not_elem_of_nil | constructor].
  - by exists [].
  - lia.
  - lia.
Qed.

(** C16: the example resolves its table.  Whatever the order in which the answers come,
    between the commits and after them, as long as each is a well-formed response for the
    name of its socket: nothing faults; the names sent are the first of the table, in order,
    each as its exact query; each has its answer or its socket waits for one; for each answer
    the callback is made once, with the addresses of that name; and the sockets open are those
    that wait and that of epoll.  One block for each name is never given back. *)
Theorem dns_table_resolved fuel epfd w s0 nw es s : (5 < fuel)%nat -> 0 <= epfd ->
  dns_async_main epfd 0 w = Ok (Some s0) nw -> steps (dns_step fuel) es s0 s -> Forall goes_out es -> Forall well_answered (dp_handled s) ->
  dp_fault s = None /\
  (exists ids, length ids = dp_next s /\ n_sent (dp_world s).2 = zip_with (fun id k => map Some (query_bytes id (labels k))) ids (seq 0 (dp_next s))) /\
  map fst (dp_handled s) ++ map snd (dp_out s) ≡ₚ seq 0 (dp_next s) /\
  Forall2 called (dp_handled s) (n_calls (dp_world s).2) /\
  n_open (dp_world s).2 = map fst (dp_out s) ++ [epfd] /\
  w_live (dp_world s).1 = w_live w + 1 + Z.of_nat (dp_next s) + Z.of_nat (length (dp_out s)) /\
  (forall fd k d, (fd, k) ∈ dp_out s -> is_Some (dns_step fuel (Answer (mkep fd result_cb) d) s)).
Proof.
  intros Hf He H0 Hr Hg Hw.
  assert (Forall well_answered (dp_handled s) -> prog_ok epfd (w_live w + 1) s) as Hok.
  { apply (steps_invariant (dns_step fuel) goes_out (fun s => Forall well_answered (dp_handled s) -> prog_ok epfd (w_live w + 1) s) es s0 s);
      [|done..|intros _; by eapply prog_start].
    intros e s1 s2 Hge IH Hst Hw2. destruct (handled_grow _ _ _ _ Hst) as [l El].
    assert (Forall well_answered (dp_handled s1)) as Hw1 by (rewrite El in Hw2; by apply Forall_app in Hw2 as [? _]).
    destruct e as [fd ctl rnd|a d]; [by eapply prog_commit; [apply IH|..] | by eapply prog_answer; [|apply IH|..]]. }
  specialize (Hok Hw). destruct Hok as [P1 P2 P3 P4 P5 P6 P7 P8 P9]. splits; try done.
  intros fd k d Hin. unfold dns_step. rewrite P1, bool_decide_true; [by eexists|]. rewrite P2. apply list_elem_of_fmap. by exists (fd, k).
Qed.
End Props.

(** What the callback prints of an answer: a line for each address. *)
Theorem callback_lines name answers :
  dns_async_client_result_callback (Some (map (fun a => mkitem name (inet_ntop (an_ip a))) answers)) (Z.of_nat (length answers))
  = map (fun a => text "name:" ++ name ++ text ", ip:" ++ inet_ntop (an_ip a)) answers.
Proof. unfold dns_async_client_result_callback. cbn [default from_option id]. rewrite Nat2Z.id, take_ge by (by rewrite length_map). by rewrite map_map. Qed.

(** ** A run over the whole table *)

Definition one_record (k : nat) : answer := mkanswer [0; 0; 1; 44] [10; 0; 0; Z.of_nat k].
(** All names are committed; then the answers come, the last first. *)
Definition whole_table : list dns_event := Eval vm_compute in
  map (fun k => Commit (Z.of_nat (4 + k)) 0 (Z.of_nat (100 + k))) (seq 0 (length domain)) ++
  map (fun k => Answer (mkep (Z.of_nat (4 + k)) result_cb) (encode_response (labels k) [one_record k])) (rev (seq 0 (length domain))).

Definition prog0 : dns_prog := mkprog (world0, mknet [3] [] [] []) 0 [] [] None.
Definition start_prog : dns_prog := match dns_async_main 3 0 world0 with Ok (Some s) _ => s | _ => prog0 end.
Definition start_world : dnsw := match dns_async_main 3 0 world0 with Ok _ w => w | _ => (world0, net0) end.
Definition end_prog : dns_prog := default prog0 (run_steps (dns_step 10) whole_table start_prog).

Lemma whole_table_runs : run_steps (dns_step 10) whole_table start_prog = Some end_prog.
Proof. vm_compute. reflexivity. Qed.

(** The check of [well_answered] for one record. *)
Lemma well_answered_one k ttl ip d : length ttl = 4%nat -> length ip = 4%nat -> (d = encode_response (labels k) [mkanswer ttl ip] /\ (length d <= 1024)%nat) -> well_answered (k, d).
Proof. intros H1 H2 [-> H3]. exists [mkanswer ttl ip]. splits; [by repeat constructor | done | done]. Qed.

Lemma whole_table_answered : Forall well_answered (dp_handled end_prog).
Proof.
  assert (dp_handled end_prog = map (fun k => (k, encode_response (labels k) [one_record k])) (rev (seq 0 (length domain)))) as ->
    by (vm_compute; reflexivity).
  apply Forall_fmap, Forall_rev, Forall_forall. intros k Hk%elem_of_seq. cbn [compose].
  assert (forallb (fun k => Nat.leb (length (encode_response (labels k) [one_record k])) 1024) (seq 0 (length domain)) = true) as Hall
    by (vm_compute; reflexivity).
  rewrite forallb_forall in Hall. eapply well_answered_one; [| |split; [reflexivity|]]; [done | done|].
  apply Nat.leb_le, Hall, list_elem_of_In, elem_of_seq. lia.
Qed.

Lemma dns_table_resolved_witness : map fst (dp_handled end_prog) ++ [] ≡ₚ seq 0 45 /\ Forall2 called (dp_handled end_prog) (n_calls (dp_world end_prog).2) /\
  n_open (dp_world end_prog).2 = [3].
Proof.
  destruct (dns_table_resolved demo_alloc_ok 10 3 world0 start_prog start_world whole_table end_prog) as (_ & _ & H3 & H4 & H5 & _);
    [lia | lia | vm_compute; reflexivity | apply run_steps_ok, whole_table_runs | by repeat constructor | exact whole_table_answered |].
  split; [exact H3|]. split; [exact H4 | exact H5].
Defined.
