(* ===== verification/Queue.v ===== *)
(** * Intrusive lists over a store: the IQUEUE macros of ikcp.h and the LL macros of
    server_mulport_epoll.c.

    A store maps the address of a node to its two links; an access to an address
    without a node has no result. *)
From S2P Require Import Prelude.
From stdpp Require Import base list numbers gmap fin_maps.
#[local] Set Warnings "-clear-no-such-hyp".
Open Scope Z_scope.

Record store : Type := mkstore { s_next : gmap Z Z; s_prev : gmap Z Z }.

Definition get_next (p : Z) (h : store) : option Z := s_next h !! p.
Definition get_prev (p : Z) (h : store) : option Z := s_prev h !! p.
Definition set_next (p v : Z) (h : store) : option store :=
  if s_next h !! p is Some _ then Some (mkstore (<[p := v]> (s_next h)) (s_prev h)) else None.
Definition set_prev (p v : Z) (h : store) : option store :=
  if s_prev h !! p is Some _ then Some (mkstore (s_next h) (<[p := v]> (s_prev h))) else None.

(** ** IQUEUE *)

Definition IQUEUE_INIT (ptr : Z) (h : store) : option store :=
  h ← set_next ptr ptr h; set_prev ptr ptr h.

Definition IQUEUE_ADD (node head : Z) (h : store) : option store :=
  h ← set_prev node head h;
  n ← get_next head h; h ← set_next node n h;
  n ← get_next head h; h ← set_prev n node h;
  set_next head node h.

Definition IQUEUE_ADD_TAIL (node head : Z) (h : store) : option store :=
  p ← get_prev head h; h ← set_prev node p h;
  h ← set_next node head h;
  p ← get_prev head h; h ← set_next p node h;
  set_prev head node h.

Definition IQUEUE_DEL (entry : Z) (h : store) : option store :=
  n ← get_next entry h; p ← get_prev entry h; h ← set_prev n p h;
  p ← get_prev entry h; n ← get_next entry h; h ← set_next p n h;
  h ← set_next entry 0 h; set_prev entry 0 h.

Definition IQUEUE_DEL_INIT (entry : Z) (h : store) : option store :=
  h ← IQUEUE_DEL entry h; IQUEUE_INIT entry h.

Definition IQUEUE_IS_EMPTY (entry : Z) (h : store) : option bool :=
  n ← get_next entry h; Some (entry =? n).

(** The nodes [iqueue_foreach_entry] visits, for at most [fuel] of them. *)
Fixpoint iqueue_foreach (fuel : nat) (pos head : Z) (h : store) : option (list Z) :=
  if pos =? head then Some []
  else
    match fuel with
    | O => None
    | S fuel => n ← get_next pos h; l ← iqueue_foreach fuel n head h; Some (pos :: l)
    end.

Definition iqueue_splice (list_ head : Z) (h : store) : option store :=
  e ← IQUEUE_IS_EMPTY list_ h;
  if (e : bool) then Some h
  else
    first ← get_next list_ h; last ← get_prev list_ h; at_ ← get_next head h;
    h ← set_prev first head h; h ← set_next head first h;
    h ← set_next last at_ h; set_prev at_ last h.

Definition iqueue_splice_init (list_ head : Z) (h : store) : option store :=
  h ← iqueue_splice list_ head h; IQUEUE_INIT list_ h.

(** ** LL: the head is a variable, NULL is 0 *)

Definition LL_ADD (item list_ : Z) (h : store) : option (Z * store) :=
  h ← set_prev item 0 h; h ← set_next item list_ h; Some (item, h).

Definition LL_REMOVE (item list_ : Z) (h : store) : option (Z * store) :=
  p ← get_prev item h; n ← get_next item h;
  h ← (if negb (p =? 0) then set_next p n h else Some h);
  n ← get_next item h; p ← get_prev item h;
  h ← (if negb (n =? 0) then set_prev n p h else Some h);
  n ← get_next item h;
  let list_ := if list_ =? item then n else list_ in
  h ← set_next item 0 h; h ← set_prev item 0 h; Some (list_, h).

Fixpoint ll_walk (fuel : nat) (p : Z) (h : store) : option (list Z) :=
  if p =? 0 then Some []
  else
    match fuel with
    | O => None
    | S fuel => n ← get_next p h; l ← ll_walk fuel n h; Some (p :: l)
    end.

(** ** What a queue represents *)

Definition link (h : store) (p q : Z) : Prop := s_next h !! p = Some q /\ s_prev h !! q = Some p.

(** The nodes [l] lie, in order, between [p] and [q]. *)
Fixpoint between (h : store) (p : Z) (l : list Z) (q : Z) : Prop :=
  match l with
  | [] => link h p q
  | x :: l => link h p x /\ between h x l q
  end.

(** The queue with this head holds the nodes [l]. *)
Definition queue (h : store) (head : Z) (l : list Z) : Prop :=
  between h head l head /\ NoDup (head :: l).

(** A node that can be linked. *)
Definition node_at (h : store) (p : Z) : Prop := is_Some (s_next h !! p) /\ is_Some (s_prev h !! p).

Lemma between_app h p l1 x l2 q :
  between h p (l1 ++ x :: l2) q <-> between h p l1 x /\ between h x l2 q.
Proof. revert p. induction l1 as [|y l1 IH]; intros p; cbn; [tauto|]. rewrite IH. tauto. Qed.

(** Only the links that leave [p :: l] and enter [l ++ [q]] matter. *)
Lemma between_frame h h' p l q :
  (forall y, y ∈ p :: l -> s_next h' !! y = s_next h !! y) ->
  (forall y, y ∈ l ++ [q] -> s_prev h' !! y = s_prev h !! y) ->
  between h p l q -> between h' p l q.
Proof.
  revert p. induction l as [|x l IH]; intros p Hn Hp; cbn.
  - intros [H1 H2]. split; [rewrite Hn by set_solver | rewrite Hp by set_solver]; done.
  - intros [[H1 H2] H3]. split.
    + split; [rewrite Hn by set_solver | rewrite Hp by set_solver]; done.
    + apply IH; [| | done]; intros y Hy; [apply Hn | apply Hp]; set_solver.
Qed.

Lemma between_next h p l q : between h p l q -> s_next h !! p = Some (hd q l).
Proof. destruct l; cbn; [by intros [? _] | by intros [[? _] _]]. Qed.

Lemma between_prev h p l q : between h p l q -> s_prev h !! q = Some (default p (last l)).
Proof.
  revert p. induction l as [|x l IH]; intros p; cbn [between]; [by intros [_ ?]|].
  intros [_ H]. rewrite (IH x H), last_cons. by destruct (last l).
Qed.

Lemma set_next_at p v h : is_Some (s_next h !! p) ->
  set_next p v h = Some (mkstore (<[p := v]> (s_next h)) (s_prev h)).
Proof. unfold set_next. by intros [x ->]. Qed.

Lemma set_prev_at p v h : is_Some (s_prev h !! p) ->
  set_prev p v h = Some (mkstore (s_next h) (<[p := v]> (s_prev h))).
Proof. unfold set_prev. by intros [x ->]. Qed.

(** Nodes outside [l] keep their links, and no node disappears. *)
Definition untouched (l : list Z) (h h' : store) : Prop :=
  (forall y, y ∉ l -> s_next h' !! y = s_next h !! y /\ s_prev h' !! y = s_prev h !! y) /\
  (forall y, node_at h y -> node_at h' y).

Lemma is_Some_insert_alter (m : gmap Z Z) p v y : is_Some (m !! y) -> is_Some (<[p := v]> m !! y).
Proof. intros H. destruct (decide (p = y)) as [->|]; [rewrite lookup_insert_eq | rewrite lookup_insert_ne]; eauto. Qed.

#[local] Hint Resolve is_Some_insert_alter : core.

Lemma queue_head_at h head l : queue h head l -> node_at h head.
Proof.
  intros [Hb _]. pose proof (between_next _ _ _ _ Hb). pose proof (between_prev _ _ _ _ Hb). split; eauto.
Qed.

Lemma queue_first_at h head l : queue h head l -> is_Some (s_prev h !! hd head l).
Proof.
  intros [Hb Hnd]. destruct l as [|x l]; cbn; [by eapply queue_head_at|]. destruct Hb as [[_ ?] _]. eauto.
Qed.

Lemma queue_last_at h head l : queue h head l -> is_Some (s_next h !! default head (last l)).
Proof.
  intros Hq. destruct l as [|x l] using rev_ind; cbn; [by eapply queue_head_at|].
  rewrite last_snoc. destruct Hq as [Hb _]. apply between_app in Hb as [_ [? _]]. eauto.
Qed.

(** [IQUEUE_INIT] makes an empty queue. *)
Lemma init_spec h p : node_at h p ->
  exists h', IQUEUE_INIT p h = Some h' /\ queue h' p [] /\ untouched [p] h h'.
Proof.
  intros [H1 H2]. unfold IQUEUE_INIT. rewrite set_next_at by done. cbn [mbind option_bind].
  rewrite set_prev_at by done. eexists. split; [done|]. split.
  - split; [|apply NoDup_singleton]. split; cbn; apply lookup_insert_eq.
  - split; [|intros y [??]; split; cbn; auto]. intros y Hy. cbn. rewrite !lookup_insert_ne by set_solver. done.
Qed.

Lemma nodup_add (head node : Z) l :
  NoDup (head :: l) -> node ∉ head :: l -> NoDup (head :: node :: l).
Proof. rewrite !NoDup_cons, !not_elem_of_cons. naive_solver. Qed.

(** [IQUEUE_ADD] puts a node in front. *)
Lemma add_spec h head l node :
  queue h head l -> node_at h node -> node ∉ head :: l ->
  exists h', IQUEUE_ADD node head h = Some h' /\ queue h' head (node :: l) /\ untouched (node :: head :: l) h h'.
Proof.
  intros Hq [Hn1 Hn2] Hni. pose proof (queue_head_at _ _ _ Hq) as [Hh1 Hh2].
  pose proof (queue_first_at _ _ _ Hq) as Hf. destruct Hq as [Hb Hnd].
  pose proof (between_next _ _ _ _ Hb) as Hnx. set (f := hd head l) in *.
  assert (node <> head) as Hne by set_solver.
  unfold IQUEUE_ADD, get_next, get_prev.
  rewrite set_prev_at by done. cbn [mbind option_bind s_next s_prev]. rewrite Hnx. cbn [mbind option_bind].
  rewrite set_next_at by done. cbn [mbind option_bind s_next s_prev].
  rewrite lookup_insert_ne by done. rewrite Hnx. cbn [mbind option_bind].
  rewrite set_prev_at by (cbn; auto). cbn [mbind option_bind]. rewrite set_next_at by (cbn; auto).
  eexists. split; [done|]. cbn [s_next s_prev]. assert (f ∈ head :: l) as Hfin by (subst f; destruct l; set_solver).
  split.
  - split; [|by apply nodup_add].
    cbn [between]. split.
    + split; cbn; [apply lookup_insert_eq|]. rewrite lookup_insert_ne by set_solver. apply lookup_insert_eq.
    + destruct l as [|x l]; cbn [between hd] in *; subst f.
      * split; cbn; [rewrite lookup_insert_ne by done|]; apply lookup_insert_eq.
      * destruct Hb as [_ Hb]. apply NoDup_cons in Hnd as [Hnd1 Hnd2]. apply NoDup_cons in Hnd2 as [Hnd2 Hnd3].
        split; [split; cbn; [rewrite lookup_insert_ne by done|]; apply lookup_insert_eq|].
        eapply between_frame; [| | exact Hb]; intros y Hy; cbn.
        -- rewrite !lookup_insert_ne by set_solver. done.
        -- rewrite !lookup_insert_ne by set_solver. done.
  - split; [|intros y [??]; split; cbn; auto]. intros y Hy. cbn. rewrite !lookup_insert_ne by set_solver. done.
Qed.

(** [IQUEUE_ADD_TAIL] puts a node at the end. *)
Lemma add_tail_spec h head l node :
  queue h head l -> node_at h node -> node ∉ head :: l ->
  exists h', IQUEUE_ADD_TAIL node head h = Some h' /\ queue h' head (l ++ [node]) /\ untouched (node :: head :: l) h h'.
Proof.
  intros Hq [Hn1 Hn2] Hni. pose proof (queue_head_at _ _ _ Hq) as [Hh1 Hh2].
  pose proof (queue_last_at _ _ _ Hq) as Hf. destruct Hq as [Hb Hnd].
  pose proof (between_prev _ _ _ _ Hb) as Hpv. set (f := default head (last l)) in *.
  assert (node <> head) as Hne by set_solver.
  unfold IQUEUE_ADD_TAIL, get_next, get_prev.
  rewrite Hpv. cbn [mbind option_bind]. rewrite set_prev_at by done. cbn [mbind option_bind].
  rewrite set_next_at by done. cbn [mbind option_bind s_next s_prev].
  rewrite lookup_insert_ne by done. rewrite Hpv. cbn [mbind option_bind].
  rewrite set_next_at by (cbn; auto). cbn [mbind option_bind]. rewrite set_prev_at by (cbn; auto).
  eexists. split; [done|]. cbn [s_next s_prev].
  assert (f ∈ head :: l) as Hfin.
  { subst f. destruct (last l) eqn:El; cbn; [|by left]. right. by apply last_Some_elem_of. }
  split.
  - split.
    + destruct l as [|x l _] using rev_ind; cbn [between app] in *.
      * subst f. cbn. split; split; cbn; [apply lookup_insert_eq | | |].
        -- rewrite lookup_insert_ne by done. apply lookup_insert_eq.
        -- rewrite lookup_insert_ne by done. apply lookup_insert_eq.
        -- apply lookup_insert_eq.
      * subst f. rewrite last_snoc in *. cbn [default] in *. rewrite <- (assoc_L (++)). cbn [app].
        apply between_app in Hb as [Hb _]. apply between_app.
        apply NoDup_cons in Hnd as [Hnd1 Hnd2]. apply NoDup_app in Hnd2 as (Hnd2 & Hnd3 & _). split.
        -- eapply between_frame; [| | exact Hb]; intros y Hy; cbn; rewrite !lookup_insert_ne by set_solver; done.
        -- cbn. split; split; cbn; [apply lookup_insert_eq | | |].
           ++ rewrite lookup_insert_ne by done. apply lookup_insert_eq.
           ++ rewrite lookup_insert_ne by set_solver. apply lookup_insert_eq.
           ++ apply lookup_insert_eq.
    + rewrite <- Permutation_cons_append. by apply nodup_add.
  - split; [|intros y [??]; split; cbn; auto]. intros y Hy. cbn. rewrite !lookup_insert_ne by set_solver. done.
Qed.

(** Redirecting the end of a path. *)
Lemma between_redirect h h' p l x n :
  between h p l x -> NoDup (p :: l) -> link h' (default p (last l)) n ->
  (forall y, y ∈ p :: l -> y <> default p (last l) -> s_next h' !! y = s_next h !! y) ->
  (forall y, y ∈ l -> s_prev h' !! y = s_prev h !! y) ->
  between h' p l n.
Proof.
  intros Hb Hnd Hl Hn Hp. destruct l as [|z l _] using rev_ind; [done|].
  rewrite last_snoc in *. cbn [default] in *. apply between_app in Hb as [Hb _]. apply between_app.
  split; [|done]. eapply between_frame; [| |exact Hb].
  - intros y Hy. apply Hn; [set_solver|]. intros ->.
    rewrite app_comm_cons in Hnd. apply NoDup_app in Hnd as (_ & Hnd & _). apply (Hnd z Hy). by left.
  - intros y Hy. by apply Hp.
Qed.

(** Entering a path from elsewhere. *)
Lemma between_enter h h' x p l q :
  between h x l q -> NoDup (l ++ [q]) -> link h' p (hd q l) ->
  (forall y, y ∈ l -> s_next h' !! y = s_next h !! y) ->
  (forall y, y ∈ l ++ [q] -> y <> hd q l -> s_prev h' !! y = s_prev h !! y) ->
  between h' p l q.
Proof.
  intros Hb Hnd Hl Hn Hp. destruct l as [|z l]; [done|]. cbn [hd between app] in *. destruct Hb as [_ Hb].
  split; [done|]. apply NoDup_cons in Hnd as [Hz _].
  eapply between_frame; [exact Hn | | exact Hb]. intros y Hy. apply Hp; [by right | by intros ->].
Qed.

Lemma between_join h p l1 l2 q :
  between h p l1 (hd q l2) -> between h (default p (last l1)) l2 q -> between h p (l1 ++ l2) q.
Proof.
  intros H1 H2. destruct l2 as [|x l2]; [by rewrite app_nil_r|]. apply between_app. split; [done|].
  by destruct H2.
Qed.

(** [IQUEUE_DEL] takes a node out, wherever it is, and clears its links. *)
Lemma del_spec h head l1 x l2 :
  queue h head (l1 ++ x :: l2) ->
  exists h', IQUEUE_DEL x h = Some h' /\ queue h' head (l1 ++ l2) /\
    s_next h' !! x = Some 0 /\ s_prev h' !! x = Some 0 /\ untouched (head :: l1 ++ x :: l2) h h'.
Proof.
  intros [Hb Hnd]. apply between_app in Hb as [Hb1 Hb2].
  pose proof (between_next _ _ _ _ Hb2) as Hnx. pose proof (between_prev _ _ _ _ Hb1) as Hpv.
  set (n := hd head l2) in *. set (p := default head (last l1)) in *.
  assert (NoDup (head :: l1 ++ l2) /\ (x ∉ head :: l1) /\ (x ∉ l2)) as (Hnd' & Hx1 & Hx2).
  { clear -Hnd. rewrite !NoDup_cons, !NoDup_app, !NoDup_cons, !not_elem_of_app, !not_elem_of_cons in *.
    destruct Hnd as ((H1 & H2 & H3) & H4 & H5 & H6 & H7). splits; try done.
    - intros y Hy Hy2. apply (H5 y Hy). by right.
    - intros Hx. apply (H5 x Hx). by left. }
  assert (n ∈ head :: l2) as Hn by (subst n; destruct l2; [by left | right; by left]).
  assert (p ∈ head :: l1) as Hp
    by (subst p; destruct (last l1) eqn:El; [right; by apply last_Some_elem_of | by left]).
  assert (x <> n) as Hxn by (intros <-; clear -Hn Hx1 Hx2; set_solver).
  assert (x <> p) as Hxp by (by intros <-).
  assert (is_Some (s_prev h !! n)) as Hn1
    by (subst n; destruct l2; cbn in *; [destruct Hb2; eauto | destruct Hb2 as [[_ ?] _]; eauto]).
  assert (is_Some (s_next h !! p)) as Hp1.
  { clear -Hb1. subst p. destruct l1 as [|y l1 _] using rev_ind; [destruct Hb1; eauto|].
    rewrite last_snoc. apply between_app in Hb1 as [_ [? _]]. eauto. }
  unfold IQUEUE_DEL, get_next, get_prev. rewrite Hnx. cbn [mbind option_bind]. rewrite Hpv. cbn [mbind option_bind].
  rewrite set_prev_at by done. cbn [mbind option_bind s_next s_prev].
  rewrite lookup_insert_ne by done. rewrite Hpv. cbn [mbind option_bind]. rewrite Hnx. cbn [mbind option_bind].
  rewrite set_next_at by done. cbn [mbind option_bind s_next s_prev].
  rewrite set_next_at by (cbn; eauto). cbn [mbind option_bind]. rewrite set_prev_at by (cbn; eauto).
  eexists. split; [done|]. cbn [s_next s_prev].
  set (h' := mkstore _ _).
  assert (link h' p n) as Hl
    by (split; cbn; rewrite lookup_insert_ne by done; apply lookup_insert_eq).
  assert (forall y, y <> p -> y <> x -> s_next h' !! y = s_next h !! y) as Hnext
    by (intros y ??; cbn; by rewrite !lookup_insert_ne by done).
  assert (forall y, y <> n -> y <> x -> s_prev h' !! y = s_prev h !! y) as Hprev
    by (intros y ??; cbn; by rewrite !lookup_insert_ne by done).
  splits; [| apply lookup_insert_eq | apply lookup_insert_eq |].
  - split; [|done]. apply NoDup_cons in Hnd' as [Hh Hnd']. apply NoDup_app in Hnd' as (Hnd1 & Hdis & Hnd2).
    rewrite not_elem_of_app in Hh. destruct Hh as [Hh1 Hh2]. rewrite not_elem_of_cons in Hx1.
    apply between_join.
    + eapply between_redirect; [exact Hb1 | by apply NoDup_cons | done | |]; intros y Hy.
      * intros Hyp. apply Hnext; [done|]. intros ->. clear -Hy Hx1. set_solver.
      * apply Hprev; [|intros ->; tauto]. intros ->. apply elem_of_cons in Hn as [->|Hn]; [done|].
        by apply (Hdis n Hy).
    + eapply between_enter; [exact Hb2 | | done | |]; [|intros y Hy..].
      * rewrite NoDup_app. splits; [done | | apply NoDup_singleton]. by intros y Hy ->%list_elem_of_singleton.
      * apply Hnext; [|by intros ->]. intros ->. apply elem_of_cons in Hp as [->|Hp]; [done|].
        by apply (Hdis p Hp).
      * intros Hyn. apply Hprev; [done|]. intros ->. clear -Hy Hx1 Hx2. set_solver.
  - split; [|intros y [??]; split; cbn; eauto]. intros y Hy. split; [apply Hnext | apply Hprev];
      intros ->; apply Hy; clear -Hn Hp; set_solver.
Qed.

(** [IQUEUE_IS_EMPTY] tells whether there is a node. *)
Lemma is_empty_spec h head l : queue h head l -> IQUEUE_IS_EMPTY head h = Some (bool_decide (l = [])).
Proof.
  intros [Hb Hnd]. unfold IQUEUE_IS_EMPTY, get_next. rewrite (between_next _ _ _ _ Hb).
  cbn [mbind option_bind]. f_equal. destruct l as [|x l]; cbn.
  - apply Z.eqb_refl.
  - apply Z.eqb_neq. intros ->. apply NoDup_cons in Hnd as [Hnd _]. apply Hnd. by left.
Qed.

(** The iteration macro visits exactly the nodes, in order, and ends. *)
Lemma foreach_spec h p l q fuel :
  between h p l q -> q ∉ l -> (length l <= fuel)%nat -> iqueue_foreach fuel (hd q l) q h = Some l.
Proof.
  revert p fuel. induction l as [|x l IH]; intros p fuel Hb Hq Hf; cbn [hd].
  - destruct fuel; cbn; by rewrite Z.eqb_refl.
  - destruct fuel as [|fuel]; [cbn in Hf; lia|]. cbn [iqueue_foreach].
    apply not_elem_of_cons in Hq as [Hqx Hq]. rewrite (proj2 (Z.eqb_neq x q)) by done.
    destruct Hb as [_ Hb]. unfold get_next. rewrite (between_next _ _ _ _ Hb). cbn [mbind option_bind].
    by rewrite (IH x fuel Hb Hq) by (cbn in Hf; lia).
Qed.

(** [iqueue_splice_init] moves a whole queue in front of another. *)
Lemma splice_init_spec h head l list_ l' :
  queue h head l -> queue h list_ l' -> (forall y, y ∈ head :: l -> y ∉ list_ :: l') ->
  exists h', iqueue_splice_init list_ head h = Some h' /\ queue h' head (l' ++ l) /\ queue h' list_ [].
Proof.
  intros Hq Hq' Hdis. unfold iqueue_splice_init, iqueue_splice. rewrite (is_empty_spec _ _ _ Hq').
  cbn [mbind option_bind]. case_bool_decide as He.
  { subst l'. cbn [mbind option_bind]. destruct (init_spec h list_ (queue_head_at _ _ _ Hq')) as (h' & E & Hi & Hu & _).
    exists h'. split; [done|]. split; [|done]. destruct Hq as [Hb Hnd]. split; [|done].
    eapply between_frame; [| | exact Hb]; intros y Hy; apply Hu; intros ->%list_elem_of_singleton;
      apply (Hdis list_); [set_solver | by left | set_solver | by left]. }
  pose proof (queue_first_at _ _ _ Hq') as Hf'. pose proof (queue_last_at _ _ _ Hq') as Hl'.
  pose proof (queue_first_at _ _ _ Hq) as Hf. pose proof (queue_head_at _ _ _ Hq) as [Hh1 Hh2].
  pose proof (queue_head_at _ _ _ Hq') as Hlist. destruct Hq as [Hb Hnd], Hq' as [Hb' Hnd'].
  pose proof (between_next _ _ _ _ Hb') as N1. pose proof (between_prev _ _ _ _ Hb') as N2.
  pose proof (between_next _ _ _ _ Hb) as N3.
  unfold get_next, get_prev. rewrite N1. cbn [mbind option_bind]. rewrite N2. cbn [mbind option_bind].
  rewrite N3. cbn [mbind option_bind]. rewrite set_prev_at by done. cbn [mbind option_bind].
  rewrite set_next_at by done. cbn [mbind option_bind]. rewrite set_next_at by (cbn; eauto).
  cbn [mbind option_bind]. rewrite set_prev_at by (cbn; eauto). cbn [mbind option_bind s_next s_prev].
  destruct l' as [|f l'] ; [done|]. cbn [hd] in *. set (la := default list_ (last (f :: l'))) in *.
  assert (la ∈ f :: l') as Hla.
  { subst la. destruct (last (f :: l')) eqn:El; cbn; [by apply last_Some_elem_of|]. by apply last_None in El. }
  set (h1 := mkstore _ _).
  assert (node_at h1 list_) as Hn1 by (destruct Hlist; split; cbn; eauto).
  destruct (init_spec h1 list_ Hn1) as (h' & E & Hi & Hu & _). exists h'. split; [done|]. split; [|done].
  set (a := hd head l) in *.
  assert (a ∈ head :: l) as Ha by (subst a; destruct l; [by left | right; by left]).
  assert (forall y, y <> list_ -> y <> head -> y <> la -> s_next h' !! y = s_next h !! y) as Fn
    by (intros y ???; rewrite (proj1 (Hu y ltac:(by intros ->%list_elem_of_singleton))); cbn;
        by rewrite !lookup_insert_ne by done).
  assert (forall y, y <> list_ -> y <> f -> y <> a -> s_prev h' !! y = s_prev h !! y) as Fp
    by (intros y ???; rewrite (proj2 (Hu y ltac:(by intros ->%list_elem_of_singleton))); cbn;
        by rewrite !lookup_insert_ne by done).
  assert (forall y, y ∈ head :: l -> y <> list_ /\ y ∉ f :: l') as Hd
    by (intros y Hy; apply Hdis, not_elem_of_cons in Hy; done).
  apply NoDup_cons in Hnd as [Hh Hnd]. apply NoDup_cons in Hnd' as [Hli Hnd'].
  assert (la <> head) as Hlh by (intros ->; by apply (Hd head ltac:(by left))).
  assert (f <> a) as Hfa by (intros ->; apply (Hd a Ha); by left).
  assert (head <> list_) as Hhl by (apply Hd; by left).
  assert (link h' head f) as L1.
  { split; [rewrite (proj1 (Hu head ltac:(by intros ->%list_elem_of_singleton)))|
            rewrite (proj2 (Hu f ltac:(intros ->%list_elem_of_singleton; apply Hli; by left)))]; cbn.
    - rewrite lookup_insert_ne by done. apply lookup_insert_eq.
    - rewrite lookup_insert_ne by done. apply lookup_insert_eq. }
  assert (link h' la a) as L2.
  { split; [rewrite (proj1 (Hu la ltac:(intros ->%list_elem_of_singleton; by apply Hli)))|
            rewrite (proj2 (Hu a ltac:(intros Ea%list_elem_of_singleton; by destruct (Hd a Ha))))]; cbn;
      apply lookup_insert_eq. }
  assert (default f (last l') = la) as Ela by (subst la; rewrite last_cons; by destruct (last l')).
  split.
  - apply between_join; fold a.
    + split; [done|]. destruct Hb' as [_ Hb']. apply NoDup_cons in Hnd' as [Hff Hnd''].
      eapply between_redirect; [exact Hb' | by apply NoDup_cons | by rewrite Ela | |]; rewrite ?Ela; intros y Hy.
      * intros Hyla. apply Fn; [by intros -> | | done]. intros ->. by apply (Hd head ltac:(by left)).
      * apply Fp; [intros ->; apply Hli; by right | by intros -> |]. intros ->. apply (Hd a Ha). by right.
    + replace (default head (last (f :: l'))) with la by (subst la; rewrite last_cons; by destruct (last l')).
      eapply between_enter; [exact Hb | | done | |]; [|intros y Hy..].
      * rewrite NoDup_app. splits; [done | | apply NoDup_singleton]. by intros y Hy ->%list_elem_of_singleton.
      * apply Fn; [by apply Hd; right | by intros -> |]. intros ->. by destruct (Hd la ltac:(by right)).
      * assert (y ∈ head :: l) as Hy' by (apply elem_of_app in Hy as [?|Hy%list_elem_of_singleton]; [by right | subst y; by left]).
        intros Hya. apply Fp; [by apply Hd | | done]. intros ->. apply (Hd f Hy'). by left.
  - apply NoDup_cons. split; [rewrite not_elem_of_app; split; [by apply Hd; left | done]|].
    apply NoDup_app. splits; [done | | done]. intros y Hy Hy2. by apply (Hd y ltac:(by right)).
Qed.

(** ** LL lists *)

(** The list that starts at [p]: a chain of [next], ended by NULL. *)
Fixpoint chain (h : store) (p : Z) (l : list Z) : Prop :=
  match l with
  | [] => p = 0
  | x :: l => p = x /\ x <> 0 /\ exists n, s_next h !! x = Some n /\ chain h n l
  end.

Lemma chain_frame h h' p l :
  (forall y, y ∈ l -> s_next h' !! y = s_next h !! y) -> chain h p l -> chain h' p l.
Proof.
  revert p. induction l as [|x l IH]; intros p H; [done|]. intros (-> & Hx & n & Hn & Hc).
  split; [done|]. split; [done|]. exists n. split; [rewrite H by (by left); done|].
  apply IH; [|done]. intros y Hy. apply H. by right.
Qed.

(** The list of the pool as it is used: every [prev] is NULL, because [LL_ADD] does not
    set the one of the old head. *)
Definition stack (h : store) (p : Z) (l : list Z) : Prop :=
  chain h p l /\ NoDup l /\ Forall (fun y => s_prev h !! y = Some 0) l.

Lemma ll_add_spec h p l x :
  stack h p l -> node_at h x -> x <> 0 -> x ∉ l ->
  exists h', LL_ADD x p h = Some (x, h') /\ stack h' x (x :: l).
Proof.
  intros (Hc & Hnd & Hp) [H1 H2] Hx Hni. unfold LL_ADD. rewrite set_prev_at by done. cbn [mbind option_bind].
  rewrite set_next_at by (cbn; eauto). cbn [mbind option_bind s_next s_prev]. eexists. split; [done|].
  split; [|split; [by apply NoDup_cons|]].
  - split; [done|]. split; [done|]. exists p. split; [apply lookup_insert_eq|].
    eapply chain_frame; [|exact Hc]. intros y Hy. cbn. rewrite lookup_insert_ne; [done|]. by intros ->.
  - constructor; [apply lookup_insert_eq|]. rewrite Forall_forall in *. intros y Hy. cbn.
    rewrite lookup_insert_ne; [by apply Hp|]. by intros ->.
Qed.

(** Removing the head. *)
Lemma ll_remove_head_spec h x l :
  stack h x (x :: l) -> 0 ∉ l -> exists p h', LL_REMOVE x x h = Some (p, h') /\ stack h' p l.
Proof.
  intros ((_ & Hx & n & Hn & Hc) & Hnd & Hp) H0. apply NoDup_cons in Hnd as [Hni Hnd].
  apply Forall_cons in Hp as [Hpx Hp].
  unfold LL_REMOVE, get_next, get_prev. rewrite Hpx. cbn [mbind option_bind]. rewrite Hn.
  cbn [mbind option_bind Z.eqb negb]. rewrite Hn. cbn [mbind option_bind]. rewrite Hpx. cbn [mbind option_bind].
  assert (n = 0 \/ n ∈ l) as Hnl by (destruct l; [by left | right; destruct Hc as [-> _]; by left]).
  set (h1 := if negb (n =? 0) then mkstore (s_next h) (<[n := 0]> (s_prev h)) else h).
  assert ((if negb (n =? 0) then set_prev n 0 h else Some h) = Some h1) as ->.
  { subst h1. destruct (Z.eqb_spec n 0); cbn [negb]; [done|]. apply set_prev_at.
    destruct Hnl as [?|Hin]; [done|]. rewrite Forall_forall in Hp. rewrite (Hp n Hin). eauto. }
  cbn [mbind option_bind]. assert (s_next h1 = s_next h) as En by (subst h1; by destruct (negb _)).
  assert (is_Some (s_prev h1 !! x)) as Hp1 by (subst h1; destruct (negb _); cbn; eauto).
  rewrite En, Hn. cbn [mbind option_bind]. rewrite Z.eqb_refl, set_next_at by (rewrite En; eauto).
  cbn [mbind option_bind]. rewrite set_prev_at by (cbn; done). cbn [mbind option_bind].
  eexists _, _. split; [done|]. cbn [s_next s_prev]. split; [|split; [done|]].
  - eapply chain_frame; [|exact Hc]. intros y Hy. cbn. rewrite En, lookup_insert_ne; [done|]. by intros ->.
  - rewrite Forall_forall in *. intros y Hy. cbn. rewrite lookup_insert_ne by (by intros ->).
    subst h1. destruct (negb _); cbn; [|by apply Hp].
    destruct (decide (y = n)) as [->|]; [apply lookup_insert_eq | rewrite lookup_insert_ne by done; by apply Hp].
Qed.

(** ** The properties of the lists *)

(** A small store: a head at 1, nodes from 2 to 4, another head at 9 with its node 8. *)
Definition some_store : store :=
  mkstore (list_to_map [(1, 2); (2, 3); (3, 1); (4, 0); (9, 8); (8, 9)])
          (list_to_map [(1, 3); (2, 1); (3, 2); (4, 0); (9, 8); (8, 9)]).
(** A stack of three nodes as [LL_ADD] makes it, and a node outside. *)
Definition some_stack : store :=
  mkstore (list_to_map [(1, 2); (2, 3); (3, 0); (4, 0)]) (list_to_map [(1, 0); (2, 0); (3, 0); (4, 0)]).

Lemma some_queue : queue some_store 1 [2; 3].
Proof.
  split; [|apply (bool_decide_unpack _); vm_compute; exact I].
  split; [split; vm_compute; reflexivity|]. split; [split; vm_compute; reflexivity|].
  split; [vm_compute; reflexivity|]. vm_compute. reflexivity.
Qed.

Lemma other_queue : queue some_store 9 [8].
Proof.
  split; [|apply (bool_decide_unpack _); vm_compute; exact I].
  split; [split; vm_compute; reflexivity|]. split; vm_compute; reflexivity.
Qed.

Lemma some_stack_ok : stack some_stack 1 [1; 2; 3].
Proof.
  split; [|split; [apply (bool_decide_unpack _); vm_compute; exact I |]].
  - split; [done|]. split; [done|]. exists 2. split; [vm_compute; reflexivity|].
    split; [done|]. split; [done|]. exists 3. split; [vm_compute; reflexivity|].
    split; [done|]. split; [done|]. exists 0. split; [vm_compute; reflexivity | done].
  - repeat constructor.
Qed.

(** Ending a chain at one of its nodes. *)
Lemma chain_cut h h' p l1 y l2 :
  chain h p (l1 ++ y :: l2) -> NoDup (l1 ++ y :: l2) -> s_next h' !! y = Some 0 ->
  (forall x, x <> y -> s_next h' !! x = s_next h !! x) -> chain h' p (l1 ++ [y]).
Proof.
  intros Hc Hnd Hy Hn. revert p Hc. induction l1 as [|x l1 IH]; intros p Hc; cbn in *.
  - destruct Hc as (-> & Hz & _). splits; [done | done |]. by exists 0.
  - destruct Hc as (-> & Hx & m & Hm & Hc). splits; [done | done |]. exists m.
    apply NoDup_cons in Hnd as [Hni Hnd]. split; [|by apply IH].
    rewrite Hn; [done|]. intros ->. apply Hni, elem_of_app. right. by left.
Qed.

(** What follows a node of a chain. *)
Lemma chain_next h p l1 y l2 n :
  chain h p (l1 ++ y :: l2) -> s_next h !! y = Some n -> n = 0 \/ n ∈ l2.
Proof.
  intros Hc Hn. revert p Hc. induction l1 as [|x l1 IH]; intros p Hc; cbn in Hc.
  - destruct Hc as (-> & _ & m & Hm & Hc). rewrite Hn in Hm. injection Hm as <-.
    destruct l2; [by left | destruct Hc as (-> & _); right; by left].
  - destruct Hc as (_ & _ & m & _ & Hc). by apply (IH m).
Qed.

Lemma chain_at h p l : chain h p l -> forall y, y ∈ l -> y <> 0 /\ is_Some (s_next h !! y).
Proof.
  revert p. induction l as [|x l IH]; intros p Hc y Hy; [by apply elem_of_nil in Hy|].
  destruct Hc as (-> & Hx & n & Hn & Hc). apply elem_of_cons in Hy as [->|Hy]; [by eauto|]. by apply (IH n).
Qed.

(** C19: the queue macros implement lists: on a head whose ring is [l], adding a fresh
    node in front or at the tail and deleting any node give the rings of the lists with
    that change, touch nothing outside, and the iteration macro then visits exactly
    those nodes in order. *)
Theorem iqueue_is_a_list h head l :
  queue h head l ->
  (forall x, node_at h x -> x ∉ head :: l ->
     exists h1 h2, IQUEUE_ADD x head h = Some h1 /\ queue h1 head (x :: l) /\ untouched (x :: head :: l) h h1 /\
                   IQUEUE_ADD_TAIL x head h = Some h2 /\ queue h2 head (l ++ [x]) /\ untouched (x :: head :: l) h h2) /\
  (forall l1 x l2, l = l1 ++ x :: l2 ->
     exists h1, IQUEUE_DEL x h = Some h1 /\ queue h1 head (l1 ++ l2) /\
                get_next x h1 = Some 0 /\ get_prev x h1 = Some 0 /\ untouched (head :: l) h h1) /\
  IQUEUE_IS_EMPTY head h = Some (bool_decide (l = [])) /\
  (n ← get_next head h; iqueue_foreach (length l) n head h) = Some l.
Proof.
  intros Hq. splits.
  - intros x Hx Hni. destruct (add_spec _ _ _ _ Hq Hx Hni) as (h1 & ? & ? & ?).
    destruct (add_tail_spec _ _ _ _ Hq Hx Hni) as (h2 & ? & ? & ?). by exists h1, h2.
  - intros l1 x l2 ->. destruct (del_spec _ _ _ _ _ Hq) as (h1 & ? & ? & ? & ? & ?). by exists h1.
  - by apply is_empty_spec.
  - destruct Hq as [Hb Hnd]. unfold get_next. rewrite (between_next _ _ _ _ Hb). cbn [mbind option_bind].
    apply (foreach_spec _ _ _ _ _ Hb); [|done]. by apply NoDup_cons in Hnd as [? _].
Qed.

Lemma iqueue_is_a_list_witness :
  IQUEUE_IS_EMPTY 1 some_store = Some false /\
  exists h1, IQUEUE_DEL 3 some_store = Some h1 /\ queue h1 1 [2].
Proof.
  destruct (iqueue_is_a_list some_store 1 [2; 3] some_queue) as (_ & H1 & H2 & _). split; [exact H2|].
  destruct (H1 [2] 3 [] eq_refl) as (h1 & E & Hq & _). exists h1. exact (conj E Hq).
Defined.

(** Splicing moves a whole queue in front of another one and leaves its head empty
    and usable, the empty queue included. *)
Theorem iqueue_splice_moves h head l list_ l' :
  queue h head l -> queue h list_ l' -> (forall y, y ∈ head :: l -> y ∉ list_ :: l') ->
  exists h', iqueue_splice_init list_ head h = Some h' /\ queue h' head (l' ++ l) /\ queue h' list_ [] /\
    IQUEUE_IS_EMPTY list_ h' = Some true.
Proof.
  intros H1 H2 H3. destruct (splice_init_spec _ _ _ _ _ H1 H2 H3) as (h' & E & Hq & He). exists h'. splits; try done.
  by rewrite (is_empty_spec _ _ _ He).
Qed.

Lemma iqueue_splice_moves_witness :
  exists h', iqueue_splice_init 9 1 some_store = Some h' /\ queue h' 1 [8; 2; 3].
Proof.
  destruct (iqueue_splice_moves some_store 1 [2; 3] 9 [8] some_queue other_queue) as (h' & E & Hq & _).
  - intros y Hy. apply (bool_decide_unpack _). revert y Hy. apply Forall_forall. repeat constructor.
  - exists h'. exact (conj E Hq).
Defined.

(** Used as the pool uses them -- add in front, take from the front -- the LL
    macros are a stack: jobs come out last in, first out. *)
Theorem ll_stack h p l x :
  stack h p l -> node_at h x -> x <> 0 -> x ∉ l -> 0 ∉ l ->
  exists h1 p2 h2, LL_ADD x p h = Some (x, h1) /\ stack h1 x (x :: l) /\
    LL_REMOVE x x h1 = Some (p2, h2) /\ stack h2 p2 l.
Proof.
  intros Hs Hn Hx Hni H0. destruct (ll_add_spec _ _ _ _ Hs Hn Hx Hni) as (h1 & E1 & Hs1).
  destruct (ll_remove_head_spec _ _ _ Hs1 H0) as (p2 & h2 & E2 & Hs2). by exists h1, p2, h2.
Qed.

Lemma ll_stack_witness :
  exists h1 p2 h2, LL_ADD 4 1 some_stack = Some (4, h1) /\ LL_REMOVE 4 4 h1 = Some (p2, h2) /\ stack h2 p2 [1; 2; 3].
Proof.
  destruct (ll_stack some_stack 1 [1; 2; 3] 4 some_stack_ok) as (h1 & p2 & h2 & E1 & _ & E2 & Hs).
  - split; vm_compute; eauto.
  - discriminate.
  - apply (bool_decide_unpack _). vm_compute. exact I.
  - apply (bool_decide_unpack _). vm_compute. exact I.
  - exists h1, p2, h2. exact (conj E1 (conj E2 Hs)).
Defined.

(** But [LL_ADD] leaves [prev] of the old head NULL, so [LL_REMOVE] of any other
    node than the head leaves that node on the list and cuts off all that follows it. *)
Theorem ll_remove_middle_loses h p l1 y l2 :
  stack h p (l1 ++ y :: l2) -> l1 <> [] ->
  exists h', LL_REMOVE y p h = Some (p, h') /\ chain h' p (l1 ++ [y]).
Proof.
  intros (Hc & Hnd & Hp) Hl1.
  assert (p <> y) as Hpy.
  { destruct l1 as [|x l1]; [done|]. destruct Hc as (-> & _). intros ->. cbn in Hnd. apply NoDup_cons in Hnd as [Hni _].
    apply Hni, elem_of_app. right. by left. }
  assert (y ∈ l1 ++ y :: l2) as Hin by (apply elem_of_app; right; by left).
  destruct (chain_at _ _ _ Hc _ Hin) as [Hy0 [n Hn]].
  rewrite Forall_forall in Hp. pose proof (Hp y Hin) as Hpy0.
  pose proof (chain_next _ _ _ _ _ _ Hc Hn) as Hnl.
  unfold LL_REMOVE, get_next, get_prev. rewrite Hpy0. cbn [mbind option_bind]. rewrite Hn.
  cbn [mbind option_bind Z.eqb negb]. rewrite Hn. cbn [mbind option_bind]. rewrite Hpy0. cbn [mbind option_bind].
  set (h1 := if negb (n =? 0) then mkstore (s_next h) (<[n := 0]> (s_prev h)) else h).
  assert ((if negb (n =? 0) then set_prev n 0 h else Some h) = Some h1) as ->.
  { subst h1. destruct (Z.eqb_spec n 0); cbn [negb]; [done|]. apply set_prev_at.
    destruct Hnl as [?|Hn2]; [done|]. rewrite (Hp n); [by eauto|]. apply elem_of_app. right. by right. }
  cbn [mbind option_bind]. assert (s_next h1 = s_next h) as En by (subst h1; by destruct (negb _)).
  assert (is_Some (s_prev h1 !! y)) as Hp1 by (subst h1; destruct (negb _); cbn; [apply is_Some_insert_alter|]; eauto).
  rewrite En, Hn. cbn [mbind option_bind]. rewrite (proj2 (Z.eqb_neq p y)) by done.
  rewrite set_next_at by (rewrite En; eauto). cbn [mbind option_bind]. rewrite set_prev_at by (cbn; done).
  cbn [mbind option_bind]. eexists. split; [done|]. cbn [s_next s_prev].
  eapply chain_cut; [exact Hc | exact Hnd | apply lookup_insert_eq|].
  intros x Hx. cbn. by rewrite En, lookup_insert_ne.
Qed.

Lemma ll_remove_middle_loses_witness :
  exists h', LL_REMOVE 2 1 some_stack = Some (1, h') /\ chain h' 1 [1; 2].
Proof.
  apply (ll_remove_middle_loses some_stack 1 [1] 2 [3] some_stack_ok). discriminate.
Defined.
