(* ===== verification/WorkQueue.v ===== *)
(** * server_mulport_epoll.c: the thread pool.

    A state of the pool is what the mutex protects (the waiting jobs), who holds the
    mutex, the termination flags, and where each worker is in [worker_function].  A
    step is one action of one thread; any interleaving is a sequence of steps. *)
From S2P Require Import Prelude Threads.
From stdpp Require Import base list numbers gmap.
Open Scope Z_scope.

Definition job := Z.

(** Where a worker is: before [pthread_mutex_lock]; at the test of the inner loop,
    with the mutex; asleep in [pthread_cond_wait]; with the mutex and a job taken;
    running a job, without the mutex; after the outer loop. *)
Inductive wpc : Type :=
  | WLock
  | WLoop
  | WSleep
  | WTaken (j : job)
  | WRun (j : job)
  | WExit.

#[export] Instance wpc_eq_dec : EqDecision wpc.
Proof. solve_decision. Defined.

(** [struct worker]: [terminate] and the place of its thread. *)
Record worker : Type := mkworker { terminate : bool; pc : wpc }.

(** [struct workqueue]; [workers] are the threads that exist, [registered] the list
    [workqueue->workers]; [mutex] is the thread that holds [jobs_mutex]; [ran] are the
    jobs whose function was called. *)
Record workqueue : Type := mkpool {
  workers : list worker;
  registered : list nat;
  waiting_jobs : list job;
  mutex : option nat;
  ran : list job;
}.

Definition set_worker (i : nat) (w : worker) (q : workqueue) : workqueue :=
  mkpool (<[i := w]> (workers q)) (registered q) (waiting_jobs q) (mutex q) (ran q).
Definition set_mutex (m : option nat) (q : workqueue) : workqueue :=
  mkpool (workers q) (registered q) (waiting_jobs q) m (ran q).
Definition set_waiting (l : list job) (q : workqueue) : workqueue :=
  mkpool (workers q) (registered q) l (mutex q) (ran q).
Definition set_ran (l : list job) (q : workqueue) : workqueue :=
  mkpool (workers q) (registered q) (waiting_jobs q) (mutex q) l.

(** [workqueue_init]: [started] tells, for each worker in turn, whether [malloc] and
    [pthread_create] succeed; the first failure ends it with 1. *)
Fixpoint start_workers (n : nat) (started : list bool) (q : workqueue) : Z * workqueue :=
  match n with
  | O => (0, q)
  | S n =>
    match started with
    | true :: started =>
      let q := mkpool (workers q ++ [mkworker false WLock]) (length (workers q) :: registered q)
                      (waiting_jobs q) (mutex q) (ran q) in
      start_workers n started q
    | _ => (1, q)
    end
  end.
Definition workqueue_init (numWorkers : Z) (started : list bool) : Z * workqueue :=
  let numWorkers := if numWorkers <? 1 then 1 else numWorkers in
  start_workers (Z.to_nat numWorkers) started (mkpool [] [] [] None []).

(** One action of worker [i] in [worker_function]; [None] when it is blocked or gone. *)
Definition worker_function (i : nat) (q : workqueue) : option workqueue :=
  match workers q !! i with
  | None => None
  | Some w =>
    match pc w with
    | WLock =>
      match mutex q with
      | Some _ => None
      | None => Some (set_mutex (Some i) (set_worker i (mkworker (terminate w) WLoop) q))
      end
    | WLoop =>
      match waiting_jobs q with
      | [] =>
        if terminate w then Some (set_worker i (mkworker (terminate w) WExit) q)
        else Some (set_mutex None (set_worker i (mkworker (terminate w) WSleep) q))
      | j :: rest =>
        if terminate w then Some (set_worker i (mkworker (terminate w) WExit) q)
        else Some (set_waiting rest (set_worker i (mkworker (terminate w) (WTaken j)) q))
      end
    | WSleep => None
    | WTaken j => Some (set_mutex None (set_worker i (mkworker (terminate w) (WRun j)) q))
    | WRun j => Some (set_ran (ran q ++ [j]) (set_worker i (mkworker (terminate w) WLock) q))
    | WExit => None
    end
  end.

(** The end of a wait by a signal or a spurious wakeup.  The woken thread
    has to take the mutex again, which leads it to the test of the inner loop. *)
Definition wake (i : nat) (q : workqueue) : option workqueue :=
  match workers q !! i with
  | Some w =>
    match pc w with
    | WSleep => Some (set_worker i (mkworker (terminate w) WLock) q)
    | _ => None
    end
  | None => None
  end.

(** [pthread_cond_signal] wakes one of the threads that wait, [k], if there are any;
    [pthread_cond_broadcast] all of them. *)
Definition asleep (w : worker) : bool := match pc w with WSleep => true | _ => false end.
Definition cond_signal (k : option nat) (q : workqueue) : option workqueue :=
  match k with
  | Some i => wake i q
  | None => if existsb asleep (workers q) then None else Some q
  end.
Definition awaken (w : worker) : worker := if asleep w then mkworker (terminate w) WLock else w.
Definition cond_broadcast (q : workqueue) : workqueue :=
  mkpool (map awaken (workers q)) (registered q) (waiting_jobs q) (mutex q) (ran q).

(** [workqueue_add_job]: lock, [LL_ADD], signal, unlock; blocked while the mutex is held. *)
Definition workqueue_add_job (j : job) (k : option nat) (q : workqueue) : option workqueue :=
  match mutex q with
  | Some _ => None
  | None => cond_signal k (set_waiting (j :: waiting_jobs q) q)
  end.

(** The two parts of [workqueue_shutdown]: the flag of each registered worker, one by
    one and without the mutex; then, with it, the lists are emptied and all are woken. *)
Definition shutdown_flag (i : nat) (q : workqueue) : option workqueue :=
  if bool_decide (i ∈ registered q) then
    match workers q !! i with
    | Some w => Some (set_worker i (mkworker true (pc w)) q)
    | None => None
    end
  else None.
Definition shutdown_clear (q : workqueue) : option workqueue :=
  match mutex q with
  | Some _ => None
  | None => Some (cond_broadcast (mkpool (workers q) [] [] None (ran q)))
  end.

(** What happens, with its label. *)
Inductive event : Type := EWork (i : nat) | EWake (i : nat) | EAdd (j : job) (k : option nat) | EFlag (i : nat) | EClear.

#[export] Instance event_eq_dec : EqDecision event.
Proof. solve_decision. Defined.

Definition pool_step (e : event) (q : workqueue) : option workqueue :=
  match e with
  | EWork i => worker_function i q
  | EWake i => wake i q
  | EAdd j k => workqueue_add_job j k q
  | EFlag i => shutdown_flag i q
  | EClear => shutdown_clear q
  end.

(** A run, with the events that make it. *)
#[global] Abbreviation run := (steps pool_step).

(** The jobs a run submitted. *)
Definition added (es : list event) : list job := omap (fun e => match e with EAdd j _ => Some j | _ => None end) es.

(** The job a worker has in hand. *)
Definition in_hand (w : worker) : list job :=
  match pc w with WTaken j | WRun j => [j] | _ => [] end.

(** ** Invariants *)

(** The mutex is held exactly by the worker that is between lock and unlock, or that
    has left the loop without unlocking. *)
Definition holds (w : worker) : bool :=
  match pc w with WLoop | WTaken _ | WExit => true | _ => false end.

Definition exclusive (q : workqueue) : Prop := owned holds (workers q) (mutex q).

Lemma exclusive_init n started : exclusive (workqueue_init n started).2.
Proof.
  assert (forall n started q, (forall i w, workers q !! i = Some w -> holds w = false) -> mutex q = None ->
    (forall i w, workers (start_workers n started q).2 !! i = Some w -> holds w = false) /\
    mutex (start_workers n started q).2 = None) as H.
  { clear. induction n as [|n IH]; intros [|[] started] q Hq Hm; cbn; try done.
    apply IH; [|done]. intros i w Hw. cbn in Hw. apply lookup_app_Some in Hw as [Hw|[_ Hw]]; [by eapply Hq|].
    destruct (i - length (workers q))%nat; [|done]. cbn in Hw. by injection Hw as <-. }
  unfold workqueue_init. intros i w Hw.
  destruct (H (Z.to_nat (if n <? 1 then 1 else n)) started (mkpool [] [] [] None []) ltac:(by intros ? ? ?) eq_refl) as [H1 H2].
  rewrite (H1 i w Hw), H2. done.
Qed.

(** Updating one worker and the mutex together. *)
Lemma exclusive_update i w w' (q : workqueue) m l r :
  exclusive q -> workers q !! i = Some w ->
  (holds w' = true <-> m = Some i) -> 
  (forall k, k <> i -> (m = Some k <-> mutex q = Some k)) ->
  exclusive (mkpool (<[i := w']> (workers q)) (registered q) l m r).
Proof.
  intros Hex Hw Hi Hk. by apply (owned_update holds (workers q) (mutex q) m i w w').
Qed.

Lemma exclusive_wake i q q' : exclusive q -> wake i q = Some q' -> exclusive q'.
Proof.
  intros Hex Hst. unfold wake, set_worker in Hst. destruct (workers q !! i) as [w|] eqn:Ew; [|done].
  pose proof (Hex i w Ew) as Hi. unfold holds in Hi. destruct (pc w) eqn:Epc; try done.
  injection Hst as <-. eapply exclusive_update; [done | done | |]; cbn; [intuition congruence|]. done.
Qed.

Lemma exclusive_step e q q' : exclusive q -> pool_step e q = Some q' -> exclusive q'.
Proof.
  intros Hex Hst. destruct e; cbn in Hst.
  - unfold worker_function, set_worker, set_mutex, set_waiting, set_ran in Hst.
    destruct (workers q !! i) as [w|] eqn:Ew; [|done].
    pose proof (Hex i w Ew) as Hi. unfold holds in Hi. destruct (pc w) eqn:Epc; try done.
    + destruct (mutex q) eqn:Em; [done|]. injection Hst as <-.
      eapply exclusive_update; [done | done | done |]. intros k Hk. rewrite Em. intuition congruence.
    + destruct (waiting_jobs q); destruct (terminate w); injection Hst as <-;
        (eapply exclusive_update; [done | done | |]; cbn; [tauto || intuition congruence|]); intros k Hk; intuition congruence.
    + injection Hst as <-. eapply exclusive_update; [done | done | done |]. intros k Hk. intuition congruence.
    + injection Hst as <-. eapply exclusive_update; [done | done | |]; cbn; [intuition congruence|]. done.
  - by eapply exclusive_wake.
  - unfold workqueue_add_job in Hst. destruct (mutex q) eqn:Em; [done|].
    assert (exclusive (set_waiting (j :: waiting_jobs q) q)) as Hex' by exact Hex.
    destruct k as [i|]; cbn in Hst; [by eapply exclusive_wake|].
    destruct (existsb asleep (workers q)); [done|]. by injection Hst as <-.
  - unfold shutdown_flag, set_worker in Hst. destruct (bool_decide _); [|done].
    destruct (workers q !! i) as [w|] eqn:Ew; [|done]. injection Hst as <-.
    eapply exclusive_update; [done | done | exact (Hex i w Ew) |]. done.
  - unfold shutdown_clear in Hst. destruct (mutex q) eqn:Em; [done|]. injection Hst as <-.
    intros i w Hw. cbn in *. rewrite list_lookup_fmap in Hw.
    destruct (workers q !! i) as [x|] eqn:Ex; [|done]. cbn in Hw. injection Hw as <-.
    assert (holds (awaken x) = holds x) as -> by (unfold awaken, asleep, holds; by destruct (pc x) eqn:E; rewrite ?E).
    by rewrite (Hex i x Ex), Em.
Qed.

Lemma exclusive_run es q q' : exclusive q -> run es q q' -> exclusive q'.
Proof. intros H Hr. induction Hr; eauto using exclusive_step. Qed.

(** Every submitted job is in exactly one place, until a shutdown empties the list. *)
Definition places (q : workqueue) : list job := waiting_jobs q ++ concat (map in_hand (workers q)) ++ ran q.

Lemma in_hand_update (l : list worker) i w w' :
  l !! i = Some w -> in_hand w = in_hand w' -> concat (map in_hand (<[i := w']> l)) ≡ₚ concat (map in_hand l).
Proof.
  intros Hw E. by apply (concat_map_same in_hand l i w w').
Qed.

Lemma places_wake i q q' : wake i q = Some q' -> places q' ≡ₚ places q.
Proof.
  unfold wake, places. destruct (workers q !! i) as [w|] eqn:Ew; [|done]. destruct (pc w) eqn:Epc; try done.
  intros [= <-]. cbn. rewrite in_hand_update; [done | done |]. unfold in_hand. by rewrite Epc.
Qed.

Lemma places_work i q q' : worker_function i q = Some q' -> places q' ≡ₚ places q.
Proof.
  unfold worker_function, places. destruct (workers q !! i) as [w|] eqn:Ew; [|done].
  pose proof (fun w' => in_hand_update (workers q) i w w' Ew) as Hsame.
  pose proof (fun w' => concat_map_insert in_hand (workers q) i w w' Ew) as Hins.
  unfold in_hand in Hsame at 1, Hins at 1. destruct (pc w) eqn:Epc; try done.
  - destruct (mutex q); [done|]. intros [= <-]. cbn. by rewrite Hsame.
  - destruct (waiting_jobs q) as [|j rest] eqn:Ewait; destruct (terminate w); intros [= <-]; cbn;
      rewrite ?Ewait; try (by rewrite Hsame).
    pose proof (Hins (mkworker false (WTaken j))) as H. cbn in H. rewrite H. cbn. symmetry. apply Permutation_middle.
  - intros [= <-]. cbn. by rewrite Hsame.
  - intros [= <-]. cbn. pose proof (Hins (mkworker (terminate w) WLock)) as H. cbn in H.
    rewrite <- H. apply Permutation_app_head. cbn. by rewrite (assoc_L (++)), <- Permutation_cons_append.
Qed.

Lemma places_step e q q' :
  e <> EClear -> pool_step e q = Some q' ->
  places q' ≡ₚ places q ++ added [e].
Proof.
  intros Hne Hst. destruct e; cbn in *; rewrite ?app_nil_r; try done.
  - by eapply places_work.
  - by eapply places_wake.
  - unfold workqueue_add_job in Hst. destruct (mutex q); [done|].
    assert (places (set_waiting (j :: waiting_jobs q) q) ≡ₚ places q ++ [j]) as E
      by (unfold places; cbn; by rewrite Permutation_cons_append).
    rewrite <- E. destruct k as [i|]; cbn in Hst; [by eapply places_wake|].
    destruct (existsb asleep (workers q)); [done|]. by injection Hst as <-.
  - unfold shutdown_flag in Hst. destruct (bool_decide _); [|done].
    destruct (workers q !! i) as [w|] eqn:Ew; [|done]. injection Hst as <-. unfold places. cbn.
    by rewrite in_hand_update.
Qed.

Lemma places_run es q q' : EClear ∉ es -> run es q q' -> places q' ≡ₚ places q ++ added es.
Proof.
  intros Hn Hr. induction Hr as [q|e es q1 q2 q3 Hs Hr IH]; [by rewrite app_nil_r|].
  rewrite elem_of_cons in Hn. rewrite IH by tauto. rewrite (places_step e q1 q2) by (done || naive_solver).
  rewrite <- (assoc_L (++)). by destruct e.
Qed.
