(* ===== verification/WorkProps.v ===== *)
(** * The properties of the thread pool. *)
From S2P Require Import Prelude Threads WorkQueue.
From stdpp Require Import base list numbers gmap.
Open Scope Z_scope.

(** ** A pool nobody shuts down *)

Definition peaceful (e : event) : bool := match e with EFlag _ | EClear => false | _ => true end.
Definition is_work (e : event) : bool := match e with EWork _ => true | _ => false end.

(** No worker is told to stop, the owner of the mutex exists, and when jobs wait some
    worker is awake. *)
Record calm (q : workqueue) : Prop := mkcalm {
  calm_staying : Forall (fun w => terminate w = false /\ pc w <> WExit) (workers q);
  calm_owner : forall i, mutex q = Some i -> is_Some (workers q !! i);
  calm_manned : workers q <> [];
  calm_awake : waiting_jobs q = [] \/ Exists (fun w => asleep w = false) (workers q);
}.

(** A run computed from its events, and a pool of two workers to run. *)
Definition run_events : list event -> workqueue -> option workqueue := run_steps pool_step.
Definition pool2 : workqueue := (workqueue_init 2 [true; true]).2.
Definition after (es : list event) : workqueue := default pool2 (run_events es pool2).

(** What is left to do: at most this many steps of the workers. *)
Definition weight_of (w : worker) : nat :=
  match pc w with WTaken _ => 4 | WRun _ => 3 | WLock => 2 | WLoop => 1 | WSleep | WExit => 0 end.
Definition weight (q : workqueue) : nat :=
  4 * length (waiting_jobs q) + sum_list (map weight_of (workers q)).

Lemma start_workers_ok n started q q' :
  start_workers n started q = (0, q') ->
  workers q' = workers q ++ replicate n (mkworker false WLock) /\
  waiting_jobs q' = waiting_jobs q /\ mutex q' = mutex q /\ ran q' = ran q.
Proof.
  revert started q. induction n as [|n IH]; intros started q H; cbn in H.
  - injection H as <-. by rewrite app_nil_r.
  - destruct started as [|[] started]; try done. destruct (IH _ _ H) as (Hw & Hq & Hm & Hr).
    rewrite Hw, Hq, Hm, Hr. cbn. by rewrite <- (assoc_L (++)).
Qed.

Lemma init_ok n started q :
  workqueue_init n started = (0, q) ->
  workers q = replicate (Z.to_nat (Z.max 1 n)) (mkworker false WLock) /\
  waiting_jobs q = [] /\ mutex q = None /\ ran q = [].
Proof.
  unfold workqueue_init. intros H. apply start_workers_ok in H. cbn in H.
  replace (Z.max 1 n) with (if n <? 1 then 1 else n); [done|]. destruct (n <? 1) eqn:E; lia.
Qed.

Lemma init_exclusive n started q : workqueue_init n started = (0, q) -> exclusive q.
Proof. intros H. replace q with (workqueue_init n started).2 by (by rewrite H). apply exclusive_init. Qed.

Lemma init_places n started q : workqueue_init n started = (0, q) -> places q = [].
Proof.
  intros H. destruct (init_ok _ _ _ H) as (Hw & Hq & _ & Hr). unfold places. rewrite Hw, Hq, Hr, app_nil_r. cbn.
  clear. by induction (Z.to_nat (Z.max 1 n)).
Qed.

Lemma init_calm n started q : workqueue_init n started = (0, q) -> calm q.
Proof.
  intros H. destruct (init_ok _ _ _ H) as (Hw & Hq & Hm & Hr). constructor.
  - rewrite Hw. by apply Forall_replicate.
  - by rewrite Hm.
  - rewrite Hw. by destruct (Z.to_nat (Z.max 1 n)) eqn:E; [lia|].
  - by left.
Qed.

Lemma insert_not_nil (l : list worker) i w : l <> [] -> <[i := w]> l <> [].
Proof. destruct l, i; done. Qed.

Lemma awake_insert (l : list worker) i w :
  (i < length l)%nat -> asleep w = false -> Exists (fun w => asleep w = false) (<[i := w]> l).
Proof. intros Hi Hw. apply Exists_exists. exists w. split; [|done]. by apply list_elem_of_insert. Qed.

(** A step that moves one worker, which stays. *)
Lemma calm_update i w w' (q : workqueue) m l r :
  calm q -> workers q !! i = Some w -> terminate w' = false -> pc w' <> WExit ->
  (m = None \/ m = Some i \/ m = mutex q) -> (asleep w' = false \/ l = []) ->
  calm (mkpool (<[i := w']> (workers q)) (registered q) l m r).
Proof.
  intros [Hs Ho Hm Ha] Hw Ht Hp Hmu Haw. pose proof (lookup_lt_Some _ _ _ Hw) as Hi. constructor; cbn.
  - by apply Forall_insert.
  - intros k Hk. apply lookup_lt_is_Some. rewrite length_insert.
    destruct Hmu as [-> | [-> | ->]]; [done | by injection Hk as -> |]. by apply lookup_lt_is_Some, Ho.
  - by apply insert_not_nil.
  - destruct Haw; [right; by apply awake_insert | by left].
Qed.

Lemma calm_wake i q q' : calm q -> wake i q = Some q' -> calm q'.
Proof.
  intros Hc. unfold wake, set_worker. destruct (workers q !! i) as [w|] eqn:Ew; [|done].
  destruct (pc w) eqn:Ep; try done. intros [= <-].
  destruct (Forall_lookup_1 _ _ _ _ (calm_staying _ Hc) Ew) as [Ht _].
  eapply calm_update; try done; [by right; right | by left].
Qed.

Lemma calm_work i q q' :
  calm q -> worker_function i q = Some q' -> calm q' /\ (weight q' < weight q)%nat.
Proof.
  intros Hc Hst.
  unfold worker_function, set_worker, set_mutex, set_waiting, set_ran in Hst.
  destruct (workers q !! i) as [w|] eqn:Ew; [|done].
  destruct (Forall_lookup_1 _ _ _ _ (calm_staying _ Hc) Ew) as [Ht Hx].
  pose proof (fun w' => sum_map_insert weight_of (workers q) i w w' Ew) as Hsum.
  unfold weight. unfold weight_of in Hsum at 2. destruct (pc w) eqn:Ep; try done.
  - destruct (mutex q); [done|]. injection Hst as <-. split; [eapply calm_update; eauto|].
    cbn. specialize (Hsum (mkworker (terminate w) WLoop)). cbn in Hsum. lia.
  - rewrite Ht in Hst. destruct (waiting_jobs q) as [|j rest] eqn:Eq; injection Hst as <-.
    + split; [eapply calm_update; eauto|]. cbn. specialize (Hsum (mkworker false WSleep)).
      cbn in Hsum |- *. lia.
    + split; [eapply calm_update; eauto|]. cbn. specialize (Hsum (mkworker false (WTaken j))).
      cbn in Hsum |- *. lia.
  - injection Hst as <-. split; [eapply calm_update; eauto|]. cbn.
    specialize (Hsum (mkworker (terminate w) (WRun j))). cbn in Hsum. lia.
  - injection Hst as <-. split; [eapply calm_update; eauto|]. cbn.
    specialize (Hsum (mkworker (terminate w) WLock)). cbn in Hsum. lia.
Qed.

Lemma calm_step e q q' : peaceful e = true -> calm q -> pool_step e q = Some q' -> calm q'.
Proof.
  intros He Hc Hst. destruct e; cbn in *; try done.
  - by eapply calm_work.
  - by eapply calm_wake.
  - unfold workqueue_add_job in Hst. destruct (mutex q) eqn:Em; [done|]. destruct k as [i|]; cbn in Hst.
    + unfold wake, set_worker in Hst. cbn in Hst. destruct (workers q !! i) as [w|] eqn:Ew; [|done].
      destruct (pc w); try done. injection Hst as <-.
      destruct (Forall_lookup_1 _ _ _ _ (calm_staying _ Hc) Ew) as [Ht _].
      eapply calm_update; try done; [by right; right | by left].
    + destruct (existsb asleep (workers q)) eqn:E; [done|]. injection Hst as <-.
      destruct Hc as [Hs Ho Hm Ha]. constructor; try done. right. cbn.
      destruct (workers q) as [|w l]; [done|]. cbn in E. apply Exists_cons_hd. by destruct (asleep w).
Qed.

Lemma calm_run es q q' : forallb peaceful es = true -> calm q -> run es q q' -> calm q'.
Proof.
  intros He Hc Hr. induction Hr as [|e es q1 q2 q3 Hs Hr IH]; [done|]. cbn in He. apply andb_true_iff in He as [H1 H2].
  eauto using calm_step.
Qed.

Lemma work_run es q q' :
  forallb is_work es = true -> calm q -> run es q q' -> calm q' /\ (length es + weight q' <= weight q)%nat.
Proof.
  intros He Hc Hr. induction Hr as [|e es q1 q2 q3 Hs Hr IH]; [split; [done | cbn [length]; lia]|].
  cbn in He. apply andb_true_iff in He as [H1 H2]. destruct e; try done.
  destruct (calm_work _ _ _ Hc Hs) as [Hc2 Hw]. destruct (IH H2 Hc2). split; [done | cbn [length]; lia].
Qed.

(** When no worker can move, all are asleep and no job waits. *)
Lemma stuck_asleep q :
  exclusive q -> calm q -> (forall i, worker_function i q = None) ->
  waiting_jobs q = [] /\ Forall (fun w => pc w = WSleep) (workers q).
Proof.
  intros Hex Hc Hn.
  assert (Forall (fun w => pc w = WSleep) (workers q)) as Hall.
  { apply Forall_lookup_2. intros i w Hw. pose proof (Hn i) as Hi. unfold worker_function in Hi. rewrite Hw in Hi.
    destruct (Forall_lookup_1 _ _ _ _ (calm_staying _ Hc) Hw) as [Ht Hp]. rewrite Ht in Hi.
    destruct (pc w) eqn:Ep; try done; [|by destruct (waiting_jobs q)].
    destruct (mutex q) as [k|] eqn:Em; [|done]. exfalso. destruct (calm_owner _ Hc _ Em) as [x Hx].
    pose proof (proj2 (Hex k x Hx) Em) as Hh.
    destruct (Forall_lookup_1 _ _ _ _ (calm_staying _ Hc) Hx) as [Htx Hpx].
    pose proof (Hn k) as Hk. unfold worker_function in Hk. rewrite Hx, Htx in Hk. unfold holds in Hh.
    destruct (pc x); try done. by destruct (waiting_jobs q). }
  split; [|done]. destruct (calm_awake _ Hc) as [?|Ha]; [done|]. exfalso.
  apply Exists_exists in Ha as (w & Hin & Hw). rewrite Forall_forall in Hall. unfold asleep in Hw. by rewrite (Hall w Hin) in Hw.
Qed.

(** The workers alone always come to rest. *)
Lemma work_rests q : calm q ->
  exists es q', forallb is_work es = true /\ run es q q' /\ (forall i, worker_function i q' = None).
Proof.
  remember (weight q) as n eqn:En. revert q En. induction (lt_wf n) as [n _ IH]. intros q -> Hc.
  destruct (decide (Exists (fun i => is_Some (worker_function i q)) (seq 0 (length (workers q))))) as [Hyes|Hno].
  - apply Exists_exists in Hyes as (i & _ & q1 & H1). destruct (calm_work _ _ _ Hc H1) as [Hc1 Hlt].
    destruct (IH _ Hlt q1 eq_refl Hc1) as (es & q' & He & Hr & Hn).
    exists (EWork i :: es), q'. splits; [done | by econstructor | done].
  - exists [], q. splits; [done | constructor |]. intros i. destruct (worker_function i q) eqn:E; [|done].
    exfalso. apply Hno, Exists_exists. exists i. split; [|done]. apply elem_of_seq. split; [lia|]. unfold worker_function in E.
    destruct (workers q !! i) eqn:El; [|done]. by eapply lookup_lt_Some.
Qed.

(** Once a worker has ended with the mutex, it stays so, and nothing changes the list. *)
Lemma exit_stays e q1 q3 i w :
  mutex q1 = Some i -> workers q1 !! i = Some w -> pc w = WExit -> pool_step e q1 = Some q3 ->
  exists w', workers q3 !! i = Some w' /\ pc w' = WExit.
Proof.
  intros Hm Hw Hp Hs.
  destruct e; cbn in Hs.
  - destruct (decide (i0 = i)) as [->|Hne]; [unfold worker_function in Hs; by rewrite Hw, Hp in Hs|].
    exists w. split; [|done]. unfold worker_function in Hs. destruct (workers q1 !! i0) as [x|]; [|done].
    destruct (pc x); try done; [destruct (mutex q1); [done|]| destruct (waiting_jobs q1), (terminate x) | |];
      injection Hs as <-; cbn; by rewrite list_lookup_insert_ne.
  - destruct (decide (i0 = i)) as [->|Hne]; [unfold wake in Hs; by rewrite Hw, Hp in Hs|].
    exists w. split; [|done]. unfold wake in Hs. destruct (workers q1 !! i0) as [x|]; [|done].
    destruct (pc x); try done. injection Hs as <-. cbn. by rewrite list_lookup_insert_ne.
  - unfold workqueue_add_job in Hs. by rewrite Hm in Hs.
  - unfold shutdown_flag in Hs. destruct (bool_decide _); [|done].
    destruct (workers q1 !! i0) as [x|] eqn:Ex; [|done]. injection Hs as <-. cbn.
    destruct (decide (i0 = i)) as [->|Hne].
    + exists (mkworker true (pc x)). rewrite list_lookup_insert_eq by (by eapply lookup_lt_Some).
      split; [done|]. cbn; congruence.
    + exists w. by rewrite list_lookup_insert_ne.
  - unfold shutdown_clear in Hs. by rewrite Hm in Hs.
Qed.

Lemma exit_blocks e q1 q3 i w :
  exclusive q1 -> workers q1 !! i = Some w -> pc w = WExit -> pool_step e q1 = Some q3 ->
  waiting_jobs q3 = waiting_jobs q1 /\ added [e] = [] /\ e <> EClear.
Proof.
  intros Hex Hw Hp Hs. assert (mutex q1 = Some i) as Hm by (apply (Hex i w Hw); unfold holds; by rewrite Hp).
  destruct e; cbn in Hs.
  - unfold worker_function in Hs. destruct (workers q1 !! i0) as [x|] eqn:Ex; [|done].
    destruct (pc x) eqn:Epx; try done; [by rewrite Hm in Hs | | |].
    + exfalso. pose proof (proj1 (Hex i0 x Ex) ltac:(unfold holds; by rewrite Epx)) as Hm'.
      assert (i0 = i) as -> by congruence. congruence.
    + by injection Hs as <-.
    + by injection Hs as <-.
  - unfold wake in Hs. destruct (workers q1 !! i0) as [x|]; [|done]. destruct (pc x); try done. by injection Hs as <-.
  - unfold workqueue_add_job in Hs. by rewrite Hm in Hs.
  - unfold shutdown_flag in Hs. destruct (bool_decide _); [|done].
    destruct (workers q1 !! i0); [|done]. by injection Hs as <-.
  - unfold shutdown_clear in Hs. by rewrite Hm in Hs.
Qed.

Lemma run_events_ok es q q' : run_events es q = Some q' -> run es q q'.
Proof. apply run_steps_ok. Qed.

Lemma run_after es : is_Some (run_events es pool2) -> run es pool2 (after es).
Proof. intros [q E]. unfold after. rewrite E. by apply run_events_ok. Qed.

(** No step makes a job appear from nowhere. *)
Lemma places_incl es q q' : run es q q' -> forall j, j ∈ places q' -> j ∈ places q \/ j ∈ added es.
Proof.
  intros Hr j. induction Hr as [|e es q1 q2 q3 Hs Hr IH]; [by left|]. intros Hj.
  assert (j ∈ added es -> j ∈ added (e :: es)) as Hcons by (unfold added; cbn; destruct e; cbn; [done..|by right|done|done]).
  destruct (IH Hj) as [H|H]; [|by right; apply Hcons]. destruct (decide (e = EClear)) as [->|Hne].
  - left. cbn in Hs. unfold shutdown_clear in Hs. destruct (mutex q1); [done|]. injection Hs as <-.
    unfold places in *. cbn in H. rewrite map_map in H.
    rewrite (map_ext _ in_hand) in H by (intros w; unfold awaken, asleep, in_hand; by destruct (pc w) eqn:E; rewrite ?E).
    apply elem_of_app. by right.
  - rewrite (places_step _ _ _ Hne Hs) in H. apply elem_of_app in H as [H|H]; [by left|]. right.
    unfold added in *. cbn in *. destruct e; cbn in *; try (by apply elem_of_nil in H).
    apply list_elem_of_singleton in H as ->. by left.
Qed.

(** ** The properties *)

(** At any moment at most one thread is between the lock and the unlock of
    [jobs_mutex], whatever the interleaving; and while one is, no job can be added, no
    shutdown can go on and no other worker can pass the lock. *)
Theorem pool_exclusive n started q0 es q :
  workqueue_init n started = (0, q0) -> run es q0 q ->
  forall i w, workers q !! i = Some w -> holds w = true ->
  (forall k x, workers q !! k = Some x -> holds x = true -> k = i) /\
  (forall j k, workqueue_add_job j k q = None) /\ shutdown_clear q = None /\
  (forall k x, workers q !! k = Some x -> pc x = WLock -> worker_function k q = None).
Proof.
  intros Hi Hr i w Hw Hh. pose proof (exclusive_run _ _ _ (init_exclusive _ _ _ Hi) Hr) as Hex.
  pose proof (proj1 (Hex i w Hw) Hh) as Hm. splits.
  - intros k x Hx Hhx. pose proof (proj1 (Hex k x Hx) Hhx). congruence.
  - intros j k. unfold workqueue_add_job. by rewrite Hm.
  - unfold shutdown_clear. by rewrite Hm.
  - intros k x Hx Hp. unfold worker_function. by rewrite Hx, Hp, Hm.
Qed.

Lemma pool_exclusive_witness :
  workqueue_add_job 7 None (after [EWork 0]) = None /\ worker_function 1 (after [EWork 0]) = None.
Proof.
  destruct (pool_exclusive 2 [true; true] pool2 [EWork 0] (after [EWork 0]) eq_refl (run_after [EWork 0] ltac:(eexists; vm_compute; reflexivity))
              0%nat (mkworker false WLoop) eq_refl eq_refl) as (_ & H1 & _ & H2).
  split; [exact (H1 7 None) | exact (H2 1%nat (mkworker false WLock) eq_refl eq_refl)].
Defined.

(** As long as nobody shuts the pool down, every submitted job is in exactly one
    place -- waiting, in the hands of one worker, or already called -- so a job
    submitted once is called at most once. *)
Theorem pool_jobs_once n started q0 es q :
  workqueue_init n started = (0, q0) -> EClear ∉ es -> run es q0 q ->
  waiting_jobs q ++ concat (map in_hand (workers q)) ++ ran q ≡ₚ added es /\
  (NoDup (added es) -> NoDup (ran q) /\ forall j, j ∈ ran q -> j ∉ waiting_jobs q).
Proof.
  intros Hi Hn Hr. pose proof (places_run _ _ _ Hn Hr) as H. rewrite (init_places _ _ _ Hi) in H. split; [done|].
  cbn in H. intros Hnd. rewrite <- H in Hnd. unfold places in Hnd. apply NoDup_app in Hnd as (H1 & H2 & H3).
  apply NoDup_app in H3 as (_ & _ & H3). split; [done|]. intros j Hj Hj2. apply (H2 j Hj2).
  apply elem_of_app. by right.
Qed.

Lemma pool_jobs_once_witness :
  let q := after [EAdd 5 None; EWork 0; EWork 0; EWork 0; EWork 0] in ran q = [5] /\ NoDup (ran q).
Proof.
  cbv zeta. set (es := [EAdd 5 None; EWork 0; EWork 0; EWork 0; EWork 0]). split; [vm_compute; reflexivity|].
  apply (pool_jobs_once 2 [true; true] pool2 es (after es) eq_refl).
  - apply (bool_decide_unpack _). vm_compute. exact I.
  - apply run_after. eexists. vm_compute. reflexivity.
  - apply NoDup_singleton.
Defined.

(** C20: whatever the interleaving was, if the workers go on alone -- no spurious
    wakeup, no new job -- they stop after a bounded number of steps, whichever of them
    the scheduler picks, and when they stop every submitted job has been called: no
    wakeup is lost and the pool does not deadlock before a shutdown. *)
Theorem pool_all_jobs_run n started q0 es q :
  workqueue_init n started = (0, q0) -> forallb peaceful es = true -> run es q0 q ->
  (forall more q', forallb is_work more = true -> run more q q' ->
     (length more <= weight q)%nat /\
     ((forall i, worker_function i q' = None) -> waiting_jobs q' = [] /\ ran q' ≡ₚ added es)) /\
  (exists more q', forallb is_work more = true /\ run more q q' /\ ran q' ≡ₚ added es).
Proof.
  intros Hi Hp Hr. pose proof (exclusive_run _ _ _ (init_exclusive _ _ _ Hi) Hr) as Hex.
  pose proof (calm_run _ _ _ Hp (init_calm _ _ _ Hi) Hr) as Hc.
  assert (forall l, forallb peaceful l = true -> EClear ∉ l) as Hnc
    by (intros l Hl Hin%list_elem_of_In; rewrite forallb_forall in Hl; by pose proof (Hl _ Hin)).
  pose proof (places_run _ _ _ (Hnc _ Hp) Hr) as Hpl. rewrite (init_places _ _ _ Hi) in Hpl. cbn in Hpl.
  assert (forall more q', forallb is_work more = true -> run more q q' ->
     (length more <= weight q)%nat /\
     ((forall i, worker_function i q' = None) -> waiting_jobs q' = [] /\ ran q' ≡ₚ added es)) as Hall.
  { intros more q' Hm Hr'. destruct (work_run _ _ _ Hm Hc Hr') as [Hc' Hlen]. split; [lia|]. intros Hstop.
    destruct (stuck_asleep _ (exclusive_run _ _ _ Hex Hr') Hc' Hstop) as [Hw Hs]. split; [done|].
    assert (EClear ∉ more) as Hn
      by (intros Hin%list_elem_of_In; rewrite forallb_forall in Hm; by pose proof (Hm _ Hin)).
    pose proof (places_run _ _ _ Hn Hr') as H'. rewrite Hpl in H'.
    replace (added more) with (@nil job) in H'.
    2: { clear -Hm. induction more as [|[] more IH]; try done. by apply IH. }
    rewrite app_nil_r in H'. rewrite <- H'. unfold places. rewrite Hw. cbn.
    replace (concat (map in_hand (workers q'))) with (@nil job); [done|].
    clear -Hs. induction Hs as [|w l Hw _ IH]; [done|]. cbn. unfold in_hand at 1. by rewrite Hw. }
  split; [done|]. destruct (work_rests _ Hc) as (more & q' & Hm & Hr' & Hs).
  exists more, q'. splits; [done | done |]. by apply (Hall more q').
Qed.

Lemma pool_all_jobs_run_witness :
  let es := [EWork 0; EWork 0; EWork 1; EWork 1; EAdd 5 (Some 0%nat); EAdd 6 (Some 1%nat)] in
  exists more q', forallb is_work more = true /\ run more (after es) q' /\ ran q' ≡ₚ [5; 6].
Proof.
  cbv zeta. set (es := [EWork 0; EWork 0; EWork 1; EWork 1; EAdd 5 (Some 0%nat); EAdd 6 (Some 1%nat)]).
  apply (pool_all_jobs_run 2 [true; true] pool2 es (after es) eq_refl eq_refl).
  apply run_after. eexists. vm_compute. reflexivity.
Defined.

(** C21: a worker that is told to stop leaves [worker_function] with the mutex held, and
    nobody ever gives it back: from then on no job is added, no shutdown completes, no
    other worker takes a job or ends. *)
Theorem pool_exit_blocks n started q0 es1 q1 i w es2 q2 :
  workqueue_init n started = (0, q0) -> run es1 q0 q1 ->
  workers q1 !! i = Some w -> pc w = WExit -> run es2 q1 q2 ->
  mutex q2 = Some i /\ added es2 = [] /\ EClear ∉ es2 /\ waiting_jobs q2 = waiting_jobs q1 /\
  (forall k x, workers q2 !! k = Some x -> pc x = WExit -> k = i).
Proof.
  intros Hi Hr1 Hw Hp Hr2. pose proof (exclusive_run _ _ _ (init_exclusive _ _ _ Hi) Hr1) as Hex.
  clear Hr1 Hi. revert w Hw Hp. induction Hr2 as [q|e es q1 q3 q2 Hs Hr IH]; intros w Hw Hp.
  - assert (holds w = true) as Hh by (unfold holds; by rewrite Hp). splits; try done.
    + by apply (Hex i w).
    + by intros ?%elem_of_nil.
    + intros k x Hx Hpx. pose proof (proj1 (Hex i w Hw) Hh).
      pose proof (proj1 (Hex k x Hx) ltac:(unfold holds; by rewrite Hpx)). congruence.
  - assert (mutex q1 = Some i) as Hm by (apply (Hex i w Hw); unfold holds; by rewrite Hp).
    destruct (exit_stays _ _ _ _ _ Hm Hw Hp Hs) as (w' & Hw' & Hp').
    destruct (IH (exclusive_step _ _ _ Hex Hs) w' Hw' Hp') as (H1 & H2 & H3 & H4 & H5).
    destruct (exit_blocks _ _ _ _ _ Hex Hw Hp Hs) as (E1 & E2 & E3).
    splits; [done | | | congruence | done].
    + unfold added in *. cbn in *. destruct e; done.
    + rewrite not_elem_of_cons. by split.
Qed.

Lemma pool_exit_blocks_witness :
  let es := [EFlag 0; EFlag 1; EWork 0; EWork 0] in
  mutex (after es) = Some 0%nat /\ shutdown_clear (after es) = None /\
  (forall k x, workers (after es) !! k = Some x -> pc x = WExit -> k = 0%nat).
Proof.
  cbv zeta. set (es := [EFlag 0; EFlag 1; EWork 0; EWork 0]).
  destruct (pool_exit_blocks 2 [true; true] pool2 es (after es) 0%nat (mkworker true WExit) [] (after es)
              eq_refl (run_after es ltac:(eexists; vm_compute; reflexivity)) eq_refl eq_refl (steps_nil _ _))
    as (H1 & _ & _ & _ & H2).
  split; [exact H1 | split; [vm_compute; reflexivity | exact H2]].
Defined.

(** [workqueue_shutdown] drops what waits: a job still on the list when it gets the
    mutex is never called, unless it is submitted again. *)
Theorem pool_shutdown_drops q q1 j es q2 :
  shutdown_clear q = Some q1 -> NoDup (places q) -> j ∈ waiting_jobs q -> run es q1 q2 -> j ∉ added es ->
  waiting_jobs q1 = [] /\ registered q1 = [] /\ Forall (fun w => pc w <> WSleep) (workers q1) /\ j ∉ ran q2.
Proof.
  intros Hs Hnd Hj Hr Hna. unfold shutdown_clear in Hs. destruct (mutex q); [done|]. injection Hs as <-. splits; [done | done | |].
  - cbn. apply Forall_fmap, Forall_true. intros w. cbn. unfold awaken, asleep. by destruct (pc w) eqn:E; cbn; rewrite ?E.
  - intros Hran. assert (j ∈ places q2) as Hp by (unfold places; rewrite !elem_of_app; by right; right).
    destruct (places_incl _ _ _ Hr j Hp) as [Hq|]; [|done]. unfold places in Hq, Hnd. cbn in Hq. rewrite map_map in Hq.
    rewrite (map_ext _ in_hand) in Hq by (intros w; unfold awaken, asleep, in_hand; by destruct (pc w) eqn:E; rewrite ?E).
    apply NoDup_app in Hnd as (_ & Hd & _). by apply (Hd j Hj).
Qed.

Lemma pool_shutdown_drops_witness :
  5 ∉ ran (after [EAdd 5 None; EClear; EWork 0; EWork 0]).
Proof.
  apply (pool_shutdown_drops (after [EAdd 5 None]) (after [EAdd 5 None; EClear]) 5 [EWork 0; EWork 0]
           (after [EAdd 5 None; EClear; EWork 0; EWork 0])).
  - vm_compute. reflexivity.
  - apply (bool_decide_unpack _). vm_compute. exact I.
  - apply (bool_decide_unpack _). vm_compute. exact I.
  - apply run_events_ok. vm_compute. reflexivity.
  - apply (bool_decide_unpack _). vm_compute. exact I.
Defined.
