(* ===== verification/Contacts.v ===== *)
(** * test2/contacts.cpp: the address book.

    A doubly linked list of persons on the heap, its operations, the binary file it is
    saved to, and the menu.  The heap is a map from addresses to nodes, so that an
    access to a deleted node or through NULL is a fault of the run. *)
From S2P Require Import Prelude KcpBase CLib.
From stdpp Require Import base list numbers strings gmap.
Open Scope Z_scope.
Open Scope c_scope.

Definition LENGTH_NAME : Z := 16.
Definition LENGTH_PHONE : Z := 16.

(** [class Person]: two arrays of characters. *)
Record Person : Type := mkperson { p_name : list Z; p_phone : list Z }.

(** [class Node<Person>]; 0 is the null pointer. *)
Record PNode : Type := mknode { nd_data : Person; nd_prev : Z; nd_next : Z }.

(** [class Contacts]. *)
Record Contacts : Type := mkcontacts { c_data : Z; c_count : Z }.

(** What the program changes: the nodes that exist, standard input (what is left of it
    and the failure bit), standard output, and the files with the room left on the disk. *)
Record cworld : Type := mkcw {
  nodes : gmap Z PNode;
  chars : list Z;
  failed : bool;
  shown : list (string * list (list Z));
  files : gmap (list Z) (list Z);
  room : Z;
}.

(** [operator new]: some address that is not in use.  Any allocator will do. *)
Class NodeAlloc : Type := mkna {
  fresh_node : gmap Z PNode -> Z;
  fresh_node_new : forall h, h !! fresh_node h = None;
  fresh_node_nonnull : forall h, fresh_node h <> 0;
}.


(** ** Memory *)

Definition set_nodes (h : gmap Z PNode) (w : cworld) : cworld :=
  mkcw h (chars w) (failed w) (shown w) (files w) (room w).
Definition set_in (c : list Z) (f : bool) (w : cworld) : cworld :=
  mkcw (nodes w) c f (shown w) (files w) (room w).
Definition set_files (f : gmap (list Z) (list Z)) (r : Z) (w : cworld) : cworld :=
  mkcw (nodes w) (chars w) (failed w) (shown w) f r.

Definition deref (p : Z) : M cworld PNode :=
  if p =? 0 then throw NullDeref
  else let! h := gets nodes in of_option OutOfBounds (h !! p).
Definition store_node (p : Z) (n : PNode) : M cworld unit :=
  modify (fun w => set_nodes (<[p := n]> (nodes w)) w).
Definition set_next (p v : Z) : M cworld unit :=
  let! n := deref p in store_node p (mknode (nd_data n) (nd_prev n) v).
Definition set_prev (p v : Z) : M cworld unit :=
  let! n := deref p in store_node p (mknode (nd_data n) v (nd_next n)).
Definition set_data (p : Z) (d : Person) : M cworld unit :=
  let! n := deref p in store_node p (mknode d (nd_prev n) (nd_next n)).

(** [delete p]. *)
Definition delete_node (p : Z) : M cworld unit :=
  deref p;;; modify (fun w => set_nodes (delete p (nodes w)) w).

(** Enough iterations for any list without a cycle. *)
Definition walk_fuel : M cworld nat := gets (fun w => S (size (nodes w))).

Definition INFO (fmt : string) (args : list (list Z)) : M cworld unit :=
  modify (fun w => mkcw (nodes w) (chars w) (failed w) (shown w ++ [(fmt, args)]) (files w) (room w)).

(** ** Strings *)

(** Whether [strcmp] of two arrays gives 0; it must not run past their ends. *)
Fixpoint strcmp_eq (a b : list Z) : option bool :=
  match a, b with
  | x :: a, y :: b => if negb (x =? y) then Some false else if x =? 0 then Some true else strcmp_eq a b
  | _, _ => None
  end.

(** [strncpy(dst, s, n)] and the terminator after it. *)
Definition strncpy_term (s : list Z) (n : nat) : list Z :=
  let s := take n (cstr s) in s ++ replicate (n - length s) 0 ++ [0].

(** [Person::operator==]. *)
Definition person_eq (a b : Person) : option bool :=
  match strcmp_eq (p_name a) (p_name b) with
  | Some true => strcmp_eq (p_phone a) (p_phone b)
  | r => r
  end.

(** ** [Node]: the list *)

(** [Node::insert]: the return value and the new [first]. *)
Definition node_insert (item first : Z) : M cworld (Z * Z) :=
  if item =? 0 then ret (-1, first)
  else if first =? 0 then
    set_next item 0;;; set_prev item 0;;; ret (0, item)
  else
    set_next item first;;; set_prev item 0;;; set_prev first item;;; ret (0, item).

Fixpoint contains_loop (fuel : nat) (item ptr : Z) : M cworld bool :=
  match fuel with
  | O => throw OutOfFuel
  | S fuel =>
    if ptr =? 0 then ret false
    else if ptr =? item then ret true
    else let! n := deref ptr in contains_loop fuel item (nd_next n)
  end.
Definition node_contains (item first : Z) : M cworld bool :=
  if (first =? 0) || (item =? 0) then ret false
  else let! fuel := walk_fuel in contains_loop fuel item first.

Definition node_remove (item first : Z) : M cworld (Z * Z) :=
  let! c := node_contains item first in
  if negb c then ret (-1, first)
  else
    let! n := deref item in
    (if negb (nd_prev n =? 0) then set_next (nd_prev n) (nd_next n) else ret tt);;;
    let! n := deref item in
    (if negb (nd_next n =? 0) then set_prev (nd_next n) (nd_prev n) else ret tt);;;
    let! first :=
      if item =? first then let! n := deref first in ret (nd_next n) else ret first in
    set_next item 0;;; set_prev item 0;;; ret (0, first).

Fixpoint search_loop (fuel : nat) (target : Person) (ptr : Z) : M cworld bool :=
  match fuel with
  | O => throw OutOfFuel
  | S fuel =>
    if ptr =? 0 then ret false
    else
      let! n := deref ptr in
      let! eq := of_option OutOfBounds (person_eq target (nd_data n)) in
      if eq then ret true else search_loop fuel target (nd_next n)
  end.
Definition node_search (target : Person) (first : Z) : M cworld bool :=
  if first =? 0 then ret false else let! fuel := walk_fuel in search_loop fuel target first.

(** ** [Contacts] *)

Fixpoint destroy_loop (fuel : nat) (data : Z) : M cworld unit :=
  match fuel with
  | O => throw OutOfFuel
  | S fuel =>
    if data =? 0 then ret tt
    else let! n := deref data in delete_node data;;; destroy_loop fuel (nd_next n)
  end.
Definition destroy_contacts (cts : Contacts) : M cworld Contacts :=
  let! fuel := walk_fuel in destroy_loop fuel (c_data cts);;; ret (mkcontacts 0 0).

(** ** The interface of persons *)

Definition person_insert (item first : Z) : M cworld (Z * Z) :=
  if item =? 0 then ret (-1, first) else node_insert item first.
Definition person_delete (item first : Z) : M cworld (Z * Z) :=
  if item =? 0 then ret (-1, first) else node_remove item first.

Fixpoint name_search_loop (fuel : nat) (name : list Z) (ptr : Z) : M cworld Z :=
  match fuel with
  | O => throw OutOfFuel
  | S fuel =>
    if ptr =? 0 then ret 0
    else
      let! n := deref ptr in
      let! eq := of_option OutOfBounds (strcmp_eq (p_name (nd_data n)) name) in
      if eq then ret ptr else name_search_loop fuel name (nd_next n)
  end.
Definition person_name_search (name : list Z) (first : Z) : M cworld Z :=
  let! fuel := walk_fuel in name_search_loop fuel name first.

Fixpoint traversal_loop (fuel : nat) (ptr : Z) : M cworld unit :=
  match fuel with
  | O => throw OutOfFuel
  | S fuel =>
    if ptr =? 0 then ret tt
    else
      let! n := deref ptr in
      INFO "name: %s, phone: %s" [cstr (p_name (nd_data n)); cstr (p_phone (nd_data n))];;;
      traversal_loop fuel (nd_next n)
  end.
Definition person_traversal (first : Z) : M cworld Z :=
  let! fuel := walk_fuel in traversal_loop fuel first;;; ret 0.

(** ** Files *)

Definition SIZE_BUFFER_P : nat := 64.
Definition data_dir : list Z := [46; 47; 100; 97; 116; 97; 47].

(** The 32 bytes of a [Person] and back. *)
Definition person_bytes (p : Person) : list Z := p_name p ++ p_phone p.
Definition person_of_bytes (b : list Z) : Person := mkperson (take 16 b) (take 16 (drop 16 b)).

(** [fwrite] of persons at the end of a file: as many bytes as there is room for, and
    the number of whole items. *)
Definition fwrite (path : list Z) (l : list Person) : M cworld nat :=
  fun w =>
    let bytes := concat (map person_bytes l) in
    let n := Z.to_nat (Z.min (Z.of_nat (length bytes)) (Z.max 0 (room w))) in
    Ok (n / 32)%nat
       (set_files (<[path := default [] (files w !! path) ++ take n bytes]> (files w))
                  (room w - Z.of_nat n) w).

(** The loop over the nodes, with the buffer of up to 64 persons; [None]: [fwrite] fell
    short and the function returned -2. *)
Fixpoint save_loop (fuel : nat) (path : list Z) (item : Z) (buffer : list Person) : M cworld (option (list Person)) :=
  match fuel with
  | O => throw OutOfFuel
  | S fuel =>
    if item =? 0 then ret (Some buffer)
    else
      let! n := deref item in
      let buffer := buffer ++ [nd_data n] in
      if (length buffer =? SIZE_BUFFER_P)%nat then
        let! written := fwrite path buffer in
        if negb (written =? SIZE_BUFFER_P)%nat then ret None
        else save_loop fuel path (nd_next n) []
      else save_loop fuel path (nd_next n) buffer
  end.

(** [opens] is whether [fopen] for writing succeeds. *)
Definition save_file (opens : bool) (first : Z) (filename : list Z) : M cworld Z :=
  let path := cstr (data_dir ++ filename) in
  if negb opens then ret (-1)
  else
    modify (fun w => set_files (<[path := []]> (files w)) (room w) w);;;
    let! fuel := walk_fuel in
    let! rest := save_loop fuel path first [] in
    match rest with
    | None => ret (-2)
    | Some [] => ret 0
    | Some buffer =>
      let! written := fwrite path buffer in
      if negb (written =? length buffer)%nat then ret (-2) else ret 0
    end.

Section Alloc.
Context {na : NodeAlloc}.

(** [new PNode()]: a node of zeros. *)
Definition new_node : M cworld Z :=
  let! h := gets nodes in
  let p := fresh_node h in
  store_node p (mknode (mkperson (replicate 16 0) (replicate 16 0)) 0 0);;; ret p.

(** The persons of one [fread], inserted one by one. *)
Fixpoint load_items (l : list Person) (first count : Z) : M cworld (Z * Z) :=
  match l with
  | [] => ret (first, count)
  | p :: l =>
    let! item := new_node in
    set_data item p;;;
    let! ' (r, first) := person_insert item first in
    if r =? 0 then load_items l first (u64 (count + 1))
    else delete_node item;;; load_items l first count
  end.

(** Whole items of 32 bytes. *)
Fixpoint persons_of (n : nat) (b : list Z) : list Person :=
  match n with O => [] | S n => person_of_bytes (take 32 b) :: persons_of n (drop 32 b) end.

Fixpoint load_loop (fuel : nat) (rest : list Z) (first count : Z) : M cworld (Z * Z) :=
  match fuel with
  | O => throw OutOfFuel
  | S fuel =>
    let got := take (32 * SIZE_BUFFER_P) rest in
    let read_num := (length got / 32)%nat in
    let! ' (first, count) := load_items (persons_of read_num got) first count in
    if (read_num =? 0)%nat then ret (first, count)
    else load_loop fuel (drop (32 * SIZE_BUFFER_P) rest) first count
  end.

Definition load_file (first : Z) (filename : list Z) (count : Z) : M cworld (Z * Z * Z) :=
  let path := cstr (data_dir ++ filename) in
  let! fs := gets files in
  match fs !! path with
  | None => ret (-1, first, count)
  | Some bytes =>
    let! ' (first, count) := load_loop (S (S (length bytes))) bytes first count in
    ret (0, first, count)
  end.

(** ** Standard input *)

(** [std::cin.ignore(max, '\n')], and [std::getline]. *)
Fixpoint after_line (s : list Z) : list Z :=
  match s with [] => [] | c :: s => if c =? 10 then s else after_line s end.
Fixpoint line (s : list Z) : list Z :=
  match s with [] => [] | c :: s => if c =? 10 then [] else c :: line s end.

Definition ignore : M cworld unit :=
  modify (fun w => if failed w then w else set_in (after_line (chars w)) false w).
Definition getline : M cworld (list Z) :=
  fun w =>
    if failed w then Ok [] w
    else if (length (chars w) =? 0)%nat then Ok [] (set_in [] true w)
    else Ok (line (chars w)) (set_in (after_line (chars w)) false w).

(** [std::cin >> select]: white space, a sign, digits; the value is left alone when the
    input has failed or ended, 0 when there is no number, and clamped when it is too
    large. *)
Definition is_space (c : Z) : bool := (c =? 32) || ((9 <=? c) && (c <=? 13)).
Fixpoint skip_space (s : list Z) : list Z :=
  match s with [] => [] | c :: s' => if is_space c then skip_space s' else s end.
Definition is_digit (c : Z) : bool := (48 <=? c) && (c <=? 57).
Fixpoint digits (s : list Z) (v : Z) : Z * list Z :=
  match s with
  | c :: s' => if is_digit c then digits s' (10 * v + (c - 48)) else (v, s)
  | [] => (v, [])
  end.
Definition read_int (select : Z) : M cworld Z :=
  fun w =>
    if failed w then Ok select w
    else
      match skip_space (chars w) with
      | [] => Ok select (set_in [] true w)
      | c :: s =>
        let neg := c =? 45 in
        let s := if neg || (c =? 43) then s else c :: s in
        match s with
        | d :: _ =>
          if is_digit d then
            let ' (v, s) := digits s 0 in
            let v := if neg then - v else v in
            if v <? -2147483648 then Ok (-2147483648) (set_in s true w)
            else if 2147483647 <? v then Ok 2147483647 (set_in s true w)
            else Ok v (set_in s false w)
          else Ok 0 (set_in s true w)
        | [] => Ok 0 (set_in [] true w)
        end
      end.

(** ** The entries of the menu: the return value and the contacts *)

(** The name and the phone of the new node, from two lines. *)
Definition read_person (item : Z) : M cworld unit :=
  ignore;;;
  INFO "PLEASE INPUT A NAME: " [];;;
  let! name_tmp := getline in
  let! n := deref item in
  set_data item (mkperson (strncpy_term name_tmp 15) (p_phone (nd_data n)));;;
  INFO "PLEASE INPUT A CORRESPONDING PHONE: " [];;;
  let! phone_tmp := getline in
  let! n := deref item in
  set_data item (mkperson (p_name (nd_data n)) (strncpy_term phone_tmp 15)).

Definition insert_entry (cts : option Contacts) : M cworld (Z * option Contacts) :=
  match cts with
  | None => ret (-1, cts)
  | Some c =>
    let! item := new_node in
    read_person item;;;
    let! n := deref item in
    let! dup := node_search (nd_data n) (c_data c) in
    if dup then
      INFO "DUPLICATE ENTRY EXISTS" [];;;
      delete_node item;;;
      ret (-4, cts)
    else
      let! ' (flag, data) := person_insert item (c_data c) in
      if negb (flag =? 0) then delete_node item;;; ret (-3, Some (mkcontacts data (c_count c)))
      else
        INFO "INSERT SUCCESS" [];;;
        ret (0, Some (mkcontacts data (u64 (c_count c + 1))))
  end.

Definition print_entry (cts : option Contacts) : M cworld Z :=
  match cts with None => ret (-1) | Some c => person_traversal (c_data c) end.

Definition delete_entry (cts : option Contacts) : M cworld (Z * option Contacts) :=
  match cts with
  | None => ret (-1, cts)
  | Some c =>
    INFO "PLEASE INPUT A NAME FOR DELETE: " [];;;
    ignore;;;
    let! name_tmp := getline in
    let! ptr := person_name_search (strncpy_term name_tmp 15) (c_data c) in
    if ptr =? 0 then INFO "NO MATCH ENTRY TO DELETE" [];;; ret (-2, cts)
    else
      let! ' (flag, data) := person_delete ptr (c_data c) in
      if negb (flag =? 0) then ret (-3, Some (mkcontacts data (c_count c)))
      else
        let! n := deref ptr in
        INFO "[ NAME: %s, PHONE:%s ] HAS BEEN DELETE" [cstr (p_name (nd_data n)); cstr (p_phone (nd_data n))];;;
        delete_node ptr;;;
        ret (0, Some (mkcontacts data (u64 (c_count c - 1))))
  end.

Definition search_entry (cts : option Contacts) : M cworld Z :=
  match cts with
  | None => ret (-1)
  | Some c =>
    INFO "PLEASE INPUT A NAME FOR SEARCH: " [];;;
    ignore;;;
    let! name_tmp := getline in
    let! ptr := person_name_search (strncpy_term name_tmp 15) (c_data c) in
    if ptr =? 0 then INFO "NO MATCH ENTRY TO SEARCH" [];;; ret (-2)
    else
      let! n := deref ptr in
      INFO "[ NAME: %s, PHONE:%s ] FOUND" [cstr (p_name (nd_data n)); cstr (p_phone (nd_data n))];;;
      ret 0
  end.

Definition save_entry (opens : bool) (cts : option Contacts) : M cworld Z :=
  match cts with
  | None => ret (-1)
  | Some c =>
    INFO "PLEASE INPUT FILENAME FOR SAVE ENTRIES: " [];;;
    ignore;;;
    let! filename := getline in
    let! flag := save_file opens (c_data c) filename in
    if negb (flag =? 0) then ret (-2)
    else INFO "SAVE SUCCESS TO ./data/%s" [cstr filename];;; ret 0
  end.

(** The file name passes through a C string on the way to [load_file]. *)
Definition load_entry (cts : option Contacts) : M cworld (Z * option Contacts) :=
  match cts with
  | None => ret (-1, cts)
  | Some c =>
    INFO "PLEASE INPUT FILENAME FOR LOAD ENTRIES: " [];;;
    ignore;;;
    let! filename := getline in
    let! ' (flag, data, count) := load_file (c_data c) (cstr filename) (c_count c) in
    let cts := Some (mkcontacts data count) in
    if negb (flag =? 0) then ret (-2, cts)
    else INFO "LOAD SUCCESS FROM ./data/%s" [cstr filename];;; ret (0, cts)
  end.

(** ** The menu *)

Definition OPTION_INSERT : Z := 1.
Definition OPTION_PRINT : Z := 2.
Definition OPTION_DELETE : Z := 3.
Definition OPTION_SEARCH : Z := 4.
Definition OPTION_SAVE : Z := 5.
Definition OPTION_LOAD : Z := 6.
Definition OPTION_EXIT : Z := 7.

(** One case of the switch. *)
Definition menu_command (opens : bool) (select : Z) (cts : option Contacts) : M cworld (option Contacts) :=
  if select =? OPTION_INSERT then let! ' (_, cts) := insert_entry cts in ret cts
  else if select =? OPTION_PRINT then print_entry cts;;; ret cts
  else if select =? OPTION_DELETE then let! ' (_, cts) := delete_entry cts in ret cts
  else if select =? OPTION_SEARCH then search_entry cts;;; ret cts
  else if select =? OPTION_SAVE then save_entry opens cts;;; ret cts
  else if select =? OPTION_LOAD then let! ' (_, cts) := load_entry cts in ret cts
  else ret cts.

Fixpoint menu_loop (opens : bool) (fuel : nat) (select : Z) (cts : option Contacts) : M cworld Z :=
  match fuel with
  | O => throw OutOfFuel
  | S fuel =>
    INFO "1. Insert 2. Print 3. Delete 4. Search 5. Save 6. Load 7. Exit" [];;;
    let! select := read_int select in
    if select =? OPTION_EXIT then
      INFO "FUNCTION MENU EXIT" [];;;
      (match cts with Some c => destroy_contacts c;;; ret tt | None => ret tt end);;;
      ret 0
    else
      let! cts := menu_command opens select cts in
      menu_loop opens fuel select cts
  end.
Definition menu_function (opens : bool) (fuel : nat) : M cworld Z :=
  menu_loop opens fuel 0 (Some (mkcontacts 0 0)).
End Alloc.
