(* ===== verification/ContactsSpec.v ===== *)
(** * What the address book represents, and the lemmas on its operations. *)
From S2P Require Import Prelude KcpBase CLib Contacts.
From stdpp Require Import base list numbers strings gmap.
Open Scope Z_scope.
Open Scope c_scope.

(** ** The list on the heap *)

(** From [p], whose predecessor is [pv], the nodes [ns] with their data, up to [q]. *)
Fixpoint dseg (h : gmap Z PNode) (pv p : Z) (ns : list (Z * Person)) (q : Z) : Prop :=
  match ns with
  | [] => p = q
  | (a, d) :: ns => p = a /\ a <> 0 /\ exists nx, h !! a = Some (mknode d pv nx) /\ dseg h a nx ns q
  end.
Definition dlast (pv : Z) (ns : list (Z * Person)) : Z := default pv (fst <$> last ns).

(** A person whose strings end inside their arrays. *)
Definition person_ok (p : Person) : Prop :=
  length (p_name p) = 16%nat /\ length (p_phone p) = 16%nat /\ 0 ∈ p_name p /\ 0 ∈ p_phone p.

(** The list from [first] holds the nodes [ns], and nothing else is allocated. *)
Record owned (h : gmap Z PNode) (first : Z) (ns : list (Z * Person)) : Prop := mkowned {
  owned_chain : dseg h 0 first ns 0;
  owned_nodup : NoDup (map fst ns);
  owned_dom : forall a, is_Some (h !! a) <-> a ∈ map fst ns;
  owned_ok : Forall person_ok (map snd ns);
}.
(** The address book [c] with the persons [l]. *)
Definition book (w : cworld) (c : Contacts) (l : list Person) : Prop :=
  exists ns, owned (nodes w) (c_data c) ns /\ map snd ns = l /\ c_count c = u64 (Z.of_nat (length l)).

(** What a user sees of a person. *)
Definition entry : Type := list Z * list Z.
Definition entry_of (p : Person) : entry := (cstr (p_name p), cstr (p_phone p)).

(** ** Strings *)

Lemma strcmp_eq_spec a b :
  0 ∈ a -> 0 ∈ b -> strcmp_eq a b = Some (bool_decide (cstr a = cstr b)).
Proof.
  revert b. induction a as [|x a IH]; intros b Ha Hb; [by apply elem_of_nil in Ha|].
  destruct b as [|y b]; [by apply elem_of_nil in Hb|]. cbn [strcmp_eq cstr].
  destruct (Z.eqb_spec x y) as [->|Hne]; cbn [negb].
  - destruct (Z.eqb_spec y 0) as [->|Hy]; [by rewrite bool_decide_true|].
    assert (forall l, 0 ∈ y :: l -> 0 ∈ l) as Ht by (intros l [?|?]%elem_of_cons; [congruence | done]).
    rewrite IH by auto.
    f_equal. apply bool_decide_ext. split; [by intros -> | by intros [=]].
  - f_equal. symmetry. apply bool_decide_false.
    destruct (Z.eqb_spec x 0), (Z.eqb_spec y 0); congruence.
Qed.

Lemma person_eq_spec a b :
  person_ok a -> person_ok b -> person_eq a b = Some (bool_decide (entry_of a = entry_of b)).
Proof.
  intros (_ & _ & Ha1 & Ha2) (_ & _ & Hb1 & Hb2). unfold person_eq, entry_of. rewrite strcmp_eq_spec by done.
  case_bool_decide as H1.
  - rewrite strcmp_eq_spec by done. f_equal. apply bool_decide_ext. split; [intros ->; by rewrite H1 | by intros [=]].
  - f_equal. symmetry. apply bool_decide_false. congruence.
Qed.

Lemma cstr_no_zero s : 0 ∉ cstr s.
Proof.
  induction s as [|c s IH]; cbn; [by intros ?%elem_of_nil|].
  destruct (Z.eqb_spec c 0); [by intros ?%elem_of_nil|]. rewrite not_elem_of_cons. by split.
Qed.

Lemma cstr_id s t : 0 ∉ s -> cstr (s ++ 0 :: t) = s.
Proof.
  induction s as [|c s IH]; cbn; [done|]. rewrite not_elem_of_cons. intros [Hc Hs].
  rewrite (proj2 (Z.eqb_neq c 0)) by done. by rewrite IH.
Qed.

Lemma strncpy_term_spec s :
  length (strncpy_term s 15) = 16%nat /\ 0 ∈ strncpy_term s 15 /\ cstr (strncpy_term s 15) = take 15 (cstr s).
Proof.
  unfold strncpy_term. set (t := take 15 (cstr s)).
  assert (length t <= 15)%nat by (subst t; rewrite length_take; lia).
  assert (0 ∉ t) as Ht by (intros (i & Hi & _)%elem_of_take; apply (cstr_no_zero s); by eapply list_elem_of_lookup_2).
  splits.
  - rewrite !length_app, length_replicate. cbn. lia.
  - rewrite !elem_of_app. right. right. by left.
  - destruct (15 - length t)%nat as [|n] eqn:E; cbn; by apply cstr_id.
Qed.

Lemma person_ok_name p s : person_ok p -> person_ok (mkperson (strncpy_term s 15) (p_phone p)).
Proof. intros (_ & ? & _ & ?). pose proof (strncpy_term_spec s) as (? & ? & _). by repeat split. Qed.
Lemma person_ok_phone p s : person_ok p -> person_ok (mkperson (p_name p) (strncpy_term s 15)).
Proof. intros (? & _ & ? & _). pose proof (strncpy_term_spec s) as (? & ? & _). by repeat split. Qed.

Definition zero_person : Person := mkperson (replicate 16 0) (replicate 16 0).
Lemma zero_person_ok : person_ok zero_person.
Proof. unfold person_ok, zero_person. cbn. splits; done || by apply list_elem_of_here. Qed.

(** ** Heap rules *)

Lemma wp_deref p n (Q : PNode -> cworld -> Prop) w :
  p <> 0 -> nodes w !! p = Some n -> Q n w -> wp (deref p) Q w.
Proof.
  intros Hp Hn HQ. unfold deref. rewrite (proj2 (Z.eqb_neq p 0)) by done. wp_step. wp_step. by rewrite Hn.
Qed.

Lemma wp_set_next p v n (Q : unit -> cworld -> Prop) w :
  p <> 0 -> nodes w !! p = Some n ->
  Q tt (set_nodes (<[p := mknode (nd_data n) (nd_prev n) v]> (nodes w)) w) -> wp (set_next p v) Q w.
Proof. intros Hp Hn HQ. unfold set_next. wp_step. by eapply wp_deref. Qed.

Lemma wp_set_prev p v n (Q : unit -> cworld -> Prop) w :
  p <> 0 -> nodes w !! p = Some n ->
  Q tt (set_nodes (<[p := mknode (nd_data n) v (nd_next n)]> (nodes w)) w) -> wp (set_prev p v) Q w.
Proof. intros Hp Hn HQ. unfold set_prev. wp_step. by eapply wp_deref. Qed.

Lemma wp_set_data p d n (Q : unit -> cworld -> Prop) w :
  p <> 0 -> nodes w !! p = Some n ->
  Q tt (set_nodes (<[p := mknode d (nd_prev n) (nd_next n)]> (nodes w)) w) -> wp (set_data p d) Q w.
Proof. intros Hp Hn HQ. unfold set_data. wp_step. by eapply wp_deref. Qed.

Lemma wp_delete_node p n (Q : unit -> cworld -> Prop) w :
  p <> 0 -> nodes w !! p = Some n -> Q tt (set_nodes (delete p (nodes w)) w) -> wp (delete_node p) Q w.
Proof. intros Hp Hn HQ. unfold delete_node. wp_step. by eapply wp_deref. Qed.

Lemma nodes_set_nodes h w : nodes (set_nodes h w) = h.
Proof. done. Qed.
Lemma set_nodes_twice h h' w : set_nodes h (set_nodes h' w) = set_nodes h w.
Proof. done. Qed.
Lemma set_nodes_same w : set_nodes (nodes w) w = w.
Proof. by destruct w. Qed.

Lemma dseg_cons h pv a d nx ns q :
  a <> 0 -> h !! a = Some (mknode d pv nx) -> dseg h a nx ns q -> dseg h pv a ((a, d) :: ns) q.
Proof. intros Ha Hn Hc. cbn. splits; [done | done |]. by exists nx. Qed.

Lemma dseg_frame h h' pv p ns q :
  (forall a, a ∈ map fst ns -> h' !! a = h !! a) -> dseg h pv p ns q -> dseg h' pv p ns q.
Proof.
  revert pv p. induction ns as [|[a d] ns IH]; intros pv p Hf; [done|]. intros (-> & Ha & nx & Hn & Hc).
  cbn [dseg]; splits; [done | done |]. exists nx. split; [rewrite Hf; [done | by left]|].
  apply IH; [|done]. intros b Hb. apply Hf. by right.
Qed.

Lemma dseg_nonzero h pv p ns q a : dseg h pv p ns q -> a ∈ map fst ns -> a <> 0.
Proof.
  revert pv p. induction ns as [|[b d] ns IH]; intros pv p Hc Hin; [by apply elem_of_nil in Hin|].
  destruct Hc as (-> & Hb & nx & _ & Hc). apply elem_of_cons in Hin as [->|Hin]; [done | by eapply IH].
Qed.

Lemma dlast_cons pv a d ns : dlast pv ((a, d) :: ns) = dlast a ns.
Proof. unfold dlast. rewrite last_cons. by destruct (last ns). Qed.

Lemma dseg_app h pv p l1 l2 q :
  dseg h pv p (l1 ++ l2) q <-> exists m, dseg h pv p l1 m /\ dseg h (dlast pv l1) m l2 q.
Proof.
  revert pv p. induction l1 as [|[a d] l1 IH]; intros pv p; cbn [app dseg].
  - split; [intros H; by exists p | by intros (m & <- & H)].
  - rewrite dlast_cons. split.
    + intros (-> & Ha & nx & Hn & (m & H1 & H2)%IH). exists m. cbn [dseg]; splits; try done. by exists nx.
    + intros (m & (-> & Ha & nx & Hn & H1) & H2). cbn [dseg]; splits; [done | done |]. exists nx. split; [done|].
      apply IH. by exists m.
Qed.

(** Changing where a segment ends, through the [next] of its last node. *)
Lemma dseg_set_end h pv p ns q b n q' :
  dseg h pv p ns q -> NoDup (map fst ns) -> ns <> [] -> b = dlast pv ns -> h !! b = Some n ->
  dseg (<[b := mknode (nd_data n) (nd_prev n) q']> h) pv p ns q'.
Proof.
  intros Hc Hnd Hne -> Hn. destruct ns as [|[b d] ns _] using rev_ind; [done|].
  unfold dlast in *. rewrite last_snoc in *. cbn in Hn |- *.
  apply dseg_app in Hc as (m & H1 & (-> & Hb & nx & Hn' & _)). rewrite Hn in Hn'. injection Hn' as ->.
  rewrite map_app in Hnd. apply NoDup_app in Hnd as (_ & Hd & _).
  apply dseg_app. exists b. split.
  - eapply dseg_frame; [|exact H1]. intros a Ha. rewrite lookup_insert_ne; [done|].
    intros ->. apply (Hd a Ha). by left.
  - cbn. splits; [done | done |]. exists q'. by rewrite lookup_insert_eq.
Qed.

(** Changing its first predecessor. *)
Lemma dseg_set_start h pv pv' p ns q n :
  dseg h pv p ns q -> NoDup (map fst ns) -> ns <> [] -> h !! p = Some n ->
  dseg (<[p := mknode (nd_data n) pv' (nd_next n)]> h) pv' p ns q.
Proof.
  intros Hc Hnd Hne Hn. destruct ns as [|[b d] ns]; [done|]. destruct Hc as (-> & Hb & nx & Hn' & Hc).
  rewrite Hn in Hn'. injection Hn' as ->. cbn in Hnd |- *. apply NoDup_cons in Hnd as [Hni _].
  cbn [dseg]; splits; [done | done |]. exists nx. rewrite lookup_insert_eq. split; [done|].
  eapply dseg_frame; [|exact Hc]. intros a Ha. rewrite lookup_insert_ne; [done|]. by intros ->.
Qed.

Lemma dseg_end_0 h pv p ns q : dseg h pv p ns q -> (p = 0 <-> ns = [] /\ q = 0).
Proof.
  destruct ns as [|[a d] ns]; cbn; [intros ->; tauto|]. intros (-> & Ha & _). split; [done | by intros [[=] _]].
Qed.

(** Every list without a cycle is shorter than the heap. *)
Lemma nodes_size (h : gmap Z PNode) (l : list Z) :
  NoDup l -> (forall a, a ∈ l -> is_Some (h !! a)) -> (length l <= size h)%nat.
Proof.
  intros Hnd Hin. rewrite <- size_dom. rewrite <- (size_list_to_set (C := gset Z)) by done.
  apply subseteq_size. intros a Ha%elem_of_list_to_set. apply elem_of_dom. by apply Hin.
Qed.

(** ** The list operations *)

Definition same_dom (h h' : gmap Z PNode) : Prop := forall a, is_Some (h' !! a) <-> is_Some (h !! a).

Lemma same_dom_insert h a n m : h !! a = Some n -> same_dom h (<[a := m]> h).
Proof. intros Ha b. rewrite lookup_insert_is_Some'. split; [intros [<-|?]; [by eexists | done] | tauto]. Qed.
Lemma same_dom_trans h1 h2 h3 : same_dom h1 h2 -> same_dom h2 h3 -> same_dom h1 h3.
Proof. intros H1 H2 a. split; intros H; [by apply H1, H2 | by apply H2, H1]. Qed.
Lemma same_dom_refl h : same_dom h h.
Proof. done. Qed.

Lemma node_insert_spec item first ns n (Q : Z * Z -> cworld -> Prop) w :
  dseg (nodes w) 0 first ns 0 -> NoDup (map fst ns) -> item <> 0 -> item ∉ map fst ns ->
  nodes w !! item = Some n ->
  (forall h', dseg h' 0 item ((item, nd_data n) :: ns) 0 -> same_dom (nodes w) h' ->
     Q (0, item) (set_nodes h' w)) ->
  wp (node_insert item first) Q w.
Proof.
  intros Hc Hnd Hi Hni Hn HQ. unfold node_insert. rewrite (proj2 (Z.eqb_neq item 0)) by done.
  destruct (Z.eqb_spec first 0) as [->|Hf].
  - apply dseg_end_0 in Hc as Hc0. destruct (proj1 Hc0 eq_refl) as [-> _].
    wp_step. eapply wp_set_next; [done..|]. wp_step.
    eapply wp_set_prev; [done | apply lookup_insert_eq |]. wp_step. rewrite set_nodes_twice. apply HQ.
    + cbn. splits; [done | done |]. exists 0. by rewrite lookup_insert_eq.
    + rewrite nodes_set_nodes. eapply same_dom_trans; eapply same_dom_insert; [done | apply lookup_insert_eq].
  - destruct ns as [|[f d] ns]; [done|]. pose proof Hc as Hc'. destruct Hc' as (-> & _ & nx & Hnf & _).
    assert (item <> f) as Hne by (intros ->; apply Hni; by left).
    wp_step. eapply wp_set_next; [done..|]. wp_step.
    eapply wp_set_prev; [done | apply lookup_insert_eq |]. wp_step.
    set (h2 := <[item := _]> (nodes (set_nodes _ w))).
    assert (h2 !! f = Some (mknode d 0 nx)) as Hf2
      by (subst h2; rewrite nodes_set_nodes, !lookup_insert_ne by done; done).
    eapply wp_set_prev; [done | exact Hf2 |]. wp_step. rewrite !set_nodes_twice, !nodes_set_nodes. cbn [nd_data nd_next nd_prev].
    apply HQ.
    + cbn [dseg]. splits; [done | done |]. exists f. rewrite lookup_insert_ne by done.
      split; [subst h2; by rewrite lookup_insert_eq|].
      eapply (dseg_set_start h2 0 item f ((f, d) :: ns) 0 (mknode d 0 nx)); [| done | done | done].
      eapply dseg_frame; [|exact Hc]. intros a Ha. subst h2. rewrite nodes_set_nodes, !lookup_insert_ne; [done | |]; by intros ->.
    + eapply same_dom_trans; [|by eapply same_dom_insert]. subst h2. rewrite nodes_set_nodes.
      eapply same_dom_trans; eapply same_dom_insert; [done | apply lookup_insert_eq].
Qed.

(** The loops over the nodes, by the list they represent. *)
Lemma contains_spec ns item first pv h fuel (Q : bool -> cworld -> Prop) w :
  dseg h pv first ns 0 -> nodes w = h -> item <> 0 -> (length ns < fuel)%nat ->
  Q (bool_decide (item ∈ map fst ns)) w -> wp (contains_loop fuel item first) Q w.
Proof.
  revert pv first fuel. induction ns as [|[a d] ns IH]; intros pv first fuel Hc Hh Hi Hf HQ;
    (destruct fuel as [|fuel]; [cbn in Hf; lia|]); cbn [contains_loop].
  - cbn in Hc. subst first. rewrite Z.eqb_refl. by wp_step.
  - destruct Hc as (-> & Ha & nx & Hn & Hc). rewrite (proj2 (Z.eqb_neq a 0)) by done.
    destruct (Z.eqb_spec a item) as [->|Hne].
    + wp_step. rewrite bool_decide_true in HQ; [done | cbn; by left].
    + wp_step. eapply wp_deref; [done | by rewrite Hh |]. eapply IH; [done | done | done | cbn in Hf; lia |].
      erewrite bool_decide_ext; [exact HQ|]. cbn. rewrite elem_of_cons. intuition congruence.
Qed.

Lemma search_spec ns target first pv h fuel (Q : bool -> cworld -> Prop) w :
  dseg h pv first ns 0 -> nodes w = h -> person_ok target -> Forall person_ok (map snd ns) -> (length ns < fuel)%nat ->
  Q (bool_decide (entry_of target ∈ map entry_of (map snd ns))) w -> wp (search_loop fuel target first) Q w.
Proof.
  revert pv first fuel. induction ns as [|[a d] ns IH]; intros pv first fuel Hc Hh Ht Hok Hf HQ;
    (destruct fuel as [|fuel]; [cbn in Hf; lia|]); cbn [search_loop].
  - cbn in Hc. subst first. rewrite Z.eqb_refl. by wp_step.
  - destruct Hc as (-> & Ha & nx & Hn & Hc). rewrite (proj2 (Z.eqb_neq a 0)) by done.
    apply Forall_cons in Hok as [Hd Hok]. wp_step. eapply wp_deref; [done | by rewrite Hh |]. wp_step.
    cbn [nd_data nd_next snd] in *. rewrite person_eq_spec by done. wp_step. destruct (bool_decide_reflect (entry_of target = entry_of d)) as [He|He].
    + wp_step. rewrite bool_decide_true in HQ; [done|]. cbn. rewrite He. by left.
    + eapply IH; [done.. | cbn in Hf; lia |]. erewrite bool_decide_ext; [exact HQ|].
      cbn. rewrite elem_of_cons. intuition congruence.
Qed.

(** The first node with a name. *)
Definition first_named (name : list Z) (ns : list (Z * Person)) : option (Z * Person) :=
  list_find (fun '(_, d) => cstr (p_name d) = name) ns ≫= fun '(_, x) => Some x.

Lemma name_search_spec ns name first pv h fuel (Q : Z -> cworld -> Prop) w :
  dseg h pv first ns 0 -> nodes w = h -> 0 ∈ name -> Forall person_ok (map snd ns) -> (length ns < fuel)%nat ->
  Q (match first_named (cstr name) ns with Some (a, _) => a | None => 0 end) w ->
  wp (name_search_loop fuel name first) Q w.
Proof.
  revert pv first fuel. induction ns as [|[a d] ns IH]; intros pv first fuel Hc Hh Ht Hok Hf HQ;
    (destruct fuel as [|fuel]; [cbn in Hf; lia|]); cbn [name_search_loop].
  - cbn in Hc. subst first. rewrite Z.eqb_refl. by wp_step.
  - destruct Hc as (-> & Ha & nx & Hn & Hc). rewrite (proj2 (Z.eqb_neq a 0)) by done.
    apply Forall_cons in Hok as [Hd Hok]. wp_step. eapply wp_deref; [done | by rewrite Hh |]. wp_step.
    cbn [nd_data nd_next snd] in *. destruct Hd as (_ & _ & Hd & _). rewrite strcmp_eq_spec by done. wp_step.
    unfold first_named in HQ. cbn [list_find] in HQ. destruct (bool_decide_reflect (cstr (p_name d) = cstr name)) as [He|He].
    + wp_step. by rewrite decide_True in HQ.
    + eapply IH; [done.. | cbn in Hf; lia |]. rewrite decide_False in HQ by done. unfold first_named.
      destruct (list_find _ ns) as [[i [b e]]|]; exact HQ.
Qed.

Lemma first_named_split name ns a d :
  first_named name ns = Some (a, d) ->
  exists l1 l2, ns = l1 ++ (a, d) :: l2 /\ cstr (p_name d) = name /\
    Forall (fun '(_, e) => cstr (p_name e) <> name) l1.
Proof.
  unfold first_named. destruct (list_find _ ns) as [[i [b e]]|] eqn:E; [|done]. intros [= -> ->].
  apply list_find_Some in E as (Hi & He & Hmin). exists (take i ns), (drop (S i) ns).
  split; [symmetry; by apply take_drop_middle|]. split; [done|].
  apply Forall_lookup_2. intros j [b e] Hj. apply lookup_take_Some in Hj as [Hj Hlt]. by apply (Hmin j (b, e)).
Qed.

Lemma first_named_none name ns :
  first_named name ns = None -> Forall (fun p => cstr (p_name p) <> name) (map snd ns).
Proof.
  unfold first_named. destruct (list_find _ ns) as [[i [b e]]|] eqn:E; [done|]. intros _.
  apply list_find_None in E. apply Forall_fmap. eapply Forall_impl; [exact E|]. by intros [b e].
Qed.

(** Reading the nodes around a place. *)
Lemma dseg_middle h p l1 a d l2 :
  dseg h 0 p (l1 ++ (a, d) :: l2) 0 ->
  exists nx, dseg h 0 p l1 a /\ a <> 0 /\ h !! a = Some (mknode d (dlast 0 l1) nx) /\ dseg h a nx l2 0.
Proof.
  intros (m & H1 & (-> & Ha & nx & Hn & H2))%dseg_app. by exists nx.
Qed.

Lemma dseg_in h pv p ns q b : dseg h pv p ns q -> b ∈ map fst ns -> is_Some (h !! b).
Proof.
  revert pv p. induction ns as [|[c e] ns IH]; intros pv p Hc Hb; [by apply elem_of_nil in Hb|].
  destruct Hc as (-> & _ & nx & Hn & Hc). apply elem_of_cons in Hb as [->|Hb]; [by eexists | by eapply IH].
Qed.

Lemma dseg_fuel h pv p ns q : dseg h pv p ns q -> NoDup (map fst ns) -> (length ns < S (size h))%nat.
Proof.
  intros Hc Hnd. rewrite <- (length_map fst). apply Nat.lt_succ_r, nodes_size; [done|].
  intros b. by eapply dseg_in.
Qed.

(** The two redirections of [Node::remove]. *)
Lemma unlink_prev p l1 a nx (Q : unit -> cworld -> Prop) w :
  dseg (nodes w) 0 p l1 a -> NoDup (map fst l1) ->
  (forall h1, dseg h1 0 (if bool_decide (l1 = []) then nx else p) l1 nx ->
     (forall b, b ∉ map fst l1 -> h1 !! b = nodes w !! b) -> same_dom (nodes w) h1 -> Q tt (set_nodes h1 w)) ->
  wp (if negb (dlast 0 l1 =? 0) then set_next (dlast 0 l1) nx else ret tt) Q w.
Proof.
  intros Hc Hnd HQ. destruct (bool_decide_reflect (l1 = [])) as [->|Hne].
  - cbn. rewrite <- (set_nodes_same w). apply HQ; [done | done | by apply same_dom_refl].
  - assert (dlast 0 l1 ∈ map fst l1) as Hin.
    { destruct l1 as [|[b e] l1 _] using rev_ind; [done|]. unfold dlast. rewrite last_snoc, map_app, elem_of_app. right. by left. }
    pose proof (dseg_nonzero _ _ _ _ _ _ Hc Hin) as Hz. rewrite (proj2 (Z.eqb_neq _ 0)) by done. cbn [negb].
    destruct (dseg_in _ _ _ _ _ _ Hc Hin) as [n Hn]. eapply wp_set_next; [done | exact Hn |]. apply HQ.
    + by eapply dseg_set_end.
    + intros b Hb. rewrite lookup_insert_ne; [done|]. by intros <-.
    + by eapply same_dom_insert.
Qed.

Lemma unlink_next pv a l2 nx (Q : unit -> cworld -> Prop) w :
  dseg (nodes w) a nx l2 0 -> NoDup (map fst l2) ->
  (forall h2, dseg h2 pv nx l2 0 -> (forall b, b ∉ map fst l2 -> h2 !! b = nodes w !! b) ->
     same_dom (nodes w) h2 -> Q tt (set_nodes h2 w)) ->
  wp (if negb (nx =? 0) then set_prev nx pv else ret tt) Q w.
Proof.
  intros Hc Hnd HQ. destruct l2 as [|[b e] l2].
  - cbn in Hc. subst nx. cbn. rewrite <- (set_nodes_same w). apply HQ; [done | done | by apply same_dom_refl].
  - pose proof Hc as (-> & Hz & nx & Hn & _). rewrite (proj2 (Z.eqb_neq b 0)) by done. cbn [negb].
    eapply wp_set_prev; [done | exact Hn |]. apply HQ.
    + by eapply (dseg_set_start _ a pv b ((b, e) :: l2) 0 (mknode e a nx)).
    + intros c Hb. rewrite lookup_insert_ne; [done|]. intros <-. apply Hb. by left.
    + by eapply same_dom_insert.
Qed.

Lemma node_remove_spec first l1 a d l2 (Q : Z * Z -> cworld -> Prop) w :
  dseg (nodes w) 0 first (l1 ++ (a, d) :: l2) 0 -> NoDup (map fst (l1 ++ (a, d) :: l2)) ->
  (forall first' h', dseg h' 0 first' (l1 ++ l2) 0 -> same_dom (nodes w) h' ->
     h' !! a = Some (mknode d 0 0) -> Q (0, first') (set_nodes h' w)) ->
  wp (node_remove a first) Q w.
Proof.
  intros Hc Hnd HQ. pose proof Hc as Hc'. apply dseg_middle in Hc' as (nx & H1 & Ha & Hn & H2).
  unfold node_remove, node_contains. wp_step.
  assert (first <> 0) as Hf.
  { intros ->. apply dseg_end_0 in Hc. destruct (proj1 Hc eq_refl) as [E _]. by destruct l1. }
  rewrite (proj2 (Z.eqb_neq first 0)), (proj2 (Z.eqb_neq a 0)) by done. cbn [orb]. wp_step. unfold walk_fuel. wp_step.
  eapply contains_spec; [exact Hc | done | done | by eapply dseg_fuel |].
  rewrite bool_decide_true by (rewrite map_app, elem_of_app; right; by left). cbn [negb].
  rewrite map_app in Hnd. cbn [map fst] in Hnd. apply NoDup_app in Hnd as (Hd1 & Hd & [Ha2 Hd2]%NoDup_cons).
  assert (a ∉ map fst l1) as Ha1 by (intros Hin; apply (Hd a Hin); by left).
  wp_step. eapply wp_deref; [done.. |]. cbn [nd_prev nd_next]. wp_step. eapply unlink_prev; [done | done|].
  intros h1 Hs1 Hout1 Hdom1. wp_step. eapply wp_deref; [done | by rewrite nodes_set_nodes, Hout1 |]. cbn [nd_prev nd_next].
  wp_step. eapply (unlink_next (dlast 0 l1) a l2 nx); [|done|].
  { rewrite nodes_set_nodes. eapply dseg_frame; [|exact H2]. intros b Hb. apply Hout1.
    intros Hin. apply (Hd b Hin). by right. }
  intros h2 Hs2 Hout2 Hdom2. rewrite nodes_set_nodes in Hout2, Hdom2. rewrite set_nodes_twice. wp_step.
  assert (h2 !! a = Some (mknode d (dlast 0 l1) nx)) as Hn2 by (by rewrite Hout2, Hout1).
  set (first' := if bool_decide (l1 = []) then nx else first) in *.
  assert (dseg h2 0 first' (l1 ++ l2) 0) as Hs.
  { apply dseg_app. exists nx. split; [|done]. eapply dseg_frame; [|exact Hs1]. intros b Hb. apply Hout2.
    intros Hin. apply (Hd b Hb). by right. }
  assert (forall P, P first' (set_nodes h2 w) ->
    wp (if a =? first then let! n := deref first in ret (nd_next n) else ret first) P (set_nodes h2 w)) as Hfirst.
  { intros P HP. subst first'. destruct l1 as [|[b e] l1]; cbn in H1.
    - subst first. rewrite Z.eqb_refl. wp_step. eapply wp_deref; [done.. |]. wp_step. exact HP.
    - destruct H1 as (-> & _). rewrite (proj2 (Z.eqb_neq a b)) by (intros ->; apply Ha1; by left). wp_step. exact HP. }
  apply Hfirst. wp_step. eapply wp_set_next; [done | exact Hn2 |]. wp_step. cbn [nd_data nd_prev nd_next].
  eapply wp_set_prev; [done | apply lookup_insert_eq |]. wp_step. rewrite !set_nodes_twice, nodes_set_nodes. apply HQ.
  - eapply dseg_frame; [|exact Hs]. intros b Hb. rewrite nodes_set_nodes, !lookup_insert_ne; [done | |]; intros <-;
      rewrite map_app, elem_of_app in Hb; tauto.
  - eapply same_dom_trans; [exact Hdom1|]. eapply same_dom_trans; [exact Hdom2|].
    eapply same_dom_trans; eapply same_dom_insert; [exact Hn2 | apply lookup_insert_eq].
  - by rewrite lookup_insert_eq.
Qed.

(** Walking the whole list. *)
Lemma traversal_spec ns first pv fuel (Q : unit -> cworld -> Prop) w :
  dseg (nodes w) pv first ns 0 -> (length ns < fuel)%nat ->
  Q tt (mkcw (nodes w) (chars w) (failed w)
         (shown w ++ map (fun p => ("name: %s, phone: %s"%string, [(entry_of p).1; (entry_of p).2])) (map snd ns)) (files w) (room w)) ->
  wp (traversal_loop fuel first) Q w.
Proof.
  revert pv first fuel w. induction ns as [|[a d] ns IH]; intros pv first fuel w Hc Hf HQ;
    (destruct fuel as [|fuel]; [cbn in Hf; lia|]); cbn [traversal_loop].
  - cbn in Hc. subst first. rewrite Z.eqb_refl. wp_step. cbn in HQ. rewrite app_nil_r in HQ. by destruct w.
  - destruct Hc as (-> & Ha & nx & Hn & Hc). rewrite (proj2 (Z.eqb_neq a 0)) by done.
    wp_step. eapply wp_deref; [done.. |]. wp_step. unfold INFO. wp_step.
    eapply IH; [exact Hc | cbn in Hf; lia |]. cbn in HQ |- *. by rewrite <- (assoc_L (++)).
Qed.

Lemma destroy_spec ns first pv fuel (Q : unit -> cworld -> Prop) w :
  dseg (nodes w) pv first ns 0 -> NoDup (map fst ns) -> (length ns < fuel)%nat ->
  (forall h', (forall a, h' !! a = if bool_decide (a ∈ map fst ns) then None else nodes w !! a) -> Q tt (set_nodes h' w)) ->
  wp (destroy_loop fuel first) Q w.
Proof.
  revert pv first fuel w. induction ns as [|[a d] ns IH]; intros pv first fuel w Hc Hnd Hf HQ;
    (destruct fuel as [|fuel]; [cbn in Hf; lia|]); cbn [destroy_loop].
  - cbn in Hc. subst first. rewrite Z.eqb_refl. wp_step. rewrite <- (set_nodes_same w). apply HQ. done.
  - destruct Hc as (-> & Ha & nx & Hn & Hc). rewrite (proj2 (Z.eqb_neq a 0)) by done.
    cbn [map fst] in Hnd. apply NoDup_cons in Hnd as [Hni Hnd].
    wp_step. eapply wp_deref; [done.. |]. wp_step. eapply wp_delete_node; [done.. |]. cbn [nd_next].
    eapply IH; [| done | cbn in Hf; lia |].
    + rewrite nodes_set_nodes. eapply dseg_frame; [|exact Hc]. intros b Hb. rewrite lookup_delete_ne; [done|]. by intros <-.
    + intros h' Hh'. rewrite set_nodes_twice. apply HQ. intros b. rewrite Hh', nodes_set_nodes. cbn [map fst].
      destruct (decide (b = a)) as [->|Hne].
      * rewrite lookup_delete_eq. rewrite (bool_decide_true (a ∈ a :: _)) by (by left). by destruct (bool_decide _).
      * rewrite lookup_delete_ne by done. erewrite bool_decide_ext; [done|]. rewrite elem_of_cons. tauto.
Qed.

(** ** Operations on the whole heap *)

Lemma owned_fuel h first ns : owned h first ns -> (length ns < S (size h))%nat.
Proof. intros [Hc Hnd _ _]. by eapply dseg_fuel. Qed.

(** A fresh node, filled in and put in front. *)
Lemma insert_new_spec first ns item n h (Q : Z * Z -> cworld -> Prop) w :
  owned h first ns -> h !! item = None -> item <> 0 -> person_ok (nd_data n) -> nodes w = <[item := n]> h ->
  (forall h', owned h' item ((item, nd_data n) :: ns) -> Q (0, item) (set_nodes h' w)) ->
  wp (person_insert item first) Q w.
Proof.
  intros [Hc Hnd Hdom Hok] Hfr Hz Hp Hw HQ. unfold person_insert. rewrite (proj2 (Z.eqb_neq item 0)) by done.
  assert (item ∉ map fst ns) as Hni by (intros Hin%Hdom; rewrite Hfr in Hin; by destruct Hin).
  eapply (node_insert_spec item first ns n); rewrite ?Hw; [| done.. | apply lookup_insert_eq |].
  { eapply dseg_frame; [|exact Hc]. intros a Ha. rewrite lookup_insert_ne; [done|]. by intros <-. }
  intros h' Hc' Hsame. apply HQ. constructor; [done | cbn; by apply NoDup_cons | | cbn; by apply Forall_cons].
  intros a. rewrite (Hsame a). rewrite lookup_insert_is_Some'. cbn. rewrite elem_of_cons, Hdom. intuition congruence.
Qed.

Lemma delete_new h first ns item n :
  owned h first ns -> h !! item = None -> delete item (<[item := n]> h) = h.
Proof. intros _ Hfr. by apply delete_insert_id. Qed.

Lemma owned_remove h h' first first' l1 a d l2 n :
  owned h first (l1 ++ (a, d) :: l2) -> dseg h' 0 first' (l1 ++ l2) 0 -> same_dom h h' -> h' !! a = Some n ->
  owned (delete a h') first' (l1 ++ l2).
Proof.
  intros [Hc Hnd Hdom Hok] Hc' Hsame Ha. rewrite !map_app in *. cbn [map fst snd] in *.
  pose proof Hnd as Hnd0. apply NoDup_app in Hnd as (Hd1 & Hd & [Ha2 Hd2]%NoDup_cons).
  assert (a ∉ map fst (l1 ++ l2)) as Hni.
  { rewrite map_app, elem_of_app. intros [Hin|Hin]; [|done]. apply (Hd a Hin). by left. }
  constructor.
  - eapply dseg_frame; [|exact Hc']. intros b Hb. rewrite lookup_delete_ne; [done|]. by intros <-.
  - rewrite map_app. apply NoDup_app. splits; [done | | done]. intros b Hb Hb2. apply (Hd b Hb). by right.
  - intros b. destruct (decide (b = a)) as [->|Hne].
    + rewrite lookup_delete_eq. split; [by intros [? ?] | done].
    + rewrite lookup_delete_ne by done. rewrite (Hsame b), Hdom, map_app, !elem_of_app, elem_of_cons. tauto.
  - rewrite map_app. apply Forall_app in Hok as [? [_ ?]%Forall_cons]. by apply Forall_app.
Qed.
