(* ===== verification/ContactsEntry.v ===== *)
(** * The entries of the menu against an abstract address book. *)
From S2P Require Import Prelude KcpBase CLib Contacts ContactsSpec.
From stdpp Require Import base list numbers strings gmap.
Open Scope Z_scope.
Open Scope c_scope.

(** ** Standard input as a value *)

Definition input : Type := list Z * bool.
Definition stdin (w : cworld) : input := (chars w, failed w).
Definition ignore_in (i : input) : input := if i.2 then i else (after_line i.1, false).
Definition getline_in (i : input) : list Z * input :=
  if i.2 then ([], i) else match i.1 with [] => ([], ([], true)) | s => (line s, (after_line s, false)) end.

(** What an entry of the menu reads: the rest of the line of the choice, then a line. *)
Definition next_line (i : input) : list Z * input := getline_in (ignore_in i).

(** ** The abstract book: the entries, newest first *)

Definition stored (s : list Z) : list Z := take 15 (cstr s).

Fixpoint remove_named (name : list Z) (L : list entry) : list entry :=
  match L with
  | [] => []
  | e :: L => if bool_decide (e.1 = name) then L else e :: remove_named name L
  end.

Definition book_spec (select : Z) (i : input) (L : list entry) : list entry * input :=
  if select =? OPTION_INSERT then
    let (name, i) := next_line i in
    let (phone, i) := getline_in i in
    let e := (stored name, stored phone) in
    (if bool_decide (e ∈ L) then L else e :: L, i)
  else if select =? OPTION_DELETE then
    let (name, i) := next_line i in (remove_named (stored name) L, i)
  else if select =? OPTION_SEARCH then (L, (next_line i).2)
  else (L, i).

(** ** Rules *)

Lemma wp_INFO fmt args (Q : unit -> cworld -> Prop) w :
  (forall w', nodes w' = nodes w -> stdin w' = stdin w -> files w' = files w -> room w' = room w -> Q tt w') ->
  wp (INFO fmt args) Q w.
Proof. intros HQ. unfold INFO. wp_step. by apply HQ. Qed.

Lemma wp_ignore (Q : unit -> cworld -> Prop) w :
  (forall w', nodes w' = nodes w -> stdin w' = ignore_in (stdin w) -> files w' = files w -> room w' = room w -> Q tt w') ->
  wp ignore Q w.
Proof. intros HQ. unfold ignore. wp_step. destruct (failed w) eqn:E; apply HQ; unfold ignore_in, stdin; cbn; by rewrite ?E. Qed.

Lemma wp_getline (Q : list Z -> cworld -> Prop) w :
  (forall w', nodes w' = nodes w -> stdin w' = (getline_in (stdin w)).2 -> files w' = files w -> room w' = room w ->
     Q (getline_in (stdin w)).1 w') ->
  wp getline Q w.
Proof.
  unfold wp, getline, getline_in, stdin. cbn. destruct (failed w) eqn:Ef; [intros HQ; apply HQ; by rewrite ?Ef|].
  destruct (chars w) as [|c s]; cbn; intros HQ; by apply HQ.
Qed.

(** The world after an access to one node. *)
Lemma set_nodes_frame h w :
  stdin (set_nodes h w) = stdin w /\ files (set_nodes h w) = files w /\ room (set_nodes h w) = room w.
Proof. done. Qed.

Section Entries.
Context {na : NodeAlloc}.

Lemma wp_new_node (Q : Z -> cworld -> Prop) w :
  (forall item, nodes w !! item = None -> item <> 0 ->
     Q item (set_nodes (<[item := mknode zero_person 0 0]> (nodes w)) w)) ->
  wp new_node Q w.
Proof.
  intros HQ. unfold new_node, store_node. wp_step. wp_step. wp_step. wp_step. wp_step.
  apply HQ; [apply fresh_node_new | apply fresh_node_nonnull].
Qed.

(** The result of an entry: the new book, its input, and the files as they were. *)
Definition entry_post (spec : list entry * input) (w : cworld) (r : Z * option Contacts) (w' : cworld) : Prop :=
  exists c' l', r.2 = Some c' /\ book w' c' l' /\ (map entry_of l', stdin w') = spec /\
    files w' = files w /\ room w' = room w.

(** What [read_person] leaves in a fresh node of zeros. *)
Lemma read_person_spec item h (Q : unit -> cworld -> Prop) w :
  item <> 0 -> nodes w = <[item := mknode zero_person 0 0]> h ->
  (forall p w', person_ok p ->
     (let (name, i) := next_line (stdin w) in let (phone, i) := getline_in i in
      entry_of p = (stored name, stored phone) /\ stdin w' = i) ->
     nodes w' = <[item := mknode p 0 0]> h -> files w' = files w -> room w' = room w -> Q tt w') ->
  wp (read_person item) Q w.
Proof.
  intros Hz Hw HQ. unfold read_person. wp_step. apply wp_ignore. intros w1 N1 I1 F1 R1.
  wp_step. apply wp_INFO. intros w2 N2 I2 F2 R2.
  wp_step. apply wp_getline. intros w3 N3 I3 F3 R3.
  assert (nodes w3 = <[item := mknode zero_person 0 0]> h) as Hw3 by (rewrite N3, N2, N1; done).
  wp_step. eapply wp_deref; [done | by rewrite Hw3, lookup_insert_eq |]. wp_step.
  eapply wp_set_data; [done | by rewrite Hw3, lookup_insert_eq |]. cbn [nd_data nd_prev nd_next].
  rewrite Hw3, insert_insert_eq. wp_step. apply wp_INFO. intros w4 N4 I4 F4 R4. wp_step. apply wp_getline. intros w5 N5 I5 F5 R5.
  set (name := (getline_in (stdin w2)).1) in *. set (phone := (getline_in (stdin w4)).1) in *.
  set (p1 := mkperson _ (p_phone zero_person)) in *.
  assert (nodes w5 = <[item := mknode p1 0 0]> h) as Hw5 by (rewrite N5, N4; done).
  wp_step. eapply wp_deref; [done | by rewrite Hw5, lookup_insert_eq |].
  eapply wp_set_data; [done | by rewrite Hw5, lookup_insert_eq |]. cbn [nd_data nd_prev nd_next].
  rewrite Hw5, insert_insert_eq. eapply HQ; [| | by rewrite nodes_set_nodes | |].
  - apply person_ok_phone, (person_ok_name zero_person), zero_person_ok.
  - assert (next_line (stdin w) = (name, stdin w3)) as ->.
    { unfold next_line. rewrite <- I1, <- I2. subst name. rewrite I3. apply surjective_pairing. }
    assert (getline_in (stdin w3) = (phone, stdin w5)) as ->.
    { subst phone. rewrite I5, I4. rewrite (proj1 (set_nodes_frame _ _)). apply surjective_pairing. }
    split; [|done]. unfold entry_of, p1. cbn [p_name p_phone]. by rewrite !(proj2 (proj2 (strncpy_term_spec _))).
  - cbn. rewrite F5, F4. cbn. by rewrite F3, F2, F1.
  - cbn. rewrite R5, R4. cbn. by rewrite R3, R2, R1.
Qed.

(** Looking for a new person in the book. *)
Lemma node_search_spec c ns item n p h (Q : bool -> cworld -> Prop) w :
  owned h (c_data c) ns -> h !! item = None -> nodes w = <[item := n]> h -> person_ok p ->
  Q (bool_decide (entry_of p ∈ map entry_of (map snd ns))) w -> wp (node_search p (c_data c)) Q w.
Proof.
  intros Ho Hfr Hw Hp HQ.
  assert (dseg (nodes w) 0 (c_data c) ns 0) as Hc.
  { rewrite Hw. eapply dseg_frame; [|apply Ho]. intros a Ha%(owned_dom _ _ _ Ho).
    rewrite lookup_insert_ne; [done|]. intros <-. rewrite Hfr in Ha. by destruct Ha. }
  unfold node_search. destruct (Z.eqb_spec (c_data c) 0) as [E|E].
  - wp_step. apply dseg_end_0 in Hc. destruct (proj1 Hc E) as [-> _].
    rewrite bool_decide_false in HQ; [done|]. by intros ?%elem_of_nil.
  - wp_step. unfold walk_fuel. wp_step. eapply search_spec; [done.. | apply Ho | | done].
    eapply dseg_fuel; [done | apply Ho].
Qed.

Lemma insert_entry_spec c l w :
  book w c l ->
  wp (insert_entry (Some c)) (fun r w' =>
    entry_post (book_spec OPTION_INSERT (stdin w) (map entry_of l)) w r w' /\ (r.1 = 0 \/ r.1 = -4)) w.
Proof.
  intros (ns & Ho & <- & Hcnt). unfold insert_entry. wp_step. apply wp_new_node. intros item Hfr Hz.
  set (h := nodes w) in *. wp_step. eapply (read_person_spec item h); [done | done|].
  intros p w5 Hp Hread Hw5 Ef5 Er5. unfold book_spec. cbn [Z.eqb OPTION_INSERT Pos.eqb].
  rewrite (proj1 (set_nodes_frame _ _)) in Hread. destruct (next_line (stdin w)) as [name i].
  destruct (getline_in i) as [phone i']. destruct Hread as [<- <-].
  wp_step. eapply wp_deref; [done | by rewrite Hw5, lookup_insert_eq |]. cbn [nd_data].
  wp_step. eapply node_search_spec; [done..|].
  destruct (decide (entry_of p ∈ map entry_of (map snd ns))) as [Hin|Hin].
  - rewrite !bool_decide_true by done. wp_step. apply wp_INFO. intros w7 N7 I7 F7 R7. wp_step.
    eapply wp_delete_node; [done | by rewrite N7, Hw5, lookup_insert_eq |]. wp_step.
    split; [|by right]. exists c, (map snd ns). splits; [done | | | by cbn; rewrite F7 | by cbn; rewrite R7].
    + exists ns. splits; [| done | done]. by rewrite nodes_set_nodes, N7, Hw5, delete_insert_id.
    + by rewrite <- I7.
  - rewrite !bool_decide_false by done. wp_step. eapply (insert_new_spec (c_data c) ns item (mknode p 0 0) h); [done..|].
    intros h' Ho'. cbv beta iota. cbn [Z.eqb negb]. wp_step. apply wp_INFO. intros w7 N7 I7 F7 R7. wp_step. split; [|by left].
    eexists _, (p :: map snd ns). splits; [done | | | by rewrite F7 | by rewrite R7].
    + exists ((item, p) :: ns). splits; [by rewrite N7 | done |]. cbn [c_count length]. rewrite Hcnt. unfold u64.
      rewrite Zplus_mod_idemp_l. f_equal. lia.
    + cbn [map]. f_equal. exact I7.
Qed.

(** ** Deleting and looking up *)

Lemma remove_named_split name l1 p l2 :
  entry_of p = (name, (entry_of p).2) -> Forall (fun q => cstr (p_name q) <> name) l1 ->
  remove_named name (map entry_of (l1 ++ p :: l2)) = map entry_of (l1 ++ l2).
Proof.
  intros Hp. induction 1 as [|q l1 Hq Hl IH]; cbn.
  - rewrite bool_decide_true; [done|]. by injection Hp.
  - by rewrite bool_decide_false, IH.
Qed.

Lemma remove_named_none name l :
  Forall (fun q => cstr (p_name q) <> name) l -> remove_named name (map entry_of l) = map entry_of l.
Proof. induction 1 as [|q l Hq Hl IH]; cbn; [done|]. by rewrite bool_decide_false, IH. Qed.

Lemma find_spec c ns s h (Q : Z -> cworld -> Prop) w :
  owned h (c_data c) ns -> nodes w = h ->
  Q (match first_named (stored s) ns with Some (a, _) => a | None => 0 end) w ->
  wp (person_name_search (strncpy_term s 15) (c_data c)) Q w.
Proof.
  intros Ho Hw HQ. pose proof (strncpy_term_spec s) as (_ & H0 & Hs). unfold person_name_search, walk_fuel. wp_step. wp_step.
  eapply name_search_spec; [apply Ho | done | done | apply Ho | rewrite Hw; by eapply owned_fuel |]. by rewrite Hs.
Qed.

Lemma delete_entry_spec c l w :
  book w c l ->
  wp (delete_entry (Some c)) (fun r w' =>
    entry_post (book_spec OPTION_DELETE (stdin w) (map entry_of l)) w r w' /\ (r.1 = 0 \/ r.1 = -2)) w.
Proof.
  intros (ns & Ho & <- & Hcnt). unfold delete_entry, book_spec. cbn [Z.eqb OPTION_INSERT OPTION_DELETE Pos.eqb].
  wp_step. apply wp_INFO. intros w1 N1 I1 F1 R1. wp_step. apply wp_ignore. intros w2 N2 I2 F2 R2.
  wp_step. apply wp_getline. intros w3 N3 I3 F3 R3. rewrite N2, N1 in N3.
  assert (next_line (stdin w) = ((getline_in (stdin w2)).1, stdin w3)) as ->
    by (unfold next_line; rewrite <- I1, <- I2, I3; apply surjective_pairing).
  rewrite F2, F1 in F3. rewrite R2, R1 in R3. set (s := (getline_in _).1). clearbody s. clear N1 N2 I1 I2 I3 F1 F2 R1 R2 w1 w2.
  wp_step. eapply find_spec; [exact Ho | done|]. destruct (first_named (stored s) ns) as [[a d]|] eqn:Ef.
  - apply first_named_split in Ef as (l1 & l2 & -> & Hn & Hl1).
    assert (a <> 0) as Ha by (eapply dseg_nonzero; [apply Ho|]; rewrite map_app, elem_of_app; right; by left).
    rewrite (proj2 (Z.eqb_neq a 0)) by done. wp_step. unfold person_delete. rewrite (proj2 (Z.eqb_neq a 0)) by done.
    eapply node_remove_spec; [rewrite N3; apply Ho | apply Ho|]. intros first' h' Hc' Hsame Hna. rewrite N3 in Hsame.
    cbv beta iota. cbn [Z.eqb negb]. wp_step. eapply wp_deref; [done..|]. wp_step. apply wp_INFO. intros w4 N4 I4 F4 R4.
    wp_step. eapply wp_delete_node; [done | by rewrite N4 |]. wp_step. split; [|by left].
    eexists _, (map snd (l1 ++ l2)). splits; [done | | | by cbn; rewrite F4 | by cbn; rewrite R4].
    + exists (l1 ++ l2). splits; [| done |].
      * rewrite nodes_set_nodes, N4. by eapply owned_remove.
      * cbn [c_count]. rewrite Hcnt, !length_map, !length_app. unfold u64. rewrite Zminus_mod_idemp_l. f_equal. cbn. lia.
    + f_equal; [|exact I4]. rewrite !(map_app snd). cbn [map snd]. symmetry. apply remove_named_split.
      * by rewrite <- Hn.
      * apply Forall_fmap. eapply Forall_impl; [exact Hl1|]. by intros [b e].
  - rewrite Z.eqb_refl. wp_step. apply wp_INFO. intros w4 N4 I4 F4 R4. wp_step. split; [|by right]. exists c, (map snd ns).
    splits; [done | | | by rewrite F4 | by rewrite R4].
    + exists ns. by rewrite N4, N3.
    + f_equal; [|done]. symmetry. by apply remove_named_none, first_named_none.
Qed.

Lemma search_entry_spec c l w :
  book w c l ->
  wp (search_entry (Some c)) (fun r w' =>
    book w' c l /\ stdin w' = (next_line (stdin w)).2 /\ files w' = files w /\ room w' = room w /\
    r = (if bool_decide (stored (next_line (stdin w)).1 ∈ map fst (map entry_of l)) then 0 else -2)) w.
Proof.
  intros (ns & Ho & <- & Hcnt). unfold search_entry.
  wp_step. apply wp_INFO. intros w1 N1 I1 F1 R1. wp_step. apply wp_ignore. intros w2 N2 I2 F2 R2.
  wp_step. apply wp_getline. intros w3 N3 I3 F3 R3. rewrite N2, N1 in N3.
  assert (next_line (stdin w) = ((getline_in (stdin w2)).1, stdin w3)) as ->
    by (unfold next_line; rewrite <- I1, <- I2, I3; apply surjective_pairing).
  rewrite F2, F1 in F3. rewrite R2, R1 in R3. set (s := (getline_in _).1). clearbody s. clear N1 N2 I1 I2 I3 F1 F2 R1 R2 w1 w2.
  wp_step. eapply find_spec; [exact Ho | done|]. cbn [fst snd]. destruct (first_named (stored s) ns) as [[a d]|] eqn:Ef.
  - apply first_named_split in Ef as (l1 & l2 & -> & Hn & Hl1). pose proof (owned_chain _ _ _ Ho) as Hc.
    apply dseg_middle in Hc as (nx & _ & Ha & Hna & _).
    rewrite (proj2 (Z.eqb_neq a 0)) by done. wp_step. eapply wp_deref; [done | by rewrite N3 |].
    wp_step. apply wp_INFO. intros w4 N4 I4 F4 R4. wp_step. splits; [| done | by rewrite F4 | by rewrite R4 |].
    + exists (l1 ++ (a, d) :: l2). by rewrite N4, N3.
    + rewrite bool_decide_true; [done|]. rewrite !map_app, elem_of_app. right. cbn. rewrite Hn. by left.
  - rewrite Z.eqb_refl. wp_step. apply wp_INFO. intros w4 N4 I4 F4 R4. wp_step. splits; [| done | by rewrite F4 | by rewrite R4 |].
    + exists ns. by rewrite N4, N3.
    + rewrite bool_decide_false; [done|]. apply first_named_none in Ef. rewrite Forall_forall in Ef.
      intros (e & He & (p & Hp & Hin)%list_elem_of_fmap)%list_elem_of_fmap. subst. by apply (Ef p Hin).
Qed.
End Entries.
