(* ===== verification/ContactsFile.v ===== *)
(** * Saving the address book to a file and loading it back. *)
From S2P Require Import Prelude KcpBase CLib Contacts ContactsSpec ContactsEntry.
From stdpp Require Import base list numbers strings gmap.
Open Scope Z_scope.
Open Scope c_scope.

Definition person_size (p : Person) : Prop := length (p_name p) = 16%nat /\ length (p_phone p) = 16%nat.
Definition bytes_of (l : list Person) : list Z := concat (map person_bytes l).

(** The whole persons at the start of a file. *)
Definition file_persons (b : list Z) : list Person := persons_of (length b / 32) b.

(** A file whose whole items are persons with terminated strings. *)
Definition file_ok (b : list Z) : Prop := Forall person_ok (file_persons b).

Lemma person_ok_size l : Forall person_ok l -> Forall person_size l.
Proof. intros H. eapply Forall_impl; [exact H|]. intros p (? & ? & _). by split. Qed.

Lemma bytes_of_app l1 l2 : bytes_of (l1 ++ l2) = bytes_of l1 ++ bytes_of l2.
Proof. unfold bytes_of. by rewrite map_app, concat_app. Qed.

Lemma length_bytes_of l : Forall person_size l -> length (bytes_of l) = (32 * length l)%nat.
Proof.
  induction 1 as [|p l [H1 H2] Hl IH]; [done|]. unfold bytes_of in *. cbn [map concat length].
  rewrite length_app, IH. unfold person_bytes. rewrite length_app. lia.
Qed.

Lemma person_round_trip p rest : person_size p -> person_of_bytes (take 32 (person_bytes p ++ rest)) = p.
Proof.
  destruct p as [a b]. intros [Ha Hb]. cbn in Ha, Hb. unfold person_of_bytes, person_bytes. cbn [p_name p_phone].
  assert (length (a ++ b) = 32%nat) as Hab by (rewrite length_app; lia).
  rewrite take_app_length' by lia. f_equal; [by apply take_app_length'|].
  rewrite drop_app_length' by lia. apply take_ge. lia.
Qed.

(** Reading back [n] of the persons that were written. *)
Lemma persons_of_bytes l rest n :
  Forall person_size l -> (n <= length l)%nat -> persons_of n (bytes_of l ++ rest) = take n l.
Proof.
  revert l. induction n as [|n IH]; intros l Hl Hn; [done|]. destruct l as [|p l]; [cbn in Hn; lia|].
  apply Forall_cons in Hl as [Hp Hl]. cbn [persons_of take].
  assert (bytes_of (p :: l) ++ rest = person_bytes p ++ (bytes_of l ++ rest)) as E
    by (unfold bytes_of; cbn [map concat]; by rewrite <- app_assoc).
  rewrite E, person_round_trip by done. f_equal.
  assert (length (person_bytes p) = 32%nat) as Hlen by (destruct Hp; unfold person_bytes; rewrite length_app; lia).
  rewrite <- Hlen, drop_app_length. apply IH; [done | cbn in Hn; lia].
Qed.

Lemma persons_of_take k n b : (32 * k <= n)%nat -> persons_of k (take n b) = persons_of k b.
Proof.
  revert n b. induction k as [|k IH]; intros n b Hk; [done|]. cbn [persons_of].
  rewrite take_take, skipn_firstn_comm, IH by lia. repeat f_equal. lia.
Qed.

(** Any initial part of a saved file is a good file. *)
Lemma file_ok_prefix l n : Forall person_ok l -> file_ok (take n (bytes_of l)).
Proof.
  intros Hl. pose proof (person_ok_size _ Hl) as Hs. pose proof (length_bytes_of l Hs) as Hlen. unfold file_ok, file_persons.
  rewrite length_take. set (k := (n `min` length (bytes_of l) / 32)%nat).
  assert (k <= length l)%nat as Hk by (subst k; rewrite Hlen; apply Nat.Div0.div_le_upper_bound; lia).
  assert (32 * k <= n `min` length (bytes_of l))%nat as Hk2 by (subst k; apply Nat.Div0.mul_div_le).
  rewrite persons_of_take by lia. rewrite <- (app_nil_r (bytes_of l)), persons_of_bytes by done. by apply Forall_take.
Qed.

(** ** Saving *)

(** One [fwrite]: what it appends is an initial part of the items, all of them when there
    is room. *)
Lemma wp_fwrite path l f0 (Q : nat -> cworld -> Prop) w :
  files w !! path = Some f0 -> Forall person_size l ->
  (forall n, (n <= length (bytes_of l))%nat -> (Z.of_nat (length (bytes_of l)) <= room w -> n = length (bytes_of l)) ->
     (n / 32 = length l -> n = length (bytes_of l))%nat ->
     Q (n / 32)%nat (set_files (<[path := f0 ++ take n (bytes_of l)]> (files w)) (room w - Z.of_nat n) w)) ->
  wp (fwrite path l) Q w.
Proof.
  intros Hf Hs HQ. unfold wp, fwrite. rewrite Hf. cbn [default option_map from_option]. fold (bytes_of l).
  set (n := Z.to_nat _). assert (n <= length (bytes_of l))%nat as Hle by (subst n; lia). apply (HQ n).
  - done.
  - subst n. lia.
  - intros E. clearbody n. rewrite (length_bytes_of l Hs) in *. pose proof (Nat.div_mod_eq n 32) as Hd. lia.
Qed.

Lemma save_loop_spec path l buffer ns first pv fuel f0 (Q : option (list Person) -> cworld -> Prop) w :
  dseg (nodes w) pv first ns 0 -> l = map snd ns -> (length ns < fuel)%nat -> Forall person_size (buffer ++ l) ->
  (length buffer < 64)%nat -> files w !! path = Some f0 ->
  (forall r w' f1, nodes w' = nodes w -> stdin w' = stdin w -> files w' = <[path := f1]> (files w) ->
     match r with
     | None => room w < Z.of_nat (length (bytes_of (buffer ++ l))) /\ exists n, f1 = f0 ++ take n (bytes_of (buffer ++ l))
     | Some rest => exists done, buffer ++ l = done ++ rest /\ f1 = f0 ++ bytes_of done /\
         room w' = room w - Z.of_nat (length (bytes_of done)) /\ (length rest < 64)%nat
     end -> Q r w') ->
  wp (save_loop fuel path first buffer) Q w.
Proof.
  revert pv first fuel buffer ns f0 w Q. induction l as [|d l IH]; intros pv first fuel buffer ns f0 w Q Hc El Hfuel Hs Hb Hf HQ;
    (destruct fuel as [|fuel]; [lia|]); cbn [save_loop]; (destruct ns as [|[a e] ns]; try done).
  - cbn in Hc. subst first. rewrite Z.eqb_refl. wp_step. apply (HQ _ _ f0); [done | done | by rewrite insert_id |].
    exists []. rewrite app_nil_r. splits; [done | by rewrite app_nil_r | cbn; lia | done].
  - injection El as -> ->. destruct Hc as (-> & Ha & nx & Hn & Hc). rewrite (proj2 (Z.eqb_neq a 0)) by done.
    wp_step. eapply wp_deref; [done..|]. cbn [nd_data nd_next]. unfold SIZE_BUFFER_P.
    assert (buffer ++ e :: map snd ns = (buffer ++ [e]) ++ map snd ns) as Eb by (by rewrite <- app_assoc).
    rewrite Eb in *. pose proof Hs as [Hs1 Hs2]%Forall_app.
    destruct (Nat.eqb_spec (length (buffer ++ [e])) 64) as [E64|E64].
    + wp_step. eapply wp_fwrite; [done | done |]. intros n Hle Hroom Hall. rewrite E64 in Hall.
      set (w1 := set_files _ _ w).
      assert (files w1 = <[path := f0 ++ take n (bytes_of (buffer ++ [e]))]> (files w) /\ room w1 = room w - Z.of_nat n /\
        nodes w1 = nodes w /\ stdin w1 = stdin w) as (F1 & R1 & N1 & I1) by done. clearbody w1.
      destruct (Nat.eqb_spec (n / 32) 64) as [E|E]; cbn [negb].
      * specialize (Hall E). rewrite Hall in *. rewrite take_ge in F1 by done.
        eapply (IH a nx fuel [] ns _ w1); [by rewrite N1 | done | cbn in Hfuel; lia | done | cbn; lia | by rewrite F1, lookup_insert_eq |].
        intros r w' f1 N I F Hr. rewrite F1, insert_insert_eq in F. apply (HQ r w' f1); [congruence | congruence | done |].
        rewrite R1 in Hr. destruct r as [rest|].
        -- destruct Hr as (done & E1 & E2 & E3 & E4). exists ((buffer ++ [e]) ++ done). rewrite bytes_of_app.
           cbn [app] in E1. splits; [by rewrite E1, app_assoc | by rewrite E2, app_assoc | rewrite E3, length_app; lia | done].
        -- destruct Hr as (Hlt & m & ->). cbn [app] in *. rewrite bytes_of_app, length_app. split; [lia|].
           exists (length (bytes_of (buffer ++ [e])) + m)%nat. by rewrite take_app_add, app_assoc.
      * wp_step. apply (HQ None w1 (f0 ++ take n (bytes_of (buffer ++ [e])))); [done..|].
        rewrite bytes_of_app, length_app. split; [|exists n; by rewrite take_app_le].
        destruct (decide (Z.of_nat (length (bytes_of (buffer ++ [e]))) <= room w)) as [Hr|]; [|lia].
        exfalso. apply E. rewrite (Hroom Hr), length_bytes_of, E64 by done. done.
    + eapply (IH a nx fuel (buffer ++ [e]) ns f0 w); [exact Hc | done | cbn in Hfuel; lia | done | | done | done].
      rewrite length_app in *. cbn in *. lia.
Qed.

(** [save_file]: the file is an initial part of the book; all of it when there is room,
    which is when it returns 0. *)
Lemma save_file_spec first ns filename (Q : Z -> cworld -> Prop) w :
  owned (nodes w) first ns ->
  (forall r w' f1, nodes w' = nodes w -> stdin w' = stdin w ->
     files w' = <[cstr (data_dir ++ filename) := f1]> (files w) ->
     (exists n, f1 = take n (bytes_of (map snd ns))) ->
     (r = 0 \/ r = -2) -> (r = 0 -> f1 = bytes_of (map snd ns)) ->
     (Z.of_nat (length (bytes_of (map snd ns))) <= room w -> r = 0) -> Q r w') ->
  wp (save_file true first filename) Q w.
Proof.
  intros Ho HQ. set (path := cstr (data_dir ++ filename)) in *. unfold save_file. cbn [negb].
  pose proof (person_ok_size _ (owned_ok _ _ _ Ho)) as Hs. fold path.
  wp_step. wp_step. unfold walk_fuel. wp_step. wp_step. wp_step.
  eapply (save_loop_spec path (map snd ns) [] ns); [apply Ho | done | by eapply owned_fuel | done | cbn; lia | by apply lookup_insert_eq |].
  intros r w1 f1 N I F Hr. cbn [files set_files nodes] in *. rewrite insert_insert_eq in F. cbn [app room set_files] in Hr.
  destruct r as [rest|].
  - destruct Hr as (done & E & -> & R & Hlen). rewrite E in *. rewrite bytes_of_app in *. apply Forall_app in Hs as [Hs1 Hs2].
    destruct rest as [|p rest].
    + wp_step. apply (HQ _ _ (bytes_of done)); [done | done | done | | by left | by rewrite app_nil_r | done].
      exists (length (bytes_of done)). by rewrite take_app_length.
    + wp_step. eapply wp_fwrite; [by rewrite F, lookup_insert_eq | done |]. intros n Hle Hroom Hall.
      cbn [app] in *. set (w2 := set_files _ _ w1).
      assert (files w2 = <[path := bytes_of done ++ take n (bytes_of (p :: rest))]> (files w)) as F2
        by (subst w2; cbn; by rewrite F, insert_insert_eq).
      destruct (Nat.eqb_spec (n / 32) (length (p :: rest))) as [En|En]; cbn [negb]; wp_step.
      * rewrite (Hall En), take_ge in F2 by done. apply (HQ _ w2 _ N I F2); [| by left | done | done].
        exists (length (bytes_of done ++ bytes_of (p :: rest))). by rewrite take_ge.
      * apply (HQ _ w2 _ N I F2); [| by right | done |].
        -- exists (length (bytes_of done) + n)%nat. by rewrite take_app_add.
        -- intros Hr. rewrite length_app in Hr. exfalso. apply En. rewrite Hroom by lia. rewrite length_bytes_of by done.
           rewrite Nat.mul_comm, Nat.div_mul; lia.
  - wp_step. destruct Hr as (Hlt & n & ->). apply (HQ _ _ _ N I F); [by exists n | by right | done | lia].
Qed.

(** ** Loading *)

Lemma persons_of_add i j b : persons_of (i + j) b = persons_of i b ++ persons_of j (drop (32 * i) b).
Proof.
  revert b. induction i as [|i IH]; intros b; [by rewrite Nat.mul_0_r, drop_0|].
  cbn [Nat.add persons_of app]. rewrite IH, drop_drop. replace (32 * S i)%nat with (32 + 32 * i)%nat by lia. done.
Qed.

(** One [fread] takes the first persons of what is left of the file. *)
Lemma file_persons_chunk b :
  file_persons b = file_persons (take (32 * 64) b) ++ file_persons (drop (32 * 64) b).
Proof.
  unfold file_persons. rewrite length_take, length_drop.
  destruct (decide (32 * 64 <= length b)%nat) as [Hle|Hle].
  - rewrite Nat.min_l by done. replace (32 * 64 / 32)%nat with 64%nat by done.
    rewrite persons_of_take by done. rewrite <- persons_of_add. f_equal.
    replace (length b)%nat with ((length b - 32 * 64) + 64 * 32)%nat at 1 by lia. rewrite Nat.div_add by lia. lia.
  - rewrite Nat.min_r, take_ge, drop_ge by lia. replace (length b - 32 * 64)%nat with 0%nat by lia.
    cbn [Nat.div persons_of]. by rewrite app_nil_r.
Qed.

Lemma file_persons_bytes l : Forall person_size l -> file_persons (bytes_of l) = l.
Proof.
  intros Hs. unfold file_persons. rewrite length_bytes_of by done. rewrite Nat.mul_comm, Nat.div_mul by lia.
  rewrite <- (app_nil_r (bytes_of l)), persons_of_bytes by done. by apply take_ge.
Qed.

Section Load.
Context {na : NodeAlloc}.

Lemma load_items_spec l first count ns (Q : Z * Z -> cworld -> Prop) w :
  owned (nodes w) first ns -> Forall person_ok l -> count = u64 (Z.of_nat (length ns)) ->
  (forall first' ns' w', owned (nodes w') first' ns' -> map snd ns' = rev l ++ map snd ns ->
     stdin w' = stdin w -> files w' = files w -> room w' = room w ->
     Q (first', u64 (Z.of_nat (length ns'))) w') ->
  wp (load_items l first count) Q w.
Proof.
  revert first count ns w. induction l as [|p l IH]; intros first count ns w Ho Hl -> HQ; cbn [load_items].
  - wp_step. by apply HQ.
  - apply Forall_cons in Hl as [Hp Hl]. wp_step. apply wp_new_node. intros item Hfr Hz. set (h := nodes w) in *.
    wp_step. eapply wp_set_data; [done | by rewrite nodes_set_nodes, lookup_insert_eq |].
    rewrite nodes_set_nodes, insert_insert_eq, set_nodes_twice. cbn [nd_prev nd_next]. wp_step.
    eapply (insert_new_spec first ns item (mknode p 0 0) h); [done | done | done | done | by rewrite nodes_set_nodes |].
    intros h' Ho'. cbn [nd_data] in Ho'. cbv beta iota. rewrite Z.eqb_refl, set_nodes_twice.
    eapply (IH _ _ ((item, p) :: ns)); [by rewrite nodes_set_nodes | done | |].
    + cbn [length]. unfold u64. rewrite Zplus_mod_idemp_l. f_equal. lia.
    + intros first' ns' w' Ho2 E I F R. apply HQ; [done | | done..]. rewrite E. cbn. by rewrite <- app_assoc.
Qed.

Lemma load_loop_spec fuel b first count ns (Q : Z * Z -> cworld -> Prop) w :
  owned (nodes w) first ns -> file_ok b -> count = u64 (Z.of_nat (length ns)) -> (length b + 1 < fuel)%nat ->
  (forall first' ns' w', owned (nodes w') first' ns' -> map snd ns' = rev (file_persons b) ++ map snd ns ->
     stdin w' = stdin w -> files w' = files w -> room w' = room w ->
     Q (first', u64 (Z.of_nat (length ns'))) w') ->
  wp (load_loop fuel b first count) Q w.
Proof.
  revert b first count ns w. induction fuel as [|fuel IH]; intros b first count ns w Ho Hok -> Hf HQ; [lia|].
  cbn [load_loop]. unfold SIZE_BUFFER_P. set (n := (32 * 64)%nat) in *. set (got := take n b) in *.
  unfold file_ok in Hok. rewrite (file_persons_chunk b) in Hok, HQ. fold n got in Hok, HQ. apply Forall_app in Hok as [Hok1 Hok2].
  wp_step. eapply load_items_spec; [exact Ho | exact Hok1 | done |]. intros first1 ns1 w1 Ho1 E1 I1 F1 R1. cbv beta iota.
  destruct (Nat.eqb_spec (length got / 32) 0) as [E0|E0].
  - wp_step. apply HQ; [done | | done..]. rewrite E1.
    assert (file_persons (drop n b) = []) as ->; [|by rewrite app_nil_r].
    unfold file_persons. apply Nat.div_small_iff in E0; [|lia]. subst got. rewrite length_take in E0.
    replace (length (drop n b)) with 0%nat; [done|]. rewrite length_drop. subst n. lia.
  - eapply (IH _ _ _ ns1); [done | done | done | |].
    + rewrite length_drop. assert (length got <> 0)%nat as Hg by (intros E; by rewrite E in E0).
      subst got. rewrite length_take in Hg. subst n. lia.
    + intros first2 ns2 w2 Ho2 E2 I2 F2 R2. apply HQ; [done | | congruence..]. rewrite E2, E1, rev_app_distr. apply app_assoc.
Qed.

Lemma load_file_spec first count ns filename b (Q : Z * Z * Z -> cworld -> Prop) w :
  owned (nodes w) first ns -> count = u64 (Z.of_nat (length ns)) ->
  files w !! cstr (data_dir ++ filename) = Some b -> file_ok b ->
  (forall first' ns' w', owned (nodes w') first' ns' -> map snd ns' = rev (file_persons b) ++ map snd ns ->
     stdin w' = stdin w -> files w' = files w -> room w' = room w ->
     Q (0, first', u64 (Z.of_nat (length ns'))) w') ->
  wp (load_file first filename count) Q w.
Proof.
  intros Ho Hc Hf Hok HQ. unfold load_file. wp_step. wp_step. rewrite Hf. wp_step.
  eapply load_loop_spec; [exact Ho | exact Hok | exact Hc | lia |]. intros first' ns' w' ?????. wp_step. by apply HQ.
Qed.
End Load.
