(* ===== verification/ContactsProps.v ===== *)
(** * The properties of the address book. *)
From S2P Require Import Prelude KcpBase CLib Contacts ContactsSpec ContactsEntry ContactsFile.
From stdpp Require Import base list numbers strings gmap.
Open Scope Z_scope.
Open Scope c_scope.

(** ** An instance: the next address after all in use *)

Definition next_address (h : gmap Z PNode) : Z := 1 + foldr Z.max 0 (map fst (map_to_list h)).

Lemma next_address_above h a n : h !! a = Some n -> a < next_address h.
Proof.
  intros H. assert (a ∈ map fst (map_to_list h)) as Hin
    by (apply list_elem_of_fmap; exists (a, n); split; [done | by apply elem_of_map_to_list]).
  unfold next_address. revert Hin. generalize (map fst (map_to_list h)). intros l Hin.
  induction l as [|b l IH]; [by apply elem_of_nil in Hin|]. cbn. apply elem_of_cons in Hin as [->|Hin]; [lia|].
  specialize (IH Hin). lia.
Qed.

Lemma next_address_new h : h !! next_address h = None.
Proof. destruct (h !! next_address h) as [n|] eqn:E; [|done]. apply next_address_above in E. lia. Qed.
Lemma next_address_nonnull h : next_address h <> 0.
Proof.
  unfold next_address. enough (0 <= foldr Z.max 0 (map fst (map_to_list h))) by lia.
  induction (map fst (map_to_list h)) as [|b l IH]; cbn; lia.
Qed.
#[export] Instance bump_alloc : NodeAlloc := mkna next_address next_address_new next_address_nonnull.

(** Persons by their strings, and a book of two. *)
Definition person_of (name phone : list Z) : Person := mkperson (strncpy_term name 15) (strncpy_term phone 15).
Definition ann : Person := person_of [97; 110; 110] [49; 50].
Definition bob : Person := person_of [98; 111; 98] [51].
Definition book2 (input : list Z) : cworld :=
  mkcw (list_to_map [(1, mknode ann 0 2); (2, mknode bob 1 0)]) input false [] ∅ 4096.

Lemma person_of_ok a b : person_ok (person_of a b).
Proof.
  pose proof (strncpy_term_spec a) as (? & ? & _). pose proof (strncpy_term_spec b) as (? & ? & _). by repeat split.
Qed.

Lemma book2_book input : book (book2 input) (mkcontacts 1 2) [ann; bob].
Proof.
  exists [(1, ann); (2, bob)]. splits; [|done|done]. constructor.
  - cbn. splits; [done | done |]. exists 2. split; [done|]. splits; [done | done |]. by exists 0.
  - apply (bool_decide_unpack _). vm_compute. exact I.
  - intros a. cbn [nodes book2 list_to_map foldr fst snd map]. rewrite !lookup_insert_is_Some', lookup_empty.
    rewrite !elem_of_cons, elem_of_nil. rewrite is_Some_alt. cbn. intuition congruence.
  - cbn. repeat constructor; apply person_of_ok.
Qed.

(** ** Commands in any state *)

Definition files_ok (w : cworld) : Prop := forall path b, files w !! path = Some b -> file_ok b.

(** Input that has failed stays so. *)
Definition still_failed (w w' : cworld) : Prop := failed w = true -> failed w' = true.

Lemma next_line_failed i : i.2 = true -> (next_line i).2.2 = true /\ (getline_in (next_line i).2).2.2 = true.
Proof. destruct i as [s f]. cbn. intros ->. done. Qed.

Section Commands.
Context {na : NodeAlloc}.

Lemma save_entry_ok opens c l w :
  book w c l -> files_ok w ->
  wp (save_entry opens (Some c)) (fun _ w' => book w' c l /\ files_ok w' /\ still_failed w w') w.
Proof.
  intros (ns & Ho & <- & Hcnt) Hfs. unfold save_entry, still_failed.
  wp_step. apply wp_INFO. intros w1 N1 I1 F1 R1. wp_step. apply wp_ignore. intros w2 N2 I2 F2 R2.
  wp_step. apply wp_getline. intros w3 N3 I3 F3 R3. rewrite N2, N1 in N3. rewrite F2, F1 in F3.
  assert (failed w = true -> failed w3 = true) as Hf.
  { intros Hf. change (failed w3) with (stdin w3).2. rewrite I3, I2, I1. by apply next_line_failed. }
  set (filename := (getline_in _).1). clearbody filename. wp_step. destruct opens.
  - eapply save_file_spec; [by rewrite N3|]. intros r w4 f1 N I F [n Hn] Hr _ _.
    assert (files_ok w4) as Hfs4.
    { intros path b. rewrite F. intros [[_ <-]|[_ Hb]]%lookup_insert_Some; [|rewrite F3 in Hb; by eapply Hfs].
      rewrite Hn. apply file_ok_prefix, Ho. }
    assert (book w4 c (map snd ns)) as Hb by (exists ns; by rewrite N, N3).
    assert (failed w = true -> failed w4 = true) as Hf4 by (intros; change (failed w4) with (stdin w4).2; rewrite I; by apply Hf).
    destruct (negb (r =? 0)); [by wp_step|]. wp_step. unfold INFO. wp_step. wp_step. done.
  - unfold save_file. cbn [negb]. wp_step. cbn [Z.eqb negb]. wp_step. splits; [| | done].
    + exists ns. by rewrite N3.
    + intros path b. rewrite F3. apply Hfs.
Qed.

Lemma load_entry_ok c l w :
  book w c l -> files_ok w ->
  wp (load_entry (Some c)) (fun r w' => exists c' l', r.2 = Some c' /\ book w' c' l' /\ files_ok w' /\ still_failed w w') w.
Proof.
  intros (ns & Ho & <- & Hcnt) Hfs. unfold load_entry, still_failed.
  wp_step. apply wp_INFO. intros w1 N1 I1 F1 R1. wp_step. apply wp_ignore. intros w2 N2 I2 F2 R2.
  wp_step. apply wp_getline. intros w3 N3 I3 F3 R3. rewrite N2, N1 in N3. rewrite F2, F1 in F3.
  assert (failed w = true -> failed w3 = true) as Hf.
  { intros Hf. change (failed w3) with (stdin w3).2. rewrite I3, I2, I1. by apply next_line_failed. }
  set (filename := (getline_in _).1). clearbody filename. wp_step.
  destruct (files w !! cstr (data_dir ++ cstr filename)) as [b|] eqn:Eb.
  - eapply (load_file_spec (c_data c) (c_count c) ns _ b);
      [by rewrite N3 | rewrite Hcnt; by rewrite length_map | by rewrite F3 | by eapply Hfs |].
    intros first' ns' w4 Ho' E I F R. cbv beta iota. cbn [Z.eqb negb]. wp_step. unfold INFO. wp_step. wp_step.
    eexists _, (map snd ns'). splits; [done | exists ns'; splits; [done | done | cbn; by rewrite length_map] | |].
    + intros path b'. cbn. rewrite F, F3. apply Hfs.
    + cbn. intros Hw. change (failed w4) with (stdin w4).2. rewrite I. by apply Hf.
  - unfold load_file. wp_step. wp_step. rewrite F3, Eb. wp_step. cbn [Z.eqb negb]. wp_step.
    exists (mkcontacts (c_data c) (c_count c)), (map snd ns). splits; [done | | | done].
    + exists ns. by rewrite N3.
    + intros path b'. rewrite F3. apply Hfs.
Qed.

Lemma print_entry_ok c l w :
  book w c l ->
  wp (print_entry (Some c)) (fun r w' => r = 0 /\ book w' c l /\ stdin w' = stdin w /\ files w' = files w /\ room w' = room w) w.
Proof.
  intros (ns & Ho & <- & Hcnt). unfold print_entry, person_traversal, walk_fuel. wp_step. wp_step. wp_step.
  eapply traversal_spec; [apply Ho | by eapply owned_fuel |]. wp_step. splits; try done. by exists ns.
Qed.

Lemma menu_command_ok opens select c l w :
  book w c l -> files_ok w ->
  wp (menu_command opens select (Some c)) (fun r w' =>
    exists c' l', r = Some c' /\ book w' c' l' /\ files_ok w' /\ still_failed w w') w.
Proof.
  intros Hb Hfs. unfold menu_command.
  destruct (select =? OPTION_INSERT).
  { wp_step. eapply wp_mono; [exact (insert_entry_spec c l w Hb)|]. cbv beta. intros [r r2] w' [(c' & l' & E & Hb' & Hs & Hf & _) _].
    cbn in E. subst r2. wp_step. exists c', l'. splits; [done | done | intros p b; rewrite Hf; apply Hfs |]. intros Hfail.
    change (failed w') with (stdin w').2. unfold book_spec in Hs. cbn [Z.eqb OPTION_INSERT Pos.eqb] in Hs.
    destruct (next_line_failed (stdin w) Hfail) as [_ Hn]. destruct (next_line (stdin w)) as [a i]. cbn [snd] in Hn.
    destruct (getline_in i). by injection Hs as _ ->. }
  destruct (select =? OPTION_PRINT).
  { wp_step. eapply wp_mono; [exact (print_entry_ok c l w Hb)|]. cbv beta. intros r w' (_ & Hb' & Hi & Hf & _). wp_step.
    exists c, l. splits; [done | done | intros p b; rewrite Hf; apply Hfs |]. intros Hfail.
    change (failed w') with (stdin w').2. by rewrite Hi. }
  destruct (select =? OPTION_DELETE).
  { wp_step. eapply wp_mono; [exact (delete_entry_spec c l w Hb)|]. cbv beta. intros [r r2] w' [(c' & l' & E & Hb' & Hs & Hf & _) _].
    cbn in E. subst r2. wp_step. exists c', l'. splits; [done | done | intros p b; rewrite Hf; apply Hfs |]. intros Hfail.
    change (failed w') with (stdin w').2. unfold book_spec in Hs. cbn [Z.eqb OPTION_INSERT OPTION_DELETE Pos.eqb] in Hs.
    destruct (next_line_failed (stdin w) Hfail) as [Hn _]. destruct (next_line (stdin w)) as [a i]. by injection Hs as _ ->. }
  destruct (select =? OPTION_SEARCH).
  { wp_step. eapply wp_mono; [exact (search_entry_spec c l w Hb)|]. cbv beta. intros r w' (Hb' & Hi & Hf & _). wp_step.
    exists c, l. splits; [done | done | intros p b; rewrite Hf; apply Hfs |]. intros Hfail.
    change (failed w') with (stdin w').2. rewrite Hi. by apply next_line_failed. }
  destruct (select =? OPTION_SAVE).
  { wp_step. eapply wp_mono; [exact (save_entry_ok opens c l w Hb Hfs)|]. cbv beta. intros r w' (? & ? & ?). wp_step. by exists c, l. }
  destruct (select =? OPTION_LOAD).
  { wp_step. eapply wp_mono; [exact (load_entry_ok c l w Hb Hfs)|]. cbv beta. intros [r r2] w' (c' & l' & E & ? & ? & ?).
    cbn in E. subst r2. wp_step. by exists c', l'. }
  wp_step. exists c, l. splits; try done. by intros Hf.
Qed.

Lemma destroy_contacts_spec c l w :
  book w c l -> wp (destroy_contacts c) (fun c' w' => c' = mkcontacts 0 0 /\ nodes w' = ∅ /\ files w' = files w /\ stdin w' = stdin w) w.
Proof.
  intros (ns & [Hc Hnd Hdom Hok] & _ & _). unfold destroy_contacts, walk_fuel. wp_step. wp_step. wp_step.
  eapply destroy_spec; [done | done | by eapply dseg_fuel |]. intros h' Hh'. wp_step. splits; try done.
  apply map_eq. intros a. rewrite Hh', lookup_empty. case_bool_decide as Ha; [done|].
  rewrite <- Hdom in Ha. by apply eq_None_not_Some.
Qed.
End Commands.

(** What printing and reading a number leave alone. *)
Lemma INFO_run fmt args w :
  exists w', INFO fmt args w = Ok tt w' /\ nodes w' = nodes w /\ files w' = files w /\ failed w' = failed w.
Proof. unfold INFO, modify. eexists. by splits. Qed.

Lemma read_int_run sel w :
  exists s2 w2, read_int sel w = Ok s2 w2 /\ nodes w2 = nodes w /\ files w2 = files w /\
    (failed w = true -> s2 = sel /\ failed w2 = true).
Proof.
  unfold read_int. destruct (failed w) eqn:Ef; [by exists sel, w|].
  destruct (skip_space (chars w)) as [|ch s]; [by eexists _, _|]. cbv zeta. destruct (if (ch =? 45) || (ch =? 43) then s else ch :: s); [by eexists _, _|].
  destruct (is_digit _); [|by eexists _, _]. destruct (digits _ 0) as [v s'].
  destruct (ch =? 45); (destruct (_ <? -2147483648); [by eexists _, _|]); destruct (2147483647 <? _); by eexists _, _.
Qed.

(** ** The properties *)

(** C37: the address book does what a list of entries does.  Whatever was typed, the
    commands insert, print, delete and search leave the abstract book -- the newest entry
    first, names and phones cut to 15 characters, no two equal entries from insertion,
    the first entry of a name deleted -- and never access a node that is not there. *)
Theorem contacts_refine (na : NodeAlloc) opens select c l w :
  book w c l -> select <> OPTION_SAVE -> select <> OPTION_LOAD ->
  wp (menu_command opens select (Some c)) (fun r w' =>
    exists c' l', r = Some c' /\ book w' c' l' /\
      (map entry_of l', stdin w') = book_spec select (stdin w) (map entry_of l) /\
      files w' = files w /\ room w' = room w) w.
Proof.
  intros Hb H5%Z.eqb_neq H6%Z.eqb_neq. unfold menu_command. rewrite H5, H6.
  destruct (Z.eqb_spec select OPTION_INSERT) as [->|H1].
  { wp_step. eapply wp_mono; [exact (insert_entry_spec c l w Hb)|]. cbv beta.
    intros [r r2] w' [(c' & l' & E & H) _]. cbn in E. subst r2. wp_step. by exists c', l'. }
  destruct (Z.eqb_spec select OPTION_PRINT) as [->|H2].
  { wp_step. eapply wp_mono; [exact (print_entry_ok c l w Hb)|]. cbv beta. intros r w' (_ & Hb' & Hi & Hf & Hr). wp_step.
    exists c, l. splits; try done. by rewrite Hi. }
  destruct (Z.eqb_spec select OPTION_DELETE) as [->|H3].
  { wp_step. eapply wp_mono; [exact (delete_entry_spec c l w Hb)|]. cbv beta.
    intros [r r2] w' [(c' & l' & E & H) _]. cbn in E. subst r2. wp_step. by exists c', l'. }
  unfold book_spec. rewrite (proj2 (Z.eqb_neq _ _) H1), (proj2 (Z.eqb_neq _ _) H3).
  destruct (Z.eqb_spec select OPTION_SEARCH) as [->|H4].
  { wp_step. eapply wp_mono; [exact (search_entry_spec c l w Hb)|]. cbv beta. intros r w' (Hb' & Hi & Hf & Hr & _). wp_step.
    exists c, l. splits; try done. by rewrite Hi. }
  wp_step. by exists c, l.
Qed.

Lemma contacts_refine_witness :
  wp (menu_command true OPTION_DELETE (Some (mkcontacts 1 2))) (fun r w' =>
    exists c' l', r = Some c' /\ book w' c' l' /\
      (map entry_of l', stdin w') = ([([98; 111; 98], [51])], ([], false)) /\ files w' = ∅ /\ room w' = 4096)
    (book2 [10; 97; 110; 110; 10]).
Proof.
  apply (contacts_refine bump_alloc true OPTION_DELETE (mkcontacts 1 2) [ann; bob] (book2 [10; 97; 110; 110; 10]) (book2_book _)); discriminate.
Defined.

(** C38: what is saved is what is loaded, in the reverse order: saving a book, deleting
    it and loading the file gives back the same persons, byte for byte, last one first. *)
Theorem contacts_save_load (na : NodeAlloc) c l filename w :
  book w c l -> Z.of_nat (32 * length l) <= room w ->
  wp (let! r := save_file true (c_data c) filename in
      let! c := destroy_contacts c in
      let! ' (r', first, count) := load_file (c_data c) filename (c_count c) in
      ret (r, r', mkcontacts first count))
    (fun res w' => res.1 = (0, 0) /\ book w' res.2 (rev l) /\
       files w' !! cstr (data_dir ++ filename) = Some (concat (map person_bytes l))) w.
Proof.
  intros (ns & Ho & <- & Hcnt) Hroom. pose proof (person_ok_size _ (owned_ok _ _ _ Ho)) as Hs. wp_step.
  eapply save_file_spec; [exact Ho|]. intros r w1 f1 N1 I1 F1 _ _ Hf Hr. rewrite Hr in * by (rewrite length_bytes_of; done).
  rewrite Hf in F1 by done. wp_step.
  assert (book w1 c (map snd ns)) as Hb1 by (exists ns; by rewrite N1).
  eapply wp_mono; [exact (destroy_contacts_spec c _ w1 Hb1)|]. cbv beta. intros c2 w2 (-> & N2 & F2 & _). wp_step.
  eapply (load_file_spec 0 0 [] filename (bytes_of (map snd ns))); [| done | | |].
  - rewrite N2. constructor; [done | constructor | | constructor]. intros a. rewrite lookup_empty. cbn.
    rewrite elem_of_nil. split; [by intros [? ?] | done].
  - rewrite F2, F1. by apply lookup_insert_eq.
  - unfold file_ok. rewrite file_persons_bytes by done. apply Ho.
  - intros first' ns' w3 Ho3 E3 _ F3 _. rewrite file_persons_bytes, app_nil_r in E3 by done. wp_step. cbn [fst snd]. splits; [done | |].
    + exists ns'. splits; [done | done |]. cbn. rewrite <- E3. by rewrite length_map.
    + rewrite F3, F2, F1. apply lookup_insert_eq.
Qed.

Lemma contacts_save_load_witness :
  wp (let! r := save_file true 1 [120] in
      let! c := destroy_contacts (mkcontacts 1 2) in
      let! ' (r', first, count) := load_file (c_data c) [120] (c_count c) in
      ret (r, r', mkcontacts first count))
    (fun res w' => res.1 = (0, 0) /\ book w' res.2 [bob; ann] /\
       files w' !! cstr (data_dir ++ [120]) = Some (concat (map person_bytes [ann; bob]))) (book2 []).
Proof.
  apply (contacts_save_load bump_alloc (mkcontacts 1 2) [ann; bob] [120] (book2 []) (book2_book [])). vm_compute. discriminate.
Defined.

(** No input whatever makes the program touch memory it should not: a session with
    good files on the disk goes on or ends with every node freed.  But once the input has
    ended without the exit command, the menu never returns. *)
Theorem contacts_session (na : NodeAlloc) opens fuel sel c l w :
  book w c l -> files_ok w ->
  match menu_loop opens fuel sel (Some c) w with
  | Ok r w' => r = 0 /\ nodes w' = ∅ /\ ~ (failed w = true /\ sel <> OPTION_EXIT)
  | Fault f => f = OutOfFuel
  end.
Proof.
  revert sel c l w. induction fuel as [|fuel IH]; intros sel c l w Hb Hfs; [done|]. cbn [menu_loop]. unfold bind at 1.
  destruct (INFO_run "1. Insert 2. Print 3. Delete 4. Search 5. Save 6. Load 7. Exit" [] w) as (w1 & -> & N1 & F1 & Hf1).
  unfold bind at 1. destruct (read_int_run sel w1) as (s2 & w2 & -> & N & F & Hfail). rewrite N1 in N. rewrite F1 in F. rewrite Hf1 in Hfail.
  assert (book w2 c l) as Hb2 by (destruct Hb as (ns & ? & ? & ?); exists ns; by rewrite N).
  assert (files_ok w2) as Hfs2 by (intros p b; rewrite F; apply Hfs).
  destruct (Z.eqb_spec s2 OPTION_EXIT) as [->|Hne].
  - unfold bind at 1. destruct (INFO_run "FUNCTION MENU EXIT" [] w2) as (w3 & -> & N3 & _).
    assert (book w3 c l) as Hb3 by (destruct Hb2 as (ns & ? & ? & ?); exists ns; by rewrite N3).
    pose proof (destroy_contacts_spec c l w3 Hb3) as Hd.
    apply wp_run in Hd as (c' & w' & Ed & _ & Hn & _). unfold bind. rewrite Ed. cbn.
    splits; [done | done |]. intros [Hf Hse]. by destruct (Hfail Hf) as [<- _].
  - pose proof (menu_command_ok opens s2 c l w2 Hb2 Hfs2) as Hc.
    apply wp_run in Hc as (r & w' & Ec & c' & l' & -> & Hb' & Hfs' & Hst). unfold bind at 1. rewrite Ec.
    specialize (IH s2 c' l' w' Hb' Hfs'). destruct (menu_loop opens fuel s2 (Some c') w') as [r w4|f]; [|done].
    destruct IH as (-> & Hn & Hno). splits; [done | done |]. intros [Hf Hse]. destruct (Hfail Hf) as [-> Hf2].
    apply Hno. split; [by apply Hst | done].
Qed.

Lemma contacts_session_witness :
  match menu_loop true 9 0 (Some (mkcontacts 1 2)) (mkcw (nodes (book2 [])) [] true [] ∅ 0) with
  | Ok r w' => r = 0 /\ nodes w' = ∅ /\ ~ (true = true /\ 0 <> OPTION_EXIT)
  | Fault f => f = OutOfFuel
  end.
Proof.
  apply (contacts_session bump_alloc true 9 0 (mkcontacts 1 2) [ann; bob] (mkcw (nodes (book2 [])) [] true [] ∅ 0)).
  - exact (book2_book []).
  - intros path b. cbn. rewrite lookup_empty. discriminate.
Defined.
