(* ===== verification/WordCount.v ===== *)
(** * test1/count_word.cpp: counting the words of a file.

    A two-state automaton run over the file, 2048 bytes at a time; proved equal to the
    number of maximal runs of letters. *)
From S2P Require Import Prelude.
From stdpp Require Import base list numbers.
Open Scope Z_scope.

(** A byte as the [char] of the platform, which is signed. *)
Definition as_char (b : Z) : Z := if b <? 128 then b else b - 256.

Definition is_letter (b : Z) : bool :=
  let w := as_char b in
  ((w <=? 122) && (97 <=? w)) || ((w <=? 90) && (65 <=? w)).

(** [enum class Status_wd]. *)
Inductive Status_wd : Type := INTERVAL | WORD_EN.

Definition SIZE_BUFFER : nat := 2048.
Definition size_t (x : Z) : Z := x mod 18446744073709551616.

(** The body of the inner loop, on the counter and the state. *)
Definition scan_char (st : Z * Status_wd) (b : Z) : Z * Status_wd :=
  let ' (word_cnt, status) := st in
  if is_letter b then
    match status with
    | INTERVAL => (size_t (word_cnt + 1), WORD_EN)
    | WORD_EN => st
    end
  else
    match status with
    | WORD_EN => (word_cnt, INTERVAL)
    | INTERVAL => st
    end.

(** The [do] loop: one [fread] of up to 2048 bytes per iteration, until it returns 0. *)
Fixpoint scan_file (fuel : nat) (file : list Z) (st : Z * Status_wd) : option (Z * Status_wd) :=
  match fuel with
  | O => None
  | S fuel =>
    let buffer_r := take SIZE_BUFFER file in
    let st := fold_left scan_char buffer_r st in
    if (length buffer_r =? 0)%nat then Some st
    else scan_file fuel (drop SIZE_BUFFER file) st
  end.

(** [main]: the exit status and the number it prints; [file] is what [fopen] finds. *)
Definition count_word_main (fuel : nat) (argc : Z) (file : option (list Z)) : option (Z * option Z) :=
  if argc <? 2 then Some (1, None)
  else
    match file with
    | None => Some (1, None)
    | Some file =>
      match scan_file fuel file (0, INTERVAL) with
      | Some (word_cnt, _) => Some (0, Some word_cnt)
      | None => None
      end
    end.

(** ** The reference: the maximal runs of letters *)

(** [cur] is the run that is open, reversed. *)
Fixpoint runs (s cur : list Z) : list (list Z) :=
  match s with
  | [] => match cur with [] => [] | _ => [rev cur] end
  | b :: s =>
    if is_letter b then runs s (b :: cur)
    else match cur with [] => runs s [] | _ => rev cur :: runs s [] end
  end.
Definition words (s : list Z) : list (list Z) := runs s [].

Definition letter (b : Z) : Prop := is_letter b = true.
Definition other (b : Z) : Prop := is_letter b = false.

(** What makes them the words of a text: non-empty, made of letters, and with at least
    one other character between two of them and nothing but others around. *)
Inductive split_words : list Z -> list (list Z) -> Prop :=
  | split_end s : Forall other s -> split_words s []
  | split_last s w : Forall other s -> w <> [] -> Forall letter w -> split_words (s ++ w) [w]
  | split_next s w b t l : Forall other s -> w <> [] -> Forall letter w -> other b ->
      split_words t l -> split_words (s ++ w ++ b :: t) (w :: l).

(** ** Lemmas *)

Definition open_state (cur : list Z) : Status_wd := match cur with [] => INTERVAL | _ => WORD_EN end.
Definition opened (cur : list Z) : Z := match cur with [] => 0 | _ => 1 end.

(** The automaton counts each run when it opens it. *)
Lemma scan_count s n cur :
  (fold_left scan_char s (size_t n, open_state cur)).1 = size_t (n + Z.of_nat (length (runs s cur)) - opened cur).
Proof.
  revert n cur. induction s as [|b s IH]; intros n cur; cbn [fold_left runs].
  - destruct cur; cbn; f_equal; lia.
  - unfold scan_char at 2. destruct (is_letter b).
    + destruct cur as [|c cur]; cbn [open_state].
      * replace (size_t (size_t n + 1)) with (size_t (n + 1)) by (unfold size_t; by rewrite Zplus_mod_idemp_l).
        change WORD_EN with (open_state [b]). rewrite IH. cbn [opened]. f_equal. lia.
      * change WORD_EN with (open_state (b :: c :: cur)). by rewrite IH.
    + destruct cur as [|c cur]; cbn [open_state]; change INTERVAL with (open_state []); rewrite IH; [done|].
      cbn [opened length]. f_equal. lia.
Qed.

Lemma scan_file_spec fuel file st :
  (length file + 1 < fuel)%nat -> scan_file fuel file st = Some (fold_left scan_char file st).
Proof.
  revert file st. induction fuel as [|fuel IH]; intros file st Hf; [lia|]. cbn [scan_file]. unfold SIZE_BUFFER.
  set (n := 2048%nat). assert (n <> 0)%nat as Hn by done. clearbody n.
  destruct (Nat.eqb_spec (length (take n file)) 0) as [E|E]; rewrite length_take in E.
  - assert (length file = 0%nat) as E0 by lia. apply nil_length_inv in E0. subst file. by rewrite take_nil.
  - rewrite IH by (rewrite length_drop; lia). rewrite <- fold_left_app. by rewrite take_drop.
Qed.

Lemma runs_split s o cur : Forall other o -> Forall letter cur -> split_words (o ++ rev cur ++ s) (runs s cur).
Proof.
  revert o cur. induction s as [|b s IH]; intros o cur Ho Hc; cbn [runs].
  - destruct cur as [|c cur]; [cbn; rewrite app_nil_r; by constructor|]. rewrite app_nil_r.
    constructor; [done | | by apply Forall_rev]. intros E%(f_equal length). cbn in E. rewrite length_app in E. cbn in E. lia.
  - destruct (is_letter b) eqn:Eb.
    + replace (o ++ rev cur ++ b :: s) with (o ++ rev (b :: cur) ++ s) by (cbn; by rewrite <- app_assoc).
      apply IH; [done | by constructor].
    + destruct cur as [|c cur].
      * cbn. replace (o ++ b :: s) with ((o ++ [b]) ++ rev [] ++ s) by (cbn; by rewrite <- app_assoc).
        apply IH; [|done]. apply Forall_app. split; [done|]. by constructor.
      * constructor; [done | | by apply Forall_rev | done | by apply (IH [] [])].
        intros E%(f_equal length). cbn in E. rewrite length_app in E. cbn in E. lia.
Qed.

(** ** The properties *)

(** C39: the program prints the number of words of the file, modulo 2^64, wherever the
    reads of 2048 bytes happen to cut it; and it always ends. *)
Theorem count_word_equiv argc file fuel :
  (length file + 1 < fuel)%nat -> 2 <= argc ->
  count_word_main fuel argc (Some file) = Some (0, Some (size_t (Z.of_nat (length (words file))))) /\
  split_words file (words file).
Proof.
  intros Hf Ha. split; [|by apply (runs_split file [] [])]. unfold count_word_main.
  rewrite (proj2 (Z.ltb_ge _ _)), scan_file_spec by done.
  pose proof (scan_count file 0 []) as H. cbn [opened open_state] in H. change (size_t 0) with 0 in H.
  destruct (fold_left scan_char file (0, INTERVAL)) as [n st]. cbn [fst] in H. rewrite H. unfold words. do 4 f_equal. lia.
Qed.

(** "ab, c!" has two words. *)
Lemma count_word_equiv_witness :
  count_word_main 20 2 (Some [97; 98; 44; 32; 99; 33]) = Some (0, Some 2).
Proof.
  destruct (count_word_equiv 2 [97; 98; 44; 32; 99; 33] 20) as [E _]; [cbn; lia | lia|]. exact E.
Defined.
