(* ===== verification/Web.v ===== *)
(** * test8: the HTTP server (webserver.h, webserver.cpp, reactor.cpp).

    One connection record per descriptor, the callbacks that epoll drives, and the
    response: a header and the content of one file, sent in pieces.  Results of system
    calls are arguments: a call gives a number and whether [errno] is [EAGAIN]. *)
From S2P Require Import Prelude KcpBase CLib.
From Stdlib Require Import Ascii String.
From stdpp Require Import base list numbers strings gmap.
Open Scope Z_scope.
Open Scope c_scope.

Definition BUFFER_LENGTH : Z := 1024.
Definition MAX_CONNS : Z := 1048576.
Definition EPOLLIN : Z := 1.
Definition EPOLLOUT : Z := 4.
Definition LISTEN_EV : Z := EPOLLIN.
Definition RECV_EV : Z := EPOLLIN.

(** The function a [std::function] holds. *)
Inductive callback : Type := NoCallback | ListenCallback | ReadCallback | WriteCallback.

(** [struct connection]. *)
Record connection : Type := mkconn {
  cn_fd : Z;
  rbuffer : list Z;
  rlength : Z;
  wbuffer : list Z;
  wlength : Z;
  wstatus : Z;
  woffset : Z;
  wtotallength : Z;
  w_file_fd : Z;
  wfile_offset : Z;
  send_cb : callback;
  recv_cb : callback;
}.
Definition eta_conn (c : connection) : connection :=
  mkconn (cn_fd c) (rbuffer c) (rlength c) (wbuffer c) (wlength c) (wstatus c) (woffset c) (wtotallength c)
         (w_file_fd c) (wfile_offset c) (send_cb c) (recv_cb c).
#[export] Instance upd_cn_fd : Upd cn_fd := ltac:(build_upd eta_conn cn_fd).
#[export] Instance upd_rbuffer : Upd rbuffer := ltac:(build_upd eta_conn rbuffer).
#[export] Instance upd_rlength : Upd rlength := ltac:(build_upd eta_conn rlength).
#[export] Instance upd_wbuffer : Upd wbuffer := ltac:(build_upd eta_conn wbuffer).
#[export] Instance upd_wlength : Upd wlength := ltac:(build_upd eta_conn wlength).
#[export] Instance upd_wstatus : Upd wstatus := ltac:(build_upd eta_conn wstatus).
#[export] Instance upd_woffset : Upd woffset := ltac:(build_upd eta_conn woffset).
#[export] Instance upd_wtotallength : Upd wtotallength := ltac:(build_upd eta_conn wtotallength).
#[export] Instance upd_w_file_fd : Upd w_file_fd := ltac:(build_upd eta_conn w_file_fd).
#[export] Instance upd_wfile_offset : Upd wfile_offset := ltac:(build_upd eta_conn wfile_offset).
#[export] Instance upd_send_cb : Upd send_cb := ltac:(build_upd eta_conn send_cb).
#[export] Instance upd_recv_cb : Upd recv_cb := ltac:(build_upd eta_conn recv_cb).

(** A member of the global array before it is used. *)
Definition new_connection : connection :=
  mkconn 0 (replicate 1024 0) 0 (replicate 1024 0) 0 0 0 0 (-1) 0 NoCallback NoCallback.

(** The state of the process: [conns]; what epoll watches; the two static strings of
    [http_response]; the file descriptors open for sending; what was sent to each peer. *)
Record web : Type := mkweb {
  conns : gmap Z connection;
  epoll : gmap Z Z;
  cached_file_content : list Z;
  cached_response_header : list Z;
  open_files : list Z;
  sent_to : gmap Z (list Z);
}.

Definition get_conn (fd : Z) : M web connection :=
  if (0 <=? fd) && (fd <? MAX_CONNS)
  then gets (fun s => default new_connection (conns s !! fd)) else throw OutOfBounds.
Definition put_conn (fd : Z) (c : connection) : M web unit :=
  modify (fun s => mkweb (<[fd := c]> (conns s)) (epoll s) (cached_file_content s) (cached_response_header s) (open_files s) (sent_to s)).
Definition set_epoll (f : gmap Z Z -> gmap Z Z) : M web unit :=
  modify (fun s => mkweb (conns s) (f (epoll s)) (cached_file_content s) (cached_response_header s) (open_files s) (sent_to s)).
Definition set_cache (content header : list Z) : M web unit :=
  modify (fun s => mkweb (conns s) (epoll s) content header (open_files s) (sent_to s)).
Definition set_open_files (f : list Z -> list Z) : M web unit :=
  modify (fun s => mkweb (conns s) (epoll s) (cached_file_content s) (cached_response_header s) (f (open_files s)) (sent_to s)).
Definition transmit (fd : Z) (bytes : list Z) : M web unit :=
  modify (fun s => mkweb (conns s) (epoll s) (cached_file_content s) (cached_response_header s) (open_files s)
                         (<[fd := default [] (sent_to s !! fd) ++ bytes]> (sent_to s))).

(** [set_event]: the return value of [epoll_ctl] is -1 when the descriptor is (not) there. *)
Definition set_event (fd op flag : Z) : M web Z :=
  let! e := gets epoll in
  if flag =? 1 then
    match e !! fd with Some _ => ret (-1) | None => set_epoll (insert fd op);;; ret 0 end
  else if flag =? 2 then
    match e !! fd with Some _ => set_epoll (insert fd op);;; ret 0 | None => ret (-1) end
  else ret (-2).
(** [epoll_ctl(epfd, EPOLL_CTL_DEL, fd, nullptr)] and [close(fd)]. *)
Definition drop_fd (fd : Z) : M web unit := set_epoll (delete fd).

(** [connection::reset_w]. *)
Definition reset_w (c : connection) : M web connection :=
  let c := c<|wstatus := 0|><|woffset := 0|><|wlength := 0|><|wtotallength := 0|> in
  if negb (w_file_fd c =? -1) then
    set_open_files (List.filter (fun f => negb (f =? w_file_fd c)));;;
    ret c<|wfile_offset := 0|><|w_file_fd := -1|>
  else ret c.

(** ** webserver.cpp *)

Definition http_request (c : connection) : connection := c<|wlength := 0|><|wstatus := 0|>.

Definition crlf : list Z := [13; 10].
Definition header_for (len : Z) : list Z :=
  text "HTTP/1.1 200 OK" ++ crlf ++ text "Content-Type: image/jpg" ++ crlf ++
  text "Content-Length: " ++ decimal_of 20 len ++ crlf ++ text "Connection: close" ++ crlf ++ crlf.

Definition size_t (x : Z) : Z := x mod 18446744073709551616.

(** [memcpy(wbuffer.data(), src.data() + off, n)]; [n] is converted to [size_t]. *)
Definition fill_wbuffer (c : connection) (src : list Z) (off n : Z) : M web connection :=
  let n := size_t n in
  if (0 <=? off) && (off + n <=? Z.of_nat (List.length src)) && (n <=? Z.of_nat (List.length (wbuffer c))) then
    ret c<|wbuffer := take (Z.to_nat n) (drop (Z.to_nat off) src) ++ drop (Z.to_nat n) (wbuffer c)|>
  else throw OutOfBounds.

Section Server.
(** The file the server sends, as [fopen] finds it. *)
Context (green : option (list Z)).

(** The two static strings, filled when the content is empty. *)
Definition load_cache : M web (list Z * list Z) :=
  let! content := gets cached_file_content in
  let! header := gets cached_response_header in
  if (List.length content =? 0)%nat then
    match green with
    | None => throw NullDeref
    | Some file =>
      let header := header_for (Z.of_nat (List.length file)) in
      set_cache file header;;; ret (file, header)
    end
  else ret (content, header).

(** [http_response]; [opened] is what [open] returns, if it is called. *)
Definition http_response (opened : Z) (c : connection) : M web (Z * connection) :=
  let! ' (content, header) := load_cache in
  let hs := Z.of_nat (List.length header) in
  let cs := Z.of_nat (List.length content) in
  let c := if wtotallength c =? 0 then c<|wtotallength := size_t (hs + cs)|><|woffset := 0|> else c in
  let at_body := woffset c =? hs in
  let c := if at_body then c<|wstatus := 1|> else c in
  if at_body && (BUFFER_LENGTH * 3 <? wtotallength c) then
    if opened <? 0 then ret (-1, c)
    else
      set_open_files (cons opened);;;
      ret (0, c<|w_file_fd := opened|><|wlength := cs|>)
  else
    let! c :=
      if wstatus c =? 0 then
        let num := s32 (size_t (hs - woffset c)) in
        let! c := fill_wbuffer c header (woffset c) num in
        ret c<|wlength := size_t num|>
      else ret c in
    let! c :=
      if wstatus c =? 1 then
        let offset_t := s32 (size_t (woffset c - hs)) in
        let readnum := Z.min (size_t (cs - offset_t)) BUFFER_LENGTH in
        let! c := fill_wbuffer c content offset_t readnum in
        ret c<|wlength := readnum|>
      else ret c in
    ret (0, c).

(** ** reactor.cpp *)

(** [read_callback]: [recv] gave [count], with the bytes [data]. *)
Definition read_callback (fd : Z) (count : Z) (again : bool) (data : list Z) : M web Z :=
  let! c := get_conn fd in
  if count =? 0 then drop_fd fd;;; ret (-1)
  else if count <? 0 then
    if again then ret 0 else drop_fd fd;;; ret (-2)
  else if Z.of_nat (List.length (rbuffer c)) <=? count then throw OutOfBounds
  else
    let buf := take (Z.to_nat count) data ++ drop (Z.to_nat count) (rbuffer c) in
    let c := c<|rbuffer := <[Z.to_nat count := 0]> buf|><|rlength := count|> in
    put_conn fd (http_request c);;;
    set_event fd EPOLLOUT 2;;;
    ret 0.

(** The end of [write_callback]: what to do when the response is complete. *)
Definition write_done (fd : Z) (c : connection) : M web Z :=
  let c := if (wstatus c =? 1) && (woffset c =? wtotallength c) then c<|wstatus := 2|> else c in
  if wstatus c =? 2 then
    let! c := reset_w c in
    put_conn fd c;;; set_event fd RECV_EV 2;;; ret 0
  else put_conn fd c;;; ret 0.

(** [write_callback]: [n] is what [send] or [sendfile] returns. *)
Definition write_callback (fd : Z) (opened n : Z) (again : bool) : M web Z :=
  let! c := get_conn fd in
  let! ' (_, c) := http_response opened c in
  put_conn fd c;;;
  if w_file_fd c =? -1 then
    if n =? 0 then drop_fd fd;;; ret (-1)
    else if n <? 0 then (if again then ret 0 else drop_fd fd;;; ret (-1))
    else
      transmit fd (take (Z.to_nat n) (wbuffer c));;;
      write_done fd c<|woffset := size_t (woffset c + n)|>
  else
    if n <=? 0 then (if again then ret 0 else drop_fd fd;;; ret (-1))
    else
      transmit fd (take (Z.to_nat n) (drop (Z.to_nat (wfile_offset c)) (default [] green)));;;
      write_done fd c<|woffset := size_t (woffset c + n)|><|wfile_offset := wfile_offset c + n|>.

Definition register_clinetfd (fd event : Z) : M web Z :=
  let! c := get_conn fd in
  put_conn fd c<|cn_fd := fd|><|recv_cb := ReadCallback|><|send_cb := WriteCallback|>;;;
  set_event fd event 1;;; ret 0.

Definition listen_callback (clientfd : Z) (again : bool) : M web Z :=
  if clientfd <? 0 then (if again then ret 0 else ret (-1))
  else register_clinetfd clientfd RECV_EV;;; ret 0.

Definition register_listenfd (fd event : Z) : M web Z :=
  let! c := get_conn fd in
  put_conn fd c<|cn_fd := fd|><|recv_cb := ListenCallback|><|send_cb := NoCallback|>;;;
  set_event fd event 1;;; ret 0.

(** [init_server]: the results of [bind] and [listen]. *)
Definition init_server (sockfd bound listening : Z) : Z :=
  if negb (bound =? 0) then -1 else if negb (listening =? 0) then -2 else sockfd.

(** What the system calls of one event return. *)
Record results : Type := mkresults {
  rs_recv : Z * bool * list Z;
  rs_accept : Z * bool;
  rs_open : Z;
  rs_send : Z * bool;
}.

Definition call (cb : callback) (fd : Z) (r : results) : M web Z :=
  match cb with
  | NoCallback => throw Aborted
  | ListenCallback => listen_callback (rs_accept r).1 (rs_accept r).2
  | ReadCallback => read_callback fd (rs_recv r).1.1 (rs_recv r).1.2 (rs_recv r).2
  | WriteCallback => write_callback fd (rs_open r) (rs_send r).1 (rs_send r).2
  end.

(** One event of the loop of [main]: the descriptor, the events, the results. *)
Definition handle_event (fd events : Z) (r : results) : M web unit :=
  (if negb (Z.land events EPOLLIN =? 0)
   then let! c := get_conn fd in call (recv_cb c) fd r;;; ret tt else ret tt);;;
  (if negb (Z.land events EPOLLOUT =? 0)
   then let! c := get_conn fd in call (send_cb c) fd r;;; ret tt else ret tt).

Fixpoint event_loop (l : list (Z * Z * results)) : M web unit :=
  match l with
  | [] => ret tt
  | (fd, events, r) :: l => handle_event fd events r;;; event_loop l
  end.

Definition web0 : web := mkweb ∅ ∅ [] [] [] ∅.
Definition web_main (sockfd bound listening : Z) (l : list (Z * Z * results)) : M web unit :=
  let sockfd := init_server sockfd bound listening in
  register_listenfd sockfd LISTEN_EV;;; event_loop l.
End Server.
