(* ===== verification/WebProps.v ===== *)
(** * The HTTP response, over any sequence of partial sends.

    [progress] is the specification: how far the response has come after the results
    [send] and [sendfile] gave.  The invariant [sending] ties the connection record to
    it, and each callback keeps it. *)
From S2P Require Import Prelude KcpBase CLib Web.
From Stdlib Require Import Lia.
From stdpp Require Import base list numbers strings gmap.
Open Scope Z_scope.
Open Scope c_scope.

Ltac web_simpl := cbn [cn_fd rbuffer rlength wbuffer wlength wstatus woffset wtotallength w_file_fd wfile_offset
  send_cb recv_cb upd upd_cn_fd upd_rbuffer upd_rlength upd_wbuffer upd_wlength upd_wstatus upd_woffset
  upd_wtotallength upd_w_file_fd upd_wfile_offset upd_send_cb upd_recv_cb conns epoll cached_file_content
  cached_response_header open_files sent_to fst snd] in *.

Lemma size_t_id x : 0 <= x < 18446744073709551616 -> size_t x = x.
Proof. apply Z.mod_small. Qed.

Lemma decimal_of_length fuel n : (List.length (decimal_of fuel n) <= fuel)%nat.
Proof.
  revert n. induction fuel as [|fuel IH]; intros n; cbn; [done|].
  destruct (n <? 10); [cbn; lia|]. rewrite length_app. cbn. specialize (IH (n / 10)). lia.
Qed.

Lemma header_length n : 81 <= Z.of_nat (List.length (header_for n)) <= 101.
Proof.
  unfold header_for. rewrite !length_app. pose proof (decimal_of_length 20 n).
  set (d := List.length (decimal_of 20 n)) in *. clearbody d. unfold crlf. cbn [List.length].
  change (List.length (text "HTTP/1.1 200 OK")) with 15%nat.
  change (List.length (text "Content-Type: image/jpg")) with 23%nat.
  change (List.length (text "Content-Length: ")) with 16%nat. change (List.length (text "Connection: close")) with 17%nat. lia.
Qed.

Lemma fill_wbuffer_spec c src off n (s : web) :
  0 <= off -> 0 <= n -> off + n <= Z.of_nat (List.length src) -> n <= Z.of_nat (List.length (wbuffer c)) ->
  n < 18446744073709551616 ->
  wp (fill_wbuffer c src off n) (fun c' s' => s' = s /\ exists b, c' = c<|wbuffer := b|> /\
    List.length b = List.length (wbuffer c) /\ take (Z.to_nat n) b = take (Z.to_nat n) (drop (Z.to_nat off) src)) s.
Proof.
  intros H1 H2 H3 H4 H5. unfold fill_wbuffer. rewrite size_t_id by lia.
  rewrite (proj2 (Z.leb_le 0 off)), (proj2 (Z.leb_le (off + n) _)), (proj2 (Z.leb_le n _)) by lia. cbn [andb].
  wp_step. split; [done|]. eexists. split; [done|].
  assert (List.length (take (Z.to_nat n) (drop (Z.to_nat off) src)) = Z.to_nat n) as E
    by (rewrite length_take, length_drop; lia).
  split.
  - rewrite length_app, E, length_drop. lia.
  - rewrite take_app_le by lia. rewrite take_take. f_equal. lia.
Qed.

Section Response.
Context (file : list Z).
Abbreviation header := (header_for (Z.of_nat (List.length file))).
Abbreviation hs := (Z.of_nat (List.length header)).
Abbreviation cs := (Z.of_nat (List.length file)).
Context (file_pos : 0 < cs) (file_small : cs < 2147483000).

(** The whole response. *)
Definition response : list Z := header ++ file.
Definition total : Z := hs + cs.

(** How many bytes the server asks the kernel to take, when [k] are gone. *)
Definition asked (k : Z) : Z :=
  if k <? hs then hs - k
  else if BUFFER_LENGTH * 3 <? total then total - k
  else Z.min (total - k) BUFFER_LENGTH.

(** The results of one [write_callback]: what [open] gives if it is called, what
    [send] or [sendfile] gives, whether [errno] is [EAGAIN].  [progress k l] is the
    number of bytes taken after the results [l]; it is [None] when the peer has gone,
    when [open] fails, or when more is taken than was asked. *)
Fixpoint progress (k : Z) (l : list (Z * Z * bool)) : option Z :=
  match l with
  | [] => Some k
  | (opened, n, again) :: l =>
    if (opened <? 0) || (total <=? k) then None
    else if n <? 0 then (if again then progress k l else None)
    else if (n =? 0) || (asked k <? n) then None
    else progress (k + n) l
  end.

Fixpoint writes (fd : Z) (l : list (Z * Z * bool)) : M web unit :=
  match l with
  | [] => ret tt
  | (opened, n, again) :: l => write_callback (Some file) fd opened n again;;; writes fd l
  end.

(** The static strings hold nothing, or the response. *)
Definition cached (s : web) : Prop :=
  cached_file_content s = [] \/ (cached_file_content s = file /\ cached_response_header s = header).

(** A connection of which [k] bytes of the response are gone. *)
Definition sending (k : Z) (c : connection) : Prop :=
  List.length (wbuffer c) = 1024%nat /\
  if wtotallength c =? 0 then k = 0 /\ wstatus c = 0 /\ w_file_fd c = -1 /\ wfile_offset c = 0
  else wtotallength c = total /\ woffset c = k /\ 0 <= k < total /\
    if k <? hs then wstatus c = 0 /\ w_file_fd c = -1 /\ wfile_offset c = 0
    else wfile_offset c = (if BUFFER_LENGTH * 3 <? total then k - hs else 0) /\
      (wstatus c = 1 \/ wstatus c = 0 /\ k = hs) /\
      (if BUFFER_LENGTH * 3 <? total then hs < k -> 0 <= w_file_fd c else w_file_fd c = -1).

(** A connection between two responses. *)
Definition idle (c : connection) : Prop := sending 0 c /\ wtotallength c = 0.

(** The same after [http_response] has prepared the next piece. *)
Definition ready (k : Z) (c : connection) : Prop :=
  sending k c /\ wtotallength c = total /\
  (if w_file_fd c =? -1 then
     wlength c = asked k /\ take (Z.to_nat (asked k)) (wbuffer c) = take (Z.to_nat (asked k)) (drop (Z.to_nat k) response)
   else BUFFER_LENGTH * 3 < total /\ hs <= k /\ 0 <= w_file_fd c) /\
  (hs <= k -> wstatus c = 1 /\ (BUFFER_LENGTH * 3 < total -> 0 <= w_file_fd c)).

(** What [http_response] leaves alone. *)
Definition untouched (s s' : web) : Prop :=
  conns s' = conns s /\ epoll s' = epoll s /\ sent_to s' = sent_to s.

Lemma load_cache_spec s : cached s ->
  wp (load_cache (Some file)) (fun r s' => r = (file, header) /\ untouched s s' /\ cached s') s.
Proof.
  intros Hc. unfold load_cache. do 2 (wp_step; wp_step).
  destruct Hc as [E | [E1 E2]].
  - rewrite E. cbn [List.length Nat.eqb]. wp_step. apply wp_modify. wp_step.
    split; [done|]. split; [done|]. right. done.
  - rewrite E1, E2. destruct (Nat.eqb_spec (List.length file) 0); [lia|]. wp_step.
    split; [done|]. split; [done|]. right. done.
Qed.

Lemma asked_range k : 0 <= k < total -> 0 < asked k <= total - k.
Proof.
  intros Hk. unfold asked, total, BUFFER_LENGTH in *. 
  destruct (Z.ltb_spec k hs), (Z.ltb_spec (1024 * 3) (hs + cs)); lia.
Qed.

(** A piece of the body is copied to the buffer. *)
Lemma body_spec k c s :
  hs <= k < total -> sending k c -> wtotallength c = total -> wstatus c = 1 ->
  (BUFFER_LENGTH * 3 < total -> 0 <= w_file_fd c) ->
  wp (let! c := fill_wbuffer c file (s32 (size_t (k - hs))) (Z.min (size_t (cs - s32 (size_t (k - hs)))) BUFFER_LENGTH) in
      ret c<|wlength := Z.min (size_t (cs - s32 (size_t (k - hs)))) BUFFER_LENGTH|>)
     (fun c' s' => ready k c' /\ s' = s) s.
Proof.
  intros Hk [Hb Hs] Ht E1 Hw. pose proof (header_length cs) as Hh. unfold total in Hk.
  rewrite (size_t_id (k - hs)) by lia. rewrite s32_id by lia. rewrite size_t_id by lia.
  set (m := Z.min _ _). assert (0 <= m <= cs - (k - hs)) by (subst m; unfold BUFFER_LENGTH; lia).
  assert (m <= 1024) by (subst m; unfold BUFFER_LENGTH; lia).
  wp_step. eapply wp_mono; [apply fill_wbuffer_spec; lia|].
  intros c' s' (-> & b & -> & Hb' & Eb). wp_step. split; [|done].
  rewrite Ht, (proj2 (Z.eqb_neq total 0)), (proj2 (Z.ltb_ge k hs)) in Hs by (unfold total; lia).
  destruct Hs as (_ & G2 & G3 & G4 & G5 & G6).
  unfold ready, sending. web_simpl. rewrite Ht, (proj2 (Z.eqb_neq total 0)), (proj2 (Z.ltb_ge k hs)) by (unfold total; lia).
  rewrite Hb'. splits; try done; try lia.
  - destruct (Z.ltb_spec (BUFFER_LENGTH * 3) total) as [T|T].
    + rewrite (proj2 (Z.eqb_neq _ (-1))) by (specialize (Hw T); lia). splits; lia || auto.
    + rewrite G6. cbn [Z.eqb Pos.eqb].
      assert (asked k = m) as ->.
      { unfold asked. rewrite (proj2 (Z.ltb_ge k hs)), (proj2 (Z.ltb_ge _ total)) by lia. subst m. unfold total. lia. }
      split; [done|]. rewrite Eb. unfold response. rewrite drop_app_ge by lia. do 2 f_equal. lia.
Qed.

(** The switch to the body. *)
Lemma at_body_spec k c : 
  0 <= k < total -> sending k c -> wtotallength c = total -> woffset c = k ->
  let c' := if k =? hs then c<|wstatus := 1|> else c in
  wtotallength c' = total /\ woffset c' = k /\ sending k c' /\ (hs <= k -> wstatus c' = 1) /\
  (k < hs -> wstatus c' = 0) /\ (hs < k -> total <= BUFFER_LENGTH * 3 \/ 0 <= w_file_fd c').
Proof.
  intros Hk [Hb Hs] E1 E2 c'. unfold sending.
  rewrite E1, (proj2 (Z.eqb_neq total 0)) in Hs by lia. destruct Hs as (_ & _ & _ & Hs).
  subst c'. destruct (Z.eqb_spec k hs) as [->|Hn]; web_simpl;
    rewrite E1, E2, (proj2 (Z.eqb_neq total 0)) by lia; revert Hs.
  - rewrite (proj2 (Z.ltb_ge hs hs)) by lia. intros (G1 & G2 & G3). splits; try done; try lia; by left.
  - destruct (Z.ltb_spec k hs).
    + intros (G1 & G2 & G3). splits; done || lia.
    + intros (G1 & [G2 | [_ ?]] & G3); [|lia]. splits; try done; try lia; try (by left).
      intros Hlt. destruct (Z.ltb_spec (BUFFER_LENGTH * 3) total); [right; auto | by left].
Qed.

(** A large file is opened when its header is gone. *)
Lemma opened_spec opened c :
  0 <= opened -> BUFFER_LENGTH * 3 < total -> sending hs c -> wtotallength c = total -> wstatus c = 1 ->
  ready hs c<|w_file_fd := opened|><|wlength := cs|>.
Proof.
  intros Ho T [Hb Hs] E1 E2. pose proof (header_length cs) as Hh. unfold ready, sending. web_simpl.
  assert (total <> 0) by (unfold total; lia).
  rewrite E1, (proj2 (Z.eqb_neq total 0)), (proj2 (Z.ltb_ge hs hs)), (proj2 (Z.ltb_lt _ _) T) in * by lia.
  rewrite (proj2 (Z.eqb_neq opened (-1))) by lia.
  destruct Hs as (_ & G2 & ? & G3 & G4 & G5). splits; try done; try lia.
Qed.

Lemma http_response_spec opened k c s :
  0 <= opened -> cached s -> 0 <= k < total -> sending k c ->
  wp (http_response (Some file) opened c) (fun r s' => ready k r.2 /\ untouched s s' /\ cached s') s.
Proof.
  intros Ho Hc Hk [Hb Hs]. unfold http_response. wp_step. 
  eapply wp_mono; [by apply load_cache_spec|]. intros r s' (-> & Hu & Hc'). cbv beta iota zeta.
  pose proof (header_length cs) as Hh.
  assert (size_t (hs + cs) = total) as -> by (unfold total; apply size_t_id; lia).
  set (c1 := if wtotallength c =? 0 then _ else _).
  assert (wtotallength c1 = total /\ woffset c1 = k /\ sending k c1) as (E1 & E2 & Hs1).
  { subst c1. destruct (Z.eqb_spec (wtotallength c) 0) as [E|E].
    - destruct Hs as (-> & G1 & G2 & G3). web_simpl. split; [done|]. split; [done|]. unfold sending. web_simpl.
      rewrite (proj2 (Z.eqb_neq total 0)) by lia. rewrite (proj2 (Z.ltb_lt 0 hs)) by lia. splits; done || lia.
    - destruct Hs as (G1 & G2 & Hs). splits; try done. unfold sending. rewrite (proj2 (Z.eqb_neq _ _) E). done. }
  clearbody c1. clear Hs Hb c. rewrite E2. set (c2 := if k =? hs then _ else c1).
  assert (wtotallength c2 = total /\ woffset c2 = k /\ sending k c2 /\ (hs <= k -> wstatus c2 = 1) /\
    (k < hs -> wstatus c2 = 0) /\ (hs < k -> total <= BUFFER_LENGTH * 3 \/ 0 <= w_file_fd c2))
    as (F1 & F2 & F3 & F4 & F5 & F6) by by apply at_body_spec.
  clearbody c2. clear Hs1 E1 E2 c1. rewrite F1, F2.
  destruct ((k =? hs) && (BUFFER_LENGTH * 3 <? total)) eqn:Eopen.
  - apply andb_prop in Eopen as [->%Z.eqb_eq T%Z.ltb_lt]. rewrite (proj2 (Z.ltb_ge opened 0)) by lia.
    wp_step. apply wp_modify. wp_step.
    split; [|by destruct Hc' as [? | [? ?]]; (split; [|first [left; done | right; done]])].
    by apply opened_spec; [..| apply F4].
  - assert (BUFFER_LENGTH * 3 < total -> k <> hs) as Hne.
    { intros T ->. rewrite Z.eqb_refl, (proj2 (Z.ltb_lt _ _) T) in Eopen. done. }
    wp_step. destruct (Z.lt_ge_cases k hs) as [Hlt|Hge].
    + rewrite F5 by done. cbn [Z.eqb]. wp_step.
      rewrite (size_t_id (hs - k)), s32_id by (unfold total in *; lia).
      destruct F3 as [Hb Hs].
      eapply wp_mono; [apply fill_wbuffer_spec; lia|].
      intros c' s'' (-> & b & -> & Hb' & Eb). wp_step. wp_step. web_simpl. rewrite F5 by done. cbn [Z.eqb].
      wp_step. wp_step. split; [|done].
      unfold ready, sending. web_simpl. rewrite F1, (proj2 (Z.eqb_neq total 0)), Hb' in * by lia.
      rewrite (proj2 (Z.ltb_lt k hs)) in * by lia. destruct Hs as (_ & _ & _ & G1 & G2 & G3). rewrite G2.
      assert (asked k = hs - k) as -> by (unfold asked; by rewrite (proj2 (Z.ltb_lt k hs))).
      cbn [Z.eqb Pos.eqb]. splits; try done; try lia; try (by rewrite size_t_id by lia).
      rewrite Eb. unfold response. rewrite drop_app_le by lia.
      rewrite take_app_le; [done|]. rewrite length_drop. lia.
    + rewrite F4 by done. cbn [Z.eqb]. wp_step. wp_step. rewrite F4, F2 by done. cbn [Z.eqb Pos.eqb].
      eapply wp_mono; [apply body_spec; try done; [lia | by apply F4 | intros T]|].
      { specialize (Hne T). destruct F6; lia. }
      intros c' s'' [Hr ->]. wp_step. done.
Qed.
(** What one successful send hands to the kernel. *)
Definition sent_piece (c : connection) (n : Z) : list Z :=
  if w_file_fd c =? -1 then take (Z.to_nat n) (wbuffer c)
  else take (Z.to_nat n) (drop (Z.to_nat (wfile_offset c)) file).

Lemma sent_piece_spec k c n :
  0 <= k < total -> ready k c -> 0 < n <= asked k -> sent_piece c n = take (Z.to_nat n) (drop (Z.to_nat k) response).
Proof.
  intros Hk ([_ Hs] & E & Hr & _) Hn. unfold sent_piece. pose proof (header_length cs) as Hh.
  destruct (Z.eqb_spec (w_file_fd c) (-1)) as [F|F].
  - destruct Hr as [_ Hr]. apply (f_equal (take (Z.to_nat n))) in Hr. rewrite !take_take in Hr.
    by replace (Z.to_nat n `min` Z.to_nat (asked k))%nat with (Z.to_nat n) in Hr by lia.
  - destruct Hr as (T & Hk' & _). rewrite E, (proj2 (Z.eqb_neq total 0)), (proj2 (Z.ltb_ge k hs)) in Hs by lia.
    destruct Hs as (_ & _ & _ & G & _). rewrite (proj2 (Z.ltb_lt _ _) T) in G. rewrite G.
    unfold response. rewrite drop_app_ge by lia. do 2 f_equal. lia.
Qed.

(** The record once [n] bytes more are taken. *)
Lemma ready_advance k c n :
  0 <= k < total -> ready k c -> 0 < n <= asked k -> k + n < total ->
  let c' := if w_file_fd c =? -1 then c<|woffset := k + n|>
            else c<|woffset := k + n|><|wfile_offset := wfile_offset c + n|> in
  sending (k + n) c' /\ wstatus c' = wstatus c /\ wtotallength c' = total /\ woffset c' = k + n.
Proof.
  intros Hk ([Hb Hs] & E & Hr & Hb2) Hn Hlt c'. pose proof (header_length cs) as Hh. unfold sending.
  rewrite E, (proj2 (Z.eqb_neq total 0)) in Hs by lia. destruct Hs as (_ & _ & _ & Hs). pose proof (asked_range k Hk) as Ha.
  unfold asked in *. subst c'. destruct (Z.ltb_spec k hs) as [Hkh|Hkh].
  - destruct Hs as (G1 & G2 & G3). rewrite G2 in *. cbn [Z.eqb Pos.eqb]. web_simpl.
    rewrite E, (proj2 (Z.eqb_neq total 0)) by lia.
    destruct (Z.ltb_spec (k + n) hs); splits; try done; try lia.
    + rewrite G3. replace (k + n - hs) with 0 by lia. by destruct (_ <? _).
    + by destruct (_ <? _); [lia|].
  - destruct (Hb2 Hkh) as [W1 W2]. destruct Hs as (G1 & G2 & G3).
    destruct (Z.ltb_spec (BUFFER_LENGTH * 3) total) as [T|T].
    + specialize (W2 T). rewrite (proj2 (Z.eqb_neq (w_file_fd c) (-1))) in * by lia. web_simpl.
      rewrite E, (proj2 (Z.eqb_neq total 0)), (proj2 (Z.ltb_ge (k + n) hs)), G1 by lia.
      splits; try done; try lia; by left.
    + rewrite G3 in *. cbn [Z.eqb Pos.eqb]. web_simpl.
      rewrite E, (proj2 (Z.eqb_neq total 0)), (proj2 (Z.ltb_ge (k + n) hs)), G1 by lia.
      splits; try done; try lia; by left.
Qed.
(** ** One callback *)

(** The connection of [fd] afterwards, and what the peer got. *)
Definition after (fd : Z) (s s' : web) (c : connection) (bytes : list Z) : Prop :=
  conns s' = <[fd := c]> (conns s) /\ cached s' /\
  sent_to s' = (if (List.length bytes =? 0)%nat then sent_to s
                else <[fd := default [] (sent_to s !! fd) ++ bytes]> (sent_to s)).

Lemma set_event_mod fd ev s e : epoll s !! fd = Some e ->
  wp (set_event fd ev 2) (fun r s' => r = 0 /\ conns s' = conns s /\ sent_to s' = sent_to s /\
    epoll s' = <[fd := ev]> (epoll s) /\ (cached s -> cached s')) s.
Proof.
  intros E. unfold set_event. do 2 wp_step. cbn [Z.eqb Pos.eqb]. rewrite E. wp_step. apply wp_modify. wp_step.
  by splits.
Qed.

Definition advance (k n : Z) (c : connection) : connection :=
  if w_file_fd c =? -1 then c<|woffset := k + n|>
  else c<|woffset := k + n|><|wfile_offset := wfile_offset c + n|>.

Lemma reset_w_spec c s :
  List.length (wbuffer c) = 1024%nat -> (w_file_fd c = -1 -> wfile_offset c = 0) ->
  wp (reset_w c) (fun c' s' => idle c' /\ untouched s s' /\ (cached s -> cached s')) s.
Proof.
  intros Hb Hf. unfold reset_w. cbv zeta. web_simpl.
  destruct (Z.eqb_spec (w_file_fd c) (-1)) as [E|E]; cbn [negb].
  - wp_step. unfold idle, sending. web_simpl. cbn [Z.eqb]. splits; try done. auto.
  - wp_step. apply wp_modify. wp_step. unfold idle, sending. web_simpl. by splits.
Qed.

Lemma write_done_spec fd k n c e s :
  epoll s !! fd = Some e -> 0 <= k < total -> ready k c -> 0 < n <= asked k ->
  wp (write_done fd (advance k n c)) (fun _ s' => exists c',
    conns s' = <[fd := c']> (conns s) /\ sent_to s' = sent_to s /\ (cached s -> cached s') /\
    if k + n =? total then idle c' /\ epoll s' = <[fd := RECV_EV]> (epoll s)
    else sending (k + n) c' /\ epoll s' = epoll s) s.
Proof.
  intros He Hk Hr Hn. unfold write_done. pose proof (asked_range k Hk) as Ha.
  pose proof (header_length cs) as Hh.
  assert (wstatus (advance k n c) = wstatus c /\ woffset (advance k n c) = k + n /\ wtotallength (advance k n c) = total)
    as (E1 & E2 & E3) by (destruct Hr as (_ & E & _); unfold advance; by destruct (_ =? _)).
  destruct (Z.eqb_spec (k + n) total) as [Ef|Ef].
  - assert (wstatus c = 1 /\ List.length (wbuffer c) = 1024%nat /\ (w_file_fd c = -1 -> wfile_offset c = 0)) as (W & Hb & Hf).
    { destruct Hr as ([Hb Hs] & E & _ & H2).
      assert (hs <= k) as Hge by (unfold asked in *; destruct (Z.ltb_spec k hs); [unfold total in *; lia | done]).
      destruct (H2 Hge) as [W H3]. rewrite E, (proj2 (Z.eqb_neq total 0)), (proj2 (Z.ltb_ge k hs)) in Hs by lia.
      splits; try done. intros Hm. destruct Hs as (_ & _ & _ & -> & _).
      destruct (Z.ltb_spec (BUFFER_LENGTH * 3) total) as [T|T]; [specialize (H3 T); lia | done]. }
    rewrite E1, E2, E3, W, Ef, (Z.eqb_refl total). cbn [Z.eqb Pos.eqb andb]. web_simpl. cbn [Z.eqb Pos.eqb].
    wp_step. eapply wp_mono; [apply reset_w_spec|].
    { unfold advance. by destruct (_ =? _). }
    { unfold advance. destruct (Z.eqb_spec (w_file_fd c) (-1)); [done | web_simpl; done]. }
    intros c' s1 (Hi & (U1 & U2 & U3) & Hc). wp_step. apply wp_modify. wp_step.
    eapply wp_mono; [eapply (set_event_mod _ _ _ e); web_simpl; by rewrite U2|].
    intros r s2 (_ & V1 & V2 & V3 & V4). wp_step. web_simpl. exists c'.
    rewrite V1, V2, V3, U1, U2, U3. splits; auto. 
  - destruct (ready_advance k c n) as (Hs & _); try done; [lia|]. fold (advance k n c) in Hs.
    rewrite E2, E3, (proj2 (Z.eqb_neq _ _) Ef), andb_false_r, E1.
    assert ((wstatus c =? 2) = false) as ->.
    { destruct Hr as ([_ H] & E & _). rewrite E, (proj2 (Z.eqb_neq total 0)) in H by lia.
      apply Z.eqb_neq. destruct H as (_ & _ & _ & H). destruct (_ <? _); lia. }
    wp_step. apply wp_modify. wp_step. exists (advance k n c). by splits.
Qed.

Lemma write_callback_spec fd opened k n again c e s :
  0 <= fd < MAX_CONNS -> conns s !! fd = Some c -> epoll s !! fd = Some e -> cached s -> 
  0 <= k < total -> sending k c -> 0 <= opened -> (n < 0 /\ again = true \/ 0 < n <= asked k) ->
  wp (write_callback (Some file) fd opened n again) (fun _ s' =>
    exists c', let k' := if n <? 0 then k else k + n in
    after fd s s' c' (take (Z.to_nat n) (drop (Z.to_nat k) response)) /\
    if k' =? total then idle c' /\ epoll s' = <[fd := RECV_EV]> (epoll s)
    else sending k' c' /\ epoll s' = epoll s) s.
Proof.
  intros Hfd Hc He Hca Hk Hs Ho Hn. unfold write_callback. wp_step. unfold get_conn.
  rewrite (proj2 (Z.leb_le 0 fd)), (proj2 (Z.ltb_lt fd MAX_CONNS)) by lia. cbn [andb]. wp_step. rewrite Hc. cbn [default id].
  wp_step. eapply wp_mono; [by apply http_response_spec|]. intros [r c1] s1 (Hr & (U1 & U2 & U3) & Hca1). cbn [fst snd] in Hr.
  wp_step. apply wp_modify.
  destruct Hn as [[Hn ->] | Hn].
  - rewrite (proj2 (Z.ltb_lt n 0)), (proj2 (Z.leb_le n 0)), (proj2 (Z.eqb_neq n 0)) by lia.
    assert (sending k c1) as Hs1 by apply Hr.
    assert (take (Z.to_nat n) (drop (Z.to_nat k) response) = []) as -> by (by replace (Z.to_nat n) with 0%nat by lia).
    destruct (w_file_fd c1 =? -1); wp_step; exists c1; rewrite (proj2 (Z.eqb_neq k total)) by lia;
      (split; [|done]); unfold after; web_simpl; by rewrite U1, U3.
  - pose proof (asked_range k Hk) as Ha.
    rewrite (proj2 (Z.ltb_ge n 0)), (proj2 (Z.leb_gt n 0)), (proj2 (Z.eqb_neq n 0)) by lia.
    assert (woffset c1 = k) as Ew.
    { destruct Hr as ([_ Hs1] & E & _). rewrite E, (proj2 (Z.eqb_neq total 0)) in Hs1 by lia. by destruct Hs1 as (_ & ? & _). }
    assert (size_t (k + n) = k + n) as Ek by (apply size_t_id; pose proof (header_length cs); unfold total in *; lia).
    rewrite Ew, Ek. rewrite <- (sent_piece_spec k c1 n) by done.
    set (s2 := mkweb _ _ _ _ _ _).
    assert (wp (transmit fd (sent_piece c1 n);;; write_done fd (advance k n c1)) (fun _ s' => exists c',
      after fd s s' c' (sent_piece c1 n) /\
      if k + n =? total then idle c' /\ epoll s' = <[fd := RECV_EV]> (epoll s)
      else sending (k + n) c' /\ epoll s' = epoll s) s2) as Hw.
    { wp_step. apply wp_modify. eapply wp_mono; [apply (write_done_spec fd k n c1 e); try done; subst s2; web_simpl; congruence|].
      intros r' s3 (c' & V1 & V2 & V3 & V4). exists c'. subst s2. web_simpl. rewrite U2 in V4. split; [|done].
      unfold after. rewrite V1, V2, U1, U3, insert_insert_eq. splits; auto.
      assert (List.length (sent_piece c1 n) <> 0%nat) as Hl; [|by rewrite (proj2 (Nat.eqb_neq _ _) Hl)].
      rewrite (sent_piece_spec k), length_take, length_drop by done. unfold response. rewrite length_app. unfold total in *. lia. }
    unfold sent_piece, advance in *. by destruct (w_file_fd c1 =? -1).
Qed.
(** ** Any sequence of callbacks *)

Definition got (s : web) (fd : Z) : list Z := default [] (sent_to s !! fd).

Lemma take_piece (l : list Z) (k n : Z) : 0 <= k -> 0 <= n ->
  take (Z.to_nat k) l ++ take (Z.to_nat n) (drop (Z.to_nat k) l) = take (Z.to_nat (k + n)) l.
Proof.
  intros Hk Hn. rewrite Z2Nat.inj_add by lia. rewrite <- (take_drop (Z.to_nat k) l) at 3.
  destruct (Nat.le_gt_cases (Z.to_nat k) (List.length l)) as [H|H].
  - rewrite take_app_ge by (rewrite length_take; lia). rewrite length_take, Nat.min_l by done. do 2 f_equal. lia.
  - rewrite !(drop_ge l), app_nil_r, take_nil, app_nil_r by lia. rewrite take_take. f_equal. lia.
Qed.

Lemma after_got fd s s' c bytes : after fd s s' c bytes ->
  got s' fd = got s fd ++ bytes /\ (forall fd', fd' <> fd -> got s' fd' = got s fd' /\ conns s' !! fd' = conns s !! fd').
Proof.
  intros (E1 & _ & E2). unfold got. rewrite E1, E2. destruct bytes as [|b bytes]; cbn [List.length Nat.eqb].
  - rewrite app_nil_r. split; [done|]. intros fd' Hne. by rewrite lookup_insert_ne.
  - rewrite lookup_insert_eq. split; [done|]. intros fd' Hne. by rewrite !lookup_insert_ne.
Qed.

Lemma writes_spec fd l c e k k' s :
  0 <= fd < MAX_CONNS -> conns s !! fd = Some c -> epoll s !! fd = Some e -> cached s ->
  0 <= k < total -> sending k c -> progress k l = Some k' ->
  wp (writes fd l) (fun _ s' => exists c', conns s' !! fd = Some c' /\ cached s' /\
    k <= k' <= total /\ got s fd ++ take (Z.to_nat (k' - k)) (drop (Z.to_nat k) response) = got s' fd /\
    (forall fd', fd' <> fd -> got s' fd' = got s fd' /\ conns s' !! fd' = conns s !! fd') /\
    if k' =? total then idle c' /\ epoll s' = <[fd := RECV_EV]> (epoll s) else sending k' c' /\ epoll s' = epoll s) s.
Proof.
  intros Hfd. revert c e k s. induction l as [|[[opened n] again] l IH]; intros c e k s Hc He Hca Hk Hs Hp; cbn [writes progress] in *.
  - injection Hp as <-. wp_step. exists c. rewrite Z.sub_diag. cbn [Z.to_nat take]. rewrite app_nil_r.
    rewrite (proj2 (Z.eqb_neq k total)) by lia. splits; done || lia.
  - pose proof (asked_range k Hk) as Ha.
    destruct (Z.ltb_spec opened 0), (Z.leb_spec total k); cbn [orb] in Hp; try (done || lia).
    assert ((n < 0 /\ again = true \/ 0 < n <= asked k) /\ progress (if n <? 0 then k else k + n) l = Some k') as [Hn Hp'].
    { destruct (Z.ltb_spec n 0); [destruct again; [by split; [left|] | done]|].
      destruct (Z.eqb_spec n 0), (Z.ltb_spec (asked k) n); cbn [orb] in Hp; try done. split; [right; lia | done]. }
    wp_step. eapply wp_mono; [by apply (write_callback_spec fd opened k n again c e)|]. cbv zeta.
    intros _ s1 (c1 & Haf & Hs1). destruct (after_got _ _ _ _ _ Haf) as [Hg Ho]. destruct Haf as (E1 & Hca1 & _).
    assert (k + Z.max 0 n = if n <? 0 then k else k + n) as Ek by (destruct (Z.ltb_spec n 0); lia).
    rewrite <- Ek in Hp', Hs1.
    assert (conns s1 !! fd = Some c1) as Hc1 by (by rewrite E1, lookup_insert_eq).
    destruct (Z.eqb_spec (k + Z.max 0 n) total) as [Ef|Ef].
    + destruct l as [|[[o' n'] g'] l]; cbn [progress writes] in *;
        [|by rewrite (proj2 (Z.leb_le _ _)), orb_true_r in Hp' by lia].
      injection Hp' as <-. wp_step. exists c1. rewrite Ef, Z.eqb_refl, Hg. splits; try done; try lia; try apply Hs1.
      do 2 f_equal. lia.
    + destruct Hs1 as [Hs1 He1].
      eapply wp_mono; [apply (IH c1 e (k + Z.max 0 n)); try done; [by rewrite He1 | lia]|].
      intros _ s2 (c2 & Hc2 & Hca2 & Hk2 & Hg2 & Ho2 & Hs2). exists c2. splits; try done; try lia.
      * rewrite <- Hg2, Hg, <- app_assoc. f_equal.
        replace (Z.to_nat n) with (Z.to_nat (Z.max 0 n)) by lia.
        set (m := Z.max 0 n) in *. rewrite (Z2Nat.inj_add k m), <- drop_drop, take_piece by lia. do 2 f_equal. lia.
      * intros fd' Hne. destruct (Ho2 fd' Hne) as [-> ->]. by apply Ho.
      * rewrite <- He1. done.
Qed.

End Response.

(** ** Requests *)

(** A request of at most 1023 bytes is stored with a terminating zero and the response
    starts; one of 1024 bytes, which [recv] may give, is terminated past the buffer. *)
Theorem web_read_bounds fd count again data c e s :
  0 <= fd < MAX_CONNS -> conns s !! fd = Some c -> epoll s !! fd = Some e ->
  List.length (rbuffer c) = 1024%nat -> 0 < count <= BUFFER_LENGTH -> Z.of_nat (List.length data) = count ->
  (count = BUFFER_LENGTH -> read_callback fd count again data s = Fault OutOfBounds) /\
  (count < BUFFER_LENGTH -> wp (read_callback fd count again data) (fun r s' => r = 0 /\
     epoll s' = <[fd := EPOLLOUT]> (epoll s) /\
     exists c', conns s' = <[fd := c']> (conns s) /\ rlength c' = count /\ wstatus c' = 0 /\ woffset c' = woffset c /\
       rbuffer c' = data ++ 0 :: drop (Datatypes.S (Z.to_nat count)) (rbuffer c)) s).
Proof.
  intros Hfd Hc He Hb Hn Hd. unfold read_callback, get_conn, BUFFER_LENGTH in *.
  rewrite (proj2 (Z.leb_le 0 fd)), (proj2 (Z.ltb_lt fd MAX_CONNS)) by lia. cbn [andb].
  rewrite (proj2 (Z.eqb_neq count 0)), (proj2 (Z.ltb_ge count 0)) by lia. split; intros Hcount.
  - unfold bind, gets. rewrite Hc. cbn [default id]. by rewrite (proj2 (Z.leb_le _ _)) by lia.
  - wp_step. wp_step. rewrite Hc. cbn [default id]. rewrite (proj2 (Z.leb_gt _ _)) by lia. wp_step. apply wp_modify.
    wp_step. eapply wp_mono; [eapply (set_event_mod [] _ _ _ e); exact He|].
    intros r s' (_ & E1 & _ & E3 & _). wp_step. split; [done|]. rewrite E1, E3. web_simpl. split; [done|].
    eexists. split; [done|]. unfold http_request. web_simpl. splits; try done.
    rewrite take_ge by lia. rewrite insert_app_r_alt by lia.
    replace (Z.to_nat count - List.length data)%nat with 0%nat by lia.
    destruct (drop (Z.to_nat count) (rbuffer c)) as [|x t] eqn:Ed.
    { apply (f_equal List.length) in Ed. rewrite length_drop in Ed. cbn in Ed. lia. }
    cbn. do 2 f_equal. replace (Datatypes.S (Z.to_nat count)) with (Z.to_nat count + 1)%nat by lia.
    by rewrite <- drop_drop, Ed.
Qed.

(** ** Concrete runs *)

Definition conn0 : connection := new_connection<|cn_fd := 7|><|recv_cb := ReadCallback|><|send_cb := WriteCallback|>.
Definition web1 : web := mkweb {[7 := conn0]} {[7 := EPOLLOUT]} [] [] [] ∅.
Definition small_file : list Z := replicate 1200 65.


Lemma web_read_bounds_witness :
  read_callback 7 1024 false (replicate 1024 65) web1 = Fault OutOfBounds.
Proof.
  refine (proj1 (web_read_bounds 7 1024 false (replicate 1024 65) conn0 EPOLLOUT web1 _ _ _ _ _ _) _);
    vm_compute; done.
Defined.

(** A client goes in the middle of its response; the next client gets the same
    descriptor, whose record still holds the offset in the body, and the length of the
    rest of the header is negative.  Every system call of the run succeeds. *)
Definition stale_run : list (Z * Z * results) :=
  let get := text "GET / HTTP/1.1" in
  let r recv accept send := mkresults recv accept 9 send in
  let request := (7, EPOLLIN, r (14, false, get) (-1, true) (-1, true)) in
  [(3, EPOLLIN, r (0, false, []) (7, false) (-1, true));
   request;
   (7, EPOLLOUT, r (0, false, []) (-1, true) (85, false));
   (7, EPOLLOUT, r (0, false, []) (-1, true) (1000, false));
   (7, EPOLLOUT, r (0, false, []) (-1, true) (-1, false));
   (3, EPOLLIN, r (0, false, []) (7, false) (-1, true));
   request].

Lemma web_stale_connection :
  (exists s, web_main (Some small_file) 3 0 0 stale_run web0 = Ok tt s /\ got s 7 = take 1085 (response small_file)) /\
  web_main (Some small_file) 3 0 0
    (stale_run ++ [(7, EPOLLOUT, mkresults (0, false, []) (-1, true) 9 (85, false))]) web0 = Fault OutOfBounds.
Proof. split; [eexists; split; vm_compute; reflexivity | vm_compute; reflexivity]. Qed.
