(* ===== verification/Latency.v ===== *)
(** * test.h: the clock of the KCP tests and the network they run on.

    [Random] draws without replacement; [LatencySimulator] is a pair of tunnels that
    lose and delay datagrams.  [rand] and [gettimeofday] are oracles: the results of the
    successive calls, counted in the state. *)
From S2P Require Import Prelude.
From Stdlib Require Import Lia.
From stdpp Require Import base list numbers.
Open Scope Z_scope.
Open Scope c_scope.

(** ** The clock *)

(** What [gettimeofday] stores: seconds and microseconds. *)
Record timeval : Type := mktimeval { tv_sec : Z; tv_usec : Z }.

Definition itimeofday (t : timeval) : Z * Z := (tv_sec t, tv_usec t).

Definition iclock64 (t : timeval) : Z :=
  let ' (s, u) := itimeofday t in s * 1000 + Z.quot u 1000.

Definition iclock (t : timeval) : Z := u32 (Z.land (iclock64 t) 4294967295).

(** The argument that [isleep] gives to [usleep] ([unsigned long] arithmetic). *)
Definition isleep (millisecond : Z) : Z :=
  (Z.shiftl millisecond 10 - Z.shiftl millisecond 4 - Z.shiftl millisecond 3) mod 18446744073709551616.

(** ** [class DelayPacket] *)

Record DelayPacket : Type := mkpkt { pkt_ptr : list Z; pkt_size : Z; pkt_ts : Z }.

(** The constructor copies [size] bytes; [_ts] is set before it is read. *)
Definition new_DelayPacket (size : Z) (src : list Z) : DelayPacket :=
  mkpkt (take (Z.to_nat size) src) size 0.
Definition setts (p : DelayPacket) (ts : Z) : DelayPacket := mkpkt (pkt_ptr p) (pkt_size p) ts.

(** ** [class Random] *)

Record Random : Type := mkrandom { rsize : Z; seeds : list Z }.

Definition new_Random (size : Z) : Random := mkrandom 0 (replicate (Z.to_nat size) 0).

(** The seeds are refilled when none is left. *)
Definition refill (r : Random) : Random :=
  if rsize r =? 0 then mkrandom (Z.of_nat (length (seeds r))) (map Z.of_nat (seq 0 (length (seeds r)))) else r.

(** The draw itself: the last seed in use takes the place of the one drawn. *)
Definition draw (rnd : Z) (r : Random) : Z * Random :=
  let r := refill r in
  let i := Z.to_nat (Z.rem rnd (rsize r)) in
  let x := default 0 (seeds r !! i) in
  let size := rsize r - 1 in
  (x, mkrandom size (<[i := default 0 (seeds r !! Z.to_nat size)]> (seeds r))).

(** ** [class LatencySimulator] *)

Record LatencySimulator : Type := mklat {
  tx1 : Z;
  tx2 : Z;
  lat_current : Z;
  lostrate : Z;
  rttmin : Z;
  rttmax : Z;
  nmax : Z;
  p12 : list DelayPacket;
  p21 : list DelayPacket;
  r12 : Random;
  r21 : Random;
}.
Definition eta_lat (s : LatencySimulator) : LatencySimulator :=
  mklat (tx1 s) (tx2 s) (lat_current s) (lostrate s) (rttmin s) (rttmax s) (nmax s) (p12 s) (p21 s) (r12 s) (r21 s).
#[export] Instance upd_tx1 : Upd tx1 := ltac:(build_upd eta_lat tx1).
#[export] Instance upd_tx2 : Upd tx2 := ltac:(build_upd eta_lat tx2).
#[export] Instance upd_lat_current : Upd lat_current := ltac:(build_upd eta_lat lat_current).
#[export] Instance upd_p12 : Upd p12 := ltac:(build_upd eta_lat p12).
#[export] Instance upd_p21 : Upd p21 := ltac:(build_upd eta_lat p21).
#[export] Instance upd_r12 : Upd r12 := ltac:(build_upd eta_lat r12).
#[export] Instance upd_r21 : Upd r21 := ltac:(build_upd eta_lat r21).

(** The simulator and how many times the oracles were asked. *)
Record vworld : Type := mkvworld { vnet : LatencySimulator; nrand : nat; nclock : nat }.
Definition put_vnet (s : LatencySimulator) : M vworld unit := modify (fun w => mkvworld s (nrand w) (nclock w)).

Section Simulator.
Context (rand_at : nat -> Z) (clock_at : nat -> timeval).

Definition rand : M vworld Z :=
  let! n := gets nrand in modify (fun w => mkvworld (vnet w) (S n) (nclock w));;; ret (rand_at n).
Definition now : M vworld Z :=
  let! n := gets nclock in modify (fun w => mkvworld (vnet w) (nrand w) (S n));;; ret (iclock (clock_at n)).

(** [Random::random]. *)
Definition random (r : Random) : M vworld (Z * Random) :=
  if (length (seeds r) =? 0)%nat then ret (0, r)
  else let! rnd := rand in ret (draw rnd r).

(** The constructor: the loss is that of a round trip, each tunnel has half of it. *)
Definition new_LatencySimulator (lostrate rttmin rttmax nmax : Z) : M vworld LatencySimulator :=
  let! current := now in
  ret (mklat 0 0 current (Z.quot lostrate 2) (Z.quot rttmin 2) (Z.quot rttmax 2) nmax [] []
             (new_Random 100) (new_Random 100)).

Definition clear (s : LatencySimulator) : LatencySimulator := s<|p12 := []|><|p21 := []|>.

(** The decision to lose the datagram: the generator of the tunnel, then its length. *)
Definition lost (peer : Z) : M vworld bool :=
  if peer =? 0 then
    let! s := gets vnet in
    let s := s<|tx1 := s32 (tx1 s + 1)|> in
    let! ' (x, r) := random (r12 s) in
    let s := s<|r12 := r|> in
    put_vnet s;;;
    ret ((x <? lostrate s) || (nmax s <=? Z.of_nat (length (p12 s))))
  else
    let! s := gets vnet in
    let s := s<|tx2 := s32 (tx2 s + 1)|> in
    let! ' (x, r) := random (r21 s) in
    let s := s<|r21 := r|> in
    put_vnet s;;;
    ret ((x <? lostrate s) || (nmax s <=? Z.of_nat (length (p21 s)))).

Definition send (peer : Z) (data : list Z) (size : Z) : M vworld unit :=
  let! gone := lost peer in
  if gone then ret tt
  else
    let pkt := new_DelayPacket size data in
    let! current := now in
    let! s := gets vnet in
    let s := s<|lat_current := current|> in
    let! delay :=
      if rttmin s <? rttmax s
      then let! rnd := rand in ret (u32 (rttmin s + Z.rem rnd (rttmax s - rttmin s))) else ret (u32 (rttmin s)) in
    let pkt := setts pkt (u32 (current + delay)) in
    if peer =? 0 then put_vnet s<|p12 := p12 s ++ [pkt]|> else put_vnet s<|p21 := p21 s ++ [pkt]|>.

(** [recv]: the result and what is copied to the caller's buffer. *)
Definition recv (peer maxsize : Z) : M vworld (Z * list Z) :=
  let! s := gets vnet in
  match (if peer =? 0 then p21 s else p12 s) with
  | [] => ret (-1, [])
  | pkt :: rest =>
    let! current := now in
    let s := s<|lat_current := current|> in
    put_vnet s;;;
    if current <? pkt_ts pkt then ret (-2, [])
    else if maxsize <? pkt_size pkt then ret (-3, [])
    else
      put_vnet (if peer =? 0 then s<|p21 := rest|> else s<|p12 := rest|>);;;
      ret (pkt_size pkt, pkt_ptr pkt)
  end.
End Simulator.
