(* ===== verification/LatencyProps.v ===== *)
(** * The simulated network: what it loses, keeps and delivers. *)
From S2P Require Import Prelude Latency.
From Stdlib Require Import Lia Permutation.
From stdpp Require Import base list numbers.
Open Scope Z_scope.
Open Scope c_scope.

Ltac lat_simpl := cbn [tx1 tx2 lat_current lostrate rttmin rttmax nmax p12 p21 r12 r21 upd upd_tx1 upd_tx2
  upd_lat_current upd_p12 upd_p21 upd_r12 upd_r21 vnet nrand nclock pkt_ptr pkt_size pkt_ts setts
  new_DelayPacket fst snd] in *.

(** [isleep] asks for a thousand microseconds a millisecond. *)
Lemma isleep_spec ms : 0 <= ms < 18014398509481984 -> isleep ms = 1000 * ms.
Proof. intros H. unfold isleep. rewrite !Z.shiftl_mul_pow2 by lia. rewrite Z.mod_small by lia. lia. Qed.

(** ** The generator *)

(** Replacing an element by the last one and dropping the last removes it. *)
Lemma swap_remove (l : list Z) (i : nat) (m : nat) :
  (i <= m)%nat -> (m < length l)%nat ->
  default 0 (l !! i) :: take m (<[i := default 0 (l !! m)]> l) ≡ₚ take (S m) l.
Proof.
  intros Hi Hm. destruct (lookup_lt_is_Some_2 l m Hm) as [y Hy].
  rewrite (take_S_r l m y Hy), Hy. cbn [default id]. destruct (decide (i = m)) as [->|Hne].
  - rewrite Hy, take_insert_ge by lia. cbn. apply Permutation_cons_append.
  - destruct (lookup_lt_is_Some_2 l i) as [x Hx]; [lia|]. rewrite Hx. cbn [default id].
    rewrite take_insert_lt by lia. assert (take m l !! i = Some x) as Ht by (rewrite lookup_take_lt by lia; done).
    rewrite insert_take_drop by (rewrite length_take; lia). set (t := take m l) in *.
    transitivity ((take i t ++ x :: drop (S i) t) ++ [y]); [|by rewrite take_drop_middle].
    rewrite <- !app_assoc. rewrite Permutation_middle. apply Permutation_app_head. cbn.
    constructor. apply Permutation_cons_append.
Qed.

Fixpoint draws (rnds : list Z) (r : Random) : list Z * Random :=
  match rnds with
  | [] => ([], r)
  | rnd :: rnds => let ' (x, r) := draw rnd r in let ' (xs, r) := draws rnds r in (x :: xs, r)
  end.

Lemma draw_length rnd r : length (seeds (draw rnd r).2) = length (seeds r).
Proof. unfold draw, refill. destruct (_ =? 0); cbn; by rewrite length_insert, ?length_map, ?length_seq. Qed.

(** A draw while seeds are left. *)
Lemma draw_spec rnd r m :
  0 <= rnd -> rsize r = Z.of_nat (S m) -> (m < length (seeds r))%nat ->
  (draw rnd r).1 :: take m (seeds (draw rnd r).2) ≡ₚ take (S m) (seeds r) /\ rsize (draw rnd r).2 = Z.of_nat m.
Proof.
  intros Hr Hm Hl. unfold draw, refill. rewrite (proj2 (Z.eqb_neq _ 0)) by lia. cbn [fst snd seeds rsize]. rewrite Hm.
  replace (Z.of_nat (S m) - 1) with (Z.of_nat m) by lia. split; [|done]. rewrite Nat2Z.id.
  apply swap_remove; [|done]. pose proof (Z.rem_bound_pos rnd (Z.of_nat (S m))). lia.
Qed.

Lemma draws_spec rnds : forall r m,
  Forall (fun x => 0 <= x) rnds -> length rnds = m -> rsize r = Z.of_nat m -> (m <= length (seeds r))%nat ->
  (draws rnds r).1 ≡ₚ take m (seeds r) /\ rsize (draws rnds r).2 = 0 /\
  length (seeds (draws rnds r).2) = length (seeds r).
Proof.
  induction rnds as [|rnd rnds IH]; intros r m Hf Hm Hs Hl; cbn [draws length] in *; subst m.
  - done.
  - apply Forall_cons_1 in Hf as [H0 Hf].
    destruct (draw_spec rnd r (length rnds) H0 Hs ltac:(lia)) as [Hp Hs'].
    pose proof (draw_length rnd r) as Hlen. destruct (draw rnd r) as [x r'] eqn:E. cbn [fst snd] in *.
    destruct (IH r' (length rnds)) as (H1 & H2 & H3); [done | done | done | lia |].
    destruct (draws rnds r') as [xs r'']. cbn [fst snd] in *.
    splits; [|done|lia]. by rewrite H1.
Qed.

(** The generator deals out 0..n-1, each once, before it starts again. *)
Lemma draws_cycle rnds r :
  Forall (fun x => 0 <= x) rnds -> rsize r = 0 -> length (seeds r) = length rnds ->
  (draws rnds r).1 ≡ₚ map Z.of_nat (seq 0 (length rnds)) /\ rsize (draws rnds r).2 = 0 /\
  length (seeds (draws rnds r).2) = length rnds.
Proof.
  intros Hf Hs Hl. destruct rnds as [|rnd rnds]; [by cbn in *; destruct (seeds r)|].
  assert (draws (rnd :: rnds) r = draws (rnd :: rnds) (refill r)) as ->.
  { cbn [draws]. unfold draw. f_equal. unfold refill. by rewrite Hs, Hl. }
  unfold refill. rewrite Hs, Hl. cbn [Z.eqb].
  destruct (draws_spec (rnd :: rnds) (mkrandom (Z.of_nat (length (rnd :: rnds)))
    (map Z.of_nat (seq 0 (length (rnd :: rnds))))) (length (rnd :: rnds))) as (H1 & H2 & H3);
    [done | done | done | cbn [seeds]; by rewrite length_map, length_seq |].
  cbn [seeds] in *. rewrite length_map, length_seq in H3. splits; [|done|done].
  by rewrite H1, take_ge by (by rewrite length_map, length_seq).
Qed.

(** ** Sending and receiving *)

(** The tunnel a peer sends into, and its generator; the tunnel it receives from. *)
Definition tunnel (peer : Z) (s : LatencySimulator) : list DelayPacket := if peer =? 0 then p12 s else p21 s.
Definition gen (peer : Z) (s : LatencySimulator) : Random := if peer =? 0 then r12 s else r21 s.
Definition inbox (peer : Z) (s : LatencySimulator) : list DelayPacket := if peer =? 0 then p21 s else p12 s.

(** The settings of the simulator. *)
Definition settings (s : LatencySimulator) : Z * Z * Z * Z := (lostrate s, rttmin s, rttmax s, nmax s).

Section Sim.
Context (rand_at : nat -> Z) (clock_at : nat -> timeval).
Context (rand_nonneg : forall n, 0 <= rand_at n).

Definition full (peer : Z) (s : LatencySimulator) : bool := nmax s <=? Z.of_nat (length (tunnel peer s)).

(** A datagram that is kept goes to the end of its tunnel; one number is drawn. *)
Lemma send_spec peer data size w :
  peer = 0 \/ peer = 1 -> seeds (gen peer (vnet w)) <> [] ->
  wp (send rand_at clock_at peer data size) (fun _ w' =>
    settings (vnet w') = settings (vnet w) /\ inbox peer (vnet w') = inbox peer (vnet w) /\
    gen (1 - peer) (vnet w') = gen (1 - peer) (vnet w) /\
    exists rnd, 0 <= rnd /\ gen peer (vnet w') = (draw rnd (gen peer (vnet w))).2 /\
    if ((draw rnd (gen peer (vnet w))).1 <? lostrate (vnet w)) || full peer (vnet w)
    then tunnel peer (vnet w') = tunnel peer (vnet w)
    else exists ts, tunnel peer (vnet w') = tunnel peer (vnet w) ++ [mkpkt (take (Z.to_nat size) data) size ts]) w.
Proof.
  intros Hpeer Hs. unfold send. wp_step. unfold full, lost, gen, inbox, tunnel, settings in *. 
  assert (forall r, (length (seeds r) =? 0)%nat = bool_decide (seeds r = [])) as Er by (by intros []; destruct seeds).
  assert ((1 - peer =? 0) = negb (peer =? 0)) as En by (by destruct Hpeer as [-> | ->]). rewrite En.
  destruct (peer =? 0) eqn:Ep; cbn [negb]; cbv zeta; wp_step; wp_step; wp_step; unfold random; lat_simpl;
    rewrite Er, bool_decide_false by done; wp_step; unfold rand at 1; wp_step; wp_step; wp_step; apply wp_modify;
    wp_step; wp_step; set (d := draw _ _) in *; destruct d as [x r] eqn:Ed; subst d;
    wp_step; apply wp_modify; wp_step; lat_simpl.
  all: set (rnd := rand_at (nrand w)) in *; match goal with |- wp (if ?b then _ else _) _ _ => destruct b eqn:Eb end.
  1, 3: wp_step; lat_simpl; splits; try done; exists rnd; rewrite Ed; lat_simpl; rewrite Eb; splits; try done; apply rand_nonneg.
  all: wp_step; unfold now; wp_step; wp_step; wp_step; apply wp_modify; wp_step; wp_step; wp_step; lat_simpl;
    destruct (rttmin (vnet w) <? rttmax (vnet w)); wp_step; unfold rand;
    repeat first [wp_step | apply wp_modify]; lat_simpl;
    rewrite ?Ep; try (unfold put_vnet; apply wp_modify); lat_simpl; splits; try done;
    exists rnd; rewrite Ed; lat_simpl; rewrite Eb; splits; try done; first [apply rand_nonneg | by eexists].
Qed.

(** A datagram leaves its tunnel from the front, when its time has come and it fits. *)
Lemma recv_spec peer maxsize w :
  Forall (fun p => 0 <= pkt_size p) (inbox peer (vnet w)) ->
  wp (recv clock_at peer maxsize) (fun r w' =>
    settings (vnet w') = settings (vnet w) /\ tunnel peer (vnet w') = tunnel peer (vnet w) /\
    r12 (vnet w') = r12 (vnet w) /\ r21 (vnet w') = r21 (vnet w) /\ (r.1 <= maxsize \/ r.1 < 0) /\
    if r.1 <? 0 then r.2 = [] /\ inbox peer (vnet w') = inbox peer (vnet w)
    else exists ts, inbox peer (vnet w) = mkpkt r.2 r.1 ts :: inbox peer (vnet w')) w.
Proof.
  intros Hf. unfold recv, inbox, tunnel, settings in *. wp_step. wp_step.
  destruct (if peer =? 0 then p21 (vnet w) else p12 (vnet w)) as [|pkt rest] eqn:E.
  { wp_step. lat_simpl. splits; try done. by right. }
  apply Forall_cons_1 in Hf as [Hp _]. unfold now. repeat first [wp_step | apply wp_modify]. unfold put_vnet.
  repeat first [wp_step | apply wp_modify]. lat_simpl.
  destruct (iclock _ <? pkt_ts pkt).
  { wp_step. lat_simpl. splits; try done; first [by right | by destruct (peer =? 0)]. }
  destruct (Z.ltb_spec maxsize (pkt_size pkt)).
  { wp_step. lat_simpl. splits; try done; first [by right | by destruct (peer =? 0)]. }
  repeat first [wp_step | apply wp_modify]. lat_simpl. rewrite (proj2 (Z.ltb_ge _ 0)) by done.
  destruct (peer =? 0); lat_simpl; (splits; try done; first [by left | exists (pkt_ts pkt); by destruct pkt]).
Qed.
(** ** Losses *)

Fixpoint sends (peer : Z) (ds : list (list Z)) : M vworld unit :=
  match ds with
  | [] => ret tt
  | d :: ds => send rand_at clock_at peer d (Z.of_nat (length d));;; sends peer ds
  end.

(** The datagrams whose draw is not below the loss rate. *)
Definition kept (rate : Z) (xs : list Z) (ds : list (list Z)) : list (list Z) :=
  map snd (List.filter (fun p => negb (p.1 <? rate)) (combine xs ds)).

Lemma sends_spec peer ds : forall w,
  peer = 0 \/ peer = 1 -> seeds (gen peer (vnet w)) <> [] -> Z.of_nat (length (tunnel peer (vnet w)) + length ds) <= nmax (vnet w) ->
  wp (sends peer ds) (fun _ w' => settings (vnet w') = settings (vnet w) /\
    exists rnds, Forall (fun x => 0 <= x) rnds /\ length rnds = length ds /\
      gen peer (vnet w') = (draws rnds (gen peer (vnet w))).2 /\
      map pkt_ptr (tunnel peer (vnet w')) = map pkt_ptr (tunnel peer (vnet w)) ++
        kept (lostrate (vnet w)) (draws rnds (gen peer (vnet w))).1 ds) w.
Proof.
  induction ds as [|d ds IH]; intros w Hpeer Hs Hl; cbn [sends length] in *.
  - wp_step. split; [done|]. exists []. splits; [constructor | done | done | by rewrite app_nil_r].
  - wp_step. eapply wp_mono; [by apply send_spec|]. intros _ w1 (H1 & _ & _ & rnd & Hr & Hg & Ht).
    injection H1 as E1 E2 E3 E4. unfold full in Ht. rewrite (proj2 (Z.leb_gt _ _)), orb_false_r in Ht by lia.
    eapply wp_mono; [apply IH; [done|..]|].
    + intros E. apply (f_equal length) in E. rewrite Hg, draw_length in E. by destruct (seeds (gen peer (vnet w))).
    + rewrite E4. destruct (_ <? _); [rewrite Ht; lia|]. destruct Ht as [ts ->]. rewrite length_app. cbn. lia.
    + intros _ w2 (H2 & rnds & Hf & Hl2 & Hg2 & Ht2). rewrite Hg in Hg2, Ht2. rewrite E1 in Ht2.
      split; [rewrite H2; unfold settings; congruence|]. exists (rnd :: rnds). cbn [draws].
      destruct (draw rnd (gen peer (vnet w))) as [x r]. cbn [fst snd] in *. destruct (draws rnds r) as [xs r'].
      cbn [fst snd] in *. splits; [by constructor | cbn; lia | done |]. rewrite Ht2. unfold kept. cbn [combine List.filter fst].
      destruct (x <? lostrate (vnet w)); cbn [negb]; [by rewrite Ht|]. destruct Ht as [ts ->].
      rewrite map_app, <- app_assoc. cbn. by rewrite Nat2Z.id, firstn_all.
Qed.

Lemma kept_sublist rate xs : forall ds, sublist (kept rate xs ds) ds.
Proof.
  induction xs as [|x xs IH]; intros [|d ds]; unfold kept; cbn [combine List.filter]; try apply sublist_nil_l.
  cbn [fst]. destruct (x <? rate); cbn [negb map snd]; constructor; apply IH.
Qed.

Lemma kept_length rate xs : forall ds, length xs = length ds ->
  length (kept rate xs ds) = length (List.filter (fun x => negb (x <? rate)) xs).
Proof.
  induction xs as [|x xs IH]; intros [|d ds] H; try done. unfold kept. cbn [combine List.filter fst] in *.
  injection H as H. destruct (x <? rate); cbn [negb map length]; [by apply IH|]. f_equal. by apply IH.
Qed.

Lemma filter_perm_length {A} (f : A -> bool) l l' :
  l ≡ₚ l' -> length (List.filter f l) = length (List.filter f l').
Proof.
  induction 1 as [|x l l' _ IH|x y l|l l' l'' _ IH1 _ IH2]; cbn; [done | | |congruence].
  - destruct (f x); cbn; lia.
  - by destruct (f x), (f y).
Qed.

Lemma count_kept rate n : 0 <= rate <= Z.of_nat n ->
  Z.of_nat (length (List.filter (fun x => negb (x <? rate)) (map Z.of_nat (seq 0 n)))) = Z.of_nat n - rate.
Proof.
  intros H. rewrite <- (Z2Nat.id rate) by lia. set (k := Z.to_nat rate).
  replace n with (k + (n - k))%nat at 1 by (subst k; lia). rewrite seq_app, map_app, List.filter_app, length_app.
  assert (forall a m, (a + m <= k)%nat -> List.filter (fun x => negb (x <? Z.of_nat k)) (map Z.of_nat (seq a m)) = []) as H1.
  { intros a m. revert a. induction m as [|m IH]; intros a Ha; cbn; [done|].
    rewrite (proj2 (Z.ltb_lt _ _)) by lia. cbn. apply IH. lia. }
  assert (forall a m, (k <= a)%nat -> length (List.filter (fun x => negb (x <? Z.of_nat k)) (map Z.of_nat (seq a m))) = m) as H2.
  { intros a m. revert a. induction m as [|m IH]; intros a Ha; cbn; [done|].
    rewrite (proj2 (Z.ltb_ge _ _)) by lia. cbn. rewrite IH; lia. }
  rewrite H1, H2 by lia. cbn. subst k. lia.
Qed.

(** The losses are exact, not only probable.  Of every hundred datagrams in a row, starting
    when the generator has dealt its numbers out, a tunnel with room drops exactly as
    many as its loss rate, whatever [rand] returns; the others stay in order. *)
Theorem latency_loss_exact peer ds w :
  peer = 0 \/ peer = 1 -> length ds = 100%nat -> rsize (gen peer (vnet w)) = 0 -> length (seeds (gen peer (vnet w))) = 100%nat ->
  0 <= lostrate (vnet w) <= 100 -> Z.of_nat (length (tunnel peer (vnet w)) + 100) <= nmax (vnet w) ->
  wp (sends peer ds) (fun _ w' => rsize (gen peer (vnet w')) = 0 /\ length (seeds (gen peer (vnet w'))) = 100%nat /\
    exists ks, sublist ks ds /\ Z.of_nat (length ks) = 100 - lostrate (vnet w) /\
      map pkt_ptr (tunnel peer (vnet w')) = map pkt_ptr (tunnel peer (vnet w)) ++ ks) w.
Proof.
  intros Hpeer Hd Hr Hs Hrate Hroom. eapply wp_mono; [apply sends_spec; [done | |by rewrite Hd]|].
  { intros E. by rewrite E in Hs. }
  intros _ w' (_ & rnds & Hf & Hl & Hg & Ht).
  destruct (draws_cycle rnds (gen peer (vnet w)) Hf Hr) as (Hp & Hz & Hlen); [congruence|].
  rewrite Hg, Hz, Hlen, Hl, Hd. splits; try done. eexists. splits; [apply kept_sublist | | exact Ht].
  rewrite kept_length by (rewrite (Permutation_length Hp), length_map, length_seq; congruence).
  rewrite (filter_perm_length _ _ _ Hp), count_kept by lia. lia.
Qed.

(** ** Order *)

Inductive vop : Type := VSend (peer : Z) (data : list Z) | VRecv (peer maxsize : Z).

(** A run, and what the peers received. *)
Fixpoint run_vops (ops : list vop) : M vworld (list (Z * list Z)) :=
  match ops with
  | [] => ret []
  | VSend peer d :: ops => send rand_at clock_at peer d (Z.of_nat (length d));;; run_vops ops
  | VRecv peer maxsize :: ops =>
    let! ' (n, d) := recv clock_at peer maxsize in
    let! got := run_vops ops in
    ret (if n <? 0 then got else (peer, d) :: got)
  end.

Definition sent_to_2 (ops : list vop) : list (list Z) :=
  omap (fun o => match o with VSend peer d => if peer =? 0 then Some d else None | _ => None end) ops.
Definition got_by_2 (l : list (Z * list Z)) : list (list Z) :=
  omap (fun p => if p.1 =? 0 then None else Some p.2) l.

Definition peers_ok (ops : list vop) : Prop :=
  Forall (fun o => match o with VSend peer _ | VRecv peer _ => peer = 0 \/ peer = 1 end) ops.

Definition sizes_ok (s : LatencySimulator) : Prop :=
  Forall (fun p => 0 <= pkt_size p) (p12 s) /\ Forall (fun p => 0 <= pkt_size p) (p21 s).

(** What [send_spec] says of the tunnel to peer 2. *)
Lemma send_shape peer d w w' :
  peer = 0 \/ peer = 1 -> seeds (r12 (vnet w)) <> [] -> seeds (r21 (vnet w)) <> [] -> sizes_ok (vnet w) ->
  (settings (vnet w') = settings (vnet w) /\ inbox peer (vnet w') = inbox peer (vnet w) /\
    gen (1 - peer) (vnet w') = gen (1 - peer) (vnet w) /\
    exists rnd, 0 <= rnd /\ gen peer (vnet w') = (draw rnd (gen peer (vnet w))).2 /\
    if ((draw rnd (gen peer (vnet w))).1 <? lostrate (vnet w)) || full peer (vnet w)
    then tunnel peer (vnet w') = tunnel peer (vnet w)
    else exists ts, tunnel peer (vnet w') = tunnel peer (vnet w) ++
      [mkpkt (take (Z.to_nat (Z.of_nat (length d))) d) (Z.of_nat (length d)) ts]) ->
  sizes_ok (vnet w') /\ seeds (r12 (vnet w')) <> [] /\ seeds (r21 (vnet w')) <> [] /\ nmax (vnet w') = nmax (vnet w) /\
  (map pkt_ptr (p12 (vnet w')) = map pkt_ptr (p12 (vnet w)) /\ length (p12 (vnet w')) = length (p12 (vnet w)) \/
   (peer =? 0) = true /\ Z.of_nat (length (p12 (vnet w))) < nmax (vnet w) /\
   exists p, p12 (vnet w') = p12 (vnet w) ++ [p] /\ pkt_ptr p = d).
Proof.
  intros Hpeer H12 H21 [O1 O2] (H1 & Hi & Ho & rnd & Hr & Hg & Ht). injection H1 as _ _ _ E4.
  rewrite Nat2Z.id, firstn_all in Ht.
  assert (forall r, seeds r <> [] -> seeds (draw rnd r).2 <> []) as Hdraw.
  { intros r Hs E. apply (f_equal length) in E. rewrite draw_length in E. by destruct (seeds r). }
  assert (0 <= Z.of_nat (length d)) by lia. unfold full, inbox, gen, tunnel, sizes_ok in *.
  destruct Hpeer as [-> | ->]; change (1 - 0 =? 0) with false in *; change (1 - 1 =? 0) with true in *; change (0 =? 0) with true in *; change (1 =? 0) with false in *; rewrite Hi, Ho, Hg;
    (destruct (_ || _) eqn:Eb; [rewrite Ht; splits; auto; by left|]); destruct Ht as [ts ->];
    (splits; auto; try (apply Forall_app; split; [done|]; by constructor)).
  right. apply orb_false_iff in Eb as [_ Eb%Z.leb_gt]. splits; try done. by eexists.
Qed.

(** Each tunnel is a queue.  Whatever is sent and received at either end, the
    datagrams peer 2 got, followed by those still under way, are some of those that were
    under way and those peer 1 sent, in that order, none twice; and no more than [nmax]
    are under way unless there already were. *)
Theorem latency_fifo ops w :
  peers_ok ops -> sizes_ok (vnet w) -> seeds (r12 (vnet w)) <> [] -> seeds (r21 (vnet w)) <> [] ->
  wp (run_vops ops) (fun got w' =>
    sublist (got_by_2 got ++ map pkt_ptr (p12 (vnet w'))) (map pkt_ptr (p12 (vnet w)) ++ sent_to_2 ops) /\
    Z.of_nat (length (p12 (vnet w'))) <= Z.max (nmax (vnet w)) (Z.of_nat (length (p12 (vnet w))))) w.
Proof.
  revert w. induction ops as [|[peer d|peer maxsize] ops IH]; intros w Hops Hok H12 H21; cbn [run_vops].
  - wp_step. cbn. rewrite app_nil_r. split; [done | lia].
  - apply Forall_cons_1 in Hops as [Hpeer Hops]. wp_step. eapply wp_mono; [apply send_spec; [done|]|].
    { unfold gen. by destruct Hpeer as [-> | ->]. }
    cbv beta. intros _ w1 Hp. destruct (send_shape _ _ _ _ Hpeer H12 H21 Hok Hp) as (Hok1 & A1 & A2 & E4 & Ht).
    eapply wp_mono; [by apply IH|]. intros got w2 [Hs Hn]. rewrite E4 in Hn.
    assert (sent_to_2 (VSend peer d :: ops) = (if peer =? 0 then [d] else []) ++ sent_to_2 ops) as ->
      by (unfold sent_to_2; cbn; by destruct (peer =? 0)).
    destruct Ht as [[Ht Hl] | (E0 & Hfull & p & Ht & Ed)].
    + rewrite Ht in Hs. rewrite Hl in Hn. split; [|done]. etransitivity; [exact Hs|]. apply sublist_app; [done|].
      by apply sublist_inserts_l.
    + rewrite Ht, E0 in *. rewrite length_app in Hn. cbn [length] in Hn. split; [|lia].
      rewrite map_app, <- app_assoc in Hs. cbn in Hs. by rewrite Ed in Hs.
  - apply Forall_cons_1 in Hops as [Hpeer Hops]. wp_step.
    eapply wp_mono; [apply recv_spec; unfold inbox; by destruct (peer =? 0); apply Hok|].
    intros [n b] w1 (H1 & H2 & H3 & H4 & _ & H5). injection H1 as _ _ _ E4. cbn [fst snd] in H5.
    assert (sizes_ok (vnet w1) /\ ((n <? 0) || (peer =? 0) = true /\ p12 (vnet w1) = p12 (vnet w) \/
      (n <? 0) = false /\ (peer =? 0) = false /\ exists ts, p12 (vnet w) = mkpkt b n ts :: p12 (vnet w1))) as (Hok1 & Ht).
    { unfold inbox, tunnel, sizes_ok in *. destruct Hok as [O1 O2].
      destruct (n <? 0), (peer =? 0); try destruct H5 as [_ H5]; try (destruct H5 as [ts H5]; rewrite H5 in *);
        rewrite ?H2, ?H5 in *; splits; eauto; try (by eapply Forall_inv_tail); naive_solver. }
    wp_step. eapply wp_mono; [apply IH; [done | done | by rewrite H3 | by rewrite H4]|].
    intros got w2 [Hs Hn]. wp_step. rewrite E4 in Hn. cbn [sent_to_2 omap list_omap].
    destruct Ht as [[Eb Ht] | (En & Ep & ts & Ht)].
    + rewrite Ht in *. split; [|done]. replace (got_by_2 _) with (got_by_2 got); [done|].
      destruct (n <? 0); [done|]. unfold got_by_2. cbn in *. by rewrite Eb.
    + rewrite En, Ht in *. unfold got_by_2 at 1. cbn. rewrite Ep. cbn. split; [by constructor | lia].
Qed.
End Sim.

(** ** Concrete runs *)

Definition demo_rand (n : nat) : Z := Z.of_nat (n * n + 5).
Definition demo_clock (n : nat) : timeval := mktimeval 1000 (Z.of_nat n * 7000).
Definition vworld0 : vworld :=
  mkvworld (mklat 0 0 0 5 30 62 1000 [] [] (new_Random 100) (new_Random 100)) 0 0.

Lemma latency_loss_exact_witness :
  wp (sends demo_rand demo_clock 0 (map (fun n => [Z.of_nat n]) (seq 0 100))) (fun _ w' =>
    rsize (gen 0 (vnet w')) = 0 /\ length (seeds (gen 0 (vnet w'))) = 100%nat /\
    exists ks, sublist ks (map (fun n => [Z.of_nat n]) (seq 0 100)) /\ Z.of_nat (length ks) = 100 - 5 /\
      map pkt_ptr (tunnel 0 (vnet w')) = map pkt_ptr (tunnel 0 (vnet vworld0)) ++ ks) vworld0.
Proof.
  apply (latency_loss_exact demo_rand demo_clock ltac:(intros; unfold demo_rand; lia) 0 _ vworld0);
    [by left | done | done | done | cbn; lia | cbn; lia].
Defined.

Lemma latency_fifo_witness :
  let ops := [VSend 0 [1]; VSend 0 [2]; VRecv 1 10; VSend 1 [3]; VRecv 1 10; VRecv 0 10] in
  wp (run_vops demo_rand demo_clock ops) (fun got w' =>
    sublist (got_by_2 got ++ map pkt_ptr (p12 (vnet w'))) (map pkt_ptr (p12 (vnet vworld0)) ++ sent_to_2 ops) /\
    Z.of_nat (length (p12 (vnet w'))) <= Z.max (nmax (vnet vworld0)) (Z.of_nat (length (p12 (vnet vworld0))))) vworld0.
Proof.
  intros ops. apply (latency_fifo demo_rand demo_clock ltac:(intros; unfold demo_rand; lia) ops vworld0);
    [repeat apply List.Forall_cons; auto | by repeat constructor | done | done].
Defined.

(** The comparison of the clock with the time stamp is unsigned: a datagram sent just
    before the 32-bit clock wraps, which is due after it, is delivered at once. *)
Lemma latency_wraps :
  let clock := fun n : nat => mktimeval 4294967 290000 in
  match (send demo_rand clock 0 [1; 2] 2;;; recv clock 1 10) vworld0 with
  | Ok r _ => r = (2, [1; 2])
  | Fault _ => False
  end.
Proof. vm_compute. reflexivity. Qed.
