(* ===== verification/KcpTest.v ===== *)
(** * test.cpp: two control blocks over the simulated network.

    Each control block keeps the record of its own calls to the outside; what it puts out
    is handed to the simulator in the same order, when the call returns (the simulator
    does not act on the control block).  [buffer] is the one buffer of [test]. *)
From S2P Require Import Prelude KcpBase KcpCodec KcpSend KcpRecv KcpInput KcpFlush Latency.
From stdpp Require Import base list numbers strings.
Open Scope Z_scope.
Open Scope c_scope.

(** The local variables of [test], the simulator and the two control blocks. *)
Record tester : Type := mktester {
  t_net : vworld;
  t_k1 : ikcpcb; t_w1 : world;
  t_k2 : ikcpcb; t_w2 : world;
  t_current : Z;
  t_slap : Z;
  t_index : Z;
  t_next : Z;
  t_sumrtt : Z;
  t_count : Z;
  t_maxrtt : Z;
  t_buffer : list Z;
}.
Definition eta_tester (t : tester) : tester :=
  mktester (t_net t) (t_k1 t) (t_w1 t) (t_k2 t) (t_w2 t) (t_current t) (t_slap t) (t_index t) (t_next t)
           (t_sumrtt t) (t_count t) (t_maxrtt t) (t_buffer t).
#[export] Instance upd_t_net : Upd t_net := ltac:(build_upd eta_tester t_net).
#[export] Instance upd_t_k1 : Upd t_k1 := ltac:(build_upd eta_tester t_k1).
#[export] Instance upd_t_w1 : Upd t_w1 := ltac:(build_upd eta_tester t_w1).
#[export] Instance upd_t_k2 : Upd t_k2 := ltac:(build_upd eta_tester t_k2).
#[export] Instance upd_t_w2 : Upd t_w2 := ltac:(build_upd eta_tester t_w2).
#[export] Instance upd_t_current : Upd t_current := ltac:(build_upd eta_tester t_current).
#[export] Instance upd_t_slap : Upd t_slap := ltac:(build_upd eta_tester t_slap).
#[export] Instance upd_t_index : Upd t_index := ltac:(build_upd eta_tester t_index).
#[export] Instance upd_t_next : Upd t_next := ltac:(build_upd eta_tester t_next).
#[export] Instance upd_t_sumrtt : Upd t_sumrtt := ltac:(build_upd eta_tester t_sumrtt).
#[export] Instance upd_t_count : Upd t_count := ltac:(build_upd eta_tester t_count).
#[export] Instance upd_t_maxrtt : Upd t_maxrtt := ltac:(build_upd eta_tester t_maxrtt).
#[export] Instance upd_t_buffer : Upd t_buffer := ltac:(build_upd eta_tester t_buffer).

(** [outputs], as KcpInv.v defines it, of the calls made between two worlds. *)
Definition emitted (w : world) : list (list Z) :=
  omap (fun e => match e with EOutput d => Some d | _ => None end) (w_events w).

(** Bytes written at the head of the buffer. *)
Definition fill (buffer d : list Z) : list Z := d ++ drop (length d) buffer.

(** How [test] ends. *)
Inductive verdict : Type :=
  | Errored (count next : Z)
  | Passed (name : string) (ts1 sumrtt_per_count maxrtt tx : Z).

Section Test.
Context {alloc : Allocator}.
Context (rand_at : nat -> Z) (clock_at : nat -> timeval).

Definition on_net {A} (m : M vworld A) : M tester A :=
  fun t => match m (t_net t) with Ok a w => Ok a t<|t_net := w|> | Fault f => Fault f end.

(** [udp_output]: the [user] pointer is the number of the end. *)
Definition udp_output (buf : list Z) (len user : Z) : M tester Z :=
  on_net (send rand_at clock_at user buf len);;; ret 0.

Fixpoint udp_outputs (user : Z) (ds : list (list Z)) : M tester unit :=
  match ds with
  | [] => ret tt
  | d :: ds => udp_output d (Z.of_nat (length d)) user;;; udp_outputs user ds
  end.

(** A call on the control block of an end, and its datagrams. *)
Definition on_kcp {A} (user : Z) (m : ikcpcb -> M world (A * ikcpcb)) : M tester A :=
  fun t =>
    let k := if user =? 0 then t_k1 t else t_k2 t in
    let w := if user =? 0 then t_w1 t else t_w2 t in
    match m k w with
    | Ok (a, k') w' =>
      (udp_outputs user (drop (length (emitted w)) (emitted w'));;; ret a)
        (if user =? 0 then t<|t_k1 := k'|><|t_w1 := w'|> else t<|t_k2 := k'|><|t_w2 := w'|>)
    | Fault f => Fault f
    end.

Definition iclock_ : M tester Z := on_net (now clock_at).

(** [ikcp_update(kcp, iclock())] *)
Definition update_now (user : Z) : M tester unit :=
  let! c := iclock_ in on_kcp user (fun k => let! k := ikcp_update k c in ret (tt, k)).

(** [ikcp_send(kcp, buffer, len)]: the call gets the bytes it may read. *)
Definition send_buffer (user len : Z) : M tester Z :=
  let! b := gets t_buffer in on_kcp user (fun k => ikcp_send k (Some (take (Z.to_nat len) b)) len).

(** [ikcp_recv(kcp, buffer, len)]: the buffer of the control block's model is as long as
    the caller says. *)
Definition recv_buffer (user len : Z) : M tester Z :=
  let! b := gets t_buffer in
  let! ' (n, d) := on_kcp user (fun k =>
    let! ' (n, k, d) := ikcp_recv k (Some (take (Z.to_nat len) b)) len in ret ((n, default [] d), k)) in
  (if n <? 0 then ret tt else modify (fun t => t<|t_buffer := fill (t_buffer t) d|>));;;
  ret n.

(** [for (; current >= slap; slap += 20)]: every 20 ms end 0 sends [index] and the time. *)
Fixpoint send_due (fuel : nat) : M tester unit :=
  match fuel with
  | O => throw OutOfFuel
  | S fuel =>
    let! t := gets (fun t => t) in
    if t_slap t <=? t_current t then
      let data := ikcp_encode32u (ikcp_encode32u [] (t_index t)) (t_current t) in
      modify (fun t => t<|t_index := u32 (t_index t + 1)|><|t_buffer := fill (t_buffer t) data|>);;;
      send_buffer 0 8;;;
      modify (fun t => t<|t_slap := u32 (t_slap t + 20)|>);;;
      send_due fuel
    else ret tt
  end.

(** What the network holds for an end goes to its control block. *)
Fixpoint drain_net (fuel : nat) (user : Z) : M tester unit :=
  match fuel with
  | O => throw OutOfFuel
  | S fuel =>
    let! ' (hr, d) := on_net (recv clock_at user 2000) in
    if hr <? 0 then ret tt
    else
      modify (fun t => t<|t_buffer := fill (t_buffer t) d|>);;;
      let! b := gets t_buffer in
      on_kcp user (fun k => ikcp_input k (Some (take (Z.to_nat hr) b)) hr);;;
      drain_net fuel user
  end.

(** End 1 returns whatever it receives. *)
Fixpoint echo (fuel : nat) : M tester unit :=
  match fuel with
  | O => throw OutOfFuel
  | S fuel =>
    let! hr := recv_buffer 1 10 in
    if hr <? 0 then ret tt
    else send_buffer 1 hr;;; echo fuel
  end.

(** End 0 checks what comes back; [Some] when [test] returns. *)
Fixpoint check (fuel : nat) : M tester (option verdict) :=
  match fuel with
  | O => throw OutOfFuel
  | S fuel =>
    let! hr := recv_buffer 0 10 in
    if hr <? 0 then ret None
    else
      let! t := gets (fun t => t) in
      let! ' (sn, rest) := of_option OutOfBounds (ikcp_decode32u (t_buffer t)) in
      let! ' (ts, _) := of_option OutOfBounds (ikcp_decode32u rest) in
      let rtt := u32 (t_current t - ts) in
      if negb (sn =? t_next t) then ret (Some (Errored (t_count t) (t_next t)))
      else
        modify (fun t => t<|t_next := u32 (t_next t + 1)|><|t_sumrtt := t_sumrtt t + rtt|><|t_count := s32 (t_count t + 1)|>);;;
        (if u32 (t_maxrtt t) <? rtt then modify (fun t => t<|t_maxrtt := s32 rtt|>) else ret tt);;;
        check fuel
  end.

(** The loops above end when nothing is left to take, and each round takes one. *)
Definition send_fuel (t : tester) : nat := S (Z.to_nat ((t_current t - t_slap t) / 20 + 1)).
Definition net_fuel (user : Z) (t : tester) : nat :=
  S (length (if user =? 0 then p21 (vnet (t_net t)) else p12 (vnet (t_net t)))).
Definition recv_fuel (k : ikcpcb) : nat := S (length (rcv_queue k) + length (rcv_buf k)).

(** One round of the outer loop. *)
Definition test_round : M tester (option verdict) :=
  let! c := iclock_ in
  modify (fun t => t<|t_current := c|>);;;
  update_now 0;;;
  update_now 1;;;
  let! t := gets (fun t => t) in
  send_due (send_fuel t);;;
  let! t := gets (fun t => t) in
  drain_net (net_fuel 1 t) 1;;;
  let! t := gets (fun t => t) in
  drain_net (net_fuel 0 t) 0;;;
  let! t := gets (fun t => t) in
  echo (recv_fuel (t_k2 t));;;
  let! t := gets (fun t => t) in
  check (recv_fuel (t_k1 t)).

(** [names[mode]]: the array has three names. *)
Definition mode_names : list string := ["default"; "normal"; "fast"]%string.

(** What follows the outer loop: both control blocks are released, and the result is
    printed under the name of the mode, which is looked up unchecked. *)
Definition finish (mode ts1 : Z) : M tester verdict :=
  let! c := iclock_ in
  let ts1 := u32 (c - ts1) in
  on_kcp 0 (fun k => ikcp_release k;;; ret (tt, k));;;
  on_kcp 1 (fun k => ikcp_release k;;; ret (tt, k));;;
  let! name := of_option OutOfBounds (if mode <? 0 then None else mode_names !! Z.to_nat mode) in
  let! t := gets (fun t => t) in
  ret (Passed name (s32 ts1) (Z.quot (t_sumrtt t) (t_count t)) (t_maxrtt t) (tx1 (vnet (t_net t)))).

(** The outer loop and its end; the fuel is how many rounds we watch. *)
Fixpoint test_loop (mode ts1 : Z) (fuel : nat) : M tester (option verdict) :=
  match fuel with
  | O => ret None
  | S fuel =>
    let! v := test_round in
    match v with
    | Some v => ret (Some v)
    | None =>
      let! t := gets (fun t => t) in
      if 1000 <? t_next t then let! v := finish mode ts1 in ret (Some v)
      else test_loop mode ts1 fuel
    end
  end.

(** The settings of the three modes. *)
Definition configure (mode : Z) (k1 k2 : ikcpcb) : ikcpcb * ikcpcb :=
  let k1 := (ikcp_wndsize k1 128 128).2 in
  let k2 := (ikcp_wndsize k2 128 128).2 in
  if mode =? 0 then ((ikcp_nodelay k1 0 10 0 0).2, (ikcp_nodelay k2 0 10 0 0).2)
  else if mode =? 1 then ((ikcp_nodelay k1 0 10 0 1).2, (ikcp_nodelay k2 0 10 0 1).2)
  else ((ikcp_nodelay k1 2 10 2 1).2<|rx_minrto := 10|>, (ikcp_nodelay k2 2 10 2 1).2).

(** [test]: the part before the loop gives [ts1] and the state in which the loop starts. *)
Definition test_init (mode : Z) (w0 : world) (v0 : vworld) : option (Z * tester) :=
  match new_LatencySimulator clock_at 5 60 125 1000 v0 with
  | Fault _ => None
  | Ok sim v =>
    match ikcp_create 287454020 0 w0, ikcp_create 287454020 1 w0 with
    | Ok (Some k1) w1, Ok (Some k2) w2 =>
      let k1 := ikcp_setoutput k1 true in
      let k2 := ikcp_setoutput k2 true in
      match now clock_at v with
      | Fault _ => None
      | Ok current v =>
        let ' (k1, k2) := configure mode k1 k2 in
        match now clock_at v with
        | Fault _ => None
        | Ok ts1 v =>
          Some (ts1, mktester (mkvworld sim (nrand v) (nclock v)) k1 w1 k2 w2 current (u32 (current + 20)) 0 0 0 0 0
                         (replicate 2000 0))
        end
      end
    | _, _ => None
    end
  end.

Definition test (mode : Z) (w0 : world) (v0 : vworld) (fuel : nat) : option (option verdict) :=
  match test_init mode w0 v0 with
  | None => None
  | Some (ts1, t) => match test_loop mode ts1 fuel t with Ok v _ => Some v | Fault _ => None end
  end.
End Test.
