(* ===== verification/KcpTestProps.v ===== *)
(** * The test of test.cpp never reports an error.

    The invariant of a round ties the two control blocks (KcpNet.v) to the simulator
    (LatencyProps.v) and to the counters of [test]. *)
From S2P Require Import Prelude KcpBase KcpCodec KcpSend KcpRecv KcpInput KcpFlush KcpInv KcpApi KcpStream KcpDemo KcpNet.
From S2P Require Import KcpRecvSpec KcpSendSpec Latency LatencyProps KcpTest.
From Stdlib Require Import Lia.
From stdpp Require Import base list numbers strings sets.
Open Scope Z_scope.
Open Scope c_scope.

(** ** The calls of [test] on one end *)

Section Calls.
Context {alloc : Allocator} (alloc_ok : forall n size, malloc n size <> None).
Context (cv : Z) (cv_range : 0 <= cv < 4294967296).
Context (msi : list (list Z)) (hso hsi : list (list (Z * list Z))) (j : nat).

Definition grown (w w' : world) : Prop := exists ds, outputs w' = outputs w ++ ds.

Lemma ok_update k w s g now :
  ep_ok cv msi hso hsi j (mkep k w s g) -> ackcount k < 2147483648 ->
  wp (ikcp_update k now) (fun k' w' => ep_ok cv msi hso hsi j (mkep k' w' s g) /\ ackcount k' <= ackcount k /\ grown w w') w.
Proof.
  intros [H1 H2 H3 H4 H5 H6 H7 H8] Ha. cbn [ep_kcp ep_world ep_sent ep_got] in *.
  eapply wp_mono; [by apply (ends_update cv (concat hso) (concat hsi))|].
  intros k' w' (P1 & P2 & P3 & P4 & ds & P5 & P6). split; [|split; [done | by exists ds]].
  constructor; cbn; try done. by eapply wire_grows.
Qed.

Lemma ok_input k w s g d :
  ep_ok cv msi hso hsi j (mkep k w s g) -> hist_ok (concat hsi) -> genuine cv (concat hsi) d ->
  Z.of_nat (length d) <= 2000 -> ackcount k + 83 < 2147483648 ->
  wp (ikcp_input k (Some d) (Z.of_nat (length d))) (fun r w' =>
    ep_ok cv msi hso hsi j (mkep r.2 w' s g) /\ ackcount r.2 <= ackcount k + 83 /\ outputs w' = outputs w) w.
Proof.
  intros [H1 H2 H3 H4 H5 H6 H7 H8] Hhi Hd Hl Ha. cbn [ep_kcp ep_world ep_sent ep_got] in *.
  assert (Z.of_nat (length d) / 24 <= 83) by (apply (Z.div_le_mono _ 2000 24); lia).
  eapply wp_mono; [apply (ends_input alloc_ok cv (concat hso) (concat hsi)); try done; lia|].
  intros r w' (P1 & P2 & P3 & P4 & P5). split; [|split; [lia | done]].
  constructor; cbn; try done; [congruence | by rewrite P4].
Qed.

Lemma send_count_one k len : wf k -> 0 <= len <= 26 -> ikcp_send_count k len = 1.
Proof.
  intros [(Hm & Hs & _) _ _ _ _] Hl. unfold IKCP_OVERHEAD in *. unfold ikcp_send_count.
  rewrite (s32_id (mss k)) by lia. by rewrite (proj2 (Z.leb_le len (mss k))) by lia.
Qed.

Lemma ok_send k w s g b :
  ep_ok cv msi hso hsi j (mkep k w s g) -> Z.of_nat (length b) <= 26 -> Z.of_nat (length (concat hso)) + 128 <= 2147483648 ->
  wp (ikcp_send k (Some b) (Z.of_nat (length b))) (fun r w' => exists fs, length fs = 1%nat /\ message b fs /\
    ep_ok cv msi (hso ++ [fs]) hsi j (mkep r.2 w' (s ++ [b]) g) /\ ackcount r.2 = ackcount k /\ waiting r.2 = waiting k /\
    outputs w' = outputs w) w.
Proof.
  intros [H1 H2 H3 H4 H5 H6 H7 H8] Hl Hroom. cbn [ep_kcp ep_world ep_sent ep_got] in *.
  eapply wp_mono; [apply (ends_send alloc_ok cv (concat hso) (concat hsi)); try done; lia|].
  intros r w' (P1 & P2 & P3 & P4 & P5 & Pw & P6). rewrite (send_count_one k) in P5, P6 by (done || lia).
  rewrite P5 in P6 by lia. destruct P6 as (fs & Q1 & Q2 & Q3 & Q4). exists fs. split; [lia|]. split; [done|].
  split; [|done]. rewrite <- (app_nil_r fs) in Q3, Q4. change (fs ++ []) with (concat [fs]) in Q3, Q4.
  rewrite <- concat_app in Q3, Q4. constructor; cbn; try done; [congruence | by apply Forall2_app; [|constructor]|].
  rewrite P3. eapply Forall_impl; [exact H8|]. intros d. rewrite concat_app. apply genuine_app.
Qed.

Lemma ok_recv k w s g buf :
  ep_ok cv msi hso hsi j (mkep k w s g) -> hist_ok (concat hsi) -> Forall2 message msi hsi ->
  Z.of_nat (length (payload (rcv_queue k))) < 2147483648 -> Z.of_nat (length buf) < 2147483648 ->
  wp (ikcp_recv k (Some buf) (Z.of_nat (length buf))) (fun r w' =>
    ackcount r.1.2 = ackcount k /\ outputs w' = outputs w /\
    if r.1.1 <? 0 then ep_ok cv msi hso hsi j (mkep r.1.2 w' s g)
    else exists m buf', msi !! j = Some m /\ r.2 = Some buf' /\ r.1.1 = Z.of_nat (length m) /\
      take (length m) buf' = m /\ (waiting r.1.2 < waiting k)%nat /\ ep_ok cv msi hso hsi (S j) (mkep r.1.2 w' s (g ++ [m]))) w.
Proof.
  intros [H1 H2 H3 H4 H5 H6 H7 H8] Hhi Hms Hpay Hb. cbn [ep_kcp ep_world ep_sent ep_got] in *.
  eapply wp_mono; [apply (ends_recv cv (concat hso) msi hsi j); lia || done|].
  intros r w' (P1 & P2 & P3 & P4 & P5). split; [done|]. split; [done|]. destruct (r.1.1 <? 0).
  - constructor; cbn; try done; congruence.
  - destruct P5 as (m & b2 & Q1 & Q2 & Q3 & Q4 & Q5 & Qw & Q6). exists m, b2. splits; try done.
    constructor; cbn; try done; [congruence | | by rewrite P3]. rewrite H5. by rewrite (take_S_r _ _ _ Q1).
Qed.

(** The bytes that wait at the receiving end are bytes of messages. *)
Lemma queue_payload k w s g :
  ep_ok cv msi hso hsi j (mkep k w s g) -> Forall2 message msi hsi ->
  (length (payload (rcv_queue k)) <= length (concat msi))%nat.
Proof.
  intros [_ _ _ _ _ _ [_ [_ Hq _]] _] Hms. cbn [ep_kcp] in *. rewrite payload_frag, Hq.
  assert (concat (map snd (concat hsi)) = concat msi) as <-.
  { clear -Hms. induction Hms as [|m fs ms hs [Hm _] _ IH]; cbn; [done|]. by rewrite map_app, concat_app, Hm, IH. }
  assert (forall (l : list (Z * list Z)) n, length (concat (map snd (drop n l))) <= length (concat (map snd l)))%nat as Hd.
  { intros l n. rewrite <- (take_drop n l) at 2. rewrite map_app, concat_app, length_app. lia. }
  assert (forall (l : list (Z * list Z)) n, length (concat (map snd (take n l))) <= length (concat (map snd l)))%nat as Ht.
  { intros l n. rewrite <- (take_drop n l) at 2. rewrite map_app, concat_app, length_app. lia. }
  etransitivity; [apply Ht | apply Hd].
Qed.
End Calls.

(** ** The network *)

Definition pkt_of (sent : list (list Z)) (p : DelayPacket) : Prop :=
  pkt_ptr p ∈ sent /\ pkt_size p = Z.of_nat (length (pkt_ptr p)).

(** The tunnels hold datagrams of the end at their entry. *)
Definition net_ok (o1 o2 : list (list Z)) (s : LatencySimulator) : Prop :=
  nmax s = 1000 /\ seeds (r12 s) <> [] /\ seeds (r21 s) <> [] /\
  Forall (pkt_of o1) (p12 s) /\ Forall (pkt_of o2) (p21 s) /\
  (length (p12 s) <= 1000)%nat /\ (length (p21 s) <= 1000)%nat.

Lemma pkt_of_more o o' p : (forall d, d ∈ o -> d ∈ o') -> pkt_of o p -> pkt_of o' p.
Proof. intros H [? ?]. split; auto. Qed.

Lemma net_ok_more o1 o2 o1' o2' s :
  (forall d, d ∈ o1 -> d ∈ o1') -> (forall d, d ∈ o2 -> d ∈ o2') -> net_ok o1 o2 s -> net_ok o1' o2' s.
Proof.
  intros H1 H2 (? & ? & ? & A & B & ? & ?). splits; try done; (split; [done|]; split; [done|]; split; [done|];
    split; [|split]; [eapply Forall_impl; [exact A|]; intros; by eapply pkt_of_more
    | eapply Forall_impl; [exact B|]; intros; by eapply pkt_of_more | done]).
Qed.

Section Rounds.
Context {alloc : Allocator} (alloc_ok : forall n size, malloc n size <> None).
Context (rand_at : nat -> Z) (clock_at : nat -> timeval).
Context (rand_nonneg : forall n, 0 <= rand_at n).

Ltac t_simpl := cbn [t_net t_k1 t_w1 t_k2 t_w2 t_current t_slap t_index t_next t_sumrtt t_count t_maxrtt t_buffer
  upd upd_t_net upd_t_k1 upd_t_w1 upd_t_k2 upd_t_w2 upd_t_current upd_t_slap upd_t_index upd_t_next upd_t_sumrtt
  upd_t_count upd_t_maxrtt upd_t_buffer fst snd] in *.

Lemma wp_on_vnet {A} (m : M vworld A) (Q : A -> tester -> Prop) t :
  wp m (fun a v => Q a t<|t_net := v|>) (t_net t) -> wp (on_net m) Q t.
Proof. unfold on_net, wp. by destruct (m (t_net t)). Qed.

Lemma udp_outputs_spec o1 o2 user ds : forall t,
  user = 0 \/ user = 1 -> Forall (fun d => d ∈ (if user =? 0 then o1 else o2)) ds -> net_ok o1 o2 (vnet (t_net t)) ->
  wp (udp_outputs rand_at clock_at user ds) (fun _ t' => exists v, t' = t<|t_net := v|> /\ (ds = [] -> v = t_net t) /\ net_ok o1 o2 (vnet v)) t.
Proof.
  induction ds as [|d ds IH]; intros t Hu Hf Hn; cbn [udp_outputs].
  - wp_step. exists (t_net t). split; [by destruct t | by split].
  - apply Forall_cons_1 in Hf as [Hd Hf]. wp_step. unfold udp_output. wp_step. apply wp_on_vnet.
    destruct Hn as (N1 & N2 & N3 & N4 & N5 & N6 & N7).
    eapply wp_mono; [apply send_spec; [done | done | unfold gen; by destruct (user =? 0)]|].
    cbv beta. intros _ v (S1 & S2 & S3 & rnd & _ & S4 & S5). wp_step.
    assert (net_ok o1 o2 (vnet v)) as Hv.
    { injection S1 as _ _ _ E4. rewrite Nat2Z.id, firstn_all in S5.
      assert (forall r, seeds r <> [] -> seeds (draw rnd r).2 <> []) as Hdraw.
      { intros r Hs E. apply (f_equal length) in E. rewrite draw_length in E. by destruct (seeds r). }
      unfold net_ok, full, inbox, gen, tunnel in *. rewrite E4. 
      destruct Hu as [-> | ->]; change (1 - 0 =? 0) with false in *; change (1 - 1 =? 0) with true in *;
        change (0 =? 0) with true in *; change (1 =? 0) with false in *; cbv iota in *; rewrite S2, S3, S4;
        (destruct (_ || _) eqn:Eb; [rewrite S5; splits; auto |
         apply orb_false_iff in Eb as [_ Eb%Z.leb_gt]; destruct S5 as [ts ->]; rewrite length_app; cbn [length];
         splits; auto; try lia; apply Forall_app; split; [done|]; by constructor]). }
    eapply wp_mono; [apply IH; done|]. intros _ t' (v' & -> & _ & Hv'). by exists v'.
Qed.

(** The state when the call on a control block returns, before its datagrams leave. *)
Definition called (user : Z) (k : ikcpcb) (w : world) (t : tester) : tester :=
  if user =? 0 then t<|t_k1 := k|><|t_w1 := w|> else t<|t_k2 := k|><|t_w2 := w|>.
Definition kcp_of (user : Z) (t : tester) : ikcpcb := if user =? 0 then t_k1 t else t_k2 t.
Definition world_of (user : Z) (t : tester) : world := if user =? 0 then t_w1 t else t_w2 t.

Definition net_good (t : tester) : Prop := net_ok (outputs (t_w1 t)) (outputs (t_w2 t)) (vnet (t_net t)).

Lemma wp_on_kcp {A} user (m : ikcpcb -> M world (A * ikcpcb)) (Q : A -> tester -> Prop) t :
  user = 0 \/ user = 1 -> net_good t ->
  wp (m (kcp_of user t)) (fun r w' => grown (world_of user t) w' /\
    forall v, (outputs w' = outputs (world_of user t) -> v = t_net t) -> net_good (called user r.2 w' t)<|t_net := v|> -> Q r.1 (called user r.2 w' t)<|t_net := v|>) (world_of user t) ->
  wp (on_kcp rand_at clock_at user m) Q t.
Proof.
  intros Hu Hn Hw. apply wp_run in Hw as ([a k'] & w' & Hr & (ds & Hds) & HQ). unfold wp, on_kcp.
  fold (kcp_of user t) (world_of user t). rewrite Hr. change emitted with outputs. rewrite Hds, drop_app_length.
  fold (called user k' w' t). cbn [fst snd] in HQ.
  assert (wp (udp_outputs rand_at clock_at user ds;;; ret a) Q (called user k' w' t)) as Hg; [|exact Hg].
  wp_step. eapply wp_mono.
  { apply (udp_outputs_spec (outputs (t_w1 (called user k' w' t))) (outputs (t_w2 (called user k' w' t)))); [done | |].
    - apply Forall_forall. intros d Hd. unfold called, world_of in *. destruct (user =? 0); t_simpl; rewrite Hds; set_solver.
    - unfold net_good in Hn. unfold called, world_of in *.
      eapply net_ok_more; [| |by destruct (user =? 0); exact Hn]; destruct (user =? 0); t_simpl; rewrite ?Hds; set_solver. }
  cbv beta. intros _ t' (v & -> & He & Hv). wp_step. apply HQ.
  - intros E. rewrite He; [unfold called; by destruct (user =? 0)|]. rewrite Hds in E.
    apply (f_equal length) in E. rewrite length_app in E. destruct ds; [done | cbn in E; lia].
  - unfold net_good, called in *. by destruct (user =? 0).
Qed.
(** ** The invariant of a round *)

Definition cv : Z := 287454020.

(** The [i]-th message of end 0: its number and a time. *)
Definition msg_of (i : nat) (m : list Z) : Prop :=
  exists tm, m = ikcp_encode32u (ikcp_encode32u [] (Z.of_nat i)) tm.

Lemma msg_of_length i m : msg_of i m -> length m = 8%nat.
Proof. by intros [tm ->]. Qed.

(** [s1], [s2]: what the ends have sent; [g1], [g2]: what they have received; at
    most [A.1] and [A.2] acknowledgements are due. *)
Record tinv (A : Z * Z) (slap0 : Z) (s1 g1 s2 g2 : list (list Z)) (h1 h2 : list (list (Z * list Z))) (j1 j2 : nat)
    (t : tester) : Prop := mktinv {
  ti_1 : ep_ok cv s2 h1 h2 j1 (mkep (t_k1 t) (t_w1 t) s1 g1);
  ti_2 : ep_ok cv s1 h2 h1 j2 (mkep (t_k2 t) (t_w2 t) s2 g2);
  ti_net : net_good t;
  ti_msgs : forall i m, s1 !! i = Some m -> msg_of i m;
  ti_one1 : Forall (fun fs : list (Z * list Z) => length fs = 1%nat) h1;
  ti_one2 : Forall (fun fs : list (Z * list Z) => length fs = 1%nat) h2;
  ti_echo : s2 `prefix_of` g2;
  ti_index : t_index t = Z.of_nat (length s1);
  ti_slap : t_slap t = slap0 + 20 * Z.of_nat (length s1);
  ti_slap0 : 0 <= slap0 /\ t_slap t < 4294967296;
  ti_next : t_next t = Z.of_nat (length g1);
  ti_ack1 : ackcount (t_k1 t) <= A.1;
  ti_ack2 : ackcount (t_k2 t) <= A.2;
  ti_buf : (10 <= length (t_buffer t))%nat;
}.

(** Updates of the other variables keep it. *)
Ltac keep_tinv H := destruct H; constructor; t_simpl; try done.

Lemma tinv_more A A' sl s1 g1 s2 g2 h1 h2 j1 j2 t :
  A.1 <= A'.1 -> A.2 <= A'.2 -> tinv A sl s1 g1 s2 g2 h1 h2 j1 j2 t -> tinv A' sl s1 g1 s2 g2 h1 h2 j1 j2 t.
Proof. intros HA HA' H. keep_tinv H; lia. Qed.

Lemma concat_ones (h : list (list (Z * list Z))) : Forall (fun fs => length fs = 1%nat) h -> length (concat h) = length h.
Proof. induction 1 as [|fs h H1 _ IH]; cbn; [done|]. rewrite length_app, H1, IH. done. Qed.

Lemma concat_eights (l : list (list Z)) : Forall (fun m => length m = 8%nat) l -> length (concat l) = (8 * length l)%nat.
Proof. induction 1 as [|m l H1 _ IH]; cbn; [done|]. rewrite length_app, H1, IH. lia. Qed.

(** The bounds that the numbers of messages give. *)
Lemma tinv_bounds A sl s1 g1 s2 g2 h1 h2 j1 j2 t :
  tinv A sl s1 g1 s2 g2 h1 h2 j1 j2 t ->
  Z.of_nat (length s1) <= 214748364 /\ (length s2 <= length s1)%nat /\
  length (concat h1) = length s1 /\ length (concat h2) = length s2 /\
  Forall (fun m => length m = 8%nat) s1 /\ Forall (fun m => length m = 8%nat) s2 /\
  Z.of_nat (length (payload (rcv_queue (t_k1 t)))) < 2147483648 /\
  Z.of_nat (length (payload (rcv_queue (t_k2 t)))) < 2147483648.
Proof.
  intros [T1 T2 _ Tm O1 O2 Te _ Ts Ts0 _ _ _ _].
  assert (Z.of_nat (length s1) <= 214748364) as B1 by lia.
  pose proof (eo_got _ _ _ _ _ _ T2) as Hg. cbn [ep_got] in Hg.
  assert (s2 `prefix_of` s1) as Hpre.
  { etransitivity; [exact Te|]. rewrite Hg. exists (drop j2 s1). by rewrite take_drop. }
  pose proof (prefix_length _ _ Hpre) as B2.
  pose proof (Forall2_length _ _ _ (eo_sent _ _ _ _ _ _ T1)) as L1. pose proof (Forall2_length _ _ _ (eo_sent _ _ _ _ _ _ T2)) as L2.
  cbn [ep_sent] in *.
  assert (Forall (fun m => length m = 8%nat) s1) as E1.
  { apply Forall_forall. intros m [i Hi]%list_elem_of_lookup. by eapply msg_of_length, Tm. }
  assert (Forall (fun m => length m = 8%nat) s2) as E2 by (destruct Hpre as [x ->]; by apply Forall_app in E1 as [? _]).
  rewrite !concat_ones by done. splits; try done.
  - pose proof (queue_payload cv _ _ _ _ _ _ _ _ T1 (eo_sent _ _ _ _ _ _ T2)) as H. rewrite (concat_eights s2) in H by done. lia.
  - pose proof (queue_payload cv _ _ _ _ _ _ _ _ T2 (eo_sent _ _ _ _ _ _ T1)) as H. rewrite (concat_eights s1) in H by done. lia.
Qed.

(** Reading the clock changes nothing but the number of readings. *)
Lemma now_spec (Q : Z -> vworld -> Prop) v :
  Q (iclock (clock_at (nclock v))) (mkvworld (vnet v) (nrand v) (S (nclock v))) -> wp (now clock_at) Q v.
Proof. intros H. unfold now. wp_step. wp_step. wp_step. apply wp_modify. by wp_step. Qed.

Lemma update_round A sl s1 g1 s2 g2 h1 h2 j1 j2 user t :
  user = 0 \/ user = 1 -> A.1 < 2147483648 -> A.2 < 2147483648 -> tinv A sl s1 g1 s2 g2 h1 h2 j1 j2 t ->
  wp (update_now rand_at clock_at user) (fun _ t' => tinv A sl s1 g1 s2 g2 h1 h2 j1 j2 t' /\ t_current t' = t_current t) t.
Proof.
  intros Hu HA HA' Ht. unfold update_now. wp_step. unfold iclock_. apply wp_on_vnet, now_spec.
  set (t1 := t<|t_net := _|>). assert (tinv A sl s1 g1 s2 g2 h1 h2 j1 j2 t1) as Ht1 by (keep_tinv Ht).
  assert (t_current t1 = t_current t) as Ec by done. clearbody t1.
  apply wp_on_kcp; [done | by apply Ht1 |]. wp_step.
  destruct Hu as [-> | ->]; cbn [kcp_of world_of Z.eqb].
  - eapply wp_mono; [eapply ok_update; [apply Ht1|]; pose proof (ti_ack1 _ _ _ _ _ _ _ _ _ _ _ Ht1); lia|].
    intros k' w' (P1 & P2 & P3). wp_step. split; [done|]. intros v _ Hv. unfold called in *. cbn [Z.eqb fst snd] in *.
    split; [|exact Ec]. pose proof (ti_ack1 _ _ _ _ _ _ _ _ _ _ _ Ht1). keep_tinv Ht1. lia.
  - eapply wp_mono; [eapply ok_update; [apply Ht1|]; pose proof (ti_ack2 _ _ _ _ _ _ _ _ _ _ _ Ht1); lia|].
    intros k' w' (P1 & P2 & P3). wp_step. split; [done|]. intros v _ Hv. unfold called in *. cbn [Z.eqb fst snd] in *.
    split; [|exact Ec]. pose proof (ti_ack2 _ _ _ _ _ _ _ _ _ _ _ Ht1). keep_tinv Ht1. lia.
Qed.

(** Between two steps end 1 has returned all it has received. *)
Definition inv (A : Z * Z) (sl : Z) (t : tester) : Prop :=
  exists s1 g1 s2 h1 h2 j1 j2, tinv A sl s1 g1 s2 s2 h1 h2 j1 j2 t.

Lemma fill_take (b d : list Z) : take (length d) (fill b d) = d.
Proof. unfold fill. apply take_app_length. Qed.

Lemma fill_length (b d : list Z) : (length b <= length (fill b d))%nat.
Proof. unfold fill. rewrite length_app, length_drop. lia. Qed.

Lemma message_times (n tm : Z) : length (ikcp_encode32u (ikcp_encode32u [] n) tm) = 8%nat.
Proof. done. Qed.

(** End 0 sends the next message. *)
Lemma send_one A sl s1 g1 s2 h1 h2 j1 j2 t :
  tinv A sl s1 g1 s2 s2 h1 h2 j1 j2 t -> 0 <= t_current t < 4294967276 -> t_slap t <= t_current t ->
  wp (let data := ikcp_encode32u (ikcp_encode32u [] (t_index t)) (t_current t) in
      modify (fun t => t<|t_index := u32 (t_index t + 1)|><|t_buffer := fill (t_buffer t) data|>);;;
      send_buffer rand_at clock_at 0 8;;;
      modify (fun t => t<|t_slap := u32 (t_slap t + 20)|>))
    (fun _ t' => inv A sl t' /\ t_current t' = t_current t /\ t_slap t' = t_slap t + 20) t.
Proof.
  intros Ht Hcur Hs. pose proof (tinv_bounds _ _ _ _ _ _ _ _ _ _ _ Ht) as (B1 & B2 & B3 & B4 & B5 & B6 & B7 & B8).
  cbv zeta. set (data := ikcp_encode32u _ _). wp_step. apply wp_modify. wp_step. unfold send_buffer. wp_step. wp_step.
  t_simpl. assert (take (Z.to_nat 8) (fill (t_buffer t) data) = data) as -> by apply (fill_take (t_buffer t) data).
  match goal with |- wp _ _ ?x => set (t1 := x) end. apply wp_on_kcp; [by left | apply Ht |].
  cbn [kcp_of world_of Z.eqb]. change (t_k1 t1) with (t_k1 t). change (t_w1 t1) with (t_w1 t).
  change 8 with (Z.of_nat (length data)).
  eapply wp_mono; [eapply (ok_send alloc_ok); [apply Ht | cbn; lia | lia]|].
  intros r w' (fs & F1 & F2 & F3 & F4 & _ & F5). split; [exists []; by rewrite app_nil_r|]. intros v _ Hv. apply wp_modify.
  assert (u32 (t_slap t + 20) = t_slap t + 20) as Eu.
  { apply u32_id. destruct (ti_slap0 _ _ _ _ _ _ _ _ _ _ _ Ht). pose proof (ti_slap _ _ _ _ _ _ _ _ _ _ _ Ht). lia. }
  unfold called in *. cbn [Z.eqb fst snd] in *. subst t1. t_simpl. rewrite Eu. split; [|done].
  exists (s1 ++ [data]), g1, s2, (h1 ++ [fs]), h2, j1, j2.
  destruct Ht as [T1 T2 Tn Tm O1 O2 Te Ti Ts Ts0 Tx A1 A2 Tb]. constructor; t_simpl; try done.
  - apply (ep_ok_more _ _ _ _ _ _ _ _ T2). by eapply Forall2_length, (eo_sent _ _ _ _ _ _ T1).
  - intros n m. rewrite lookup_snoc_Some. intros [[_ Hm]|[-> <-]]; [by apply Tm|].
    subst data. rewrite Ti. by eexists.
  - apply Forall_app. split; [done|]. by constructor.
  - rewrite Ti, length_app. cbn. rewrite u32_id; lia.
  - rewrite Ts, length_app. cbn. lia.
  - destruct Ts0. split; [done|]. lia.
  - lia.
  - etransitivity; [exact Tb | apply fill_length].
Qed.

Lemma send_due_spec A sl fuel : forall t,
  inv A sl t -> 0 <= t_current t < 4294967276 -> (0 < fuel)%nat -> t_current t - t_slap t < 20 * (Z.of_nat fuel - 1) ->
  wp (send_due rand_at clock_at fuel) (fun _ t' => inv A sl t' /\ t_current t' = t_current t) t.
Proof.
  induction fuel as [|fuel IH]; intros t Ht Hcur Hpos Hfuel; [lia|]. cbn [send_due]. wp_step. wp_step.
  destruct (Z.leb_spec (t_slap t) (t_current t)) as [Hs|Hs]; [|by wp_step].
  pose proof Ht as (s1 & g1 & s2 & h1 & h2 & j1 & j2 & Ht').
  pose proof (send_one _ _ _ _ _ _ _ _ _ _ Ht' Hcur Hs) as Hone. cbv zeta in Hone |- *.
  apply wp_assoc, wp_assoc. wp_step. eapply wp_mono; [exact Hone|]. intros _ t2 (I2 & C2 & S2).
  eapply wp_mono; [apply IH; [done | lia | lia | lia]|]. intros _ t3 [I3 C3]. split; [done | congruence].
Qed.

(** What [recv] of the simulator leaves and gives. *)
Lemma recv_good user (t : tester) :
  user = 0 \/ user = 1 -> net_good t ->
  wp (recv clock_at user 2000) (fun r v =>
    (forall b, net_good t<|t_net := v|><|t_buffer := b|>) /\
    if r.1 <? 0 then inbox user (vnet v) = inbox user (vnet (t_net t))
    else r.2 ∈ outputs (world_of (1 - user) t) /\ r.1 = Z.of_nat (length r.2) /\ r.1 <= 2000 /\
      length (inbox user (vnet (t_net t))) = S (length (inbox user (vnet v)))) (t_net t).
Proof.
  intros Hu (N1 & N2 & N3 & N4 & N5 & N6 & N7).
  eapply wp_mono; [apply recv_spec|].
  { unfold inbox. destruct (user =? 0); [eapply Forall_impl; [exact N5|] | eapply Forall_impl; [exact N4|]];
      intros p [_ ->]; lia. }
  intros [n d] v (R1 & R2 & R3 & R4 & R5 & R6). cbn [fst snd] in *. injection R1 as _ _ _ R1.
  unfold net_good, net_ok. t_simpl. rewrite R1, R3, R4.
  unfold inbox, tunnel, world_of in *. destruct (n <? 0) eqn:En.
  - destruct R6 as [_ R6]. split; [|done]. intros _. destruct (user =? 0); rewrite R2, R6; by splits.
  - destruct R6 as [ts R6]. apply Z.ltb_ge in En.
    destruct Hu as [-> | ->]; change (1 - 0 =? 0) with false; change (1 - 1 =? 0) with true;
      change (0 =? 0) with true in *; change (1 =? 0) with false in *; cbv iota in *; rewrite R6 in *; rewrite R2;
      cbn [length] in *.
    + apply Forall_cons_1 in N5 as [[P1 P2] N5]. cbn in P1, P2. split; [intros _; splits; done || lia | splits; done || lia].
    + apply Forall_cons_1 in N4 as [[P1 P2] N4]. cbn in P1, P2. split; [intros _; splits; done || lia | splits; done || lia].
Qed.

(** The acknowledgements that [n] datagrams of at most 2000 bytes can add at an end. *)
Definition bump (user : Z) (n : nat) (A : Z * Z) : Z * Z :=
  if user =? 0 then (A.1 + 83 * Z.of_nat n, A.2) else (A.1, A.2 + 83 * Z.of_nat n).

Lemma bump_le user n A : A.1 <= (bump user n A).1 /\ A.2 <= (bump user n A).2.
Proof. unfold bump. destruct (user =? 0); cbn; lia. Qed.

Lemma bump_S user n A : bump user n (bump user 1 A) = bump user (S n) A.
Proof. unfold bump. destruct (user =? 0); cbn [fst snd]; f_equal; lia. Qed.

Lemma drain_spec A sl s1 g1 s2 g2 h1 h2 j1 j2 user fuel : forall t,
  user = 0 \/ user = 1 -> tinv A sl s1 g1 s2 g2 h1 h2 j1 j2 t ->
  forall n, (length (inbox user (vnet (t_net t))) <= n)%nat -> (n < fuel)%nat ->
  (bump user n A).1 < 2147483648 -> (bump user n A).2 < 2147483648 ->
  wp (drain_net rand_at clock_at fuel user) (fun _ t' =>
    tinv (bump user n A) sl s1 g1 s2 g2 h1 h2 j1 j2 t' /\ t_current t' = t_current t) t.
Proof.
  revert A. induction fuel as [|fuel IH]; intros A t Hu Ht n Hn Hfuel HA HA'; [lia|]. cbn [drain_net].
  wp_step. apply wp_on_vnet. eapply wp_mono; [apply (recv_good user t Hu), Ht|].
  intros [hr d] v (Hgood & Hr). cbn [fst snd] in Hr. destruct (hr <? 0) eqn:Ehr.
  { wp_step. split; [|done]. apply (tinv_more A); [apply bump_le..|]. specialize (Hgood (t_buffer t)). keep_tinv Ht. }
  destruct Hr as (Hd & -> & Hle & Hlen). destruct n as [|n]; [lia|].
  wp_step. apply wp_modify. wp_step. wp_step. t_simpl. rewrite Nat2Z.id, fill_take.
  specialize (Hgood (fill (t_buffer t) d)).
  match goal with |- wp _ _ ?x => set (t1 := x) in * end.
  assert (tinv A sl s1 g1 s2 g2 h1 h2 j1 j2 t1) as Ht1.
  { subst t1. keep_tinv Ht. etransitivity; [eassumption | apply fill_length]. }
  assert (t_current t1 = t_current t /\ inbox user (vnet (t_net t1)) = inbox user (vnet v) /\
    world_of (1 - user) t1 = world_of (1 - user) t) as (Ec & Ei & Ew) by done.
  rewrite <- Ei in Hlen. rewrite <- Ew in Hd. clearbody t1. wp_step.
  assert (forall k w', tinv (bump user 1 A) sl s1 g1 s2 g2 h1 h2 j1 j2 (called user k w' t1)<|t_net := t_net t1|> ->
    wp (drain_net rand_at clock_at fuel user) (fun _ t' =>
      tinv (bump user (S n) A) sl s1 g1 s2 g2 h1 h2 j1 j2 t' /\ t_current t' = t_current t)
      (called user k w' t1)<|t_net := t_net t1|>) as Hrest.
  { intros k w' Htv. eapply wp_mono; [apply (IH (bump user 1 A)) with (n := n); rewrite ?bump_S; try done; t_simpl; lia|].
    intros _ t' [Ht' Hc']. split; [|rewrite Hc'; unfold called; by destruct (user =? 0)].
    by rewrite bump_S in Ht'. }
  pose proof (eo_wire _ _ _ _ _ _ (ti_1 _ _ _ _ _ _ _ _ _ _ _ Ht1)) as W1.
  pose proof (eo_wire _ _ _ _ _ _ (ti_2 _ _ _ _ _ _ _ _ _ _ _ Ht1)) as W2. cbn [ep_world] in *. rewrite Forall_forall in W1, W2.
  pose proof (ti_ack1 _ _ _ _ _ _ _ _ _ _ _ Ht1). pose proof (ti_ack2 _ _ _ _ _ _ _ _ _ _ _ Ht1).
  pose proof (eo_hist _ _ _ _ _ _ (ti_1 _ _ _ _ _ _ _ _ _ _ _ Ht1)).
  pose proof (eo_hist _ _ _ _ _ _ (ti_2 _ _ _ _ _ _ _ _ _ _ _ Ht1)).
  apply wp_on_kcp; [done | apply Ht1 |].
  destruct Hu as [-> | ->]; unfold kcp_of, world_of, bump in *; change (1 - 0 =? 0) with false in *; change (1 - 1 =? 0) with true in *;
    change (0 =? 0) with true in *; change (1 =? 0) with false in *; cbv iota in *; cbn [fst snd] in *.
  - eapply wp_mono; [apply (ok_input alloc_ok cv ltac:(done) s2 h1 h2 j1 _ _ s1 g1); [apply Ht1 | done | by apply W2 | lia | lia]|].
    intros r w' (P1 & P2 & P3). split; [exists []; by rewrite app_nil_r|]. intros v' Ev Hv'. rewrite (Ev P3) in *.
    apply Hrest. unfold called in *. cbn [Z.eqb] in *. keep_tinv Ht1; cbn [fst snd]; lia.
  - eapply wp_mono; [apply (ok_input alloc_ok cv ltac:(done) s1 h2 h1 j2 _ _ s2 g2); [apply Ht1 | done | by apply W1 | lia | lia]|].
    intros r w' (P1 & P2 & P3). split; [exists []; by rewrite app_nil_r|]. intros v' Ev Hv'. rewrite (Ev P3) in *.
    apply Hrest. unfold called in *. cbn [Z.eqb] in *. keep_tinv Ht1; cbn [fst snd]; lia.
Qed.

(** A receive at end 1: nothing, or the next message of end 0. *)
Lemma recv_at_1 A sl s1 g1 s2 g2 h1 h2 j1 j2 t :
  tinv A sl s1 g1 s2 g2 h1 h2 j1 j2 t ->
  wp (recv_buffer rand_at clock_at 1 10) (fun hr t' => t_current t' = t_current t /\
    if hr <? 0 then tinv A sl s1 g1 s2 g2 h1 h2 j1 j2 t'
    else exists m, s1 !! j2 = Some m /\ hr = 8 /\ take 8 (t_buffer t') = m /\
      (waiting (t_k2 t') < waiting (t_k2 t))%nat /\ tinv A sl s1 g1 s2 (g2 ++ [m]) h1 h2 j1 (S j2) t') t.
Proof.
  intros Ht. pose proof (tinv_bounds _ _ _ _ _ _ _ _ _ _ _ Ht) as (B1 & B2 & B3 & B4 & B5 & B6 & B7 & B8).
  unfold recv_buffer. wp_step. wp_step. wp_step. apply wp_on_kcp; [by right | apply Ht |].
  change (kcp_of 1 t) with (t_k2 t). change (world_of 1 t) with (t_w2 t). wp_step.
  pose proof (ti_buf _ _ _ _ _ _ _ _ _ _ _ Ht) as Hb.
  assert (10 = Z.of_nat (length (take (Z.to_nat 10) (t_buffer t)))) as E10 by (rewrite length_take; lia).
  rewrite E10 at 2. 
  eapply wp_mono; [eapply ok_recv; [apply Ht | exact (eo_hist _ _ _ _ _ _ (ti_1 _ _ _ _ _ _ _ _ _ _ _ Ht)) | exact (eo_sent _ _ _ _ _ _ (ti_1 _ _ _ _ _ _ _ _ _ _ _ Ht)) | done | lia]|].
  intros [[n k'] d] w' (P1 & P2 & P3). cbn [fst snd] in P1, P2, P3. wp_step. cbn [fst snd].
  split; [exists []; by rewrite app_nil_r|]. intros v Ev Hv. rewrite (Ev P2) in *. unfold called in *. cbn [Z.eqb Pos.eqb] in *.
  destruct (n <? 0) eqn:En.
  - wp_step. wp_step. wp_step. rewrite En. split; [done|]. pose proof (ti_ack2 _ _ _ _ _ _ _ _ _ _ _ Ht). keep_tinv Ht; lia.
  - destruct P3 as (m & b' & Q1 & -> & -> & Q4 & Q5 & Q6). cbn [default id].
    assert (length m = 8%nat) as E8 by (rewrite Forall_lookup in B5; by eapply B5).
    wp_step. apply wp_modify. wp_step. rewrite En. split; [done|]. exists m. rewrite E8 in *. t_simpl. splits; try done.
    + unfold fill. rewrite take_app_le; [done|]. apply (f_equal length) in Q4. rewrite length_take in Q4. lia.
    + pose proof (ti_ack2 _ _ _ _ _ _ _ _ _ _ _ Ht). keep_tinv Ht; try lia.
      * etransitivity; [eassumption|]. by exists [m].
      * etransitivity; [eassumption | apply fill_length].
Qed.

(** A receive at end 0. *)
Lemma recv_at_0 A sl s1 g1 s2 g2 h1 h2 j1 j2 t :
  tinv A sl s1 g1 s2 g2 h1 h2 j1 j2 t ->
  wp (recv_buffer rand_at clock_at 0 10) (fun hr t' => t_current t' = t_current t /\
    if hr <? 0 then tinv A sl s1 g1 s2 g2 h1 h2 j1 j2 t'
    else exists m, s2 !! j1 = Some m /\ take 8 (t_buffer t') = m /\
      (waiting (t_k1 t') < waiting (t_k1 t))%nat /\ t_next t' = t_next t /\
      tinv A sl s1 (g1 ++ [m]) s2 g2 h1 h2 (S j1) j2 t'<|t_next := t_next t + 1|>) t.
Proof.
  intros Ht. pose proof (tinv_bounds _ _ _ _ _ _ _ _ _ _ _ Ht) as (B1 & B2 & B3 & B4 & B5 & B6 & B7 & B8).
  unfold recv_buffer. wp_step. wp_step. wp_step. apply wp_on_kcp; [by left | apply Ht |].
  change (kcp_of 0 t) with (t_k1 t). change (world_of 0 t) with (t_w1 t). wp_step.
  pose proof (ti_buf _ _ _ _ _ _ _ _ _ _ _ Ht) as Hb.
  assert (10 = Z.of_nat (length (take (Z.to_nat 10) (t_buffer t)))) as E10 by (rewrite length_take; lia).
  rewrite E10 at 2. 
  eapply wp_mono; [eapply ok_recv; [apply Ht | exact (eo_hist _ _ _ _ _ _ (ti_2 _ _ _ _ _ _ _ _ _ _ _ Ht)) | exact (eo_sent _ _ _ _ _ _ (ti_2 _ _ _ _ _ _ _ _ _ _ _ Ht)) | done | lia]|].
  intros [[n k'] d] w' (P1 & P2 & P3). cbn [fst snd] in P1, P2, P3. wp_step. cbn [fst snd].
  split; [exists []; by rewrite app_nil_r|]. intros v Ev Hv. rewrite (Ev P2) in *. unfold called in *. cbn [Z.eqb Pos.eqb] in *.
  destruct (n <? 0) eqn:En.
  - wp_step. wp_step. wp_step. rewrite En. split; [done|]. pose proof (ti_ack1 _ _ _ _ _ _ _ _ _ _ _ Ht). keep_tinv Ht; lia.
  - destruct P3 as (m & b' & Q1 & -> & -> & Q4 & Q5 & Q6). cbn [default id].
    assert (length m = 8%nat) as E8 by (rewrite Forall_lookup in B6; by eapply B6).
    wp_step. apply wp_modify. wp_step. rewrite En. split; [done|]. exists m. rewrite E8 in *. t_simpl. splits; try done.
    + unfold fill. rewrite take_app_le; [done|]. apply (f_equal length) in Q4. rewrite length_take in Q4. lia.
    + pose proof (ti_ack1 _ _ _ _ _ _ _ _ _ _ _ Ht). keep_tinv Ht; try lia.
      * rewrite length_app. cbn. lia.
      * etransitivity; [eassumption | apply fill_length].
Qed.

(** End 1 returns everything. *)
Lemma echo_spec A sl fuel : forall t, inv A sl t -> (waiting (t_k2 t) < fuel)%nat ->
  wp (echo rand_at clock_at fuel) (fun _ t' => inv A sl t' /\ t_current t' = t_current t) t.
Proof.
  induction fuel as [|fuel IH]; intros t (s1 & g1 & s2 & h1 & h2 & j1 & j2 & Ht) Hf; [lia|]. cbn [echo].
  wp_step. eapply wp_mono; [by apply recv_at_1|]. intros hr t1 [C1 H1]. destruct (hr <? 0) eqn:Eh.
  { wp_step. split; [|done]. by exists s1, g1, s2, h1, h2, j1, j2. }
  destruct H1 as (m & Hm & -> & Hb & Hw & Ht1). wp_step. unfold send_buffer. wp_step. wp_step.
  change (Z.to_nat 8) with 8%nat. rewrite Hb.
  pose proof (tinv_bounds _ _ _ _ _ _ _ _ _ _ _ Ht1) as (B1 & B2 & B3 & B4 & B5 & B6 & B7 & B8).
  assert (length m = 8%nat) as E8 by (rewrite Forall_lookup in B5; by eapply B5).
  apply wp_on_kcp; [by right | apply Ht1 |].
  change (kcp_of 1 t1) with (t_k2 t1). change (world_of 1 t1) with (t_w2 t1).
  replace 8 with (Z.of_nat (length m)) by lia.
  eapply wp_mono; [eapply (ok_send alloc_ok); [apply Ht1 | lia | lia]|].
  intros r w' (fs & F1 & F2 & F3 & F4 & F5 & F6). split; [exists []; by rewrite app_nil_r|]. intros v Ev Hv.
  rewrite (Ev F6) in *. unfold called in *. cbn [Z.eqb Pos.eqb] in *.
  eapply wp_mono; [apply IH|].
  - exists s1, g1, (s2 ++ [m]), h1, (h2 ++ [fs]), j1, (S j2). destruct Ht1 as [T1 T2 Tn Tm O1 O2 Te Ti Ts Ts0 Tx A1 A2 Tb].
    constructor; t_simpl; try done.
    + apply (ep_ok_more _ _ _ _ _ _ _ _ T1). by eapply Forall2_length, (eo_sent _ _ _ _ _ _ T2).
    + apply Forall_app. split; [done|]. by constructor.
    + lia.
  - t_simpl. lia.
  - intros _ t' [H1 H2]. split; [done|]. rewrite H2. exact C1.
Qed.

(** End 0 finds the numbers in order. *)
Lemma check_spec A sl fuel : forall t, inv A sl t -> (waiting (t_k1 t) < fuel)%nat -> 
  wp (check rand_at clock_at fuel) (fun v t' => v = None /\ inv A sl t' /\ t_current t' = t_current t) t.
Proof.
  induction fuel as [|fuel IH]; intros t (s1 & g1 & s2 & h1 & h2 & j1 & j2 & Ht) Hf; [lia|]. cbn [check].
  wp_step. eapply wp_mono; [by apply recv_at_0|]. intros hr t1 [C1 H1]. destruct (hr <? 0) eqn:Eh.
  { wp_step. split; [done|]. split; [|done]. by exists s1, g1, s2, h1, h2, j1, j2. }
  destruct H1 as (m & Hm & Hb & Hw & Enx & Ht1).
  pose proof (tinv_bounds _ _ _ _ _ _ _ _ _ _ _ Ht) as (B1 & B2 & _).
  assert (msg_of j1 m /\ j1 = length g1) as [[tm Em] Ej].
  { split.
    - apply (ti_msgs _ _ _ _ _ _ _ _ _ _ _ Ht). pose proof (eo_got _ _ _ _ _ _ (ti_2 _ _ _ _ _ _ _ _ _ _ _ Ht)) as Eg.
      cbn [ep_got] in Eg. rewrite Eg in Hm. by apply lookup_take_Some in Hm as [? _].
    - pose proof (eo_got _ _ _ _ _ _ (ti_1 _ _ _ _ _ _ _ _ _ _ _ Ht)) as Eg. cbn [ep_got] in Eg. rewrite Eg, length_take.
      apply lookup_lt_Some in Hm. lia. }
  assert (Z.of_nat j1 <= 214748364) by (apply lookup_lt_Some in Hm; lia).
  assert (exists rest, t_buffer t1 = m ++ rest) as [rest Eb] by (exists (drop 8 (t_buffer t1)); by rewrite <- Hb, take_drop).
  assert (ikcp_encode32u (ikcp_encode32u [] (Z.of_nat j1)) tm ++ rest = ikcp_encode32u [] (Z.of_nat j1) ++ ikcp_encode32u [] tm ++ rest)
    as Ee by done.
  wp_step. wp_step. rewrite Eb, Em, Ee. rewrite decode_encode32u, u32_id by lia. wp_step. wp_step.
  rewrite decode_encode32u. wp_step. wp_step.
  rewrite Enx, (ti_next _ _ _ _ _ _ _ _ _ _ _ Ht), <- Ej, Z.eqb_refl. cbn [negb]. wp_step. apply wp_modify. wp_step.
  match goal with |- wp (if ?b then _ else _) _ _ => assert (forall mx, tinv A sl s1 (g1 ++ [m]) s2 s2 h1 h2 (S j1) j2
    (mktester (t_net t1) (t_k1 t1) (t_w1 t1) (t_k2 t1) (t_w2 t1) (t_current t1) (t_slap t1) (t_index t1) (u32 (t_next t1 + 1))
      (t_sumrtt t1 + u32 (t_current t1 - u32 tm)) (s32 (t_count t1 + 1)) mx (t_buffer t1))) as Hinv;
    [|assert (forall mx, wp (check rand_at clock_at fuel) (fun v t' => v = None /\ inv A sl t' /\ t_current t' = t_current t)
    (mktester (t_net t1) (t_k1 t1) (t_w1 t1) (t_k2 t1) (t_w2 t1) (t_current t1) (t_slap t1) (t_index t1) (u32 (t_next t1 + 1))
      (t_sumrtt t1 + u32 (t_current t1 - u32 tm)) (s32 (t_count t1 + 1)) mx (t_buffer t1))) as Hrest;
    [|destruct b; [apply wp_modify; apply Hrest | wp_step; apply Hrest]]] end.
  - intros mx. rewrite Enx. pose proof (ti_next _ _ _ _ _ _ _ _ _ _ _ Ht). rewrite u32_id by lia. keep_tinv Ht1.
  - intros mx. eapply wp_mono; [apply IH|].
    + by exists s1, (g1 ++ [m]), s2, h1, h2, (S j1), j2.
    + t_simpl. lia.
    + intros v t' (H1 & H2 & H3). splits; try done. rewrite H3. exact C1.
Qed.

(** ** Rounds *)

Context (clock_small : forall n, iclock (clock_at n) < 4294967276).

(** A round watches at most 1000 datagrams in each direction. *)
Lemma test_round_spec A sl t :
  inv A sl t -> A.1 + 83000 < 2147483648 -> A.2 + 83000 < 2147483648 ->
  wp (test_round rand_at clock_at) (fun v t' => v = None /\ inv (A.1 + 83000, A.2 + 83000) sl t') t.
Proof.
  intros (s1 & g1 & s2 & h1 & h2 & j1 & j2 & Ht) H1 H2. unfold test_round, iclock_. wp_step. apply wp_on_vnet, now_spec.
  wp_step. apply wp_modify. t_simpl.
  match goal with |- wp _ _ ?x => set (t1 := x) end.
  assert (tinv A sl s1 g1 s2 s2 h1 h2 j1 j2 t1) as Ht1 by (subst t1; keep_tinv Ht).
  assert (0 <= t_current t1 < 4294967276) as Hc1.
  { subst t1. t_simpl. split; [|apply clock_small]. unfold iclock. apply u32_range. }
  clearbody t1. wp_step. eapply wp_mono; [apply (update_round A); [by left | lia | lia | exact Ht1]|]. intros _ t2 [Ht2 C2].
  wp_step. eapply wp_mono; [apply (update_round A); [by right | lia | lia | exact Ht2]|]. intros _ t3 [Ht3 C3].
  wp_step. wp_step. wp_step. eapply wp_mono; [apply (send_due_spec A sl (send_fuel t3))|].
  { by exists s1, g1, s2, h1, h2, j1, j2. }
  { by rewrite C3, C2. }
  { unfold send_fuel. lia. }
  { unfold send_fuel. pose proof (Z.div_mod (t_current t3 - t_slap t3) 20 ltac:(lia)).
    pose proof (Z.mod_pos_bound (t_current t3 - t_slap t3) 20 ltac:(lia)). lia. }
  intros _ t4 [(s1' & g1' & s2' & h1' & h2' & j1' & j2' & Ht4) C4]. wp_step. wp_step. wp_step.
  pose proof (ti_net _ _ _ _ _ _ _ _ _ _ _ Ht4) as (_ & _ & _ & _ & _ & N1 & _).
  set (n1 := length (p12 (vnet (t_net t4)))) in *.
  eapply wp_mono; [apply (drain_spec A) with (n := n1); [by right | exact Ht4 | done | unfold net_fuel; cbn [Z.eqb]; lia | cbn; lia | cbn; lia]|].
  intros _ t5 [Ht5 C5]. wp_step. wp_step. wp_step.
  pose proof (ti_net _ _ _ _ _ _ _ _ _ _ _ Ht5) as (_ & _ & _ & _ & _ & _ & N2).
  set (n2 := length (p21 (vnet (t_net t5)))) in *.
  eapply wp_mono; [apply (drain_spec (bump 1 n1 A)) with (n := n2);
    [by left | exact Ht5 | done | unfold net_fuel; cbn [Z.eqb]; lia | cbn; lia | cbn; lia]|].
  intros _ t6 [Ht6 C6]. wp_step. wp_step. wp_step.
  assert (inv (A.1 + 83000, A.2 + 83000) sl t6) as Hi6.
  { exists s1', g1', s2', h1', h2', j1', j2'. refine (tinv_more _ _ _ _ _ _ _ _ _ _ _ _ _ _ Ht6); cbn; lia. }
  eapply wp_mono; [apply (echo_spec _ sl _ t6 Hi6); unfold recv_fuel, waiting; lia|]. intros _ t7 [Hi7 C7]. wp_step. wp_step.
  eapply wp_mono; [apply (check_spec _ sl _ t7 Hi7); unfold recv_fuel, waiting; lia|]. intros v t8 (-> & Hi8 & _). done.
Qed.

Lemma mode_named mode : 0 <= mode < 3 -> exists name,
  (if mode <? 0 then None else mode_names !! Z.to_nat mode) = Some name.
Proof.
  intros Hm. rewrite (proj2 (Z.ltb_ge mode 0)) by lia. apply lookup_lt_is_Some. cbn. lia.
Qed.

Lemma release_good user t (Q : unit -> tester -> Prop) :
  user = 0 \/ user = 1 -> net_good t -> (forall t', net_good t' -> Q tt t') ->
  wp (on_kcp rand_at clock_at user (fun k => ikcp_release k;;; ret (tt, k))) Q t.
Proof.
  intros Hu Hn HQ. apply wp_on_kcp; [done | done |]. wp_step. eapply wp_mono; [apply ikcp_release_spec|].
  intros _ w' [_ Ho]. wp_step. split; [exists []; by rewrite app_nil_r|]. intros v _ Hv. by apply HQ.
Qed.

(** The end of the test, in a mode that has a name. *)
Lemma finish_spec mode ts1 t : 0 <= mode < 3 -> net_good t ->
  wp (finish rand_at clock_at mode ts1) (fun v _ => match v with Errored _ _ => False | _ => True end) t.
Proof.
  intros Hm Hn. unfold finish, iclock_. wp_step. apply wp_on_vnet, now_spec. wp_step.
  apply release_good; [by left | by apply Hn|]. intros t2 Hn2. wp_step.
  apply release_good; [by right | done|]. intros t3 _. destruct (mode_named mode Hm) as [name ->].
  by do 5 wp_step.
Qed.

Lemma test_loop_spec mode ts1 fuel : 0 <= mode < 3 -> forall A sl t,
  inv A sl t -> A.1 + 83000 * Z.of_nat fuel < 2147483648 -> A.2 + 83000 * Z.of_nat fuel < 2147483648 ->
  wp (test_loop rand_at clock_at mode ts1 fuel) (fun v _ => match v with Some (Errored _ _) => False | _ => True end) t.
Proof.
  intros Hm. induction fuel as [|fuel IH]; intros A sl t Hi H1 H2; cbn [test_loop]; [by wp_step|].
  wp_step. eapply wp_mono; [apply (test_round_spec A sl t Hi); lia|]. intros v t1 [-> Hi1].
  wp_step. wp_step. destruct (1000 <? t_next t1); [|eapply (IH (A.1 + 83000, A.2 + 83000) sl); [done | cbn; lia | cbn; lia]].
  destruct Hi1 as (s1 & g1 & s2 & h1 & h2 & j1 & j2 & Ht). wp_step.
  eapply wp_mono; [apply finish_spec; [done | apply Ht]|]. intros v t2 Hv. wp_step. by destruct v.
Qed.

Lemma configure_fresh mode k1 k2 :
  KcpNet.fresh cv k1 -> KcpNet.fresh cv k2 ->
  KcpNet.fresh cv (configure mode k1 k2).1 /\ KcpNet.fresh cv (configure mode k1 k2).2 /\
  ackcount (configure mode k1 k2).1 = ackcount k1 /\ ackcount (configure mode k1 k2).2 = ackcount k2.
Proof.
  intros (W1 & R1) (W2 & R2).
  assert (forall k, wf k -> wf k<|rx_minrto := 10|>) as Hm by (intros k []; by constructor).
  destruct (wf_wndsize k1 128 128 W1 ltac:(lia) ltac:(lia)) as [V1 _].
  destruct (wf_wndsize k2 128 128 W2 ltac:(lia) ltac:(lia)) as [V2 _].
  unfold configure, KcpNet.fresh. cbv zeta. destruct (mode =? 0); [|destruct (mode =? 1)]; cbn [fst snd];
    (split; [split; [first [apply Hm|idtac]; by apply wf_nodelay | exact R1]|]);
    (split; [split; [by apply wf_nodelay | exact R2] | done]).
Qed.
End Rounds.

(** C2: the KCP test.  Whatever [rand] returns, in each of the three modes and over
    any 25873 rounds of its loop (the acknowledgements due stay in range), with clock
    readings that may stop or go back as long as the 32-bit count of milliseconds stays
    20 below its wrap-around, and with memory to allocate, [test] does not report a message
    out of order, and no call faults, the look-up of the mode's name included. *)
Theorem kcp_test_never_errors (alloc : Allocator) rand_at clock_at mode w0 v0 rounds :
  alloc_total -> 0 <= mode < 3 -> (forall n, 0 <= rand_at n) -> (forall n, iclock (clock_at n) < 4294967276) ->
  outputs w0 = [] -> 83000 * Z.of_nat rounds < 2147483648 ->
  exists ts1 t, test_init clock_at mode w0 v0 = Some (ts1, t) /\
    wp (test_loop rand_at clock_at mode ts1 rounds) (fun v _ => match v with Some (Errored _ _) => False | _ => True end) t.
Proof.
  intros Hal Hm Hr Hc Hw0 Hn. unfold test_init, new_LatencySimulator, now, bind, gets, modify, ret. cbn [nclock vnet nrand].
  change 287454020 with cv. pose proof (create_fresh cv 0 w0 Hal) as Hp1. apply wp_run in Hp1 as (o1 & w1 & -> & k1 & -> & F1 & O1 & A1).
  pose proof (create_fresh cv 1 w0 Hal) as Hp2. apply wp_run in Hp2 as (o2 & w2 & -> & k2 & -> & F2 & O2 & A2).
  destruct (configure_fresh mode _ _ F1 F2) as (G1 & G2 & B1 & B2).
  destruct (configure mode (ikcp_setoutput k1 true) (ikcp_setoutput k2 true)) as [c1 c2]. cbn [fst snd] in *.
  eexists _, _. split; [reflexivity|].
  set (c := iclock (clock_at (S (nclock v0)))). assert (0 <= c < 4294967276) as Hcr.
  { split; [unfold c, iclock; apply u32_range | apply Hc]. }
  assert (ackcount c1 = 0 /\ ackcount c2 = 0) as [E1 E2] by (by rewrite B1, B2).
  apply (test_loop_spec Hal rand_at clock_at Hr Hc mode _ rounds Hm (0, 0) (c + 20)); [|cbn; lia | cbn; lia].
  exists [], [], [], [], [], 0%nat, 0%nat. assert (u32 (c + 20) = c + 20) as Eu by (apply u32_id; lia).
  constructor; cbn -[u32]; rewrite ?E1, ?E2, ?Eu; try lia;
    [apply (fresh_ok cv c1 w1 G1); congruence | apply (fresh_ok cv c2 w2 G2); congruence
    | | done | constructor | constructor | done].
  unfold net_good, net_ok. cbn. rewrite O1, O2, Hw0. splits; try done; try constructor; lia.
Qed.

(** A clock that shows a millisecond more at each reading and stops after half a second. *)
Definition run_clock (n : nat) : timeval := mktimeval 1000 (Z.of_nat (Nat.min n 500) * 1000).

Lemma run_clock_small n : iclock (run_clock n) < 4294967276.
Proof.
  unfold iclock, iclock64, run_clock. cbn [itimeofday tv_sec tv_usec]. rewrite Z.quot_mul by lia.
  change 4294967295 with (Z.ones 32). rewrite Z.land_ones by lia. change (2 ^ 32) with 4294967296.
  rewrite (Z.mod_small (1000 * 1000 + _)), u32_id; lia.
Qed.

Lemma kcp_test_never_errors_witness :
  exists ts1 t, test_init run_clock 2 world0 vworld0 = Some (ts1, t) /\
    wp (test_loop demo_rand run_clock 2 ts1 50) (fun v _ => match v with Some (Errored _ _) => False | _ => True end) t.
Proof.
  apply (kcp_test_never_errors demo_alloc demo_rand run_clock 2 world0 vworld0 50);
    [exact demo_alloc_ok | lia | intros n; unfold demo_rand; lia | exact run_clock_small | reflexivity | lia].
Defined.

(** The first echoes arrive within sixty rounds of this clock. *)
Example test_echoes :
  match test_init run_clock 2 world0 vworld0 with
  | Some (ts1, t) =>
    match test_loop demo_rand run_clock 2 ts1 60 t with Ok v t' => Some (v, t_index t', t_next t') | Fault _ => None end
  | None => None
  end = Some (None, 16, 11).
Proof. vm_compute. reflexivity. Qed.

(** A mode that has no name: the settings are those of the fast mode, and when the test is
    over the look-up reads past the three names. *)
Example test_mode_unnamed :
  match test_init run_clock 3 world0 vworld0 with
  | Some (ts1, t) => match finish demo_rand run_clock 3 ts1 t with Ok _ _ => None | Fault f => Some f end
  | None => None
  end = Some OutOfBounds.
Proof. vm_compute. reflexivity. Qed.
