(* ===== verification/KcpCalls.v ===== *)
(** * What a call on a control block may do, in the words its callers need.

    A program that runs a control block needs to know of each call: that the invariant
    holds afterwards, how many bytes and acknowledgements it can have added, that it leaves
    the settings alone, and that what it hands to the output callback fits the MTU. *)
From S2P Require Import Prelude KcpBase KcpCodec KcpSend KcpRecv KcpInput KcpFlush KcpInv KcpAck KcpInputSpec.
From S2P Require Import KcpRecvSpec KcpSendSpec KcpFlushSpec KcpTimer KcpApi KcpStream.
From Stdlib Require Import Lia.
From stdpp Require Import base list numbers strings.
Open Scope Z_scope.
Open Scope c_scope.

(** The bytes on the receiving side of a control block. *)
Definition held (k : ikcpcb) : Z := Z.of_nat (length (payload (rcv_queue k ++ rcv_buf k))).

Lemma held_ext k k' : rcv_queue k' = rcv_queue k -> rcv_buf k' = rcv_buf k -> held k' = held k.
Proof. unfold held. by intros -> ->. Qed.

Lemma held_moved k k' l1 l2 : moved k k' l1 l2 -> held k' = held k.
Proof. intros (Hl & _ & ->). unfold held. kcp_simpl_goal. by rewrite Hl, (assoc_L (++)). Qed.

Lemma held_inserted k seg k' : inserted k seg k' -> held k' = held k + Z.of_nat (length (seg_data seg)).
Proof.
  intros (b1 & b2 & Hl & _ & _ & ->). unfold held. kcp_simpl_goal. rewrite Hl, !payload_app, payload_cons, !length_app. lia.
Qed.

(** The settings that the calls of the loop leave alone. *)
Definition settings (k : ikcpcb) := (output k, stream k, mtu k, conv k).

(** What a step may add: [n] bytes received, [m] acknowledgements. *)
Definition grows (n m : Z) (k k' : ikcpcb) : Prop :=
  held k' <= held k + n /\ ackcount k' <= ackcount k + m /\ settings k' = settings k.

Lemma grows_trans n m n' m' k k1 k' : grows n m k k1 -> grows n' m' k1 k' -> grows (n + n') (m + m') k k'.
Proof. intros (? & ? & ?) (? & ? & ?). unfold grows. splits; lia || congruence. Qed.

Lemma grows_le n m n' m' k k' : n <= n' -> m <= m' -> grows n m k k' -> grows n' m' k k'.
Proof. intros ? ? (? & ? & ?). unfold grows. splits; lia || done. Qed.

(** ** [ikcp_input] hands nothing out *)

Definition quiet {A} (m : M world A) : Prop :=
  forall w, match m w with Ok _ w' => outputs w' = outputs w | Fault _ => True end.

Create HintDb quietdb.
Lemma quiet_ret {A} (a : A) : quiet (ret a). Proof. done. Qed.
Lemma quiet_throw {A} f : quiet (throw (A := A) f). Proof. done. Qed.
Lemma quiet_free : quiet ikcp_free. Proof. done. Qed.
Lemma quiet_bind {A B} (m : M world A) (f : A -> M world B) : quiet m -> (forall a, quiet (f a)) -> quiet (bind m f).
Proof.
  intros Hm Hf w. unfold bind. specialize (Hm w). destruct (m w) as [a w'|]; [|done].
  specialize (Hf a w'). destruct (f a w'); [congruence | done].
Qed.
Lemma quiet_log fmt args : quiet (emit (ELog fmt args)).
Proof. intros w. unfold outputs. cbn. rewrite omap_app. cbn. apply app_nil_r. Qed.
#[local] Hint Resolve quiet_ret quiet_throw quiet_free quiet_log : quietdb.

Ltac be_quiet :=
  repeat first [progress cbv beta iota zeta | solve [auto with quietdb] | apply quiet_bind; [|intros ?] | case_match].

Lemma quiet_printf fmt args : quiet (emit (EPrintf fmt args)).
Proof. intros w. unfold outputs. cbn. rewrite omap_app. cbn. apply app_nil_r. Qed.
#[local] Hint Resolve quiet_printf : quietdb.

Lemma quiet_log_if k mask fmt args : quiet (log_if k mask fmt args).
Proof. unfold log_if, ikcp_log. be_quiet. Qed.
Lemma quiet_of_option {A} f (o : option A) : quiet (of_option f o).
Proof. unfold of_option. by destruct o. Qed.
Lemma quiet_delete s : quiet (ikcp_segment_delete s). Proof. apply quiet_free. Qed.
#[local] Hint Resolve quiet_log_if quiet_of_option quiet_delete : quietdb.

Section Quiet.
Context {alloc : Allocator}.

Lemma quiet_malloc n : quiet (ikcp_malloc n).
Proof. intros w. unfold ikcp_malloc. by destruct (malloc _ _). Qed.
#[local] Hint Resolve quiet_malloc : quietdb.

Lemma quiet_parse_una una l k : quiet (ikcp_parse_una_loop una l k).
Proof. revert k. induction l; intros k; cbn [ikcp_parse_una_loop]; be_quiet. Qed.

Lemma quiet_push k h d : quiet (ikcp_input_push k h d).
Proof.
  unfold ikcp_input_push, ikcp_ack_push, ikcp_segment_new, ikcp_parse_data, memcpy_from, memcpy_to, acklist_set, acklist_copy.
  be_quiet.
Qed.
#[local] Hint Resolve quiet_parse_una quiet_push : quietdb.

Lemma quiet_seg k h d flag maxack ts : quiet (ikcp_input_seg k h d flag maxack ts).
Proof.
  unfold ikcp_input_seg, ikcp_input_ack, ikcp_parse_ack, ikcp_parse_una. be_quiet.
Qed.
#[local] Hint Resolve quiet_seg : quietdb.

Lemma quiet_loop fuel k d size flag maxack ts : quiet (ikcp_input_loop fuel k d size flag maxack ts).
Proof. revert k d size flag maxack ts. induction fuel; intros; cbn [ikcp_input_loop]; be_quiet. Qed.
#[local] Hint Resolve quiet_loop : quietdb.

Lemma quiet_input k d n w : wp (ikcp_input k d n) (fun _ _ => True) w ->
  wp (ikcp_input k d n) (fun _ w' => outputs w' = outputs w) w.
Proof.
  intros (r & w' & Hr & _)%wp_run. eapply wp_of_run; [exact Hr|]. assert (quiet (ikcp_input k d n)) as Hq.
  { unfold ikcp_input. be_quiet. }
  specialize (Hq w). by rewrite Hr in Hq.
Qed.
End Quiet.

Section Grow.
Context {alloc : Allocator} (alloc_ok : forall n size, malloc n size <> None).

Lemma grows_reduced k w k' w' : snd_reduced k w k' w' -> grows 0 0 k (ikcp_shrink_buf k').
Proof. intros (l & _ & -> & _). unfold grows, ikcp_shrink_buf, held. kcp_simpl_goal. destruct l; kcp_simpl_goal; splits; lia || done. Qed.

Lemma grows_push k h d w :
  wf k -> header_ok h -> h_len h < 2147483648 -> h_len h <= Z.of_nat (length d) -> ackcount k < 2147483647 ->
  wp (ikcp_input_push k h d) (fun k' _ => grows (h_len h) 1 k k') w.
Proof.
  intros Hwf (_ & _ & Hsn & _ & Hlen) Hlen' Hd Hack. unfold ikcp_input_push. wp_step. apply wp_log_if. intros w1 _ _ _.
  assert (grows (h_len h) 1 k k) as Hsame by (unfold grows; splits; lia || done).
  destruct (_ <? 0); [|by wp_step]. wp_step.
  eapply wp_mono; [apply ikcp_ack_push_spec; [done | apply Hwf | done]|]. intros k1 w2 (l & nb & Ek1 & Hack1 & _ & _ & _).
  assert (wf k1) as Hwf1 by (destruct Hwf as [? ? ? ? _]; rewrite Ek1 in *; by constructor).
  assert (grows 0 1 k k1) as Hg1 by (rewrite Ek1; unfold grows, held; kcp_simpl_goal; splits; lia || done).
  destruct (0 <=? _); [|wp_step; eapply grows_le; [..|exact Hg1]; lia]. wp_step.
  eapply wp_mono; [apply ikcp_segment_new_spec, alloc_ok|]. intros o w3 (seg & -> & Hds & _ & _). wp_step.
  assert (forall new, seg_sn new = h_sn h -> Z.of_nat (length (seg_data new)) <= h_len h ->
    forall w4, wp (ikcp_parse_data k1 new) (fun k' _ => grows (h_len h) 1 k k') w4) as Hparse.
  { intros new Hs Hl w4. eapply wp_mono; [apply ikcp_parse_data_spec; [apply Hwf1.. | lia]|].
    intros k' w' [_ [(_ & -> & _)|(_ & _ & k2 & l1 & l2 & Hm & Hcase)]].
    { eapply grows_le; [..|exact Hg1]; lia. }
    replace (h_len h) with (0 + h_len h) by lia. replace 1 with (1 + 0) by lia. eapply grows_trans; [exact Hg1|].
    pose proof (held_moved _ _ _ _ Hm) as Em.
    assert (held k2 <= held k1 + h_len h /\ ackcount k2 = ackcount k1 /\ settings k2 = settings k1) as (G1 & G2 & G3).
    { destruct Hcase as [(_ & -> & _)|[Hi _]]; [splits; done || lia|]. rewrite (held_inserted _ _ _ Hi).
      destruct Hi as (? & ? & _ & _ & _ & ->). splits; done || lia. }
    destruct Hm as (_ & _ & E). unfold grows. rewrite Em. split; [lia|]. rewrite E. kcp_simpl_goal. split; [lia | exact G3]. }
  destruct (0 <? h_len h).
  - wp_step. apply memcpy_from_spec; [lia|]. apply memcpy_to_full; [kcp_simpl_goal; rewrite length_take, Hds; lia|].
    apply Hparse; [done|]. kcp_simpl_goal. rewrite length_take. lia.
  - wp_step. apply Hparse; [done|]. kcp_simpl_goal. lia.
Qed.

Lemma grows_seg k h d flag maxack ts w :
  wf k -> header_ok h -> h_len h < 2147483648 -> h_len h <= Z.of_nat (length d) -> ackcount k < 2147483647 ->
  wp (ikcp_input_seg k h d flag maxack ts) (fun r _ => let ' (k', _, _, _) := r in grows (h_len h) 1 k k') w.
Proof.
  intros Hwf Hh Hlen Hd Hack. unfold ikcp_input_seg. set (k0 := k<|rmt_wnd := h_wnd h|>).
  assert (0 <= h_len h) as Hl0 by apply Hh.
  assert (wf k0) as Hwf0.
  { destruct Hwf as [(? & ? & ? & ? & ? & ?) ? ? ? ?]. constructor; [|done..].
    unfold wf_cfg. subst k0. kcp_simpl_goal. destruct Hh as (? & _). splits; first [done | lia]. }
  wp_step. eapply wp_mono; [apply ikcp_parse_una_reduced, Hwf0|]. intros k1 w1 Hred.
  destruct (wf_reduced _ _ _ _ Hwf0 Hred) as [Hwf1 _]. pose proof (grows_reduced _ _ _ _ Hred) as Hg0.
  assert (grows 0 0 k (ikcp_shrink_buf k1)) as Hg1 by exact Hg0.
  revert Hwf1 Hg1. generalize (ikcp_shrink_buf k1). clear k1 Hred Hg0. intros k1 Hwf1 Hg1.
  assert (ackcount k1 < 2147483647) as Hack1 by (destruct Hg1 as (_ & ? & _); lia).
  assert (forall k', grows (h_len h) 1 k1 k' -> grows (h_len h) 1 k k') as Htr.
  { intros k' Hk'. exact (grows_trans 0 0 (h_len h) 1 k k1 k' Hg1 Hk'). }
  destruct (h_cmd h =? IKCP_CMD_ACK); [|destruct (h_cmd h =? IKCP_CMD_PUSH)].
  - wp_step. unfold ikcp_input_ack. set (k2 := if 0 <=? _ then _ else k1).
    assert (wf k2 /\ grows 0 0 k1 k2) as [Hwf2 Hg2].
    { subst k2. destruct (0 <=? _); [|split; [done | unfold grows; splits; lia || done]]. split; [by apply wf_update_ack|].
      unfold grows, ikcp_update_ack, held. repeat case_match; kcp_simpl_goal; splits; lia || done. }
    wp_step. eapply wp_mono; [apply ikcp_parse_ack_reduced, Hwf2|]. intros k3 w3 Hred. wp_step.
    destruct (if flag =? 0 then _ else _) as [[fl ma] t]. wp_step. apply wp_log_if. intros w4 _ _ _. wp_step.
    apply Htr. eapply grows_le; [..|exact (grows_trans _ _ _ _ _ _ _ Hg2 (grows_reduced _ _ _ _ Hred))]; lia.
  - wp_step. eapply wp_mono; [apply grows_push; done|]. intros k2 w2 Hg2. wp_step. by apply Htr.
  - destruct (h_cmd h =? IKCP_CMD_WASK); wp_step; apply wp_log_if; intros w3 _ _ _; wp_step; apply Htr;
      unfold grows, held; kcp_simpl_goal; splits; lia || done.
Qed.

Lemma grows_loop fuel k d size flag maxack ts w :
  wf k -> 0 <= size <= Z.of_nat (length d) -> (Z.to_nat size < fuel)%nat -> ackcount k + size / 24 < 2147483648 ->
  wp (ikcp_input_loop fuel k d size flag maxack ts)
    (fun r _ => match r with IReturn _ k' | IBreak k' _ _ _ => grows size (size / 24) k k' end) w.
Proof.
  revert k d size flag maxack ts w.
  induction fuel as [|fuel IH]; intros k d size flag maxack ts w Hwf Hd Hfuel Hack; [lia|].
  pose proof (Z.div_pos size 24 ltac:(lia) ltac:(lia)).
  assert (grows size (size / 24) k k) as Hsame by (unfold grows; splits; lia || done).
  cbn [ikcp_input_loop]. unfold IKCP_OVERHEAD. destruct (Z.ltb_spec size 24) as [Hsz|Hsz]; [by wp_step|].
  destruct (decode32u_total d) as (cv & d1 & -> & Hcv & Hd1); [lia|]. wp_step. wp_step.
  destruct (negb (cv =? conv k)); [by wp_step|].
  destruct (decode_header_total d1) as (h & d2 & -> & Hh & Hd2); [lia|]. wp_step. wp_step.
  assert (0 <= h_len h < 4294967296) as Hr by apply Hh.
  destruct (Z.ltb_spec (size - 24) (h_len h)) as [Hl|Hl]; cbn [orb]; [by wp_step|].
  destruct (Z.ltb_spec (s32 (h_len h)) 0) as [Hs|Hs]; [by wp_step|].
  apply s32_nonneg in Hs. rewrite u32_id in Hs by lia.
  destruct (negb (known_cmd (h_cmd h))); [by wp_step|].
  assert (size / 24 = (size - 24) / 24 + 1) as Hdiv
    by (rewrite <- (Z.div_add _ 1 24) by lia; f_equal; lia).
  pose proof (Z.div_pos (size - 24) 24).
  assert ((size - 24 - h_len h) / 24 <= (size - 24) / 24) by (apply Z.div_le_mono; lia).
  wp_step. eapply wp_mono; [apply wp_and; [apply (wf_input_seg alloc_ok); try done; lia | apply grows_seg; try done; lia]|].
  intros [[[k' flag'] maxack'] ts'] w' [(Hwf' & _ & _) Hg]. pose proof Hg as (_ & Hga & _).
  eapply wp_mono; [apply IH; [done | rewrite length_drop; lia | lia | lia]|].
  intros [c k''|k'' ? ? ?] w'' Hg'; (eapply grows_le; [..|exact (grows_trans _ _ _ _ _ _ _ Hg Hg')]; lia).
Qed.

(** A datagram adds at most its own size. *)
Lemma grows_input k d w :
  wf k -> ackcount k + Z.of_nat (length d) / 24 < 2147483648 ->
  wp (ikcp_input k (Some d) (Z.of_nat (length d))) (fun r _ =>
    grows (Z.of_nat (length d)) (Z.of_nat (length d) / 24) k r.2) w.
Proof.
  intros Hwf Hack. unfold ikcp_input. wp_step. apply wp_log_if. intros w1 _ _ _.
  pose proof (Z.div_pos (Z.of_nat (length d)) 24 ltac:(lia) ltac:(lia)).
  destruct (_ <? IKCP_OVERHEAD).
  { wp_step. apply wp_emit. wp_step. unfold grows. cbn [snd]. splits; lia || done. }
  wp_step. eapply wp_mono; [apply grows_loop; [done | lia | lia | done]|].
  intros [code k'|k' flag maxack ts] w2 Hg; wp_step; cbn [snd]; [done|].
  set (k2 := if negb (flag =? 0) then _ else k').
  assert (grows 0 0 k' k2) as Hg2.
  { subst k2. unfold ikcp_parse_fastack. destruct (negb (flag =? 0)); [destruct (sn_out_of_flight k' maxack)|];
      unfold grows, held; kcp_simpl_goal; splits; lia || done. }
  assert (grows 0 0 k2 (ikcp_input_cwnd k2 (snd_una k))) as Hg3.
  { unfold ikcp_input_cwnd, grows, held. repeat case_match; kcp_simpl_goal; splits; lia || done. }
  eapply grows_le; [..|exact (grows_trans _ _ _ _ _ _ _ Hg (grows_trans _ _ _ _ _ _ _ Hg2 Hg3))]; lia.
Qed.


(** ** The calls *)

(** A call keeps the invariant; what it hands out fits the MTU. *)
Definition calls (n m : Z) (k : ikcpcb) (w : world) (k' : ikcpcb) (w' : world) : Prop :=
  wf k' /\ grows n m k k' /\ balanced k w k' w' /\ exists ds, outputs w' = outputs w ++ ds /\ Forall (fun d => Z.of_nat (length d) <= mtu k) ds.

Lemma calls_quiet n m k w k' w' : wf k' -> grows n m k k' -> balanced k w k' w' -> outputs w' = outputs w -> calls n m k w k' w'.
Proof. intros ? ? ? Ho. split; [done|]. split; [done|]. split; [done|]. exists []. by rewrite app_nil_r. Qed.

Lemma flush_post_calls k w k' w' : wf k -> flush_post k w k' w' -> calls 0 0 k w k' w'.
Proof.
  intros [_ _ _ _ [Ha _]] (n & bs & _ & Ho & _ & Hm & Hwf & Hbal & _ & _ & _ & Hack & _ & _ & Hfr).
  split; [done|]. split.
  - unfold frame_of in Hfr. injection Hfr. intros. unfold grows. rewrite (held_ext k k'), Hack by done.
    splits; [lia | lia | unfold settings; congruence].
  - split; [done|]. exists (map frames bs). split; [done|]. apply Forall_map. eapply Forall_impl; [exact Hm|]. intros d [_ Hd]. exact Hd.
Qed.

Lemma calls_flush k w : wf k -> output k = true -> updated k <> 0 -> ackcount k < 2147483648 ->
  wp (ikcp_flush k) (calls 0 0 k w) w.
Proof.
  intros. eapply wp_mono; [by apply ikcp_flush_spec|]. intros. by apply flush_post_calls.
Qed.

Lemma calls_update k now w : wf k -> output k = true -> ackcount k < 2147483648 ->
  wp (ikcp_update k now) (calls 0 0 k w) w.
Proof.
  intros Hwf Ho Ha. eapply wp_mono; [by apply ikcp_update_spec|]. cbv beta. intros k' w' Hp. destruct (due k now).
  - apply flush_post_calls in Hp; [exact Hp | destruct Hwf; by constructor].
  - destruct Hp as [-> ->]. apply calls_quiet; [destruct Hwf; by constructor | | done..].
    unfold grows, held. kcp_simpl_goal. splits; lia || done.
Qed.

Lemma calls_input k d w : wf k -> ackcount k + Z.of_nat (length d) / 24 < 2147483648 ->
  wp (ikcp_input k (Some d) (Z.of_nat (length d))) (fun r w' =>
    calls (Z.of_nat (length d)) (Z.of_nat (length d) / 24) k w r.2 w') w.
Proof.
  intros Hwf Ha. assert (wp (ikcp_input k (Some d) (Z.of_nat (length d))) (fun r w' => wf r.2 /\ balanced k w r.2 w') w) as Hw
    by (apply (wf_input alloc_ok); done || lia).
  assert (wp (ikcp_input k (Some d) (Z.of_nat (length d))) (fun _ w' => outputs w' = outputs w) w) as Hq
    by (apply quiet_input; eapply wp_mono; [exact Hw | done]).
  pose proof (wp_and _ _ _ _ Hw (wp_and _ _ _ _ Hq (grows_input k d w Hwf Ha))) as H.
  eapply wp_mono; [exact H|]. intros r w' ([Hwf' Hbal] & Ho & Hg). by apply calls_quiet.
Qed.

Lemma calls_recv k buf len w : wf k -> held k < 2147483648 -> 0 <= len < 2147483648 -> len <= Z.of_nat (length buf) ->
  wp (ikcp_recv k (Some buf) len) (fun r w' => calls 0 0 k w r.1.2 w' /\
    (0 <= r.1.1 -> (waiting r.1.2 < waiting k)%nat) /\
    exists buf', r.2 = Some buf' /\ length buf' = length buf /\ r.1.1 <= len) w.
Proof.
  intros Hwf Hh Hl Hb. assert (Z.of_nat (length (payload (rcv_queue k))) < 2147483648).
  { unfold held in Hh. rewrite payload_app, length_app in Hh. lia. }
  eapply wp_mono; [apply ikcp_recv_spec; [done | done | lia | lia]|]. cbv beta. intros [[r k'] b] w'. unfold recv_post. cbn [fst snd].
  assert (forall v, v < 0 -> calls 0 0 k w k w /\ (0 <= v -> (waiting k < waiting k)%nat) /\ exists buf', Some buf = Some buf' /\ length buf' = length buf /\ v <= len) as Hsame.
  { intros v Hv. split; [apply calls_quiet; [done | unfold grows; splits; lia || done | done..]|]. split; [lia|]. exists buf. splits; done || lia. }
  case_bool_decide as Hq; [intros [[= -> -> ->] ->]; by apply Hsame|].
  destruct (negb _); [intros [[= -> -> ->] ->]; by apply Hsame|].
  destruct (Z.ltb_spec (Z.abs len) (Z.of_nat (length (payload (first_message (rcv_queue k)))))) as [Hs|Hs];
    [intros [[= -> -> ->] ->]; by apply Hsame|].
  rewrite (proj2 (Z.ltb_ge len 0)) by lia.
  intros (k2 & l1 & l2 & Hm & _ & [= -> -> ->] & Hwf' & Hbal & Ho). split; [|split].
  - apply calls_quiet; [done | | done..]. pose proof (held_moved _ _ _ _ Hm) as Em. destruct Hm as (_ & _ & E2).
    assert (held (consumed (length (first_message (rcv_queue k))) k) <= held k).
    { unfold held, consumed. kcp_simpl_goal. rewrite <- (first_message_prefix (rcv_queue k)) at 3.
      rewrite !payload_app, !length_app. lia. }
    assert (grows 0 0 k k2) as Hg.
    { unfold grows. rewrite Em. split; [lia|]. rewrite E2. unfold consumed. kcp_simpl_goal. split; [lia | done]. }
    destruct (_ && _); [exact Hg | exact Hg].
  - intros _. destruct Hm as (Hl2 & _ & E2). unfold consumed in Hl2. cbn [rcv_buf upd upd_rcv_queue upd_nrcv_que] in Hl2. cbn [fst snd].
    match goal with |- (waiting ?x < _)%nat => assert (waiting x = waiting k2) as -> by (by destruct (_ && _)) end.
    rewrite E2. unfold waiting, consumed. kcp_simpl_goal. rewrite Hl2, !length_app, length_drop.
    pose proof (first_message_length (rcv_queue k)). destruct (rcv_queue k) as [|seg q]; [done|]. cbn [first_message].
    destruct (seg_frg seg =? 0); cbn [length]; lia.
  - cbn [option_map]. eexists. split; [reflexivity|]. split; [apply length_splice; lia | lia].
Qed.

Lemma calls_send k buf len w : wf k -> stream k = 0 -> len < 2147483648 -> len <= Z.of_nat (length buf) ->
  wp (ikcp_send k (Some buf) len) (fun r w' => calls 0 0 k w r.2 w' /\ waiting r.2 = waiting k) w.
Proof.
  intros Hwf Hst Hl Hb. eapply wp_mono; [apply (ikcp_send_spec alloc_ok); [done | lia | done]|]. cbv beta.
  intros r w' (Hp & Hwf' & Hbal & Ho).
  assert (grows 0 0 k r.2 /\ waiting r.2 = waiting k) as [Hg Hw]; [|split; [by apply calls_quiet | done]].
  assert (grows 0 0 k k) as Hsame by (unfold grows; splits; lia || done). unfold send_post in Hp.
  destruct (len <? 0); [by subst r|]. destruct Hp as (x & k1 & _ & _ & Hx & Hp). destruct (Hx Hst) as [-> ->].
  destruct (_ && _); [by subst r|]. destruct (_ <=? _); [by subst r|]. destruct Hp as (fs & -> & _). by split.
Qed.
End Grow.
