(* ===== verification/KcpServer.v ===== *)
(** * server.c: the echo server over UDP.

    The system is an argument of each step: the clock readings of the round and what
    [recvfrom] gives (the length, the bytes, the sender's address).  [sendto] is recorded
    with the address that [CientAddr] holds when the datagram leaves. *)
From S2P Require Import Prelude KcpBase KcpCodec KcpSend KcpRecv KcpInput KcpFlush.
From stdpp Require Import base list numbers strings.
Open Scope Z_scope.
Open Scope c_scope.

Definition RECV_BUF : Z := 1500.

(** [kcpObj], with the statics [number] and [first_recv_time]; [addr] is None until
    [init] has filled it, [CientAddr] until a datagram has come; [ko_out] is what was
    handed to [sendto], with the result it gave. *)
Record kcpObj : Type := mkobj {
  port : Z;
  pkcp : ikcpcb;
  ko_world : world;
  sockfd : Z;
  addr : option Z;
  CientAddr : option Z;
  buff : list Z;
  number : Z;
  first_recv_time : Z;
  recv_count : Z;
  ko_out : list (option Z * list Z);
}.
Definition eta_obj (o : kcpObj) : kcpObj :=
  mkobj (port o) (pkcp o) (ko_world o) (sockfd o) (addr o) (CientAddr o) (buff o) (number o) (first_recv_time o)
        (recv_count o) (ko_out o).
#[export] Instance upd_pkcp : Upd pkcp := ltac:(build_upd eta_obj pkcp).
#[export] Instance upd_ko_world : Upd ko_world := ltac:(build_upd eta_obj ko_world).
#[export] Instance upd_sockfd : Upd sockfd := ltac:(build_upd eta_obj sockfd).
#[export] Instance upd_addr : Upd addr := ltac:(build_upd eta_obj addr).
#[export] Instance upd_CientAddr : Upd CientAddr := ltac:(build_upd eta_obj CientAddr).
#[export] Instance upd_buff : Upd buff := ltac:(build_upd eta_obj buff).
#[export] Instance upd_number : Upd number := ltac:(build_upd eta_obj number).
#[export] Instance upd_first_recv_time : Upd first_recv_time := ltac:(build_upd eta_obj first_recv_time).
#[export] Instance upd_recv_count : Upd recv_count := ltac:(build_upd eta_obj recv_count).
#[export] Instance upd_ko_out : Upd ko_out := ltac:(build_upd eta_obj ko_out).

(** What [udp_output] returns for a result of [sendto]; ikcp.c drops it. *)
Definition udp_output_result (n : Z) : Z := if 0 <=? n then n else -1.

(** What the control block has put out, in the order of the calls of [udp_output]. *)
Definition put_out (w : world) : list (list Z) :=
  omap (fun e => match e with EOutput d => Some d | _ => None end) (w_events w).

(** The results of the system calls of a round: [iclock()] and [iclock64()], and
    [recvfrom]: its result, the bytes and the sender. *)
Record round : Type := mkround {
  rd_clock : Z;
  rd_clock64 : Z;
  rd_n : Z;
  rd_data : list Z;
  rd_from : Z;
}.

Section Server.
Context {alloc : Allocator}.

(** A call on the control block: [udp_output] sends to [CientAddr]. *)
Definition with_kcp {A} (m : ikcpcb -> M world (A * ikcpcb)) : M kcpObj A :=
  fun o => match m (pkcp o) (ko_world o) with
  | Ok (a, k) w =>
    Ok a (o<|pkcp := k|><|ko_world := w|>
           <|ko_out := ko_out o ++ map (fun d => (CientAddr o, d)) (drop (length (put_out (ko_world o))) (put_out w))|>)
  | Fault f => Fault f
  end.

(** [init]: the results of [socket] and [bind]; None when it calls [exit]. *)
Definition init (s : Z) (bound : Z) (send : kcpObj) : option kcpObj :=
  let send := send<|sockfd := s|> in
  if sockfd send <? 0 then None
  else
    let send := send<|addr := Some (port send)|> in
    if sockfd send <? 0 then None
    else if bound <? 0 then None
    else Some send.

(** [ikcp_update(send->pkcp, iclock())] *)
Definition server_update (clock : Z) : M kcpObj unit :=
  with_kcp (fun k => let! k := ikcp_update k clock in ret (tt, k)).

(** A datagram of [n] bytes has come; [buf] holds them. *)
Definition on_datagram (r : round) : M kcpObj unit :=
  let n := rd_n r in
  modify (fun o => o<|CientAddr := Some (rd_from r)|><|recv_count := s32 (recv_count o + 1)|>
                    <|first_recv_time := if first_recv_time o =? 0 then rd_clock64 r else first_recv_time o|>);;;
  let! result := with_kcp (fun k => ikcp_input k (Some (rd_data r)) n) in
  if result <? 0 then ret tt
  else
    let! ' (result, buf) := with_kcp (fun k =>
      let! ' (result, k, buf) := ikcp_recv k (Some (rd_data r)) n in ret ((result, default [] buf), k)) in
    if result <? 0 then ret tt
    else
      let send_size := result in
      with_kcp (fun k => ikcp_send k (Some buf) send_size);;;
      with_kcp (fun k => let! k := ikcp_flush k in ret (tt, k));;;
      modify (fun o => o<|number := s32 (number o + 1)|>).

(** One round of [loop]; true when it breaks. *)
Definition server_round (r : round) : M kcpObj bool :=
  server_update (rd_clock r);;;
  if 0 <? rd_n r then on_datagram r;;; ret false
  else if rd_n r =? 0 then ret true
  else ret false.

Fixpoint server_rounds (rs : list round) : M kcpObj unit :=
  match rs with
  | [] => ret tt
  | r :: rs => let! stop := server_round r in if stop then ret tt else server_rounds rs
  end.

(** [loop] *)
Definition loop (clock : Z) (rs : list round) : M kcpObj unit := server_update clock;;; server_rounds rs.

(** [main] up to the loop: the settings of the control block. *)
Definition server_kcp : M world (option ikcpcb) :=
  let! kcp := ikcp_create 1 0 in
  match kcp with
  | None => ret None
  | Some kcp =>
    let! ' (_, kcp) := ikcp_setmtu kcp 1400 in
    let kcp := ikcp_setoutput kcp true in
    let kcp := (ikcp_nodelay kcp 0 10 0 0).2 in
    ret (Some (ikcp_wndsize kcp 128 128).2)
  end.

Definition server_main (p s bound clock : Z) (rs : list round) (w : world) : option (res kcpObj unit) :=
  match server_kcp w with
  | Ok (Some kcp) w =>
    let buff := [83; 101; 114; 118; 101; 114; 58; 72; 101; 108; 108; 111; 33; 0] ++ replicate 1486 0 in
    match init s bound (mkobj p kcp w (-1) None None buff 0 0 0 []) with
    | None => None
    | Some send => Some (loop clock rs send)
    end
  | _ => None
  end.
End Server.
