(* ===== verification/KcpServerProps.v ===== *)
(** * The echo server: it survives every datagram, and what it cannot echo. *)
From S2P Require Import Prelude KcpBase KcpCodec KcpSend KcpRecv KcpInput KcpFlush KcpInv KcpAck KcpInputSpec.
From S2P Require Import KcpRecvSpec KcpSendSpec KcpFlushSpec KcpTimer KcpApi KcpDemo KcpCalls KcpServer.
From Stdlib Require Import Lia.
From stdpp Require Import base list numbers strings.
Open Scope Z_scope.
Open Scope c_scope.

Section Server.
Context {alloc : Allocator} (alloc_ok : forall n size, malloc n size <> None).

(** A block with nothing to send: a flush hands out nothing. *)
Definition idle (k : ikcpcb) : Prop :=
  snd_queue k = [] /\ snd_buf k = [] /\ ackcount k = 0 /\ probe k = 0 /\ rmt_wnd k <> 0.

Lemma bind_ret {A B} (a : A) (f : A -> M world B) : bind (ret a) f = f a.
Proof. reflexivity. Qed.

Lemma idle_probe bit cmd k seg ptr : probe k = 0 -> flush_probe bit cmd k seg ptr = ret (seg, ptr).
Proof. unfold flush_probe. by intros ->. Qed.

Lemma idle_timer k : rmt_wnd k <> 0 -> flush_probe_timer k = k<|ts_probe := 0|><|probe_wait := 0|>.
Proof. intros H%Z.eqb_neq. unfold flush_probe_timer. by rewrite H. Qed.

Lemma idle_control k : idle k ->
  exists k', flush_control k [] = ret (k', []) /\ idle k'.
Proof.
  intros (H1 & H2 & H3 & H4 & H5). exists (k<|ackcount := 0|><|ts_probe := 0|><|probe_wait := 0|><|probe := 0|>).
  split; [|done]. unfold flush_control. rewrite H3. change (Z.to_nat (s32 0)) with 0%nat. cbn [flush_acks].
  rewrite bind_ret. cbv beta iota zeta. rewrite idle_timer by exact H5. rewrite idle_probe by exact H4.
  rewrite bind_ret. cbv beta iota. rewrite idle_probe by exact H4. by rewrite bind_ret.
Qed.

Lemma idle_flush k w : idle k -> wp (ikcp_flush k) (fun k' w' => idle k' /\ w' = w) w.
Proof.
  intros Hi. unfold ikcp_flush. destruct (updated k =? 0); [by wp_step|]. cbv zeta.
  destruct (idle_control k Hi) as (k' & -> & H1 & H2 & H3 & H4 & H5). rewrite bind_ret. cbv beta iota.
  rewrite H1. cbn [flush_move]. rewrite H2. cbn [flush_data]. rewrite bind_ret. cbv beta iota.
  change (0 <? Z.of_nat (length (@nil Z))) with false. cbv iota. rewrite bind_ret. wp_step.
  unfold flush_cwnd. change (negb (0 =? 0)) with false. cbv iota zeta. case_match; done.
Qed.

Lemma idle_update k now w : idle k -> wp (ikcp_update k now) (fun k' w' => idle k' /\ w' = w) w.
Proof. intros Hi. rewrite ikcp_update_eq. destruct (due k now); [by apply idle_flush | by wp_step]. Qed.

(** ** The server *)

(** What the loop keeps: at most [D] bytes held and [A] acknowledgements due, nothing to
    send before an address is known, and every datagram sent to a sender of [froms]. *)
Record sound (froms : list Z) (D A : Z) (o : kcpObj) : Prop := mksound {
  s_wf : wf (pkcp o);
  s_settings : settings (pkcp o) = (true, 0, 1400, 1);
  s_held : held (pkcp o) <= D;
  s_ack : ackcount (pkcp o) <= A;
  s_addr : match CientAddr o with None => idle (pkcp o) | Some a => a ∈ froms end;
  s_out : Forall (fun p => exists a, p.1 = Some a /\ a ∈ froms /\ Z.of_nat (length p.2) <= 1400) (ko_out o);
}.

Lemma sound_le froms D A D' A' o : D <= D' -> A <= A' -> sound froms D A o -> sound froms D' A' o.
Proof. intros ? ? []. constructor; done || lia. Qed.

(** A call on the control block once the address is known. *)
Lemma server_call {B} froms D A n a (m : ikcpcb -> M world (B * ikcpcb)) (R : B -> Prop) (Q : B -> kcpObj -> Prop) o adr :
  sound froms D A o -> CientAddr o = Some adr ->
  wp (m (pkcp o)) (fun r w' => calls n a (pkcp o) (ko_world o) r.2 w' /\ R r.1) (ko_world o) ->
  (forall v o', sound froms (D + n) (A + a) o' -> CientAddr o' = Some adr -> R v -> Q v o') ->
  wp (with_kcp m) Q o.
Proof.
  intros [H1 H2 H3 H4 H5 H6] Hadr ([v k'] & w' & Hr & (Hwf & (G1 & G2 & G3) & _ & ds & Ho & Hds) & HR)%wp_run HQ.
  cbn [fst snd] in *. unfold wp, with_kcp. rewrite Hr. apply HQ; [|done..].
  rewrite Hadr in H5. constructor; cbn; try done; try lia; [congruence | by rewrite Hadr|].
  apply Forall_app. split; [exact H6|]. unfold put_out. fold (outputs w'). fold (outputs (ko_world o)).
  rewrite Ho, drop_app_length, Hadr. apply Forall_map. injection H2 as _ _ Hm _. rewrite Hm in Hds.
  eapply Forall_impl; [exact Hds|]. intros d Hd. by exists adr.
Qed.

Lemma server_update_spec froms D A clock o : sound froms D A o -> A < 2147483648 ->
  wp (server_update clock) (fun _ o' => sound froms D A o' /\ CientAddr o' = CientAddr o) o.
Proof.
  intros Hs HA. unfold server_update. destruct (CientAddr o) as [adr|] eqn:E.
  - eapply (server_call _ _ _ 0 0 _ (fun _ => True) _ _ adr Hs E).
    + wp_step. pose proof Hs as [H1 H2 _ H4 _ _]. injection H2 as H2 _ _ _.
      eapply wp_mono; [apply calls_update; done || lia|]. intros k' w' Hc. by wp_step.
    + intros _ o' Ho' Ha _. rewrite !Z.add_0_r in Ho'. done.
  - pose proof Hs as [H1 H2 H3 H4 H5 H6]. rewrite E in H5. pose proof H2 as Hset. injection H2 as H2 _ _ _.
    pose proof (wp_and _ _ _ _ (idle_update _ clock (ko_world o) H5) (calls_update _ clock (ko_world o) H1 H2 ltac:(lia))) as Hw.
    apply wp_run in Hw as (k' & w' & Hr & (Hi & ->) & Hwf & (G1 & G2 & G3) & _). unfold wp, with_kcp, bind. rewrite Hr. cbn [ret].
    split; [|done]. constructor; cbn; try done; try lia; [congruence | by rewrite E|].
    by rewrite drop_all, app_nil_r.
Qed.

Definition round_ok (r : round) : Prop := rd_n r <= 1500 /\ (0 < rd_n r -> Z.of_nat (length (rd_data r)) = rd_n r).

Lemma on_datagram_spec froms D A r o :
  sound froms D A o -> 0 < rd_n r -> round_ok r -> rd_from r ∈ froms -> D + 1500 < 2147483648 -> A + 62 < 2147483648 ->
  wp (on_datagram r) (fun _ o' => sound froms (D + 1500) (A + 62) o') o.
Proof.
  intros Hs Hn (Hmax & Hlen) Hfr HD HA. specialize (Hlen Hn). unfold on_datagram. wp_step. apply wp_modify.
  match goal with |- wp _ _ ?x => set (o1 := x) end.
  assert (CientAddr o1 = Some (rd_from r)) as Ha by done. assert (sound froms D A o1) as Hs1.
  { destruct Hs as [H1 H2 H3 H4 H5 H6]. by constructor. }
  clearbody o1. clear o Hs. assert (rd_n r / 24 <= 62) as Hdiv by (apply (Z.div_le_mono _ 1500 24); lia).
  pose proof (Z.div_pos (rd_n r) 24 ltac:(lia) ltac:(lia)).
  wp_step. eapply (server_call _ _ _ (rd_n r) (rd_n r / 24) _ (fun _ => True) _ _ _ Hs1 Ha).
  { rewrite <- Hlen. eapply wp_mono; [apply (calls_input alloc_ok); [apply Hs1 | rewrite Hlen; destruct Hs1; lia]|]. intros r' w' Hc. by split. }
  intros v o2 Hs2 Ha2 _. apply (sound_le _ _ _ (D + 1500) (A + 62)) in Hs2; [|lia..].
  destruct (v <? 0); [by wp_step|]. wp_step.
  eapply (server_call _ _ _ 0 0 _ (fun x => x.1 <= rd_n r /\ length x.2 = length (rd_data r)) _ _ _ Hs2 Ha2).
  { wp_step. eapply wp_mono; [apply calls_recv; [apply Hs2 | destruct Hs2; lia | lia | lia]|].
    intros [[v2 k2] b2] w2 (Hc & _ & b & Hb & Hl & Hv). cbn [fst snd] in *. wp_step. subst b2. by split. }
  intros [v2 b2] o3 Hs3 Ha3 [Hv2 Hb2]. rewrite !Z.add_0_r in Hs3. cbn [fst snd] in *.
  destruct (Z.ltb_spec v2 0) as [|Hpos]; [by wp_step|]. wp_step.
  eapply (server_call _ _ _ 0 0 _ (fun _ => True) _ _ _ Hs3 Ha3).
  { pose proof Hs3 as [H1 H2 _ _ _ _]. injection H2 as _ H2 _ _.
    eapply wp_mono; [apply (calls_send alloc_ok); done || lia|]. intros r' w' [Hc _]. by split. }
  intros _ o4 Hs4 Ha4 _. rewrite !Z.add_0_r in Hs4. wp_step.
  eapply (server_call _ _ _ 0 0 _ (fun _ => True) _ _ _ Hs4 Ha4).
  { pose proof Hs4 as [H1 H2 _ H4 _ _]. injection H2 as H2 _ _ _. wp_step.
    destruct (decide (updated (pkcp o4) = 0)) as [E|E].
    - unfold ikcp_flush. rewrite (proj2 (Z.eqb_eq _ _) E). wp_step. wp_step. split; [|done].
      apply calls_quiet; [exact H1 | unfold grows; splits; cbn; lia || done | done..].
    - eapply wp_mono; [apply calls_flush; done || lia|]. intros k' w' Hc. by wp_step. }
  intros _ o5 Hs5 _ _. rewrite !Z.add_0_r in Hs5. apply wp_modify. destruct Hs5. by constructor.
Qed.

Lemma server_rounds_spec froms rs : forall D A o,
  sound froms D A o -> Forall round_ok rs -> (forall r, r ∈ rs -> rd_from r ∈ froms) ->
  D + 1500 * Z.of_nat (length rs) < 2147483648 -> A + 62 * Z.of_nat (length rs) < 2147483648 ->
  wp (server_rounds rs) (fun _ o' => sound froms 2147483647 2147483647 o') o.
Proof.
  induction rs as [|r rs IH]; intros D A o Hs Hrs Hin HD HA; cbn [server_rounds length] in *.
  { wp_step. eapply sound_le; [..|exact Hs]; lia. }
  apply Forall_cons_1 in Hrs as [Hr Hrs]. unfold server_round. wp_step. wp_step.
  eapply wp_mono; [apply server_update_spec; [exact Hs | lia]|]. intros _ o1 [Hs1 _].
  destruct (Z.ltb_spec 0 (rd_n r)) as [Hn|Hn].
  - wp_step. eapply wp_mono; [apply (on_datagram_spec _ _ _ _ _ Hs1 Hn Hr); [apply Hin; by left | lia | lia]|].
    intros ? o2 Hs2. wp_step. apply (IH _ _ _ Hs2); [done | intros; apply Hin; by right | lia | lia].
  - destruct (rd_n r =? 0); wp_step; [wp_step; eapply sound_le; [..|exact Hs1]; lia|].
    apply (IH _ _ _ Hs1); [done | intros; apply Hin; by right | lia | lia].
Qed.

(** The control block of [main]: idle, with an MTU of 1400. *)
Lemma server_kcp_spec w :
  wp server_kcp (fun o _ => exists k, o = Some k /\ wf k /\ settings k = (true, 0, 1400, 1) /\ idle k /\ held k = 0) w.
Proof.
  destruct (wp_run _ _ _ (ikcp_create_spec alloc_ok 1 0 w)) as (o & w1 & Hrun & k & -> & Hwf & Hcv & _).
  assert (stream k = 0 /\ held k = 0 /\ idle k) as (Hst & Hheld & Hidle).
  { unfold ikcp_create, bind in Hrun. repeat (case_match; try done); injection Hrun as <- _; done. }
  unfold server_kcp. wp_step. eapply wp_of_run; [exact Hrun|]. cbv beta iota. wp_step.
  assert (snd_queue k = [] /\ snd_buf k = []) as [E1 E2] by (destruct Hidle as (? & ? & _); done).
  eapply wp_mono; [apply (wp_and _ (fun r _ => wf r.2) (fun r _ => exists b, r = (0, k<|mtu := 1400|><|mss := 1376|><|buffer := b|>)))|].
  - eapply wp_mono; [apply (wf_setmtu alloc_ok k 1400 w1 Hwf); [lia|]; rewrite E1, E2; constructor|]. intros r w2 [H _]. exact H.
  - unfold ikcp_setmtu. change ((1400 <? 50) || (1400 <? IKCP_OVERHEAD)) with false. cbv iota zeta.
    wp_step. apply wp_malloc; [done|]. intros m. cbv iota. wp_step. apply wp_free. wp_step. by eexists.
  - intros [c k1] w2 [Hwf1 (b & [= -> ->])]. cbv beta iota zeta. cbn [snd] in Hwf1. wp_step.
    eexists. split; [reflexivity|].
    match goal with |- context [ikcp_nodelay ?x _ _ _ _] => assert (wf x) as Hx by (destruct Hwf1; by constructor) end.
    split; [by apply wf_wndsize; [apply wf_nodelay | ..]|]. split; [transitivity (true, stream k, 1400, conv k); [done | by rewrite Hst, Hcv]|]. split; [exact Hidle | exact Hheld].
Qed.

Lemma server_init_ok s bound o : 0 <= s -> 0 <= bound ->
  init s bound o = Some (o<|sockfd := s|><|addr := Some (port o)|>).
Proof.
  intros Hs Hb. unfold init. change (sockfd o<|sockfd := s|>) with s. change (sockfd _) with s.
  by rewrite (proj2 (Z.ltb_ge s 0)), (proj2 (Z.ltb_ge bound 0)).
Qed.

(** C22: the echo server survives whatever it is sent.  Datagrams of any content and of up to
    [RECV_BUF] bytes, any clock readings, any senders, over any run whose datagrams stay
    below 2^31 bytes in all: no call faults, and every datagram the server hands to
    [sendto] has at most 1400 bytes and goes to an address it has received one from. *)
Theorem server_total p s bound clock rs w :
  0 <= s -> 0 <= bound -> Forall round_ok rs -> 1500 * Z.of_nat (length rs) < 2147483648 ->
  exists o, server_main p s bound clock rs w = Some (Ok tt o) /\ wf (pkcp o) /\
    Forall (fun q => exists a, q.1 = Some a /\ a ∈ map rd_from rs /\ Z.of_nat (length q.2) <= 1400) (ko_out o).
Proof.
  intros Hs Hb Hrs Hlen. destruct (wp_run _ _ _ (server_kcp_spec w)) as (o & w1 & Hr & k & -> & Hwf & Hset & Hidle & Hheld).
  unfold server_main. rewrite Hr. cbv zeta. rewrite server_init_ok by done.
  match goal with |- context [loop clock rs ?x] => set (o0 := x) end.
  assert (sound (map rd_from rs) 0 0 o0) as Hs0.
  { constructor; cbn; try done; [lia | destruct Hidle as (_ & _ & -> & _); lia]. }
  assert (wp (loop clock rs) (fun _ o' => sound (map rd_from rs) 2147483647 2147483647 o') o0) as Hw.
  { unfold loop. wp_step. eapply wp_mono; [apply (server_update_spec _ _ _ _ _ Hs0); lia|]. intros ? o1 [Hs1 _].
    apply (server_rounds_spec _ _ _ _ _ Hs1); [done | | lia | lia]. intros r Hin. by apply list_elem_of_In, in_map, list_elem_of_In. }
  apply wp_run in Hw as ([] & o' & Hr' & Hs'). exists o'. rewrite Hr'. split; [done|]. split; apply Hs'.
Qed.
End Server.

(** ** Runs *)

(** A client that has sent [cs] and puts out these datagrams; conversation 1. *)
Definition client_datagrams (cs : list call) : list (list Z) :=
  match run_from (ikcp_create 1 0 world0) ([CSetoutput true; CNodelay 1 10 2 1; CWndsize 128 128] ++ cs ++ [CUpdate 0]) with
  | Some (_, w) => outputs w
  | None => []
  end.

Definition round_of (t : Z) (d : list Z) : round := mkround t t (Z.of_nat (length d)) d 7.
Definition no_datagram (t : Z) : round := mkround t t (-1) [] 0.

Definition demo_rounds (d : list (list Z)) : list round :=
  map (round_of 10) d ++ [no_datagram 20; no_datagram 30].

Lemma server_total_witness :
  exists o, server_main 8888 3 0 5 (demo_rounds [seq_bytes 30; [1; 2]]) world0 = Some (Ok tt o) /\ wf (pkcp o) /\
    Forall (fun q => exists a, q.1 = Some a /\ a ∈ map rd_from (demo_rounds [seq_bytes 30; [1; 2]]) /\
      Z.of_nat (length q.2) <= 1400) (ko_out o).
Proof.
  apply (server_total demo_alloc_ok 8888 3 0 5 (demo_rounds [seq_bytes 30; [1; 2]]) world0); [lia | lia | | cbn; lia].
  repeat constructor; cbn; lia.
Defined.

(** What a run shows: the number of echoes, and the bytes that came back in data segments. *)
Definition run_echo (ds : list (list Z)) : option (Z * list Z * Z) :=
  match server_main 8888 3 0 5 (demo_rounds ds) world0 with
  | Some (Ok _ o) => Some (number o, map (fun q => Z.of_nat (length q.2)) (ko_out o), Z.of_nat (length (payload (rcv_queue (pkcp o)))))
  | _ => None
  end.

(** A small message comes back: an acknowledgement of 24 bytes, a header of 24 and its own five. *)
Example server_echoes : run_echo (client_datagrams [CSend (Some [1; 2; 3; 4; 5]) 5]) = Some (1, [53], 0).
Proof. vm_compute. reflexivity. Qed.

(** A message longer than the datagram that completes it stays where it is, and so does
    every message after it: [loop] gives [ikcp_recv] the length of the last datagram as
    the length of its buffer, and [ikcp_recv] answers -3 each time. *)
Example server_large_message_stuck :
  run_echo (client_datagrams [CSend (Some (replicate 2000 9)) 2000; CSend (Some [1; 2; 3; 4; 5]) 5]) = Some (0, [72], 2005).
Proof. vm_compute. reflexivity. Qed.
