(* ===== verification/Delay.v ===== *)
(** * delay.h and delay.c: the objects the KCP client sends to measure the round trip.

    A [t_delay_obj] is the block of bytes it occupies (64-bit little-endian layout), since
    it goes over the network as it lies in memory. *)
From S2P Require Import Prelude KcpBase Latency.
From Stdlib Require Import Lia.
From stdpp Require Import base list numbers.
Open Scope Z_scope.

Definition DELAY_BODY_SIZE : Z := 1300.

(** [seqno] at 0, [send_time] at 8, [recv_time] at 16, [body] at 24; the whole is aligned
    to 8 bytes. *)
Definition sizeof_delay_obj : Z := (24 + DELAY_BODY_SIZE + 7) / 8 * 8.

(** ** Loads and stores of [n] bytes *)

Fixpoint le_bytes (n : nat) (v : Z) : list Z :=
  match n with O => [] | S n => v mod 256 :: le_bytes n (v / 256) end.

Fixpoint le_value (l : list Z) : Z :=
  match l with [] => 0 | b :: l => b + 256 * le_value l end.

Definition load (obj : list Z) (off n : nat) : Z := le_value (take n (drop off obj)).
Definition store (obj : list Z) (off n : nat) (v : Z) : list Z :=
  take off obj ++ le_bytes n v ++ drop (off + n) obj.

Definition seqno (obj : list Z) : Z := load obj 0 2.
Definition send_time (obj : list Z) : Z := s64 (load obj 8 8).
Definition recv_time (obj : list Z) : Z := s64 (load obj 16 8).

(** ** delay.c *)

Definition delay_set_seqno (obj : list Z) (seqno : Z) : list Z := store obj 0 2 (u16 seqno).

(** [t] is what [gettimeofday] gives to [iclock64]. *)
Definition delay_set_send_time (obj : list Z) (t : timeval) : list Z := store obj 8 8 (iclock64 t).

Definition delay_set_seqno_send_time (obj : list Z) (seqno : Z) (t : timeval) : list Z :=
  let obj := store obj 0 2 (u16 seqno) in
  store obj 8 8 (iclock64 t).

Definition delay_set_recv_time (obj : list Z) (t : timeval) : list Z := store obj 16 8 (iclock64 t).

(** The lines that [delay_print_rtt_time] prints for these objects: index, number and time. *)
Definition delay_print_rtt_time (objs : list (list Z)) : list (Z * Z * Z) :=
  imap (fun i obj => (Z.of_nat i, seqno obj, s64 (recv_time obj - send_time obj))) objs.

(** ** What the accessors and the setters have to do with one another *)

Lemma length_le n v : length (le_bytes n v) = n.
Proof. revert v. induction n; intros; cbn; auto. Qed.

Lemma le_value_bytes n v : le_value (le_bytes n v) = v mod 256 ^ Z.of_nat n.
Proof.
  revert v. induction n as [|n IH]; intros v; cbn [le_bytes le_value]; [by rewrite Z.mod_1_r|].
  rewrite IH, Nat2Z.inj_succ, Z.pow_succ_r by lia. symmetry. apply Z.rem_mul_r; lia.
Qed.

Lemma length_store obj off n v : (off + n <= length obj)%nat -> length (store obj off n v) = length obj.
Proof. intros. unfold store. rewrite !length_app, length_le, length_take, length_drop. lia. Qed.

Lemma load_store obj off n v : (off + n <= length obj)%nat -> load (store obj off n v) off n = v mod 256 ^ Z.of_nat n.
Proof.
  intros H. unfold load, store. rewrite drop_app_length' by (rewrite length_take; lia).
  rewrite take_app_length' by (by rewrite length_le). apply le_value_bytes.
Qed.

(** A load sees a store elsewhere only if they overlap. *)
Lemma load_store_other obj off n v off' n' : (off + n <= length obj)%nat -> (off' + n' <= off \/ off + n <= off')%nat ->
  load (store obj off n v) off' n' = load obj off' n'.
Proof.
  intros H Ho. unfold load. f_equal. apply list_eq. intros i. unfold store.
  destruct (decide (i < n')%nat) as [Hi|Hi]; [|by rewrite !lookup_take_ge by lia].
  rewrite !lookup_take_lt, !lookup_drop by lia. destruct Ho as [Ho|Ho].
  - rewrite lookup_app_l by (rewrite length_take; lia). by rewrite lookup_take_lt by lia.
  - rewrite lookup_app_r by (rewrite length_take; lia). rewrite length_take.
    rewrite lookup_app_r by (rewrite length_le; lia). rewrite length_le, lookup_drop. f_equal. lia.
Qed.

(** The time printed for an object that was sent at [t] and came back at [t'] is the
    difference of the two. *)
Lemma delay_rtt obj n t t' :
  Z.of_nat (length obj) = sizeof_delay_obj ->
  -4611686018427387904 <= iclock64 t < 4611686018427387904 -> -4611686018427387904 <= iclock64 t' < 4611686018427387904 ->
  delay_print_rtt_time [delay_set_recv_time (delay_set_seqno_send_time obj n t) t'] = [(0, u16 n, iclock64 t' - iclock64 t)].
Proof.
  intros Hl Ht Ht'. change sizeof_delay_obj with 1328 in Hl. unfold delay_print_rtt_time, delay_set_recv_time, delay_set_seqno_send_time. cbn [imap].
  unfold seqno, recv_time, send_time. set (o1 := store obj 0 2 (u16 n)). set (o2 := store o1 8 8 (iclock64 t)).
  assert (length o1 = 1328%nat) as L1 by (unfold o1; rewrite length_store; lia).
  assert (length o2 = 1328%nat) as L2 by (unfold o2; rewrite length_store; lia).
  rewrite (load_store o2), !(load_store_other o2) by lia. unfold o2. rewrite (load_store o1), (load_store_other o1) by lia.
  unfold o1. rewrite load_store by lia. change (256 ^ Z.of_nat 2) with 65536. change (256 ^ Z.of_nat 8) with 18446744073709551616.
  rewrite !s64_mod, !(s64_id (iclock64 _)), s64_id by lia. fold (u16 (u16 n)). by rewrite (u16_id (u16 n)) by apply u16_range.
Qed.
