(* ===== verification/KcpClient.v ===== *)
(** * client.c: the client that measures the round trip through the echo server.

    The results of the system calls are oracles: [clock_at n] is what the [n]-th reading of
    the clock gives, [recv_at n] what the [n]-th [recvfrom] gives. *)
From S2P Require Import Prelude KcpBase KcpCodec KcpSend KcpRecv KcpInput KcpFlush Latency Delay.
From stdpp Require Import base list numbers strings.
Open Scope Z_scope.
Open Scope c_scope.

Definition DELAY_TEST2_N : nat := 1.
Definition UDP_RECV_BUF_SIZE : Z := 1500.

(** A result of [recvfrom]: the length, the bytes, the sender. *)
Record recvd : Type := mkrecvd { rc_n : Z; rc_data : list Z; rc_from : Z }.

(** [kcpObj] and the locals of [delay_test2]: the block of objects with [recv_objs]; how
    many times the clock was read and [recvfrom] called; the datagrams handed to [sendto]
    with the address of that moment; the lines of [delay_print_rtt_time]. *)
Record kcpObj : Type := mkobj {
  port : Z;
  pkcp : ikcpcb;
  ko_world : world;
  sockfd : Z;
  addr : Z;
  buff : list Z;
  objs : list Z;
  recv_objs : nat;
  n_clock : nat;
  n_recv : nat;
  ko_out : list (Z * list Z);
  printed : list (Z * Z * Z);
}.
Definition eta_obj (o : kcpObj) : kcpObj :=
  mkobj (port o) (pkcp o) (ko_world o) (sockfd o) (addr o) (buff o) (objs o) (recv_objs o) (n_clock o) (n_recv o)
        (ko_out o) (printed o).
#[export] Instance upd_pkcp : Upd pkcp := ltac:(build_upd eta_obj pkcp).
#[export] Instance upd_ko_world : Upd ko_world := ltac:(build_upd eta_obj ko_world).
#[export] Instance upd_sockfd : Upd sockfd := ltac:(build_upd eta_obj sockfd).
#[export] Instance upd_addr : Upd addr := ltac:(build_upd eta_obj addr).
#[export] Instance upd_objs : Upd objs := ltac:(build_upd eta_obj objs).
#[export] Instance upd_recv_objs : Upd recv_objs := ltac:(build_upd eta_obj recv_objs).
#[export] Instance upd_n_clock : Upd n_clock := ltac:(build_upd eta_obj n_clock).
#[export] Instance upd_n_recv : Upd n_recv := ltac:(build_upd eta_obj n_recv).
#[export] Instance upd_ko_out : Upd ko_out := ltac:(build_upd eta_obj ko_out).
#[export] Instance upd_printed : Upd printed := ltac:(build_upd eta_obj printed).

(** How [delay_test2] ends. *)
Inductive ending : Type :=
  | SendFailed (i : nat) (ret : Z)     (** [ikcp_send] refused an object *)
  | WrongSize (ret : Z)                (** what came back is not of the size of an object *)
  | AllBack.                           (** every object came back *)

(** What [udp_output] returns for a result of [sendto]; ikcp.c drops it. *)
Definition udp_output_result (n : Z) : Z := if 0 <=? n then n else -1.

(** What the control block has put out, in the order of the calls of [udp_output]. *)
Definition put_out (w : world) : list (list Z) :=
  omap (fun e => match e with EOutput d => Some d | _ => None end) (w_events w).

Section Client.
Context {alloc : Allocator} (clock_at : nat -> timeval) (recv_at : nat -> recvd).

(** A call on the control block: [udp_output] sends to [addr]. *)
Definition with_kcp {A} (m : ikcpcb -> M world (A * ikcpcb)) : M kcpObj A :=
  fun o => match m (pkcp o) (ko_world o) with
  | Ok (a, k) w =>
    Ok a (o<|pkcp := k|><|ko_world := w|>
           <|ko_out := ko_out o ++ map (fun d => (addr o, d)) (drop (length (put_out (ko_world o))) (put_out w))|>)
  | Fault f => Fault f
  end.

(** A call of the library that does not touch the control block. *)
Definition with_world {A} (m : M world A) : M kcpObj A :=
  fun o => match m (ko_world o) with Ok a w => Ok a (o<|ko_world := w|>) | Fault f => Fault f end.

(** The next reading of the clock. *)
Definition read_clock : M kcpObj timeval :=
  let! o := gets (fun o => o) in
  modify (fun o => o<|n_clock := S (n_clock o)|>);;; ret (clock_at (n_clock o)).

(** [recvfrom]: the sender's address goes to [send->addr]. *)
Definition recvfrom : M kcpObj recvd :=
  let! o := gets (fun o => o) in
  let r := recv_at (n_recv o) in
  modify (fun o => o<|n_recv := S (n_recv o)|><|addr := if rc_n r <? 0 then addr o else rc_from r|>);;; ret r.

(** [ikcp_update(send->pkcp, iclock())] *)
Definition client_update : M kcpObj unit :=
  let! t := read_clock in
  with_kcp (fun k => let! k := ikcp_update k (iclock t) in ret (tt, k)).

(** An access to [objs[i]]. *)
Definition on_obj (i : nat) (f : list Z -> list Z) : M kcpObj unit :=
  let sz := Z.to_nat sizeof_delay_obj in
  let! m := gets objs in
  if (S i * sz <=? length m)%nat
  then modify (fun o => o<|objs := take (i * sz) m ++ f (take sz (drop (i * sz) m)) ++ drop (S i * sz) m|>)
  else throw OutOfBounds.

(** The value of [objs[i].seqno], which some lines print. *)
Definition obj_seqno (i : nat) : M kcpObj Z :=
  let sz := Z.to_nat sizeof_delay_obj in
  let! m := gets objs in
  if (S i * sz <=? length m)%nat then ret (seqno (take sz (drop (i * sz) m))) else throw OutOfBounds.

(** The objects [objs[0]], ..., [objs[num - 1]]. *)
Definition objects (m : list Z) (num : nat) : list (list Z) :=
  let sz := Z.to_nat sizeof_delay_obj in map (fun i => take sz (drop (i * sz) m)) (seq 0 num).

Definition print_rtt (num : nat) : M kcpObj unit :=
  modify (fun o => o<|printed := printed o ++ delay_print_rtt_time (objects (objs o) num)|>).

(** [ikcp_recv(send->pkcp, &objs[i], obj_size)]: the destination runs from
    [objs[i]] to the end of the block. *)
Definition recv_obj (i : nat) : M kcpObj Z :=
  let p := (i * Z.to_nat sizeof_delay_obj)%nat in
  let! m := gets objs in
  let! ' (result, buf) := with_kcp (fun k =>
    let! ' (result, k, buf) := ikcp_recv k (Some (drop p m)) sizeof_delay_obj in
    ret ((result, default [] buf), k)) in
  modify (fun o => o<|objs := take p m ++ buf|>);;; ret result.

(** A datagram has come: true when an object was taken from it, with its size. *)
Definition take_in (i : nat) (r : recvd) : M kcpObj (option Z) :=
  let! result := with_kcp (fun k => ikcp_input k (Some (rc_data r)) (rc_n r)) in
  if result <? 0 then ret None
  else
    let! result := recv_obj i in
    if result <? 0 then ret None else ret (Some result).

(** [delay_set_recv_time(&objs[recv_objs]); recv_objs++;] *)
Definition stamp : M kcpObj unit :=
  let! n := gets recv_objs in
  let! t := read_clock in
  on_obj n (fun b => delay_set_recv_time b t);;;
  modify (fun o => o<|recv_objs := S (recv_objs o)|>).

(** The first loop: [n] objects are left, the next is [i]; an ending when it returns. *)
Fixpoint send_objs (n i : nat) : M kcpObj (option ending) :=
  match n with
  | O => ret None
  | S n =>
    let! t := read_clock in
    on_obj i (fun b => delay_set_seqno_send_time b (Z.of_nat i) t);;;
    let! m := gets objs in
    let! result := with_kcp (fun k =>
      ikcp_send k (Some (drop (i * Z.to_nat sizeof_delay_obj) m)) sizeof_delay_obj) in
    if result <? 0 then obj_seqno i;;; ret (Some (SendFailed i result))
    else
      client_update;;;
      let! r := recvfrom in
      if rc_n r <? 0 then send_objs n (S i)
      else
        let! got := take_in i r in
        match got with
        | None => send_objs n (S i)
        | Some result =>
          stamp;;;
          obj_seqno i;;;
          if negb (result =? sizeof_delay_obj) then obj_seqno i;;; print_rtt i;;; ret (Some (WrongSize result))
          else send_objs n (S i)
        end
  end.

(** The calls of a round of the second loop: the size of an object that was taken out. *)
Definition poll_obj (i : nat) : M kcpObj (option Z) :=
  client_update;;;
  let! r := recvfrom in
  if rc_n r <? 0 then ret None else take_in i r.

(** The second loop, for as many rounds as the fuel; None while it still waits.  The
    complaint about a wrong size reads [objs[i]] when [i] has been incremented. *)
Fixpoint wait_objs (fuel : nat) (i : nat) : M kcpObj (option ending) :=
  if (DELAY_TEST2_N <=? i)%nat then ret (Some AllBack)
  else
    match fuel with
    | O => ret None
    | S fuel =>
      let! got := poll_obj i in
      match got with
      | None => wait_objs fuel i
      | Some result =>
        obj_seqno i;;;
        stamp;;;
        if negb (result =? sizeof_delay_obj)
        then obj_seqno (S i);;; print_rtt (S i);;; ret (Some (WrongSize result))
        else wait_objs fuel (S i)
      end
    end.

(** [delay_test2] up to the second loop: the objects, the first update, the first loop. *)
Definition delay_begin : M kcpObj (option ending) :=
  let! p := with_world (ikcp_malloc (Z.of_nat DELAY_TEST2_N * sizeof_delay_obj)) in
  match p with
  | None => throw NullDeref
  | Some mem =>
    modify (fun o => o<|objs := map (fun i => u8 (mem i)) (seq 0 (DELAY_TEST2_N * Z.to_nat sizeof_delay_obj))|>
                      <|recv_objs := 0%nat|>);;;
    client_update;;;
    send_objs DELAY_TEST2_N 0
  end.

(** What follows the second loop. *)
Definition delay_end (e : option ending) : M kcpObj (option ending) :=
  match e with
  | Some AllBack =>
    with_kcp (fun k => let! k := ikcp_flush k in ret (tt, k));;;
    print_rtt DELAY_TEST2_N;;;
    ret (Some AllBack)
  | _ => ret e
  end.

(** [delay_test2]; None while the second loop still waits. *)
Definition delay_test2 (fuel : nat) : M kcpObj (option ending) :=
  let! r := delay_begin in
  match r with
  | Some e => ret (Some e)
  | None =>
    let! i := gets recv_objs in
    let! e := wait_objs fuel i in
    delay_end e
  end.

(** [init]: the result of [socket] and the server's address; None when it calls [exit]. *)
Definition init (s server : Z) (send : kcpObj) : option kcpObj :=
  let send := send<|sockfd := s|> in
  if sockfd send <? 0 then None else Some (send<|addr := server|>).

(** The control block of [main]. *)
Definition client_kcp : M world (option ikcpcb) :=
  let! kcp := ikcp_create 1 0 in
  match kcp with
  | None => ret None
  | Some kcp =>
    let kcp := ikcp_setoutput kcp true in
    let kcp := (ikcp_nodelay kcp 0 10 0 0).2 in
    let kcp := (ikcp_wndsize kcp 128 128).2 in
    let! ' (_, kcp) := ikcp_setmtu kcp 1400 in
    ret (Some kcp)
  end.

(** The release of the control block, once [delay_test2] has returned. *)
Definition client_end (e : option ending) : M kcpObj (option ending) :=
  match e with
  | None => ret None
  | Some e =>
    let! k := gets pkcp in
    with_world (ikcp_release k);;; ret (Some e)
  end.

(** [loop] and the release. *)
Definition client_run (fuel : nat) : M kcpObj (option ending) :=
  let! e := delay_test2 fuel in client_end e.

Definition client_main (fuel : nat) (p s server : Z) (w : world) : option (res kcpObj (option ending)) :=
  match client_kcp w with
  | Ok (Some kcp) w =>
    match init s server (mkobj p kcp w (-1) 0 (replicate 1500 0) [] 0 0 0 [] []) with
    | None => None
    | Some send => Some (client_run fuel send)
    end
  | _ => None
  end.
End Client.
