(* ===== verification/KcpClientProps.v ===== *)
(** * The client on any datagrams: what it survives, and that it gives back what it took, but
    for the objects. *)
From S2P Require Import Prelude KcpBase KcpCodec KcpSend KcpRecv KcpInput KcpFlush KcpInv KcpAck KcpInputSpec.
From S2P Require Import KcpRecvSpec KcpSendSpec KcpFlushSpec KcpTimer KcpApi KcpDemo KcpCalls KcpServer Latency Delay KcpClient.
From Stdlib Require Import Lia.
From stdpp Require Import base list numbers strings.
Open Scope Z_scope.
Open Scope c_scope.

Definition objs_size : nat := DELAY_TEST2_N * Z.to_nat sizeof_delay_obj.

Lemma sizeof_delay_obj_eq : sizeof_delay_obj = 1328. Proof. reflexivity. Qed.

Section Client.
Context {alloc : Allocator} (alloc_ok : forall n size, malloc n size <> None).
Context (clock_at : nat -> timeval) (recv_at : nat -> recvd).
Context (recv_ok : forall n, rc_n (recv_at n) <= 1500 /\
  (0 <= rc_n (recv_at n) -> Z.of_nat (length (rc_data (recv_at n))) = rc_n (recv_at n))).

(** What the loops keep: at most [D] bytes held and [A] acknowledgements due, [L] blocks
    allocated besides those of the control block. *)
Record csound (L D A : Z) (o : kcpObj) : Prop := mkcsound {
  c_wf : wf (pkcp o);
  c_settings : settings (pkcp o) = (true, 0, 1400, 1);
  c_held : held (pkcp o) <= D;
  c_ack : ackcount (pkcp o) <= A;
  c_live : w_live (ko_world o) - heap (pkcp o) = L;
  c_objs : length (objs o) = objs_size;
  c_out : Forall (fun p => Z.of_nat (length p.2) <= 1400) (ko_out o);
}.

Lemma csound_le L D A D' A' o : D <= D' -> A <= A' -> csound L D A o -> csound L D' A' o.
Proof. intros ? ? []. constructor; done || lia. Qed.

(** Only [pkcp], [ko_world], [objs] and [ko_out] matter. *)
Lemma csound_ext L D A o o' : csound L D A o -> pkcp o' = pkcp o -> ko_world o' = ko_world o -> length (objs o') = length (objs o) ->
  ko_out o' = ko_out o -> csound L D A o'.
Proof. intros [] Ek Ew El Eo. constructor; rewrite ?Ek, ?Ew, ?El, ?Eo; done. Qed.

Lemma client_call {B} L D A n a (m : ikcpcb -> M world (B * ikcpcb)) (R : B -> Prop) (Q : B -> kcpObj -> Prop) o :
  csound L D A o ->
  wp (m (pkcp o)) (fun r w' => calls n a (pkcp o) (ko_world o) r.2 w' /\ R r.1) (ko_world o) ->
  (forall v o', csound L (D + n) (A + a) o' -> recv_objs o' = recv_objs o -> objs o' = objs o -> R v -> Q v o') ->
  wp (with_kcp m) Q o.
Proof.
  intros [H1 H2 H3 H4 H5 H6 H7] ([v k'] & w' & Hr & (Hwf & (G1 & G2 & G3) & Hb & ds & Ho & Hds) & HR)%wp_run HQ.
  cbn [fst snd] in *. unfold wp, with_kcp. rewrite Hr. apply HQ; [|done..].
  unfold balanced in Hb. constructor; cbn; try done; try lia; [congruence|].
  apply Forall_app. split; [exact H7|]. unfold put_out. fold (outputs w'). fold (outputs (ko_world o)).
  rewrite Ho, drop_app_length. apply Forall_map. injection H2 as _ _ Hm _. by rewrite Hm in Hds.
Qed.

Lemma client_update_spec L D A (Q : unit -> kcpObj -> Prop) o : csound L D A o -> A < 2147483648 ->
  (forall o', csound L D A o' -> recv_objs o' = recv_objs o -> objs o' = objs o -> Q tt o') -> wp (client_update clock_at) Q o.
Proof.
  intros Hs HA HQ. unfold client_update, read_clock. wp_step. wp_step. apply wp_gets. wp_step. apply wp_modify. wp_step.
  match goal with |- wp _ _ ?x => assert (csound L D A x) as Hs' by (by eapply csound_ext) end.
  eapply (client_call L D A 0 0 _ (fun _ => True) _ _ Hs').
  - wp_step. pose proof Hs' as [H1 H2 _ H4 _ _ _]. injection H2 as H2 _ _ _.
    eapply wp_mono; [apply calls_update; done || lia|]. intros k' w' Hc. by wp_step.
  - intros [] o' Ho' E1 E2 _. rewrite !Z.add_0_r in Ho'. by apply HQ.
Qed.

Lemma length_delay_set obj n v : (n + 8 <= length obj)%nat -> length (store obj n 8 v) = length obj.
Proof. intros. apply length_store. lia. Qed.

Lemma on_obj_spec L D A i f (Q : unit -> kcpObj -> Prop) o : csound L D A o -> (i < DELAY_TEST2_N)%nat ->
  (forall b, Z.of_nat (length b) = sizeof_delay_obj -> length (f b) = length b) ->
  (forall o', csound L D A o' -> recv_objs o' = recv_objs o -> Q tt o') -> wp (on_obj i f) Q o.
Proof.
  intros Hs Hi Hf HQ. unfold on_obj. wp_step. apply wp_gets. pose proof (c_objs _ _ _ _ Hs) as Hl. unfold objs_size in Hl.
  rewrite sizeof_delay_obj_eq in *. change (Z.to_nat 1328) with 1328%nat in *.
  rewrite (proj2 (Nat.leb_le _ _)) by nia. apply wp_modify. apply HQ; [|done].
  eapply csound_ext; [exact Hs | done.. | | done]. cbn -[Nat.mul].
  rewrite !length_app, Hf by (rewrite length_take, length_drop; nia). rewrite !length_take, !length_drop. nia.
Qed.

Lemma obj_seqno_spec L D A i (Q : Z -> kcpObj -> Prop) o : csound L D A o -> (i < DELAY_TEST2_N)%nat ->
  (forall v, Q v o) -> wp (obj_seqno i) Q o.
Proof.
  intros Hs Hi HQ. unfold obj_seqno. wp_step. apply wp_gets. pose proof (c_objs _ _ _ _ Hs) as Hl. unfold objs_size in Hl.
  rewrite sizeof_delay_obj_eq in *. change (Z.to_nat 1328) with 1328%nat in *. rewrite (proj2 (Nat.leb_le _ _)) by nia.
  by wp_step.
Qed.

Lemma stamp_spec L D A (Q : unit -> kcpObj -> Prop) o : csound L D A o -> (recv_objs o < DELAY_TEST2_N)%nat ->
  (forall o', csound L D A o' -> recv_objs o' = S (recv_objs o) -> Q tt o') -> wp (stamp clock_at) Q o.
Proof.
  intros Hs Hi HQ. unfold stamp, read_clock. wp_step. apply wp_gets. wp_step. wp_step. apply wp_gets. wp_step. apply wp_modify. wp_step. wp_step.
  match goal with |- wp _ _ ?x => assert (csound L D A x) as Hs' by (by eapply csound_ext) end.
  eapply (on_obj_spec L D A _ _ _ _ Hs'); [done | intros b Hb; apply length_delay_set; rewrite sizeof_delay_obj_eq in Hb; lia|].
  intros o' Hs'' E. apply wp_modify. apply HQ; [by eapply csound_ext | cbn; by rewrite E].
Qed.

Lemma recvfrom_spec L D A (Q : recvd -> kcpObj -> Prop) o : csound L D A o ->
  (forall n o', csound L D A o' -> recv_objs o' = recv_objs o -> Q (recv_at n) o') -> wp (recvfrom recv_at) Q o.
Proof.
  intros Hs HQ. unfold recvfrom. wp_step. apply wp_gets. wp_step. apply wp_modify. wp_step. apply HQ; [by eapply csound_ext | done].
Qed.

Lemma recv_obj_spec L D A i (Q : Z -> kcpObj -> Prop) o : csound L D A o -> D < 2147483648 -> (i < DELAY_TEST2_N)%nat ->
  (forall v o', csound L D A o' -> recv_objs o' = recv_objs o -> Q v o') -> wp (recv_obj i) Q o.
Proof.
  intros Hs HD Hi HQ. unfold recv_obj. wp_step. apply wp_gets. wp_step.
  pose proof (c_objs _ _ _ _ Hs) as Hl. unfold objs_size in Hl. rewrite sizeof_delay_obj_eq in *. change (Z.to_nat 1328) with 1328%nat in *.
  assert (1328 <= length (drop (i * 1328) (objs o)))%nat by (rewrite length_drop; nia).
  eapply (client_call L D A 0 0 _ (fun x => length x.2 = length (drop (i * 1328) (objs o))) _ _ Hs).
  { wp_step. eapply wp_mono; [apply calls_recv; [apply Hs | destruct Hs; lia | lia | lia]|].
    intros [[v k'] b'] w' (Hc & _ & b & Hb & Hbl & _). cbn [fst snd] in *. wp_step. subst b'. by split. }
  intros [v b] o1 Hs1 E1 E2 Hb. cbn [snd] in Hb. rewrite !Z.add_0_r in Hs1. wp_step. apply wp_modify. wp_step. apply HQ; [|done].
  eapply csound_ext; [exact Hs1 | done.. | | done]. cbn -[Nat.mul]. rewrite length_app, Hb, E2, length_take, length_drop. lia.
Qed.

Lemma take_in_spec L D A i n (Q : option Z -> kcpObj -> Prop) o : csound L D A o -> D + 1500 < 2147483648 -> A + 62 < 2147483648 ->
  (i < DELAY_TEST2_N)%nat -> 0 <= rc_n (recv_at n) ->
  (forall v o', csound L (D + 1500) (A + 62) o' -> recv_objs o' = recv_objs o -> Q v o') -> wp (take_in i (recv_at n)) Q o.
Proof.
  intros Hs HD HA Hi Hn HQ. destruct (recv_ok n) as [Hmax Hlen]. specialize (Hlen Hn). unfold take_in. wp_step.
  assert (rc_n (recv_at n) / 24 <= 62) as Hdiv by (apply (Z.div_le_mono _ 1500 24); lia).
  pose proof (Z.div_pos (rc_n (recv_at n)) 24 ltac:(lia) ltac:(lia)).
  eapply (client_call L D A (rc_n (recv_at n)) (rc_n (recv_at n) / 24) _ (fun _ => True) _ _ Hs).
  { rewrite <- Hlen. eapply wp_mono; [apply (calls_input alloc_ok); [apply Hs | rewrite Hlen; destruct Hs; lia]|].
    intros r' w' Hc. by split. }
  intros v o1 Hs1 E1 _ _. apply (csound_le _ _ _ (D + 1500) (A + 62)) in Hs1; [|lia..].
  destruct (v <? 0); [wp_step; by apply HQ|]. wp_step. eapply (recv_obj_spec _ _ _ _ _ _ Hs1); [lia | done|].
  intros v2 o2 Hs2 E2. destruct (v2 <? 0); wp_step; (apply HQ; [done | congruence]).
Qed.

(** [n] more rounds fit. *)
Definition room (D A : Z) (n : nat) : Prop := D + 1500 * Z.of_nat n < 2147483648 /\ A + 62 * Z.of_nat n < 2147483648.

Definition good_end (L : Z) (n : nat) (o : kcpObj) : Prop :=
  exists D A, csound L D A o /\ room D A n.

Lemma good_end_0 L n o : good_end L n o -> good_end L 0 o.
Proof. intros (D & A & Hs & Hroom). exists D, A. split; [done | unfold room in *; lia]. Qed.

Lemma send_objs_spec L m n : forall i D A (Q : option ending -> kcpObj -> Prop) o, csound L D A o -> room D A (n + m) ->
  (i + n = DELAY_TEST2_N)%nat -> (recv_objs o <= i)%nat ->
  (forall v o', good_end L m o' -> (recv_objs o' <= DELAY_TEST2_N)%nat -> Q v o') ->
  wp (send_objs clock_at recv_at n i) Q o.
Proof.
  induction n as [|n IH]; intros i D A Q o Hs [HD HA] Hi Hro HQ; cbn [send_objs].
  { wp_step. apply HQ; [by exists D, A | lia]. }
  assert (forall v o', csound L (D + 1500) (A + 62) o' -> (recv_objs o' <= S i)%nat -> Q v o') as Hend.
  { intros v o' Ho' Hr'. apply HQ; [|lia]. exists (D + 1500), (A + 62). split; [done|]. unfold room. lia. }
  unfold read_clock. wp_step. wp_step. apply wp_gets. wp_step. apply wp_modify. wp_step. wp_step.
  match goal with |- wp _ _ ?x => assert (csound L D A x) as Hs' by (by eapply csound_ext) end.
  eapply (on_obj_spec L D A _ _ _ _ Hs'); [lia | |].
  { intros b Hb. rewrite sizeof_delay_obj_eq in Hb. unfold delay_set_seqno_send_time. by rewrite !length_store by (rewrite ?length_store; lia). }
  intros o1 Hs1 E1. cbn in E1. wp_step. apply wp_gets. wp_step.
  pose proof (c_objs _ _ _ _ Hs1) as Hl. unfold objs_size in Hl. rewrite sizeof_delay_obj_eq in *. change (Z.to_nat 1328) with 1328%nat in *.
  eapply (client_call L D A 0 0 _ (fun _ => True) _ _ Hs1).
  { pose proof Hs1 as [H1 H2 _ _ _ _ _]. injection H2 as _ H2 _ _.
    eapply wp_mono; [apply (calls_send alloc_ok); [done | done | lia | rewrite length_drop; nia]|]. intros r w' [Hc _]. by split. }
  intros v o2 Hs2 E2 _ _. rewrite !Z.add_0_r in Hs2.
  destruct (v <? 0).
  { wp_step. apply (obj_seqno_spec _ _ _ _ _ _ Hs2); [lia|]. intros _. wp_step. apply Hend; [eapply csound_le; [..|exact Hs2]; lia | lia]. }
  wp_step. apply (client_update_spec _ _ _ _ _ Hs2); [lia|]. intros o3 Hs3 E3 _.
  wp_step. apply (recvfrom_spec _ _ _ _ _ Hs3). intros k o4 Hs4 E4.
  assert (forall o', csound L (D + 1500) (A + 62) o' -> (recv_objs o' <= S i)%nat -> wp (send_objs clock_at recv_at n (S i)) Q o') as Hgo.
  { intros o' Ho' Hr'. apply (IH _ _ _ _ _ Ho'); [unfold room; lia | lia | done | exact HQ]. }
  destruct (Z.ltb_spec (rc_n (recv_at k)) 0) as [Hneg|Hpos]; [apply Hgo; [eapply csound_le; [..|exact Hs4]; lia | lia]|].
  wp_step. apply (take_in_spec _ _ _ _ _ _ _ Hs4); [lia | lia | lia | done|]. intros [res|] o5 Hs5 E5; [|apply Hgo; [done | lia]].
  wp_step. apply (stamp_spec _ _ _ _ _ Hs5); [lia|]. intros o6 Hs6 E6.
  wp_step. apply (obj_seqno_spec _ _ _ _ _ _ Hs6); [lia|]. intros _. destruct (negb _); [|apply Hgo; [done | lia]].
  wp_step. apply (obj_seqno_spec _ _ _ _ _ _ Hs6); [lia|]. intros _. wp_step. apply wp_modify. wp_step. apply Hend; [by eapply csound_ext | cbn; lia].
Qed.

(** ** The second loop *)

Lemma poll_obj_run L D A i o : csound L D A o -> D + 1500 < 2147483648 -> A + 62 < 2147483648 -> (i < DELAY_TEST2_N)%nat ->
  exists got o', poll_obj clock_at recv_at i o = Ok got o' /\ csound L (D + 1500) (A + 62) o' /\ recv_objs o' = recv_objs o.
Proof.
  intros Hs HD HA Hi. apply wp_run. unfold poll_obj. wp_step. apply (client_update_spec _ _ _ _ _ Hs); [lia|]. intros o1 Hs1 E1 _.
  wp_step. apply (recvfrom_spec _ _ _ _ _ Hs1). intros k o2 Hs2 E2.
  destruct (Z.ltb_spec (rc_n (recv_at k)) 0) as [Hneg|Hpos].
  - wp_step. split; [eapply csound_le; [..|exact Hs2]; lia | congruence].
  - apply (take_in_spec _ _ _ _ _ _ _ Hs2); [lia | lia | done | done|]. intros v o3 Hs3 E3. split; [done | congruence].
Qed.

(** What a round does when an object was taken out. *)
Lemma took_out L D A res fuel o : csound L D A o -> recv_objs o = 0%nat -> exists o', csound L D A o' /\
  (obj_seqno 0;;; stamp clock_at;;;
   if negb (res =? sizeof_delay_obj) then obj_seqno 1;;; print_rtt 1;;; ret (Some (WrongSize res))
   else wait_objs clock_at recv_at fuel 1) o
  = if res =? sizeof_delay_obj then Ok (Some AllBack) o' else Fault OutOfBounds.
Proof.
  intros Hs Hi. assert (wp (obj_seqno 0;;; stamp clock_at) (fun _ => csound L D A) o) as (u & o' & Hr & Hs')%wp_run.
  { wp_step. apply (obj_seqno_spec _ _ _ _ _ _ Hs); [unfold DELAY_TEST2_N; lia|]. intros _.
    apply (stamp_spec _ _ _ _ _ Hs); [unfold DELAY_TEST2_N; lia | done]. }
  exists o'. split; [done|]. unfold bind in Hr |- *. destruct (obj_seqno 0 o) as [v o0|]; [|done]. rewrite Hr.
  destruct (res =? sizeof_delay_obj); cbn [negb]; [by destruct fuel|].
  unfold obj_seqno, bind, gets. rewrite (c_objs _ _ _ _ Hs'). reflexivity.
Qed.

Lemma wait_objs_S fuel o got o' : poll_obj clock_at recv_at 0 o = Ok got o' ->
  wait_objs clock_at recv_at (S fuel) 0 o = match got with
  | None => wait_objs clock_at recv_at fuel 0 o'
  | Some res =>
    (obj_seqno 0;;; stamp clock_at;;;
     if negb (res =? sizeof_delay_obj) then obj_seqno 1;;; print_rtt 1;;; ret (Some (WrongSize res))
     else wait_objs clock_at recv_at fuel 1) o'
  end.
Proof. intros H. cbn [wait_objs]. change (DELAY_TEST2_N <=? 0)%nat with false. cbv iota. unfold bind at 1. rewrite H. by destruct got. Qed.

(** Before round [fuel] an object of another size was taken out. *)
Definition odd_from (fuel : nat) (o : kcpObj) : Prop :=
  exists n o1 o2 res, (n < fuel)%nat /\ wait_objs clock_at recv_at n 0 o = Ok None o1 /\
    poll_obj clock_at recv_at 0 o1 = Ok (Some res) o2 /\ res <> sizeof_delay_obj.

(** The loop returns, or an object of another size makes it read past the array. *)
Lemma wait_objs_runs L fuel : forall D A o, csound L D A o -> room D A fuel -> recv_objs o = 0%nat ->
  (exists v o', wait_objs clock_at recv_at fuel 0 o = Ok v o' /\ good_end L 0 o' /\ ~ odd_from fuel o) \/
  (wait_objs clock_at recv_at fuel 0 o = Fault OutOfBounds /\ odd_from fuel o).
Proof.
  induction fuel as [|fuel IH]; intros D A o Hs [HD HA] Hi.
  { left. exists None, o. split; [done|]. split; [by exists D, A | intros (? & ? & ? & ? & ? & _); lia]. }
  destruct (poll_obj_run L D A 0 o Hs) as (got & o1 & Hp & Hs1 & E1); [lia | lia | unfold DELAY_TEST2_N; lia|].
  assert (odd_from (S fuel) o <-> match got with None => odd_from fuel o1 | Some res => res <> sizeof_delay_obj end) as Hodd.
  { split.
    - intros (n & o2 & o3 & res & Hn & Hw & Hp2 & Hres). destruct n as [|n].
      + injection Hw as <-. rewrite Hp in Hp2. by injection Hp2 as -> ->.
      + rewrite (wait_objs_S _ _ _ _ Hp) in Hw. destruct got as [r|]; [|exists n, o2, o3, res; split; [lia | done]].
        destruct (took_out _ _ _ r n _ Hs1) as (? & _ & E); [congruence|]. rewrite E in Hw. by destruct (r =? _).
    - destruct got as [res|]; [intros Hres; exists 0%nat, o, o1, res; split; [lia | done]|].
      intros (n & o2 & o3 & res & Hn & Hw & Hp2 & Hres). exists (S n), o2, o3, res.
      rewrite (wait_objs_S _ _ _ _ Hp). split; [lia | done]. }
  setoid_rewrite Hodd. rewrite (wait_objs_S _ _ _ _ Hp). destruct got as [res|]; [|by apply (IH (D + 1500) (A + 62)); [|unfold room; lia | congruence]].
  destruct (took_out _ _ _ res fuel _ Hs1) as (o2 & Hs2 & ->); [congruence|].
  destruct (Z.eqb_spec res sizeof_delay_obj); [left | by right]. exists (Some AllBack), o2. split; [done|].
  split; [exists (D + 1500), (A + 62); split; [done | unfold room; lia] | tauto].
Qed.

Lemma flush_calls L D A (Q : unit -> kcpObj -> Prop) o : csound L D A o -> A < 2147483648 ->
  (forall o', csound L D A o' -> Q tt o') -> wp (with_kcp (fun k => let! k := ikcp_flush k in ret (tt, k))) Q o.
Proof.
  intros Hs HA HQ. eapply (client_call L D A 0 0 _ (fun _ => True) _ _ Hs).
  - pose proof Hs as [H1 H2 _ H4 _ _ _]. injection H2 as H2 _ _ _. wp_step.
    destruct (decide (updated (pkcp o) = 0)) as [E|E].
    + unfold ikcp_flush. rewrite (proj2 (Z.eqb_eq _ _) E). wp_step. wp_step. split; [|done].
      apply calls_quiet; [exact H1 | unfold grows; splits; cbn; lia || done | done..].
    + eapply wp_mono; [apply calls_flush; done || lia|]. intros k' w' Hc. by wp_step.
  - intros [] o' Ho' _ _ _. rewrite !Z.add_0_r in Ho'. by apply HQ.
Qed.

(** What [delay_test2] starts from; [L] blocks are allocated besides the control block's. *)
Definition cstart (L : Z) (o : kcpObj) : Prop :=
  wf (pkcp o) /\ settings (pkcp o) = (true, 0, 1400, 1) /\ held (pkcp o) = 0 /\ ackcount (pkcp o) = 0 /\
  w_live (ko_world o) - heap (pkcp o) = L /\ ko_out o = [].

Lemma delay_begin_spec L fuel o : cstart L o -> 1500 * (Z.of_nat DELAY_TEST2_N + Z.of_nat fuel) < 2147483648 ->
  wp (delay_begin clock_at recv_at) (fun _ o' => good_end (L + 1) fuel o' /\ (recv_objs o' <= DELAY_TEST2_N)%nat) o.
Proof.
  intros (H1 & H2 & H3 & H4 & H5 & H6) Hf. unfold delay_begin. wp_step. unfold with_world, wp, ikcp_malloc.
  destruct (malloc _ _) as [mem|] eqn:Em; [|by apply alloc_ok in Em].
  match goal with |- match (modify ?f ;;; ?m) ?x with Ok a w' => @?Q a w' | _ => _ end => change (wp (modify f ;;; m) Q x) end.
  wp_step. apply wp_modify. match goal with |- wp _ _ ?x => assert (csound (L + 1) 0 0 x) as Hs end.
  { constructor; cbn -[seq]; try done; first [lia | by rewrite length_map, length_seq | by rewrite H6]. }
  wp_step. apply (client_update_spec _ _ _ _ _ Hs); [lia|]. intros o1 Hs1 E1 _.
  apply (send_objs_spec _ fuel _ _ _ _ _ _ Hs1); [unfold room; lia | done | cbn in E1; lia | done].
Qed.

(** What follows the second loop. *)
Lemma delay_end_spec L e o : good_end L 0 o ->
  wp (delay_end e) (fun e' o' => good_end L 0 o' /\ e' = e /\ (e = None -> o' = o)) o.
Proof.
  intros Hg. pose proof Hg as (D & A & Hs & Hroom). destruct e as [[| |]|]; cbn [delay_end]; try by wp_step.
  wp_step. apply (flush_calls _ _ _ _ _ Hs); [unfold room in *; lia|].
  intros o4 Hs4. wp_step. apply wp_modify. wp_step. split; [|done]. exists D, A. split; [by eapply csound_ext | done].
Qed.

(** The release. *)
Lemma client_end_spec L e o : good_end L 0 o ->
  wp (client_end e) (fun e' o' => e' = e /\ (e = None -> o' = o) /\
    Forall (fun q => Z.of_nat (length q.2) <= 1400) (ko_out o') /\ (e <> None -> w_live (ko_world o') = L)) o.
Proof.
  intros (D & A & [G1 G2 G3 G4 G5 G6 G7] & _). destruct e as [e|]; cbn [client_end]; [|by wp_step].
  wp_step. apply wp_gets. wp_step.
  destruct (wp_run _ _ _ (ikcp_release_spec (pkcp o) (ko_world o))) as ([] & w2 & Hr2 & Hl2 & _).
  unfold with_world. eapply wp_of_run; [by rewrite Hr2|]. wp_step. cbn. splits; [done | done | exact G7 | intros _; lia].
Qed.

Lemma loop_end_spec L e o : good_end L 0 o ->
  wp (let! e := delay_end e in client_end e) (fun e' o' => e' = e /\ (e = None -> o' = o) /\
    Forall (fun q => Z.of_nat (length q.2) <= 1400) (ko_out o') /\ (e <> None -> w_live (ko_world o') = L)) o.
Proof.
  intros Hg. wp_step. eapply wp_mono; [by apply (delay_end_spec L)|]. cbv beta. intros e1 o1 (Hg1 & -> & Ho1).
  eapply wp_mono; [by apply (client_end_spec L)|]. cbv beta. intros e2 o2 (-> & Ho2 & Hrest).
  split; [done|]. split; [intros ->; by rewrite Ho2, Ho1 | done].
Qed.

(** The settings of [main] before the MTU. *)
Lemma client_settings k : wf k -> let k1 := (ikcp_wndsize (ikcp_nodelay (ikcp_setoutput k true) 0 10 0 0).2 128 128).2 in
  wf k1 /\ heap k1 = heap k /\ settings k1 = (true, stream k, mtu k, conv k) /\ held k1 = held k /\ ackcount k1 = ackcount k /\
    snd_buf k1 = snd_buf k /\ snd_queue k1 = snd_queue k.
Proof.
  intros Hwf. assert (wf (ikcp_setoutput k true)) as Hw0 by (destruct Hwf; by constructor).
  destruct (wf_nodelay _ 0 10 0 0 Hw0) as [Hw1 Hp1]. destruct (wf_wndsize _ 128 128 Hw1) as [Hw2 Hp2]; [lia..|].
  cbv zeta. split; [exact Hw2|]. split; [by rewrite Hp2, Hp1 | done].
Qed.

Lemma client_kcp_spec w :
  wp client_kcp (fun r w' => exists k, r = Some k /\ wf k /\ settings k = (true, 0, 1400, 1) /\ held k = 0 /\ ackcount k = 0 /\
    w_live w' - heap k = w_live w) w.
Proof.
  destruct (wp_run _ _ _ (ikcp_create_spec alloc_ok 1 0 w)) as (o & w1 & Hrun & k & -> & Hwf & Hcv & Hlive & _).
  assert (stream k = 0 /\ held k = 0 /\ ackcount k = 0 /\ snd_queue k = [] /\ snd_buf k = []) as (Hst & Hheld & Ha & E1 & E2).
  { unfold ikcp_create, bind in Hrun. repeat (case_match; try done); injection Hrun as <- _; done. }
  unfold client_kcp. wp_step. eapply wp_of_run; [exact Hrun|]. cbv beta iota zeta.
  pose proof (client_settings k Hwf) as (Hwf1 & Hh1 & F1 & F2 & F3 & F4 & F5).
  revert Hwf1 Hh1 F1 F2 F3 F4 F5. generalize (ikcp_wndsize (ikcp_nodelay (ikcp_setoutput k true) 0 10 0 0).2 128 128).2.
  intros k1 Hwf1 Hh1 F1 F2 F3 F4 F5. wp_step. eapply wp_mono; [apply (wp_and _
    (fun r w' => wf r.2 /\ w_live w' - heap r.2 = w_live w1 - heap k1) (fun r _ => exists b, r = (0, k1<|mtu := 1400|><|mss := 1376|><|buffer := b|>)))|].
  - eapply wp_mono; [apply (wf_setmtu alloc_ok k1 1400 w1 Hwf1); [lia | rewrite F4, F5, E1, E2; constructor]|].
    intros r w2 (Hr1 & Hr2 & _). by split.
  - unfold ikcp_setmtu. change ((1400 <? 50) || (1400 <? IKCP_OVERHEAD)) with false. cbv iota zeta.
    wp_step. apply wp_malloc; [done|]. intros m. cbv iota. wp_step. apply wp_free. wp_step. by eexists.
  - intros [c k2] w2 [[Hwf2 Hl2] (b & [= -> ->])]. cbv beta iota zeta. cbn [snd] in *. wp_step.
    eexists. split; [reflexivity|]. split; [exact Hwf2|]. split.
    { unfold settings in *. injection F1 as G1 G2 _ G3. cbn. by rewrite G1, G2, G3, Hst, Hcv. }
    split; [transitivity (held k1); [reflexivity | congruence]|]. split; [transitivity (ackcount k1); [reflexivity | congruence] | lia].
Qed.

(** Before round [fuel] of the second loop an object of another size was taken out. *)
Definition odd_answer (fuel : nat) (p s server : Z) (w : world) : Prop :=
  exists n o o' res, (n < fuel)%nat /\ client_main clock_at recv_at n p s server w = Some (Ok None o) /\
    poll_obj clock_at recv_at 0 o = Ok (Some res) o' /\ res <> sizeof_delay_obj.

(** What [main] does when its control block and its socket are there, and what the loop of
    [client_run] starts from. *)
Lemma client_main_run p s server w : 0 <= s -> exists o, cstart (w_live w) o /\
  forall fuel, client_main clock_at recv_at fuel p s server w = Some (client_run clock_at recv_at fuel o).
Proof.
  intros Hs. destruct (wp_run _ _ _ (client_kcp_spec w)) as (r & w1 & Hr & k & -> & H1 & H2 & H3 & H4 & H5).
  eexists. split; [|intros fuel; unfold client_main; rewrite Hr; unfold init;
    match goal with |- context [sockfd ?x <? 0] => change (sockfd x) with s end;
    rewrite (proj2 (Z.ltb_ge s 0)) by done; reflexivity].
  done.
Qed.

(** The run from there does not get to the second loop, or it is that loop and what
    follows it. *)
Lemma client_run_cases L fuel o : cstart L o -> 1500 * (Z.of_nat DELAY_TEST2_N + Z.of_nat fuel) < 2147483648 ->
  exists o1, good_end (L + 1) fuel o1 /\
    ((exists e, forall n, client_run clock_at recv_at n o = client_end (Some e) o1) \/
     (forall n, client_run clock_at recv_at n o = (let! e := delay_end (Some AllBack) in client_end e) o1) \/
     recv_objs o1 = 0%nat /\ forall n, client_run clock_at recv_at n o =
       (let! e := wait_objs clock_at recv_at n 0 in let! e := delay_end e in client_end e) o1).
Proof.
  intros Hs Hf. destruct (wp_run _ _ _ (delay_begin_spec L fuel o Hs Hf)) as (r & o1 & Hr & Hg & Hn).
  exists o1. split; [exact Hg|].
  assert (forall n, client_run clock_at recv_at n o = (let! e := (match r with
    | Some e => ret (Some e)
    | None => let! i := gets recv_objs in let! e := wait_objs clock_at recv_at n i in delay_end e
    end) in client_end e) o1) as E by (intros n; unfold client_run, delay_test2, bind at 1 2; by rewrite Hr).
  destruct r as [e|]; [left; by exists e|]. right. destruct (recv_objs o1) as [|[|]] eqn:En.
  - right. split; [done|]. intros n. rewrite E. unfold bind, gets. cbv beta iota. rewrite En. by destruct (wait_objs _ _ _ _ _).
  - left. intros n. rewrite E. unfold bind, gets. cbv beta iota. rewrite En. by destruct n.
  - unfold DELAY_TEST2_N in Hn. lia.
Qed.

(** A run that never waits takes no odd answer. *)
Lemma odd_answer_never fuel p s server w e o :
  (forall n, client_main clock_at recv_at n p s server w = Some (Ok (Some e) o)) -> ~ odd_answer fuel p s server w.
Proof. intros Hr (n & o1 & o2 & res & _ & H & _). by rewrite Hr in H. Qed.

(** A run that waits finds an odd answer exactly if its loop does. *)
Lemma odd_answer_loop L fuel p s server w o o1 : good_end L fuel o1 -> recv_objs o1 = 0%nat ->
  (forall n, client_main clock_at recv_at n p s server w = Some (client_run clock_at recv_at n o)) ->
  (forall n, client_run clock_at recv_at n o = (let! e := wait_objs clock_at recv_at n 0 in let! e := delay_end e in client_end e) o1) ->
  odd_answer fuel p s server w <-> odd_from fuel o1.
Proof.
  intros (D & A & Hs & Hroom) Hn E1 E2. assert (forall n o', (n < fuel)%nat ->
    client_main clock_at recv_at n p s server w = Some (Ok None o') <-> wait_objs clock_at recv_at n 0 o1 = Ok None o') as E.
  { intros n o' Hlt. rewrite E1, E2. unfold bind at 1.
    destruct (wait_objs_runs L n D A o1 Hs) as [(v & o2 & -> & Hg & _)|[-> _]]; [unfold room in *; lia | done | | done].
    destruct (wp_run _ _ _ (loop_end_spec L v o2 Hg)) as (e' & o3 & -> & -> & Ho & _).
    split; [intros [= -> ->]; by rewrite Ho | intros [= -> ->]; by rewrite Ho]. }
  split; intros (n & o2 & o3 & res & Hlt & H & Hrest); exists n, o2, o3, res; (split; [done|]); (split; [by apply E | done]).
Qed.

(** C23: the client on any datagrams.  Whatever the clock shows and whatever datagrams of
    up to [UDP_RECV_BUF_SIZE] bytes come in, from whomever, over any run whose datagrams
    stay below 2^31 bytes in all, with memory to allocate: no datagram it sends exceeds
    1400 bytes, the objects that [ikcp_recv] writes stay in their block, and when it has
    finished every block it took was freed except the array of objects.  A run faults in
    exactly one case: an object of another size (a shorter one) comes out in the second
    loop, whose complaint then reads [objs[i]] past the end of the array. *)
Theorem client_total fuel p s server w :
  0 <= s -> 1500 * (Z.of_nat DELAY_TEST2_N + Z.of_nat fuel) < 2147483648 ->
  match client_main clock_at recv_at fuel p s server w with
  | Some (Ok e o) => Forall (fun q => Z.of_nat (length q.2) <= 1400) (ko_out o) /\
      (e <> None -> w_live (ko_world o) = w_live w + 1) /\ ~ odd_answer fuel p s server w
  | Some (Fault f) => f = OutOfBounds /\ odd_answer fuel p s server w
  | None => False
  end.
Proof.
  intros Hs Hf. destruct (client_main_run p s server w Hs) as (o & Hstart & Erun). rewrite Erun.
  destruct (client_run_cases _ fuel o Hstart Hf) as (o1 & Hg & [[e E]|[E|[Hn E]]]);
    pose proof (good_end_0 _ _ _ Hg) as Hg0.
  - destruct (wp_run _ _ _ (client_end_spec _ (Some e) _ Hg0)) as (e' & o2 & Er & -> & _ & H1 & H2).
    rewrite E, Er. splits; [done | done |]. apply (odd_answer_never fuel p s server w e o2). intros n. by rewrite Erun, E, Er.
  - destruct (wp_run _ _ _ (loop_end_spec _ (Some AllBack) _ Hg0)) as (e' & o2 & Er & -> & _ & H1 & H2).
    rewrite E, Er. splits; [done | done |]. apply (odd_answer_never fuel p s server w AllBack o2). intros n. by rewrite Erun, E, Er.
  - pose proof Hg as (D & A & Hs1 & Hroom). pose proof (odd_answer_loop _ fuel p s server w o o1 Hg Hn Erun E) as Hodd.
    rewrite E. unfold bind at 1. destruct (wait_objs_runs _ fuel D A o1 Hs1 Hroom Hn) as [(v & o2 & -> & Hg2 & Hno)|[-> Hyes]].
    + destruct (wp_run _ _ _ (loop_end_spec _ v _ Hg2)) as (e' & o3 & -> & -> & _ & H1 & H2). by rewrite Hodd.
    + by rewrite Hodd.
Qed.
End Client.

(** ** A round trip through the server *)

(** A clock that shows a millisecond more at each reading. *)
Definition ms_clock (n : nat) : timeval := mktimeval 1000 (Z.of_nat n * 1000).

Definition nothing (n : nat) : recvd := mkrecvd (-1) [] 0.

(** [recvfrom] gives [d] at call [at_] and nothing otherwise. *)
Definition deliver (at_ : nat) (d : list Z) (n : nat) : recvd :=
  if (n =? at_)%nat then mkrecvd (Z.of_nat (length d)) d 9 else nothing n.

Lemma client_total_witness :
  match client_main ms_clock (deliver 3 (seq_bytes 100)) 50 8888 3 9 world0 with
  | Some (Ok e o) => Forall (fun q => Z.of_nat (length q.2) <= 1400) (ko_out o) /\
      (e <> None -> w_live (ko_world o) = w_live world0 + 1) /\ ~ odd_answer ms_clock (deliver 3 (seq_bytes 100)) 50 8888 3 9 world0
  | Some (Fault f) => f = OutOfBounds /\ odd_answer ms_clock (deliver 3 (seq_bytes 100)) 50 8888 3 9 world0
  | None => False
  end.
Proof.
  apply (client_total demo_alloc_ok ms_clock (deliver 3 (seq_bytes 100))); [|lia | unfold DELAY_TEST2_N; lia].
  intros n. unfold deliver. destruct (n =? 3)%nat; cbn; [split; [lia | reflexivity] | split; lia].
Defined.

(** What the client has sent after that many rounds without an answer. *)
Definition client_sent (rounds : nat) : list (list Z) :=
  match client_main ms_clock nothing rounds 8888 3 9 world0 with Some (Ok _ o) => map snd (ko_out o) | _ => [] end.

(** The answer of the server. *)
Definition server_answer (ds : list (list Z)) : list (list Z) :=
  match KcpServer.server_main 8888 3 0 5 (map (fun d => KcpServer.mkround 10 10 (Z.of_nat (length d)) d 7) ds) world0 with
  | Some (Ok _ o) => map snd (KcpServer.ko_out o)
  | _ => []
  end.

(** The object is sent at time 1000001; the answer, which the [recvfrom] numbered 30 gives, is
    read at time 1000033: one object back, after 32 ms. *)
Example client_rtt :
  match server_answer (client_sent 20) with
  | [d] => match client_main ms_clock (deliver 30 d) 50 8888 3 9 world0 with
           | Some (Ok e o) => Some (e, printed o, length d)
           | _ => None
           end
  | _ => None
  end = Some (Some AllBack, [(0, 0, 32)], 1376%nat).
Proof. vm_compute. reflexivity. Qed.

(** A message of five bytes in place of the object: taken in by the second loop, it makes
    the client read past its array; taken in by the first, it is only reported. *)
Definition five_bytes : list Z :=
  [1; 0; 0; 0; 81; 0; 128; 0; 0; 0; 0; 0; 0; 0; 0; 0; 0; 0; 0; 0; 5; 0; 0; 0; 104; 101; 108; 108; 111].

Example client_odd_answer :
  client_main ms_clock (deliver 3 five_bytes) 50 8888 3 9 world0 = Some (Fault OutOfBounds) /\
  match client_main ms_clock (deliver 0 five_bytes) 50 8888 3 9 world0 with
  | Some (Ok e o) => e = Some (WrongSize 5)
  | _ => False
  end.
Proof. vm_compute. split; reflexivity. Qed.
