(* ===== verification/KcpSession.v ===== *)
(** * kcp_session.h and kcp_session.cc: a control block with a peer and a heartbeat.

    The methods run over [net]: what the control blocks use of the C library, and what
    [UdpSocket::SendTo] was given.  Each method holds the mutex of the session for the one
    call it makes on the control block; the threads that share a session interleave whole
    methods. *)
From S2P Require Import Prelude KcpBase KcpCodec KcpSend KcpRecv KcpInput KcpFlush CLib.
From stdpp Require Import base list numbers strings.
Open Scope Z_scope.
Open Scope c_scope.

(** [struct sockaddr_in]: the four octets of the address, and the port in network order. *)
Record sockaddr_in : Type := mkaddr { sin_addr : list Z; sin_port : Z }.
#[export] Instance sockaddr_eq_dec : EqDecision sockaddr_in.
Proof. solve_decision. Defined.

Record KcpOpt : Type := mkopt {
  is_server : bool;
  keep_alive_timeout : Z;
  opt_conv : Z;
  opt_sndwnd : Z;
  opt_rcvwnd : Z;
  opt_nodelay : Z;
  opt_interval : Z;
  opt_resend : Z;
  opt_nc : Z;
}.

(** [KcpOpt()]: the defaults of the members. *)
Definition default_KcpOpt : KcpOpt := mkopt true 5000 0 32 128 0 10 0 0.

Record KcpSession : Type := mksession {
  kcp_opt_ : KcpOpt;
  addr_ : sockaddr_in;
  kcp_ : ikcpcb;
  recv_latest_time : Z;
  send_latest_time : Z;
}.
Definition eta_session (s : KcpSession) : KcpSession :=
  mksession (kcp_opt_ s) (addr_ s) (kcp_ s) (recv_latest_time s) (send_latest_time s).
#[export] Instance upd_addr_ : Upd addr_ := ltac:(build_upd eta_session addr_).
#[export] Instance upd_kcp_ : Upd kcp_ := ltac:(build_upd eta_session kcp_).
#[export] Instance upd_recv_latest_time : Upd recv_latest_time := ltac:(build_upd eta_session recv_latest_time).
#[export] Instance upd_send_latest_time : Upd send_latest_time := ltac:(build_upd eta_session send_latest_time).

Record net : Type := mknet { n_world : world; n_sent : list (sockaddr_in * list Z) }.

(** What the control blocks have put out. *)
Definition put_out (w : world) : list (list Z) :=
  omap (fun e => match e with EOutput d => Some d | _ => None end) (w_events w).

(** [KCP_KEEP_ALIVE_CMD], with the terminator that [sizeof] counts. *)
Definition KCP_KEEP_ALIVE_CMD : list Z := text "KCP_KEEP_ALIVE_CMD" ++ [0].

Section Session.
Context {alloc : Allocator}.

(** A call on the control block; [udp_output] sends to the session's address. *)
Definition on_kcp {A} (s : KcpSession) (m : ikcpcb -> M world (A * ikcpcb)) : M net (A * KcpSession) :=
  fun n => match m (kcp_ s) (n_world n) with
  | Ok (a, k) w =>
    Ok (a, s<|kcp_ := k|>)
       (mknet w (n_sent n ++ map (fun d => (addr_ s, d)) (drop (length (put_out (n_world n))) (put_out w))))
  | Fault f => Fault f
  end.

(** A call that creates or releases a control block. *)
Definition on_world {A} (m : M world A) : M net A :=
  fun n => match m (n_world n) with Ok a w => Ok a (mknet w (n_sent n)) | Fault f => Fault f end.

(** The constructor. *)
Definition new_KcpSession (opt : KcpOpt) (addr : sockaddr_in) : M net KcpSession :=
  let! k := on_world (ikcp_create (opt_conv opt) 0) in
  match k with
  | None => throw NullDeref
  | Some k =>
    let k := ikcp_setoutput k true in
    let k := (ikcp_wndsize k (opt_sndwnd opt) (opt_rcvwnd opt)).2 in
    let k := (ikcp_nodelay k (opt_nodelay opt) (opt_interval opt) (opt_resend opt) (opt_nc opt)).2 in
    ret (mksession opt addr k 0 0)
  end.

(** The destructor. *)
Definition delete_KcpSession (s : KcpSession) : M net unit := on_world (ikcp_release (kcp_ s)).

Definition GetAddrToString (s : KcpSession) : list Z :=
  match map (decimal_of 20) (sin_addr (addr_ s)) with
  | [] => []
  | d :: ds => d ++ concat (map (fun d => text "." ++ d) ds)
  end ++ text ":" ++ decimal_of 20 (ntohs (sin_port (addr_ s))).

Definition SetAddr (s : KcpSession) (addr : sockaddr_in) : KcpSession := s<|addr_ := addr|>.
Definition SetKeepAlive (s : KcpSession) (current : Z) : KcpSession := s<|recv_latest_time := current|>.

Definition Input (s : KcpSession) (data : list Z) (size : Z) : M net (Z * KcpSession) :=
  on_kcp s (fun k => ikcp_input k (Some data) size).

Definition Send (s : KcpSession) (data : list Z) (size : Z) : M net (Z * KcpSession) :=
  on_kcp s (fun k => ikcp_send k (Some data) (s32 size)).

(** The result, what the buffer holds afterwards, the session. *)
Definition Recv (s : KcpSession) (buf : list Z) (size : Z) : M net (Z * list Z * KcpSession) :=
  on_kcp s (fun k => let! ' (r, k, b) := ikcp_recv k (Some buf) (s32 size) in ret ((r, default [] b), k)).

(** True when the peer has gone. *)
Definition Update (s : KcpSession) (current : Z) : M net (bool * KcpSession) :=
  let! ' (_, s) := on_kcp s (fun k => let! k := ikcp_update k (u32 current) in ret (tt, k)) in
  let s := if recv_latest_time s =? 0 then s<|recv_latest_time := current|> else s in
  let timeout := keep_alive_timeout (kcp_opt_ s) in
  if is_server (kcp_opt_ s) && (timeout <? current - recv_latest_time s) then ret (true, s)
  else if negb (is_server (kcp_opt_ s)) && (timeout <? current - send_latest_time s) then
    let s := s<|send_latest_time := current|> in
    let! ' (_, s) := Send s KCP_KEEP_ALIVE_CMD (Z.of_nat (length KCP_KEEP_ALIVE_CMD)) in
    ret (false, s)
  else ret (false, s).
End Session.
