(* ===== verification/KcpSessionSpec.v ===== *)
(** * What the methods of a session may do. *)
From S2P Require Import Prelude KcpBase KcpCodec KcpSend KcpRecv KcpInput KcpFlush KcpInv KcpApi KcpStream KcpCalls KcpRecvSpec.
From S2P Require Import CLib KcpSession.
From Stdlib Require Import Lia.
From stdpp Require Import base list numbers strings.
Open Scope Z_scope.
Open Scope c_scope.

Section Spec.
Context {alloc : Allocator} (alloc_ok : forall n size, malloc n size <> None).
Context (froms : list sockaddr_in).

(** A session at peace: its control block, and a peer that is one of [froms]; at most [D]
    bytes held and [A] acknowledgements due. *)
Record session_ok (D A : Z) (s : KcpSession) : Prop := mksession_ok {
  s_wf : wf (kcp_ s);
  s_settings : settings (kcp_ s) = (true, 0, 1400, opt_conv (kcp_opt_ s));
  s_held : held (kcp_ s) <= D;
  s_ack : ackcount (kcp_ s) <= A;
  s_from : addr_ s ∈ froms;
}.

Lemma session_ok_le D A D' A' s : D <= D' -> A <= A' -> session_ok D A s -> session_ok D' A' s.
Proof. intros ? ? []. constructor; done || lia. Qed.

(** What was sent since: to peers of [froms], in datagrams that fit the MTU. *)
Definition fit (p : sockaddr_in * list Z) : Prop := p.1 ∈ froms /\ Z.of_nat (length p.2) <= 1400.
Definition sent_more (n n' : net) : Prop := exists ds, n_sent n' = n_sent n ++ ds /\ Forall fit ds.

Lemma sent_more_refl n : sent_more n n.
Proof. exists []. by rewrite app_nil_r. Qed.

Lemma sent_more_trans n1 n2 n3 : sent_more n1 n2 -> sent_more n2 n3 -> sent_more n1 n3.
Proof.
  intros (d1 & E1 & F1) (d2 & E2 & F2). exists (d1 ++ d2). rewrite E2, E1, (assoc_L (++)). split; [done | by apply Forall_app].
Qed.

(** A method: the session stays at peace, keeps its identity, and accounts for its blocks. *)
Record method (D A : Z) (s : KcpSession) (n : net) (s' : KcpSession) (n' : net) : Prop := mkmethod {
  m_ok : session_ok D A s';
  m_opt : kcp_opt_ s' = kcp_opt_ s;
  m_addr : addr_ s' = addr_ s;
  m_live : w_live (n_world n') - heap (kcp_ s') = w_live (n_world n) - heap (kcp_ s);
  m_sent : sent_more n n';
}.

Lemma method_trans D A D' A' s n s1 n1 s2 n2 : method D A s n s1 n1 -> method D' A' s1 n1 s2 n2 -> method D' A' s n s2 n2.
Proof. intros [] []. constructor; first [done | congruence | lia | by eapply sent_more_trans]. Qed.

Lemma on_kcp_spec {B} D A i a (m : ikcpcb -> M world (B * ikcpcb)) (R : B -> ikcpcb -> Prop) s n :
  session_ok D A s ->
  wp (m (kcp_ s)) (fun r w' => calls i a (kcp_ s) (n_world n) r.2 w' /\ R r.1 r.2) (n_world n) ->
  wp (on_kcp s m) (fun r n' => method (D + i) (A + a) s n r.2 n' /\ R r.1 (kcp_ r.2) /\
    recv_latest_time r.2 = recv_latest_time s /\ send_latest_time r.2 = send_latest_time s) n.
Proof.
  intros [H1 H2 H3 H4 H5] ([v k'] & w' & Hr & (Hwf & (G1 & G2 & G3) & Hb & ds & Ho & Hds) & HR)%wp_run.
  cbn [fst snd] in *. unfold wp, on_kcp. rewrite Hr. split; [|done]. unfold balanced in Hb. constructor; cbn; try done; try lia.
  - constructor; cbn; try done; try lia. congruence.
  - exists (map (fun d => (addr_ s, d)) ds). unfold put_out. fold (outputs w'). fold (outputs (n_world n)).
    rewrite Ho, drop_app_length. split; [done|]. apply Forall_map. injection H2 as _ _ Hm _. rewrite Hm in Hds.
    eapply Forall_impl; [exact Hds|]. intros d Hd. by split.
Qed.

Lemma s32_le x : 0 <= x -> s32 x <= x.
Proof. intros. unfold s32. Z.div_mod_to_equations. lia. Qed.

Lemma Send_spec D A s data n : session_ok D A s ->
  wp (Send s data (Z.of_nat (length data))) (fun r n' => method D A s n r.2 n' /\ waiting (kcp_ r.2) = waiting (kcp_ s) /\
    recv_latest_time r.2 = recv_latest_time s /\ send_latest_time r.2 = send_latest_time s) n.
Proof.
  intros Hs. unfold Send. pose proof Hs as [H1 H2 _ _ _]. injection H2 as _ Hst _ _.
  pose proof (on_kcp_spec D A 0 0 (fun k => ikcp_send k (Some data) (s32 (Z.of_nat (length data))))
    (fun _ k' => waiting k' = waiting (kcp_ s)) s n Hs) as H. rewrite !Z.add_0_r in H. apply H.
  apply (calls_send alloc_ok); [done | done | apply s32_range | apply s32_le; lia].
Qed.

Lemma Input_spec D A s d n : session_ok D A s -> A + Z.of_nat (length d) / 24 < 2147483648 ->
  wp (Input s d (Z.of_nat (length d))) (fun r n' => method (D + Z.of_nat (length d)) (A + Z.of_nat (length d) / 24) s n r.2 n' /\
    recv_latest_time r.2 = recv_latest_time s) n.
Proof.
  intros Hs HA. unfold Input. pose proof Hs as [H1 _ _ H4 _].
  eapply wp_mono; [apply (on_kcp_spec D A (Z.of_nat (length d)) (Z.of_nat (length d) / 24) _ (fun _ _ => True) s n Hs)|].
  - eapply wp_mono; [apply (calls_input alloc_ok); [done | lia]|]. intros r w' Hc. by split.
  - intros r n' (? & _ & ? & _). done.
Qed.

(** The message that is next, once it is complete. *)
Definition next_message (s : KcpSession) : list Z := payload (first_message (rcv_queue (kcp_ s))).
Definition complete (s : KcpSession) : Prop := rcv_queue (kcp_ s) <> [] /\ ready (kcp_ s) = true.

(** [Recv] with a size the buffer has. *)
Lemma Recv_spec D A s buf size n : session_ok D A s -> D < 2147483648 -> 0 <= size < 2147483648 -> size <= Z.of_nat (length buf) ->
  wp (Recv s buf size) (fun r n' => method D A s n r.2 n' /\ (0 <= r.1.1 -> (waiting (kcp_ r.2) < waiting (kcp_ s))%nat) /\
    length r.1.2 = length buf /\ r.1.1 <= size /\ recv_latest_time r.2 = recv_latest_time s /\
    (0 <= r.1.1 -> r.1.1 = Z.of_nat (length (next_message s)) /\ r.1.2 = splice buf 0 (next_message s)) /\
    (complete s -> Z.of_nat (length (next_message s)) <= size -> 0 <= r.1.1)) n.
Proof.
  intros Hs HD Hsz Hb. unfold Recv. pose proof Hs as [H1 _ H3 _ _].
  assert (Z.of_nat (length (payload (rcv_queue (kcp_ s)))) < 2147483648) as Hp.
  { unfold held in H3. rewrite payload_app, length_app in H3. lia. }
  eapply wp_mono; [apply (on_kcp_spec D A 0 0 _ (fun x k' => (0 <= x.1 -> (waiting k' < waiting (kcp_ s))%nat) /\
    length x.2 = length buf /\ x.1 <= size /\
    (0 <= x.1 -> x.1 = Z.of_nat (length (next_message s)) /\ x.2 = splice buf 0 (next_message s)) /\
    (complete s -> Z.of_nat (length (next_message s)) <= size -> 0 <= x.1)) s n Hs)|].
  - wp_step. rewrite (s32_id size) by lia. eapply wp_mono; [apply wp_and; [apply (calls_recv (kcp_ s) buf size); [done | lia | done | done]|
      apply (ikcp_recv_spec (kcp_ s) (Some buf) size); [done | done | lia | lia]]|].
    intros [[v k'] b] w' ((Hc & Hw & b' & Eb & Hl & Hv) & Hr). cbn [fst snd] in *. subst b. wp_step. splits; try done; cbn [fst snd default].
    + unfold recv_post in Hr. intros Hv0. case_bool_decide; [destruct Hr as [[= -> _ _] _]; lia|].
      destruct (negb _); [destruct Hr as [[= -> _ _] _]; lia|]. destruct (_ <? _); [destruct Hr as [[= -> _ _] _]; lia|].
      destruct Hr as (k2 & l1 & l2 & _ & _ & [= -> _ ->] & _). done.
    + intros [Hq Hrd] Hle. unfold recv_post in Hr. rewrite bool_decide_false, Hrd in Hr by done. cbn [negb] in Hr.
      unfold next_message in Hle. rewrite (proj2 (Z.ltb_ge (Z.abs size) _)) in Hr by lia.
      destruct Hr as (k2 & l1 & l2 & _ & _ & [= -> _ _] & _). lia.
  - intros [[v b] s'] n' (Hm & (Hw & Hl & Hv & Hx) & Ht & _). cbn [fst snd] in *. rewrite !Z.add_0_r in Hm. done.
Qed.

(** [Update] tells that the peer has gone exactly when it has been silent for too long. *)
Lemma Update_spec D A s current n : session_ok D A s -> A < 2147483648 ->
  wp (Update s current) (fun r n' => method D A s n r.2 n' /\
    let last := if recv_latest_time s =? 0 then current else recv_latest_time s in
    recv_latest_time r.2 = last /\
    r.1 = is_server (kcp_opt_ s) && (keep_alive_timeout (kcp_opt_ s) <? current - last)) n.
Proof.
  intros Hs HA. unfold Update. wp_step. pose proof Hs as [H1 H2 _ H4 _]. injection H2 as Hout _ _ _.
  eapply wp_mono; [apply (on_kcp_spec D A 0 0 _ (fun _ _ => True) s n Hs)|].
  { wp_step. eapply wp_mono; [apply calls_update; done || lia|]. intros k' w' Hc. by wp_step. }
  cbv beta. rewrite !Z.add_0_r. intros [[] s1] n1 (Hm & _ & Et1 & Et2). cbn [fst snd] in *. cbv beta iota zeta.
  set (last := if recv_latest_time s =? 0 then current else recv_latest_time s).
  set (s2 := if recv_latest_time s1 =? 0 then _ else s1).
  assert (method D A s n s2 n1 /\ recv_latest_time s2 = last) as [Hm2 Hl].
  { subst s2 last. rewrite <- Et1. destruct (recv_latest_time s1 =? 0); [|done]. split; [|done].
    destruct Hm as [[] ? ? ? ?]. by constructor. }
  clearbody s2. pose proof (m_opt _ _ _ _ _ _ Hm2) as ->. rewrite Hl.
  destruct (is_server (kcp_opt_ s)); cbn [andb negb].
  - destruct (_ <? _); wp_step; done.
  - destruct (_ <? _); [|by wp_step]. wp_step.
    match goal with |- wp (Send ?x _ _) _ _ => assert (method D A s n x n1) as Hm3 end.
    { destruct Hm2 as [[] ? ? ? ?]. by constructor. }
    eapply wp_mono; [apply (Send_spec D A _ _ n1 (m_ok _ _ _ _ _ _ Hm3))|]. cbv beta. intros [r s4] n4 (Hm4 & _ & Ht & _). wp_step.
    split; [by eapply method_trans|]. split; [exact (eq_trans Ht Hl) | done].
Qed.

(** A new session is at peace, and has its blocks. *)
Lemma new_KcpSession_spec opt addr n : addr ∈ froms -> opt_sndwnd opt < 2147483648 -> opt_rcvwnd opt < 2147483648 ->
  wp (new_KcpSession opt addr) (fun s n' => session_ok 0 0 s /\ kcp_opt_ s = opt /\ recv_latest_time s = 0 /\
    w_live (n_world n') - heap (kcp_ s) = w_live (n_world n) /\ n_sent n' = n_sent n) n.
Proof.
  intros Hin Hsw Hrw. destruct (wp_run _ _ _ (ikcp_create_spec alloc_ok (opt_conv opt) 0 (n_world n))) as (o & w1 & Hrun & k & -> & Hwf & Hcv & Hlive & _).
  assert (stream k = 0 /\ held k = 0 /\ ackcount k = 0 /\ mtu k = 1400) as (Hst & Hheld & Ha & Hmtu).
  { unfold ikcp_create, bind in Hrun. repeat (case_match; try done); injection Hrun as <- _; done. }
  unfold new_KcpSession. wp_step. unfold on_world, wp. rewrite Hrun. cbv beta iota zeta. unfold ret.
  assert (wf (ikcp_setoutput k true)) as Hw0 by (destruct Hwf; by constructor).
  destruct (wf_wndsize _ (opt_sndwnd opt) (opt_rcvwnd opt) Hw0 Hsw Hrw) as [Hw1 Hp1].
  match goal with |- context [ikcp_nodelay ?x] => set (k1 := x) in * end.
  assert (settings k1 = (true, stream k, mtu k, conv k) /\ held k1 = held k /\ ackcount k1 = ackcount k) as (F1 & F2 & F3).
  { subst k1. unfold ikcp_wndsize, settings. destruct (0 <? opt_sndwnd opt), (0 <? opt_rcvwnd opt); done. }
  assert (heap k1 = heap k) as Hp1' by exact Hp1. clearbody k1. clear Hp1.
  destruct (wf_nodelay k1 (opt_nodelay opt) (opt_interval opt) (opt_resend opt) (opt_nc opt) Hw1) as [Hw2 Hp2].
  set (k2 := (ikcp_nodelay k1 _ _ _ _).2) in *.
  assert (settings k2 = settings k1 /\ held k2 = held k1 /\ ackcount k2 = ackcount k1) as (G1 & G2 & G3).
  { subst k2. unfold ikcp_nodelay, settings. cbv zeta.
    destruct (0 <=? opt_nodelay opt), (negb (opt_nodelay opt =? 0)), (0 <=? opt_interval opt), (0 <=? opt_resend opt), (0 <=? opt_nc opt); done. }
  clearbody k2. split; [|cbn; splits; done || lia].
  constructor; cbn; [done | rewrite G1, F1, Hst, Hmtu, Hcv; done | lia | lia | done].
Qed.

Lemma delete_KcpSession_spec s n :
  wp (delete_KcpSession s) (fun _ n' => w_live (n_world n') = w_live (n_world n) - heap (kcp_ s) /\ n_sent n' = n_sent n) n.
Proof.
  destruct (wp_run _ _ _ (ikcp_release_spec (kcp_ s) (n_world n))) as ([] & w & Hr & Hl & _).
  unfold delete_KcpSession, on_world, wp. rewrite Hr. done.
Qed.
End Spec.
