(* ===== verification/SessionNet.v ===== *)
(** * Two sessions and the network between them.

    KcpNet.v has the delivery theorem for two control blocks; here it is carried to the
    methods of [KcpSession], with the heartbeats that [Update] sends by itself.  A datagram
    that comes in at one session is one that the other gave to [UdpSocket::SendTo]: lost,
    repeated and reordered as the network likes. *)
From S2P Require Import Prelude KcpBase KcpCodec KcpSend KcpRecv KcpInput KcpFlush KcpInv KcpApi KcpStream KcpDemo KcpNet KcpTestProps CLib KcpSession.
From Stdlib Require Import Lia.
From stdpp Require Import base list numbers strings.
Open Scope Z_scope.
Open Scope c_scope.

#[local] Abbreviation net := KcpSession.net.
#[local] Abbreviation mknet := KcpSession.mknet.

(** A session, what it uses of the outside, and the messages its user has sent, heartbeats
    included, and received. *)
Record peer : Type := mkpeer { pe_session : KcpSession; pe_net : net; pe_sent : list (list Z); pe_got : list (list Z) }.

(** Its control block as an end of KcpNet.v. *)
Definition end_of (p : peer) : endpoint := KcpNet.mkep (kcp_ (pe_session p)) (n_world (pe_net p)) (pe_sent p) (pe_got p).

(** The datagrams it has sent. *)
Definition datagrams (n : net) : list (list Z) := map snd (n_sent n).

(** [Update] at [current] sends a heartbeat. *)
Definition heartbeat (s : KcpSession) (current : Z) : bool :=
  negb (is_server (kcp_opt_ s)) && (keep_alive_timeout (kcp_opt_ s) <? current - send_latest_time s).

(** There is room for another message before the numbers of the fragments wrap around. *)
Definition has_room (s : KcpSession) : Prop := snd_nxt (kcp_ s) + Z.of_nat (length (snd_queue (kcp_ s))) + 128 <= 2147483648.

Section Net.
Context {alloc : Allocator}.

(** One call of a method. *)
Inductive session_step (avail : list (list Z)) : peer -> peer -> Prop :=
  | ss_send s n sent got b r s' n' :
    Z.of_nat (length b) < 2147483648 -> has_room s -> Send s b (Z.of_nat (length b)) n = Ok (r, s') n' ->
    session_step avail (mkpeer s n sent got) (mkpeer s' n' (if r =? 0 then sent ++ [b] else sent) got)
  | ss_recv s n sent got buf size r b s' n' :
    0 <= size < 2147483648 -> size <= Z.of_nat (length buf) -> Z.of_nat (length (payload (rcv_queue (kcp_ s)))) < 2147483648 ->
    Recv s buf size n = Ok (r, b, s') n' ->
    session_step avail (mkpeer s n sent got) (mkpeer s' n' sent (if r <? 0 then got else got ++ [take (Z.to_nat r) b]))
  | ss_update s n sent got current gone s' n' :
    ackcount (kcp_ s) < 2147483648 -> has_room s -> Update s current n = Ok (gone, s') n' ->
    session_step avail (mkpeer s n sent got) (mkpeer s' n' (if heartbeat s current then sent ++ [KCP_KEEP_ALIVE_CMD] else sent) got)
  | ss_input s n sent got d r s' n' :
    d ∈ avail -> Z.of_nat (length d) < 2147483648 -> ackcount (kcp_ s) + Z.of_nat (length d) / 24 < 2147483648 ->
    Input s d (Z.of_nat (length d)) n = Ok (r, s') n' ->
    session_step avail (mkpeer s n sent got) (mkpeer s' n' sent got)
  | ss_addr s n sent got a : session_step avail (mkpeer s n sent got) (mkpeer (SetAddr s a) n sent got)
  | ss_alive s n sent got t : session_step avail (mkpeer s n sent got) (mkpeer (SetKeepAlive s t) n sent got).

Inductive peers_step : peer * peer -> peer * peer -> Prop :=
  | peers_left a a' b : session_step (datagrams (pe_net b)) a a' -> peers_step (a, b) (a', b)
  | peers_right a b b' : session_step (datagrams (pe_net a)) b b' -> peers_step (a, b) (a, b').

(** ** A call on the control block *)

Lemma ok_inj {W A} (a b : A) (w v : W) : Ok a w = Ok b v -> a = b /\ w = v.
Proof. by intros [= -> ->]. Qed.

Lemma on_kcp_run {A} s (m : ikcpcb -> M world (A * ikcpcb)) n a s' n' : on_kcp s m n = Ok (a, s') n' ->
  m (kcp_ s) (n_world n) = Ok (a, kcp_ s') (n_world n') /\ s' = s<|kcp_ := kcp_ s'|> /\
  n_sent n' = n_sent n ++ map (fun d => (addr_ s, d)) (drop (length (put_out (n_world n))) (put_out (n_world n'))).
Proof. unfold on_kcp. destruct (m (kcp_ s) (n_world n)) as [[x k] w|]; [|done]. by intros [= <- <- <-]. Qed.

(** What was sent was put out by the control block. *)
Definition wired (n : net) : Prop := forall d, d ∈ datagrams n -> d ∈ outputs (n_world n).

Lemma wired_call {A} s (m : ikcpcb -> M world (A * ikcpcb)) n a s' n' ds : on_kcp s m n = Ok (a, s') n' -> wired n ->
  outputs (n_world n') = outputs (n_world n) ++ ds -> wired n'.
Proof.
  intros (_ & _ & Hs)%on_kcp_run Hw Ho d. unfold datagrams. rewrite Hs, map_app, map_map. cbn. intros [Hd|Hd]%elem_of_app.
  - rewrite Ho. apply elem_of_app. left. by apply Hw.
  - apply list_elem_of_fmap in Hd as (x & -> & Hx). fold (put_out (n_world n')). change (put_out (n_world n')) with (outputs (n_world n')) in *.
    rewrite <- (take_drop (length (put_out (n_world n))) (outputs (n_world n'))). apply elem_of_app. by right.
Qed.

Section Safe.
Context (alloc_ok : forall n size, malloc n size <> None).
Context (cv : Z) (cv_range : 0 <= cv < 4294967296).

#[local] Abbreviation ends_ok := (KcpNet.session_ok cv).

Lemma ends_sym a b : ends_ok (a, b) -> ends_ok (b, a).
Proof. intros (ha & hb & ja & jb & H1 & H2). by exists hb, ha, jb, ja. Qed.

Lemma left_step a a' b : ends_ok (a, b) -> ep_step (outputs (ep_world b)) a a' ->
  ends_ok (a', b) /\ exists ds, outputs (ep_world a') = outputs (ep_world a) ++ ds.
Proof.
  intros Hok Hst. split; [eapply (net_step_ok alloc_ok cv cv_range); [exact Hok | by apply net_left]|].
  destruct Hok as (ha & hb & ja & jb & Ha & Hb). cbn [fst snd] in *.
  by destruct (ep_step_ok alloc_ok cv cv_range _ _ _ _ _ _ _ (eo_sent _ _ _ _ _ _ Hb) (eo_hist _ _ _ _ _ _ Hb) (eo_wire _ _ _ _ _ _ Hb) Ha Hst) as (? & ? & ? & _ & _ & ?).
Qed.

(** A small message is always accepted. *)
Lemma small_accepted k w g s b m : ends_ok (KcpNet.mkep k w s g, b) -> snd_nxt k + Z.of_nat (length (snd_queue k)) + 128 <= 2147483648 ->
  Z.of_nat (length m) <= 26 -> exists k' w', ikcp_send k (Some m) (Z.of_nat (length m)) w = Ok (0, k') w'.
Proof.
  intros (ha & hb & ja & jb & Ha & _) Hroom Hm. destruct Ha as [H1 H2 H3 H4 H5 H6 H7 H8]. cbn [fst snd ep_kcp ep_world ep_sent ep_got] in *.
  rewrite (so_next _ _ _ (proj1 H7)) in Hroom.
  destruct (wp_run _ _ _ (ends_send alloc_ok cv _ _ _ k m w H1 H3 H7 Hroom ltac:(lia))) as ([r k'] & w' & Hr & _ & _ & _ & _ & H0 & _).
  exists k', w'. rewrite Hr. cbn in H0. rewrite H0; [done|]. rewrite (send_count_one k _ H1) by lia. lia.
Qed.

(** Flushing moves fragments, but leaves their number. *)
Lemma update_room k w s g b now k' w' : ends_ok (KcpNet.mkep k w s g, b) -> ackcount k < 2147483648 -> ikcp_update k now w = Ok k' w' ->
  snd_nxt k' + Z.of_nat (length (snd_queue k')) = snd_nxt k + Z.of_nat (length (snd_queue k)).
Proof.
  intros (ha & hb & ja & jb & Ha & _) Hack Hr. destruct Ha as [H1 H2 H3 H4 H5 H6 H7 H8]. cbn [fst snd ep_kcp ep_world ep_sent ep_got] in *.
  pose proof (ends_update cv _ _ _ k now w H1 H2 Hack H3 H7) as Hp. unfold wp in Hp. rewrite Hr in Hp. destruct Hp as (_ & _ & P3 & _).
  by rewrite (so_next _ _ _ (proj1 H7)), (so_next _ _ _ (proj1 P3)).
Qed.

(** The two sessions are the ends of a connection, and their datagrams are those of the
    control blocks. *)
Definition peers_ok (a b : peer) : Prop := ends_ok (end_of a, end_of b) /\ wired (pe_net a) /\ wired (pe_net b).

Lemma peers_sym a b : peers_ok a b -> peers_ok b a.
Proof. intros (H1 & H2 & H3). split; [by apply ends_sym | done]. Qed.

(** A call on the control block that is a step of its end. *)
Lemma call_ok {A} s (m : ikcpcb -> M world (A * ikcpcb)) n a s' n' sent got sent' got' b : peers_ok (mkpeer s n sent got) b -> on_kcp s m n = Ok (a, s') n' ->
  (m (kcp_ s) (n_world n) = Ok (a, kcp_ s') (n_world n') -> ep_step (outputs (ep_world (end_of b))) (end_of (mkpeer s n sent got)) (end_of (mkpeer s' n' sent' got'))) ->
  peers_ok (mkpeer s' n' sent' got') b.
Proof.
  intros (H1 & H2 & H3) Hc Hst. destruct (on_kcp_run _ _ _ _ _ _ Hc) as (Hm & _). destruct (left_step _ _ _ H1 (Hst Hm)) as (He & ds & Ho).
  split; [exact He|]. split; [|exact H3]. by eapply wired_call.
Qed.

(** What the invariant sees of a session is its control block. *)
Lemma peers_same s s' n sent got b : kcp_ s' = kcp_ s -> peers_ok (mkpeer s n sent got) b -> peers_ok (mkpeer s' n sent got) b.
Proof. intros E (H1 & H2 & H3). split; [|done]. unfold end_of in *. cbn in *. by rewrite E. Qed.

Lemma session_step_ok a a' b : peers_ok a b -> session_step (datagrams (pe_net b)) a a' -> peers_ok a' b.
Proof.
  intros Hok Hst. destruct Hst as [s n sent got m r s' n' Hl Hroom Hr|s n sent got buf size r m s' n' Hsz Hb Hp Hr
    |s n sent got current gone s' n' Ha Hroom Hr|s n sent got d r s' n' Hd Hl Ha Hr|s n sent got a0|s n sent got t].
  - unfold Send in Hr. rewrite s32_id in Hr by lia. eapply call_ok; [exact Hok | exact Hr|]. intros Hm. by eapply ep_send.
  - unfold Recv in Hr. eapply call_ok; [exact Hok | exact Hr|]. intros Hm. unfold bind in Hm. rewrite s32_id in Hm by lia.
    destruct (ikcp_recv _ _ _ _) as [[[r1 k1] b1] w1|] eqn:Ek; [|done]. injection Hm as -> Em Ek1 Ew1.
    destruct b1 as [b1|]; [cbn in Em; subst b1 k1 w1; by eapply ep_recv|]. exfalso.
    destruct Hok as ((ha & hb & ja & jb & H1 & H2) & _). destruct H1 as [W1 _ _ _ _ _ _ _].
    pose proof (KcpRecvSpec.ikcp_recv_spec (kcp_ s) (Some buf) size (n_world n) W1 Hp ltac:(lia) ltac:(cbn; lia)) as Hpost.
    unfold wp in Hpost. rewrite Ek in Hpost. unfold KcpRecvSpec.recv_post in Hpost.
    case_bool_decide; [by destruct Hpost|]. destruct (negb _); [by destruct Hpost|]. destruct (_ <? _); [by destruct Hpost|].
    by destruct Hpost as (? & ? & ? & _ & _ & ? & _).
  - unfold Update in Hr. unfold bind at 1 in Hr.
    destruct (on_kcp s _ n) as [[[] s1] n1|] eqn:E1; [|done].
    assert (peers_ok (mkpeer s1 n1 sent got) b) as Hok1.
    { eapply call_ok; [exact Hok | exact E1|]. intros Hm. unfold bind in Hm. destruct (ikcp_update _ _ _) as [k2 w2|] eqn:Ek; [|done].
      injection Hm as -> ->. by eapply ep_update. }
    pose proof (on_kcp_run _ _ _ _ _ _ E1) as (Hm1 & Es1 & _).
    set (s2 := if recv_latest_time s1 =? 0 then _ else s1) in Hr.
    assert (kcp_ s2 = kcp_ s1 /\ kcp_opt_ s2 = kcp_opt_ s /\ send_latest_time s2 = send_latest_time s) as (K1 & K2 & K3).
    { subst s2. rewrite Es1. cbn. by destruct (recv_latest_time s =? 0). }
    clearbody s2. cbv zeta in Hr. rewrite K2, K3 in Hr. unfold heartbeat.
    destruct (is_server (kcp_opt_ s)); cbn [andb negb] in Hr |- *.
    { destruct (_ <? _); injection Hr as <- <- <-; by eapply peers_same. }
    destruct (_ <? _); [|injection Hr as <- <- <-; by eapply peers_same].
    unfold bind in Hr. set (s3 := s2<|send_latest_time := current|>) in Hr. destruct (Send s3 _ _ n1) as [[r s4] n4|] eqn:E4; [|done].
    injection Hr as <- <- <-. unfold Send in E4. change (s32 (Z.of_nat (length KCP_KEEP_ALIVE_CMD))) with (Z.of_nat (length KCP_KEEP_ALIVE_CMD)) in E4.
    assert (peers_ok (mkpeer s3 n1 sent got) b) as Hok3 by (by eapply peers_same; [|exact Hok1]).
    assert (snd_nxt (kcp_ s3) + Z.of_nat (length (snd_queue (kcp_ s3))) + 128 <= 2147483648) as Hroom3.
    { change (kcp_ s3) with (kcp_ s2). rewrite K1.
      unfold bind in Hm1. destruct (ikcp_update _ _ _) as [k2 w2|] eqn:Ek; [|done]. injection Hm1 as -> ->.
      by rewrite (update_room _ _ _ _ _ _ _ _ (proj1 Hok) Ha Ek). }
    eapply call_ok; [exact Hok3 | exact E4|]. intros Hm.
    destruct (small_accepted _ _ _ _ _ KCP_KEEP_ALIVE_CMD (proj1 Hok3) Hroom3) as (k5 & w5 & E5); [vm_compute; discriminate|].
    cbn [end_of pe_session pe_net] in E5. cbv beta in Hm. assert (r = 0) as -> by (rewrite E5 in Hm; congruence).
    change (sent ++ [KCP_KEEP_ALIVE_CMD]) with (if 0 =? 0 then sent ++ [KCP_KEEP_ALIVE_CMD] else sent). eapply ep_send; [reflexivity | exact Hroom3 | exact Hm].
  - unfold Input in Hr. eapply call_ok; [exact Hok | exact Hr|]. intros Hm. eapply ep_input; [|exact Hl | exact Ha | exact Hm].
    destruct Hok as (_ & _ & H3). by apply H3.
  - by eapply peers_same.
  - by eapply peers_same.
Qed.

Lemma new_session_ok opt addr n s n' b : opt_conv opt = cv -> opt_sndwnd opt < 2147483648 -> opt_rcvwnd opt < 2147483648 -> outputs (n_world n) = [] ->
  new_KcpSession opt addr n = Ok s n' -> (forall e, KcpNet.fresh cv (ep_kcp e) -> outputs (ep_world e) = [] -> ep_sent e = [] -> ep_got e = [] -> ends_ok (e, b)) ->
  ends_ok (end_of (mkpeer s n' [] []), b) /\ n_sent n' = n_sent n.
Proof.
  intros Hcv Hs Hr Hn Hnew Hb. pose proof (create_fresh cv 0 (n_world n) alloc_ok) as Hp. unfold wp in Hp.
  unfold new_KcpSession, bind, on_world in Hnew. rewrite Hcv in Hnew. destruct (ikcp_create cv 0 (n_world n)) as [o w|]; [|done].
  destruct Hp as (k & -> & Hf & Ho & _). unfold ret in Hnew. apply ok_inj in Hnew as [<- <-]. split; [|done]. unfold end_of. cbn [pe_session pe_net pe_sent pe_got kcp_ n_world].
  assert (ends_ok (KcpNet.mkep (ikcp_setoutput k true) w [] [], b)) as H0 by (apply Hb; [done | cbn; congruence | done | done]).
  eapply left_step; [eapply left_step; [exact H0 | exact (ep_wndsize _ _ _ _ _ (opt_sndwnd opt) (opt_rcvwnd opt) Hs Hr)] | exact (ep_nodelay _ _ _ _ _ _ _ _ _)].
Qed.

(** Two new sessions are the ends of a connection. *)
Lemma two_sessions_ok opt_a opt_b addr_a addr_b na nb sa sb na' nb' : opt_conv opt_a = cv -> opt_conv opt_b = cv ->
  opt_sndwnd opt_a < 2147483648 -> opt_rcvwnd opt_a < 2147483648 -> opt_sndwnd opt_b < 2147483648 -> opt_rcvwnd opt_b < 2147483648 ->
  outputs (n_world na) = [] -> outputs (n_world nb) = [] -> n_sent na = [] -> n_sent nb = [] ->
  new_KcpSession opt_a addr_a na = Ok sa na' -> new_KcpSession opt_b addr_b nb = Ok sb nb' ->
  peers_ok (mkpeer sa na' [] []) (mkpeer sb nb' [] []).
Proof.
  intros Hca Hcb A1 A2 B1 B2 Oa Ob Na Nb Ha Hb.
  assert (forall e1 e2, KcpNet.fresh cv (ep_kcp e1) -> KcpNet.fresh cv (ep_kcp e2) -> outputs (ep_world e1) = [] -> outputs (ep_world e2) = [] ->
    ep_sent e1 = [] -> ep_got e1 = [] -> ep_sent e2 = [] -> ep_got e2 = [] -> ends_ok (e1, e2)) as Hfresh.
  { intros [k1 w1 ? ?] [k2 w2 ? ?]. cbn. intros F1 F2 O1 O2 -> -> -> ->. exists [], [], 0%nat, 0%nat. cbn [fst snd ep_sent]. split; by apply fresh_ok. }
  assert (forall e2, KcpNet.fresh cv (ep_kcp e2) -> outputs (ep_world e2) = [] -> ep_sent e2 = [] -> ep_got e2 = [] -> ends_ok (end_of (mkpeer sa na' [] []), e2)) as H1.
  { intros e2 F2 O2 S2 G2. eapply (new_session_ok opt_a addr_a na); try done. intros e1 F1 O1 S1 G1. by apply Hfresh. }
  destruct (new_session_ok opt_b addr_b nb sb nb' (end_of (mkpeer sa na' [] [])) Hcb B1 B2 Ob Hb) as [H2 E2].
  { intros e2 F2 O2 S2 G2. apply ends_sym. by apply H1. }
  assert (n_sent na' = n_sent na) as E1.
  { unfold new_KcpSession, bind, on_world in Ha. destruct (ikcp_create _ _ _) as [[k|] w|]; try done. unfold ret in Ha. by apply ok_inj in Ha as [_ <-]. }
  split; [by apply ends_sym|]. unfold wired, datagrams. cbn. rewrite E1, E2, Na, Nb. cbn. split; by intros d ?%elem_of_nil.
Qed.

Lemma peers_step_ok s s' : peers_ok s.1 s.2 -> peers_step s s' -> peers_ok s'.1 s'.2.
Proof.
  intros Hok Hst. destruct Hst as [a a' b Hst|a b b' Hst]; cbn [fst snd] in *; [by eapply session_step_ok|].
  apply peers_sym. eapply session_step_ok; [by apply peers_sym | exact Hst].
Qed.

Lemma peers_prefix a b : peers_ok a b -> pe_got b `prefix_of` pe_sent a /\ pe_got a `prefix_of` pe_sent b.
Proof.
  intros ((ha & hb & ja & jb & Ha & Hb) & _ & _). cbn [fst snd] in *. split; [by apply (ep_ok_prefix _ _ _ _ _ _ Hb) | by apply (ep_ok_prefix _ _ _ _ _ _ Ha)].
Qed.
End Safe.
End Net.

(** Delivery from session to session: any interleaving of calls of the methods at both ends,
    over a network that loses, repeats and reorders what they send: what the user of one has
    received are the first of the messages that the other has accepted, its heartbeats among
    them, in order, each once and whole. *)
Theorem session_delivery {alloc : Allocator} opt_a opt_b addr_a addr_b na nb sa sb na' nb' a b :
  (forall n size, malloc n size <> None) -> 0 <= opt_conv opt_a < 4294967296 -> opt_conv opt_b = opt_conv opt_a ->
  opt_sndwnd opt_a < 2147483648 -> opt_rcvwnd opt_a < 2147483648 -> opt_sndwnd opt_b < 2147483648 -> opt_rcvwnd opt_b < 2147483648 ->
  outputs (n_world na) = [] -> outputs (n_world nb) = [] -> n_sent na = [] -> n_sent nb = [] ->
  new_KcpSession opt_a addr_a na = Ok sa na' -> new_KcpSession opt_b addr_b nb = Ok sb nb' ->
  star peers_step (mkpeer sa na' [] [], mkpeer sb nb' [] []) (a, b) ->
  pe_got b `prefix_of` pe_sent a /\ pe_got a `prefix_of` pe_sent b.
Proof.
  intros Hal Hcv Hc A1 A2 B1 B2 Oa Ob Na Nb Ha Hb Hst. apply (peers_prefix (opt_conv opt_a)).
  refine (star_invariant peers_step (fun s => peers_ok (opt_conv opt_a) s.1 s.2) _ _ _ Hst _); [apply peers_step_ok; done|].
  by eapply (two_sessions_ok Hal (opt_conv opt_a) Hcv opt_a opt_b addr_a addr_b na nb).
Qed.
