(* ===== verification/ChatServer.v ===== *)
(** * kcp_server.h, kcp_server.cc and chat_server.cc: many sessions on one socket.

    [KcpServer] keeps a session per conversation number; [ChatServer] is its business: it
    passes what a user says on to all.  Sessions are shared pointers: they live in [heap]
    at an address, [sessions_] and [users_] hold addresses, and a session is destroyed
    when neither holds it any more.

    [KcpServer::Run] has two threads, each of which holds the mutex of the server while it
    works: one passes over the sessions ([Update]), the other takes a datagram at a time.
    A run is a sequence of those steps.  The clock is an oracle; the order in which an
    unordered container is walked through is that of the elements here. *)
From S2P Require Import Prelude KcpBase KcpCodec KcpSend KcpRecv KcpInput KcpFlush CLib Latency KcpSession.
From stdpp Require Import base list numbers strings gmap sets.
Open Scope Z_scope.
Open Scope c_scope.

Definition body_size : Z := 4096.

(** [KcpServer] with its one derived class; [said] is what [HandleMessage] was given. *)
Record server : Type := mkserver {
  sv_net : net;
  heap_ : gmap Z KcpSession;
  sessions_ : gmap Z Z;
  buf_ : list Z;
  users_ : gset Z;
  n_clock : nat;
  said : list (Z * list Z);
}.
Definition eta_server (s : server) : server :=
  mkserver (sv_net s) (heap_ s) (sessions_ s) (buf_ s) (users_ s) (n_clock s) (said s).
#[export] Instance upd_sv_net : Upd sv_net := ltac:(build_upd eta_server sv_net).
#[export] Instance upd_heap_ : Upd heap_ := ltac:(build_upd eta_server heap_).
#[export] Instance upd_sessions_ : Upd sessions_ := ltac:(build_upd eta_server sessions_).
#[export] Instance upd_buf_ : Upd buf_ := ltac:(build_upd eta_server buf_).
#[export] Instance upd_users_ : Upd users_ := ltac:(build_upd eta_server users_).
#[export] Instance upd_n_clock : Upd n_clock := ltac:(build_upd eta_server n_clock).
#[export] Instance upd_said : Upd said := ltac:(build_upd eta_server said).

(** Where [make_shared] puts a new session. *)
Class SessionAlloc := new_address : gmap Z KcpSession -> Z.
Class SessionAllocOk `{SessionAlloc} : Prop := new_address_free h : h !! new_address h = None.

(** What happens next: a datagram with its sender, an error of [recvfrom], a pass of the
    other thread. *)
Inductive happening : Type :=
  | Datagram (d : list Z) (from : sockaddr_in)
  | RecvError
  | Tick.

Section Server.
Context {alloc : Allocator} {sa : SessionAlloc} (clock_at : nat -> timeval) (kcp_opt : KcpOpt).

Definition iclock64 : M server Z :=
  let! s := gets (fun s => s) in
  modify (fun s => s<|n_clock := S (n_clock s)|>);;; ret (Latency.iclock64 (clock_at (n_clock s))).

(** The session at an address. *)
Definition get_session (id : Z) : M server KcpSession :=
  let! h := gets heap_ in of_option NullDeref (h !! id).
Definition put_session (id : Z) (s : KcpSession) : M server unit :=
  modify (fun v => v<|heap_ := <[id := s]> (heap_ v)|>).

(** A method of the session at an address. *)
Definition on_session {A} (id : Z) (m : KcpSession -> M net (A * KcpSession)) : M server A :=
  let! s := get_session id in
  fun v => match m s (sv_net v) with
  | Ok (a, s') n => Ok a (v<|sv_net := n|><|heap_ := <[id := s']> (heap_ v)|>)
  | Fault f => Fault f
  end.

(** A call that makes or destroys a session. *)
Definition on_net {A} (m : M net A) : M server A :=
  fun v => match m (sv_net v) with Ok a n => Ok a (v<|sv_net := n|>) | Fault f => Fault f end.

(** ** chat_server.cc *)

Fixpoint notify_all (users : list Z) (str : list Z) : M server unit :=
  match users with
  | [] => ret tt
  | user :: users => on_session user (fun s => Send s str (Z.of_nat (length str)));;; notify_all users str
  end.
Definition Notify (str : list Z) : M server unit :=
  let! u := gets users_ in notify_all (elements u) str.

Definition HandleMessage (id : Z) (msg : list Z) : M server unit :=
  let! s := get_session id in
  modify (fun v => v<|said := said v ++ [(id, msg)]|>);;;
  Notify (text "user from [" ++ GetAddrToString s ++ text "] : " ++ msg).

Definition HandleConnection (id : Z) : M server unit :=
  modify (fun v => v<|users_ := {[id]} ∪ users_ v|>);;;
  let! s := get_session id in
  Notify (text "user from [" ++ GetAddrToString s ++ text "] join the ChatRoom!").

Definition HandleClose (id : Z) : M server unit :=
  modify (fun v => v<|users_ := users_ v ∖ {[id]}|>);;;
  let! s := get_session id in
  Notify (text "user from [" ++ GetAddrToString s ++ text "] left the ChatRoom!").

(** ** kcp_server.cc *)

(** A shared pointer to a session is gone: without another one the session is destroyed. *)
Definition drop_ref (id : Z) : M server unit :=
  let! v := gets (fun v => v) in
  if bool_decide (id ∈ users_ v) || bool_decide (Exists (fun p => p.2 = id) (map_to_list (sessions_ v))) then ret tt
  else
    let! s := get_session id in
    on_net (delete_KcpSession s);;;
    modify (fun v => v<|heap_ := delete id (heap_ v)|>).

(** The loop of [KcpServer::Update] over what [sessions_] held. *)
Fixpoint update_all (l : list (Z * Z)) : M server unit :=
  match l with
  | [] => ret tt
  | (conv, id) :: l =>
    let! current := iclock64 in
    let! gone := on_session id (fun s => KcpSession.Update s current) in
    (if (gone : bool) then
       HandleClose id;;;
       modify (fun v => v<|sessions_ := delete conv (sessions_ v)|>);;;
       drop_ref id
     else ret tt);;;
    update_all l
  end.
Definition Update : M server unit :=
  let! s := gets sessions_ in update_all (map_to_list s).

Definition Check (r : Z) : bool := if r =? -1 then false else if r <? 24 then false else true.

Definition NewSession (conv : Z) (addr : sockaddr_in) : M server Z :=
  let opt := mkopt (is_server kcp_opt) (keep_alive_timeout kcp_opt) conv (opt_sndwnd kcp_opt) (opt_rcvwnd kcp_opt)
                   (opt_nodelay kcp_opt) (opt_interval kcp_opt) (opt_resend kcp_opt) (opt_nc kcp_opt) in
  let! s := on_net (new_KcpSession opt addr) in
  let! h := gets heap_ in
  let id := new_address h in
  put_session id s;;;
  HandleConnection id;;;
  ret id.

Definition GetSession (conv : Z) (addr : sockaddr_in) : M server Z :=
  let! t := gets sessions_ in
  let! id :=
    match t !! conv with
    | Some id => ret id
    | None =>
      let! id := NewSession conv addr in
      modify (fun v => v<|sessions_ := <[conv := id]> (sessions_ v)|>);;; ret id
    end in
  let! s := get_session id in
  if bool_decide (sin_port (addr_ s) <> sin_port addr) || bool_decide (sin_addr (addr_ s) <> sin_addr addr)
  then put_session id (SetAddr s addr);;; ret id
  else ret id.

Definition GetConv (buf : list Z) : M server Z :=
  let! ' (conv, _) := of_option OutOfBounds (ikcp_decode32u buf) in ret conv.

(** [memcmp(buf_.data(), KCP_KEEP_ALIVE_CMD, sizeof(KCP_KEEP_ALIVE_CMD)) == 0] *)
Definition is_keep_alive (buf : list Z) : bool :=
  bool_decide (take (length KCP_KEEP_ALIVE_CMD) buf = KCP_KEEP_ALIVE_CMD).

(** The loop of [HandleSession]; true when the process exits. *)
Fixpoint recv_all (fuel : nat) (id : Z) : M server bool :=
  match fuel with
  | O => throw OutOfFuel
  | S fuel =>
    let! b := gets buf_ in
    let! ' (len, b) := on_session id (fun s => Recv s b body_size) in
    modify (fun v => v<|buf_ := b|>);;;
    if len =? -3 then ret true
    else if len <=? 0 then ret false
    else if is_keep_alive b then
      let! t := iclock64 in
      let! s := get_session id in
      put_session id (SetKeepAlive s t);;;
      recv_all fuel id
    else
      HandleMessage id (take (Z.to_nat len) b);;;
      recv_all fuel id
  end.

(** Each round of the loop takes a segment off the queue, and there are so many. *)
Definition recv_fuel (k : ikcpcb) : nat := S (length (rcv_queue k) + length (rcv_buf k)).

Definition HandleSession (id : Z) (length : Z) : M server bool :=
  let! b := gets buf_ in
  let! r := on_session id (fun s => Input s (take (Z.to_nat length) b) length) in
  if negb (r =? 0) then ret false
  else
    let! s := get_session id in
    recv_all (recv_fuel (kcp_ s)) id.

(** A round of the loop of [Run]: [len] is what [RecvFrom] gave. *)
Definition run_round (len : Z) (d : list Z) (from : sockaddr_in) : M server bool :=
  modify (fun v => v<|buf_ := take (Z.to_nat len) d ++ drop (Z.to_nat len) (buf_ v)|>);;;
  if negb (Check len) then ret false
  else
    let! b := gets buf_ in
    let! conv := GetConv b in
    let! id := GetSession conv from in
    HandleSession id len.

Definition happen (e : happening) : M server bool :=
  match e with
  | Datagram d from => run_round (Z.min (Z.of_nat (length d)) body_size) d from
  | RecvError => run_round (-1) [] (mkaddr [0; 0; 0; 0] 0)
  | Tick => Update;;; ret false
  end.

(** [Run] for as long as the list; true when the process has exited. *)
Fixpoint Run (es : list happening) : M server bool :=
  match es with
  | [] => ret false
  | e :: es => let! stop := happen e in if (stop : bool) then ret true else Run es
  end.
End Server.

(** The constructor after a successful [Bind]. *)
Definition new_server (w : world) : server := mkserver (mknet w []) ∅ ∅ (replicate (Z.to_nat body_size) 0) ∅ 0 [].

(** [main] of chat_server.cc: None when [Bind] fails and the process exits. *)
Definition chat_opt : KcpOpt :=
  mkopt true 5000 0 (opt_sndwnd default_KcpOpt) (opt_rcvwnd default_KcpOpt) (opt_nodelay default_KcpOpt)
        (opt_interval default_KcpOpt) (opt_resend default_KcpOpt) (opt_nc default_KcpOpt).
Definition chat_main {alloc : Allocator} {sa : SessionAlloc} (clock_at : nat -> timeval) (bound : bool)
    (es : list happening) (w : world) : option (res server bool) :=
  if bound then Some (Run clock_at chat_opt es (new_server w)) else None.
