(* ===== verification/ChatServerSpec.v ===== *)
(** * The chat server: its tables and its sessions, kept by every step.

    [vok]: every session on the heap is at peace, its blocks are accounted for, and the
    users are on the heap.  [table]: the table of sessions, the users and the heap hold the
    same sessions, each under its conversation number. *)
From S2P Require Import Prelude KcpBase KcpCodec KcpSend KcpRecv KcpInput KcpFlush KcpInv KcpApi KcpStream KcpCalls.
From S2P Require Import KcpInputSpec CLib Latency KcpSession KcpSessionSpec ChatServer.
From Stdlib Require Import Lia.
From stdpp Require Import base list numbers strings gmap sets.
Open Scope Z_scope.
Open Scope c_scope.

(** ** Blocks of memory *)

Definition blocks (h : gmap Z KcpSession) : Z := map_fold (fun _ s acc => heap (kcp_ s) + acc) 0 h.

Lemma blocks_insert_new h id s : h !! id = None -> blocks (<[id := s]> h) = heap (kcp_ s) + blocks h.
Proof. intros Hn. unfold blocks. apply (map_fold_insert_L (fun _ s acc => heap (kcp_ s) + acc)); [intros; lia | done]. Qed.

Lemma blocks_delete h id s : h !! id = Some s -> blocks h = heap (kcp_ s) + blocks (delete id h).
Proof. intros Hs. unfold blocks. apply (map_fold_delete_L (fun _ s acc => heap (kcp_ s) + acc)); [intros; lia | done]. Qed.

Lemma blocks_insert h id s s' : h !! id = Some s -> blocks (<[id := s']> h) = blocks h - heap (kcp_ s) + heap (kcp_ s').
Proof.
  intros Hs. rewrite (blocks_delete h id s Hs), <- (insert_delete_eq h id s'), blocks_insert_new by apply lookup_delete_eq. lia.
Qed.

(** ** Heaps that hold the same sessions *)

Definition rel (P : KcpSession -> KcpSession -> Prop) (h h' : gmap Z KcpSession) : Prop :=
  forall id, match h !! id, h' !! id with Some s, Some s' => P s s' | None, None => True | _, _ => False end.

Lemma rel_refl P h : (forall s, P s s) -> rel P h h.
Proof. intros HP id. by destruct (h !! id). Qed.

Lemma rel_trans P h1 h2 h3 : (forall s1 s2 s3, P s1 s2 -> P s2 s3 -> P s1 s3) -> rel P h1 h2 -> rel P h2 h3 -> rel P h1 h3.
Proof.
  intros HP H12 H23 id. specialize (H12 id). specialize (H23 id).
  destruct (h1 !! id), (h2 !! id), (h3 !! id); try done. by eapply HP.
Qed.

Lemma rel_insert P h id s s' : (forall s, P s s) -> h !! id = Some s -> P s s' -> rel P h (<[id := s']> h).
Proof.
  intros HP Hs HPs j. destruct (decide (j = id)) as [->|Hne].
  - by rewrite Hs, lookup_insert_eq.
  - rewrite lookup_insert_ne by done. by destruct (h !! j).
Qed.

Lemma rel_mono (P Q : KcpSession -> KcpSession -> Prop) h h' : (forall s s', P s s' -> Q s s') -> rel P h h' -> rel Q h h'.
Proof. intros HP H id. specialize (H id). destruct (h !! id), (h' !! id); try done. by apply HP. Qed.

Lemma rel_some P h h' id s : rel P h h' -> h !! id = Some s -> exists s', h' !! id = Some s' /\ P s s'.
Proof. intros H E. specialize (H id). rewrite E in H. destruct (h' !! id) as [s'|]; [by exists s' | done]. Qed.

Lemma rel_some_r P h h' id s' : rel P h h' -> h' !! id = Some s' -> exists s, h !! id = Some s /\ P s s'.
Proof. intros H E. specialize (H id). rewrite E in H. destruct (h !! id) as [s|]; [by exists s | done]. Qed.

(** The identity of a session. *)
Definition same_id (s s' : KcpSession) : Prop := kcp_opt_ s' = kcp_opt_ s.

(** What a [Send] leaves alone. *)
Definition same_inbox (s s' : KcpSession) : Prop :=
  kcp_opt_ s' = kcp_opt_ s /\ waiting (kcp_ s') = waiting (kcp_ s) /\ recv_latest_time s' = recv_latest_time s.

Lemma same_inbox_refl s : same_inbox s s. Proof. done. Qed.
Lemma same_inbox_trans s1 s2 s3 : same_inbox s1 s2 -> same_inbox s2 s3 -> same_inbox s1 s3.
Proof. intros (? & ? & ?) (? & ? & ?). unfold same_inbox. splits; congruence. Qed.
Lemma same_inbox_id s s' : same_inbox s s' -> same_id s s'.
Proof. by intros (? & _). Qed.

(** ** The invariant *)

Section Spec.
Context {alloc : Allocator} (alloc_ok : forall n size, malloc n size <> None).
Context {sa : SessionAlloc} {sa_ok : SessionAllocOk}.
Context (clock_at : nat -> timeval) (opt : KcpOpt) (froms : list sockaddr_in).
Context (opt_ok : opt_sndwnd opt < 2147483648 /\ opt_rcvwnd opt < 2147483648).

Record vok (D A L : Z) (v : server) : Prop := mkvok {
  v_sess : forall id s, heap_ v !! id = Some s -> session_ok froms D A s;
  v_live : w_live (n_world (sv_net v)) - blocks (heap_ v) = L;
  v_sent : Forall (fit froms) (n_sent (sv_net v));
  v_buf : Z.of_nat (length (buf_ v)) = body_size;
  v_users : forall id, id ∈ users_ v -> is_Some (heap_ v !! id);
}.

Record table (v : server) : Prop := mktable {
  t_table : forall c id, sessions_ v !! c = Some id <-> exists s, heap_ v !! id = Some s /\ opt_conv (kcp_opt_ s) = c;
  t_users : forall id, is_Some (heap_ v !! id) -> id ∈ users_ v;
}.

Lemma vok_le D A L D' A' v : D <= D' -> A <= A' -> vok D A L v -> vok D' A' L v.
Proof. intros ? ? []. constructor; try done. intros id s Hs. eapply session_ok_le; eauto. Qed.

Lemma table_rel v v' : table v -> sessions_ v' = sessions_ v -> users_ v' = users_ v -> rel same_id (heap_ v) (heap_ v') -> table v'.
Proof.
  intros [H1 H2] Es Eu Hr. constructor.
  - intros c id. rewrite Es, H1. split; intros (s & Hs & Hc).
    + destruct (rel_some _ _ _ _ _ Hr Hs) as (s' & Hs' & E). exists s'. by rewrite E.
    + destruct (rel_some_r _ _ _ _ _ Hr Hs) as (s' & Hs' & E). exists s'. by rewrite <- E.
  - intros id [s Hs]. rewrite Eu. apply H2. destruct (rel_some_r _ _ _ _ _ Hr Hs) as (s' & Hs' & _). by exists s'.
Qed.

(** A method of a session of the heap. *)
Lemma on_session_spec {B} D A D' A' L id s (m : KcpSession -> M net (B * KcpSession)) (R : B -> KcpSession -> Prop) (Q : B -> server -> Prop) v :
  vok D A L v -> heap_ v !! id = Some s -> D <= D' -> A <= A' ->
  wp (m s) (fun r n' => method froms D' A' s (sv_net v) r.2 n' /\ R r.1 r.2) (sv_net v) ->
  (forall b s' n', let v' := v<|sv_net := n'|><|heap_ := <[id := s']> (heap_ v)|> in
     vok D' A' L v' -> R b s' -> same_id s s' -> addr_ s' = addr_ s -> Q b v') ->
  wp (on_session id m) Q v.
Proof.
  intros Hv Hs HD HA Hm HQ. unfold on_session, get_session. wp_step. wp_step. apply wp_gets. rewrite Hs. cbn [of_option]. wp_step.
  apply wp_run in Hm as ([b s'] & n' & Hr & [M1 M2 M3 M4 (ds & M5 & M6)] & HR). unfold wp. rewrite Hr. cbn [fst snd] in *.
  apply HQ; [|done..]. apply (vok_le _ _ _ D' A') in Hv; [|done..]. destruct Hv as [V1 V2 V3 V4 V5]. constructor; cbn; try done.
  - intros j t. destruct (decide (j = id)) as [->|Hne]; [rewrite lookup_insert_eq; by intros [= <-]|].
    rewrite lookup_insert_ne by done. apply V1.
  - rewrite (blocks_insert _ _ _ _ Hs). lia.
  - rewrite M5. by apply Forall_app.
  - intros j Hj. destruct (decide (j = id)) as [->|Hne]; [by rewrite lookup_insert_eq | rewrite lookup_insert_ne by done; by apply V5].
Qed.

(** ** The business *)

(** What [Notify] leaves alone. *)
Record notified (v v' : server) : Prop := mknotified {
  o_heap : rel same_inbox (heap_ v) (heap_ v');
  o_sessions : sessions_ v' = sessions_ v;
  o_users : users_ v' = users_ v;
  o_buf : buf_ v' = buf_ v;
  o_clock : n_clock v' = n_clock v;
}.

Lemma notified_refl v : notified v v.
Proof. constructor; try done. apply rel_refl, same_inbox_refl. Qed.

Lemma notified_trans v1 v2 v3 : notified v1 v2 -> notified v2 v3 -> notified v1 v3.
Proof. intros [] []. constructor; try congruence. eapply rel_trans; [exact same_inbox_trans | done..]. Qed.

Lemma notified_table v v' : notified v v' -> table v -> table v'.
Proof. intros [] Ht. eapply table_rel; try done. eapply rel_mono; [exact same_inbox_id | done]. Qed.

Lemma notify_all_spec D A L us str v : vok D A L v -> (forall id, id ∈ us -> is_Some (heap_ v !! id)) ->
  wp (notify_all us str) (fun _ v' => vok D A L v' /\ notified v v') v.
Proof.
  revert v. induction us as [|u us IH]; intros v Hv Hus; cbn [notify_all]; [wp_step; split; [done | apply notified_refl]|].
  destruct (Hus u) as [s Hs]; [by left|]. wp_step.
  eapply (on_session_spec D A D A L u s _ (fun _ s' => same_inbox s s') _ v Hv Hs); [lia | lia | |].
  - eapply wp_mono; [apply (Send_spec alloc_ok froms D A); exact (v_sess _ _ _ _ Hv _ _ Hs)|]. cbv beta.
    intros [r s'] n' (Hm & Hw & Ht & _). cbn [fst snd] in *. split; [exact Hm|]. split; [exact (m_opt _ _ _ _ _ _ _ Hm) | done].
  - intros b s' n' v' Hv' Hin _ _. assert (notified v v') as Hn.
    { constructor; try done. cbn. apply (rel_insert _ _ _ s); [exact same_inbox_refl | done | done]. }
    eapply wp_mono; [apply IH; [exact Hv'|]|].
    + intros id Hid. destruct (Hus id) as [t Ht]; [by right|]. destruct (rel_some _ _ _ _ _ (o_heap _ _ Hn) Ht) as (t' & Ht' & _). by exists t'.
    + intros _ v2 [Hv2 Hn2]. split; [done | by eapply notified_trans].
Qed.

Lemma Notify_spec D A L str v : vok D A L v -> wp (Notify str) (fun _ v' => vok D A L v' /\ notified v v') v.
Proof.
  intros Hv. unfold Notify. wp_step. apply wp_gets. apply notify_all_spec; [done|].
  intros id Hid. apply (v_users _ _ _ _ Hv). by apply elem_of_elements.
Qed.

Lemma HandleMessage_spec D A L id msg v : vok D A L v -> is_Some (heap_ v !! id) ->
  wp (HandleMessage id msg) (fun _ v' => vok D A L v' /\ notified v v') v.
Proof.
  intros Hv [s Hs]. unfold HandleMessage, get_session. wp_step. wp_step. apply wp_gets. rewrite Hs. cbn [of_option]. wp_step.
  wp_step. apply wp_modify. match goal with |- wp _ _ ?x => set (v1 := x) end.
  assert (vok D A L v1) as Hv1 by (destruct Hv; by constructor).
  eapply wp_mono; [apply (Notify_spec D A L _ v1 Hv1)|]. intros _ v2 [Hv2 [O1 O2 O3 O4 O5]]. split; [done | by constructor].
Qed.

(** ** Sessions come *)

(** Only the session at [id] is replaced, by one with the same control block. *)
Lemma put_session_ok D A L id s s' v : vok D A L v -> heap_ v !! id = Some s -> session_ok froms D A s' -> kcp_ s' = kcp_ s ->
  vok D A L (v<|heap_ := <[id := s']> (heap_ v)|>).
Proof.
  intros [V1 V2 V3 V4 V5] Hs Hok Hk. constructor; cbn; try done.
  - intros j t. destruct (decide (j = id)) as [->|Hne]; [rewrite lookup_insert_eq; by intros [= <-]|].
    rewrite lookup_insert_ne by done. apply V1.
  - rewrite (blocks_insert _ _ _ _ Hs), Hk. lia.
  - intros j Hj. destruct (decide (j = id)) as [->|Hne]; [by rewrite lookup_insert_eq | rewrite lookup_insert_ne by done; by apply V5].
Qed.

Lemma put_session_table id s s' v : table v -> heap_ v !! id = Some s -> same_id s s' -> table (v<|heap_ := <[id := s']> (heap_ v)|>).
Proof.
  intros Ht Hs Hid. eapply table_rel; [exact Ht | done | done |]. apply (rel_insert _ _ _ s); [by intros | done | done].
Qed.

Lemma NewSession_spec D A L conv addr v : 0 <= D -> 0 <= A -> vok D A L v -> table v -> sessions_ v !! conv = None -> addr ∈ froms ->
  wp (NewSession opt conv addr) (fun id v' => vok D A L v' /\ buf_ v' = buf_ v /\ n_clock v' = n_clock v /\
    table (v'<|sessions_ := <[conv := id]> (sessions_ v')|>) /\ is_Some (heap_ v' !! id)) v.
Proof.
  intros HD HA Hv Ht Hno Haddr. unfold NewSession, on_net, put_session, HandleConnection, get_session. cbv zeta.
  match goal with |- context [new_KcpSession ?o addr] => set (o1 := o) end. wp_step.
  destruct (wp_run _ _ _ (new_KcpSession_spec alloc_ok froms o1 addr (sv_net v) Haddr (proj1 opt_ok) (proj2 opt_ok)))
    as (s & n' & Hr & Hok & Ho & _ & Hl & Hsent). eapply wp_of_run; [by rewrite Hr|].
  wp_step. apply wp_gets. cbn [heap_ upd upd_sv_net]. set (id := new_address (heap_ v)).
  assert (heap_ v !! id = None) as Hnew by apply sa_ok. wp_step. apply wp_modify. wp_step. wp_step. apply wp_modify. wp_step. wp_step. apply wp_gets.
  cbn [heap_ upd upd_heap_ upd_users_ upd_sv_net]. rewrite lookup_insert_eq. cbn [of_option]. wp_step.
  match goal with |- wp _ _ ?x => set (v1 := x) end.
  assert (vok D A L v1) as Hv1.
  { destruct Hv as [V1 V2 V3 V4 V5]. constructor; cbn; try done.
    - intros j t. destruct (decide (j = id)) as [->|Hne]; [rewrite lookup_insert_eq; intros [= <-]; eapply session_ok_le; [exact HD | exact HA | done]|].
      rewrite lookup_insert_ne by done. apply V1.
    - rewrite blocks_insert_new by done. lia.
    - by rewrite Hsent.
    - intros j [->%elem_of_singleton|Hj]%elem_of_union; [by rewrite lookup_insert_eq|].
      destruct (decide (j = id)) as [->|Hne]; [by rewrite lookup_insert_eq | rewrite lookup_insert_ne by done; by apply V5]. }
  eapply wp_mono; [apply (Notify_spec D A L _ v1 Hv1)|]. intros _ v2 [Hv2 Hn]. wp_step. split; [done|].
  split; [by rewrite (o_buf _ _ Hn)|]. split; [by rewrite (o_clock _ _ Hn)|]. split.
  - apply (table_rel (v1<|sessions_ := <[conv := id]> (sessions_ v1)|>)).
    + destruct Ht as [T1 T2]. constructor; cbn.
      * intros c j. destruct (decide (c = conv)) as [->|Hc].
        { rewrite lookup_insert_eq. split; [intros [= <-]; exists s; split; [by rewrite lookup_insert_eq | by rewrite Ho]|].
          intros (t & Hj & Hcj). destruct (decide (j = id)) as [->|Hne]; [done|]. rewrite lookup_insert_ne in Hj by done.
          assert (sessions_ v !! conv = Some j) by (apply T1; by exists t). congruence. }
        rewrite lookup_insert_ne by done. rewrite T1. destruct (decide (j = id)) as [->|Hne].
        { rewrite lookup_insert_eq, Hnew. split; [by intros (? & ? & _) | intros (t & [= <-] & Hcj); rewrite Ho in Hcj; by cbn in Hcj]. }
        by rewrite lookup_insert_ne.
      * intros j [t Hj]. destruct (decide (j = id)) as [->|Hne]; [by apply elem_of_union_l, elem_of_singleton|]. rewrite lookup_insert_ne in Hj by done.
        apply elem_of_union. right. apply T2. by exists t.
    + cbn. by rewrite (o_sessions _ _ Hn).
    + cbn. by rewrite (o_users _ _ Hn).
    + cbn. eapply rel_mono; [exact same_inbox_id | exact (o_heap _ _ Hn)].
  - destruct (rel_some _ _ _ id s (o_heap _ _ Hn)) as (s2 & Hs2 & _); [by cbn; rewrite lookup_insert_eq | by exists s2].
Qed.

Lemma GetSession_spec D A L conv addr v : 0 <= D -> 0 <= A -> vok D A L v -> table v -> addr ∈ froms ->
  wp (GetSession opt conv addr) (fun id v' => vok D A L v' /\ buf_ v' = buf_ v /\ table v' /\
    exists s, heap_ v' !! id = Some s /\ opt_conv (kcp_opt_ s) = conv /\ addr_ s = addr) v.
Proof.
  intros HD HA Hv Ht Haddr. unfold GetSession. wp_step. apply wp_gets. wp_step.
  assert (wp (match sessions_ v !! conv with
     | Some id => ret id
     | None => let! id := NewSession opt conv addr in
               modify (fun v => v<|sessions_ := <[conv := id]> (sessions_ v)|>);;; ret id end)
    (fun id v1 => vok D A L v1 /\ buf_ v1 = buf_ v /\ table v1 /\ exists s, heap_ v1 !! id = Some s /\ opt_conv (kcp_opt_ s) = conv) v) as Hw.
  { destruct (sessions_ v !! conv) as [id|] eqn:E.
    - wp_step. splits; try done. by apply (t_table v Ht).
    - wp_step. eapply wp_mono; [by apply (NewSession_spec D A L)|]. cbv beta. intros id v1 (Hv1 & Hb & _ & Ht1 & Hs). wp_step. apply wp_modify. wp_step.
      split; [destruct Hv1; by constructor|]. splits; [done | done |]. apply (t_table _ Ht1). cbn. by rewrite lookup_insert_eq. }
  eapply wp_mono; [exact Hw|]. cbv beta. intros id v1 (Hv1 & Hb & Ht1 & s & Hs & Hc). unfold get_session, put_session.
  wp_step. wp_step. apply wp_gets. rewrite Hs. cbn [of_option]. wp_step.
  assert (session_ok froms D A (SetAddr s addr)) as Hok by (destruct (v_sess _ _ _ _ Hv1 _ _ Hs); by constructor).
  case_bool_decide as E1; [|case_bool_decide as E2]; cbn [orb]; wp_step.
  - apply wp_modify. wp_step. split; [by eapply put_session_ok|]. split; [done|]. split; [by eapply put_session_table|].
    exists (SetAddr s addr). cbn. by rewrite lookup_insert_eq.
  - apply wp_modify. wp_step. split; [by eapply put_session_ok|]. split; [done|]. split; [by eapply put_session_table|].
    exists (SetAddr s addr). cbn. by rewrite lookup_insert_eq.
  - splits; try done. exists s. splits; [done | done |]. destruct (addr_ s), addr. cbn in *. congruence.
Qed.

(** ** Sessions go *)

Lemma rel_delete P h h' id : rel P h h' -> rel P (delete id h) (delete id h').
Proof.
  intros H j. specialize (H j). destruct (decide (j = id)) as [->|Hne]; [by rewrite !lookup_delete_eq | by rewrite !lookup_delete_ne].
Qed.

Lemma table_inj v c c' id : table v -> sessions_ v !! c = Some id -> sessions_ v !! c' = Some id -> c' = c.
Proof. intros Ht (s & Hs & <-)%(t_table v Ht) (s' & Hs' & <-)%(t_table v Ht). congruence. Qed.

(** The last pointers to a session go, and with them the session. *)
Lemma close_spec D A L conv id v : vok D A L v -> table v -> sessions_ v !! conv = Some id ->
  wp (HandleClose id;;; modify (fun v => v<|sessions_ := delete conv (sessions_ v)|>);;; drop_ref id)
    (fun _ v' => vok D A L v' /\ table v' /\ sessions_ v' = delete conv (sessions_ v) /\
      rel same_inbox (delete id (heap_ v)) (heap_ v') /\ buf_ v' = buf_ v /\ n_clock v' = n_clock v) v.
Proof.
  intros Hv Ht Hc. pose proof Hc as (s & Hs & Hsc)%(t_table v Ht). wp_step. unfold HandleClose, get_session. wp_step. apply wp_modify.
  match goal with |- wp _ _ ?x => set (v1 := x) end.
  assert (vok D A L v1) as Hv1.
  { destruct Hv as [V1 V2 V3 V4 V5]. constructor; try done. intros j [Hj _]%elem_of_difference. by apply V5. }
  wp_step. wp_step. apply wp_gets. change (heap_ v1) with (heap_ v). rewrite Hs. cbn [of_option]. wp_step.
  eapply wp_mono; [apply (Notify_spec D A L _ v1 Hv1)|]. intros _ v2 [Hv2 [O1 O2 O3 O4 O5]].
  change (heap_ v1) with (heap_ v) in O1. change (sessions_ v1) with (sessions_ v) in O2. change (users_ v1) with (users_ v ∖ {[id]}) in O3.
  wp_step. apply wp_modify. unfold drop_ref, get_session, on_net. wp_step. apply wp_gets. cbn [users_ sessions_ upd upd_sessions_].
  rewrite (bool_decide_eq_false_2 (id ∈ users_ v2)) by (rewrite O3; set_solver). rewrite bool_decide_eq_false_2.
  2: { rewrite O2. intros ([c i] & Hin & Ei)%Exists_exists. cbn in Ei. subst i. apply elem_of_map_to_list in Hin.
       apply lookup_delete_Some in Hin as [Hne Hin]. apply Hne. symmetry. by apply (table_inj v conv c id). }
  cbn [orb]. destruct (rel_some _ _ _ _ _ O1 Hs) as (s2 & Hs2 & _). wp_step. wp_step. apply wp_gets.
  cbn [heap_ upd upd_sessions_]. rewrite Hs2. cbn [of_option]. wp_step. wp_step.
  destruct (wp_run _ _ _ (delete_KcpSession_spec s2 (sv_net v2))) as ([] & n' & Hr & Hl & Hsent).
  eapply wp_of_run; [cbn [sv_net upd upd_sessions_]; by rewrite Hr|]. apply wp_modify.
  assert (forall j, j ∈ users_ v2 -> j <> id) as Hju by (rewrite O3; set_solver).
  split; [|split; [|splits]]; try done.
  - destruct Hv2 as [V1 V2 V3 V4 V5]. constructor; cbn; try done.
    + intros j t [Hne Hj]%lookup_delete_Some. by apply (V1 j).
    + rewrite Hl. rewrite (blocks_delete _ _ _ Hs2) in V2. lia.
    + by rewrite Hsent.
    + intros j Hj. rewrite lookup_delete_ne by (intros ->; by apply (Hju j)). by apply V5.
  - constructor; cbn.
    + intros c j. rewrite O2. destruct (decide (c = conv)) as [->|Hne].
      { rewrite lookup_delete_eq. split; [done|]. intros (t & [Hji Hj]%lookup_delete_Some & Hcj). exfalso.
        destruct (rel_some_r _ _ _ _ _ O1 Hj) as (t0 & Hj0 & Et & _). assert (sessions_ v !! conv = Some j) as E.
        { apply (t_table v Ht). exists t0. by rewrite <- Et. }
        congruence. }
      rewrite lookup_delete_ne by done. rewrite (t_table v Ht). split; intros (t & Hj & Hcj).
      * destruct (rel_some _ _ _ _ _ O1 Hj) as (t' & Hj' & Et & _). exists t'. rewrite Et. split; [|done].
        rewrite lookup_delete_ne; [done|]. intros ->. congruence.
      * apply lookup_delete_Some in Hj as [_ Hj]. destruct (rel_some_r _ _ _ _ _ O1 Hj) as (t0 & Hj0 & Et & _). exists t0. by rewrite <- Et.
    + intros j [t [Hji Hj]%lookup_delete_Some]. rewrite O3. destruct (rel_some_r _ _ _ _ _ O1 Hj) as (t0 & Hj0 & _).
      apply elem_of_difference. split; [apply (t_users v Ht); by exists t0 | by intros ->%elem_of_singleton].
  - cbn. by rewrite O2.
  - cbn. by apply rel_delete.
Qed.

(** The peer has been silent for too long at time [t]. *)
Definition expired (t : Z) (s : KcpSession) : bool :=
  is_server (kcp_opt_ s) &&
  (keep_alive_timeout (kcp_opt_ s) <? t - (if recv_latest_time s =? 0 then t else recv_latest_time s)).

Lemma heap_expired v v' id t :
  match heap_ v !! id, heap_ v' !! id with Some s, Some s' => same_inbox s s' | None, None => True | _, _ => False end ->
  (exists s, heap_ v' !! id = Some s /\ expired t s = true) <-> (exists s, heap_ v !! id = Some s /\ expired t s = true).
Proof.
  destruct (heap_ v !! id) as [s|], (heap_ v' !! id) as [s'|].
  2-4: intros H; try done; split; intros (? & ? & _); done.
  intros (Eo & _ & Et). assert (expired t s' = expired t s) as E by (unfold expired; by rewrite Eo, Et).
  split; intros (x & [= <-] & Hx); [exists s | exists s']; split; congruence.
Qed.

(** The pass over the sessions: it closes those whose time is over, at the time it looks. *)
Lemma update_all_spec D A L l : forall v, vok D A L v -> table v -> A < 2147483648 -> NoDup l.*1 ->
  (forall c id, (c, id) ∈ l -> sessions_ v !! c = Some id) ->
  wp (update_all clock_at l) (fun _ v' => vok D A L v' /\ table v' /\ buf_ v' = buf_ v /\
    forall t, (forall n, Latency.iclock64 (clock_at n) = t) -> forall c id,
      sessions_ v' !! c = Some id <->
      sessions_ v !! c = Some id /\ ~ ((c, id) ∈ l /\ exists s, heap_ v !! id = Some s /\ expired t s = true)) v.
Proof.
  induction l as [|[c0 id0] l IH]; intros v Hv Ht HA Hnd Hl; cbn [update_all].
  { wp_step. splits; try done. intros t _ c id. split; [intros H; split; [done | by intros [?%elem_of_nil _]] | by intros []]. }
  apply NoDup_cons in Hnd as [Hnin Hnd]. pose proof (Hl c0 id0 ltac:(by left)) as Hc0.
  pose proof Hc0 as (s0 & Hs0 & Hsc)%(t_table v Ht). unfold iclock64. wp_step. wp_step. apply wp_gets. wp_step. apply wp_modify. wp_step.
  match goal with |- wp _ _ ?x => set (v1 := x) end. set (t0 := Latency.iclock64 (clock_at (n_clock v))). wp_step.
  assert (vok D A L v1) as Hv1 by (destruct Hv; by constructor).
  eapply (on_session_spec D A D A L id0 s0 _ (fun b s' => recv_latest_time s' = (if recv_latest_time s0 =? 0 then t0 else recv_latest_time s0) /\
    b = expired t0 s0) _ v1 Hv1 Hs0); [lia | lia | |].
  { eapply wp_mono; [apply (Update_spec alloc_ok froms D A); [exact (v_sess _ _ _ _ Hv _ _ Hs0) | lia]|]. cbv beta.
    intros [b s'] n' (Hm & Ht1 & Hb). done. }
  intros b s1 n1. cbv zeta. match goal with |- vok _ _ _ ?x -> _ => set (v2 := x) end. intros Hv2 [_ ->] Hid _.
  assert (rel same_id (heap_ v) (heap_ v2)) as Hr2 by (apply (rel_insert _ _ _ s0); [by intros | done | done]).
  assert (table v2) as Ht2 by (by apply (table_rel v)).
  assert (forall c id, (c, id) ∈ l -> c <> c0) as Hne.
  { intros c id Hin ->. apply Hnin. apply list_elem_of_fmap. by exists (c0, id). }
  assert (forall v3, vok D A L v3 -> table v3 -> buf_ v3 = buf_ v ->
    (forall c id, (c, id) ∈ l -> sessions_ v3 !! c = Some id) ->
    (forall c id, (c, id) ∈ l -> forall t, (exists s, heap_ v3 !! id = Some s /\ expired t s = true) <-> (exists s, heap_ v !! id = Some s /\ expired t s = true)) ->
    (forall c id, sessions_ v3 !! c = Some id <-> sessions_ v !! c = Some id /\ ~ (c = c0 /\ expired t0 s0 = true)) ->
    wp (update_all clock_at l) (fun _ v' => vok D A L v' /\ table v' /\ buf_ v' = buf_ v /\
      forall t, (forall n, Latency.iclock64 (clock_at n) = t) -> forall c id,
        sessions_ v' !! c = Some id <->
        sessions_ v !! c = Some id /\ ~ ((c, id) ∈ (c0, id0) :: l /\ exists s, heap_ v !! id = Some s /\ expired t s = true)) v3) as Hrest.
  { intros v3 Hv3 Ht3 Hb3 Hl3 Hx Hs3. eapply wp_mono; [by apply IH|]. cbv beta. intros _ v' (H1 & H2 & H3 & H4).
    splits; [done | done | congruence |]. intros t Htt c id. rewrite (H4 t Htt c id), Hs3. assert (t0 = t) as -> by apply Htt.
    split.
    - intros [[Hc Hn0] Hn]. split; [done|]. intros [[[= -> ->]|Hin]%elem_of_cons He].
      + apply Hn0. split; [done|]. destruct He as (s & Es & He). congruence.
      + apply Hn. split; [done|]. by apply (Hx c).
    - intros [Hc Hn]. split; [split; [done|]|].
      + intros [-> He]. apply Hn. assert (id = id0) as -> by congruence. split; [by left | by exists s0].
      + intros [Hin He]. apply Hn. split; [by right | by apply (Hx c)]. }
  assert (forall c id, (c, id) ∈ l -> id <> id0) as Hnid.
  { intros c id Hin ->. apply (Hne c id0 Hin). apply (table_inj v c0 c id0 Ht Hc0). apply Hl. by right. }
  destruct (expired t0 s0) eqn:He.
  - apply wp_bind. eapply wp_mono; [apply (close_spec D A L c0 id0 v2 Hv2 Ht2 Hc0)|]. cbv beta.
    intros _ v3 (Hv3 & Ht3 & Es3 & Hr3 & Hb3 & _). change (sessions_ v2) with (sessions_ v) in Es3.
    apply Hrest; [done | done | done | | |].
    + intros c id Hin. rewrite Es3, lookup_delete_ne; [apply Hl; by right|]. intros <-. by apply (Hne c0 id).
    + intros c id Hin t. apply (heap_expired v v3 id t). specialize (Hr3 id). rewrite lookup_delete_ne in Hr3 by (intros <-; by apply (Hnid c id0)).
      cbn [heap_ v2 upd upd_heap_ upd_sv_net] in Hr3. rewrite lookup_insert_ne in Hr3 by (intros <-; by apply (Hnid c id0)). exact Hr3.
    + intros c id. rewrite Es3, lookup_delete_Some. split; [intros [Hn Hc]; split; [done|]; by intros [-> _] | intros [Hc Hn]; split; [|done]].
      intros <-. by apply Hn.
  - apply wp_bind. wp_step. apply Hrest; [done | done | done | | |].
    + intros c id Hin. apply Hl. by right.
    + intros c id Hin t. apply (heap_expired v v2 id t). cbn [heap_ v2 upd upd_heap_ upd_sv_net]. rewrite lookup_insert_ne by (intros <-; by apply (Hnid c id0)).
      change (heap_ v1) with (heap_ v). destruct (heap_ v !! id); done.
    + intros c id. change (sessions_ v2) with (sessions_ v). split; [intros Hc; split; [done|]; by intros [_ ?] | by intros []].
Qed.

Lemma Update_pass_spec D A L v : vok D A L v -> table v -> A < 2147483648 ->
  wp (Update clock_at) (fun _ v' => vok D A L v' /\ table v' /\ buf_ v' = buf_ v /\
    forall t, (forall n, Latency.iclock64 (clock_at n) = t) -> forall c id,
      sessions_ v' !! c = Some id <->
      sessions_ v !! c = Some id /\ ~ exists s, heap_ v !! id = Some s /\ expired t s = true) v.
Proof.
  intros Hv Ht HA. unfold Update. wp_step. apply wp_gets.
  eapply wp_mono; [apply (update_all_spec D A L _ v Hv Ht HA); [apply NoDup_fst_map_to_list | by intros c id ?%elem_of_map_to_list]|].
  cbv beta. intros _ v' (H1 & H2 & H3 & H4). splits; try done. intros t Htt c id. rewrite (H4 t Htt c id), elem_of_map_to_list. naive_solver.
Qed.

(** ** Datagrams *)

Lemma recv_all_spec D A L id fuel : forall v s, vok D A L v -> table v -> D < 2147483648 ->
  heap_ v !! id = Some s -> (waiting (kcp_ s) < fuel)%nat ->
  wp (recv_all clock_at fuel id) (fun _ v' => vok D A L v' /\ table v') v.
Proof.
  induction fuel as [|fuel IH]; intros v s Hv Ht HD Hs Hf; [lia|]. cbn [recv_all]. wp_step. apply wp_gets. wp_step.
  pose proof (v_buf _ _ _ _ Hv) as Hbuf. unfold body_size in *.
  eapply (on_session_spec D A D A L id s _ (fun r s' => (0 <= r.1 -> (waiting (kcp_ s') < waiting (kcp_ s))%nat) /\
    length r.2 = length (buf_ v)) _ v Hv Hs); [lia | lia | |].
  { eapply wp_mono; [apply (Recv_spec froms D A s (buf_ v) 4096); [exact (v_sess _ _ _ _ Hv _ _ Hs) | done | lia | lia]|]. cbv beta.
    intros [[len b] s'] n' (Hm & Hw & Hl & _ & _). done. }
  intros [len b] s1 n1. cbn [fst snd]. cbv zeta. match goal with |- vok _ _ _ ?x -> _ => set (v1 := x) end. intros Hv1 [Hw Hb] Hid _.
  wp_step. apply wp_modify. match goal with |- wp _ _ ?x => set (v2 := x) end.
  assert (table v1) as Ht1 by (apply (table_rel v); [done | done | done | apply (rel_insert _ _ _ s); [by intros | done | done]]).
  assert (vok D A L v2) as Hv2 by (destruct Hv1; constructor; try done; cbn; unfold body_size in *; lia).
  assert (table v2) as Ht2 by (by apply (table_rel v1); [..|apply rel_refl]).
  assert (heap_ v2 !! id = Some s1) as Hs2 by (cbn; by rewrite lookup_insert_eq).
  clearbody v2. clear v1 Hv1 Ht1. destruct (len =? -3); [by wp_step|]. destruct (Z.leb_spec len 0) as [|Hlen]; [by wp_step|].
  specialize (Hw ltac:(lia)). destruct (is_keep_alive b).
  - unfold iclock64, get_session, put_session. wp_step. wp_step. apply wp_gets. wp_step. apply wp_modify. wp_step.
    wp_step. wp_step. apply wp_gets. cbn [heap_ upd upd_n_clock]. rewrite Hs2. cbn [of_option]. wp_step. wp_step. apply wp_modify.
    match goal with |- wp _ _ ?x => set (v3 := x) end. set (s3 := SetKeepAlive s1 _) in *.
    assert (session_ok froms D A s3) as Hok3 by (destruct (v_sess _ _ _ _ Hv2 _ _ Hs2); by constructor).
    pose proof (put_session_ok D A L id s1 s3 v2 Hv2 Hs2 Hok3 eq_refl) as Hv3.
    pose proof (put_session_table id s1 s3 v2 Ht2 Hs2 eq_refl) as Ht3.
    apply (IH v3 s3); [destruct Hv3; by constructor | by apply (table_rel _ _ Ht3); [..|apply rel_refl] | done | cbn; by rewrite lookup_insert_eq | change (kcp_ s3) with (kcp_ s1); lia].
  - wp_step. eapply wp_mono; [apply (HandleMessage_spec D A L id _ v2 Hv2); by exists s1|]. intros _ v3 [Hv3 Hn].
    destruct (rel_some _ _ _ _ _ (o_heap _ _ Hn) Hs2) as (s3 & Hs3 & _ & Ew & _).
    apply (IH v3 s3); [done | by apply (notified_table v2) | done | done | lia].
Qed.

Lemma HandleSession_spec D A L id len v : vok D A L v -> table v -> is_Some (heap_ v !! id) -> 0 <= len <= 4096 ->
  D + 4096 < 2147483648 -> A + 170 < 2147483648 ->
  wp (HandleSession clock_at id len) (fun _ v' => vok (D + 4096) (A + 170) L v' /\ table v') v.
Proof.
  intros Hv Ht [s Hs] Hlen HD HA. unfold HandleSession, get_session. wp_step. apply wp_gets. wp_step.
  pose proof (v_buf _ _ _ _ Hv) as Hbuf. unfold body_size in Hbuf. set (d := take (Z.to_nat len) (buf_ v)).
  assert (Z.of_nat (length d) = len) as Hd by (subst d; rewrite length_take; lia).
  assert (len / 24 <= 170) by (apply (Z.div_le_mono _ 4096 24); lia).
  eapply (on_session_spec D A (D + 4096) (A + 170) L id s _ (fun _ _ => True) _ v Hv Hs); [lia | lia | |].
  { eapply wp_mono; [rewrite <- Hd; apply (Input_spec alloc_ok froms D A s d); [exact (v_sess _ _ _ _ Hv _ _ Hs) | rewrite Hd; lia]|]. cbv beta.
    intros [r s'] n'. rewrite Hd. intros [[] _]. split; [|done]. constructor; try done. eapply session_ok_le; [..|done]; lia. }
  intros r s1 n1. cbv zeta. match goal with |- vok _ _ _ ?x -> _ => set (v1 := x) end. intros Hv1 _ Hid _.
  assert (table v1) as Ht1 by (apply (table_rel v); [done | done | done | apply (rel_insert _ _ _ s); [by intros | done | done]]).
  destruct (negb _); [by wp_step|]. wp_step. wp_step. apply wp_gets. cbn [heap_ v1 upd upd_heap_ upd_sv_net]. rewrite lookup_insert_eq.
  cbn [of_option]. wp_step. apply (recv_all_spec (D + 4096) (A + 170) L id _ v1 s1 Hv1 Ht1); [lia | cbn; by rewrite lookup_insert_eq |].
  unfold recv_fuel, waiting. lia.
Qed.

(** What comes from the network and the other thread: anything, from peers of [froms]. *)
Definition from_peer (e : happening) : Prop := match e with Datagram _ a => a ∈ froms | _ => True end.

Lemma happen_spec D A L e v : 0 <= D -> 0 <= A -> vok D A L v -> table v -> from_peer e ->
  D + 4096 < 2147483648 -> A + 170 < 2147483648 ->
  wp (happen clock_at opt e) (fun _ v' => vok (D + 4096) (A + 170) L v' /\ table v') v.
Proof.
  intros HD0 HA0 Hv Ht He HD HA. pose proof (v_buf _ _ _ _ Hv) as Hbuf. unfold body_size in Hbuf.
  assert (forall len d from, len <= 4096 -> len <= Z.of_nat (length d) -> (24 <= len -> from ∈ froms) ->
    wp (run_round clock_at opt len d from) (fun _ v' => vok (D + 4096) (A + 170) L v' /\ table v') v) as Hround.
  { intros len d from Hlen Hd Hfrom. unfold run_round. wp_step. apply wp_modify. match goal with |- wp _ _ ?x => set (v1 := x) end.
    assert (vok D A L v1) as Hv1.
    { destruct Hv. constructor; try done. cbn. rewrite length_app, length_take, length_drop. unfold body_size. lia. }
    assert (table v1) as Ht1 by (by apply (table_rel v); [..|apply rel_refl]).
    assert (vok (D + 4096) (A + 170) L v1) by (eapply vok_le; [..|exact Hv1]; lia).
    destruct (Check len) eqn:Hc; cbn [negb]; [|by wp_step]. assert (24 <= len) as H24.
    { unfold Check in Hc. destruct (len =? -1); [done|]. destruct (Z.ltb_spec len 24); [done | lia]. }
    wp_step. apply wp_gets. unfold GetConv. wp_step. wp_step. pose proof (v_buf _ _ _ _ Hv1) as Hb1. unfold body_size in Hb1.
    destruct (decode32u_total (buf_ v1)) as (cv & d1 & -> & _); [lia|]. cbn [of_option]. wp_step. wp_step. wp_step.
    eapply wp_mono; [apply (GetSession_spec D A L cv from v1); auto|]. cbv beta. intros id v2 (Hv2 & _ & Ht2 & s & Hs & _).
    apply (HandleSession_spec D A L id len v2 Hv2 Ht2); [by exists s | lia | done | done]. }
  destruct e as [d from| |]; cbn [happen].
  - apply Hround; [unfold body_size; lia | lia | by intros _].
  - apply Hround; [lia | cbn; lia | lia].
  - wp_step. eapply wp_mono; [apply (Update_pass_spec D A L v Hv Ht); lia|]. intros _ v' (Hv' & Ht' & _). wp_step.
    split; [eapply vok_le; [..|exact Hv']; lia | done].
Qed.

Lemma Run_spec L es : forall D A v, 0 <= D -> 0 <= A -> vok D A L v -> table v -> Forall from_peer es ->
  D + 4096 * Z.of_nat (length es) < 2147483648 -> A + 170 * Z.of_nat (length es) < 2147483648 ->
  wp (Run clock_at opt es) (fun _ v' => vok 2147483647 2147483647 L v' /\ table v') v.
Proof.
  induction es as [|e es IH]; intros D A v HD0 HA0 Hv Ht He HD HA; cbn [Run length] in *.
  { wp_step. split; [eapply vok_le; [..|exact Hv]; lia | done]. }
  apply Forall_cons_1 in He as [He Hes]. wp_step. eapply wp_mono; [apply (happen_spec D A L e v); try done; lia|].
  intros stop v1 [Hv1 Ht1]. destruct stop.
  - wp_step. split; [eapply vok_le; [..|exact Hv1]; lia | done].
  - apply (IH (D + 4096) (A + 170)); try done; lia.
Qed.
End Spec.
