(* ===== verification/ChatServerProps.v ===== *)
(** * The chat server: what every run keeps, whom a pass drops, and what a message does. *)
From S2P Require Import Prelude KcpBase KcpCodec KcpSend KcpRecv KcpInput KcpFlush KcpInv KcpApi KcpDemo KcpStream KcpCalls.
From S2P Require Import KcpInputSpec CLib Latency KcpSession KcpSessionSpec ChatServer ChatServerSpec.
From Stdlib Require Import Lia.
From stdpp Require Import base list numbers strings gmap sets.
Open Scope Z_scope.
Open Scope c_scope.

Section Runs.
Context {alloc : Allocator} (alloc_ok : forall n size, malloc n size <> None).
Context {sa : SessionAlloc} {sa_ok : SessionAllocOk}.

Lemma chat_opt_ok : opt_sndwnd chat_opt < 2147483648 /\ opt_rcvwnd chat_opt < 2147483648.
Proof. split; cbn; lia. Qed.

Lemma new_server_ok froms w : vok froms 0 0 (w_live w) (new_server w) /\ table (new_server w).
Proof.
  split; constructor; cbn.
  - intros id s. by rewrite lookup_empty.
  - unfold blocks. rewrite map_fold_empty. lia.
  - done.
  - by rewrite length_replicate.
  - intros id []%not_elem_of_empty.
  - intros c id. rewrite lookup_empty. split; [done|]. intros (s & Hs & _). by rewrite lookup_empty in Hs.
  - intros id [s Hs]. by rewrite lookup_empty in Hs.
Qed.

(** The state that a run of [main] leaves. *)
Lemma chat_main_ok clock_at froms es w : Forall (from_peer froms) es -> 4096 * Z.of_nat (length es) < 2147483648 ->
  exists stop v, chat_main clock_at true es w = Some (Ok stop v) /\
    vok froms 2147483647 2147483647 (w_live w) v /\ table v.
Proof.
  intros Hes Hn. destruct (new_server_ok froms w) as [Hv Ht].
  destruct (wp_run _ _ _ (Run_spec alloc_ok clock_at chat_opt froms chat_opt_ok (w_live w) es 0 0 (new_server w)
    ltac:(lia) ltac:(lia) Hv Ht Hes ltac:(lia) ltac:(lia))) as (stop & v & Hr & Hv' & Ht').
  exists stop, v. unfold chat_main. by rewrite Hr.
Qed.

(** C24: the chat server survives every sequence of datagrams, errors and passes: it never
    touches a session that is gone or a byte outside a buffer, the table, the users and the
    heap hold the same sessions, each under its conversation number, every block of a
    session that was dropped has been freed, and what it sends are datagrams within the MTU
    to addresses it has heard from. *)
Theorem chat_server_safe clock_at froms es w :
  Forall (from_peer froms) es -> 4096 * Z.of_nat (length es) < 2147483648 ->
  exists stop v, chat_main clock_at true es w = Some (Ok stop v) /\
    (forall c id, sessions_ v !! c = Some id <-> exists s, heap_ v !! id = Some s /\ opt_conv (kcp_opt_ s) = c) /\
    (forall id, id ∈ users_ v <-> is_Some (heap_ v !! id)) /\
    (forall id s, heap_ v !! id = Some s -> wf (kcp_ s) /\ addr_ s ∈ froms) /\
    w_live (n_world (sv_net v)) = w_live w + blocks (heap_ v) /\
    Forall (fun p => p.1 ∈ froms /\ Z.of_nat (length p.2) <= 1400) (n_sent (sv_net v)).
Proof.
  intros Hes Hn. destruct (chat_main_ok clock_at froms es w Hes Hn) as (stop & v & Hr & [V1 V2 V3 V4 V5] & [T1 T2]).
  exists stop, v. splits; try done.
  - intros id. split; [apply V5 | apply T2].
  - intros id s Hs. by destruct (V1 id s Hs).
  - lia.
Qed.

(** A pass over the sessions at time [t], in any state the server reaches, completes,
    and leaves in the table those sessions that have been heard from in time, and no other. *)
Theorem chat_update_expires clock_at pass_at t froms es w v :
  Forall (from_peer froms) es -> 4096 * Z.of_nat (length es) < 2147483648 ->
  chat_main clock_at true es w = Some (Ok false v) ->
  (forall n, Latency.iclock64 (pass_at n) = t) ->
  exists v', Update pass_at v = Ok tt v' /\
    (forall c id, sessions_ v' !! c = Some id <->
      sessions_ v !! c = Some id /\ exists s, heap_ v !! id = Some s /\ expired t s = false) /\
    (forall id, id ∈ users_ v' <-> exists c, sessions_ v' !! c = Some id).
Proof.
  intros Hes Hn Hr Hp. destruct (chat_main_ok clock_at froms es w Hes Hn) as (stop & v1 & Hr' & Hv & Ht).
  rewrite Hr in Hr'. injection Hr' as <- <-.
  destruct (wp_run _ _ _ (Update_pass_spec alloc_ok pass_at chat_opt froms chat_opt_ok _ _ _ v Hv Ht ltac:(lia))) as ([] & v' & Hu & Hv' & Ht' & _ & He).
  exists v'. split; [done|]. split.
  - intros c id. rewrite (He t Hp). split; intros [Hc Hx]; (split; [done|]).
    + pose proof Hc as (s & Hs & _)%(t_table v Ht). exists s. split; [done|].
      apply not_true_is_false. intros Hs'. apply Hx. by exists s.
    + intros (s' & Hs' & Hx'). destruct Hx as (s & Hs & Hx). rewrite Hs in Hs'. injection Hs' as <-. congruence.
  - intros id. split.
    + intros Hid. destruct (v_users _ _ _ _ _ Hv' id Hid) as [s Hs]. exists (opt_conv (kcp_opt_ s)). apply (t_table v' Ht'). by exists s.
    + intros (c & (s & Hs & _)%(t_table v' Ht')). apply (t_users v' Ht'). by exists s.
Qed.
End Runs.

(** ** A server at work *)

(** The first address above those in use. *)
#[local] Instance next_addr : SessionAlloc := fun h => 1 + foldr Z.max 0 (map fst (map_to_list h)).

Lemma foldr_max_ge (l : list Z) x : x ∈ l -> x <= foldr Z.max 0 l.
Proof. induction 1; cbn; lia. Qed.

#[local] Instance next_addr_ok : SessionAllocOk.
Proof.
  intros h. destruct (h !! new_address h) as [s|] eqn:E; [|done]. exfalso.
  apply elem_of_map_to_list in E. assert (new_address h ∈ map fst (map_to_list h)) as Hin by (apply list_elem_of_fmap; by exists (new_address h, s)).
  apply foldr_max_ge in Hin. unfold new_address, next_addr in *. lia.
Qed.

Definition alice : sockaddr_in := mkaddr [127; 0; 0; 1] 256.
(** A millisecond per look at the clock. *)
Definition ms_clock (n : nat) : timeval := mktimeval 1000 (Z.of_nat n * 1000).

(** A client of conversation 5 that sends [msgs] at once, and a pass. *)
Definition chat_events (msgs : list (list Z)) : list happening :=
  map (fun d => Datagram d alice) (peer_datagrams 5 msgs) ++ [Tick].

Definition chat_state (es : list happening) : server :=
  match chat_main ms_clock true es world0 with Some (Ok _ v) => v | _ => new_server world0 end.

(** One client that says "Hi". *)
Definition hi_events : list happening := Eval vm_compute in chat_events [text "Hi"].
Definition hi_state : server := Eval vm_compute in chat_state hi_events.

Lemma hi_from : Forall (from_peer [alice]) hi_events.
Proof. repeat constructor. Qed.
Lemma hi_short : 4096 * Z.of_nat (length hi_events) < 2147483648.
Proof. vm_compute. reflexivity. Qed.
Lemma hi_runs : chat_main ms_clock true hi_events world0 = Some (Ok false hi_state).
Proof. vm_compute. reflexivity. Qed.

Lemma chat_server_safe_witness :
  exists stop v, chat_main ms_clock true hi_events world0 = Some (Ok stop v) /\
    (forall id, id ∈ users_ v <-> is_Some (heap_ v !! id)) /\
    w_live (n_world (sv_net v)) = w_live world0 + blocks (heap_ v).
Proof.
  destruct (chat_server_safe demo_alloc_ok ms_clock [alice] hi_events world0 hi_from hi_short)
    as (stop & v & Hr & _ & Hu & _ & Hl & _).
  exists stop, v. exact (conj Hr (conj Hu Hl)).
Defined.

(** A pass more than five seconds after the first. *)
Definition late (n : nat) : timeval := mktimeval 1005 9000.

Lemma chat_update_expires_witness :
  exists v', Update late hi_state = Ok tt v' /\
    (forall c id, sessions_ v' !! c = Some id <->
      sessions_ hi_state !! c = Some id /\ exists s, heap_ hi_state !! id = Some s /\ expired 1005009 s = false) /\
    (forall id, id ∈ users_ v' <-> exists c, sessions_ v' !! c = Some id).
Proof.
  exact (chat_update_expires demo_alloc_ok ms_clock late 1005009 [alice] hi_events world0 hi_state
    hi_from hi_short hi_runs (fun _ => eq_refl)).
Defined.

(** What the server was told, what it sent, whom it has, and whether it has exited. *)
Definition run_chat (es : list happening) : option (bool * list (Z * list Z) * list nat * list (Z * Z)) :=
  match chat_main ms_clock true es world0 with
  | Some (Ok stop v) => Some (stop, said v, map (fun p => length p.2) (n_sent (sv_net v)), map_to_list (sessions_ v))
  | _ => None
  end.

(** A message is taken, and acknowledged at the next pass. *)
Example chat_says : run_chat (chat_events [text "Hi"]) = Some (false, [(1, text "Hi")], [24%nat], [(5, 1)]).
Proof. vm_compute. reflexivity. Qed.

(** [memcmp] looks at nineteen bytes of the buffer whatever the length of the message: a
    short message after a keep-alive is taken for a keep-alive when it is a prefix of it. *)
Example chat_prefix_lost :
  run_chat (chat_events [KCP_KEEP_ALIVE_CMD; text "KCP"]) = Some (false, [], [48%nat], [(5, 1)]) /\
  run_chat (chat_events [text "KCP"]) = Some (false, [(1, text "KCP")], [24%nat], [(5, 1)]).
Proof. split; vm_compute; reflexivity. Qed.

(** A message longer than the buffer ends the process, and so does any client that sends one. *)
Example chat_exits : exists said sent t,
  run_chat (chat_events [replicate (Z.to_nat 4097) 7]) = Some (true, said, sent, t).
Proof. eexists _, _, _. vm_compute. reflexivity. Qed.

(** Only a keep-alive renews a session: a client that says something every three seconds is
    dropped at the third pass, right after its third message. *)
Definition talk : list (list Z) :=
  match run_from (ikcp_create 5 0 world0) [CSetoutput true; CNodelay 1 10 2 1; say [1]; CUpdate 0;
          say [2]; CUpdate 3000; say [3]; CUpdate 6000] with
  | Some (_, w) => outputs w
  | None => []
  end.
Definition three_seconds (n : nat) : timeval := mktimeval (1000 + 3 * Z.of_nat n) 0.
Example chat_drops_talker :
  match chat_main three_seconds true (concat (map (fun d => [Datagram d alice; Tick]) talk)) world0 with
  | Some (Ok stop v) => Some (stop, said v, map_to_list (sessions_ v))
  | _ => None
  end = Some (false, [(1, [1]); (1, [2]); (1, [3])], []).
Proof. vm_compute. reflexivity. Qed.
