(* ===== verification/ChatClient.v ===== *)
(** * kcp_client.h, kcp_client.cc and chat_client.cc: one session with a terminal.

    [ChatClient] has two threads.  One runs [KcpClient::Run] again and again; the other
    reads lines and sends them.  They meet at the mutex of the session, which each takes
    for one call, so a run is a sequence of lines and of steps of the first thread, and
    such a step goes from one call on the session or the socket to the next. *)
From S2P Require Import Prelude KcpBase KcpCodec KcpSend KcpRecv KcpInput KcpFlush CLib Latency KcpSession.
From stdpp Require Import base list numbers strings.
Open Scope Z_scope.
Open Scope c_scope.

Definition max_body_size : Z := 4096.
Definition KCP_HEADER_SIZE : Z := 24.

(** A [std::string]: its bytes with the terminator and what lies behind it in its block,
    and its size. *)
Record cstring : Type := mkstring { s_block : list Z; s_size : Z }.

(** [std::string(n, c)] *)
Definition string_of (n c : Z) : cstring := mkstring (replicate (Z.to_nat n) c ++ [0]) n.

(** [resize(n)] within the block: new characters are zeros, and a terminator follows. *)
Definition string_resize (s : cstring) (n : Z) : cstring :=
  let b :=
    if s_size s <? n
    then take (Z.to_nat (s_size s)) (s_block s) ++ replicate (Z.to_nat (n - s_size s)) 0 ++ drop (Z.to_nat n) (s_block s)
    else s_block s in
  mkstring (<[Z.to_nat n := 0]> b) n.

(** The characters. *)
Definition contents (s : cstring) : list Z := take (Z.to_nat (s_size s)) (s_block s).

(** Where the thread of [Run] is. *)
Inductive place : Type :=
  | AtUpdate
  | AtRecvFrom
  | AtInput (buf : list Z)
  | AtRecv (body : cstring)
  | Ended
  | Exited.

Record client : Type := mkclient {
  server_addr_ : sockaddr_in;
  session_ : KcpSession;
  cl_net : net;
  at_ : place;
  printed : list (list Z);
}.
Definition eta_client (c : client) : client := mkclient (server_addr_ c) (session_ c) (cl_net c) (at_ c) (printed c).
#[export] Instance upd_session_ : Upd session_ := ltac:(build_upd eta_client session_).
#[export] Instance upd_cl_net : Upd cl_net := ltac:(build_upd eta_client cl_net).
#[export] Instance upd_at_ : Upd at_ := ltac:(build_upd eta_client at_).
#[export] Instance upd_printed : Upd printed := ltac:(build_upd eta_client printed).

(** What the thread of [Run] meets: the time, what [recvfrom] answers, the datagram, and
    the sender's address, which is arbitrary when there is none. *)
Record outside : Type := mkoutside { o_time : timeval; o_ret : Z; o_data : list Z; o_from : sockaddr_in }.

Inductive happening : Type :=
  | Line (msg : list Z)
  | Thread (o : outside).

Section Client.
Context {alloc : Allocator}.

(** A method of the session. *)
Definition on_session {A} (m : KcpSession -> M net (A * KcpSession)) : M client A :=
  fun c => match m (session_ c) (cl_net c) with
  | Ok (a, s) n => Ok a (c<|session_ := s|><|cl_net := n|>)
  | Fault f => Fault f
  end.

Definition goto (p : place) : M client unit := modify (fun c => c<|at_ := p|>).

Definition HandleMessage (msg : list Z) : M client unit := modify (fun c => c<|printed := printed c ++ [msg]|>).
Definition HandleClose : M client unit :=
  modify (fun c => c<|printed := printed c ++ [text "close kcp connection!"]|>);;; goto Exited.

(** [KcpClient::Send] *)
Definition client_send (data : list Z) (size : Z) : M client Z := on_session (fun s => Send s data size).

Definition CheckRet (len : Z) : bool := if len =? -1 then false else if len <? KCP_HEADER_SIZE then false else true.

(** ** [KcpClient::Run], from one call to the next *)

Definition run_update (t : timeval) : M client unit :=
  let! gone := on_session (fun s => Update s (iclock64 t)) in
  if (gone : bool) then HandleClose else goto AtRecvFrom.

Definition run_recvfrom (o : outside) : M client unit :=
  let! addr := gets server_addr_ in
  let len := Z.min (o_ret o) 4096 in
  if bool_decide (sin_port (o_from o) <> sin_port addr) || bool_decide (sin_addr (o_from o) <> sin_addr addr)
  then goto AtUpdate
  else if negb (CheckRet len) then goto AtUpdate
  else goto (AtInput (take (Z.to_nat len) (o_data o))).

Definition run_input (buf : list Z) : M client unit :=
  let! len := on_session (fun s => Input s buf (Z.of_nat (length buf))) in
  if negb (len =? 0) then goto Ended else goto (AtRecv (string_of max_body_size 97)).

Definition run_recv (body : cstring) : M client unit :=
  let! ' (len, b) := on_session (fun s => Recv s (s_block body) max_body_size) in
  if len =? -3 then goto Exited
  else if len <=? 0 then goto AtUpdate
  else
    let body := string_resize (mkstring b (s_size body)) len in
    HandleMessage (contents body);;;
    goto (AtRecv body).

Definition thread_step (o : outside) : M client unit :=
  let! p := gets at_ in
  match p with
  | AtUpdate => run_update (o_time o)
  | AtRecvFrom => run_recvfrom o
  | AtInput buf => run_input buf
  | AtRecv body => run_recv body
  | Ended | Exited => ret tt
  end.

(** ** [ChatClient::Start] *)

Definition line_step (msg : list Z) : M client unit :=
  let! p := gets at_ in
  match p with
  | Exited => ret tt
  | _ => client_send msg (Z.of_nat (length msg));;; ret tt
  end.

Definition happen (e : happening) : M client unit :=
  match e with Line msg => line_step msg | Thread o => thread_step o end.

Fixpoint Start (es : list happening) : M client unit :=
  match es with
  | [] => ret tt
  | e :: es => happen e;;; Start es
  end.

(** The constructor. *)
Definition new_client (addr : sockaddr_in) (opt : KcpOpt) (w : world) : res net client :=
  match new_KcpSession opt addr (mknet w []) with
  | Ok s n => Ok (mkclient addr s n AtUpdate []) n
  | Fault f => Fault f
  end.

(** [main]; [r1] and [r2] are what [rand] gives. *)
Definition client_opt (r1 r2 : Z) : KcpOpt :=
  mkopt false 1000 (u32 (r1 * r2)) (opt_sndwnd default_KcpOpt) (opt_rcvwnd default_KcpOpt) (opt_nodelay default_KcpOpt)
        (opt_interval default_KcpOpt) (opt_resend default_KcpOpt) (opt_nc default_KcpOpt).
Definition chat_client_main (addr : sockaddr_in) (r1 r2 : Z) (es : list happening) (w : world) : res client unit :=
  match new_client addr (client_opt r1 r2) w with
  | Ok c _ => Start es c
  | Fault f => Fault f
  end.
End Client.
