(* ===== verification/ChatClientProps.v ===== *)
(** * The chat client: it survives every datagram, and what it prints of a message. *)
From S2P Require Import Prelude KcpBase KcpCodec KcpSend KcpRecv KcpInput KcpFlush KcpInv KcpApi KcpDemo KcpStream KcpCalls.
From S2P Require Import KcpRecvSpec CLib Latency KcpSession KcpSessionSpec ChatClient.
From Stdlib Require Import Lia.
From stdpp Require Import base list numbers strings.
Open Scope Z_scope.
Open Scope c_scope.

Section Client.
Context {alloc : Allocator} (alloc_ok : forall n size, malloc n size <> None).

(** The block of [body] has room for a whole message, and its size says no more. *)
Definition roomy (s : cstring) : Prop := Z.of_nat (length (s_block s)) = max_body_size + 1 /\ 0 <= s_size s <= max_body_size.

Definition place_ok (p : place) : Prop :=
  match p with
  | AtInput buf => Z.of_nat (length buf) <= 4096
  | AtRecv body => roomy body
  | _ => True
  end.

(** What every step keeps: at most [D] bytes held and [A] acknowledgements due, the blocks
    accounted for, and every datagram sent to the server. *)
Record cok (addr : sockaddr_in) (D A L : Z) (c : client) : Prop := mkcok {
  c_addr : server_addr_ c = addr;
  c_sess : session_ok [addr] D A (session_ c);
  c_live : w_live (n_world (cl_net c)) - heap (kcp_ (session_ c)) = L;
  c_sent : Forall (fit [addr]) (n_sent (cl_net c));
  c_place : place_ok (at_ c);
}.

Lemma cok_le addr D A L D' A' c : D <= D' -> A <= A' -> cok addr D A L c -> cok addr D' A' L c.
Proof. intros ? ? []. constructor; try done. by eapply session_ok_le. Qed.

Lemma roomy_start : roomy (string_of max_body_size 97).
Proof. unfold roomy, string_of. cbn [s_block s_size]. rewrite length_app, length_replicate. unfold max_body_size. cbn. lia. Qed.

(** After a message: the block keeps its length, and what is read of it is the message up
    to the old size, then zeros. *)
Lemma resize_spec b size m : 0 <= size <= max_body_size -> Z.of_nat (length b) = max_body_size + 1 -> Z.of_nat (length m) <= max_body_size ->
  let s := string_resize (mkstring (splice b 0 m) size) (Z.of_nat (length m)) in
  roomy s /\ contents s = take (Z.to_nat size) m ++ replicate (length m - Z.to_nat size) 0.
Proof.
  unfold max_body_size. intros Hs Hb Hm. cbv zeta.
  assert (length (splice b 0 m) = length b) as Hl by (apply length_splice; lia).
  assert (take (length m) (splice b 0 m) = m) as Ht by (unfold splice; rewrite take_0; cbn [app]; apply take_app_length).
  unfold roomy, contents, string_resize. cbn [s_block s_size]. rewrite Nat2Z.id. unfold max_body_size.
  destruct (Z.ltb_spec size (Z.of_nat (length m))) as [Hlt|Hle].
  - assert (length (take (Z.to_nat size) (splice b 0 m) ++ replicate (Z.to_nat (Z.of_nat (length m) - size)) 0 ++ drop (length m) (splice b 0 m)) = length b) as Hn.
    { rewrite !length_app, length_take, length_replicate, length_drop. lia. }
    rewrite length_insert, Hn. split; [lia|]. rewrite take_insert_ge by lia.
    rewrite (assoc_L (++)), take_app_le by (rewrite length_app, length_take, length_replicate; lia).
    rewrite take_ge by (rewrite length_app, length_take, length_replicate; lia).
    f_equal; [|f_equal; lia]. rewrite <- Ht at 2. rewrite take_take. f_equal. lia.
  - rewrite length_insert, Hl. split; [lia|]. rewrite take_insert_ge by lia. rewrite Ht.
    rewrite take_ge by lia. replace (length m - Z.to_nat size)%nat with 0%nat by lia. by rewrite app_nil_r.
Qed.

(** A method of the session. *)
Lemma client_method_spec {B} addr D A D' A' L (m : KcpSession -> M net (B * KcpSession)) (R : B -> KcpSession -> Prop) (Q : B -> client -> Prop) c :
  cok addr D A L c ->
  wp (m (session_ c)) (fun r n' => method [addr] D' A' (session_ c) (cl_net c) r.2 n' /\ R r.1 r.2) (cl_net c) ->
  (forall b s' n', let c' := c<|session_ := s'|><|cl_net := n'|> in cok addr D' A' L c' -> R b s' -> Q b c') ->
  wp (on_session m) Q c.
Proof.
  intros [C1 C2 C3 C4 C5] ([b s'] & n' & Hr & [M1 M2 M3 M4 (ds & M5 & M6)] & HR)%wp_run HQ.
  unfold on_session, wp. rewrite Hr. cbn [fst snd] in *. apply HQ; [|done]. constructor; cbn; try done; try lia.
  rewrite M5. by apply Forall_app.
Qed.

Lemma goto_spec addr D A L p c : cok addr D A L c -> place_ok p -> wp (goto p) (fun _ c' => cok addr D A L c' /\ at_ c' = p /\ session_ c' = session_ c /\ printed c' = printed c) c.
Proof. intros [] Hp. unfold goto. apply wp_modify. split; [by constructor | done]. Qed.

Lemma run_recv_spec addr D A L body c : cok addr D A L c -> roomy body -> D < 2147483648 ->
  wp (run_recv body) (fun _ c' => cok addr D A L c' /\
    (complete (session_ c) -> 0 < Z.of_nat (length (next_message (session_ c))) <= max_body_size ->
     exists body', at_ c' = AtRecv body' /\ s_size body' = Z.of_nat (length (next_message (session_ c))) /\
       printed c' = printed c ++ [take (Z.to_nat (s_size body)) (next_message (session_ c)) ++
                                  replicate (length (next_message (session_ c)) - Z.to_nat (s_size body)) 0])) c.
Proof.
  intros Hc [Hb Hs] HD. unfold run_recv. wp_step. eapply (client_method_spec addr D A D A L _
    (fun x s' => x.1 <= max_body_size /\
      (0 <= x.1 -> x.1 = Z.of_nat (length (next_message (session_ c))) /\ x.2 = splice (s_block body) 0 (next_message (session_ c))) /\
      (complete (session_ c) -> Z.of_nat (length (next_message (session_ c))) <= max_body_size -> 0 <= x.1)) _ c Hc).
  { eapply wp_mono; [apply (Recv_spec [addr] D A _ (s_block body) max_body_size); [apply Hc | done | unfold max_body_size; lia | lia]|].
    intros [[r b] s'] n' (Hm & _ & _ & Hle & _ & H1 & H2). done. }
  intros [len b] s' n'. cbv zeta. match goal with |- cok _ _ _ _ ?x -> _ => set (c1 := x) end. intros Hc1 (Hle & H1 & H2). cbn [fst snd] in *.
  assert (forall p, place_ok p -> ~ (complete (session_ c) /\ 0 < Z.of_nat (length (next_message (session_ c))) <= max_body_size) ->
    wp (goto p) (fun _ c' => cok addr D A L c' /\
    (complete (session_ c) -> 0 < Z.of_nat (length (next_message (session_ c))) <= max_body_size ->
     exists body', at_ c' = AtRecv body' /\ s_size body' = Z.of_nat (length (next_message (session_ c))) /\
       printed c' = printed c ++ [take (Z.to_nat (s_size body)) (next_message (session_ c)) ++
                                  replicate (length (next_message (session_ c)) - Z.to_nat (s_size body)) 0])) c1) as Hgo.
  { intros p Hp Hn. eapply wp_mono; [by apply (goto_spec addr D A L p c1 Hc1)|]. intros _ c' (Hc' & _). split; [done|].
    intros X Y. by destruct Hn. }
  destruct (Z.eqb_spec len (-3)) as [->|Hn3]; [apply Hgo; [done|]; intros [X Y]; specialize (H2 X); lia|].
  destruct (Z.leb_spec len 0) as [Hl0|Hl0].
  { apply Hgo; [done|]. intros [X Y]. specialize (H2 X ltac:(lia)). destruct (H1 ltac:(lia)). lia. }
  destruct (H1 ltac:(lia)) as [-> ->]. clear Hgo H1 H2.
  destruct (resize_spec (s_block body) (s_size body) (next_message (session_ c)) Hs Hb Hle) as [Hroom Hcont].
  unfold HandleMessage. wp_step. apply wp_modify. rewrite Hcont. match goal with |- wp _ _ ?x => set (c2 := x) end.
  assert (cok addr D A L c2) as Hc2 by (destruct Hc1; by constructor).
  eapply wp_mono; [by apply (goto_spec addr D A L _ c2 Hc2)|]. cbv beta. intros _ c' (Hc' & Ha & _ & Hpr). split; [done|].
  intros _ _. eexists. split; [exact Ha|]. split; [done|]. exact Hpr.
Qed.

(** What the thread meets: [recvfrom] gives no more than the datagram has. *)
Definition outside_ok (e : happening) : Prop :=
  match e with Line _ => True | Thread o => o_ret o <= Z.of_nat (length (o_data o)) end.

Lemma client_happen_spec addr D A L e c : 0 <= D -> 0 <= A -> cok addr D A L c -> outside_ok e ->
  D + 4096 < 2147483648 -> A + 170 < 2147483648 ->
  wp (happen e) (fun _ c' => cok addr (D + 4096) (A + 170) L c') c.
Proof.
  intros HD0 HA0 Hc He HD HA. assert (forall c', cok addr D A L c' -> cok addr (D + 4096) (A + 170) L c') as Hle.
  { intros c'. apply cok_le; lia. }
  assert (forall p c1, cok addr D A L c1 -> place_ok p -> wp (goto p) (fun _ c' => cok addr (D + 4096) (A + 170) L c') c1) as Hgo.
  { intros p c1 Hc1 Hp. eapply wp_mono; [by apply (goto_spec addr D A L)|]. intros _ c' (Hc' & _). by apply Hle. }
  destruct e as [msg|o]; cbn [happen]; [unfold line_step|unfold thread_step]; wp_step; apply wp_gets.
  { assert (wp (client_send msg (Z.of_nat (length msg));;; ret tt) (fun _ c' => cok addr (D + 4096) (A + 170) L c') c) as Hsend;
      [|by destruct (at_ c); [..|wp_step; apply Hle]].
    unfold client_send. wp_step. eapply (client_method_spec addr D A D A L _ (fun _ _ => True) _ c Hc).
    { eapply wp_mono; [apply (Send_spec alloc_ok [addr] D A); apply Hc|]. by intros [r s'] n' (Hm & _). }
    intros b s' n' c' Hc' _. wp_step. by apply Hle. }
  pose proof (c_place _ _ _ _ _ Hc) as Hp. destruct (at_ c) as [| |buf|body| |]; cbn [place_ok] in Hp.
  - unfold run_update. wp_step. eapply (client_method_spec addr D A D A L _ (fun _ _ => True) _ c Hc).
    { eapply wp_mono; [apply (Update_spec alloc_ok [addr] D A); [apply Hc | lia]|]. by intros [r s'] n' (Hm & _). }
    intros gone s' n' c' Hc' _. destruct gone; [|by apply Hgo]. unfold HandleClose. wp_step. apply wp_modify. apply Hgo; [|done].
    destruct Hc'. by constructor.
  - unfold run_recvfrom. wp_step. apply wp_gets. cbv zeta. destruct (_ || _); [by apply Hgo|].
    destruct (CheckRet _) eqn:Hck; cbn [negb]; [|by apply Hgo]. apply Hgo; [done|]. cbn [place_ok]. rewrite length_take. lia.
  - unfold run_input. wp_step. assert (Z.of_nat (length buf) / 24 <= 170) by (apply (Z.div_le_mono _ 4096 24); lia).
    eapply (client_method_spec addr D A (D + 4096) (A + 170) L _ (fun _ _ => True) _ c Hc).
    { eapply wp_mono; [apply (Input_spec alloc_ok [addr] D A); [apply Hc | lia]|]. cbv beta. intros [r s'] n' [[] _]. split; [|done].
      constructor; try done. eapply session_ok_le; [..|done]; lia. }
    intros r s' n' c' Hc' _. destruct (negb _).
    + eapply wp_mono; [by apply (goto_spec addr (D + 4096) (A + 170) L)|]. by intros _ c2 (Hc2 & _).
    + eapply wp_mono; [apply (goto_spec addr (D + 4096) (A + 170) L); [done | apply roomy_start]|]. by intros _ c2 (Hc2 & _).
  - eapply wp_mono; [apply (run_recv_spec addr D A L); [done | done | lia]|]. intros _ c' [Hc' _]. by apply Hle.
  - wp_step. by apply Hle.
  - wp_step. by apply Hle.
Qed.

Lemma Start_spec addr L es : forall D A c, 0 <= D -> 0 <= A -> cok addr D A L c -> Forall outside_ok es ->
  D + 4096 * Z.of_nat (length es) < 2147483648 -> A + 170 * Z.of_nat (length es) < 2147483648 ->
  wp (Start es) (fun _ c' => cok addr 2147483647 2147483647 L c') c.
Proof.
  induction es as [|e es IH]; intros D A c HD0 HA0 Hc He HD HA; cbn [Start length] in *.
  { wp_step. eapply cok_le; [..|exact Hc]; lia. }
  apply Forall_cons_1 in He as [He Hes]. wp_step. eapply wp_mono; [apply (client_happen_spec addr D A L e c); try done; lia|]. cbv beta.
  intros _ c1 Hc1. apply (IH (D + 4096) (A + 170)); [lia | lia | exact Hc1 | exact Hes | lia | lia].
Qed.

(** The state that a run of [main] leaves. *)
Lemma chat_client_main_ok addr r1 r2 es w : Forall outside_ok es -> 4096 * Z.of_nat (length es) < 2147483648 ->
  exists c, chat_client_main addr r1 r2 es w = Ok tt c /\ cok addr 2147483647 2147483647 (w_live w) c.
Proof.
  intros Hes Hn. destruct (wp_run _ _ _ (new_KcpSession_spec alloc_ok [addr] (client_opt r1 r2) addr (mknet w []) ltac:(by left)
    ltac:(cbn; lia) ltac:(cbn; lia))) as (s & n & Hr & Hs & _ & _ & Hl & Hsent).
  unfold chat_client_main, new_client. rewrite Hr. cbn in Hl, Hsent.
  assert (cok addr 0 0 (w_live w) (mkclient addr s n AtUpdate [])) as Hc.
  { constructor; cbn; try done. by rewrite Hsent. }
  destruct (wp_run _ _ _ (Start_spec addr (w_live w) es 0 0 _ ltac:(lia) ltac:(lia) Hc Hes ltac:(lia) ltac:(lia))) as ([] & c & Hrun & Hc').
  by exists c.
Qed.

(** The chat client survives every interleaving of lines and steps of its thread,
    whatever the datagrams are: its control block keeps its invariant, every block is
    accounted for, and it sends to the server alone, within the MTU. *)
Theorem chat_client_safe addr r1 r2 es w : Forall outside_ok es -> 4096 * Z.of_nat (length es) < 2147483648 ->
  exists c, chat_client_main addr r1 r2 es w = Ok tt c /\ wf (kcp_ (session_ c)) /\
    w_live (n_world (cl_net c)) = w_live w + heap (kcp_ (session_ c)) /\
    Forall (fun p => p.1 = addr /\ Z.of_nat (length p.2) <= 1400) (n_sent (cl_net c)).
Proof.
  intros Hes Hn. destruct (chat_client_main_ok addr r1 r2 es w Hes Hn) as (c & Hr & [C1 [] C3 C4 C5]).
  exists c. splits; [done | done | lia |]. eapply Forall_impl; [exact C4|]. intros p [Hp%list_elem_of_singleton ?]. done.
Qed.

(** What the client prints of a message: as many of its bytes as the message before it
    in the same round had, and zeros for the rest.  Only the first message of a round, for
    which the string has 4096 characters, is sure to be printed as it was sent. *)
Theorem chat_client_prints addr r1 r2 es w c body o :
  Forall outside_ok es -> 4096 * Z.of_nat (length es) < 2147483648 ->
  chat_client_main addr r1 r2 es w = Ok tt c -> at_ c = AtRecv body ->
  complete (session_ c) -> 0 < Z.of_nat (length (next_message (session_ c))) <= max_body_size ->
  exists c' body', happen (Thread o) c = Ok tt c' /\ at_ c' = AtRecv body' /\
    s_size body' = Z.of_nat (length (next_message (session_ c))) /\
    printed c' = printed c ++ [take (Z.to_nat (s_size body)) (next_message (session_ c)) ++
                               replicate (length (next_message (session_ c)) - Z.to_nat (s_size body)) 0].
Proof.
  intros Hes Hn Hr Ha Hcp Hlen. destruct (chat_client_main_ok addr r1 r2 es w Hes Hn) as (c1 & Hr' & Hc).
  rewrite Hr in Hr'. injection Hr' as <-. pose proof (c_place _ _ _ _ _ Hc) as Hp. rewrite Ha in Hp.
  destruct (wp_run _ _ _ (run_recv_spec addr _ _ _ body c Hc Hp ltac:(lia))) as ([] & c' & Hrun & _ & Hpr).
  destruct (Hpr Hcp Hlen) as (body' & H1 & H2 & H3). exists c', body'. splits; try done.
  cbn [happen]. unfold thread_step, bind, gets. by rewrite Ha.
Qed.
End Client.

(** ** A client at work *)

Definition host : sockaddr_in := mkaddr [127; 0; 0; 1] 256.
Definition at_time (n : Z) : outside := mkoutside (mktimeval 1000 (n * 1000)) (-1) [] host.
Definition meets (d : list Z) : outside := mkoutside (mktimeval 1000 0) (Z.of_nat (length d)) d host.

(** A round of [Run] in which the datagram of a server that sent [msgs] comes in, up to
    the [n]-th call of [Recv]. *)
Definition round_events (msgs : list (list Z)) (n : nat) : list happening :=
  match peer_datagrams 5 msgs with
  | d :: _ => Line (text "hello") :: map Thread ([at_time 0; meets d; at_time 1] ++ replicate n (at_time 2))
  | [] => []
  end.

Definition two_events : list happening := Eval vm_compute in round_events [text "Hi"; text "Hello"] 1.
Definition two_state : client :=
  Eval vm_compute in
    match chat_client_main host 1 5 two_events world0 with
    | Ok _ c => c
    | Fault _ => mkclient host (mksession default_KcpOpt host dummy.1 0 0) (mknet world0 []) Exited []
    end.

Lemma two_outside : Forall outside_ok two_events.
Proof. repeat constructor; cbn; discriminate. Qed.
Lemma two_short : 4096 * Z.of_nat (length two_events) < 2147483648.
Proof. vm_compute. reflexivity. Qed.
Lemma two_runs : chat_client_main host 1 5 two_events world0 = Ok tt two_state.
Proof. vm_compute. reflexivity. Qed.
Lemma two_complete : complete (session_ two_state).
Proof. split; [vm_compute; discriminate | vm_compute; reflexivity]. Qed.

Lemma chat_client_safe_witness : exists c, chat_client_main host 1 5 two_events world0 = Ok tt c /\ wf (kcp_ (session_ c)) /\
    w_live (n_world (cl_net c)) = w_live world0 + heap (kcp_ (session_ c)) /\
    Forall (fun p => p.1 = host /\ Z.of_nat (length p.2) <= 1400) (n_sent (cl_net c)).
Proof. exact (chat_client_safe demo_alloc_ok host 1 5 two_events world0 two_outside two_short). Defined.

(** "Hello" after "Hi" in one round is printed as "He" and three zeros. *)
Lemma chat_client_prints_witness : exists c' body', happen (Thread (at_time 2)) two_state = Ok tt c' /\ at_ c' = AtRecv body' /\
    s_size body' = 5 /\ printed c' = [text "Hi"; text "He" ++ [0; 0; 0]].
Proof.
  destruct (at_ two_state) as [| | |body| |] eqn:E; try (vm_compute in E; discriminate).
  destruct (chat_client_prints demo_alloc_ok host 1 5 two_events world0 two_state body (at_time 2) two_outside two_short
    two_runs E two_complete) as (c' & body' & H1 & H2 & H3 & H4); [split; vm_compute; congruence|].
  exists c', body'. split; [exact H1|]. split; [exact H2|]. split; [exact H3|]. rewrite H4.
  assert (s_size body = 2) as -> by (assert (match at_ two_state with AtRecv b => s_size b | _ => 0 end = 2) as X by (vm_compute; reflexivity); rewrite E in X; exact X).
  vm_compute. reflexivity.
Defined.
