(* ===== verification/ChatDelivery.v ===== *)
(** * The chat client and the session it talks to.

    The program of chat_client.cc, line by line and thread by thread as ChatClient.v has it,
    over the network of SessionNet.v: at the other end of the connection is a session that
    its user uses as he likes.  What comes in from the address of the server is what that
    session sent. *)
From S2P Require Import Prelude KcpBase KcpCodec KcpSend KcpRecv KcpInput KcpFlush KcpInv KcpApi KcpStream KcpDemo KcpNet CLib Latency KcpSession KcpRecvSpec.
From S2P Require Import SessionNet ChatClient ChatClientProps.
From Stdlib Require Import Lia.
From stdpp Require Import base list numbers strings.
Open Scope Z_scope.
Open Scope c_scope.

(** The client, the session at the other end, and the lines that were typed. *)
Record chat : Type := mkchat { ch_client : client; ch_peer : peer; ch_typed : list (list Z) }.

(** The numbers of the session are far from their bounds. *)
Definition calm (s : KcpSession) : Prop :=
  has_room s /\ ackcount (kcp_ s) + 170 < 2147483648 /\ Z.of_nat (length (payload (rcv_queue (kcp_ s)))) < 2147483648.

(** A datagram that [Run] takes for one of the server is one that the session sent. *)
Definition heard (c : client) (p : peer) (o : outside) : Prop :=
  CheckRet (Z.min (o_ret o) 4096) = true -> o_from o = server_addr_ c -> take (Z.to_nat (Z.min (o_ret o) 4096)) (o_data o) ∈ datagrams (pe_net p).

Section Chat.
Context {alloc : Allocator}.

Inductive chat_step : chat -> chat -> Prop :=
  | chat_line msg c c' p typed :
    calm (session_ c) -> Z.of_nat (length msg) < 2147483648 -> happen (Line msg) c = Ok tt c' ->
    chat_step (mkchat c p typed) (mkchat c' p (typed ++ [msg]))
  | chat_thread o c c' p typed :
    calm (session_ c) -> heard c p o -> happen (Thread o) c = Ok tt c' -> chat_step (mkchat c p typed) (mkchat c' p typed)
  | chat_peer c p p' typed : session_step (datagrams (cl_net c)) p p' -> chat_step (mkchat c p typed) (mkchat c p' typed).

(** What is printed of a message: some of its first bytes, and zeros for the rest. *)
Definition shown (m l : list Z) : Prop := exists k, l = take k m ++ replicate (length m - k) 0.

(** Empty messages are taken for the end of a round and not printed. *)
Definition spoken (l : list (list Z)) : list (list Z) := List.filter (fun m => negb (bool_decide (m = []))) l.
Definition lines_of (l : list (list Z)) : list (list Z) := List.filter (fun m => negb (bool_decide (m = KCP_KEEP_ALIVE_CMD))) l.

Section Safe.
Context (alloc_ok : forall n size, malloc n size <> None).
Context (cv : Z) (cv_range : 0 <= cv < 4294967296).

Definition at_ok (p : peer) (a : place) : Prop :=
  match a with
  | AtInput buf => buf ∈ datagrams (pe_net p) /\ (length buf <= 4096)%nat
  | AtRecv body => roomy body
  | _ => True
  end.

(** The invariant: the session of the client and its peer are the ends of a connection. *)
Record chat_ok (x : chat) (sent got : list (list Z)) : Prop := mkchat_ok {
  h_peers : peers_ok cv (mkpeer (session_ (ch_client x)) (cl_net (ch_client x)) sent got) (ch_peer x);
  h_client : is_server (kcp_opt_ (session_ (ch_client x))) = false;
  h_at : at_ok (ch_peer x) (at_ (ch_client x));
  h_printed : Forall2 shown (spoken got) (printed (ch_client x));
  h_typed : lines_of sent `sublist_of` ch_typed x;
}.

(** What a session sends stays sent. *)
Lemma sends_more avail a a' d : session_step avail a a' -> d ∈ datagrams (pe_net a) -> d ∈ datagrams (pe_net a').
Proof.
  assert (forall A s (m : ikcpcb -> M world (A * ikcpcb)) n r s' n', on_kcp s m n = Ok (r, s') n' -> d ∈ datagrams n -> d ∈ datagrams n') as Hcall.
  { intros A s m n r s' n' (_ & _ & Hs)%on_kcp_run Hd. unfold datagrams in *. rewrite Hs, map_app. apply elem_of_app. by left. }
  destruct 1 as [s n sent got m r s' n' _ _ Hr|s n sent got buf size r m s' n' _ _ _ Hr|s n sent got current gone s' n' _ _ Hr|s n sent got e r s' n' _ _ _ Hr| |]; cbn [pe_net]; try done.
  - exact (Hcall _ _ _ _ _ _ _ Hr).
  - exact (Hcall _ _ _ _ _ _ _ Hr).
  - unfold Update, bind in Hr. destruct (on_kcp s _ n) as [[[] s1] n1|] eqn:E1; [|done]. intros Hd. apply (Hcall _ _ _ _ _ _ _ E1) in Hd. revert Hr.
    set (s2 := if recv_latest_time s1 =? 0 then _ else s1). clearbody s2. destruct (_ && _); [by intros [_ <-]%ok_inj|].
    destruct (_ && _); [|by intros [_ <-]%ok_inj]. destruct (Send _ _ _ n1) as [[r s4] n4|] eqn:E4; [|done]. intros [_ <-]%ok_inj. exact (Hcall _ _ _ _ _ _ _ E4 Hd).
  - exact (Hcall _ _ _ _ _ _ _ Hr).
Qed.

(** The result of [Recv], and what it leaves in the block. *)
Lemma recv_result s n sent got q buf size r b s' n' : peers_ok cv (mkpeer s n sent got) q -> Z.of_nat (length (payload (rcv_queue (kcp_ s)))) < 2147483648 ->
  0 <= size < 2147483648 -> size <= Z.of_nat (length buf) -> Recv s buf size n = Ok (r, b, s') n' ->
  r < 0 \/ exists m, r = Z.of_nat (length m) /\ r <= size /\ b = splice buf 0 m.
Proof.
  intros ((ha & hb & ja & jb & [W1 _ _ _ _ _ _ _] & _) & _) Hp Hs Hb Hr. cbn in W1. unfold Recv in Hr. apply on_kcp_run in Hr as (Hm & _).
  unfold bind in Hm. rewrite s32_id in Hm by lia. destruct (ikcp_recv _ _ _ _) as [[[r1 k1] b1] w1|] eqn:Ek; [|done]. injection Hm as -> Em _ _.
  pose proof (ikcp_recv_spec (kcp_ s) (Some buf) size (n_world n) W1 Hp ltac:(lia) ltac:(cbn; lia)) as Hpost.
  unfold wp in Hpost. rewrite Ek in Hpost. unfold recv_post in Hpost.
  case_bool_decide; [destruct Hpost as [[= -> _ _] _]; left; lia|]. destruct (negb _); [destruct Hpost as [[= -> _ _] _]; left; lia|].
  destruct (Z.ltb_spec (Z.abs size) (Z.of_nat (length (payload (first_message (rcv_queue (kcp_ s))))))); [destruct Hpost as [[= -> _ _] _]; left; lia|].
  destruct Hpost as (? & ? & ? & _ & _ & [= -> _ ->] & _). right. eexists. split; [reflexivity|]. split; [lia|]. by cbn in Em.
Qed.

(** The options of a session stay, and only a server finds its peer gone. *)
Lemma options_stay avail a a' : session_step avail a a' -> kcp_opt_ (pe_session a') = kcp_opt_ (pe_session a).
Proof.
  assert (forall A s (m : ikcpcb -> M world (A * ikcpcb)) n r s' n', on_kcp s m n = Ok (r, s') n' -> kcp_opt_ s' = kcp_opt_ s) as Hcall.
  { intros A s m n r s' n' (_ & Hs & _)%on_kcp_run. by rewrite Hs. }
  destruct 1 as [s n sent got m r s' n' _ _ Hr|s n sent got buf size r m s' n' _ _ _ Hr|s n sent got current gone s' n' _ _ Hr|s n sent got e r s' n' _ _ _ Hr| |]; cbn [pe_session]; try done.
  - exact (Hcall _ _ _ _ _ _ _ Hr).
  - exact (Hcall _ _ _ _ _ _ _ Hr).
  - unfold Update, bind in Hr. destruct (on_kcp s _ n) as [[[] s1] n1|] eqn:E1; [|done]. apply Hcall in E1. rewrite <- E1. revert Hr.
    assert (kcp_opt_ (if recv_latest_time s1 =? 0 then s1<|recv_latest_time := current|> else s1) = kcp_opt_ s1) as E2 by (by destruct (_ =? 0)).
    revert E2. set (s2 := if recv_latest_time s1 =? 0 then _ else s1). clearbody s2. intros <-. destruct (_ && _); [by intros [[= <- <-] _]%ok_inj|].
    destruct (_ && _); [|by intros [[= <- <-] _]%ok_inj]. destruct (Send _ _ _ n1) as [[r s4] n4|] eqn:E4; [|done]. intros [[= <- <-] _]%ok_inj.
    exact (Hcall _ _ _ _ _ _ _ E4).
  - exact (Hcall _ _ _ _ _ _ _ Hr).
Qed.

Lemma client_never_gone s current n gone s' n' : is_server (kcp_opt_ s) = false -> Update s current n = Ok (gone, s') n' -> gone = false.
Proof.
  intros Hs Hr. unfold Update, bind in Hr. destruct (on_kcp s _ n) as [[[] s1] n1|] eqn:E1; [|done]. apply on_kcp_run in E1 as (_ & Es & _). revert Hr.
  assert (is_server (kcp_opt_ (if recv_latest_time s1 =? 0 then s1<|recv_latest_time := current|> else s1)) = false) as E2 by (rewrite Es; by destruct (_ =? 0)).
  revert E2. set (s2 := if recv_latest_time s1 =? 0 then _ else s1). clearbody s2. intros E2. cbv zeta. rewrite E2. cbn [andb negb].
  destruct (_ <? _); [|by intros [[= <- _] _]%ok_inj]. destruct (Send _ _ _ n1) as [[r s4] n4|]; [|done]. by intros [[= <- _] _]%ok_inj.
Qed.

Lemma on_session_run {A} (m : KcpSession -> M KcpSession.net (A * KcpSession)) c a c' : on_session m c = Ok a c' ->
  exists s n, m (session_ c) (cl_net c) = Ok (a, s) n /\ c' = c<|session_ := s|><|cl_net := n|>.
Proof. unfold on_session. destruct (m (session_ c) (cl_net c)) as [[b s] n|]; [|done]. intros [<- <-]%ok_inj. by exists s, n. Qed.

(** A method of the client's session is a step of the connection. *)
Lemma session_call c p typed sent got sent' got' s' n' a typed' :
  chat_ok (mkchat c p typed) sent got -> session_step (datagrams (pe_net p)) (mkpeer (session_ c) (cl_net c) sent got) (mkpeer s' n' sent' got') ->
  at_ok p a -> Forall2 shown (spoken got') (printed c) -> lines_of sent' `sublist_of` typed' ->
  chat_ok (mkchat (c<|session_ := s'|><|cl_net := n'|><|at_ := a|>) p typed') sent' got'.
Proof.
  intros [H1 H2 H3 H4 H5] Hst Ha Hp Hl. cbn in *. constructor; cbn; try done.
  - exact (session_step_ok alloc_ok cv cv_range _ _ _ H1 Hst).
  - pose proof (options_stay _ _ _ Hst) as E. cbn in E. by rewrite E.
Qed.

Lemma lines_more sent typed msg : lines_of sent `sublist_of` typed -> lines_of (sent ++ [msg]) `sublist_of` typed ++ [msg].
Proof. intros H. unfold lines_of. rewrite List.filter_app. apply sublist_app; [done|]. cbn. destruct (negb _); [done | apply sublist_nil_l]. Qed.

Lemma line_ok c c' p typed sent got msg : chat_ok (mkchat c p typed) sent got -> calm (session_ c) -> Z.of_nat (length msg) < 2147483648 ->
  happen (Line msg) c = Ok tt c' -> exists sent' got', chat_ok (mkchat c' p (typed ++ [msg])) sent' got'.
Proof.
  intros Hok [Hroom _] Hl Hr. assert (lines_of sent `sublist_of` typed ++ [msg]) as Hlines by (apply sublist_inserts_r, (h_typed _ _ _ Hok)).
  cbn [happen] in Hr. unfold line_step, bind, gets in Hr.
  assert (c' = c \/ exists r, client_send msg (Z.of_nat (length msg)) c = Ok r c') as [-> | [r Hr']].
  { destruct (at_ c); try (right; destruct (client_send _ _ c) as [r c2|]; [|done]; apply ok_inj in Hr as [_ ->]; by exists r). left. by apply ok_inj in Hr as [_ <-]. }
  { exists sent, got. destruct Hok. by constructor. }
  unfold client_send in Hr'. apply on_session_run in Hr' as (s & n & Hs & ->).
  assert (c<|session_ := s|><|cl_net := n|> = c<|session_ := s|><|cl_net := n|><|at_ := at_ c|>) as -> by (by destruct c).
  exists (if r =? 0 then sent ++ [msg] else sent), got. eapply session_call; [exact Hok | by eapply ss_send | apply Hok | apply Hok |].
  destruct (r =? 0); [apply lines_more, Hok | done].
Qed.

(** What is printed of a message that comes out whole. *)
Lemma shown_resize b size m : 0 <= size <= max_body_size -> Z.of_nat (length b) = max_body_size + 1 -> Z.of_nat (length m) <= max_body_size ->
  let s := string_resize (mkstring (splice b 0 m) size) (Z.of_nat (length m)) in roomy s /\ shown m (contents s).
Proof. intros H1 H2 H3. cbv zeta. destruct (ChatClientProps.resize_spec b size m H1 H2 H3) as [Hr ->]. split; [done|]. by exists (Z.to_nat size). Qed.

Lemma thread_ok c c' p typed sent got o : chat_ok (mkchat c p typed) sent got -> calm (session_ c) -> heard c p o ->
  happen (Thread o) c = Ok tt c' -> exists sent' got', chat_ok (mkchat c' p typed) sent' got'.
Proof.
  intros Hok (Hroom & Hack & Hpay) Hheard Hr. pose proof Hok as [H1 H2 H3 H4 H5]. cbn in H1, H2, H3, H4, H5.
  assert (forall a, at_ok p a -> exists sent' got', chat_ok (mkchat (c<|at_ := a|>) p typed) sent' got') as Hgo by (intros a Ha; exists sent, got; by constructor).
  cbn [happen] in Hr. unfold thread_step, bind, gets in Hr. destruct (at_ c) as [| |buf|body| |] eqn:Ea; cbn [at_ok] in H3.
  - unfold run_update, bind in Hr. destruct (on_session _ c) as [gone c1|] eqn:Es; [|done]. apply on_session_run in Es as (s & n & Hs & ->).
    rewrite (client_never_gone _ _ _ _ _ _ H2 Hs) in Hr. apply ok_inj in Hr as [_ <-]. do 2 eexists.
    eapply session_call; [exact Hok | eapply ss_update; [| exact Hroom | exact Hs]; lia | done | done |].
    destruct (heartbeat _ _); [|done]. unfold lines_of in *. rewrite List.filter_app. cbn [List.filter]. rewrite bool_decide_true by done. cbn [negb]. by rewrite app_nil_r.
  - unfold run_recvfrom, bind, gets in Hr. destruct (_ || _) eqn:Efrom; [apply ok_inj in Hr as [_ <-]; by apply Hgo|].
    destruct (CheckRet _) eqn:Eck; cbn [negb] in Hr; apply ok_inj in Hr as [_ <-]; [|by apply Hgo]. apply Hgo. cbn. split; [|rewrite length_take; lia].
    apply Hheard; [done|]. apply orb_false_iff in Efrom as [E1%bool_decide_eq_false E2%bool_decide_eq_false].
    destruct (o_from o), (server_addr_ c). cbn in E1, E2. f_equal; by apply dec_stable.
  - destruct H3 as [Hin Hlen]. unfold run_input, bind in Hr. destruct (on_session _ c) as [r c1|] eqn:Es; [|done]. apply on_session_run in Es as (s & n & Hs & ->).
    assert (exists a, at_ok p a /\ c' = c<|session_ := s|><|cl_net := n|><|at_ := a|>) as (a & Ha & ->).
    { destruct (negb _); apply ok_inj in Hr as [_ <-]; eexists; (split; [|reflexivity]); [done | apply roomy_start]. }
    do 2 eexists. eapply session_call; [exact Hok | eapply ss_input; [exact Hin | lia | | exact Hs] | done | done | done].
    assert (Z.of_nat (length buf) / 24 <= 170) by (apply (Z.div_le_mono _ 4096 24); lia). lia.
  - unfold run_recv, bind in Hr. destruct (on_session _ c) as [[r b] c1|] eqn:Es; [|done]. apply on_session_run in Es as (s & n & Hs & ->).
    destruct H3 as [Hb Hsz]. assert (max_body_size <= Z.of_nat (length (s_block body))) as Hle by lia.
    assert (0 <= max_body_size < 2147483648) as Hmb by (unfold max_body_size; lia).
    pose proof (recv_result _ _ _ _ _ _ _ _ _ _ _ H1 Hpay Hmb Hle Hs) as Hres.
    pose proof (ss_recv (datagrams (pe_net p)) _ _ sent got _ _ _ _ _ _ Hmb Hle Hpay Hs) as Hst.
    destruct Hres as [Hneg|(m & -> & Hm & ->)].
    { rewrite (proj2 (Z.ltb_lt r 0) Hneg) in Hst. destruct (r =? -3).
      - apply ok_inj in Hr as [_ <-]. exists sent, got. by eapply session_call.
      - rewrite (proj2 (Z.leb_le r 0)) in Hr by lia. apply ok_inj in Hr as [_ <-]. exists sent, got. by eapply session_call. }
    rewrite (proj2 (Z.ltb_ge _ 0)) in Hst by lia. rewrite Nat2Z.id in Hst.
    assert (take (length m) (splice (s_block body) 0 m) = m) as Et by (unfold splice; rewrite take_0; cbn [app]; apply take_app_length). rewrite Et in Hst.
    rewrite (proj2 (Z.eqb_neq _ (-3))) in Hr by lia. destruct (Z.leb_spec (Z.of_nat (length m)) 0) as [Hz|Hz].
    + apply ok_inj in Hr as [_ <-]. exists sent, (got ++ [m]). eapply session_call; try done. destruct m; [|cbn in Hz; lia].
      unfold spoken. rewrite List.filter_app. cbn. by rewrite app_nil_r.
    + destruct (shown_resize (s_block body) (s_size body) m Hsz Hb ltac:(lia)) as [Hroomy Hshown].
      unfold HandleMessage, modify, goto in Hr. apply ok_inj in Hr as [_ <-]. exists sent, (got ++ [m]).
      constructor; cbn; try done.
      * exact (session_step_ok alloc_ok cv cv_range _ _ _ H1 Hst).
      * pose proof (options_stay _ _ _ Hst) as E. cbn in E. by rewrite E.
      * unfold spoken. rewrite List.filter_app. cbn [List.filter]. rewrite bool_decide_false by (intros ->; cbn in Hz; lia). cbn [negb].
        apply Forall2_app; [done|]. by constructor.
  - apply ok_inj in Hr as [_ <-]. exists sent, got. by constructor; cbn; rewrite ?Ea.
  - apply ok_inj in Hr as [_ <-]. exists sent, got. by constructor; cbn; rewrite ?Ea.
Qed.

Lemma chat_step_ok x x' : (exists sent got, chat_ok x sent got) -> chat_step x x' -> exists sent got, chat_ok x' sent got.
Proof.
  intros (sent & got & Hok) Hst. destruct Hst as [msg c c' p typed Hc Hl Hr|o c c' p typed Hc Ho Hr|c p p' typed Hst].
  - by eapply line_ok.
  - by eapply thread_ok.
  - exists sent, got. destruct Hok as [H1 H2 H3 H4 H5]. constructor; cbn in *; try done.
    + apply peers_sym. eapply (session_step_ok alloc_ok cv cv_range); [by apply peers_sym | exact Hst].
    + destruct (at_ c); try done. destruct H3. split; [by eapply sends_more | done].
Qed.
End Safe.
End Chat.

Lemma sublist_prefix {A} (f : A -> bool) (l k : list A) : l `prefix_of` k -> List.filter f l `sublist_of` List.filter f k.
Proof. intros [x ->]. rewrite List.filter_app. by apply sublist_inserts_r. Qed.

(** C25: from terminal to terminal of the session: over a network that loses, repeats and
    reorders, whatever the interleaving of the lines, of the thread of [Run] and of the calls
    at the other end.  What the client prints are the first of the messages that the other
    end sent, in order, each once; but of each it prints some of the first bytes and zeros
    for the rest, and empty ones not at all.  What the other end receives, apart from the
    heartbeats, are lines that were typed, in order. *)
Theorem chat_end_to_end {alloc : Allocator} addr r1 r2 w c0 nc opt_b addr_b nb sb nb' x :
  (forall n size, malloc n size <> None) -> opt_conv opt_b = u32 (r1 * r2) -> opt_sndwnd opt_b < 2147483648 -> opt_rcvwnd opt_b < 2147483648 ->
  outputs w = [] -> outputs (n_world nb) = [] -> n_sent nb = [] ->
  new_client addr (client_opt r1 r2) w = Ok c0 nc -> new_KcpSession opt_b addr_b nb = Ok sb nb' ->
  star chat_step (mkchat c0 (mkpeer sb nb' [] []) []) x ->
  (exists got, got `prefix_of` pe_sent (ch_peer x) /\ Forall2 shown (spoken got) (printed (ch_client x))) /\
  lines_of (pe_got (ch_peer x)) `sublist_of` ch_typed x.
Proof.
  intros Hal Hc B1 B2 Ow Ob Nb Ha Hb Hst. pose proof (u32_range (r1 * r2)) as Hcv.
  unfold new_client in Ha. destruct (new_KcpSession _ _ _) as [s n|] eqn:Es; [|done]. apply ok_inj in Ha as [<- <-].
  assert (exists sent got, chat_ok (u32 (r1 * r2)) x sent got) as (sent & got & [H1 H2 H3 H4 H5]).
  { refine (star_invariant chat_step (fun x => exists sent got, chat_ok (u32 (r1 * r2)) x sent got) _ _ _ Hst _); [intros ? ? ? ?; by eapply chat_step_ok|].
    exists [], []. constructor; cbn; try done.
    - eapply (two_sessions_ok Hal _ Hcv (client_opt r1 r2) opt_b addr addr_b (mknet w []) nb); try done.
    - unfold new_KcpSession, bind, on_world in Es. destruct (ikcp_create _ _ _) as [[k|] w1|]; try done. unfold ret in Es. by apply ok_inj in Es as [<- _]. }
  destruct (peers_prefix (u32 (r1 * r2)) _ _ H1) as [P1 P2]. cbn in P1, P2. split; [by exists got|].
  etrans; [by apply sublist_prefix | exact H5].
Qed.

(** ** A conversation *)

Ltac calm_now := split; [vm_compute; congruence | split; vm_compute; reflexivity].

Definition opt5 : KcpOpt := mkopt true 5000 5 32 128 1 10 2 1.
Definition bob : sockaddr_in := mkaddr [127; 0; 0; 1] 512.

Definition dead_client : client := mkclient host (mksession default_KcpOpt host dummy.1 0 0) (mknet world0 []) Exited [].
Definition dead_peer : peer := mkpeer (mksession default_KcpOpt host dummy.1 0 0) (mknet world0 []) [] [].
Definition and_then (e : happening) (x : chat) : chat :=
  match happen e (ch_client x) with
  | Ok _ c => mkchat c (ch_peer x) (match e with Line msg => ch_typed x ++ [msg] | _ => ch_typed x end)
  | Fault _ => x
  end.
(** What the other end does, when it goes well. *)
Definition says (b : list Z) (p : peer) : peer :=
  match Send (pe_session p) b (Z.of_nat (length b)) (pe_net p) with
  | Ok (_, s) n => mkpeer s n (pe_sent p ++ [b]) (pe_got p)
  | Fault _ => p
  end.
Definition ticks (current : Z) (p : peer) : peer :=
  match Update (pe_session p) current (pe_net p) with Ok (_, s) n => mkpeer s n (pe_sent p) (pe_got p) | Fault _ => p end.
Definition hears (d : list Z) (p : peer) : peer :=
  match Input (pe_session p) d (Z.of_nat (length d)) (pe_net p) with Ok (_, s) n => mkpeer s n (pe_sent p) (pe_got p) | Fault _ => p end.
Definition reads (size : nat) (p : peer) : peer :=
  match Recv (pe_session p) (replicate size 0) (Z.of_nat size) (pe_net p) with
  | Ok (r, b, s) n => mkpeer s n (pe_sent p) (pe_got p ++ [take (Z.to_nat r) b])
  | Fault _ => p
  end.
Definition at_peer (f : peer -> peer) (x : chat) : chat := mkchat (ch_client x) (f (ch_peer x)) (ch_typed x).

Lemma says_step avail b p : Z.of_nat (length b) < 2147483648 -> has_room (pe_session p) ->
  match Send (pe_session p) b (Z.of_nat (length b)) (pe_net p) with Ok (r, _) _ => r =? 0 | Fault _ => false end = true -> session_step avail p (says b p).
Proof.
  intros H1 H2 H3. unfold says. destruct (Send _ _ _ _) as [[r s] n|] eqn:E; [|done]. apply Z.eqb_eq in H3 as ->. destruct p as [s0 n0 l g].
  exact (ss_send avail s0 n0 l g b 0 s n H1 H2 E).
Qed.
Lemma ticks_step avail current p : ackcount (kcp_ (pe_session p)) < 2147483648 -> has_room (pe_session p) -> heartbeat (pe_session p) current = false ->
  match Update (pe_session p) current (pe_net p) with Ok _ _ => true | Fault _ => false end = true -> session_step avail p (ticks current p).
Proof.
  intros H1 H2 H3 H4. unfold ticks. destruct (Update _ _ _) as [[g s] n|] eqn:E; [|done]. destruct p as [s0 n0 l g0].
  pose proof (ss_update avail s0 n0 l g0 current g s n H1 H2 E) as Hs. cbn in H3. by rewrite H3 in Hs.
Qed.
Lemma hears_step avail d p : d ∈ avail -> Z.of_nat (length d) < 2147483648 -> ackcount (kcp_ (pe_session p)) + Z.of_nat (length d) / 24 < 2147483648 ->
  match Input (pe_session p) d (Z.of_nat (length d)) (pe_net p) with Ok _ _ => true | Fault _ => false end = true -> session_step avail p (hears d p).
Proof.
  intros H1 H2 H3 H4. unfold hears. destruct (Input _ _ _ _) as [[r s] n|] eqn:E; [|done]. destruct p as [s0 n0 l g0].
  exact (ss_input avail s0 n0 l g0 d r s n H1 H2 H3 E).
Qed.
Lemma reads_step avail size p : Z.of_nat size < 2147483648 -> Z.of_nat (length (payload (rcv_queue (kcp_ (pe_session p))))) < 2147483648 ->
  match Recv (pe_session p) (replicate size 0) (Z.of_nat size) (pe_net p) with Ok (r, _, _) _ => negb (r <? 0) | Fault _ => false end = true -> session_step avail p (reads size p).
Proof.
  intros H1 H2 H3. unfold reads. destruct (Recv _ _ _ _) as [[[r b] s] n|] eqn:E; [|done]. destruct p as [s0 n0 l g0].
  pose proof (ss_recv avail s0 n0 l g0 (replicate size 0) (Z.of_nat size) r b s n (conj (Nat2Z.is_nonneg size) H1) ltac:(rewrite length_replicate; lia) H2 E) as Hs. apply negb_true_iff in H3. by rewrite H3 in Hs.
Qed.

Definition chat0 : chat := Eval vm_compute in
  match new_client host (client_opt 1 5) world0, new_KcpSession opt5 bob (mknet world0 []) with
  | Ok c _, Ok s n => mkchat c (mkpeer s n [] []) []
  | _, _ => mkchat dead_client dead_peer []
  end.
Definition chat1 : chat := Eval vm_compute in and_then (Line (text "hi")) chat0.
(** The first update opens the window, the next sends. *)
Definition chat2 : chat := Eval vm_compute in and_then (Thread (at_time 0)) chat1.
Definition chat3 : chat := Eval vm_compute in and_then (Thread (at_time 1)) chat2.
Definition chat4 : chat := Eval vm_compute in and_then (Thread (at_time 200)) chat3.
Definition first_datagram : list Z := Eval vm_compute in default [] (head (datagrams (cl_net (ch_client chat4)))).
Definition chat5 : chat := Eval vm_compute in at_peer (hears first_datagram) chat4.
Definition chat6 : chat := Eval vm_compute in at_peer (reads 100) chat5.
Definition chat7 : chat := Eval vm_compute in at_peer (says (text "hello")) chat6.
Definition chat8 : chat := Eval vm_compute in at_peer (ticks 1000000) chat7.
Definition answer_datagram : list Z := Eval vm_compute in default [] (last (datagrams (pe_net (ch_peer chat8)))).
Definition chat9 : chat := Eval vm_compute in and_then (Thread (meets answer_datagram)) chat8.
Definition chat10 : chat := Eval vm_compute in and_then (Thread (at_time 1)) chat9.
Definition chat11 : chat := Eval vm_compute in and_then (Thread (at_time 2)) chat10.

Lemma chat_runs : star chat_step chat0 chat11.
Proof.
  assert (forall c p t c', calm (session_ c) -> heard c p t -> happen (Thread t) c = Ok tt c' -> forall l x, star chat_step (mkchat c' p l) x -> star chat_step (mkchat c p l) x) as Ht.
  { intros c p t c' H1 H2 H3 l x H. eapply star_step; [by apply (chat_thread t c c')|exact H]. }
  assert (forall y f x, session_step (datagrams (cl_net (ch_client y))) (ch_peer y) (f (ch_peer y)) -> at_peer f y = x -> forall z, star chat_step x z -> star chat_step y z) as Hp.
  { intros [c p l] f x H1 <- z H. eapply star_step; [by apply (chat_peer c p (f p))|exact H]. }
  eapply star_step; [eapply (chat_line (text "hi") _ (ch_client chat1)); [calm_now | vm_compute; reflexivity | vm_compute; reflexivity]|].
  apply (Ht _ _ (at_time 0) (ch_client chat2)); [calm_now | by intros [=] | vm_compute; reflexivity|].
  apply (Ht _ _ (at_time 1) (ch_client chat3)); [calm_now | by intros [=] | vm_compute; reflexivity|].
  apply (Ht _ _ (at_time 200) (ch_client chat4)); [calm_now | by intros [=] | vm_compute; reflexivity|].
  apply (Hp _ (hears first_datagram) chat5); [apply hears_step; [left | vm_compute; reflexivity..] | vm_compute; reflexivity|].
  apply (Hp _ (reads 100) chat6); [apply reads_step; vm_compute; reflexivity | vm_compute; reflexivity|].
  apply (Hp _ (says (text "hello")) chat7); [apply says_step; [vm_compute; reflexivity | vm_compute; congruence | vm_compute; reflexivity] | vm_compute; reflexivity|].
  apply (Hp _ (ticks 1000000) chat8); [apply ticks_step; [vm_compute; reflexivity | vm_compute; congruence | vm_compute; reflexivity..] | vm_compute; reflexivity|].
  apply (Ht _ _ (meets answer_datagram) (ch_client chat9)); [calm_now | intros _ _; left | vm_compute; reflexivity|].
  apply (Ht _ _ (at_time 1) (ch_client chat10)); [calm_now | by intros [=] | vm_compute; reflexivity|].
  apply (Ht _ _ (at_time 2) (ch_client chat11)); [calm_now | by intros [=] | vm_compute; reflexivity|].
  apply star_refl.
Qed.

Definition chat_main0 : client * KcpSession.net := match new_client host (client_opt 1 5) world0 with Ok c n => (c, n) | Fault _ => (dead_client, mknet world0 []) end.
Definition other_end0 : KcpSession * KcpSession.net :=
  match new_KcpSession opt5 bob (mknet world0 []) with Ok s n => (s, n) | Fault _ => (mksession default_KcpOpt host dummy.1 0 0, mknet world0 []) end.

Lemma chat_end_to_end_witness :
  (exists got, got `prefix_of` [text "hello"] /\ Forall2 shown (spoken got) [text "hello"]) /\ lines_of [text "hi"] `sublist_of` [text "hi"].
Proof.
  exact (chat_end_to_end host 1 5 world0 chat_main0.1 chat_main0.2 opt5 bob (mknet world0 []) other_end0.1 other_end0.2 chat11
    demo_alloc_ok eq_refl eq_refl eq_refl eq_refl eq_refl eq_refl ltac:(vm_compute; reflexivity) ltac:(vm_compute; reflexivity) chat_runs).
Defined.
