(* ===== verification/ThreadPool.v ===== *)
(** * threadpool.h and mythread.cpp of test3: the thread pool in C++.

    A state is what the mutex protects, who holds it, the flag, where each thread of the
    pool is, and where each call of [submit] or [stop] is.  A step is one action of one
    thread; any interleaving is a sequence of steps. *)
From S2P Require Import Prelude Threads.
From stdpp Require Import base list numbers gmap.
Open Scope Z_scope.
Open Scope c_scope.

(** A task is known by its argument. *)
Definition task := Z.

(** Where a thread of the pool is: at the test of [active_flag]; before the lock; in
    [wait], with the mutex, before the predicate; with the mutex, after a predicate that
    was false; asleep; after [wait], with the mutex; with a task, without the mutex; gone. *)
Inductive place : Type :=
  | TLoop
  | TLock
  | TPred
  | TBlock
  | TSleep
  | TCheck
  | TRun (t : task)
  | TDone.

(** Where a call of [submit] or [stop] is. *)
Inductive call_at : Type :=
  | CSubmit (t : task)
  | CPush (t : task)
  | CNotify
  | CAccepted
  | CThrown (t : task)
  | CStop
  | CNotifyAll
  | CJoin
  | CStopped.

#[export] Instance place_eq_dec : EqDecision place.
Proof. solve_decision. Defined.
#[export] Instance call_at_eq_dec : EqDecision call_at.
Proof. solve_decision. Defined.

(** [ThreadPool]; [ran] are the tasks that were run, whose futures are ready. *)
Record ThreadPool : Type := mkpool {
  active_flag : bool;
  mutex_tp : option nat;
  tasks : list task;
  threads : list place;
  calls : list call_at;
  ran : list task;
}.
Definition eta_pool (p : ThreadPool) : ThreadPool :=
  mkpool (active_flag p) (mutex_tp p) (tasks p) (threads p) (calls p) (ran p).
#[export] Instance upd_active_flag : Upd active_flag := ltac:(build_upd eta_pool active_flag).
#[export] Instance upd_mutex_tp : Upd mutex_tp := ltac:(build_upd eta_pool mutex_tp).
#[export] Instance upd_tasks : Upd tasks := ltac:(build_upd eta_pool tasks).
#[export] Instance upd_threads : Upd threads := ltac:(build_upd eta_pool threads).
#[export] Instance upd_calls : Upd calls := ltac:(build_upd eta_pool calls).
#[export] Instance upd_ran : Upd ran := ltac:(build_upd eta_pool ran).

Definition NUM_MINIMUM_DEFAULT_THREAD : nat := 2.
Definition get_size_thread_pool (hardware_concurrency : nat) : nat :=
  match hardware_concurrency with O => NUM_MINIMUM_DEFAULT_THREAD | num => num end.

(** The constructor, with its [start]. *)
Definition new_ThreadPool (pool_size : nat) : ThreadPool :=
  mkpool true None [] (replicate pool_size TLoop) [] [].

Definition move (i : nat) (x : place) (p : ThreadPool) : ThreadPool := p<|threads := <[i := x]> (threads p)|>.

(** The predicate of [wait]. *)
Definition wait_pred (p : ThreadPool) : bool := match tasks p with [] => negb (active_flag p) | _ => true end.

(** One action of thread [i]; None when it is blocked or gone. *)
Definition thread_step (i : nat) (p : ThreadPool) : option ThreadPool :=
  match threads p !! i with
  | None => None
  | Some TLoop => Some (move i (if active_flag p then TLock else TDone) p)
  | Some TLock => match mutex_tp p with Some _ => None | None => Some (move i TPred p)<|mutex_tp := Some i|> end
  | Some TPred => Some (move i (if wait_pred p then TCheck else TBlock) p)
  | Some TBlock => Some (move i TSleep p)<|mutex_tp := None|>
  | Some TSleep => None
  | Some TCheck =>
    match tasks p with
    | [] => Some (move i (if active_flag p then TLoop else TDone) p)<|mutex_tp := None|>
    | t :: rest => Some (move i (TRun t) p)<|mutex_tp := None|><|tasks := rest|>
    end
  | Some (TRun t) => Some (move i TLoop p)<|ran := ran p ++ [t]|>
  | Some TDone => None
  end.

(** The end of the sleep of thread [i]: it has to take the mutex again and looks at the
    predicate. *)
Definition wake (i : nat) (p : ThreadPool) : option ThreadPool :=
  match threads p !! i with Some TSleep => Some (move i TLock p) | _ => None end.

Definition asleep (x : place) : bool := match x with TSleep => true | _ => false end.
Definition gone (x : place) : bool := match x with TDone => true | _ => false end.

(** [notify_one] wakes one of those asleep, [k], if there are any. *)
Definition notify_one (k : option nat) (p : ThreadPool) : option ThreadPool :=
  match k with
  | Some i => wake i p
  | None => if existsb asleep (threads p) then None else Some p
  end.
Definition notify_all (p : ThreadPool) : ThreadPool :=
  p<|threads := map (fun x => if asleep x then TLock else x) (threads p)|>.

Definition at_call (c : nat) (x : call_at) (p : ThreadPool) : ThreadPool := p<|calls := <[c := x]> (calls p)|>.

(** One action of call [c]; [k] is whom its [notify_one] wakes. *)
Definition call_step (c : nat) (k : option nat) (p : ThreadPool) : option ThreadPool :=
  match calls p !! c with
  | None => None
  | Some (CSubmit t) => Some (at_call c (if active_flag p then CPush t else CThrown t) p)
  | Some (CPush t) => match mutex_tp p with Some _ => None | None => Some (at_call c CNotify p)<|tasks := tasks p ++ [t]|> end
  | Some CNotify => notify_one k (at_call c CAccepted p)
  | Some CStop => Some (at_call c CNotifyAll p)<|active_flag := false|>
  | Some CNotifyAll => Some (notify_all (at_call c CJoin p))
  | Some CJoin => if forallb gone (threads p) then Some (at_call c CStopped p)<|threads := []|> else None
  | Some (CAccepted | CThrown _ | CStopped) => None
  end.

(** What happens: a thread goes on; a thread wakes for no reason; [submit] is called; [stop]
    is called, by one caller at a time; a call goes on. *)
Inductive event : Type :=
  | EThread (i : nat)
  | ESpurious (i : nat)
  | ESubmit (t : task)
  | EStop
  | EGo (c : nat) (k : option nat).

Definition stopping (x : call_at) : bool := match x with CStop | CNotifyAll | CJoin => true | _ => false end.

Definition pool_step (e : event) (p : ThreadPool) : option ThreadPool :=
  match e with
  | EThread i => thread_step i p
  | ESpurious i => wake i p
  | ESubmit t => Some (p<|calls := calls p ++ [CSubmit t]|>)
  | EStop => if existsb stopping (calls p) then None else Some (p<|calls := calls p ++ [CStop]|>)
  | EGo c k => call_step c k p
  end.

(** ** mythread.cpp *)

(** The task [i] of [main] adds to [sum] what [hello] returns. *)
Definition hello (x : Z) : Z := x * x.
Definition sum (p : ThreadPool) : Z := foldr (fun i acc => hello i + acc) 0 (ran p).
Definition main_tasks : list task := map Z.of_nat (seq 0 10).
(** [main] has its futures. *)
Definition futures_ready (p : ThreadPool) : bool := forallb (fun t => bool_decide (t ∈ ran p)) main_tasks.
