(* ===== verification/ThreadPoolProps.v ===== *)
(** * The properties of the thread pool of test3. *)
From S2P Require Import Prelude Threads ThreadPool.
From Stdlib Require Import Lia.
From stdpp Require Import base list numbers gmap.
Open Scope Z_scope.
Open Scope c_scope.

#[local] Abbreviation run := (steps pool_step).

(** ** The mutex and the tasks *)

Definition holds (x : place) : bool := match x with TPred | TBlock | TCheck => true | _ => false end.

(** The mutex is held by one thread that exists; after [stop] there is none. *)
Record sane (p : ThreadPool) : Prop := mksane {
  s_owned : owned holds (threads p) (mutex_tp p);
  s_owner : forall i, mutex_tp p = Some i -> is_Some (threads p !! i);
  s_stopped : CStopped ∈ calls p -> threads p = [];
}.

(** The tasks a thread has in hand, those a call has not handed over, and all of them. *)
Definition hand (x : place) : list task := match x with TRun t => [t] | _ => [] end.
Definition outside (x : call_at) : list task := match x with CSubmit t | CPush t | CThrown t => [t] | _ => [] end.
Definition places (p : ThreadPool) : list task :=
  tasks p ++ concat (map hand (threads p)) ++ ran p ++ concat (map outside (calls p)).

(** The tasks a run submits. *)
Definition submitted (es : list event) : list task := omap (fun e => match e with ESubmit t => Some t | _ => None end) es.

Lemma sane_new n : sane (new_ThreadPool n).
Proof.
  constructor; cbn; [|done|by intros ?%elem_of_nil]. intros i x Hx. apply lookup_replicate in Hx as [-> _]. done.
Qed.

Lemma stopped_insert (c : nat) x (l : list call_at) : x <> CStopped -> CStopped ∈ <[c := x]> l -> CStopped ∈ l.
Proof.
  intros Hx (j & Hj)%list_elem_of_lookup. apply list_elem_of_lookup. destruct (decide (j = c)) as [->|Hne].
  - exists c. apply list_lookup_insert_Some in Hj as [(_ & -> & _)|(Hne & _)]; done.
  - exists j. by rewrite list_lookup_insert_ne in Hj.
Qed.

(** A thread that moves, with what happens to the mutex. *)
Lemma sane_move p i x x' m ts rn : sane p -> threads p !! i = Some x ->
  owned holds (<[i := x']> (threads p)) m -> (m = None \/ m = Some i \/ m = mutex_tp p) ->
  sane (mkpool (active_flag p) m ts (<[i := x']> (threads p)) (calls p) rn).
Proof.
  intros [S1 S2 S3] Hx Ho Hm. constructor; cbn; [done | |].
  - intros j Hj. apply lookup_lt_is_Some. rewrite length_insert. destruct Hm as [-> | [-> | ->]]; [done | |by apply lookup_lt_is_Some, S2].
    injection Hj as <-. by eapply lookup_lt_Some.
  - intros Hc%S3. by rewrite Hc in Hx.
Qed.

Lemma sane_wake i p p' : sane p -> wake i p = Some p' -> sane p'.
Proof.
  intros Hp. unfold wake. destruct (threads p !! i) as [[]|] eqn:Ei; try done. intros [= <-].
  apply (sane_move p i TSleep); [done | done | | by right; right]. by eapply owned_move; [apply Hp|..].
Qed.

Lemma sane_thread i p p' : sane p -> thread_step i p = Some p' -> sane p'.
Proof.
  intros Hp. unfold thread_step. destruct (threads p !! i) as [x|] eqn:Ei; [|done]. pose proof (s_owned _ Hp) as Ho. destruct x.
  - intros [= <-]. apply (sane_move p i TLoop); [done | done | | by right; right]. eapply owned_move; [done..|]. by destruct (active_flag p).
  - destruct (mutex_tp p) as [m|] eqn:Em; [done|]. intros [= <-]. apply (sane_move p i TLock); [done | done | by eapply owned_take | by right; left].
  - intros [= <-]. apply (sane_move p i TPred); [done | done | | by right; right]. eapply owned_move; [done..|]. by destruct (wait_pred p).
  - intros [= <-]. apply (sane_move p i TBlock); [done | done | by eapply owned_give | by left].
  - done.
  - destruct (tasks p).
    + intros [= <-]. apply (sane_move p i TCheck); [done | done | | by left]. eapply owned_give; [done..|]. by destruct (active_flag p).
    + intros [= <-]. apply (sane_move p i TCheck); [done | done | by eapply owned_give | by left].
  - intros [= <-]. apply (sane_move p i (TRun t)); [done | done | by eapply owned_move | by right; right].
  - done.
Qed.

(** A call that moves. *)
Lemma sane_at_call c x p : sane p -> x <> CStopped -> sane (at_call c x p).
Proof. intros [S1 S2 S3] Hx. constructor; cbn; [done | done|]. intros H%stopped_insert; auto. Qed.

Lemma sane_call c k p p' : sane p -> call_step c k p = Some p' -> sane p'.
Proof.
  intros Hp. unfold call_step. destruct (calls p !! c) as [x|] eqn:Ec; [|done]. destruct x; try done.
  - intros [= <-]. apply sane_at_call; [done|]. by destruct (active_flag p).
  - destruct (mutex_tp p); [done|]. intros [= <-]. by destruct (sane_at_call c CNotify p Hp); [done|]; constructor.
  - assert (sane (at_call c CAccepted p)) as Ha by (by apply sane_at_call). unfold notify_one. destruct k; [by apply sane_wake|].
    destruct (existsb _ _); [done|]. by intros [= <-].
  - intros [= <-]. by destruct (sane_at_call c CNotifyAll p Hp); [done|]; constructor.
  - intros [= <-]. destruct (sane_at_call c CJoin p Hp) as [S1 S2 S3]; [done|]. constructor; cbn in *.
    + intros i x Hx. rewrite list_lookup_fmap in Hx. destruct (threads p !! i) as [y|] eqn:Ey; [|done]. injection Hx as <-.
      rewrite <- (S1 i y Ey). by destruct y.
    + intros i Hi. rewrite list_lookup_fmap. destruct (S2 i Hi) as [y ->]. by eexists.
    + intros H%S3. by rewrite H.
  - destruct (forallb gone (threads p)) eqn:Eg; [|done]. intros [= <-]. constructor; cbn; [done | | done].
    intros i Hi. destruct (s_owner _ Hp i Hi) as [y Hy]. pose proof (proj2 (s_owned _ Hp i y Hy) Hi) as Hh.
    rewrite forallb_forall in Eg. assert (gone y = true) by (apply Eg, list_elem_of_In; by eapply list_elem_of_lookup_2). by destruct y.
Qed.

Lemma sane_step e p p' : sane p -> pool_step e p = Some p' -> sane p'.
Proof.
  intros Hp. destruct e; cbn; [by apply sane_thread | by apply sane_wake | | |by apply sane_call].
  - intros [= <-]. destruct Hp as [S1 S2 S3]. constructor; cbn; [done..|]. by rewrite elem_of_app, list_elem_of_singleton; intros [?|?]; [apply S3|].
  - destruct (existsb _ _); [done|]. intros [= <-]. destruct Hp as [S1 S2 S3]. constructor; cbn; [done..|].
    by rewrite elem_of_app, list_elem_of_singleton; intros [?|?]; [apply S3|].
Qed.

Lemma sane_run es n p : run es (new_ThreadPool n) p -> sane p.
Proof.
  intros Hr. eapply (steps_invariant pool_step (fun _ => True) sane); [|by apply Forall_true|exact Hr|apply sane_new].
  intros e s1 s2 _ H1 H2. by eapply sane_step.
Qed.

(** ** Every task is somewhere *)

Lemma places_thread i p p' : thread_step i p = Some p' -> places p' ≡ₚ places p.
Proof.
  unfold thread_step, places. destruct (threads p !! i) as [x|] eqn:Ei; [|done].
  pose proof (fun x' => concat_map_insert hand _ i x x' Ei) as Hins.
  assert (forall x', hand x = [] -> hand x' = [] -> concat (map hand (<[i := x']> (threads p))) ≡ₚ concat (map hand (threads p))) as Hsame.
  { intros x' E E'. eapply concat_map_same; [done|]. by rewrite E, E'. }
  destruct x; cbn in Hins; try done.
  - intros [= <-]. cbn. rewrite Hsame; [done | done |]. by destruct (active_flag p).
  - destruct (mutex_tp p); [done|]. intros [= <-]. cbn. by rewrite Hsame.
  - intros [= <-]. cbn. rewrite Hsame; [done | done |]. by destruct (wait_pred p).
  - intros [= <-]. cbn. by rewrite Hsame.
  - destruct (tasks p) as [|t rest] eqn:Et; intros [= <-]; cbn; rewrite ?Et.
    + rewrite Hsame; [done | done |]. by destruct (active_flag p).
    + rewrite (Hins (TRun t)). cbn. symmetry. apply Permutation_middle.
  - intros [= <-]. cbn. pose proof (Hins TLoop) as H. cbn in H. rewrite <- H, <- (assoc_L (++)). cbn.
    apply Permutation_app_head. symmetry. rewrite (assoc_L (++)). rewrite (assoc_L (++)). apply (Permutation_middle (_ ++ _)).
Qed.

Lemma tp_places_wake i p p' : wake i p = Some p' -> places p' ≡ₚ places p.
Proof.
  unfold wake, places. destruct (threads p !! i) as [[]|] eqn:Ei; try done. intros [= <-]. cbn.
  rewrite (concat_map_same hand _ i TSleep TLock); done.
Qed.

Lemma places_at_call c x y p : calls p !! c = Some x -> outside y = outside x -> places (at_call c y p) ≡ₚ places p.
Proof. intros Hc E. unfold places. cbn. by rewrite (concat_map_same outside _ c x y). Qed.

Lemma places_call c k p p' : call_step c k p = Some p' -> places p' ≡ₚ places p.
Proof.
  unfold call_step. destruct (calls p !! c) as [x|] eqn:Ec; [|done]. destruct x; try done.
  - intros [= <-]. apply (places_at_call c _ _ p Ec). by destruct (active_flag p).
  - destruct (mutex_tp p); [done|]. intros [= <-]. unfold places. cbn.
    pose proof (concat_map_insert outside _ c (CPush t) CNotify Ec) as H. cbn in H. rewrite <- H.
    rewrite <- (assoc_L (++)). apply Permutation_app_head. cbn. rewrite !(assoc_L (++)). apply (Permutation_middle (_ ++ _)).
  - intros H. rewrite <- (places_at_call c CNotify CAccepted p Ec) by done. unfold notify_one in H.
    destruct k; [by apply tp_places_wake in H|]. destruct (existsb _ _); [done|]. by injection H as <-.
  - intros [= <-]. by rewrite <- (places_at_call c CStop CNotifyAll p Ec).
  - intros [= <-]. rewrite <- (places_at_call c CNotifyAll CJoin p Ec) by done. unfold places, notify_all. cbn. rewrite map_map.
    assert (map (fun x => hand (if asleep x then TLock else x)) (threads p) = map hand (threads p)) as E by (apply map_ext; by intros []).
    by rewrite E.
  - destruct (forallb gone (threads p)) eqn:Eg; [|done]. intros [= <-]. rewrite <- (places_at_call c CJoin CStopped p Ec) by done.
    unfold places. cbn. replace (concat (map hand (threads p))) with (@nil task); [done|].
    induction (threads p) as [|x l IH]; [done|]. cbn in Eg. apply andb_true_iff in Eg as [Ex El]. cbn. rewrite <- IH by done. by destruct x.
Qed.

Lemma tp_places_step e p p' : pool_step e p = Some p' -> places p' ≡ₚ places p ++ submitted [e].
Proof.
  destruct e; cbn; rewrite ?app_nil_r; [by apply places_thread | by apply tp_places_wake | | | by apply places_call].
  - intros [= <-]. unfold places. cbn. rewrite map_app, concat_app. cbn. by rewrite !(assoc_L (++)).
  - destruct (existsb _ _); [done|]. intros [= <-]. unfold places. cbn. rewrite map_app, concat_app. cbn. by rewrite !app_nil_r.
Qed.

Lemma submitted_cons e es : submitted (e :: es) = submitted [e] ++ submitted es.
Proof. unfold submitted. cbn. by destruct e. Qed.

Lemma tp_places_run es p p' : run es p p' -> places p' ≡ₚ places p ++ submitted es.
Proof.
  induction 1 as [p|e es p1 p2 p3 Hs Hr IH]; [by rewrite app_nil_r|].
  rewrite IH, (tp_places_step e p1 p2) by done. by rewrite (submitted_cons e es), (assoc_L (++)).
Qed.

Lemma places_new n : places (new_ThreadPool n) = [].
Proof. unfold places. cbn. rewrite !app_nil_r. by induction n. Qed.

(** ** A pool nobody stops *)

Definition peaceful (e : event) : Prop := match e with EStop => False | _ => True end.
#[export] Instance peaceful_dec e : Decision (peaceful e).
Proof. destruct e; apply _. Defined.
Definition progress (e : event) : Prop := match e with EThread _ | EGo _ _ => True | _ => False end.

Definition submitting (x : call_at) : bool := match x with CSubmit _ | CPush _ | CNotify | CAccepted => true | _ => false end.

(** No thread is gone; a thread about to sleep has seen that nothing waits, one about to
    take a task that something does; and when something waits some thread is awake, or a
    call is about to wake one. *)
Record calm (p : ThreadPool) : Prop := mkcalm {
  c_sane : sane p;
  c_active : active_flag p = true;
  c_calls : Forall (fun x => submitting x = true) (calls p);
  c_manned : threads p <> [];
  c_staying : Forall (fun x => gone x = false) (threads p);
  c_seen : forall i, mutex_tp p = Some i ->
    (threads p !! i = Some TBlock -> tasks p = []) /\ (threads p !! i = Some TCheck -> tasks p <> []);
  c_awake : tasks p = [] \/ Exists (fun x => asleep x = false) (threads p) \/ CNotify ∈ calls p;
}.

Lemma calm_new n : (0 < n)%nat -> calm (new_ThreadPool n).
Proof.
  intros Hn. constructor; cbn; try done; [apply sane_new | | |].
  - by destruct n; [lia|].
  - by apply Forall_replicate.
  - by left.
Qed.

(** A thread that moves. *)
Lemma calm_move p i x x' m ts rn : calm p -> threads p !! i = Some x ->
  sane (mkpool (active_flag p) m ts (<[i := x']> (threads p)) (calls p) rn) -> gone x' = false ->
  (m = None \/ m = Some i /\ (x' = TBlock -> ts = []) /\ (x' = TCheck -> ts <> []) \/ m = mutex_tp p /\ ts = tasks p /\ holds x' = false /\ m <> Some i) ->
  (asleep x' = false \/ ts = []) ->
  calm (mkpool (active_flag p) m ts (<[i := x']> (threads p)) (calls p) rn).
Proof.
  intros [C1 C2 C3 C4 C5 C6 C7] Hx Hsane Hg Hm Ha. constructor; cbn; [done | done | done | | | |].
  - destruct (threads p), i; done.
  - by apply Forall_insert.
  - intros j Hj. destruct Hm as [-> | [(-> & H1 & H2)|(-> & -> & Hh & Hne)]]; [done| |].
    + injection Hj as <-. rewrite list_lookup_insert_eq by (by eapply lookup_lt_Some). split; intros [= ->]; auto.
    + rewrite list_lookup_insert_ne by congruence. by apply C6.
  - destruct Ha as [Ha|Ha]; [|by left]. right. left. by eapply Exists_insert.
Qed.

(** A thread that does not hold the mutex. *)
Lemma not_owner p i x : sane p -> threads p !! i = Some x -> holds x = false -> mutex_tp p <> Some i.
Proof. intros Hp Hx Hh Hm. by rewrite (proj2 (s_owned _ Hp i x Hx) Hm) in Hh. Qed.

Definition weight_of (x : place) : nat :=
  match x with TRun _ => 6 | TLoop => 5 | TLock => 4 | TPred => 3 | TCheck => 2 | TBlock => 1 | TSleep | TDone => 0 end.
Definition weight_call (x : call_at) : nat := match x with CSubmit _ => 14 | CPush _ => 13 | CNotify => 5 | _ => 0 end.

(** How much is left to do: so many steps, at most. *)
Definition weight (p : ThreadPool) : nat :=
  5 * length (tasks p) + sum_list (map weight_of (threads p)) + sum_list (map weight_call (calls p)).

Lemma tp_calm_wake i p p' : calm p -> wake i p = Some p' -> calm p' /\ weight p' = (weight p + 4)%nat.
Proof.
  intros Hc Hs. pose proof (sane_wake _ _ _ (c_sane _ Hc) Hs) as Hsane. unfold wake in Hs.
  destruct (threads p !! i) as [[]|] eqn:Ei; try done. injection Hs as <-. split.
  - apply (calm_move p i TSleep); [done | done | done | done | | by left]. right. right. splits; [done..|].
    by eapply not_owner; [apply Hc|..].
  - unfold weight. cbn. pose proof (sum_map_insert weight_of _ i TSleep TLock Ei) as H. cbn in H. lia.
Qed.

Lemma calm_thread i p p' : calm p -> thread_step i p = Some p' -> calm p' /\ (weight p' < weight p)%nat.
Proof.
  intros Hc Hs. pose proof (sane_thread _ _ _ (c_sane _ Hc) Hs) as Hsane. unfold thread_step in Hs.
  destruct (threads p !! i) as [x|] eqn:Ei; [|done]. unfold weight.
  pose proof (fun x' => sum_map_insert weight_of _ i x x' Ei) as Hw. rewrite (c_active _ Hc) in Hs.
  pose proof (not_owner p i x (c_sane _ Hc) Ei) as Hno. destruct x; cbn in Hno.
  - injection Hs as <-. split; [|cbn; specialize (Hw TLock); cbn in Hw; lia].
    apply (calm_move p i TLoop); [done | done | done | done | | by left]. right. right. splits; [done..|]. by apply Hno.
  - destruct (mutex_tp p) eqn:Em; [done|]. injection Hs as <-. split; [|cbn; specialize (Hw TPred); cbn in Hw; lia].
    apply (calm_move p i TLock); [done | done | done | done | | by left]. right. left. splits; done.
  - assert (mutex_tp p = Some i) as Hm by (by apply (s_owned _ (c_sane _ Hc) i TPred)). unfold wait_pred in Hs. rewrite (c_active _ Hc) in Hs.
    destruct (tasks p) as [|t l] eqn:Et; injection Hs as <-; cbn in Hsane |- *; rewrite Et in *; cbn.
    + split; [|specialize (Hw TBlock); cbn in Hw; lia]. rewrite <- Et in *.
      apply (calm_move p i TPred); [done | done | done | done | | by left]. right. left. splits; [done | congruence | done].
    + split; [|specialize (Hw TCheck); cbn in Hw; lia]. rewrite <- Et in *.
      apply (calm_move p i TPred); [done | done | done | done | | by left]. right. left. splits; [done | done | congruence].
  - injection Hs as <-. split; [|cbn; specialize (Hw TSleep); cbn in Hw; lia].
    assert (mutex_tp p = Some i) as Hm by (by apply (s_owned _ (c_sane _ Hc) i TBlock)). destruct (c_seen _ Hc i Hm) as [Ht _].
    apply (calm_move p i TBlock); [done | done | done | done | by left | right; by apply Ht].
  - done.
  - assert (mutex_tp p = Some i) as Hm by (by apply (s_owned _ (c_sane _ Hc) i TCheck)). destruct (c_seen _ Hc i Hm) as [_ Ht].
    destruct (tasks p) as [|t l] eqn:Et; [by destruct (Ht Ei)|]. injection Hs as <-.
    split; [|cbn; specialize (Hw (TRun t)); cbn in Hw; lia].
    apply (calm_move p i TCheck); [done | done | done | done | by left | by left].
  - injection Hs as <-. split; [|cbn; specialize (Hw TLoop); cbn in Hw; lia].
    apply (calm_move p i (TRun t)); [done | done | done | done | | by left]. right. right. splits; [done..|]. by apply Hno.
  - done.
Qed.

(** A call that moves to [x]. *)
Lemma calm_at_call c x p : calm p -> submitting x = true ->
  (tasks p = [] \/ Exists (fun y => asleep y = false) (threads p) \/ CNotify ∈ <[c := x]> (calls p)) -> calm (at_call c x p).
Proof.
  intros [C1 C2 C3 C4 C5 C6 C7] Hx Ha. constructor; cbn; try done.
  - apply sane_at_call; [done|]. by destruct x.
  - by apply Forall_insert.
Qed.

Lemma weight_at_call c x y p : calls p !! c = Some x -> (weight (at_call c y p) + weight_call x = weight p + weight_call y)%nat.
Proof. intros Hc. unfold weight. cbn. pose proof (sum_map_insert weight_call _ c x y Hc). lia. Qed.

Lemma notify_stays c x y (l : list call_at) : l !! c = Some x -> x <> CNotify -> CNotify ∈ l -> CNotify ∈ <[c := y]> l.
Proof.
  intros Hc Hx (j & Hj)%list_elem_of_lookup. apply list_elem_of_lookup. exists j. rewrite list_lookup_insert_ne; congruence.
Qed.

Lemma calm_call c k p p' : calm p -> call_step c k p = Some p' -> calm p' /\ (weight p' < weight p)%nat.
Proof.
  intros Hc Hs. unfold call_step in Hs. destruct (calls p !! c) as [x|] eqn:Ec; [|done].
  pose proof (fun y => weight_at_call c x y p Ec) as Hw. pose proof (lookup_lt_Some _ _ _ Ec) as Hlt.
  pose proof (Forall_lookup_1 _ _ _ _ (c_calls _ Hc) Ec) as Hx. rewrite (c_active _ Hc) in Hs. destruct x; try done.
  - injection Hs as <-. specialize (Hw (CPush t)). cbn [weight_call] in Hw. split; [|lia]. apply calm_at_call; [done | done |].
    destruct (c_awake _ Hc) as [?|[?|Hn]]; [by left | by right; left | right; right]. by eapply notify_stays.
  - destruct (mutex_tp p) eqn:Em; [done|]. injection Hs as <-. specialize (Hw CNotify). cbn [weight_call] in Hw. split.
    + assert (CNotify ∈ <[c := CNotify]> (calls p)) as Hin by (by apply list_elem_of_insert).
      destruct (calm_at_call c CNotify p Hc) as [C1 C2 C3 C4 C5 C6 C7]; [done | by right; right|].
      constructor; cbn in *; try done; [by destruct C1; constructor | congruence | by right; right].
    + unfold weight in *. cbn in *. rewrite length_app. cbn. lia.
  - specialize (Hw CAccepted). cbn [weight_call] in Hw. unfold notify_one in Hs. destruct k as [i|].
    + assert (exists x, threads p !! i = Some x) as [x Hi].
      { unfold wake in Hs. cbn in Hs. destruct (threads p !! i) as [x|]; [by exists x | done]. }
      unfold wake in Hs. cbn in Hs. rewrite Hi in Hs. destruct x; try done. injection Hs as <-.
      destruct (tp_calm_wake i p (move i TLock p) Hc) as [Hc1 Hw1]; [unfold wake; by rewrite Hi|].
      split; [change (calm (at_call c CAccepted (move i TLock p))) | change (weight (at_call c CAccepted (move i TLock p)) < weight p)%nat].
      * apply calm_at_call; [done | done |]. right. left. cbn. by eapply Exists_insert.
      * pose proof (weight_at_call c CNotify CAccepted (move i TLock p) Ec) as Hw2. cbn [weight_call] in Hw2. lia.
    + destruct (existsb asleep (threads (at_call c CAccepted p))) eqn:Ea; [done|]. injection Hs as <-. split; [|lia].
      apply calm_at_call; [done | done |]. right. left. cbn in Ea. pose proof (c_manned _ Hc). destruct (threads p) as [|y l]; [done|].
      apply Exists_cons_hd. cbn in Ea. by destruct (asleep y).
Qed.

Lemma calm_progress e p p' : progress e -> calm p -> pool_step e p = Some p' -> calm p' /\ (weight p' < weight p)%nat.
Proof. destruct e; try done; intros _; [apply calm_thread | apply calm_call]. Qed.

Lemma tp_calm_step e p p' : peaceful e -> calm p -> pool_step e p = Some p' -> calm p'.
Proof.
  intros He Hc Hs. destruct e; try done.
  - by eapply calm_thread.
  - by eapply tp_calm_wake.
  - pose proof (sane_step _ _ _ (c_sane _ Hc) Hs) as Hsane. injection Hs as <-. destruct Hc as [C1 C2 C3 C4 C5 C6 C7].
    constructor; cbn; try done; [apply Forall_app; split; [done | by apply Forall_singleton]|].
    destruct C7 as [?|[?|?]]; [by left | by right; left | right; right]. apply elem_of_app. by left.
  - by eapply calm_call.
Qed.

Lemma tp_calm_run es n p : (0 < n)%nat -> Forall peaceful es -> run es (new_ThreadPool n) p -> calm p.
Proof.
  intros Hn Hp Hr. eapply (steps_invariant pool_step peaceful calm); [|done|exact Hr|by apply calm_new].
  intros e s1 s2. apply tp_calm_step.
Qed.

(** ** Rest *)

(** Nothing goes on of itself. *)
Definition resting (p : ThreadPool) : Prop := forall e, progress e -> pool_step e p = None.

(** At rest every thread is asleep, every call has returned and nothing waits. *)
Lemma calm_resting p : calm p -> resting p ->
  tasks p = [] /\ Forall (fun x => x = TSleep) (threads p) /\ Forall (fun x => x = CAccepted) (calls p).
Proof.
  intros Hc Hr. pose proof (c_sane _ Hc) as Hs. assert (mutex_tp p = None) as Hm.
  { destruct (mutex_tp p) as [i|] eqn:Em; [|done]. destruct (s_owner _ Hs i Em) as [x Hx].
    pose proof (proj2 (s_owned _ Hs i x Hx) Em) as Hh. pose proof (Hr (EThread i) I) as Hi. cbn in Hi.
    unfold thread_step in Hi. rewrite Hx in Hi. destruct x; try done. by destruct (tasks p). }
  assert (Forall (fun x => x = TSleep) (threads p)) as Ht.
  { apply Forall_lookup_2. intros i x Hx. pose proof (Hr (EThread i) I) as Hi. cbn in Hi. unfold thread_step in Hi.
    rewrite Hx, Hm in Hi. pose proof (Forall_lookup_1 _ _ _ _ (c_staying _ Hc) Hx) as Hg. destruct x; try done. by destruct (tasks p). }
  assert (Forall (fun x => x = CAccepted) (calls p)) as Hcl.
  { apply Forall_lookup_2. intros c x Hx. pose proof (Hr (EGo c None) I) as H0. pose proof (Hr (EGo c (Some 0%nat)) I) as H1.
    cbn in H0, H1. unfold call_step, notify_one in H0, H1. rewrite Hx in H0, H1. rewrite Hm in H0.
    pose proof (Forall_lookup_1 _ _ _ _ (c_calls _ Hc) Hx) as Hq. destruct x; try done.
    exfalso. unfold wake in H1. cbn in H1. pose proof (c_manned _ Hc). destruct (threads p) as [|y l]; [done|].
    apply Forall_cons_1 in Ht as [-> _]. done. }
  splits; [|done|done]. destruct (c_awake _ Hc) as [Ha|[Ha|Ha]]; [done | |]; exfalso.
  - apply Exists_exists in Ha as (x & Hin & Hx). rewrite Forall_forall in Ht. by rewrite (Ht x Hin) in Hx.
  - rewrite Forall_forall in Hcl. by specialize (Hcl _ Ha).
Qed.

(** The steps that could come next. *)
Definition candidates (p : ThreadPool) : list event :=
  map EThread (seq 0 (length (threads p))) ++
  concat (map (fun c => EGo c None :: map (fun i => EGo c (Some i)) (seq 0 (length (threads p)))) (seq 0 (length (calls p)))).
Definition enabled (p : ThreadPool) : option event := find (fun e => bool_decide (is_Some (pool_step e p))) (candidates p).

Lemma enabled_some p e : enabled p = Some e -> progress e /\ is_Some (pool_step e p).
Proof.
  intros (Hin & Hs%bool_decide_eq_true)%find_some. split; [|done]. apply list_elem_of_In in Hin.
  apply elem_of_app in Hin as [(i & -> & _)%list_elem_of_fmap|Hin]; [done|]. apply list_elem_of_In, in_concat in Hin as (l & Hl & He).
  apply list_elem_of_In, list_elem_of_fmap in Hl as (c & -> & _). apply list_elem_of_In in He.
  apply elem_of_cons in He as [->|(i & -> & _)%list_elem_of_fmap]; done.
Qed.

Lemma enabled_none p : enabled p = None -> resting p.
Proof.
  intros Hn e He. destruct (pool_step e p) as [p'|] eqn:Es; [|done]. exfalso.
  assert (forall e, e ∈ candidates p -> pool_step e p = None) as Hc.
  { intros f Hf. pose proof (find_none _ _ Hn f (proj1 (list_elem_of_In _ _) Hf)) as Hx. cbv beta in Hx.
    case_bool_decide as Hb; [done|]. destruct (pool_step f p); [by destruct Hb | done]. }
  assert (forall c f, (c < length (calls p))%nat -> f ∈ EGo c None :: map (fun i => EGo c (Some i)) (seq 0 (length (threads p))) -> f ∈ candidates p) as Hgo.
  { intros c f Hlt Hf. apply elem_of_app. right. apply list_elem_of_In, in_concat. eexists. split; [|by apply list_elem_of_In].
    apply list_elem_of_In, list_elem_of_fmap. exists c. split; [done|]. apply elem_of_seq. lia. }
  destruct e as [i| | | |c k]; try done; cbn in Es.
  - assert (i < length (threads p))%nat as Hlt.
    { unfold thread_step in Es. destruct (threads p !! i) eqn:Ei; [by eapply lookup_lt_Some | done]. }
    assert (EThread i ∈ candidates p) as Hin; [|specialize (Hc _ Hin); cbn in Hc; congruence].
    apply elem_of_app. left. apply list_elem_of_fmap. exists i. split; [done|]. apply elem_of_seq. lia.
  - unfold call_step in Es. destruct (calls p !! c) as [x|] eqn:Ec; [|done]. pose proof (lookup_lt_Some _ _ _ Ec) as Hlt.
    destruct (decide (x = CNotify /\ k <> None)) as [[-> Hk]|Hnot].
    + destruct k as [i|]; [|done]. cbn in Es. assert (i < length (threads p))%nat as Hi.
      { unfold wake in Es. cbn in Es. destruct (threads p !! i) eqn:Ei; [by eapply lookup_lt_Some | done]. }
      assert (EGo c (Some i) ∈ candidates p) as Hin.
      { eapply (Hgo c _ Hlt), elem_of_cons. right. apply list_elem_of_fmap. exists i. split; [done|]. apply elem_of_seq. lia. }
      specialize (Hc _ Hin). cbn in Hc. unfold call_step in Hc. rewrite Ec in Hc. cbn in Hc. congruence.
    + assert (EGo c None ∈ candidates p) as Hin by (by eapply (Hgo c _ Hlt), elem_of_cons; left).
      specialize (Hc _ Hin). cbn in Hc. unfold call_step in Hc. rewrite Ec in Hc. destruct x; try congruence.
      destruct k; [|congruence]. by destruct Hnot.
Qed.

(** ** The properties *)

(** C26: whatever the interleaving, spurious wakeups and stops included, at most one thread
    has the mutex, and every submitted task is in exactly one place: with a call that has not
    handed it over or was refused, on the queue, in the hands of one thread, or run. *)
Theorem tp_tasks_once n es p : run es (new_ThreadPool n) p ->
  (forall i j x y, threads p !! i = Some x -> threads p !! j = Some y -> holds x = true -> holds y = true -> i = j) /\
  tasks p ++ concat (map hand (threads p)) ++ ran p ++ concat (map outside (calls p)) ≡ₚ submitted es /\
  (NoDup (submitted es) -> NoDup (ran p)).
Proof.
  intros Hr. pose proof (s_owned _ (sane_run _ _ _ Hr)) as Ho. pose proof (tp_places_run _ _ _ Hr) as Hp.
  rewrite places_new in Hp. cbn in Hp. splits; [|done|].
  - intros i j x y Hi Hj Hx Hy. apply (Ho i x Hi) in Hx. apply (Ho j y Hj) in Hy. congruence.
  - intros Hnd. rewrite <- Hp in Hnd. unfold places in Hnd. by apply NoDup_app in Hnd as (_ & _ & (_ & _ & (Hnd & _)%NoDup_app)%NoDup_app).
Qed.

(** The runs that follow a peaceful one, and where they end. *)
Lemma calm_ends n es p : (0 < n)%nat -> Forall peaceful es -> run es (new_ThreadPool n) p ->
  (forall more p', Forall progress more -> run more p p' ->
     (length more <= weight p)%nat /\ (resting p' -> tasks p' = [] /\ ran p' ≡ₚ submitted es)) /\
  (exists more p', Forall progress more /\ run more p p' /\ resting p').
Proof.
  intros Hn Hp Hr. pose proof (tp_calm_run _ _ _ Hn Hp Hr) as Hc. split.
  - intros more p' Hm Hr'. destruct (steps_measure pool_step progress calm weight more p p') as [Hc' Hle]; [|done..|].
    { intros e s1 s2. apply calm_progress. }
    split; [lia|]. intros Hrest. destruct (calm_resting _ Hc' Hrest) as (Ht & Hth & Hcl). split; [done|].
    pose proof (tp_places_run _ _ _ Hr) as H1. pose proof (tp_places_run _ _ _ Hr') as H2. rewrite places_new in H1. cbn in H1.
    replace (submitted more) with (@nil task) in H2.
    2: { clear -Hm. induction Hm as [|e es He _ IH]; [done|]. rewrite submitted_cons, <- IH. by destruct e. }
    rewrite app_nil_r, H1 in H2. rewrite <- H2. unfold places. rewrite Ht.
    replace (concat (map hand (threads p'))) with (@nil task) by (clear -Hth; induction Hth as [|x l -> _ IH]; [done | exact IH]).
    replace (concat (map outside (calls p'))) with (@nil task) by (clear -Hcl; induction Hcl as [|x l -> _ IH]; [done | exact IH]).
    cbn. by rewrite app_nil_r.
  - destruct (steps_rest pool_step progress calm weight enabled p) as (more & p' & H1 & H2 & H3); [| |done|].
    + intros e s1 s2. apply calm_progress.
    + apply enabled_some.
    + exists more, p'. splits; [done | done | by apply enabled_none].
Qed.

(** C27: as long as nobody calls [stop], no wakeup is lost: whatever happened so far and
    whoever is scheduled from here, the threads and the calls come to rest within a number
    of steps known now, and then every submitted task has been run. *)
Theorem tp_all_tasks_run n es p : (0 < n)%nat -> Forall peaceful es -> run es (new_ThreadPool n) p ->
  (forall more p', Forall progress more -> run more p p' ->
     (length more <= weight p)%nat /\ (resting p' -> tasks p' = [] /\ ran p' ≡ₚ submitted es)) /\
  (exists more p', Forall progress more /\ run more p p' /\ resting p').
Proof. apply calm_ends. Qed.

Lemma sum_perm l1 l2 : l1 ≡ₚ l2 -> foldr (fun i acc => hello i + acc) 0 l1 = foldr (fun i acc => hello i + acc) 0 l2.
Proof. induction 1; cbn; lia. Qed.

(** [main] of mythread.cpp prints 285 whatever the scheduler does: once its ten futures
    are ready the sum has that value, and they all become ready. *)
Theorem tp_main_sum n es p : (0 < n)%nat -> Forall peaceful es -> submitted es = main_tasks -> run es (new_ThreadPool n) p ->
  (futures_ready p = true -> sum p = 285) /\
  (forall more p', Forall progress more -> run more p p' -> resting p' -> futures_ready p' = true /\ sum p' = 285).
Proof.
  intros Hn Hp Hs Hr. split.
  - intros Hf. pose proof (tp_places_run _ _ _ Hr) as H. rewrite places_new, Hs in H. cbn [app] in H.
    assert (ran p ≡ₚ main_tasks) as Hran; [|exact (sum_perm _ _ Hran)].
    assert (main_tasks ⊆+ ran p) as H1.
    { apply NoDup_submseteq; [apply (bool_decide_unpack _); vm_compute; exact I|]. intros t Ht. unfold futures_ready in Hf.
      rewrite forallb_forall in Hf. apply list_elem_of_In in Ht. specialize (Hf t Ht). by apply bool_decide_eq_true in Hf. }
    assert (ran p ⊆+ main_tasks) as H2.
    { rewrite <- H. unfold places. by do 2 apply submseteq_inserts_l; apply submseteq_inserts_r. }
    by apply (anti_symm submseteq).
  - intros more p' Hm Hr' Hrest. destruct (calm_ends n es p Hn Hp Hr) as [Hall _]. destruct (Hall more p' Hm Hr') as [_ He].
    destruct (He Hrest) as [_ Hran]. rewrite Hs in Hran. split; [|exact (sum_perm _ _ Hran)].
    unfold futures_ready. apply forallb_forall. intros t Ht. apply bool_decide_eq_true. rewrite Hran. by apply list_elem_of_In.
Qed.

(** Once [stop] has returned there are no threads, and nothing is run. *)
Lemma stopped_step e p p' : sane p -> CStopped ∈ calls p -> pool_step e p = Some p' ->
  CStopped ∈ calls p' /\ ran p' = ran p /\ exists l, tasks p' = tasks p ++ l.
Proof.
  intros Hp Hc Hs. pose proof (s_stopped _ Hp Hc) as Ht.
  assert (forall c x y, calls p !! c = Some x -> x <> CStopped -> CStopped ∈ <[c := y]> (calls p)) as Hstay.
  { intros c x y Hx Hne. apply list_elem_of_lookup in Hc as [j Hj]. apply list_elem_of_lookup. exists j.
    rewrite list_lookup_insert_ne; congruence. }
  assert (exists l, tasks p = tasks p ++ l) as Hnil by (exists []; by rewrite app_nil_r).
  destruct e as [i|i|t| |c k]; cbn in Hs.
  - unfold thread_step in Hs. by rewrite Ht in Hs.
  - unfold wake in Hs. by rewrite Ht in Hs.
  - injection Hs as <-. cbn. splits; [apply elem_of_app; by left | done | done].
  - destruct (existsb _ _); [done|]. injection Hs as <-. cbn. splits; [apply elem_of_app; by left | done | done].
  - unfold call_step in Hs. destruct (calls p !! c) as [x|] eqn:Ec; [|done]. pose proof (fun y => Hstay c x y Ec) as Hs'.
    destruct x; try done.
    + injection Hs as <-. cbn. splits; [by apply Hs' | done | done].
    + destruct (mutex_tp p); [done|]. injection Hs as <-. cbn. splits; [by apply Hs' | done | by exists [t]].
    + unfold notify_one in Hs. destruct k as [i|]; [unfold wake in Hs; cbn in Hs; by rewrite Ht in Hs|].
      destruct (existsb _ _); [done|]. injection Hs as <-. cbn. splits; [by apply Hs' | done | done].
    + injection Hs as <-. cbn. splits; [by apply Hs' | done | done].
    + injection Hs as <-. cbn. splits; [by apply Hs' | done | done].
    + destruct (forallb _ _); [|done]. injection Hs as <-. cbn. splits; [by apply Hs' | done | done].
Qed.

(** When [stop] has returned every thread has ended and every task a thread had taken
    was run; the tasks still on the queue are dropped: they stay there and nothing runs
    any more, so their futures are never fulfilled. *)
Theorem tp_stop_drops n es p more p' :
  run es (new_ThreadPool n) p -> CStopped ∈ calls p -> run more p p' ->
  tasks p ++ ran p ++ concat (map outside (calls p)) ≡ₚ submitted es /\
  ran p' = ran p /\ exists l, tasks p' = tasks p ++ l.
Proof.
  intros Hr Hc Hm. pose proof (sane_run _ _ _ Hr) as Hs. pose proof (tp_places_run _ _ _ Hr) as Hp. rewrite places_new in Hp.
  unfold places in Hp. rewrite (s_stopped _ Hs Hc) in Hp. split; [exact Hp|]. clear Hp Hr.
  induction Hm as [p|e more p1 p2 p3 H1 Hm IH]; [split; [done | exists []; by rewrite app_nil_r]|].
  destruct (stopped_step e p1 p2 Hs Hc H1) as (Hc2 & Er & l & El). destruct (IH Hc2 (sane_step _ _ _ Hs H1)) as (Er' & l' & El').
  split; [congruence|]. exists (l ++ l'). by rewrite El', El, (assoc_L (++)).
Qed.

(** A thread that sleeps when the last notification has been given. *)
Definition settled (x : call_at) : bool :=
  match x with CSubmit _ | CAccepted | CThrown _ | CJoin | CStopped => true | _ => false end.
Record forsaken (i c : nat) (p : ThreadPool) : Prop := mkforsaken {
  f_flag : active_flag p = false;
  f_sleeps : threads p !! i = Some TSleep;
  f_joins : calls p !! c = Some CJoin;
  f_settled : Forall (fun x => settled x = true) (calls p);
}.
Definition unprovoked (e : event) : Prop := match e with ESpurious _ => False | _ => True end.

Lemma forsaken_step i c : forall e p p', unprovoked e -> forsaken i c p -> pool_step e p = Some p' -> forsaken i c p'.
Proof.
  intros e p p' He [F1 F2 F3 F4] Hs. destruct e as [j| |t| |d k]; cbn in Hs; [| done | | |].
  - destruct (decide (j = i)) as [->|Hne]; [unfold thread_step in Hs; by rewrite F2 in Hs|].
    unfold thread_step in Hs. destruct (threads p !! j) as [x|] eqn:Ej; [|done].
    destruct x; try done; [|destruct (mutex_tp p); [done|] | | | destruct (tasks p) |]; injection Hs as <-;
      (constructor; cbn; [done | by rewrite list_lookup_insert_ne | done | done]).
  - injection Hs as <-. constructor; cbn; [done | done | by apply lookup_app_l_Some | apply Forall_app; split; [done | by apply Forall_singleton]].
  - assert (existsb stopping (calls p) = true) as Hx; [|by rewrite Hx in Hs].
    apply existsb_exists. exists CJoin. split; [|done]. apply list_elem_of_In. by eapply list_elem_of_lookup_2.
  - unfold call_step in Hs. destruct (calls p !! d) as [x|] eqn:Ed; [|done]. pose proof (Forall_lookup_1 _ _ _ _ F4 Ed) as Hx.
    destruct x; try done.
    + rewrite F1 in Hs. injection Hs as <-. constructor; cbn; [done | done | rewrite list_lookup_insert_ne; congruence | by apply Forall_insert].
    + destruct (forallb gone (threads p)) eqn:Eg; [|done]. exfalso. rewrite forallb_forall in Eg.
      assert (gone TSleep = true); [|done]. apply Eg, list_elem_of_In. by eapply list_elem_of_lookup_2.
Qed.

(** [stop] can hang.  It lowers the flag and notifies without the mutex: when that
    happens between the predicate of a thread and its sleep, the thread never learns of
    it, and, spurious wakeups apart, the [join] of [stop] waits for ever. *)
Theorem tp_stop_can_hang n : exists es p c, run es (new_ThreadPool (S n)) p /\ active_flag p = false /\ calls p !! c = Some CJoin /\
  forall more p', Forall unprovoked more -> run more p p' -> calls p' !! c = Some CJoin /\ threads p' !! 0%nat = Some TSleep.
Proof.
  exists [EThread 0; EThread 0; EThread 0; EStop; EGo 0 None; EGo 0 None; EThread 0].
  eexists. exists 0%nat. split; [apply run_steps_ok; reflexivity|]. split; [done|]. split; [done|].
  intros more p' Hm Hr. match type of Hr with steps _ _ ?x _ => assert (forsaken 0 0 x) as Hf end.
  { constructor; [done | done | done | by apply Forall_singleton]. }
  destruct (steps_invariant pool_step unprovoked (forsaken 0 0) more _ p' (forsaken_step 0 0) Hm Hr Hf) as [_ F2 F3 _]. done.
Qed.

(** ** Runs *)

Definition demo_events : list event :=
  [ESubmit 0; EGo 0 None; EGo 0 None; EGo 0 None; EThread 0; EThread 0; EThread 0; EThread 0].
Definition demo_pool (es : list event) : ThreadPool := default (new_ThreadPool 0) (run_steps pool_step es (new_ThreadPool 1)).

Lemma tp_demo_run es : is_Some (run_steps pool_step es (new_ThreadPool 1)) -> run es (new_ThreadPool 1) (demo_pool es).
Proof. intros [p Hp]. unfold demo_pool. rewrite Hp. by apply run_steps_ok. Qed.

Lemma tp_tasks_once_witness : concat (map hand (threads (demo_pool demo_events))) = [0] /\ NoDup (ran (demo_pool demo_events)).
Proof.
  split; [vm_compute; reflexivity|].
  apply (tp_tasks_once 1 demo_events (demo_pool demo_events)); [apply tp_demo_run; eexists; vm_compute; reflexivity | apply NoDup_singleton].
Defined.

Lemma tp_all_tasks_run_witness : exists more p', Forall progress more /\ run more (demo_pool demo_events) p' /\ resting p'.
Proof.
  apply (tp_all_tasks_run 1 demo_events (demo_pool demo_events)); [lia | repeat constructor |].
  apply tp_demo_run. eexists. vm_compute. reflexivity.
Defined.

(** [main] with a pool of one thread. *)
Definition main_events : list event :=
  concat (map (fun t => [ESubmit t; EGo (Z.to_nat t) None; EGo (Z.to_nat t) None; EGo (Z.to_nat t) None]) main_tasks) ++
  concat (replicate 10 (replicate 5 (EThread 0))).

Lemma tp_main_sum_witness : futures_ready (demo_pool main_events) = true /\ sum (demo_pool main_events) = 285.
Proof.
  assert (futures_ready (demo_pool main_events) = true) as Hf by (vm_compute; reflexivity). split; [exact Hf|].
  apply (tp_main_sum 1 main_events (demo_pool main_events)); [lia | | vm_compute; reflexivity | | exact Hf].
  - apply (bool_decide_unpack (Forall peaceful main_events)). vm_compute. exact I.
  - apply tp_demo_run. eexists. vm_compute. reflexivity.
Defined.

(** Two tasks for one thread, and a [stop] while the first is run: the second is dropped. *)
Definition stop_events : list event :=
  [ESubmit 3; EGo 0 None; EGo 0 None; EGo 0 None; ESubmit 4; EGo 1 None; EGo 1 None; EGo 1 None;
   EThread 0; EThread 0; EThread 0; EThread 0; EStop; EGo 2 None; EGo 2 None; EThread 0; EThread 0; EGo 2 None].

Lemma tp_stop_drops_witness : tasks (demo_pool stop_events) = [4] /\
  forall more p', run more (demo_pool stop_events) p' -> ran p' = [3] /\ exists l, tasks p' = 4 :: l.
Proof.
  split; [vm_compute; reflexivity|]. intros more p' Hr.
  apply (tp_stop_drops 1 stop_events (demo_pool stop_events) more p'); [apply tp_demo_run; eexists; vm_compute; reflexivity | | exact Hr].
  apply (bool_decide_unpack (CStopped ∈ calls (demo_pool stop_events))). vm_compute. exact I.
Defined.
