(* ===== verification/ConnPool.v ===== *)
(** * connectionpool.h of test4: a pool of database connections.

    Every method works with [mutex_cp] held from its first access to its last, except that
    [acquire] gives it up while it waits: a step is one such stretch, and any interleaving
    of the callers is a sequence of steps.  A connection is known by its pointer; what
    [mysql_init] and [mysql_real_connect] give is an argument of the step. *)
From S2P Require Import Prelude Threads.
From stdpp Require Import base list numbers gmap.
Open Scope Z_scope.
Open Scope c_scope.

Definition conn := Z.

(** Where a call of [acquire] is: before its lock; asleep; woken, before it has the mutex
    again; returned with its result. *)
Inductive acquire_at : Type :=
  | AStart
  | ASleep
  | AWoken
  | AGot (r : option conn).

(** [ConnectionPool], with the calls of [acquire], the connections that callers have, and
    those that were closed. *)
Record ConnectionPool : Type := mkcp {
  connections : list conn;
  active_flag : bool;
  total_connection : Z;
  available_connection : Z;
  acquires : list acquire_at;
  taken : list conn;
  closed : list conn;
}.
Definition eta_cp (p : ConnectionPool) : ConnectionPool :=
  mkcp (connections p) (active_flag p) (total_connection p) (available_connection p) (acquires p) (taken p) (closed p).
#[export] Instance upd_connections : Upd connections := ltac:(build_upd eta_cp connections).
#[export] Instance upd_cp_active_flag : Upd active_flag := ltac:(build_upd eta_cp active_flag).
#[export] Instance upd_total_connection : Upd total_connection := ltac:(build_upd eta_cp total_connection).
#[export] Instance upd_available_connection : Upd available_connection := ltac:(build_upd eta_cp available_connection).
#[export] Instance upd_acquires : Upd acquires := ltac:(build_upd eta_cp acquires).
#[export] Instance upd_taken : Upd taken := ltac:(build_upd eta_cp taken).
#[export] Instance upd_closed : Upd closed := ltac:(build_upd eta_cp closed).

Definition new_ConnectionPool : ConnectionPool := mkcp [] false 0 0 [] [] [].

(** ** [init] *)

(** What the client library does for one connection. *)
Inductive attempt : Type :=
  | InitFails
  | ConnectFails (c : conn)
  | Connects (c : conn).

(** The first loop: what was created, what was closed again, whether all succeeded. *)
Fixpoint create (n : nat) (l : list attempt) : list conn * list conn * bool :=
  match n with
  | O => ([], [], true)
  | S n =>
    match l with
    | Connects c :: l => let '(created, shut, ok) := create n l in (c :: created, shut, ok)
    | ConnectFails c :: _ => ([], [c], false)
    | InitFails :: _ | [] => ([], [], false)
    end
  end.

Definition awaken (x : acquire_at) : acquire_at := match x with ASleep => AWoken | _ => x end.
Definition notify_all (p : ConnectionPool) : ConnectionPool := p<|acquires := map awaken (acquires p)|>.

Definition init (max_conn_num : nat) (l : list attempt) (p : ConnectionPool) : bool * ConnectionPool :=
  if active_flag p then (false, p)
  else
    match create max_conn_num l with
    | (created, shut, false) => (false, p<|closed := closed p ++ shut ++ created|>)
    | (created, shut, true) =>
      (true, notify_all p<|connections := connections p ++ created|><|active_flag := true|>
                         <|total_connection := u64 (total_connection p + Z.of_nat max_conn_num)|>
                         <|available_connection := u64 (available_connection p + Z.of_nat max_conn_num)|>)
    end.

(** ** [acquire] *)

Definition set_acquire (a : nat) (x : acquire_at) (p : ConnectionPool) : ConnectionPool := p<|acquires := <[a := x]> (acquires p)|>.

(** Call [a] has the mutex: it looks at the predicate, and sleeps or ends. *)
Definition try_acquire (a : nat) (p : ConnectionPool) : ConnectionPool :=
  match connections p with
  | [] => if active_flag p then set_acquire a ASleep p else set_acquire a (AGot None) p
  | c :: rest =>
    if negb (active_flag p) then set_acquire a (AGot None) p
    else (set_acquire a (AGot (Some c)) p)<|connections := rest|>
           <|available_connection := u64 (available_connection p - 1)|><|taken := c :: taken p|>
  end.
Definition acquire (a : nat) (p : ConnectionPool) : option ConnectionPool :=
  match acquires p !! a with
  | Some (AStart | AWoken) => Some (try_acquire a p)
  | _ => None
  end.

(** The end of a sleep. *)
Definition wake (a : nat) (p : ConnectionPool) : option ConnectionPool :=
  match acquires p !! a with Some ASleep => Some (set_acquire a AWoken p) | _ => None end.

(** [notify_one] wakes one of those asleep, [k], if there are any. *)
Definition asleep (x : acquire_at) : bool := match x with ASleep => true | _ => false end.
Definition notify_one (k : option nat) (p : ConnectionPool) : option ConnectionPool :=
  match k with
  | Some a => wake a p
  | None => if existsb asleep (acquires p) then None else Some p
  end.

(** ** [release], [shutdown], [available] *)

(** [taken] is that of the callers: they give the connection back with the call. *)
Definition release (conn : option conn) (k : option nat) (p : ConnectionPool) : option ConnectionPool :=
  match conn with
  | None => Some p
  | Some c =>
    notify_one k p<|connections := connections p ++ [c]|>
                  <|available_connection := u64 (available_connection p + 1)|>
                  <|taken := list_difference (taken p) [c]|>
  end.

Definition shutdown (p : ConnectionPool) : ConnectionPool :=
  notify_all p<|active_flag := false|><|closed := closed p ++ connections p|><|connections := []|>
              <|total_connection := 0|><|available_connection := 0|>.

Definition available (p : ConnectionPool) : Z := available_connection p.

(** ** Steps *)

Inductive event : Type :=
  | EInit (max_conn_num : nat) (l : list attempt)
  | ECall
  | EAcquire (a : nat)
  | ESpurious (a : nat)
  | ERelease (c : option conn) (k : option nat)
  | EShutdown.

(** The pointers that the client library hands out in an [init]. *)
Definition handed_out (l : list attempt) : list conn :=
  omap (fun x => match x with InitFails => None | ConnectFails c | Connects c => Some c end) l.

(** The connections there are. *)
Definition open_connections (p : ConnectionPool) : list conn := connections p ++ taken p.

(** What the callers and the client library owe: a pointer that is handed out is not that of
    a connection there is, and what is released was taken. *)
Definition fair (e : event) (p : ConnectionPool) : bool :=
  match e with
  | EInit _ l => bool_decide (NoDup (handed_out l)) && forallb (fun c => negb (bool_decide (c ∈ open_connections p))) (handed_out l)
  | ERelease (Some c) _ => bool_decide (c ∈ taken p)
  | _ => true
  end.

Definition cp_step (e : event) (p : ConnectionPool) : option ConnectionPool :=
  if fair e p then
    match e with
    | EInit n l => Some (init n l p).2
    | ECall => Some (p<|acquires := acquires p ++ [AStart]|>)
    | EAcquire a => acquire a p
    | ESpurious a => wake a p
    | ERelease c k => release c k p
    | EShutdown => Some (shutdown p)
    end
  else None.

(** ** sqltest.cpp *)

(** [sql_test] with the only call of [acquire]; [oks] tells of each of its nine database and
    file operations whether it succeeds. *)
Definition sql_test (oks : list bool) (p : ConnectionPool) : option (bool * ConnectionPool) :=
  let a := length (acquires p) in
  match acquire a (p<|acquires := acquires p ++ [AStart]|>) with
  | None => None
  | Some p =>
    match acquires p !! a with
    | Some (AGot None) => Some (false, p)
    | Some (AGot (Some sql)) =>
      match release (Some sql) None p with
      | Some p => Some (forallb id (take 9 oks), p)
      | None => None
      end
    | _ => None
    end
  end.

(** [main]: what it returns, and the pool at the end, after its destructor. *)
Definition sql_main (l : list attempt) (oks : list bool) : option (Z * ConnectionPool) :=
  let '(ok, p) := init 3 l new_ConnectionPool in
  if negb ok then Some (-1, shutdown p)
  else
    match sql_test oks p with
    | Some (ok, p) => Some (if (ok : bool) then 0 else -2, shutdown (shutdown p))
    | None => None
    end.
