(* ===== verification/ConnPoolProps.v ===== *)
(** * The properties of the pool of connections. *)
From S2P Require Import Prelude Threads ConnPool.
From Stdlib Require Import Lia.
From stdpp Require Import base list numbers gmap.
Open Scope Z_scope.
Open Scope c_scope.

#[local] Abbreviation run := (steps cp_step).

Definition woken (x : acquire_at) : nat := match x with AWoken => 1 | _ => 0 end.

(** The counter is right, no connection is twice there, and callers sleep only while the
    pool is active, with as many woken as there are connections. *)
Record pool_ok (p : ConnectionPool) : Prop := mkpool_ok {
  p_count : available_connection p = u64 (Z.of_nat (length (connections p)));
  p_once : NoDup (open_connections p);
  p_sleep : Exists (fun x => asleep x = true) (acquires p) ->
    active_flag p = true /\ (length (connections p) <= sum_list (map woken (acquires p)))%nat;
}.

Lemma u64_add x y : u64 (u64 x + y) = u64 (x + y).
Proof. unfold u64. rewrite Zplus_mod_idemp_l. done. Qed.

Lemma pool_ok_new : pool_ok new_ConnectionPool.
Proof. constructor; cbn; [done | constructor | by intros ?%Exists_nil]. Qed.

Lemma create_handed n : forall l created shut ok, create n l = (created, shut, ok) ->
  created ++ shut ⊆+ handed_out l /\ (ok = true -> length created = n /\ shut = []).
Proof.
  induction n as [|n IH]; intros l created shut ok H; cbn in H; [injection H as <- <- <-; split; [apply submseteq_nil_l | done]|].
  destruct l as [|[|c|c] l]; try (injection H as <- <- <-; split; [apply submseteq_nil_l | done]).
  - injection H as <- <- <-. cbn. split; [by apply submseteq_skip, submseteq_nil_l | done].
  - destruct (create n l) as [[cr sh] o] eqn:E. injection H as <- <- <-. destruct (IH _ _ _ _ E) as [H1 H2].
    cbn. split; [by apply submseteq_skip|]. intros Ho. destruct (H2 Ho). split; [cbn; lia | done].
Qed.

Lemma NoDup_sub (l k : list conn) : l ⊆+ k -> NoDup k -> NoDup l.
Proof. intros (x & ->)%submseteq_Permutation Hn. by apply NoDup_app in Hn as [? _]. Qed.

(** Nobody is asleep after [notify_all]. *)
Lemma nobody_asleep (l : list acquire_at) : ~ Exists (fun x => asleep x = true) (map awaken l).
Proof. intros (x & (y & -> & _)%list_elem_of_fmap & Hx)%Exists_exists. by destruct y. Qed.

Lemma ok_init n l p : pool_ok p -> fair (EInit n l) p = true -> pool_ok (init n l p).2.
Proof.
  intros Hp Hf. unfold init. destruct (active_flag p); [done|]. cbn in Hf. apply andb_true_iff in Hf as [Hnd%bool_decide_eq_true Hfr].
  destruct (create n l) as [[created shut] ok] eqn:Ec. destruct (create_handed _ _ _ _ _ Ec) as [Hsub Hok].
  destruct ok; [|by destruct Hp]. destruct (Hok eq_refl) as [Hlen ->]. rewrite app_nil_r in Hsub. clear Hok.
  constructor; cbn.
  - rewrite (p_count _ Hp), u64_add, length_app. f_equal. lia.
  - unfold open_connections. cbn. rewrite <- (assoc_L (++)). rewrite (Permutation_app_comm created), (assoc_L (++)).
    apply NoDup_app. splits; [apply Hp | | by eapply NoDup_sub].
    intros c Hc Hin. rewrite forallb_forall in Hfr. specialize (Hfr c). 
    assert (c ∈ handed_out l) as Hh by (by eapply elem_of_submseteq). apply list_elem_of_In in Hh. specialize (Hfr Hh).
    by rewrite bool_decide_true in Hfr.
  - by intros []%nobody_asleep.
Qed.

Lemma asleep_insert a x (l : list acquire_at) :
  asleep x = false -> Exists (fun x => asleep x = true) (<[a := x]> l) -> Exists (fun x => asleep x = true) l.
Proof.
  intros Hx (y & Hin & Hy)%Exists_exists. apply list_elem_of_lookup in Hin as [j Hj]. apply Exists_exists. exists y. split; [|done].
  destruct (decide (j = a)) as [->|Hne]; [apply list_lookup_insert_Some in Hj as [(_ & -> & _)|(? & _)]; congruence|].
  rewrite list_lookup_insert_ne in Hj by done. by eapply list_elem_of_lookup_2.
Qed.

Lemma ok_wake a p p' : pool_ok p -> wake a p = Some p' -> pool_ok p'.
Proof.
  intros Hp. unfold wake. destruct (acquires p !! a) as [[]|] eqn:Ea; try done. intros [= <-].
  destruct Hp as [P1 P2 P3]. constructor; cbn; [done | done |]. intros Hs%asleep_insert; [|done]. destruct (P3 Hs). split; [done|].
  pose proof (sum_map_insert woken _ a ASleep AWoken Ea) as Hw. cbn in Hw. lia.
Qed.

Lemma ok_acquire a p p' : pool_ok p -> acquire a p = Some p' -> pool_ok p'.
Proof.
  intros Hp. unfold acquire. destruct (acquires p !! a) as [x|] eqn:Ea; [|done]. intros Hst.
  assert ((x = AStart \/ x = AWoken) /\ p' = try_acquire a p) as [Hx ->] by (destruct x; naive_solver). clear Hst.
  pose proof (fun y => sum_map_insert woken _ a x y Ea) as Hsum. destruct Hp as [P1 P2 P3]. unfold try_acquire.
  assert (forall r, pool_ok (set_acquire a (AGot r) p) \/ active_flag p = true) as Hend.
  { intros r. destruct (active_flag p) eqn:Ef; [by right|]. left. constructor; cbn; [done | done |].
    intros Hs%asleep_insert; [|done]. destruct (P3 Hs). congruence. }
  destruct (connections p) as [|c rest] eqn:Ec.
  - destruct (active_flag p) eqn:Ef; [|by destruct (Hend None)].
    constructor; cbn; [by rewrite Ec | done |]. intros _. split; [done|]. rewrite Ec. cbn. lia.
  - destruct (active_flag p) eqn:Ef; cbn [negb]; [|by destruct (Hend None)]. constructor; cbn.
    + rewrite P1. unfold u64. rewrite Zminus_mod_idemp_l. f_equal. cbn. lia.
    + unfold open_connections in *. cbn. rewrite Ec in P2. by rewrite <- Permutation_middle.
    + intros Hs%asleep_insert; [|done]. destruct (P3 Hs) as [_ Hle]. split; [done|]. specialize (Hsum (AGot (Some c))).
      cbn in Hsum, Hle. destruct Hx as [-> | ->]; cbn in Hsum; lia.
Qed.

Lemma open_release p c : NoDup (taken p) -> c ∈ taken p -> taken p ≡ₚ c :: list_difference (taken p) [c].
Proof.
  intros Hnd Hc. apply NoDup_Permutation; [done | |].
  - constructor; [|by apply NoDup_list_difference]. rewrite list_elem_of_difference, list_elem_of_singleton. tauto.
  - intros x. rewrite elem_of_cons, list_elem_of_difference, list_elem_of_singleton.
    destruct (decide (x = c)) as [->|]; naive_solver.
Qed.

Lemma ok_release c k p p' : pool_ok p -> fair (ERelease c k) p = true -> release c k p = Some p' -> pool_ok p'.
Proof.
  intros Hp Hf. unfold release. destruct c as [c|]; [|by intros [= <-]]. apply bool_decide_eq_true in Hf. destruct Hp as [P1 P2 P3].
  assert (NoDup ((connections p ++ [c]) ++ list_difference (taken p) [c])) as Hnd.
  { unfold open_connections in P2. rewrite (open_release p c) in P2 by (done || by apply NoDup_app in P2 as (_ & _ & ?)).
    by rewrite <- (assoc_L (++)). }
  intros H. destruct k as [a|]; cbn in H.
  - unfold wake in H. cbn in H. destruct (acquires p !! a) as [[]|] eqn:Ea; try done. injection H as <-.
    constructor; cbn; [rewrite P1, u64_add, length_app; f_equal; cbn; lia | done |]. intros Hs%asleep_insert; [|done].
    destruct (P3 Hs). split; [done|]. rewrite length_app. cbn. pose proof (sum_map_insert woken _ a ASleep AWoken Ea) as Hw. cbn in Hw. lia.
  - destruct (existsb asleep (acquires p)) eqn:Ee; [done|]. injection H as <-.
    constructor; cbn; [rewrite P1, u64_add, length_app; f_equal; cbn; lia | done |]. intros (x & Hin & Hx)%Exists_exists.
    assert (existsb asleep (acquires p) = true); [|congruence]. apply existsb_exists. exists x. split; [by apply list_elem_of_In | done].
Qed.

Lemma ok_step e p p' : pool_ok p -> cp_step e p = Some p' -> pool_ok p'.
Proof.
  intros Hp. unfold cp_step. destruct (fair e p) eqn:Hf; [|done]. destruct e as [n l| |a|a|c k|].
  - intros [= <-]. by apply ok_init.
  - intros [= <-]. destruct Hp as [P1 P2 P3]. constructor; cbn; [done | done |].
    intros Hs. destruct P3; [|split; [done|]].
    + apply Exists_app in Hs as [?|(? & ->%list_elem_of_singleton & ?)%Exists_exists]; done.
    + rewrite map_app, sum_list_with_app. cbn. unfold sum_list in *. lia.
  - by apply ok_acquire.
  - by apply ok_wake.
  - by apply ok_release.
  - intros [= <-]. destruct Hp as [P1 P2 P3]. constructor; cbn; [done | | by intros []%nobody_asleep].
    unfold open_connections in *. cbn. by apply NoDup_app in P2 as (_ & _ & ?).
Qed.

Lemma ok_run es p : run es new_ConnectionPool p -> pool_ok p.
Proof.
  intros Hr. apply (steps_invariant cp_step (fun _ => True) pool_ok es new_ConnectionPool p); [|by apply Forall_true|done|apply pool_ok_new].
  intros e p1 p2 _. apply ok_step.
Qed.

(** ** The properties *)

(** C28: through any interleaving of the callers [available] counts the connections on the
    queue, and no connection is there twice or has two owners: what [acquire] gives is the
    connection that has waited longest, which nobody else has. *)
Theorem cp_connections_once es p : run es new_ConnectionPool p ->
  available p = u64 (Z.of_nat (length (connections p))) /\ NoDup (connections p ++ taken p) /\
  forall a p' c, acquire a p = Some p' -> acquires p' !! a = Some (AGot (Some c)) ->
    connections p = c :: connections p' /\ taken p' = c :: taken p /\ c ∉ taken p.
Proof.
  intros Hr. pose proof (ok_run es p Hr) as [P1 P2 P3]. splits; [done | done |]. intros a p' c Ha Hc.
  assert (a < length (acquires p))%nat as Hlt.
  { unfold acquire in Ha. destruct (acquires p !! a) eqn:E; [by eapply lookup_lt_Some | done]. }
  assert (p' = try_acquire a p) as -> by (unfold acquire in Ha; repeat case_match; naive_solver).
  unfold try_acquire, open_connections in *. destruct (connections p) as [|d rest] eqn:Ec; [|destruct (negb (active_flag p))].
  - destruct (active_flag p); cbn in Hc; by rewrite list_lookup_insert_eq in Hc.
  - cbn in Hc. by rewrite list_lookup_insert_eq in Hc.
  - cbn in *. rewrite list_lookup_insert_eq in Hc by done. injection Hc as ->. splits; [done | done |].
    apply NoDup_cons in P2 as [Hn _]. intros Hin. apply Hn, elem_of_app. by right.
Qed.

(** C29: no wakeup is lost: when every call of [acquire] that is not asleep has returned,
    a call that is still asleep is right to be: the pool is active and all its connections
    are with callers. *)
Theorem cp_no_lost_wakeup es p : run es new_ConnectionPool p -> (forall a, acquire a p = None) ->
  Exists (fun x => asleep x = true) (acquires p) -> active_flag p = true /\ connections p = [].
Proof.
  intros Hr Hn Hs. pose proof (ok_run es p Hr) as [_ _ P3]. destruct (P3 Hs) as [Ha Hle]. split; [done|].
  assert (sum_list (map woken (acquires p)) = 0)%nat as Hz; [|apply length_zero_iff_nil; lia].
  assert (Forall (fun x => woken x = 0%nat) (acquires p)) as Hf.
  { apply Forall_lookup_2. intros a x Hx. specialize (Hn a). unfold acquire in Hn. rewrite Hx in Hn. by destruct x. }
  clear -Hf. induction Hf as [|x l Hx _ IH]; [done|]. cbn in *. lia.
Qed.

(** The pool is shut and stays shut. *)
Definition no_init (e : event) : Prop := match e with EInit _ _ => False | _ => True end.
Definition shut (p : ConnectionPool) : Prop := active_flag p = false /\ Forall (fun x => asleep x = false) (acquires p).

Lemma shut_step e p p' : no_init e -> shut p -> cp_step e p = Some p' -> shut p'.
Proof.
  intros He [H1 H2] Hs. unfold cp_step in Hs. destruct (fair e p); [|done]. destruct e as [n l| |a|a|c k|]; cbn in Hs; try done.
  - injection Hs as <-. split; [done|]. cbn. apply Forall_app. by rewrite Forall_singleton.
  - unfold acquire in Hs. assert (p' = try_acquire a p) as -> by (repeat case_match; naive_solver). unfold try_acquire. rewrite H1.
    destruct (connections p); (split; [done | by apply Forall_insert]).
  - unfold wake in Hs. destruct (acquires p !! a) as [[]|]; try done. injection Hs as <-. split; [done | by apply Forall_insert].
  - unfold release in Hs. destruct c as [c|]; [|by injection Hs as <-]. destruct k as [a|]; cbn in Hs.
    + unfold wake in Hs. cbn in Hs. destruct (acquires p !! a) as [[]|]; try done. injection Hs as <-. split; [done | by apply Forall_insert].
    + destruct (existsb _ _); [done|]. by injection Hs as <-.
  - injection Hs as <-. split; [done|]. cbn. apply Forall_fmap, Forall_true. by intros [].
Qed.

(** [shutdown] leaves no caller behind: it closes what is on the queue and wakes all, and
    until the next [init] no call of [acquire] sleeps: each returns nothing at once. *)
Theorem cp_shutdown_releases es p more p' : run es new_ConnectionPool p -> Forall no_init more -> run more (shutdown p) p' ->
  closed (shutdown p) = closed p ++ connections p /\ available (shutdown p) = 0 /\
  Forall (fun x => asleep x = false) (acquires p') /\
  (forall a p2, acquire a p' = Some p2 -> acquires p2 !! a = Some (AGot None)).
Proof.
  intros Hr Hm Hr'. assert (shut p') as [Ha Hs].
  { apply (steps_invariant cp_step no_init shut more (shutdown p) p' (fun e p1 p2 => shut_step e p1 p2) Hm Hr').
    split; [done|]. cbn. apply Forall_fmap, Forall_true. by intros []. }
  splits; [done | done | done |]. intros a p2 H2.
  assert (a < length (acquires p'))%nat as Hlt.
  { unfold acquire in H2. destruct (acquires p' !! a) eqn:E; [by eapply lookup_lt_Some | done]. }
  assert (p2 = try_acquire a p') as -> by (unfold acquire in H2; repeat case_match; naive_solver).
  unfold try_acquire. rewrite Ha. destruct (connections p'); cbn; by rewrite list_lookup_insert_eq.
Qed.

(** [main] of sqltest.cpp closes every connection it opened, whatever fails on the way,
    and tells by its result how far it came. *)
Theorem sql_main_closes l oks : NoDup (handed_out l) ->
  exists r p, sql_main l oks = Some (r, p) /\ connections p = [] /\ taken p = [] /\
    let '(created, shut, ok) := create 3 l in
    closed p ≡ₚ created ++ shut /\ r = (if ok then if forallb id (take 9 oks) then 0 else -2 else -1).
Proof.
  intros Hnd. unfold sql_main, init. cbn [active_flag new_ConnectionPool].
  destruct (create 3 l) as [[created shut] ok] eqn:Ec. destruct (create_handed _ _ _ _ _ Ec) as [Hsub Hok].
  destruct ok; cbn [negb].
  2: { do 2 eexists. split; [reflexivity|]. cbn. splits; try done. rewrite app_nil_r. apply Permutation_app_comm. }
  destruct (Hok eq_refl) as [Hlen ->]. destruct created as [|c [|c2 [|c3 []]]]; try done. unfold sql_test. cbn.
  do 2 eexists. split; [reflexivity|]. cbn. splits; try done.
  - destruct (decide_rel elem_of c [c]) as [|Hn]; [done|]. destruct Hn. by left.
  - symmetry. apply (Permutation_cons_append [c2; c3]).
Qed.

(** ** Runs *)

Definition cp_state (es : list event) : ConnectionPool := default new_ConnectionPool (run_steps cp_step es new_ConnectionPool).

Lemma cp_state_run es : is_Some (run_steps cp_step es new_ConnectionPool) -> run es new_ConnectionPool (cp_state es).
Proof. intros [p Hp]. unfold cp_state. rewrite Hp. by apply run_steps_ok. Qed.

(** One connection and two callers: the second waits. *)
Definition two_callers : list event := [EInit 1 [Connects 100]; ECall; ECall; EAcquire 0; EAcquire 1].

Lemma two_callers_run : run two_callers new_ConnectionPool (cp_state two_callers).
Proof. apply cp_state_run. eexists. vm_compute. reflexivity. Qed.

Lemma cp_connections_once_witness :
  available (cp_state [EInit 1 [Connects 100]; ECall]) = 1 /\ 100 ∉ taken (cp_state [EInit 1 [Connects 100]; ECall]).
Proof.
  destruct (cp_connections_once [EInit 1 [Connects 100]; ECall] (cp_state [EInit 1 [Connects 100]; ECall])) as (H1 & _ & H2);
    [apply cp_state_run; eexists; vm_compute; reflexivity|].
  split; [exact H1|]. eapply (H2 0%nat); [vm_compute; reflexivity | vm_compute; reflexivity].
Defined.

Lemma cp_no_lost_wakeup_witness : active_flag (cp_state two_callers) = true /\ connections (cp_state two_callers) = [].
Proof.
  apply (cp_no_lost_wakeup two_callers (cp_state two_callers) two_callers_run).
  - intros [|[|a]]; vm_compute; reflexivity.
  - apply (bool_decide_unpack (Exists (fun x => asleep x = true) (acquires (cp_state two_callers)))). vm_compute. exact I.
Defined.

Lemma cp_shutdown_releases_witness :
  forall p2, acquire 1 (shutdown (cp_state two_callers)) = Some p2 -> acquires p2 !! 1%nat = Some (AGot None).
Proof.
  intros p2. apply (cp_shutdown_releases two_callers (cp_state two_callers) [] (shutdown (cp_state two_callers)) two_callers_run).
  - apply Forall_nil. exact I.
  - apply steps_nil.
Defined.

Lemma sql_main_closes_witness :
  exists r p, sql_main [Connects 1; Connects 2; ConnectFails 3] [] = Some (r, p) /\ connections p = [] /\ taken p = [] /\
    closed p ≡ₚ [1; 2; 3] /\ r = -1.
Proof.
  apply (sql_main_closes [Connects 1; Connects 2; ConnectFails 3] []).
  apply (bool_decide_unpack _). vm_compute. exact I.
Defined.

(** A connection that is given back after [shutdown] is kept: after the next [init] there are
    more connections than [total_connection] says. *)
Example cp_total_too_small :
  let p := cp_state [EInit 1 [Connects 100]; ECall; EAcquire 0; EShutdown; ERelease (Some 100) None; EInit 1 [Connects 101]] in
  available p = 2 /\ total_connection p = 1.
Proof. split; vm_compute; reflexivity. Qed.
