(* ===== verification/SockIO.v ===== *)
(** * server_mulport_epoll.c: the sockets of the echo server.

    What [recv], [poll] and [send] answer is an argument: a list of turns, each the answers
    of one round of a loop.  A loop that has used up its turns is still waiting
    ([OutOfFuel]).  A job runs as one step; what the workers of the pool do with it is in
    the model of the thread pool. *)
From S2P Require Import Prelude KcpBase CLib.
From stdpp Require Import base list numbers gmap.
Open Scope Z_scope.
Open Scope c_scope.

Definition MAX_BUFFER : Z := 128.
Definition MAX_PORT : nat := 100.
Definition EINTR : Z := 4.
Definition EAGAIN : Z := 11.
Definition ENOTCONN : Z := 107.
Definition ETIMEDOUT : Z := 110.

(** [recv] gives bytes, no more than it was asked for, or the end of the stream, or an error. *)
Inductive recv_res : Type :=
  | RData (d : list Z)
  | REof
  | RErr (errno : Z).

(** [poll] fails and leaves [revents] alone, or times out, or gives [revents] its POLLHUP bit. *)
Inductive poll_res : Type :=
  | PErr (errno : Z)
  | PTimeout
  | PReady (hup : bool).

Definition transient (errno : Z) : bool := (errno =? EAGAIN) || (errno =? EINTR).
Definition or_eintr (errno : Z) : Z := if negb (errno =? 0) then errno else EINTR.

(** [pollfds.revents] after a [poll]. *)
Definition revents_after (p : poll_res) (revents : option bool) : option bool :=
  match p with PErr _ => revents | PTimeout => Some false | PReady hup => Some hup end.

(** The loop of [nRecv]: the code, the block, and how much of it has been filled. *)
Fixpoint nRecv_loop (turns : list (recv_res * poll_res)) (data : list Z) (off left_bytes ret_code : Z) (revents : option bool)
    : res (list (recv_res * poll_res)) (Z * list Z * Z) :=
  if negb (0 <? left_bytes) then Ok (ret_code, data, off) turns
  else
    match turns with
    | [] => Fault OutOfFuel
    | (r, p) :: turns =>
      let wait ret_code :=
        let revents := revents_after p revents in
        match revents with
        | None => Fault Uninitialised
        | Some true => Ok (ENOTCONN, data, off) turns
        | Some false =>
          match p with
          | PErr e =>
            if e =? EINTR then nRecv_loop turns data off left_bytes ret_code revents
            else nRecv_loop turns data off left_bytes (or_eintr e) revents
          | PTimeout => Ok (ETIMEDOUT, data, off) turns
          | PReady _ => nRecv_loop turns data off left_bytes ret_code revents
          end
        end in
      match r with
      | RData d =>
        let d := take (Z.to_nat left_bytes) d in
        let n := Z.of_nat (length d) in
        if 0 <? n then
          nRecv_loop turns (take (Z.to_nat off) data ++ d ++ drop (Z.to_nat (off + n)) data) (off + n) (left_bytes - n) ret_code revents
        else Ok (ENOTCONN, data, off) turns
      | REof => Ok (ENOTCONN, data, off) turns
      | RErr e => wait (if negb (transient e) then or_eintr e else ret_code)
      end
    end.
Definition nRecv (turns : list (recv_res * poll_res)) (data : list Z) (length : Z) : res (list (recv_res * poll_res)) (Z * list Z * Z) :=
  nRecv_loop turns data 0 length 0 None.

(** The loop of [nSend]: what it returns, and the bytes it has written.  [send] answers with
    a count, no more than it was given, or something that is not positive. *)
Fixpoint nSend_loop (turns : list (poll_res * Z)) (buffer : list Z) (length wrotelen : Z) (hup : bool) (out : list Z)
    : res (list (poll_res * Z)) (Z * list Z) :=
  match turns with
  | [] => Fault OutOfFuel
  | (p, writeret) :: turns =>
    let hup := match p with PErr _ => hup | PTimeout => false | PReady h => h end in
    if hup then Ok (-1, out) turns
    else
      match p with
      | PErr e =>
        if e =? EINTR then
          if wrotelen <? length then nSend_loop turns buffer length wrotelen hup out else Ok (wrotelen, out) turns
        else Ok (-1, out) turns
      | PTimeout => Ok (-1, out) turns
      | PReady _ =>
        let writeret := Z.min writeret (length - wrotelen) in
        if writeret <=? 0 then Ok (wrotelen, out) turns
        else
          let out := out ++ take (Z.to_nat writeret) (drop (Z.to_nat wrotelen) buffer) in
          let wrotelen := wrotelen + writeret in
          if wrotelen <? length then nSend_loop turns buffer length wrotelen hup out else Ok (wrotelen, out) turns
      end
  end.
Definition nSend (turns : list (poll_res * Z)) (buffer : list Z) (length : Z) : res (list (poll_res * Z)) (Z * list Z) :=
  nSend_loop turns buffer length 0 false [].

(** [strlen(buffer)], which looks for a terminator in the block. *)
Definition strlen (blk : list Z) : option Z := if bool_decide (0 ∈ blk) then Some (Z.of_nat (length (cstr blk))) else None.

(** The static variables, the sockets that [main] watches, the jobs it has handed to the pool,
    what was written to each socket. *)
Record epoll_server : Type := mkepoll {
  curfds : Z;
  nRun : bool;
  sockfds : list Z;
  clients : list Z;
  jobs : list Z;
  written : list (Z * list Z);
}.
Definition eta_epoll (s : epoll_server) : epoll_server := mkepoll (curfds s) (nRun s) (sockfds s) (clients s) (jobs s) (written s).
#[export] Instance upd_curfds : Upd curfds := ltac:(build_upd eta_epoll curfds).
#[export] Instance upd_nRun : Upd nRun := ltac:(build_upd eta_epoll nRun).
#[export] Instance upd_clients : Upd clients := ltac:(build_upd eta_epoll clients).
#[export] Instance upd_jobs : Upd jobs := ltac:(build_upd eta_epoll jobs).
#[export] Instance upd_written : Upd written := ltac:(build_upd eta_epoll written).

(** [client_data_process], which is also what [client_job] does with its socket. *)
Definition client_data_process (clientfd : Z) (rt : list (recv_res * poll_res)) (st : list (poll_res * Z)) (s : epoll_server)
    : res epoll_server unit :=
  match nRecv rt (replicate (Z.to_nat MAX_BUFFER) 0) MAX_BUFFER with
  | Fault f => Fault f
  | Ok (ret, buffer, length) _ =>
    if 0 <? length then
      if nRun s || (nth 0 buffer 0 =? 97) then
        match strlen buffer with
        | None => Fault OutOfBounds
        | Some n =>
          match nSend st buffer n with
          | Fault f => Fault f
          | Ok (_, out) _ => Ok tt (s<|written := written s ++ [(clientfd, out)]|>)
          end
        end
      else Ok tt s
    else if ret =? ENOTCONN then
      Ok tt (s<|curfds := s32 (curfds s - 1)|><|clients := List.filter (fun fd => negb (fd =? clientfd)) (clients s)|>)
    else Ok tt s
  end.

(** A worker takes a job and runs it. *)
Definition client_job (rt : list (recv_res * poll_res)) (st : list (poll_res * Z)) (s : epoll_server) : res epoll_server unit :=
  match jobs s with
  | [] => Ok tt s
  | fd :: rest => client_data_process fd rt st (s<|jobs := rest|>)
  end.

Fixpoint listenfd_loop (n : nat) (fd : Z) (fds : list Z) : Z :=
  match n, fds with
  | S n, x :: fds => if fd =? x then x else listenfd_loop n fd fds
  | _, _ => 0
  end.
Definition listenfd (fd : Z) (fds : list Z) : Z := listenfd_loop MAX_PORT fd fds.

(** An event of [main]: its descriptor, what [accept] gives, and what a read in place meets.
    True when [main] returns. *)
Definition main_event (fd accepted : Z) (rt : list (recv_res * poll_res)) (st : list (poll_res * Z)) (s : epoll_server)
    : res epoll_server bool :=
  if negb (listenfd fd (sockfds s) =? 0) then
    if accepted <? 0 then Ok true s
    else
      let s := if 1000 * 1000 <? curfds s then s<|nRun := true|> else s in
      Ok false (s<|curfds := s32 (curfds s + 1)|><|clients := clients s ++ [accepted]|>)
  else if nRun s then
    match client_data_process fd rt st s with Ok _ s => Ok false s | Fault f => Fault f end
  else Ok false (s<|jobs := fd :: jobs s|>).
