(* ===== verification/SockIOProps.v ===== *)
(** * The sockets of the echo server: what is read, what is echoed, and what never ends. *)
From S2P Require Import Prelude KcpBase CLib SockIO.
From Stdlib Require Import Lia.
From stdpp Require Import base list numbers gmap.
Open Scope Z_scope.
Open Scope c_scope.

(** The bytes that some turns bring. *)
Definition received (turns : list (recv_res * poll_res)) : list Z :=
  concat (map (fun t => match t.1 with RData d => d | _ => [] end) turns).

(** Stores at an offset, one after the other. *)
Definition stored (data d : list Z) : list Z := d ++ drop (length d) data.

Lemma stored_app data a b : (length a <= length data)%nat ->
  take (length a) (stored data a) ++ b ++ drop (length (a ++ b)) (stored data a) = stored data (a ++ b).
Proof.
  intros Ha. unfold stored. rewrite take_app_length, <- (assoc_L (++)). do 2 f_equal.
  rewrite drop_app_ge by (rewrite length_app; lia). rewrite drop_drop, !length_app. f_equal. lia.
Qed.

(** A turn of [nRecv] after which the loop goes on, and what the last turn says otherwise. *)
Definition recv_goes_on (t : recv_res * poll_res) : Prop :=
  match t with
  | (RData d, _) => d <> []
  | (RErr _, PErr _) | (RErr _, PReady false) => True
  | _ => False
  end.
Definition stop_code (t : recv_res * poll_res) : Z := match t with (RErr _, PTimeout) => ETIMEDOUT | _ => ENOTCONN end.

(** The turns start with data, and then both [recv] and the first [poll] fail. *)
Definition poll_fails_first (turns : list (recv_res * poll_res)) : Prop :=
  exists ds e e' rest, turns = ds ++ (RErr e, PErr e') :: rest /\ Forall (fun t => exists d, t.1 = RData d) ds.

(** What [nRecv_loop] may answer when [a] is in the block and [left] bytes fit. *)
Definition recv_post (turns : list (recv_res * poll_res)) (data a : list Z) (left : Z) (revents : option bool)
    (r : res (list (recv_res * poll_res)) (Z * list Z * Z)) : Prop :=
  match r with
  | Ok (ret, data', off) rest =>
    exists used d, turns = used ++ rest /\ d = take (Z.to_nat left) (received used) /\
      data' = stored data (a ++ d) /\ off = Z.of_nat (length (a ++ d)) /\
      (Z.of_nat (length d) < left -> exists init last, used = init ++ [last] /\ ret = stop_code last)
  | Fault f => f = OutOfFuel /\ Forall recv_goes_on turns /\ Z.of_nat (length (received turns)) < left \/
      f = Uninitialised /\ revents = None /\ poll_fails_first turns
  end.

Lemma recv_post_full turns data a left revents ret :
  left <= 0 -> recv_post turns data a left revents (Ok (ret, stored data a, Z.of_nat (length a)) turns).
Proof.
  intros Hl. exists [], []. rewrite !app_nil_r. change (received []) with (@nil Z). rewrite take_nil. splits; try done. cbn. lia.
Qed.

(** A turn that ends the loop. *)
Lemma recv_post_stop turn turns data a left revents :
  match turn.1 with RData d => d = [] | _ => True end ->
  recv_post (turn :: turns) data a left revents (Ok (stop_code turn, stored data a, Z.of_nat (length a)) turns).
Proof.
  intros Ht. exists [turn], []. rewrite !app_nil_r. unfold received. cbn.
  splits; [done | | done.. | by exists [], turn]. destruct turn as [[d| |] q]; cbn in *; [subst d; cbn|..]; by rewrite take_nil.
Qed.

(** A turn without data after which the loop goes on; [revents] is set now. *)
Lemma recv_post_again e p turns data a left rev b r :
  recv_goes_on (RErr e, p) -> recv_post turns data a left (Some b) r -> recv_post ((RErr e, p) :: turns) data a left rev r.
Proof.
  intros Hg. destruct r as [[[ret data'] off] rest|f]; cbn.
  - intros (used & d & -> & -> & H1 & H2 & H3). exists ((RErr e, p) :: used), (take (Z.to_nat left) (received used)).
    splits; [done | done | done | done |]. intros Hlt. destruct (H3 Hlt) as (init & last & -> & Hr). by exists ((RErr e, p) :: init), last.
  - intros [(-> & Hf & Hl)|(_ & [=] & _)]. left. splits; [done | by constructor | done].
Qed.

(** A turn with data that leaves the block with room, or fills it. *)
Lemma recv_post_data d p turns data a left rev r :
  d <> [] -> 0 < left -> let b := take (Z.to_nat left) d in
  recv_post turns data (a ++ b) (left - Z.of_nat (length b)) rev r -> recv_post ((RData d, p) :: turns) data a left rev r.
Proof.
  intros Hd Hl b. destruct r as [[[ret data'] off] rest|f]; cbn -[received].
  - intros (used & x & -> & -> & -> & -> & H3). exists ((RData d, p) :: used), (b ++ take (Z.to_nat (left - Z.of_nat (length b))) (received used)).
    splits; [done | | by rewrite (assoc_L (++)) | by rewrite (assoc_L (++)) |].
    + unfold received at 2. cbn. rewrite take_app. subst b. f_equal. rewrite length_take. f_equal. lia.
    + rewrite length_app. intros Hlt. destruct H3 as (init & last & -> & Hr); [lia|]. by exists ((RData d, p) :: init), last.
  - intros [(-> & Hf & Hlt)|(-> & -> & ds & e & e' & rest & -> & Hds)].
    + left. splits; [done | by constructor |]. unfold received in *. cbn. rewrite length_app. subst b. rewrite length_take in Hlt. lia.
    + right. splits; [done..|]. exists ((RData d, p) :: ds), e, e', rest. split; [done|]. constructor; [by exists d | done].
Qed.

Lemma nRecv_loop_spec turns : forall data a left ret_code revents,
  0 <= left -> Z.of_nat (length a) + left <= Z.of_nat (length data) -> revents <> Some true ->
  recv_post turns data a left revents (nRecv_loop turns (stored data a) (Z.of_nat (length a)) left ret_code revents).
Proof.
  induction turns as [|[r p] turns IH]; intros data a left ret_code revents Hl Ha Hrev; cbn [nRecv_loop];
    (destruct (Z.ltb_spec 0 left) as [Hpos|Hz]; cbn [negb]; [|by apply recv_post_full]).
  { left. by splits. }
  destruct r as [d| |e]; [|apply (recv_post_stop (REof, p)); done|].
  - destruct (decide (d = [])) as [->|Hd].
    { rewrite take_nil. cbn [length Z.of_nat Z.ltb Z.compare]. by apply (recv_post_stop (RData [], p)). }
    set (b := take (Z.to_nat left) d). assert (length b <= Z.to_nat left /\ 0 < length b)%nat as [Hb1 Hb2].
    { subst b. rewrite length_take. destruct d; [done|]. cbn [length]. lia. }
    rewrite (proj2 (Z.ltb_lt 0 _)) by lia. rewrite Nat2Z.id. apply recv_post_data; [done | done |]. fold b.
    replace (Z.to_nat (Z.of_nat (length a) + Z.of_nat (length b))) with (length (a ++ b)) by (rewrite length_app; lia).
    rewrite stored_app by lia. replace (Z.of_nat (length a) + Z.of_nat (length b)) with (Z.of_nat (length (a ++ b))) by (rewrite length_app; lia).
    apply IH; [lia | rewrite length_app; lia | done].
  - destruct p as [e'| |[]]; cbn [revents_after].
    + destruct revents as [[]|]; [done | |].
      * destruct (e' =? EINTR); apply (recv_post_again _ _ _ _ _ _ _ false); done || by apply IH.
      * right. splits; [done..|]. by exists [], e, e', turns.
    + by apply (recv_post_stop (RErr e, PTimeout)).
    + by apply (recv_post_stop (RErr e, PReady true)).
    + apply (recv_post_again _ _ _ _ _ _ _ false); done || by apply IH.
Qed.

Lemma nRecv_run turns data n : 0 <= n <= Z.of_nat (length data) -> recv_post turns data [] n None (nRecv turns data n).
Proof. intros Hn. apply (nRecv_loop_spec turns data [] n 0 None); [lia | cbn; lia | done]. Qed.

(** [nRecv] puts into the block what it received, in order and from the front, and no more
    than [length] bytes; when it returns with fewer, the code says why.  It has no other way
    to end, but for a [poll] that fails first: then it tests a field nobody has set. *)
Theorem sock_recv_exact turns data n : 0 <= n <= Z.of_nat (length data) ->
  match nRecv turns data n with
  | Ok (ret, data', count) rest =>
    exists used, turns = used ++ rest /\
      let d := take (Z.to_nat n) (received used) in
      data' = d ++ drop (length d) data /\ count = Z.of_nat (length d) /\ (count < n -> ret = ENOTCONN \/ ret = ETIMEDOUT)
  | Fault f => f = OutOfFuel \/ f = Uninitialised
  end.
Proof.
  intros Hn. pose proof (nRecv_run turns data n Hn) as H. destruct (nRecv turns data n) as [[[ret data'] count] rest|f].
  - destruct H as (used & d & -> & -> & -> & -> & H). exists used. split; [done|]. intros d. splits; [done..|]. intros Hlt.
    destruct (H Hlt) as (init & last & _ & ->). destruct last as [[] []]; cbn; tauto.
  - destruct H as [(-> & _)|(-> & _)]; tauto.
Qed.

(** An error that [poll] does not report as POLLHUP keeps [nRecv] running for ever: it
    neither leaves the loop nor waits, as on a socket that has been closed. *)
Theorem sock_recv_spins n e data len : 0 < len ->
  nRecv (replicate n (RErr e, PReady false)) data len = Fault OutOfFuel.
Proof.
  intros Hlen. unfold nRecv. generalize 0 at 2 as rc. generalize (@None bool) as rev. induction n as [|n IH]; intros rev rc; cbn [replicate nRecv_loop].
  - by rewrite (proj2 (Z.ltb_lt 0 len)).
  - rewrite (proj2 (Z.ltb_lt 0 len)) by done. apply IH.
Qed.

Lemma nRecv_data ps tail data : forall a left rc rev, Z.of_nat (length (a ++ concat ps)) <= Z.of_nat (length data) ->
  Forall (fun d => d <> []) ps -> Z.of_nat (length (concat ps)) <= left ->
  nRecv_loop (map (fun d => (RData d, PTimeout)) ps ++ tail) (stored data a) (Z.of_nat (length a)) left rc rev =
  nRecv_loop tail (stored data (a ++ concat ps)) (Z.of_nat (length (a ++ concat ps))) (left - Z.of_nat (length (concat ps))) rc rev.
Proof.
  induction ps as [|d ps IH]; intros a left rc rev Ha Hne Hl; cbn [map concat app] in *.
  - rewrite app_nil_r. f_equal. cbn. lia.
  - apply Forall_cons_1 in Hne as [Hd Hne]. rewrite !length_app in *. assert (0 < length d)%nat by (destruct d; [done | cbn; lia]).
    cbn [nRecv_loop]. rewrite (proj2 (Z.ltb_lt 0 left)) by lia. cbn [negb]. rewrite (take_ge d) by lia.
    rewrite (proj2 (Z.ltb_lt 0 (Z.of_nat (length d)))) by lia. rewrite Nat2Z.id.
    replace (Z.to_nat (Z.of_nat (length a) + Z.of_nat (length d))) with (length (a ++ d)) by (rewrite length_app; lia).
    rewrite stored_app by lia. replace (Z.of_nat (length a) + Z.of_nat (length d)) with (Z.of_nat (length (a ++ d))) by (rewrite length_app; lia).
    rewrite IH by (rewrite ?length_app in *; try done; lia). rewrite <- !(assoc_L (++)). f_equal; rewrite ?length_app; lia.
Qed.

Lemma cstr_app_zero (d x : list Z) : cstr (d ++ 0 :: x) = cstr d.
Proof. induction d as [|c d IH]; cbn; [done|]. by destruct (c =? 0); [|rewrite IH]. Qed.

Lemma cstr_take (b : list Z) : take (length (cstr b)) b = cstr b.
Proof. induction b as [|c b IH]; cbn; [done|]. destruct (c =? 0); cbn; [done | by rewrite IH]. Qed.

Lemma cstr_length (b : list Z) : (length (cstr b) <= length b)%nat.
Proof. rewrite <- cstr_take, length_take. lia. Qed.

(** A [send] that takes everything at once. *)
Lemma nSend_once b : Z.of_nat (length b) <= MAX_BUFFER ->
  nSend [(PReady false, MAX_BUFFER)] b (Z.of_nat (length (cstr b))) = Ok (Z.of_nat (length (cstr b)), cstr b) [].
Proof.
  intros Hb. pose proof (cstr_length b). unfold nSend. cbn [nSend_loop]. rewrite Z.min_r by lia. rewrite Z.sub_0_r.
  destruct (Z.leb_spec (Z.of_nat (length (cstr b))) 0) as [Hz|Hz].
  - destruct (cstr b); [done | cbn in Hz; lia].
  - rewrite Z.add_0_l, Z.ltb_irrefl, Nat2Z.id, drop_0, cstr_take. done.
Qed.

(** ** [nSend] *)

(** A turn of [nSend] after which it goes on, and what the turns have taken. *)
Definition send_goes_on (t : poll_res * Z) : Prop :=
  match t with (PErr e, _) => e = EINTR | (PReady false, n) => 0 < n | _ => False end.
Definition taken_by (t : poll_res * Z) : Z := match t with (PReady false, n) => Z.max 0 n | _ => 0 end.
Definition taken (turns : list (poll_res * Z)) : Z := foldr (fun t n => taken_by t + n) 0 turns.

Lemma taken_nonneg turns : 0 <= taken turns.
Proof.
  induction turns as [|t turns IH]; [done|]. cbn [taken foldr]. fold (taken turns).
  assert (0 <= taken_by t) by (destruct t as [[| |[]] n]; cbn; lia). lia.
Qed.

Definition send_post (turns : list (poll_res * Z)) (b : list Z) (w : Z) (out : list Z)
    (r : res (list (poll_res * Z)) (Z * list Z)) : Prop :=
  match r with
  | Ok (ret, out') rest =>
    exists used, turns = used ++ rest /\ out' = out ++ take (Z.to_nat (taken used)) b /\
      (ret = -1 \/ ret = w + Z.min (Z.of_nat (length b)) (taken used)) /\
      (taken used < Z.of_nat (length b) -> exists init last, used = init ++ [last] /\ ~ send_goes_on last)
  | Fault f => f = OutOfFuel /\ Forall send_goes_on turns /\ (turns = [] \/ taken turns < Z.of_nat (length b))
  end.

(** A turn that ends the loop; one that takes nothing; one that takes some. *)
Lemma send_post_stop t turns b w out ret :
  ~ send_goes_on t -> ret = -1 \/ ret = w -> send_post (t :: turns) b w out (Ok (ret, out) turns).
Proof.
  intros Ht Hr. assert (taken [t] = 0) as E by (unfold taken; cbn [foldr]; destruct t as [[| |[]] n]; cbn [taken_by send_goes_on] in *; lia).
  exists [t]. rewrite E. cbn [Z.to_nat take]. rewrite app_nil_r.
  splits; [done | done | destruct Hr as [->|Hr]; [by left | right; lia] | intros _; by exists [], t].
Qed.

Lemma send_post_more t turns b w out r : send_goes_on t -> taken_by t < Z.of_nat (length b) ->
  send_post turns (drop (Z.to_nat (taken_by t)) b) (w + taken_by t) (out ++ take (Z.to_nat (taken_by t)) b) r ->
  send_post (t :: turns) b w out r.
Proof.
  intros Ht Hlt. assert (0 <= taken_by t) as H0 by (destruct t as [[| |[]] n]; cbn; lia).
  destruct r as [[ret out'] rest|f]; unfold send_post; rewrite length_drop.
  - intros (used & -> & -> & Hret & Hlast). exists (t :: used). cbn [taken foldr]. fold (taken used). pose proof (taken_nonneg used).
    rewrite Z2Nat.inj_add, <- take_take_drop, <- (assoc_L (++)) by lia. splits; [done | done | destruct Hret as [->|Hret]; [by left | right; lia] |].
    intros Hl. destruct Hlast as (init & last & -> & Hno); [lia|]. by exists (t :: init), last.
  - intros (-> & Hf & Hl). splits; [done | by constructor |]. right. cbn [taken foldr]. fold (taken turns).
    destruct Hl as [->|Hl]; [cbn; lia | lia].
Qed.

Lemma nSend_loop_spec turns : forall buffer n w out, 0 <= w <= n -> n <= Z.of_nat (length buffer) ->
  send_post turns (take (Z.to_nat (n - w)) (drop (Z.to_nat w) buffer)) w out (nSend_loop turns buffer n w false out).
Proof.
  induction turns as [|[p c] turns IH]; intros buffer n w out Hw Hn; cbn [nSend_loop]; [by split; [|split; [|left]]|].
  set (b := take (Z.to_nat (n - w)) (drop (Z.to_nat w) buffer)).
  assert (Z.of_nat (length b) = n - w) as Hb by (subst b; rewrite length_take, length_drop; lia).
  destruct p as [e| |[]]; try (apply send_post_stop; [cbn; tauto | by left]).
  - destruct (Z.eqb_spec e EINTR) as [->|He]; [|by apply send_post_stop; [|left]].
    destruct (Z.ltb_spec w n) as [Hlt|Hge].
    + apply send_post_more; [done | cbn; lia |]. cbn [taken_by Z.to_nat take drop]. rewrite app_nil_r, Z.add_0_r, drop_0. by apply IH.
    + exists [(PErr EINTR, c)]. cbn. rewrite app_nil_r. splits; [done.. | right; lia | lia].
  - destruct (Z.leb_spec (Z.min c (n - w)) 0) as [Hle|Hgt].
    + destruct (Z_lt_le_dec 0 c) as [Hc|Hc]; [|apply send_post_stop; [cbn; lia | by right]].
      exists [(PReady false, c)]. assert (b = []) as -> by (apply length_zero_iff_nil; lia). rewrite take_nil, app_nil_r.
      assert (0 <= taken [(PReady false, c)]) by apply taken_nonneg.
      splits; [done | done | right; cbn [length] in *; lia | cbn [length] in *; lia].
    + assert (take (Z.to_nat (Z.min c (n - w))) (drop (Z.to_nat w) buffer) = take (Z.to_nat c) b) as Et.
      { subst b. rewrite take_take. f_equal. lia. }
      destruct (Z.ltb_spec (w + Z.min c (n - w)) n) as [Hlt|Hge].
      * rewrite Et, (Z.min_l c) by lia. apply send_post_more; [cbn; lia | cbn; lia |]. cbn [taken_by]. rewrite Z.max_r by lia.
        replace (drop (Z.to_nat c) b) with (take (Z.to_nat (n - (w + c))) (drop (Z.to_nat (w + c)) buffer)); [apply IH; lia|].
        subst b. rewrite skipn_firstn_comm, drop_drop. f_equal; [lia | f_equal; lia].
      * exists [(PReady false, c)]. cbn [taken foldr taken_by]. rewrite Et, (Z.max_r 0 c) by lia. rewrite Z.add_0_r.
        splits; [done | done | right; lia | lia].
Qed.

Lemma nSend_spec turns buffer n : 0 <= n <= Z.of_nat (length buffer) ->
  send_post turns (take (Z.to_nat n) buffer) 0 [] (nSend turns buffer n).
Proof.
  intros Hn. pose proof (nSend_loop_spec turns buffer n 0 [] ltac:(lia) ltac:(lia)) as H.
  by rewrite Z.sub_0_r, drop_0 in H.
Qed.

(** The block of [client_data_process] when [d] has come. *)
Lemma echo_block d : Z.of_nat (length d) <= MAX_BUFFER -> d <> [] ->
  let b := stored (replicate (Z.to_nat MAX_BUFFER) 0) d in
  nth 0 b 0 = nth 0 d 0 /\
  strlen b = (if (Z.of_nat (length d) =? MAX_BUFFER) && negb (bool_decide (0 ∈ d)) then None else Some (Z.of_nat (length (cstr d)))) /\
  cstr b = cstr d /\ Z.of_nat (length b) = MAX_BUFFER.
Proof.
  unfold MAX_BUFFER. intros Hlen Hne. set (zeros := replicate (Z.to_nat 128) 0). assert (length zeros = 128)%nat as Hz by done.
  cbv zeta. assert (Z.of_nat (length (stored zeros d)) = 128) as Hl by (unfold stored; rewrite length_app, length_drop; lia).
  split; [unfold stored; by destruct d|]. cut (strlen (stored zeros d) = (if (Z.of_nat (length d) =? 128) && negb (bool_decide (0 ∈ d)) then None else Some (Z.of_nat (length (cstr d)))) /\
    cstr (stored zeros d) = cstr d); [by intros []|]. unfold strlen.
  destruct (Z.eqb_spec (Z.of_nat (length d)) 128) as [Hf|Hf]; cbn [andb].
  - assert (stored zeros d = d) as -> by (unfold stored; rewrite drop_ge by lia; by rewrite app_nil_r).
    by case_bool_decide.
  - assert (exists x, stored zeros d = d ++ 0 :: x) as [x ->].
    { unfold stored. assert (drop (length d) zeros = replicate (128 - length d) 0) as -> by (subst zeros; apply drop_replicate).
      destruct (128 - length d)%nat as [|m] eqn:Em; [lia|]. by exists (replicate m 0). }
    rewrite bool_decide_true by (apply elem_of_app; right; by left). by rewrite cstr_app_zero.
Qed.

(** When [send] takes everything at once, and [recv] has no more after the pieces. *)
Lemma sock_echo_at_once fd ps s : Forall (fun d => d <> []) ps -> 0 < Z.of_nat (length (concat ps)) <= MAX_BUFFER ->
  client_data_process fd (map (fun d => (RData d, PTimeout)) ps ++ [(RErr EAGAIN, PTimeout)]) [(PReady false, MAX_BUFFER)] s =
  let d := concat ps in
  if nRun s || (nth 0 d 0 =? 97) then
    if (Z.of_nat (length d) =? MAX_BUFFER) && negb (bool_decide (0 ∈ d)) then Fault OutOfBounds
    else Ok tt (s<|written := written s ++ [(fd, cstr d)]|>)
  else Ok tt s.
Proof.
  intros Hne Hlen. cbv zeta. set (zeros := replicate (Z.to_nat MAX_BUFFER) 0). assert (length zeros = 128)%nat as Hz by done.
  unfold MAX_BUFFER in Hlen.
  assert (exists ret rest, nRecv (map (fun d => (RData d, PTimeout)) ps ++ [(RErr EAGAIN, PTimeout)]) zeros MAX_BUFFER =
    Ok (ret, stored zeros (concat ps), Z.of_nat (length (concat ps))) rest) as (ret & rest & Hr).
  { unfold nRecv. change zeros with (stored zeros []) at 1. change 0 with (Z.of_nat (length (@nil Z))) at 1.
    rewrite nRecv_data by (cbn [length app]; try done; unfold MAX_BUFFER; lia). cbn [app nRecv_loop].
    destruct (0 <? _); cbn [negb]; by do 2 eexists. }
  unfold client_data_process. fold zeros. rewrite Hr. rewrite (proj2 (Z.ltb_lt 0 _)) by lia.
  destruct (echo_block (concat ps) ltac:(unfold MAX_BUFFER in *; lia)) as (E1 & E2 & E3 & E4); [destruct (concat ps); cbn in Hlen; [lia | done]|].
  fold zeros in E1, E2, E3, E4. rewrite E1, E2. destruct (nRun s || _); [|done].
  destruct ((Z.of_nat (length (concat ps)) =? MAX_BUFFER) && negb (bool_decide (0 ∈ concat ps))); [done|].
  rewrite <- (E3 : cstr (stored zeros (concat ps)) = cstr (concat ps)), nSend_once by lia. done.
Qed.

(** What is answered, and what the block is too short for. *)
Definition echoes (s : epoll_server) (d : list Z) : bool := nRun s || (nth 0 d 0 =? 97).
Definition overruns (d : list Z) : bool := (Z.of_nat (length d) =? MAX_BUFFER) && negb (bool_decide (0 ∈ d)).

(** The server after the end of a connection. *)
Definition gone (fd : Z) (s : epoll_server) : epoll_server :=
  s<|curfds := s32 (curfds s - 1)|><|clients := List.filter (fun x => negb (x =? fd)) (clients s)|>.


Lemma sock_recv_exact_witness :
  match nRecv [(RData [1; 2], PTimeout); (RErr EAGAIN, PReady false); (RData [3], PTimeout); (REof, PTimeout)] (replicate 8 0) 8 with
  | Ok (ret, data', count) _ => data' = [1; 2; 3; 0; 0; 0; 0; 0] /\ count = 3 /\ (ret = ENOTCONN \/ ret = ETIMEDOUT)
  | Fault _ => False
  end.
Proof.
  pose proof (sock_recv_exact [(RData [1; 2], PTimeout); (RErr EAGAIN, PReady false); (RData [3], PTimeout); (REof, PTimeout)]
    (replicate 8 0) 8 ltac:(cbn; lia)) as H. vm_compute in H. vm_compute.
  destruct H as (used & _ & _ & _ & H). split; [reflexivity | split; [reflexivity | exact (H eq_refl)]].
Defined.

Lemma sock_recv_spins_witness : nRecv (replicate 1000 (RErr 9, PReady false)) (replicate 128 0) MAX_BUFFER = Fault OutOfFuel.
Proof. apply (sock_recv_spins 1000 9 (replicate 128 0) MAX_BUFFER). unfold MAX_BUFFER. lia. Defined.

Definition idle_server : epoll_server := mkepoll 2 false [3] [7] [] [].

Lemma sock_echo_at_once_witness :
  client_data_process 7 (map (fun d => (RData d, PTimeout)) [[97; 98]; [99; 0; 100]] ++ [(RErr EAGAIN, PTimeout)]) [(PReady false, MAX_BUFFER)] idle_server =
  Ok tt (idle_server<|written := [(7, [97; 98; 99])]|>).
Proof.
  rewrite (sock_echo_at_once 7 [[97; 98]; [99; 0; 100]] idle_server);
    [vm_compute; reflexivity | repeat constructor; discriminate | unfold MAX_BUFFER; cbn; lia].
Defined.

(** A job on a socket whose peer has gone closes it; the next job on it would spin. *)
Example sock_disconnect :
  main_event 3 7 [] [] (mkepoll 1 false [3] [] [] []) = Ok false (mkepoll 2 false [3] [7] [] []) /\
  main_event 7 0 [] [] (mkepoll 2 false [3] [7] [] []) = Ok false (mkepoll 2 false [3] [7] [7] []) /\
  client_job [(REof, PTimeout)] [] (mkepoll 2 false [3] [7] [7] []) = Ok tt (mkepoll 1 false [3] [] [] []).
Proof. repeat split; vm_compute; reflexivity. Qed.
