(* ===== verification/IoServers.v ===== *)
(** * tcpserver.cpp of test8: one server, four ways to wait for its clients.

    The kernel is an argument: each round of a loop is given what [select], [poll] or
    [epoll_wait] reports, what [accept] gives and what [recv] finds for each descriptor.
    The world holds what is ours: the descriptors we have open, and the messages of clients
    that were printed; the lines that report a client gone or a call failed are left out. *)
From S2P Require Import Prelude KcpBase CLib SockIO.
From stdpp Require Import base list numbers gmap sets.
Open Scope Z_scope.
Open Scope c_scope.

Record io : Type := mkio { open_fds : gset Z; printed : list (list Z) }.
Definition eta_io (w : io) : io := mkio (open_fds w) (printed w).
#[export] Instance upd_open_fds : Upd open_fds := ltac:(build_upd eta_io open_fds).
#[export] Instance upd_io_printed : Upd printed := ltac:(build_upd eta_io printed).

Definition sys_close (fd : Z) : M io unit := modify (fun w => w<|open_fds := open_fds w ∖ {[fd]}|>).

(** A call that opens a descriptor: a new one, or a negative number. *)
Definition new_fd (fd : Z) : M io Z :=
  if fd <? 0 then ret fd else modify (fun w => w<|open_fds := {[fd]} ∪ open_fds w|>);;; ret fd.

(** [accept]. *)
Definition sys_accept (fd : Z) : M io Z := new_fd fd.

Definition buffer_size : Z := 1024.
Definition zero_buffer : list Z := replicate (Z.to_nat buffer_size) 0.

(** What [recv] leaves in a buffer of 1024 bytes. *)
Definition overwrite (buffer d : list Z) : list Z :=
  let d := take (Z.to_nat buffer_size) d in d ++ drop (length d) buffer.

(** [printf("recv: %s\n", buffer)], which runs out of a buffer without a terminator. *)
Definition print_text (buffer : list Z) : M io unit :=
  if bool_decide (0 ∈ buffer) then modify (fun w => w<|printed := printed w ++ [cstr buffer]|>) else throw OutOfBounds.

(** The count that [recv] returns, and the buffer. *)
Definition recv_count (r : recv_res) (buffer : list Z) : Z * list Z :=
  match r with
  | RData d => (Z.of_nat (length (take (Z.to_nat buffer_size) d)), overwrite buffer d)
  | REof => (0, buffer)
  | RErr _ => (-1, buffer)
  end.

(** ** [client_task]: a thread per client *)

Fixpoint client_task (clientfd : Z) (turns : list recv_res) : M io unit :=
  match turns with
  | [] => throw OutOfFuel
  | r :: turns =>
    let '(count, buffer) := recv_count r zero_buffer in
    if count =? 0 then sys_close clientfd
    else if count <? 0 then sys_close clientfd
    else print_text buffer;;; client_task clientfd turns
  end.

(** ** [oneoneio] *)

(** Each client that [accept] gives, or its error, becomes a task of the thread pool. *)
Fixpoint oneoneio (accepts : list Z) (submitted : list Z) : M io (list Z) :=
  match accepts with
  | [] => ret submitted
  | a :: accepts => let! clientfd := sys_accept a in oneoneio accepts (submitted ++ [clientfd])
  end.

(** ** [selectio] *)

Definition FD_SETSIZE : Z := 1024.
Definition FD_SET (fd : Z) (s : gset Z) : M io (gset Z) :=
  if (0 <=? fd) && (fd <? FD_SETSIZE) then ret ({[fd]} ∪ s) else throw OutOfBounds.

Record select_state : Type := mkselect { rfds : gset Z; maxfd : Z }.

(** The loop over the descriptors; [data] is what [recv] finds for each. *)
Fixpoint select_clients (idx : list Z) (rfds_t : gset Z) (data : Z -> recv_res) (rfds : gset Z) (buffer : list Z) : M io (gset Z) :=
  match idx with
  | [] => ret rfds
  | i :: idx =>
    if bool_decide (i ∈ rfds_t) then
      let '(count, buffer) := recv_count (data i) buffer in
      if count =? 0 then sys_close i;;; select_clients idx rfds_t data (rfds ∖ {[i]}) buffer
      else if count <? 0 then sys_close i;;; select_clients idx rfds_t data (rfds ∖ {[i]}) buffer
      else print_text buffer;;; select_clients idx rfds_t data rfds buffer
    else select_clients idx rfds_t data rfds buffer
  end.

(** A round: [report] is the set that [select] leaves, None when it fails. *)
Definition select_round (sockfd : Z) (report : option (gset Z)) (accepted : Z) (data : Z -> recv_res) (s : select_state) : M io select_state :=
  match report with
  | None => ret s
  | Some rfds_t =>
    let! s :=
      if bool_decide (sockfd ∈ rfds_t) then
        let! clientfd := sys_accept accepted in
        let! rfds := FD_SET clientfd (rfds s) in
        ret (mkselect rfds (if maxfd s <? clientfd then clientfd else maxfd s))
      else ret s in
    let! rfds := select_clients (seqZ (sockfd + 1) (maxfd s - sockfd)) rfds_t data (rfds s) zero_buffer in
    ret (mkselect rfds (maxfd s))
  end.

Definition selectio_start (sockfd : Z) : M io select_state := let! s := FD_SET sockfd ∅ in ret (mkselect s sockfd).

(** ** [pollio] *)

Record pollfd : Type := mkpollfd { p_fd : Z; pollin : bool; p_revents : bool }.
Record poll_state : Type := mkpoll { pfds : list pollfd; nfds : Z }.

Definition pollio_start (sockfd : Z) : poll_state :=
  mkpoll (mkpollfd sockfd true false :: replicate 1023 (mkpollfd 0 false false)) 1.

(** [poll] sets the result of the first [nfds] entries: POLLIN for a descriptor that is open
    and readable. *)
Definition sys_poll (readable : Z -> bool) (s : poll_state) : M io poll_state :=
  let! o := gets open_fds in
  let report (e : pollfd) := mkpollfd (p_fd e) (pollin e) (bool_decide (p_fd e ∈ o) && readable (p_fd e)) in
  ret (mkpoll (map report (take (Z.to_nat (nfds s)) (pfds s)) ++ drop (Z.to_nat (nfds s)) (pfds s)) (nfds s)).

Definition get_pfd (i : Z) (s : poll_state) : M io pollfd :=
  if i <? 0 then throw OutOfBounds else of_option OutOfBounds (pfds s !! Z.to_nat i).
Definition set_pfd (i : Z) (e : pollfd) (s : poll_state) : M io poll_state :=
  if (0 <=? i) && (i <? Z.of_nat (length (pfds s))) then ret (mkpoll (<[Z.to_nat i := e]> (pfds s)) (nfds s)) else throw OutOfBounds.

(** The loop over the entries: the last one takes the place of one whose client has gone. *)
Fixpoint poll_clients (fuel : nat) (i : Z) (data : Z -> recv_res) (s : poll_state) (buffer : list Z) : M io poll_state :=
  if negb (i <? nfds s) then ret s
  else
    match fuel with
    | O => throw OutOfFuel
    | S fuel =>
      let! e := get_pfd i s in
      if p_revents e then
        let '(count, buffer) := recv_count (data (p_fd e)) buffer in
        if (count =? 0) || (count <? 0) then
          let! last := get_pfd (nfds s - 1) s in
          let! s := set_pfd i last s in
          let s := mkpoll (pfds s) (nfds s - 1) in
          let! e := get_pfd i s in
          sys_close (p_fd e);;;
          poll_clients fuel (i + 1) data s buffer
        else print_text buffer;;; poll_clients fuel (i + 1) data s buffer
      else poll_clients fuel (i + 1) data s buffer
    end.

(** A round: [report] says which descriptors are readable, None when [poll] fails. *)
Definition poll_round (sockfd : Z) (report : option (Z -> bool)) (accepted : Z) (data : Z -> recv_res) (s : poll_state) : M io poll_state :=
  match report with
  | None => ret s
  | Some readable =>
    let! s := sys_poll readable s in
    let! e0 := get_pfd 0 s in
    if p_revents e0 then
      let! clientfd := sys_accept accepted in
      if clientfd <? 0 then ret s
      else
        let! old := get_pfd (nfds s) s in
        let! s := set_pfd (nfds s) (mkpollfd clientfd true (p_revents old)) s in
        let s := mkpoll (pfds s) (nfds s + 1) in
        poll_clients (Z.to_nat (nfds s)) 1 data s zero_buffer
    else poll_clients (Z.to_nat (nfds s)) 1 data s zero_buffer
  end.

(** ** [epollio] *)

(** An event that [epoll_wait] reports: the descriptor, whether it is readable, and what
    [accept], [epoll_ctl] (true when the descriptor was added) or [recv] then gives. *)
Record epoll_event : Type := mkevent { e_fd : Z; e_in : bool; e_accepted : Z; e_ctl : bool; e_recv : recv_res }.

(** The result of [epoll_ctl] is not looked at: a client that could not be added stays
    open and is not watched. *)
Fixpoint epoll_events (sockfd : Z) (events : list epoll_event) (watched : gset Z) : M io (gset Z) :=
  match events with
  | [] => ret watched
  | e :: events =>
    let connfd := e_fd e in
    if connfd =? sockfd then
      let! clientfd := sys_accept (e_accepted e) in
      if clientfd <? 0 then epoll_events sockfd events watched
      else epoll_events sockfd events (if e_ctl e then {[clientfd]} ∪ watched else watched)
    else if e_in e then
      let '(count, buffer) := recv_count (e_recv e) zero_buffer in
      if (count =? 0) || (count <? 0) then
        sys_close connfd;;;
        epoll_events sockfd events (watched ∖ {[connfd]})
      else print_text buffer;;; epoll_events sockfd events watched
    else epoll_events sockfd events watched
  end.

(** Rounds of [epollio], as many as given; without an epoll descriptor [epoll_wait] fails,
    and there are no events. *)
Fixpoint epoll_rounds (sockfd epfd : Z) (rounds : list (list epoll_event)) (watched : gset Z) : M io (gset Z) :=
  match rounds with
  | [] => ret watched
  | events :: rounds =>
    let! watched := epoll_events sockfd (if epfd <? 0 then [] else events) watched in
    epoll_rounds sockfd epfd rounds watched
  end.

(** [created] is what [epoll_create] gives, [ctl] whether the listening socket was added. *)
Definition epollio (sockfd created : Z) (ctl : bool) (rounds : list (list epoll_event)) : M io (gset Z) :=
  let! epfd := new_fd created in
  epoll_rounds sockfd epfd rounds (if (0 <=? epfd) && ctl then {[sockfd]} else ∅).

(** [main]: None when it returns before the server starts. *)
Definition tcp_main (sockfd : Z) (bind_ok listen_ok : bool) (created : Z) (ctl : bool) (rounds : list (list epoll_event)) : Z + M io (gset Z) :=
  if negb bind_ok then inl (-1) else if negb listen_ok then inl (-2) else inr (epollio sockfd created ctl rounds).
