(* ===== verification/IoServersProps.v ===== *)
(** * The four loops of tcpserver.cpp against one specification of the server. *)
From S2P Require Import Prelude KcpBase CLib SockIO IoServers.
From Stdlib Require Import Lia.
From stdpp Require Import base list numbers gmap sets.
Open Scope Z_scope.
Open Scope c_scope.

(** ** The specification *)

(** What happens to a server: a client comes, is let in but cannot be watched, says
    something, or goes. *)
Inductive occurrence : Type :=
  | Joined (fd : Z)
  | Stranded (fd : Z)
  | Said (fd : Z) (d : list Z)
  | Left (fd : Z).

(** The clients a server should have, those it has let in and does not watch, and the texts
    it should have printed. *)
Record abs_server : Type := mkabs { clients : gset Z; strays : gset Z; texts : list (list Z) }.
Definition abs_start : abs_server := mkabs ∅ ∅ [].

Definition abs_step (s : abs_server) (o : occurrence) : abs_server :=
  match o with
  | Joined fd => mkabs ({[fd]} ∪ clients s) (strays s) (texts s)
  | Stranded fd => mkabs (clients s) ({[fd]} ∪ strays s) (texts s)
  | Said _ d => mkabs (clients s) (strays s) (texts s ++ [cstr d])
  | Left fd => mkabs (clients s ∖ {[fd]}) (strays s ∖ {[fd]}) (texts s)
  end.
Definition abs_run (os : list occurrence) (s : abs_server) : abs_server := fold_left abs_step os s.

Lemma abs_run_app os os' s : abs_run (os ++ os') s = abs_run os' (abs_run os s).
Proof. apply fold_left_app. Qed.

(** What a [recv] means. *)
Definition recv_occ (fd : Z) (r : recv_res) : occurrence := match r with RData (c :: d) => Said fd (c :: d) | _ => Left fd end.

(** A message that can be printed: it leaves room for a terminator, or brings one. *)
Definition fits (o : occurrence) : bool :=
  match o with
  | Said _ d => (Z.of_nat (length d) <? buffer_size) || bool_decide (0 ∈ take (Z.to_nat buffer_size) d)
  | _ => true
  end.

Lemma cstr_app_in a x : 0 ∈ a -> cstr (a ++ x) = cstr a.
Proof.
  induction a as [|c a IH]; intros H; [by apply elem_of_nil in H|]. cbn. destruct (Z.eqb_spec c 0) as [|Hc]; [done|].
  rewrite IH; [done|]. apply elem_of_cons in H as [?|?]; [congruence | done].
Qed.

Lemma cstr_app_nin a x : 0 ∉ a -> cstr (a ++ x) = a ++ cstr x.
Proof.
  induction a as [|c a IH]; intros H; [done|]. apply not_elem_of_cons in H as [Hc H]. cbn.
  destruct (Z.eqb_spec c 0); [congruence | by rewrite IH].
Qed.

(** Into a buffer of zeros a message that fits is printed as it is, and no other is. *)
Lemma fits_fresh fd d : bool_decide (0 ∈ overwrite zero_buffer d) = fits (Said fd d) /\
  (fits (Said fd d) = true -> cstr (overwrite zero_buffer d) = cstr d).
Proof.
  unfold fits, overwrite, zero_buffer, buffer_size. set (a := take (Z.to_nat 1024) d). rewrite drop_replicate.
  destruct (Z.ltb_spec (Z.of_nat (length d)) 1024) as [Hd|Hd]; cbn [orb].
  - assert (a = d) as Ea by (apply take_ge; lia). rewrite Ea. destruct (Z.to_nat 1024 - length d)%nat as [|n] eqn:En; [lia|]. cbn [replicate]. split.
    + apply bool_decide_true, elem_of_app. right. by left.
    + intros _. destruct (decide (0 ∈ d)); [by rewrite cstr_app_in|]. rewrite cstr_app_nin by done. cbn. rewrite app_nil_r.
      symmetry. rewrite <- (app_nil_r d) at 1. rewrite cstr_app_nin by done. apply app_nil_r.
  - assert (length a = 1024%nat) as La by (unfold a; rewrite length_take; lia). rewrite La. cbn [Nat.sub]. change (Z.to_nat 1024 - 1024)%nat with 0%nat.
    cbn [replicate]. rewrite app_nil_r. split; [done|]. intros H%bool_decide_eq_true. rewrite <- (take_drop (Z.to_nat 1024) d). fold a. by rewrite cstr_app_in.
Qed.

(** The two meanings of a [recv], with the count and the buffer. *)
Lemma recv_cases r b fd :
  recv_occ fd r = Left fd /\ (recv_count r b).1 <= 0 /\ (recv_count r b).2 = b \/
  exists d, recv_occ fd r = Said fd d /\ 0 < (recv_count r b).1 /\ (recv_count r b).2 = overwrite b d.
Proof.
  destruct r as [[|c d]| |e]; cbn [recv_occ recv_count fst snd]; try (left; splits; [done | rewrite ?take_nil; cbn; lia | done]).
  right. exists (c :: d). splits; [done | | done]. rewrite length_take. unfold buffer_size. cbn [length]. lia.
Qed.

(** ** [epollio] *)

Definition event_occ (sockfd : Z) (e : epoll_event) : option occurrence :=
  if e_fd e =? sockfd then
    if e_accepted e <? 0 then None else Some ((if e_ctl e then Joined else Stranded) (e_accepted e))
  else if e_in e then Some (recv_occ (e_fd e) (e_recv e)) else None.

(** The variables of the loop for an abstract server: [listening] is watched, [own] is open,
    both besides the clients. *)
Definition watched_by (listening : gset Z) (s : abs_server) : gset Z := listening ∪ clients s.
Definition world_of (own : gset Z) (s : abs_server) : io := mkio (own ∪ clients s ∪ strays s) (texts s).

Lemma epoll_events_spec sockfd listening own events : forall s,
  listening ⊆ own -> Forall (fun e => e_fd e ∈ own -> e_fd e = sockfd) events ->
  let os := omap (event_occ sockfd) events in
  epoll_events sockfd events (watched_by listening s) (world_of own s)
  = if forallb fits os then Ok (watched_by listening (abs_run os s)) (world_of own (abs_run os s)) else Fault OutOfBounds.
Proof.
  induction events as [|e events IH]; intros s Hlo Hown; [done|]. apply Forall_cons_1 in Hown as [He Hown].
  specialize (fun s => IH s Hlo Hown). cbn [epoll_events omap list_omap] in *. cbv zeta.
  remember (event_occ sockfd e) as o eqn:Eo. unfold event_occ in Eo. destruct (Z.eqb_spec (e_fd e) sockfd) as [Hs|Hs].
  - unfold sys_accept, new_fd. destruct (e_accepted e <? 0) eqn:Ea; subst o; unfold bind, ret, modify; rewrite Ea; [apply IH|].
    assert (upd open_fds ({[e_accepted e]} ∪ open_fds (world_of own s)) (world_of own s) =
      world_of own (abs_step s ((if e_ctl e then Joined else Stranded) (e_accepted e)))) as ->.
    { unfold world_of. destruct (e_ctl e); cbn; f_equal; set_solver. }
    assert ((if e_ctl e then {[e_accepted e]} ∪ watched_by listening s else watched_by listening s) =
      watched_by listening (abs_step s ((if e_ctl e then Joined else Stranded) (e_accepted e)))) as ->.
    { unfold watched_by. destruct (e_ctl e); cbn; set_solver. }
    rewrite IH. by destruct (e_ctl e).
  - assert (e_fd e ∉ own) as Hn by auto. clear He. destruct (e_in e); subst o; [|apply IH].
    destruct (recv_cases (e_recv e) zero_buffer (e_fd e)) as [(E & Hc & _)|(d & E & Hc & Hb)]; rewrite E;
      destruct (recv_count (e_recv e) zero_buffer) as [count b]; cbn [fst snd forallb fits andb abs_run fold_left] in *.
    + assert ((count =? 0) || (count <? 0) = true) as -> by lia. unfold sys_close, bind, modify.
      assert (upd open_fds (open_fds (world_of own s) ∖ {[e_fd e]}) (world_of own s) = world_of own (abs_step s (Left (e_fd e)))) as ->.
      { unfold world_of. cbn. f_equal. set_solver. }
      assert (watched_by listening s ∖ {[e_fd e]} = watched_by listening (abs_step s (Left (e_fd e)))) as -> by (unfold watched_by; cbn; set_solver).
      apply IH.
    + assert ((count =? 0) || (count <? 0) = false) as -> by lia. subst b. unfold bind, print_text.
      destruct (fits_fresh (e_fd e) d) as [-> Hfit]. fold (fits (Said (e_fd e) d)). destruct (fits (Said (e_fd e) d)); [|done]. cbn [andb].
      unfold modify. rewrite Hfit by done. exact (IH (abs_step s (Said (e_fd e) d))).
Qed.

Lemma epoll_rounds_spec sockfd epfd listening own rounds : 0 <= epfd -> forall s,
  listening ⊆ own -> Forall (fun e => e_fd e ∈ own -> e_fd e = sockfd) (concat rounds) ->
  let os := omap (event_occ sockfd) (concat rounds) in
  epoll_rounds sockfd epfd rounds (watched_by listening s) (world_of own s)
  = if forallb fits os then Ok (watched_by listening (abs_run os s)) (world_of own (abs_run os s)) else Fault OutOfBounds.
Proof.
  intros Hep. induction rounds as [|events rounds IH]; intros s Hlo Hown; [done|]. cbn [epoll_rounds concat] in *. cbv zeta.
  apply Forall_app in Hown as [H1 H2]. rewrite (proj2 (Z.ltb_ge epfd 0)) by done. unfold bind. rewrite epoll_events_spec by done.
  rewrite omap_app, forallb_app, abs_run_app. destruct (forallb fits (omap (event_occ sockfd) events)); [|done]. cbn [andb]. by apply IH.
Qed.

(** C32: [epollio] is the server it should be.  After any rounds of events it watches the
    listening socket (if [epoll_ctl] could add it) and exactly the clients that are there
    and could be added; open are, besides these, the epoll descriptor and the clients that
    could not be added, whom nobody serves; and every message has been printed, in the
    order of the events, up to its first zero.  It goes wrong in one case: a message that
    fills the 1024 bytes of the buffer and has no zero makes [printf] read past it.
    Without an epoll descriptor it does nothing.  ([epoll_wait] does not report the
    descriptor it waits on.) *)
Theorem epollio_refines sockfd created ctl rounds : created <> sockfd ->
  Forall (fun e => e_fd e <> created) (concat rounds) ->
  let os := if created <? 0 then [] else omap (event_occ sockfd) (concat rounds) in
  let s := abs_run os abs_start in
  epollio sockfd created ctl rounds (mkio {[sockfd]} []) =
    if forallb fits os then
      Ok ((if (0 <=? created) && ctl then {[sockfd]} else ∅) ∪ clients s)
         (mkio ((if created <? 0 then {[sockfd]} else {[sockfd; created]}) ∪ clients s ∪ strays s) (texts s))
    else Fault OutOfBounds.
Proof.
  intros Hne Hev. cbv zeta. unfold epollio, new_fd, bind. destruct (Z.ltb_spec created 0) as [Hc|Hc].
  - cbn [forallb abs_run fold_left abs_start clients strays texts]. unfold ret at 1. rewrite (proj2 (Z.leb_gt 0 created)) by done.
    cbn [andb]. rewrite !union_empty_r_L. induction rounds as [|events rounds IH]; [done|].
    cbn [epoll_rounds concat] in *. apply Forall_app in Hev as [_ Hev]. rewrite (proj2 (Z.ltb_lt created 0)) by done. by apply IH.
  - unfold modify, ret. rewrite (proj2 (Z.leb_le 0 created)) by done. cbn [andb].
    set (listening := if ctl then {[sockfd]} else ∅). set (own := {[sockfd; created]} : gset Z).
    assert (listening = watched_by listening abs_start) as E1 by (unfold watched_by; cbn; set_solver).
    assert (upd open_fds ({[created]} ∪ open_fds (mkio {[sockfd]} [])) (mkio {[sockfd]} []) = world_of own abs_start) as ->
      by (unfold world_of; cbn; f_equal; subst own; set_solver).
    rewrite E1 at 1. apply (epoll_rounds_spec sockfd created listening own rounds Hc).
    + subst listening own. destruct ctl; set_solver.
    + eapply Forall_impl; [exact Hev|]. cbv beta. intros e He. subst own. set_solver.
Qed.

(** Three clients, of whom the third cannot be added; the first speaks and goes. *)
Definition four_rounds : list (list epoll_event) :=
  [[mkevent 3 true 5 true REof]; [mkevent 5 true (-1) true (RData [104; 105]); mkevent 3 true 6 true REof];
   [mkevent 3 true 7 false REof]; [mkevent 5 true (-1) true REof]].

Lemma epollio_refines_witness :
  let os := if 4 <? 0 then [] else omap (event_occ 3) (concat four_rounds) in
  let s := abs_run os abs_start in
  epollio 3 4 true four_rounds (mkio {[3]} []) =
    if forallb fits os then
      Ok ((if (0 <=? 4) && true then {[3]} else ∅) ∪ clients s)
         (mkio ((if 4 <? 0 then {[3]} else {[3; 4]}) ∪ clients s ∪ strays s) (texts s))
    else Fault OutOfBounds.
Proof. apply (epollio_refines 3 4 true four_rounds); [discriminate | repeat constructor; discriminate]. Defined.

(** The client that was not added is open and not watched. *)
Example epollio_strays :
  epollio 3 4 true four_rounds (mkio {[3]} []) = Ok {[3; 6]} (mkio {[3; 4; 6; 7]} [[104; 105]]).
Proof. vm_compute. reflexivity. Qed.

(** ** [selectio] *)

(** What is printed when the messages of a round are received into one buffer: each over
    what the one before has left there. *)
Fixpoint spoken (b : list Z) (os : list occurrence) : list (list Z) :=
  match os with
  | [] => []
  | Said _ d :: os => cstr (overwrite b d) :: spoken (overwrite b d) os
  | _ :: os => spoken b os
  end.

(** Each time the buffer has a zero to stop at. *)
Fixpoint printable (b : list Z) (os : list occurrence) : bool :=
  match os with
  | [] => true
  | Said _ d :: os => bool_decide (0 ∈ overwrite b d) && printable (overwrite b d) os
  | _ :: os => printable b os
  end.

Definition members (os : list occurrence) (cs : gset Z) : gset Z := clients (abs_run os (mkabs cs ∅ [])).

Lemma members_cons o os cs : members (o :: os) cs = members os (clients (abs_step (mkabs cs ∅ []) o)).
Proof.
  assert (forall os s s', clients s = clients s' -> clients (abs_run os s) = clients (abs_run os s')) as H.
  { clear. induction os as [|o os IH]; intros s s' E; [done|]. cbn. apply IH. destruct o; cbn; congruence. }
  unfold members. cbn [abs_run fold_left]. by apply H.
Qed.

Definition client_occs (idx : list Z) (t : gset Z) (data : Z -> recv_res) : list occurrence :=
  (fun i => recv_occ i (data i)) <$> filter (fun i => i ∈ t) idx.

Lemma select_clients_spec sockfd t data idx : forall cs texts b, sockfd ∉ idx ->
  let cs' := members (client_occs idx t data) cs in
  select_clients idx t data ({[sockfd]} ∪ cs) b (mkio ({[sockfd]} ∪ cs) texts)
  = if printable b (client_occs idx t data)
    then Ok ({[sockfd]} ∪ cs') (mkio ({[sockfd]} ∪ cs') (texts ++ spoken b (client_occs idx t data))) else Fault OutOfBounds.
Proof.
  unfold client_occs.
  induction idx as [|i idx IH]; intros cs texts b Hi; cbv zeta; [cbn; by rewrite app_nil_r|].
  apply not_elem_of_cons in Hi as [Hne Hi]. cbn [select_clients]. rewrite filter_cons in *. case_decide as Ht.
  2:{ rewrite bool_decide_false by done. by apply IH. }
  rewrite bool_decide_true by done. rewrite fmap_cons in *. rewrite members_cons.
  destruct (recv_cases (data i) b i) as [(E & Hc & Hb)|(d & E & Hc & Hb)]; rewrite E;
    destruct (recv_count (data i) b) as [count b']; cbn [fst snd] in Hc, Hb; subst b'; cbn [abs_step clients spoken printable].
  - unfold sys_close, bind, modify. cbn [upd upd_open_fds open_fds printed].
    assert (({[sockfd]} ∪ cs) ∖ {[i]} = {[sockfd]} ∪ (cs ∖ {[i]})) as Ecs by set_solver.
    destruct (count =? 0) eqn:E0; [|assert ((count <? 0) = true) as -> by lia]; cbn [open_fds printed]; rewrite Ecs; by apply IH.
  - assert (count =? 0 = false) as -> by lia. assert ((count <? 0) = false) as -> by lia.
    unfold bind, print_text. destruct (bool_decide (0 ∈ overwrite b d)); [|done]. cbn [andb]. unfold modify.
    cbn [upd upd_io_printed open_fds printed]. rewrite IH by done. by rewrite <- app_assoc.
Qed.

(** The well-formedness of the two variables of [selectio] and the open descriptors. *)
Record select_wf (sockfd : Z) (s : select_state) (w : io) : Prop := {
  sw_low : 0 <= sockfd;
  sw_max : sockfd <= maxfd s < FD_SETSIZE;
  sw_sock : sockfd ∈ rfds s;
  sw_range : forall fd, fd ∈ rfds s -> sockfd <= fd <= maxfd s;
  sw_open : open_fds w = rfds s
}.

(** A round as the kernel gives it. *)
Record select_input : Type := mkinput { in_report : option (gset Z); in_accepted : Z; in_data : Z -> recv_res }.
Definition do_select_round (sockfd : Z) (r : select_input) : select_state -> M io select_state :=
  select_round sockfd (in_report r) (in_accepted r) (in_data r).

(** What happens in a round: the client that comes, then every client that is ready, in the
    order of the descriptors. *)
Definition round_occs (sockfd : Z) (r : select_input) (s : select_state) : list occurrence :=
  match in_report r with
  | None => []
  | Some t =>
    (if bool_decide (sockfd ∈ t) then [Joined (in_accepted r)] else [])
    ++ client_occs (seqZ (sockfd + 1) (1023 - sockfd)) t (in_data r)
  end.

(** What the kernel does: it reports descriptors it was asked about, and [accept] fails or
    gives one that was not open and is above that of the server. *)
Definition select_fair (sockfd : Z) (s : select_state) (r : select_input) : Prop :=
  forall t, in_report r = Some t -> t ⊆ rfds s /\
    (sockfd ∈ t -> in_accepted r < 0 \/ sockfd < in_accepted r /\ in_accepted r ∉ rfds s).

(** What a round needs to go well: [accept] succeeds when it is called, with a descriptor
    that fits in the set, and every message can be printed. *)
Definition round_fits (sockfd : Z) (r : select_input) (s : select_state) : bool :=
  match in_report r with
  | None => true
  | Some t => (if bool_decide (sockfd ∈ t) then (0 <=? in_accepted r) && (in_accepted r <? FD_SETSIZE) else true)
              && printable zero_buffer (round_occs sockfd r s)
  end.

Inductive select_reach (sockfd : Z) : select_state -> io -> Prop :=
  | sr_start s w : selectio_start sockfd (mkio {[sockfd]} []) = Ok s w -> select_reach sockfd s w
  | sr_round r s w s' w' : select_reach sockfd s w -> select_fair sockfd s r ->
      do_select_round sockfd r s w = Ok s' w' -> select_reach sockfd s' w'.

Lemma filter_none {A} (P : A -> Prop) `{forall x, Decision (P x)} l : Forall (fun x => ~ P x) l -> filter P l = [].
Proof. induction 1 as [|x l Hx _ IH]; [done|]. by rewrite filter_cons_False. Qed.

(** Descriptors beyond [maxfd] are not ready. *)
Lemma client_occs_max sockfd m t data : sockfd <= m <= 1023 -> (forall fd, fd ∈ t -> fd <= m) ->
  client_occs (seqZ (sockfd + 1) (1023 - sockfd)) t data = client_occs (seqZ (sockfd + 1) (m - sockfd)) t data.
Proof.
  intros Hm Ht. unfold client_occs. f_equal. replace (1023 - sockfd) with ((m - sockfd) + (1023 - m)) by lia.
  rewrite seqZ_app by lia. rewrite filter_app. rewrite (filter_none _ (seqZ (sockfd + 1 + (m - sockfd)) (1023 - m))).
  - by rewrite app_nil_r.
  - apply Forall_forall. intros fd Hfd%elem_of_seqZ Hin. specialize (Ht _ Hin). lia.
Qed.

Lemma members_incl os cs fd : fd ∈ members os cs -> fd ∈ cs \/ Joined fd ∈ os.
Proof.
  revert cs. induction os as [|o os IH]; intros cs H; [by left|]. rewrite members_cons in H. destruct (IH _ H) as [H1|H1].
  - destruct o; cbn in H1; set_solver.
  - set_solver.
Qed.

Lemma client_occs_joined idx t data fd : Joined fd ∉ client_occs idx t data.
Proof. unfold client_occs. intros (i & Hi & _)%list_elem_of_fmap. by destruct (data i) as [[]| |]. Qed.

Definition clients_of (sockfd : Z) (s : select_state) : gset Z := rfds s ∖ {[sockfd]}.

(** The state with [sockfd] apart. *)
Lemma select_wf_split sockfd s w : select_wf sockfd s w ->
  rfds s = {[sockfd]} ∪ clients_of sockfd s /\ w = mkio ({[sockfd]} ∪ clients_of sockfd s) (printed w).
Proof.
  intros [_ _ Hsock _ Ho]. unfold clients_of. assert (rfds s = {[sockfd]} ∪ rfds s ∖ {[sockfd]}) as E by (by apply union_difference_singleton_L).
  split; [done|]. rewrite <- E, <- Ho. by destruct w.
Qed.

Lemma client_occs_left idx t data fd : fd ∉ idx -> Left fd ∉ client_occs idx t data.
Proof.
  unfold client_occs. intros Hfd (i & Hi & Hin)%list_elem_of_fmap. apply list_elem_of_filter in Hin as [_ Hin].
  destruct (data i) as [[]| |]; cbn in Hi; congruence.
Qed.

(** The part of a round after [accept]: the clients that are ready. *)
Lemma select_ready_ok sockfd m t data cs pr : 0 <= sockfd <= m -> m < FD_SETSIZE ->
  (forall fd, fd ∈ cs -> sockfd < fd <= m) -> t ⊆ {[sockfd]} ∪ cs ->
  let os := client_occs (seqZ (sockfd + 1) (1023 - sockfd)) t data in
  let run := (let! rfds := select_clients (seqZ (sockfd + 1) (m - sockfd)) t data ({[sockfd]} ∪ cs) zero_buffer in ret (mkselect rfds m))
      (mkio ({[sockfd]} ∪ cs) pr) in
  if printable zero_buffer os then
    exists s' w', run = Ok s' w' /\ select_wf sockfd s' w'
    /\ clients_of sockfd s' = members os cs /\ printed w' = pr ++ spoken zero_buffer os
  else run = Fault OutOfBounds.
Proof.
  intros Hm Hm2 Hcs Ht os run. subst os run. unfold FD_SETSIZE in Hm2.
  assert (forall fd, fd ∈ t -> fd <= m) as Htm.
  { intros fd Hfd%Ht. apply elem_of_union in Hfd as [->%elem_of_singleton|?%Hcs]; lia. }
  rewrite (client_occs_max sockfd m) by (done || lia).
  unfold bind. rewrite select_clients_spec by (rewrite elem_of_seqZ; lia).
  remember (client_occs (seqZ (sockfd + 1) (m - sockfd)) t data) as os eqn:Eos. destruct (printable zero_buffer os); [|done].
  assert (forall fd, fd ∈ members os cs -> sockfd < fd <= m) as Hin.
  { intros fd [?%Hcs|Hj]%members_incl; [done|]. subst os. by apply client_occs_joined in Hj. }
  exists (mkselect ({[sockfd]} ∪ members os cs) m), (mkio ({[sockfd]} ∪ members os cs) (pr ++ spoken zero_buffer os)). splits; [done | | | done].
  - split; cbn; [lia | unfold FD_SETSIZE; lia | by apply elem_of_union_l, elem_of_singleton | | done].
    intros fd [->%elem_of_singleton|?%Hin]%elem_of_union; lia.
  - unfold clients_of. cbn. apply set_eq. intros fd. rewrite elem_of_difference, elem_of_union, elem_of_singleton.
    split; [naive_solver|]. intros Hfd. specialize (Hin _ Hfd). split; [by right | lia].
Qed.

Lemma accept_ok fd w : 0 <= fd -> sys_accept fd w = Ok fd (w<|open_fds := {[fd]} ∪ open_fds w|>).
Proof. intros H. unfold sys_accept, new_fd. by assert ((fd <? 0) = false) as -> by lia. Qed.

Lemma FD_SET_run fd s w : FD_SET fd s w = if (0 <=? fd) && (fd <? FD_SETSIZE) then Ok ({[fd]} ∪ s) w else Fault OutOfBounds.
Proof. unfold FD_SET. by destruct (_ && _). Qed.

Lemma bind_ok {W A B} (m : M W A) (k : A -> M W B) w a w' : m w = Ok a w' -> bind m k w = k a w'.
Proof. unfold bind. by intros ->. Qed.

Lemma bind_fault {W A B} (m : M W A) (k : A -> M W B) w f : m w = Fault f -> bind m k w = Fault f.
Proof. unfold bind. by intros ->. Qed.

(** [accept], [FD_SET] and the new [maxfd]. *)
Lemma accept_set fd s w :
  (let! clientfd := sys_accept fd in
   let! rfds := FD_SET clientfd (rfds s) in
   ret (mkselect rfds (if maxfd s <? clientfd then clientfd else maxfd s))) w
  = if (0 <=? fd) && (fd <? FD_SETSIZE)
    then Ok (mkselect ({[fd]} ∪ rfds s) (if maxfd s <? fd then fd else maxfd s)) (w<|open_fds := {[fd]} ∪ open_fds w|>) else Fault OutOfBounds.
Proof.
  unfold bind, sys_accept, new_fd. destruct (Z.ltb_spec fd 0) as [Hn|Hn].
  - unfold ret. rewrite FD_SET_run. by rewrite (proj2 (Z.leb_gt 0 fd)).
  - unfold bind, modify, ret. rewrite FD_SET_run. by destruct ((0 <=? fd) && (fd <? FD_SETSIZE)).
Qed.

(** What a round promises. *)
Definition round_post (sockfd : Z) (r : select_input) (s : select_state) (w : io) (s' : select_state) (w' : io) : Prop :=
  select_wf sockfd s' w' /\ clients_of sockfd s' = members (round_occs sockfd r s) (clients_of sockfd s)
  /\ printed w' = printed w ++ spoken zero_buffer (round_occs sockfd r s).

Lemma select_round_ok sockfd r s w : select_wf sockfd s w -> select_fair sockfd s r ->
  if round_fits sockfd r s then exists s' w', do_select_round sockfd r s w = Ok s' w' /\ round_post sockfd r s w s' w'
  else do_select_round sockfd r s w = Fault OutOfBounds.
Proof.
  intros Hwf Hk. destruct (select_wf_split _ _ _ Hwf) as [Er Ew]. pose proof Hwf as [Hlow Hmax Hsock Hrange Ho].
  unfold do_select_round, select_round, round_fits, round_post, round_occs, select_fair in *. destruct (in_report r) as [t|].
  2:{ exists s, w. splits; [done | done | done | by rewrite app_nil_r]. }
  destruct (Hk t eq_refl) as [Ht Ha]. clear Hk.
  assert (forall fd, fd ∈ clients_of sockfd s -> sockfd < fd <= maxfd s) as Hcs.
  { unfold clients_of. intros fd [Hfd Hne]%elem_of_difference. rewrite elem_of_singleton in Hne. specialize (Hrange fd Hfd). lia. }
  remember (clients_of sockfd s) as cs eqn:Ecs. rewrite Er in Ht. unfold FD_SETSIZE in Hmax. case_bool_decide as Hin.
  - specialize (Ha Hin). cbn [app printable]. pose proof (accept_set (in_accepted r) s w) as Hset.
    destruct ((0 <=? in_accepted r) && (in_accepted r <? FD_SETSIZE)) eqn:Eacc; cbn [andb]; [|by rewrite (bind_fault _ _ _ _ Hset)].
    rewrite (bind_ok _ _ _ _ _ Hset).
    unfold FD_SETSIZE in Eacc. destruct Ha as [|[Har Hnew]]; [lia|].
    rewrite members_cons. cbn [abs_step clients spoken].
    remember (if maxfd s <? in_accepted r then in_accepted r else maxfd s) as m eqn:Em.
    assert (maxfd s <= m /\ in_accepted r <= m < 1024) as [Hm1 Hm2] by (subst m; destruct (Z.ltb_spec (maxfd s) (in_accepted r)); lia).
    cbn [rfds maxfd]. rewrite Er. assert ({[in_accepted r]} ∪ ({[sockfd]} ∪ cs) = {[sockfd]} ∪ ({[in_accepted r]} ∪ cs)) as Eu by (clear; set_solver).
    replace (upd open_fds ({[in_accepted r]} ∪ open_fds w) w) with (mkio ({[sockfd]} ∪ ({[in_accepted r]} ∪ cs)) (printed w))
      by (cbn; by rewrite Ho, Er, Eu).
    rewrite Eu. apply (select_ready_ok sockfd m t (in_data r) ({[in_accepted r]} ∪ cs) (printed w)); [lia | unfold FD_SETSIZE; lia | |].
    + intros fd [->%elem_of_singleton|?%Hcs]%elem_of_union; lia.
    + etransitivity; [exact Ht|]. clear. set_solver.
  - cbn [app andb]. rewrite (bind_ok _ _ w s w eq_refl), Er.
    replace w with (mkio ({[sockfd]} ∪ cs) (printed w)) by done. cbn [printed].
    apply select_ready_ok; [lia | unfold FD_SETSIZE; lia | done | done].
Qed.

Lemma select_reach_wf sockfd s w : 0 <= sockfd < FD_SETSIZE -> select_reach sockfd s w -> select_wf sockfd s w.
Proof.
  intros Hfd. induction 1 as [s w Hst|r s w s' w' _ IH Hfair Hrun].
  - unfold selectio_start, bind in Hst. rewrite FD_SET_run in Hst.
    assert ((0 <=? sockfd) && (sockfd <? FD_SETSIZE) = true) as E by lia. rewrite E in Hst. injection Hst as <- <-.
    split; cbn; [lia | lia | set_solver | | set_solver]. intros fd Hin. assert (fd = sockfd) by set_solver. lia.
  - pose proof (select_round_ok _ _ _ _ IH Hfair) as H. destruct (round_fits sockfd r s); [|congruence].
    destruct H as (s1 & w1 & Hrun1 & Hwf & _). rewrite Hrun in Hrun1. by injection Hrun1 as -> ->.
Qed.

(** C33: [selectio] keeps its set of descriptors and its [maxfd] well formed: after any
    rounds that went well, the listening socket is in the set, every descriptor of the set
    is open, nothing else is, and all lie between [sockfd] and [maxfd], below FD_SETSIZE.
    The next round goes well exactly if [accept], when it is called, succeeds with a
    descriptor below FD_SETSIZE, and no message leaves the buffer without a zero; otherwise
    it accesses memory outside the set or the buffer.  When it goes well, its clients are
    those that the occurrences of the round leave, and what it prints is each message over
    what the message before it in the round left in the buffer. *)
Theorem selectio_well_formed sockfd s w r : 0 <= sockfd < FD_SETSIZE -> select_reach sockfd s w -> select_fair sockfd s r ->
  select_wf sockfd s w /\
  if round_fits sockfd r s then exists s' w', do_select_round sockfd r s w = Ok s' w' /\ round_post sockfd r s w s' w'
  else do_select_round sockfd r s w = Fault OutOfBounds.
Proof. intros Hfd Hreach Hfair. pose proof (select_reach_wf _ _ _ Hfd Hreach). split; [done|]. by apply select_round_ok. Qed.

(** A client joins; the next round two clients speak, "hello" and "hi". *)
Definition said (l : list (Z * list Z)) (fd : Z) : recv_res :=
  match filter (fun e => e.1 = fd) l with e :: _ => RData e.2 | [] => REof end.
Definition join (t : gset Z) (fd : Z) : select_input := mkinput (Some t) fd (said []).
Definition two_speak : select_input := mkinput (Some {[4; 5]}) 9 (said [(4, [104; 101; 108; 108; 111]); (5, [104; 105])]).

(** A decidable proposition by evaluation. *)
Ltac by_computation := lazymatch goal with |- ?P => refine (@bool_decide_unpack P _ _) end; vm_compute; exact I.

Lemma not_elem_of_ready (P : Prop) : 3 ∈ ({[4; 5]} : gset Z) -> P.
Proof. intros H. exfalso. revert H. change (3 ∉ ({[4; 5]} : gset Z)). by_computation. Qed.

Lemma selectio_well_formed_witness :
  let s := mkselect {[3; 4; 5]} 5 in let w := mkio {[3; 4; 5]} [] in
  select_wf 3 s w /\
  if round_fits 3 two_speak s then exists s' w', do_select_round 3 two_speak s w = Ok s' w' /\ round_post 3 two_speak s w s' w'
  else do_select_round 3 two_speak s w = Fault OutOfBounds.
Proof.
  cbv zeta. apply selectio_well_formed; [split; [discriminate | reflexivity] | |].
  - apply (sr_round 3 (join {[3]} 5) (mkselect {[3; 4]} 4) (mkio {[3; 4]} [])); [| | by vm_compute].
    + apply (sr_round 3 (join {[3]} 4) (mkselect {[3]} 3) (mkio {[3]} [])); [by constructor | | by vm_compute].
      intros t [= <-]. split; [done|]. intros _. right. split; [reflexivity|]. by_computation.
    + intros t [= <-]. split; [by_computation|]. intros _. right. split; [reflexivity|]. by_computation.
  - intros t [= <-]; split; [by_computation|]. apply not_elem_of_ready.
Defined.

(** [accept] fails, or gives a descriptor too large, and a message fills the buffer. *)
Example select_faults :
  do_select_round 3 (join {[3]} (-1)) (mkselect {[3]} 3) (mkio {[3]} []) = Fault OutOfBounds /\
  do_select_round 3 (join {[3]} 1024) (mkselect {[3]} 3) (mkio {[3]} []) = Fault OutOfBounds /\
  do_select_round 3 (mkinput (Some {[4]}) 9 (said [(4, replicate 1024 97)])) (mkselect {[3; 4]} 4) (mkio {[3; 4]} []) = Fault OutOfBounds.
Proof. vm_compute. repeat split. Qed.

(** The shorter message is printed with the rest of the longer one: "hello", then "hillo". *)
Example select_stale_text : spoken zero_buffer (round_occs 3 two_speak (mkselect {[3; 4; 5]} 5))
  = [[104; 101; 108; 108; 111]; [104; 105; 108; 108; 111]].
Proof. vm_compute. reflexivity. Qed.

(** ** [pollio] *)

(** The descriptors that [poll] watches. *)
Definition watched (s : poll_state) : list Z := p_fd <$> take (Z.to_nat (nfds s)) (pfds s).

Lemma get_pfd_ok i s e w : pfds s !! i = Some e -> get_pfd (Z.of_nat i) s w = Ok e w.
Proof. intros H. unfold get_pfd. rewrite (proj2 (Z.ltb_ge (Z.of_nat i) 0)) by lia. by rewrite Nat2Z.id, H. Qed.

(** Entries that are not ready are passed over. *)
Lemma poll_skip n : forall fuel i data s b w,
  (forall k, (i <= k < i + n)%nat -> Z.of_nat k < nfds s /\ exists e, pfds s !! k = Some e /\ p_revents e = false) ->
  poll_clients (n + fuel) (Z.of_nat i) data s b w = poll_clients fuel (Z.of_nat (i + n)) data s b w.
Proof.
  induction n as [|n IH]; intros fuel i data s b w H; [by rewrite Nat.add_0_r|]. cbn [Nat.add poll_clients].
  destruct (H i ltac:(lia)) as (Hlt & e & He & Hr). assert ((Z.of_nat i <? nfds s) = true) as -> by lia. cbn [negb].
  unfold bind. rewrite (get_pfd_ok _ _ _ _ He), Hr. replace (Z.of_nat i + 1) with (Z.of_nat (S i)) by lia.
  rewrite IH; [by replace (S i + n)%nat with (i + S n)%nat by lia|]. intros k Hk. apply H. lia.
Qed.

Lemma poll_end fuel i data s b w : nfds s <= i -> poll_clients fuel i data s b w = Ok s w.
Proof. intros H. destruct fuel; cbn; by assert ((i <? nfds s) = false) as -> by lia. Qed.

(** What [poll] reports for an entry. *)
Definition reported (o : gset Z) (readable : Z -> bool) (e : pollfd) : pollfd :=
  mkpollfd (p_fd e) (pollin e) (bool_decide (p_fd e ∈ o) && readable (p_fd e)).

Definition polled (o : gset Z) (readable : Z -> bool) (s : poll_state) : poll_state :=
  mkpoll ((reported o readable <$> take (Z.to_nat (nfds s)) (pfds s)) ++ drop (Z.to_nat (nfds s)) (pfds s)) (nfds s).

Lemma sys_poll_ok readable s w : sys_poll readable s w = Ok (polled (open_fds w) readable s) w.
Proof. reflexivity. Qed.

Lemma polled_lookup o readable s k e : Z.of_nat k < nfds s -> pfds s !! k = Some e ->
  pfds (polled o readable s) !! k = Some (reported o readable e).
Proof.
  intros Hk He. unfold polled. cbn. rewrite lookup_app_l; [|rewrite length_fmap, length_take; apply lookup_lt_Some in He; lia].
  rewrite list_lookup_fmap, lookup_take. rewrite decide_True by lia. by rewrite He.
Qed.

Lemma polled_length o readable s : length (pfds (polled o readable s)) = length (pfds s).
Proof. unfold polled. cbn. rewrite length_app, length_fmap, length_take, length_drop. lia. Qed.

Lemma polled_watched o readable s : watched (polled o readable s) = watched s.
Proof.
  unfold watched, polled. cbn. destruct (Nat.le_ge_cases (Z.to_nat (nfds s)) (length (pfds s))) as [H|H].
  - rewrite take_app_le by (rewrite length_fmap, length_take; lia). rewrite <- fmap_take, take_take, Nat.min_id.
    rewrite <- list_fmap_compose. by apply list_fmap_ext.
  - rewrite (drop_ge (pfds s)), app_nil_r by lia. rewrite <- fmap_take, take_take, Nat.min_id.
    rewrite <- list_fmap_compose. by apply list_fmap_ext.
Qed.

Record poll_wf (s : poll_state) (w : io) : Prop := {
  pw_len : length (pfds s) = 1024%nat;
  pw_nfds : 0 < nfds s <= 1024;
  pw_nodup : NoDup (watched s);
  pw_open : forall fd, fd ∈ watched s -> fd ∈ open_fds w
}.

Lemma watched_lookup s k e : Z.of_nat k < nfds s -> pfds s !! k = Some e -> watched s !! k = Some (p_fd e).
Proof. intros Hk He. unfold watched. rewrite list_lookup_fmap, lookup_take. rewrite decide_True by lia. by rewrite He. Qed.

(** The step of the loop for a client that has gone: the last entry is copied over its own,
    and the descriptor of the copy is closed. *)
Lemma poll_gone fuel i data s b w e last : (0 < i)%nat -> Z.of_nat i < nfds s -> pfds s !! i = Some e -> p_revents e = true ->
  pfds s !! Z.to_nat (nfds s - 1) = Some last -> (recv_count (data (p_fd e)) b).1 <= 0 ->
  poll_clients (S fuel) (Z.of_nat i) data s b w
  = poll_clients fuel (Z.of_nat (S i)) data (mkpoll (<[i := last]> (pfds s)) (nfds s - 1)) (recv_count (data (p_fd e)) b).2
      (w<|open_fds := open_fds w ∖ {[p_fd last]}|>).
Proof.
  intros Hi Hlt He Hr Hl Hc. cbn [poll_clients]. assert ((Z.of_nat i <? nfds s) = true) as -> by lia. cbn [negb].
  unfold bind. rewrite (get_pfd_ok _ _ _ _ He), Hr. destruct (recv_count (data (p_fd e)) b) as [count b']. cbn [fst snd] in *.
  assert ((count =? 0) || (count <? 0) = true) as -> by lia.
  replace (nfds s - 1) with (Z.of_nat (Z.to_nat (nfds s - 1))) at 1 by lia. rewrite (get_pfd_ok _ _ _ _ Hl).
  unfold set_pfd. pose proof (lookup_lt_Some _ _ _ He). assert ((0 <=? Z.of_nat i) && (Z.of_nat i <? Z.of_nat (length (pfds s))) = true) as -> by lia.
  unfold ret. rewrite Nat2Z.id. rewrite (get_pfd_ok i _ last) by (cbn; by rewrite list_lookup_insert_eq by lia).
  unfold sys_close, modify. cbn [p_fd pfds nfds]. by replace (Z.of_nat i + 1) with (Z.of_nat (S i)) by lia.
Qed.

Lemma poll_wf_inj s w k k' e e' : poll_wf s w -> Z.of_nat k < nfds s -> Z.of_nat k' < nfds s ->
  pfds s !! k = Some e -> pfds s !! k' = Some e' -> p_fd e = p_fd e' -> k = k'.
Proof.
  intros Hwf Hk Hk' He He' E. eapply NoDup_lookup; [exact (pw_nodup _ _ Hwf) | by eapply watched_lookup |].
  rewrite E. by eapply watched_lookup.
Qed.

(** With one client ready, no entry but its own has a result. *)
Lemma polled_alone s w i e k : poll_wf s w -> Z.of_nat i < nfds s -> pfds s !! i = Some e -> Z.of_nat k < nfds s -> k <> i ->
  exists e', pfds (polled (open_fds w) (fun fd => bool_decide (fd = p_fd e)) s) !! k = Some e' /\ p_revents e' = false.
Proof.
  intros Hwf Hi He Hk Hne. pose proof (pw_len _ _ Hwf). pose proof (pw_nfds _ _ Hwf).
  destruct (lookup_lt_is_Some_2 (pfds s) k) as [e' He']; [lia|]. eexists. split; [by apply polled_lookup|]. cbn.
  rewrite (bool_decide_false (p_fd e' = p_fd e)); [apply andb_false_r|].
  intros E. apply Hne. by eapply poll_wf_inj.
Qed.

(** [pollio] closes the wrong descriptor: when a client that is not in the last entry is
    gone, the descriptor that the server closes is that of the last client, which has gone
    nowhere and stays among those that [poll] watches; the one of the client that is gone
    stays open, and nothing watches it any more. *)
Theorem pollio_closes_last sockfd s w i e e0 last data accepted :
  poll_wf s w -> pfds s !! 0%nat = Some e0 -> p_fd e0 = sockfd ->
  (0 < i)%nat -> Z.of_nat i < nfds s - 1 -> pfds s !! i = Some e -> pfds s !! Z.to_nat (nfds s - 1) = Some last ->
  recv_occ (p_fd e) (data (p_fd e)) = Left (p_fd e) ->
  exists s', poll_round sockfd (Some (fun fd => bool_decide (fd = p_fd e))) accepted data s w
    = Ok s' (w<|open_fds := open_fds w ∖ {[p_fd last]}|>)
  /\ p_fd last ∈ watched s' /\ p_fd last ∈ open_fds w /\ p_fd e ∉ watched s' /\ p_fd e ∈ open_fds w ∖ {[p_fd last]}.
Proof.
  intros Hwf H0 Hs Hi Hlt He Hl Hgone. pose proof (pw_len _ _ Hwf) as Hlen. pose proof (pw_nfds _ _ Hwf) as Hn.
  assert (p_fd e <> p_fd last) as Hne by (intros E; enough (i = Z.to_nat (nfds s - 1)) by lia; by eapply (poll_wf_inj s w); [| lia | lia | | |]).
  set (alone := fun fd => bool_decide (fd = p_fd e)). set (s1 := polled (open_fds w) alone s).
  assert (forall k e, watched s !! k = Some (p_fd e) -> p_fd e ∈ open_fds w) as Hopen
    by (intros k e' Hk; apply (pw_open _ _ Hwf); by eapply list_elem_of_lookup_2).
  assert (p_fd e ∈ open_fds w) as Hoe by (eapply (Hopen i); apply watched_lookup; [lia | done]).
  assert (p_fd last ∈ open_fds w) as Hol by (eapply (Hopen (Z.to_nat (nfds s - 1))); apply watched_lookup; [lia | done]).
  exists (mkpoll (<[i := reported (open_fds w) alone last]> (pfds s1)) (nfds s1 - 1)).
  assert (length (pfds s1) = 1024%nat) as Hlen1 by (unfold s1; by rewrite polled_length).
  assert (pfds s1 !! Z.to_nat (nfds s1 - 1) = Some (reported (open_fds w) alone last)) as Hl1 by (apply polled_lookup; [cbn; lia | done]).
  assert (pfds s1 !! i = Some (reported (open_fds w) alone e)) as He1 by (apply polled_lookup; [lia | done]).
  split; [|splits; [| done | | by apply elem_of_difference; rewrite elem_of_singleton]].
  - unfold poll_round, bind. rewrite sys_poll_ok. fold s1.
    destruct (polled_alone s w i e 0%nat Hwf ltac:(lia) He ltac:(lia) ltac:(lia)) as (e1 & E1 & R1).
    change 0 with (Z.of_nat 0). rewrite (get_pfd_ok 0 s1 e1 w E1), R1.
    replace (Z.to_nat (nfds s1)) with (pred i + S (Z.to_nat (nfds s - 2 - Z.of_nat i) + 2))%nat by (cbn; lia).
    change 1 with (Z.of_nat 1). rewrite poll_skip.
    2:{ intros k Hk. split; [cbn; lia|]. by apply (polled_alone s w i e); try lia. }
    replace (1 + pred i)%nat with i by lia.
    rewrite (poll_gone _ _ _ _ _ _ (reported (open_fds w) alone e) (reported (open_fds w) alone last) Hi); cbn [nfds s1 polled]; [| lia | exact He1 | | exact Hl1 |].
    + rewrite poll_skip; [apply poll_end; cbn; lia|]. intros k Hk. cbn [nfds pfds]. split; [lia|].
      rewrite list_lookup_insert_ne by lia. by apply (polled_alone s w i e); try lia.
    + cbn. unfold alone. by rewrite !bool_decide_true.
    + cbn. destruct (recv_cases (data (p_fd e)) zero_buffer (p_fd e)) as [(_ & Hr & _)|(d & Hr & _)]; [exact Hr | congruence].
  - eapply (list_elem_of_lookup_2 _ i). unfold watched. cbn. rewrite list_lookup_fmap, lookup_take. rewrite decide_True by lia.
    rewrite list_lookup_insert_eq; [done|]. change (i < length (pfds s1))%nat. lia.
  - unfold watched. cbn. intros (k & Hk)%list_elem_of_lookup. rewrite list_lookup_fmap, lookup_take in Hk. case_decide as Hkn; [|done].
    destruct (decide (k = i)) as [->|Hki].
    + rewrite list_lookup_insert_eq in Hk by (change (i < length (pfds s1))%nat; lia). cbn in Hk. congruence.
    + rewrite list_lookup_insert_ne in Hk by done. destruct (lookup_lt_is_Some_2 (pfds s) k) as [e' He']; [lia|].
      change (p_fd <$> pfds s1 !! k = Some (p_fd e)) in Hk. unfold s1 in Hk.
      rewrite (polled_lookup _ _ _ k e') in Hk by (lia || done). cbn in Hk. injection Hk as Hk.
      apply Hki. eapply (poll_wf_inj s w); [done | lia | lia | done | done | done].
Qed.

(** Three clients, 4, 5 and 6; the first one goes: 6 is closed. *)
Definition three_clients : poll_state :=
  mkpoll ([mkpollfd 3 true false; mkpollfd 4 true false; mkpollfd 5 true false; mkpollfd 6 true false] ++ replicate 1020 (mkpollfd 0 false false)) 4.

Lemma pollio_closes_last_witness :
  exists s', poll_round 3 (Some (fun fd => bool_decide (fd = 4))) (-1) (fun _ => REof) three_clients (mkio {[3; 4; 5; 6]} [])
    = Ok s' (mkio ({[3; 4; 5; 6]} ∖ {[6]}) [])
  /\ 6 ∈ watched s' /\ 6 ∈ ({[3; 4; 5; 6]} : gset Z) /\ 4 ∉ watched s' /\ 4 ∈ ({[3; 4; 5; 6]} : gset Z) ∖ {[6]}.
Proof.
  destruct (pollio_closes_last 3 three_clients (mkio {[3; 4; 5; 6]} []) 1%nat (mkpollfd 4 true false) (mkpollfd 3 true false) (mkpollfd 6 true false)
    (fun _ => REof) (-1)) as (s' & E & H1 & H2 & H3 & H4); try reflexivity; [|lia| exists s'].
  2:{ exact (conj E (conj H1 (conj H2 (conj H3 H4)))). }
  split; [reflexivity | split; reflexivity || discriminate | by_computation |].
  change (watched three_clients) with [3; 4; 5; 6]. apply Forall_forall. repeat constructor; by_computation.
Defined.
