(* ===== verification/DnsSync.v ===== *)
(** * dnstest.cpp of test5: a blocking DNS client in C++.

    The random number and what the socket calls give are arguments; the world holds the
    sockets that are open, the requests that were sent and the lines that were printed. *)
From S2P Require Import Prelude KcpBase CLib.
From stdpp Require Import base list numbers.
Open Scope Z_scope.
Open Scope c_scope.

Inductive line : Type :=
  | LinvalidLength                                  (** "invalid domain name length" *)
  | LconnectFault                                   (** "connect fault" *)
  | LbadAnswer                                      (** the answer section is malformed *)
  | LIPv4 (ip : list Z).                            (** "IPv4: %u.%u.%u.%u" *)

Record resolver : Type := mkresolver { sockets : list Z; requests : list (list (option Z)); lines : list line }.
Definition eta_resolver (r : resolver) : resolver := mkresolver (sockets r) (requests r) (lines r).
#[export] Instance upd_sockets : Upd sockets := ltac:(build_upd eta_resolver sockets).
#[export] Instance upd_requests : Upd requests := ltac:(build_upd eta_resolver requests).
#[export] Instance upd_lines : Upd lines := ltac:(build_upd eta_resolver lines).

Definition put_line (l : line) : M resolver unit := modify (fun r => r<|lines := lines r ++ [l]|>).

(** ** [dns_header] *)

Record dns_header : Type := mkheader {
  id : Z; flags : Z; questions : Z; answer_rrs : Z; authority_rrs : Z; additional_rrs : Z
}.

(** [dns_header::create]; [rnd] is the value of [get_random_id]. *)
Definition header_create (rnd _flag _ques_num : Z) : Z * dns_header :=
  (0, mkheader (u16 rnd) (u16 _flag) (u16 _ques_num) 0 0 0).

(** ** [dns_queries] *)

(** [qtype] and [qclass] hold nothing until [create] sets them. *)
Record dns_queries : Type := mkqueries { qname : list Z; qtype : option Z; qclass : option Z }.
Definition new_queries : dns_queries := mkqueries [] None None.

(** [hostname.find_first_of('.', index)], or the size of [hostname]. *)
Fixpoint find_dot (s : list Z) : nat :=
  match s with [] => 0%nat | c :: s => if c =? 46 then 0%nat else S (find_dot s) end.
Definition dot_from (hostname : list Z) (index : nat) : nat := (index + find_dot (drop index hostname))%nat.

(** The loop of [encode_hostname]: false when a label has a bad length. *)
Fixpoint encode_loop (fuel : nat) (hostname : list Z) (index : nat) (result : list Z) : M resolver (bool * list Z) :=
  if negb (bool_decide (index < length hostname)%nat) then ret (true, result)
  else
    match fuel with
    | O => throw OutOfFuel
    | S fuel =>
      let dot_index := dot_from hostname index in
      let domain_len := s32 (Z.of_nat dot_index - Z.of_nat index) in
      if (63 <=? domain_len) || (domain_len <? 1) then put_line LinvalidLength;;; ret (false, result)
      else
        let result := result ++ [u8 domain_len] in
        let result := result ++ map u8 (take (dot_index - index) (drop index hostname)) in
        encode_loop fuel hostname (dot_index + 1) result
    end.

Definition encode_hostname (hostname result : list Z) : M resolver (Z * list Z) :=
  match hostname with
  | [] => ret (-2, result)
  | _ =>
    let! '(good, result) := encode_loop (length hostname) hostname 0 [] in
    if negb good then ret (-1, result) else ret (0, result ++ [0])
  end.

Definition TYPE_A : Z := 1.

(** [dns_queries::create]. *)
Definition queries_create (hostname : list Z) (_type _class : Z) (q : dns_queries) : M resolver (Z * dns_queries) :=
  let! '(code, name) := encode_hostname hostname (qname q) in
  if negb (code =? 0) then ret (-1, mkqueries name (qtype q) (qclass q))
  else ret (0, mkqueries name (Some (u16 _type)) (Some (u16 _class))).

(** ** [dns_build_request] *)

(** [append_u16]: the two bytes of [htons(v)]; None is a byte that holds nothing. *)
Definition append_u16 (v : option Z) (request : list (option Z)) : list (option Z) :=
  request ++ match v with Some v => map Some (bytes16 (htons v)) | None => [None; None] end.

Definition dns_build_request (head : dns_header) (qry : dns_queries) : Z * list (option Z) :=
  let request := [] in
  let request := append_u16 (Some (id head)) request in
  let request := append_u16 (Some (flags head)) request in
  let request := append_u16 (Some (questions head)) request in
  let request := append_u16 (Some (answer_rrs head)) request in
  let request := append_u16 (Some (authority_rrs head)) request in
  let request := append_u16 (Some (additional_rrs head)) request in
  let request := request ++ map Some (qname qry) in
  let request := append_u16 (qtype qry) request in
  let request := append_u16 (qclass qry) request in
  (0, request).

(** ** [print_dns_a_records] *)

Definition byte_at (response : list Z) (i : Z) : M resolver Z :=
  if i <? 0 then throw OutOfBounds else of_option OutOfBounds (response !! Z.to_nat i).
(** [ntohs( *(uint16_t* )(response + i))] *)
Definition short_at (response : list Z) (i : Z) : M resolver Z :=
  let! b0 := byte_at response i in
  let! b1 := byte_at response (i + 1) in
  ret (ntohs (b0 + 256 * b1)).

(** [ntohl( *(uint32_t* )(response + i))] *)
Definition long_at (response : list Z) (i : Z) : M resolver Z :=
  let! hi := short_at response i in
  let! lo := short_at response (i + 2) in
  ret (65536 * hi + lo).

(** The loop that skips a QNAME. *)
Fixpoint skip_qname (fuel : nat) (response : list Z) (len pos : Z) : M resolver Z :=
  if negb (pos <? len) then ret pos
  else
    let! c := byte_at response pos in
    if c =? 0 then ret pos
    else
      match fuel with
      | O => throw OutOfFuel
      | S fuel => skip_qname fuel response len (pos + (c + 1))
      end.

Fixpoint skip_questions (n : nat) (response : list Z) (len pos : Z) : M resolver Z :=
  match n with
  | O => ret pos
  | S n =>
    let! pos := skip_qname (Z.to_nat len) response len pos in
    skip_questions n response len (pos + 1 + 4)
  end.

(** The loop over the answers. *)
Fixpoint print_answers (n : nat) (response : list Z) (len pos : Z) : M resolver unit :=
  match n with
  | O => ret tt
  | S n =>
    if len <? pos + 12 then put_line LbadAnswer
    else
      let pos := pos + 2 in
      let! type := short_at response pos in
      let pos := pos + 2 in
      let! clas := short_at response pos in
      let pos := pos + 2 in
      let! _ := long_at response pos in             (* the time to live, which is not used *)
      let pos := pos + 4 in
      let! rdlength := short_at response pos in
      let pos := pos + 2 in
      (if (type =? 1) && (clas =? 1) && (rdlength =? 4) then
         let! a := byte_at response pos in
         let! b := byte_at response (pos + 1) in
         let! c := byte_at response (pos + 2) in
         let! d := byte_at response (pos + 3) in
         put_line (LIPv4 [a; b; c; d])
       else ret tt);;;
      print_answers n response len (pos + rdlength)
  end.

Definition print_dns_a_records (response : list Z) (len : Z) : M resolver unit :=
  let! question_num := short_at response 4 in
  let! answer_ancount := short_at response 6 in
  let! pos := skip_questions (Z.to_nat question_num) response len 12 in
  print_answers (Z.to_nat answer_ancount) response len pos.

(** ** [dns_commit] *)

(** What the kernel gives to a call. *)
Record exchange : Type := mkexchange { x_socket : Z; x_connect : Z; x_rnd : Z; x_send : Z; x_recv : option (list Z) }.

Definition response_size : Z := 2048.
(** [recv] into the zeroed array: its count, and the array. *)
Definition receive (r : option (list Z)) : Z * list Z :=
  match r with
  | None => (-1, replicate (Z.to_nat response_size) 0)
  | Some d => let d := take (Z.to_nat response_size) d in
              (Z.of_nat (length d), d ++ replicate (Z.to_nat response_size - length d) 0)
  end.

Definition dns_commit (x : exchange) (hostname : list Z) : M resolver Z :=
  if x_socket x <? 0 then ret (-1)
  else
    modify (fun r => r<|sockets := x_socket x :: sockets r|>);;;
    if negb (x_connect x =? 0) then put_line LconnectFault;;; ret (-4)
    else
      let '(_, dh) := header_create (x_rnd x) 256 1 in
      let! '(_, dq) := queries_create hostname TYPE_A 1 new_queries in
      let '(_, request) := dns_build_request dh dq in
      modify (fun r => r<|requests := requests r ++ [request]|>);;;
      if x_send x <=? 0 then ret (-2)
      else
        let '(recv_num, response) := receive (x_recv x) in
        if recv_num <=? 0 then ret (-3)
        else print_dns_a_records response recv_num;;; ret 0.

(** [main], over its arguments. *)
Fixpoint main_loop (calls : list (exchange * list Z)) : M resolver unit :=
  match calls with
  | [] => ret tt
  | (x, host) :: calls => dns_commit x host;;; main_loop calls
  end.
Definition dns_main (calls : list (exchange * list Z)) : M resolver Z :=
  match calls with [] => ret (-1) | _ => main_loop calls;;; ret 0 end.
