(* ===== verification/DnsSyncProps.v ===== *)
(** * What the blocking DNS client sends and prints. *)
From S2P Require Import Prelude KcpBase KcpInv KcpDemo CLib Dns DnsSpec DnsClient DnsProps DnsSync.
From stdpp Require Import base list numbers strings gmap.
Open Scope Z_scope.
Open Scope c_scope.

(** ** [encode_hostname] *)

(** The labels of a name, separated by dots; the last one may be followed by a dot. *)
Fixpoint fields (s cur : list Z) : list (list Z) :=
  match s with
  | [] => match cur with [] => [] | _ => [rev cur] end
  | c :: s => if c =? 46 then rev cur :: fields s [] else fields s (c :: cur)
  end.

Definition good_label (l : list Z) : bool := (1 <=? Z.of_nat (length l)) && (Z.of_nat (length l) <? 63).

(** The labels before the first bad one. *)
Fixpoint good_prefix (ls : list (list Z)) : list (list Z) :=
  match ls with [] => [] | l :: ls => if good_label l then l :: good_prefix ls else [] end.

Lemma fields_step s : forall cur, s <> [] \/ cur <> [] ->
  fields s cur = (rev cur ++ take (find_dot s) s) :: fields (drop (find_dot s + 1) s) [].
Proof.
  induction s as [|c s IH]; intros cur H.
  - destruct cur; [destruct H; done|]. cbn [fields find_dot take drop Nat.add]. by rewrite app_nil_r.
  - cbn [fields find_dot]. destruct (c =? 46); [cbn; by rewrite app_nil_r|]. rewrite IH by (by right).
    cbn [rev take drop Nat.add]. by rewrite <- app_assoc.
Qed.

Lemma find_dot_le s : (find_dot s <= length s)%nat.
Proof. induction s as [|c s IH]; cbn; [lia|]. destruct (c =? 46); lia. Qed.

Definition byte (c : Z) : Prop := 0 <= c < 256.

Lemma map_u8_id l : Forall byte l -> map u8 l = l.
Proof. induction 1 as [|c l Hc _ IH]; [done|]. cbn. by rewrite u8_id, IH. Qed.

Definition after_encode (good : bool) (r : resolver) : resolver := if good then r else r<|lines := lines r ++ [LinvalidLength]|>.

Lemma encode_loop_spec fuel : forall hostname index result r, Forall byte hostname ->
  Z.of_nat (length hostname) < 2147483648 -> (length hostname - index <= fuel)%nat ->
  let ls := fields (drop index hostname) [] in
  encode_loop fuel hostname index result r
  = Ok (forallb good_label ls, result ++ concat (map encode_label (good_prefix ls))) (after_encode (forallb good_label ls) r).
Proof.
  induction fuel as [|fuel IH]; intros hostname index result r Hb Hlen Hf; cbv zeta.
  { assert (length hostname <= index)%nat by lia. cbn. rewrite bool_decide_false by lia. rewrite drop_ge by lia. cbn. by rewrite app_nil_r. }
  cbn [encode_loop]. case_bool_decide as Hi; cbn [negb].
  2:{ rewrite drop_ge by lia. cbn. by rewrite app_nil_r. }
  rewrite (fields_step (drop index hostname)).
  2:{ left. intros E. apply (f_equal length) in E. rewrite length_drop in E. cbn in E. lia. }
  unfold dot_from. set (rest := drop index hostname). set (k := find_dot rest).
  assert (k <= length rest)%nat as Hk by apply find_dot_le. assert (length rest = length hostname - index)%nat as Hrest by apply length_drop.
  assert (length (take k rest) = k) as Hl by (rewrite length_take; lia).
  cbn [rev app forallb good_prefix map]. unfold good_label at 1 3 4. rewrite Hl. rewrite s32_id by lia.
  replace (Z.of_nat (index + k) - Z.of_nat index) with (Z.of_nat k) by lia.
  replace ((63 <=? Z.of_nat k) || (Z.of_nat k <? 1)) with (negb ((1 <=? Z.of_nat k) && (Z.of_nat k <? 63))) by lia.
  destruct ((1 <=? Z.of_nat k) && (Z.of_nat k <? 63)) eqn:Eg; cbn [negb andb].
  2:{ cbn. by rewrite app_nil_r. }
  replace (index + k - index)%nat with k by lia. rewrite IH by (lia || done).
  replace (drop (index + k + 1) hostname) with (drop (k + 1) rest) by (unfold rest; rewrite drop_drop; f_equal; lia).
  f_equal. f_equal. rewrite map_u8_id by (apply Forall_take; by apply Forall_drop). rewrite u8_id by lia.
  cbn [map concat]. unfold encode_label at 2. rewrite Hl, <- !app_assoc. done.
Qed.

Lemma encode_hostname_run hostname result r : Forall byte hostname -> Z.of_nat (length hostname) < 2147483648 ->
  encode_hostname hostname result r =
    let ls := fields hostname [] in
    if bool_decide (hostname = []) then Ok (-2, result) r
    else if forallb good_label ls then Ok (0, encode_name ls) r
    else Ok (-1, concat (map encode_label (good_prefix ls))) (r<|lines := lines r ++ [LinvalidLength]|>).
Proof.
  intros Hb Hlen. unfold encode_hostname. destruct hostname as [|c s]; [done|]. cbv zeta. rewrite bool_decide_false by done.
  unfold bind. rewrite encode_loop_spec by (done || lia). rewrite drop_0, app_nil_l. unfold after_encode.
  set (ls := fields (c :: s) []). destruct (forallb good_label ls) eqn:E; cbn [negb]; [|done]. unfold ret, encode_name.
  f_equal. f_equal. f_equal. f_equal. f_equal. induction ls as [|l ls IH]; [done|]. cbn in E |- *. apply andb_prop in E as [-> E]. by rewrite IH.
Qed.

(** [encode_hostname] on every host name: a name without characters is refused; a name
    whose labels have between 1 and 62 characters, with or without a dot at the end, is
    encoded as its labels, each behind its length, and a zero; any other is refused with a
    message, and the labels before the bad one stay in the result. *)
Theorem encode_hostname_exact hostname result r : Forall byte hostname -> Z.of_nat (length hostname) < 2147483648 ->
  encode_hostname hostname result r =
    let ls := fields hostname [] in
    if bool_decide (hostname = []) then Ok (-2, result) r
    else if forallb good_label ls then Ok (0, encode_name ls) r
    else Ok (-1, concat (map encode_label (good_prefix ls))) (r<|lines := lines r ++ [LinvalidLength]|>).
Proof. apply encode_hostname_run. Qed.

(** ** The request *)

Definition sync_label (l : list Z) : Prop := label_ok l /\ (length l < 63)%nat.

Lemma fields_app l rest cur : Forall (fun c => c <> 46) l -> fields (l ++ rest) cur = fields rest (rev l ++ cur).
Proof.
  revert cur. induction l as [|c l IH]; intros cur H; [done|]. apply Forall_cons in H as [Hc H]. cbn [app fields rev].
  rewrite (proj2 (Z.eqb_neq c 46)) by done. rewrite IH by done. by rewrite <- (assoc_L (++)).
Qed.

Lemma label_no_dot l : label_ok l -> Forall (fun c => c <> 46) l.
Proof. intros [_ H]. eapply Forall_impl; [exact H|]. cbv beta. lia. Qed.

Lemma fields_join labels : Forall label_ok labels -> fields (join_dots labels) [] = labels.
Proof.
  induction labels as [|l [|l' labels] IH]; intros H; [done| |]; apply Forall_cons in H as [Hl H]; pose proof (label_no_dot _ Hl) as Hd.
  - cbn [join_dots]. rewrite <- (app_nil_r l) at 1. rewrite fields_app by done. cbn [fields]. rewrite app_nil_r.
    destruct (rev l) eqn:E; [|by rewrite <- E, rev_involutive]. apply (f_equal length) in E. rewrite length_rev in E. destruct Hl as [Hl _]. cbn in E. lia.
  - rewrite join_dots_cons, fields_app by done. cbn [fields]. change (46 =? 46) with true. cbv iota.
    rewrite app_nil_r, rev_involutive. f_equal. by apply IH.
Qed.

Lemma good_labels labels : Forall sync_label labels -> forallb good_label labels = true.
Proof. induction 1 as [|l ls [[Hl _] Hs] _ IH]; [done|]. cbn. rewrite IH. unfold good_label. lia. Qed.

Lemma join_bytes labels : Forall label_ok labels -> Forall byte (join_dots labels).
Proof.
  unfold byte. induction labels as [|l [|l' labels] IH]; intros H; [constructor | |]; apply Forall_cons in H as [[_ Hc] H];
    assert (Forall (fun c => 0 <= c < 256) l) by (eapply Forall_impl; [exact Hc|]; cbv beta; lia); [done|].
  rewrite join_dots_cons. apply Forall_app. split; [done|]. constructor; [lia | by apply IH].
Qed.

Lemma join_nonempty l labels : label_ok l -> join_dots (l :: labels) <> [].
Proof. intros [Hl _] E. destruct l; [cbn in Hl; lia|]. by destruct labels. Qed.

Lemma queries_create_ok labels q r : Forall sync_label labels -> labels <> [] -> (length (encode_name labels) <= 1008)%nat ->
  queries_create (join_dots labels) TYPE_A 1 q r = Ok (0, mkqueries (encode_name labels) (Some 1) (Some 1)) r.
Proof.
  intros H Hne Hlen. assert (Forall label_ok labels) as Hok by (eapply Forall_impl; [exact H|]; by intros l []).
  pose proof (length_join_dots labels Hne). unfold queries_create, bind. rewrite encode_hostname_run by (by apply join_bytes || lia).
  rewrite fields_join by done. cbv zeta. rewrite bool_decide_false; [by rewrite good_labels|]. destruct labels; [done|]. apply join_nonempty. by apply Forall_cons in Hok as [].
Qed.

Lemma bytes16_htons x : bytes16 (htons x) = [(x / 256) mod 256; x mod 256].
Proof. unfold bytes16, htons. f_equal; [|f_equal]; mod_lia. Qed.

Lemma bytes16_small x : 0 <= x < 256 -> bytes16 (htons x) = [0; x].
Proof. intros H. rewrite bytes16_htons. f_equal; [|f_equal]; mod_lia. Qed.

(** The bytes of the request. *)
Lemma sync_request rnd labels : 0 <= rnd < 65536 ->
  dns_build_request (header_create rnd 256 1).2 (mkqueries (encode_name labels) (Some 1) (Some 1))
  = (0, map Some (query_bytes (htons rnd) labels)).
Proof.
  intros Hr. assert (u16 rnd = rnd) as E1 by (by apply u16_id). assert (u16 (htons rnd) = htons rnd) as E2 by (apply u16_id; unfold htons; mod_lia).
  unfold dns_build_request, append_u16, header_create, query_bytes. cbn [snd id flags questions answer_rrs authority_rrs additional_rrs qname qtype qclass].
  rewrite E1, E2, !map_app. cbn [app]. f_equal. rewrite <- !app_assoc. done.
Qed.

(** A query is its identifier, low byte first, and bytes that do not depend on it. *)
Lemma query_bytes_split rnd labels :
  query_bytes rnd labels = [rnd mod 256; (rnd / 256) mod 256] ++ drop 2 (query_bytes 0 labels).
Proof.
  unfold query_bytes, bytes16. cbn [app drop].
  assert (u16 rnd mod 256 = rnd mod 256 /\ (u16 rnd / 256) mod 256 = (rnd / 256) mod 256) as [-> ->]; [|done].
  unfold u16. split; Z.div_mod_to_equations; lia.
Qed.

(** C17: the two DNS clients of the repository, this one and that of
    async_dns_client_noblock.c, send the same request for a host name, byte for byte, but
    for the identifier: for names of one or more labels of 1 to 62 characters that fit in
    the request.  This client puts the number it has drawn in network order and the other
    one in host order, so the requests agree on it when one draw is the other with its
    bytes swapped, and not when the draws are equal (unless both bytes are). *)
Theorem dns_clients_agree (alloc : Allocator) draw rnd labels q r w :
  alloc_total -> 0 <= rnd < 65536 -> Forall sync_label labels -> labels <> [] -> (length (encode_name labels) <= 1008)%nat ->
  exists q' body, queries_create (join_dots labels) TYPE_A 1 q r = Ok (0, q') r /\
    dns_build_request (header_create rnd 256 1).2 q' = (0, map Some ([rnd / 256; rnd mod 256] ++ body)) /\
    wp (dns_query draw (join_dots labels)) (fun sent _ =>
      take (Z.to_nat sent.1) sent.2 = map Some ([draw mod 256; (draw / 256) mod 256] ++ body) /\
      (take (Z.to_nat sent.1) sent.2 = (dns_build_request (header_create rnd 256 1).2 q').2 <-> u16 draw = htons rnd)) w.
Proof.
  intros Hal Hr H Hne Hlen. assert (Forall label_ok labels) as Hok by (eapply Forall_impl; [exact H|]; by intros l []).
  exists (mkqueries (encode_name labels) (Some 1) (Some 1)), (drop 2 (query_bytes 0 labels)).
  rewrite (sync_request rnd labels Hr), (query_bytes_split (htons rnd)).
  replace (htons rnd mod 256) with (rnd / 256) by (unfold htons; mod_lia).
  replace ((htons rnd / 256) mod 256) with (rnd mod 256) by (unfold htons; mod_lia).
  splits; [by apply queries_create_ok | done |].
  eapply wp_mono; [by apply (query_spec Hal)|]. cbv beta. intros sent w' [-> _]. cbn [fst snd].
  rewrite Nat2Z.id, take_app_length' by (by rewrite length_map). rewrite (query_bytes_split draw). split; [done|].
  cbn [map app]. set (body := map Some _). unfold htons, u16. split.
  - intros [= H1 H2]. Z.div_mod_to_equations; lia.
  - intros E. assert (draw mod 256 = rnd / 256 /\ (draw / 256) mod 256 = rnd mod 256) as [-> ->]; [|done].
    split; Z.div_mod_to_equations; lia.
Qed.

(** ** Any response *)

Lemma wp_byte_at resp i (Q : Z -> resolver -> Prop) r : 0 <= i < Z.of_nat (length resp) -> Forall byte resp ->
  (forall c, resp !! Z.to_nat i = Some c -> byte c -> Q c r) -> wp (byte_at resp i) Q r.
Proof.
  intros Hi Hb HQ. unfold byte_at. rewrite (proj2 (Z.ltb_ge i 0)) by lia.
  destruct (lookup_lt_is_Some_2 resp (Z.to_nat i)) as [c Hc]; [lia|]. apply (wp_of_option _ _ _ _ c Hc), HQ; [done|].
  by eapply Forall_lookup_1.
Qed.

Lemma wp_short_at resp i (Q : Z -> resolver -> Prop) r : 0 <= i -> i + 1 < Z.of_nat (length resp) -> Forall byte resp ->
  (forall c, 0 <= c < 65536 -> Q c r) -> wp (short_at resp i) Q r.
Proof.
  intros Hi Hi2 Hb HQ. unfold short_at. wp_step. apply wp_byte_at; [lia | done |]. intros b0 _ H0. wp_step.
  apply wp_byte_at; [lia | done |]. intros b1 _ H1. wp_step. apply HQ. unfold byte in *. rewrite ntohs_bytes by lia. lia.
Qed.

Lemma wp_long_at resp i (Q : Z -> resolver -> Prop) r : 0 <= i -> i + 3 < Z.of_nat (length resp) -> Forall byte resp ->
  (forall c, Q c r) -> wp (long_at resp i) Q r.
Proof.
  intros Hi Hi2 Hb HQ. unfold long_at. wp_step. apply wp_short_at; [lia | lia | done |]. intros hi _. wp_step.
  apply wp_short_at; [lia | lia | done |]. intros lo _. wp_step. apply HQ.
Qed.

Section Response.
Context (resp : list Z) (len : Z) (Hb : Forall byte resp).

Lemma skip_qname_safe : len <= Z.of_nat (length resp) -> forall fuel pos r,
  0 <= pos -> len - pos <= Z.of_nat fuel -> wp (skip_qname fuel resp len pos) (fun p r' => pos <= p /\ r' = r) r.
Proof.
  intros Hlen fuel. induction fuel as [|fuel IH]; intros pos r Hp Hf; cbn [skip_qname]; (destruct (pos <? len) eqn:E; cbn [negb]; [|wp_step; split; [lia | done]]).
  - lia.
  - wp_step. apply wp_byte_at; [lia | done |]. intros c _ Hc. destruct (c =? 0) eqn:Ec; [wp_step; split; [lia | done]|].
    unfold byte in Hc. eapply wp_mono; [apply (IH (pos + (c + 1))); lia|]. cbv beta. intros p r' [? ->]. split; [lia | done].
Qed.

Lemma skip_questions_safe n : len <= Z.of_nat (length resp) -> forall pos r,
  0 <= pos -> wp (skip_questions n resp len pos) (fun p r' => pos <= p /\ r' = r) r.
Proof.
  intros Hlen. induction n as [|n IH]; intros pos r Hp; cbn [skip_questions]; wp_step; [split; [lia | done]|].
  eapply wp_mono; [apply skip_qname_safe; lia|]. cbv beta. intros p r' [? ->].
  eapply wp_mono; [apply (IH (p + 1 + 4)); lia|]. cbv beta. intros p' r' [? ->]. split; [lia | done].
Qed.

(** What the printing leaves alone. *)
Definition same_net (r r' : resolver) : Prop := sockets r' = sockets r /\ requests r' = requests r.

Lemma print_answers_safe n : len + 3 < Z.of_nat (length resp) -> forall pos r,
  0 <= pos -> wp (print_answers n resp len pos) (fun _ r' => same_net r r') r.
Proof.
  intros Hlen. induction n as [|n IH]; intros pos r Hp; cbn [print_answers]; [by wp_step|].
  destruct (len <? pos + 12) eqn:E; [unfold put_line; by wp_step|].
  wp_step. apply wp_short_at; [lia | lia | done |]. intros type _.
  wp_step. apply wp_short_at; [lia | lia | done |]. intros clas _.
  wp_step. apply wp_long_at; [lia | lia | done |]. intros _.
  wp_step. apply wp_short_at; [lia | lia | done |]. intros rdlength Hrd. wp_step.
  match goal with |- wp (if ?b then _ else _) _ _ => destruct b end; [|wp_step; apply IH; lia].
  wp_step. apply wp_byte_at; [lia | done |]. intros b1 _ _. wp_step. apply wp_byte_at; [lia | done |]. intros b2 _ _.
  wp_step. apply wp_byte_at; [lia | done |]. intros b3 _ _. wp_step. apply wp_byte_at; [lia | done |]. intros b4 _ _.
  unfold put_line. wp_step. eapply wp_mono; [apply IH; lia|]. cbv beta. intros _ r' [E1 E2]. split; [exact E1 | exact E2].
Qed.

End Response.

Lemma receive_length d : length (receive d).2 = 2048%nat.
Proof.
  destruct d as [d|]; [|done]. cbn [receive snd]. unfold response_size.
  rewrite length_app, length_replicate, length_take. lia.
Qed.

Lemma receive_bytes d : Forall byte (default [] d) -> Forall byte (receive d).2.
Proof.
  assert (forall n, Forall byte (replicate n 0)) as Hz by (intros n; apply Forall_replicate; unfold byte; lia).
  destruct d as [d|]; intros H; [|apply Hz]. cbn [receive snd]. apply Forall_app. split; [by apply Forall_take | apply Hz].
Qed.

Lemma queries_create_total hostname q r : Forall byte hostname -> Z.of_nat (length hostname) < 2147483648 ->
  wp (queries_create hostname TYPE_A 1 q) (fun _ r' => same_net r r') r.
Proof.
  intros Hb Hl. unfold queries_create. wp_step. unfold wp. rewrite encode_hostname_run by done. cbv zeta.
  case_bool_decide; [by split|]. destruct (forallb good_label _); by split.
Qed.

(** Whatever the host name and whatever comes back, up to 2044 bytes of it, the call
    ends, reads nothing outside its array, and its result is one of its five codes; the
    socket it opened stays open, on every way out. *)
Theorem dns_sync_total x hostname r : Forall byte hostname -> Z.of_nat (length hostname) < 2147483648 ->
  Forall byte (default [] (x_recv x)) -> Z.of_nat (length (default [] (x_recv x))) <= 2044 ->
  wp (dns_commit x hostname) (fun code r' => -4 <= code <= 0 /\
    sockets r' = if x_socket x <? 0 then sockets r else x_socket x :: sockets r) r.
Proof.
  intros Hb Hl Hrb Hrl. unfold dns_commit. destruct (x_socket x <? 0); [wp_step; split; [lia | done]|].
  wp_step. wp_step. destruct (negb (x_connect x =? 0)); [unfold put_line; wp_step; wp_step; wp_step; split; [lia | done]|].
  destruct (header_create (x_rnd x) 256 1) as [_ dh]. wp_step. eapply wp_mono; [by apply queries_create_total|]. cbv beta. intros [_ dq] r1 [Es _].
  destruct (dns_build_request dh dq) as [_ request]. wp_step. wp_step. destruct (x_send x <=? 0); [wp_step; split; [lia | exact Es]|].
  pose proof (receive_length (x_recv x)) as Hlen. pose proof (receive_bytes (x_recv x) Hrb) as Hby.
  assert ((receive (x_recv x)).1 <= 2044) as Hn.
  { destruct (x_recv x) as [d|]; [|done]. cbn in Hrl |- *. rewrite length_take. lia. }
  destruct (receive (x_recv x)) as [recv_num response]. cbn [fst snd] in *. destruct (recv_num <=? 0); [wp_step; split; [lia | exact Es]|].
  wp_step. unfold print_dns_a_records. wp_step. apply wp_short_at; [lia | lia | done |]. intros q _.
  wp_step. apply wp_short_at; [lia | lia | done |]. intros an _.
  wp_step. eapply wp_mono; [apply skip_questions_safe; done || lia|]. cbv beta. intros p r2 [Hp ->].
  eapply wp_mono; [apply print_answers_safe; done || lia|]. cbv beta. intros _ r3 [E3 _]. wp_step. split; [lia|].
  rewrite E3. exact Es.
Qed.

(** ** A well-formed response *)

(** A record of the answer section whose owner is the name of the question. *)
Record rr : Type := mkrr { rr_type : Z; rr_class : Z; rr_ttl : list Z; rr_data : list Z }.
Definition be16 (x : Z) : list Z := [x / 256; x mod 256].
Definition encode_rr (a : rr) : list Z :=
  [192; 12] ++ be16 (rr_type a) ++ be16 (rr_class a) ++ rr_ttl a ++ be16 (Z.of_nat (length (rr_data a))) ++ rr_data a.
Definition encode_reply (labels : list (list Z)) (answers : list rr) : list Z :=
  response_head labels (Z.of_nat (length answers)) ++ concat (map encode_rr answers).

Definition rr_ok (a : rr) : Prop :=
  0 <= rr_type a < 65536 /\ 0 <= rr_class a < 65536 /\ length (rr_ttl a) = 4%nat /\ Forall byte (rr_ttl a) /\
  Z.of_nat (length (rr_data a)) < 65536 /\ Forall byte (rr_data a).

(** The address records. *)
Definition rr_line (a : rr) : option line :=
  if (rr_type a =? 1) && (rr_class a =? 1) && (Z.of_nat (length (rr_data a)) =? 4) then Some (LIPv4 (rr_data a)) else None.

Lemma byte_at_app a c b r i : i = Z.of_nat (length a) -> byte_at (a ++ c :: b) i r = Ok c r.
Proof.
  intros ->. unfold byte_at. rewrite (proj2 (Z.ltb_ge _ 0)) by lia. rewrite Nat2Z.id. by rewrite list_lookup_middle.
Qed.

Lemma short_at_app a x b r i : 0 <= x < 65536 -> i = Z.of_nat (length a) -> short_at (a ++ be16 x ++ b) i r = Ok x r.
Proof.
  intros Hx ->. unfold short_at, bind, be16. cbn [app]. rewrite byte_at_app by done.
  change (x / 256 :: x mod 256 :: b) with ([x / 256] ++ x mod 256 :: b). rewrite (assoc_L (++)).
  rewrite byte_at_app by (rewrite length_app; cbn; lia). unfold ret. f_equal. rewrite ntohs_bytes; mod_lia.
Qed.

Lemma long_at_app a t b r i : length t = 4%nat -> Forall byte t -> i = Z.of_nat (length a) ->
  exists v, long_at (a ++ t ++ b) i r = Ok v r.
Proof.
  intros Ht Hb ->. destruct t as [|t0 [|t1 [|t2 [|t3 [|]]]]]; try done. unfold long_at, short_at, bind. cbn [app].
  rewrite byte_at_app by done.
  rewrite (app_assoc a [t0] (t1 :: _) : a ++ t0 :: t1 :: t2 :: t3 :: b = (a ++ [t0]) ++ t1 :: t2 :: t3 :: b).
  rewrite byte_at_app by (rewrite length_app; cbn; lia). unfold ret.
  rewrite (app_assoc (a ++ [t0]) [t1] (t2 :: _) : (a ++ [t0]) ++ t1 :: t2 :: t3 :: b = ((a ++ [t0]) ++ [t1]) ++ t2 :: t3 :: b).
  rewrite byte_at_app by (rewrite !length_app; cbn; lia).
  rewrite (app_assoc ((a ++ [t0]) ++ [t1]) [t2] (t3 :: _) : ((a ++ [t0]) ++ [t1]) ++ t2 :: t3 :: b = (((a ++ [t0]) ++ [t1]) ++ [t2]) ++ t3 :: b).
  rewrite byte_at_app by (rewrite !length_app; cbn; lia). by eexists.
Qed.

(** The four bytes of an address. *)
Lemma address_at a d b i r : length d = 4%nat -> i = Z.of_nat (length a) ->
  (let! b1 := byte_at (a ++ d ++ b) i in let! b2 := byte_at (a ++ d ++ b) (i + 1) in
   let! b3 := byte_at (a ++ d ++ b) (i + 2) in let! b4 := byte_at (a ++ d ++ b) (i + 3) in
   put_line (LIPv4 [b1; b2; b3; b4])) r = Ok tt (r<|lines := lines r ++ [LIPv4 d]|>).
Proof.
  intros Hd ->. destruct d as [|d0 [|d1 [|d2 [|d3 [|]]]]]; try done. cbn [app].
  assert (forall k c, [d0; d1; d2; d3] !! k = Some c -> forall r, byte_at (a ++ d0 :: d1 :: d2 :: d3 :: b) (Z.of_nat (length a) + Z.of_nat k) r = Ok c r) as H.
  { intros k c Hk r'. unfold byte_at. rewrite (proj2 (Z.ltb_ge _ 0)) by lia. rewrite lookup_app_r by lia.
    replace (Z.to_nat (Z.of_nat (length a) + Z.of_nat k) - length a)%nat with k by lia.
    change (d0 :: d1 :: d2 :: d3 :: b) with ([d0; d1; d2; d3] ++ b). by rewrite (lookup_app_l_Some _ _ _ _ Hk). }
  unfold bind. pose proof (H 0%nat d0 eq_refl) as H0. rewrite Z.add_0_r in H0. rewrite H0.
  by rewrite (H 1%nat d1 eq_refl), (H 2%nat d2 eq_refl), (H 3%nat d3 eq_refl).
Qed.

(** One record. *)
Lemma print_one a n pre post len r : rr_ok a -> Z.of_nat (length (pre ++ encode_rr a)) <= len ->
  print_answers (S n) (pre ++ encode_rr a ++ post) len (Z.of_nat (length pre)) r
  = print_answers n (pre ++ encode_rr a ++ post) len (Z.of_nat (length (pre ++ encode_rr a)))
      (r<|lines := lines r ++ option_list (rr_line a)|>).
Proof.
  intros (Ht & Hc & Httl & Hb & Hd & _) Hlen. cbn [print_answers].
  assert (length (encode_rr a) = 12 + length (rr_data a))%nat as Hea by (unfold encode_rr; rewrite !length_app, Httl; cbn; lia).
  rewrite length_app in Hlen. rewrite (proj2 (Z.ltb_ge _ _)) by lia.
  set (p1 := pre ++ [192; 12]). set (p2 := p1 ++ be16 (rr_type a)). set (p3 := p2 ++ be16 (rr_class a)).
  set (p4 := p3 ++ rr_ttl a). set (p5 := p4 ++ be16 (Z.of_nat (length (rr_data a)))).
  assert (Z.of_nat (length pre) + 2 = Z.of_nat (length p1)) as -> by (unfold p1; rewrite length_app; cbn; lia).
  assert (Z.of_nat (length p1) + 2 = Z.of_nat (length p2)) as -> by (unfold p2; rewrite length_app; cbn; lia).
  assert (Z.of_nat (length p2) + 2 = Z.of_nat (length p3)) as -> by (unfold p3; rewrite length_app; cbn; lia).
  assert (Z.of_nat (length p3) + 4 = Z.of_nat (length p4)) as -> by (unfold p4; rewrite length_app, Httl; cbn; lia).
  assert (Z.of_nat (length p4) + 2 = Z.of_nat (length p5)) as -> by (unfold p5; rewrite length_app; cbn; lia).
  assert (pre ++ encode_rr a = p5 ++ rr_data a) as Ep by (unfold p5, p4, p3, p2, p1, encode_rr; by rewrite <- !(assoc_L (++))).
  set (mem := pre ++ encode_rr a ++ post).
  assert (mem = p5 ++ rr_data a ++ post) as M5 by (unfold mem; rewrite (assoc_L (++)), Ep; by rewrite <- (assoc_L (++))).
  assert (forall r, short_at mem (Z.of_nat (length p4)) r = Ok (Z.of_nat (length (rr_data a))) r) as R4
    by (intros; rewrite M5; unfold p5; rewrite <- (assoc_L (++) p4); apply short_at_app; [lia | done]).
  assert (forall r, exists v, long_at mem (Z.of_nat (length p3)) r = Ok v r) as R3
    by (intros; rewrite M5; unfold p5, p4; rewrite <- (assoc_L (++) (p3 ++ _)), <- (assoc_L (++) p3); by apply long_at_app).
  assert (forall r, short_at mem (Z.of_nat (length p2)) r = Ok (rr_class a) r) as R2
    by (intros; rewrite M5; unfold p5, p4, p3; rewrite <- !(assoc_L (++) p2), <- !(assoc_L (++) (be16 (rr_class a))); by apply short_at_app).
  assert (forall r, short_at mem (Z.of_nat (length p1)) r = Ok (rr_type a) r) as R1
    by (intros; rewrite M5; unfold p5, p4, p3, p2; rewrite <- !(assoc_L (++) p1), <- !(assoc_L (++) (be16 (rr_type a))); by apply short_at_app).
  unfold bind at 1. rewrite R1. unfold bind at 1. rewrite R2. unfold bind at 1. destruct (R3 r) as [v ->]. unfold bind at 1. rewrite R4.
  assert (Z.of_nat (length p5) + Z.of_nat (length (rr_data a)) = Z.of_nat (length (pre ++ encode_rr a))) as -> by (rewrite Ep, length_app; lia).
  unfold rr_line. destruct ((rr_type a =? 1) && (rr_class a =? 1) && (Z.of_nat (length (rr_data a)) =? 4)) eqn:E; cbn [option_list].
  - pose proof (address_at p5 (rr_data a) post (Z.of_nat (length p5)) r ltac:(lia) eq_refl) as HA. rewrite <- M5 in HA.
    unfold bind at 1. by rewrite HA.
  - rewrite app_nil_r. by destruct r.
Qed.

Lemma print_answers_spec answers : forall pre tail r, Forall rr_ok answers ->
  print_answers (length answers) (pre ++ concat (map encode_rr answers) ++ tail)
    (Z.of_nat (length (pre ++ concat (map encode_rr answers)))) (Z.of_nat (length pre)) r
  = Ok tt (r<|lines := lines r ++ omap rr_line answers|>).
Proof.
  induction answers as [|a answers IH]; intros pre tail r H.
  { cbn. unfold ret. rewrite app_nil_r. by destruct r. }
  apply Forall_cons in H as [Ha H]. cbn [length map concat].
  rewrite <- (assoc_L (++) (encode_rr a)), print_one by (done || rewrite !length_app; lia).
  rewrite (assoc_L (++) pre (encode_rr a)), (assoc_L (++) pre (encode_rr a)), IH by done.
  cbn [lines upd upd_lines omap list_omap]. destruct (rr_line a); cbn [option_list]; by rewrite <- (assoc_L (++)).
Qed.

Lemma skip_qname_spec labels : forall fuel a b len r, Forall label_ok labels -> (length labels <= fuel)%nat ->
  Z.of_nat (length (a ++ encode_name labels)) <= len ->
  skip_qname fuel (a ++ encode_name labels ++ b) len (Z.of_nat (length a)) r
  = Ok (Z.of_nat (length (a ++ encode_name labels)) - 1) r.
Proof.
  induction labels as [|l labels IH]; intros fuel a b len r H Hf Hlen.
  - rewrite length_app in Hlen |- *. unfold encode_name in *. cbn [map concat app length] in *.
    destruct fuel; cbn [skip_qname]; rewrite (proj2 (Z.ltb_lt _ len)) by lia; cbn [negb]; unfold bind;
      rewrite byte_at_app by done; cbn [Z.eqb]; unfold ret; f_equal; lia.
  - apply Forall_cons in H as [[Hl _] H]. destruct fuel as [|fuel]; [cbn in Hf; lia|]. rewrite encode_name_cons in Hlen |- *. unfold encode_label in *.
    rewrite length_app in Hlen. cbn [app length] in Hlen. rewrite length_app in Hlen. cbn [skip_qname].
    rewrite (proj2 (Z.ltb_lt _ len)) by lia. cbn [negb app]. unfold bind. rewrite byte_at_app by done.
    rewrite (proj2 (Z.eqb_neq _ 0)) by lia.
    assert (forall t, a ++ Z.of_nat (length l) :: (l ++ encode_name labels) ++ t = (a ++ Z.of_nat (length l) :: l) ++ encode_name labels ++ t) as E
      by (intros t; rewrite <- !(assoc_L (++)); done).
    rewrite E. replace (Z.of_nat (length a) + (Z.of_nat (length l) + 1)) with (Z.of_nat (length (a ++ Z.of_nat (length l) :: l)))
      by (rewrite length_app; cbn [length]; lia).
    rewrite IH; [| done | cbn in Hf; lia | rewrite !length_app; cbn [length]; lia]. f_equal. rewrite !length_app. cbn [length]. rewrite !length_app. lia.
Qed.

Lemma labels_le_name labels : (length labels < length (encode_name labels))%nat.
Proof. induction labels as [|l ls IH]; [cbn; lia|]. rewrite encode_name_cons, length_app. cbn [encode_label length]. lia. Qed.

(** The printing of a well-formed response. *)
Lemma print_reply labels answers pad r : Forall label_ok labels -> Forall rr_ok answers -> Z.of_nat (length answers) < 65536 ->
  let reply := encode_reply labels answers in
  print_dns_a_records (reply ++ pad) (Z.of_nat (length reply)) r = Ok tt (r<|lines := lines r ++ omap rr_line answers|>).
Proof.
  intros Hl Ha Hn. cbv zeta. unfold print_dns_a_records, encode_reply, response_head.
  set (n := Z.of_nat (length answers)). set (recs := concat (map encode_rr answers)).
  set (head := [18; 52; 129; 128; 0; 1; n / 256; n mod 256; 0; 0; 0; 0]).
  assert (((head ++ encode_name labels ++ [0; 1; 0; 1]) ++ recs) ++ pad = head ++ encode_name labels ++ [0; 1; 0; 1] ++ recs ++ pad) as M1
    by (rewrite <- !(assoc_L (++)); done).
  assert (((head ++ encode_name labels ++ [0; 1; 0; 1]) ++ recs) ++ pad = (head ++ encode_name labels ++ [0; 1; 0; 1]) ++ recs ++ pad) as M2
    by (by rewrite <- (assoc_L (++) (head ++ _))).
  set (mem := ((head ++ encode_name labels ++ [0; 1; 0; 1]) ++ recs) ++ pad) in *.
  assert (short_at mem 4 r = Ok 1 r) as R4
    by (rewrite M1; exact (short_at_app [18; 52; 129; 128] 1 (be16 n ++ [0; 0; 0; 0] ++ encode_name labels ++ [0; 1; 0; 1] ++ recs ++ pad) r 4 ltac:(lia) eq_refl)).
  assert (short_at mem 6 r = Ok n r) as R6
    by (rewrite M1; exact (short_at_app [18; 52; 129; 128; 0; 1] n ([0; 0; 0; 0] ++ encode_name labels ++ [0; 1; 0; 1] ++ recs ++ pad) r 6 ltac:(lia) eq_refl)).
  unfold bind. rewrite R4, R6. change (Z.to_nat 1) with 1%nat. cbn [skip_questions]. unfold bind, ret.
  assert (Z.of_nat (length (head ++ encode_name labels ++ [0; 1; 0; 1])) = Z.of_nat (length (head ++ encode_name labels)) + 4) as EL
    by (rewrite !length_app; cbn; lia).
  pose proof (labels_le_name labels) as Hn1. rewrite M1 at 1. change 12 with (Z.of_nat (length head)).
  rewrite skip_qname_spec; [| done | rewrite Nat2Z.id, !length_app; lia | rewrite !length_app; lia].
  replace (Z.of_nat (length (head ++ encode_name labels)) - 1 + 1 + 4) with (Z.of_nat (length (head ++ encode_name labels ++ [0; 1; 0; 1]))) by lia.
  subst n. rewrite Nat2Z.id, M2. by apply print_answers_spec.
Qed.

(** An exchange with a server that answers well: the request is the query for the name,
    and what is printed is the address records of the answer, in their order, whatever other
    records stand between them; the result is 0, and the socket stays open. *)
Theorem dns_sync_exchange x labels answers r :
  0 <= x_socket x -> x_connect x = 0 -> 0 <= x_rnd x < 65536 -> 0 < x_send x ->
  Forall sync_label labels -> labels <> [] -> (length (encode_name labels) <= 1008)%nat ->
  Forall rr_ok answers -> Z.of_nat (length answers) < 65536 ->
  x_recv x = Some (encode_reply labels answers) -> Z.of_nat (length (encode_reply labels answers)) <= response_size ->
  dns_commit x (join_dots labels) r =
    Ok 0 (mkresolver (x_socket x :: sockets r) (requests r ++ [map Some (query_bytes (htons (x_rnd x)) labels)])
            (lines r ++ omap rr_line answers)).
Proof.
  intros Hs Hc Hr Hsend H Hne Hlen Ha Hn Hx Hrl.
  assert (Forall label_ok labels) as Hok by (eapply Forall_impl; [exact H|]; by intros l []).
  unfold dns_commit. rewrite (proj2 (Z.ltb_ge _ 0)) by done. rewrite Hc. cbn [Z.eqb negb]. unfold modify, bind.
  destruct (header_create (x_rnd x) 256 1) as [? dh] eqn:Eh. rewrite queries_create_ok by done.
  replace dh with (header_create (x_rnd x) 256 1).2 by (by rewrite Eh). rewrite sync_request by done.
  rewrite (proj2 (Z.leb_gt (x_send x) 0)) by done. rewrite Hx. unfold receive.
  rewrite (take_ge (encode_reply _ _)) by lia.
  assert (0 < Z.of_nat (length (encode_reply labels answers))) as Hpos by (unfold encode_reply, response_head; rewrite !length_app; cbn; lia).
  rewrite (proj2 (Z.leb_gt _ 0)) by done. rewrite print_reply by done. done.
Qed.

(** ** Examples *)

Definition resolver0 : resolver := mkresolver [] [] [].
Definition demo_rrs : list rr :=
  [mkrr 5 1 [0; 0; 1; 44] [192; 43]; mkrr 1 1 [0; 0; 1; 44] [110; 242; 68; 3]; mkrr 1 1 [0; 0; 1; 44] [110; 242; 68; 4]].
Definition demo_exchange : exchange := mkexchange 3 0 4660 31 (Some (encode_reply demo_name demo_rrs)).

Definition all_bytes (l : list Z) : bool := forallb (fun c => (0 <=? c) && (c <? 256)) l.
Lemma all_bytes_ok l : all_bytes l = true -> Forall byte l.
Proof.
  intros H. apply Forall_forall. intros c Hc%list_elem_of_In. unfold all_bytes in H. rewrite forallb_forall in H. apply H in Hc. unfold byte. lia.
Qed.

Lemma demo_sync_labels : Forall sync_label demo_name.
Proof. pose proof demo_name_ok as H. repeat (apply Forall_cons in H as [? H]; constructor; [split; [done | vm_compute; lia]|]). constructor. Qed.

Lemma demo_rrs_ok : Forall rr_ok demo_rrs.
Proof. repeat (constructor; [unfold rr_ok; cbn; splits; try lia; by apply all_bytes_ok|]). constructor. Qed.

(** A label of 63 characters, which a host name may have, is refused. *)
Lemma encode_hostname_exact_witness :
  encode_hostname (text "www." ++ replicate 63 97) [] resolver0
  = Ok (-1, 3 :: text "www") (resolver0<|lines := [LinvalidLength]|>).
Proof.
  etransitivity; [apply (encode_hostname_exact (text "www." ++ replicate 63 97) [] resolver0); [by apply all_bytes_ok | reflexivity]|].
  vm_compute. reflexivity.
Defined.

Lemma dns_clients_agree_witness :
  exists q' body, queries_create (join_dots demo_name) TYPE_A 1 new_queries resolver0 = Ok (0, q') resolver0 /\
    dns_build_request (header_create 4660 256 1).2 q' = (0, map Some ([4660 / 256; 4660 mod 256] ++ body)) /\
    wp (dns_query 13330 (join_dots demo_name)) (fun sent _ =>
      take (Z.to_nat sent.1) sent.2 = map Some ([13330 mod 256; (13330 / 256) mod 256] ++ body) /\
      (take (Z.to_nat sent.1) sent.2 = (dns_build_request (header_create 4660 256 1).2 q').2 <-> u16 13330 = htons 4660)) world0.
Proof.
  apply (dns_clients_agree demo_alloc 13330 4660 demo_name new_queries resolver0 world0);
    [exact demo_alloc_ok | lia | exact demo_sync_labels | discriminate | vm_compute; lia].
Defined.

Lemma dns_sync_total_witness :
  wp (dns_commit (mkexchange 3 0 1 20 (Some (replicate 2044 255))) (text "a..b")) (fun code r' => -4 <= code <= 0 /\
    sockets r' = if 3 <? 0 then [] else [3]) resolver0.
Proof.
  apply (dns_sync_total (mkexchange 3 0 1 20 (Some (replicate 2044 255))) (text "a..b") resolver0);
    [by apply all_bytes_ok | reflexivity | apply all_bytes_ok; vm_compute; reflexivity | vm_compute; discriminate].
Defined.

Lemma dns_sync_exchange_witness :
  dns_commit demo_exchange (join_dots demo_name) resolver0 =
    Ok 0 (mkresolver [3] [map Some (query_bytes (htons 4660) demo_name)] [LIPv4 [110; 242; 68; 3]; LIPv4 [110; 242; 68; 4]]).
Proof.
  apply (dns_sync_exchange demo_exchange demo_name demo_rrs resolver0);
    [vm_compute; discriminate | reflexivity | vm_compute; split; [discriminate | reflexivity] | reflexivity | exact demo_sync_labels
    | discriminate | vm_compute; lia | exact demo_rrs_ok | reflexivity | reflexivity | vm_compute; discriminate].
Defined.

(** With 2048 bytes of response the address of the last record can lie behind the array: the
    guard lets a record of 12 bytes through, and the address is read after them. *)
Definition last_record : list Z :=
  [18; 52; 129; 128; 0; 0; 0; 2; 0; 0; 0; 0] ++ [192; 12; 0; 16; 0; 1; 0; 0; 0; 0; 7; 220] ++ replicate 2012 0 ++ [192; 12; 0; 1; 0; 1; 0; 0; 0; 0; 0; 4].

Theorem dns_sync_overread : length last_record = 2048%nat /\
  dns_commit (mkexchange 3 0 1 20 (Some last_record)) (text "a") resolver0 = Fault OutOfBounds.
Proof. split; vm_compute; reflexivity. Qed.

(** A host name that is refused is asked for all the same, with a type and a class that
    hold nothing. *)
Theorem dns_sync_sends_refused : 
  dns_commit (mkexchange 3 0 1 14 None) (text "a..b") resolver0 =
    Ok (-3) (mkresolver [3] [map Some [0; 1; 1; 0; 0; 1; 0; 0; 0; 0; 0; 0; 1; 97] ++ [None; None; None; None]] [LinvalidLength]).
Proof. vm_compute. reflexivity. Qed.
