(* ===== verification/SqlStmts.v ===== *)
(** * The statements and images of sqltest.cpp.

    The client library of the database is an interface, the class [Mysql]: a state and the
    calls on it. The world holds that state, how many statements, results and files the
    program has open, the disk, what was printed, and how many errors the program has not
    looked at. *)
From S2P Require Import Prelude KcpBase CLib.
From Stdlib Require Import Lia.
From stdpp Require Import base list numbers strings gmap.
Open Scope Z_scope.
Open Scope c_scope.

Class Mysql (S : Type) : Type := {
  mysql_query : S -> list Z -> Z * S;
  mysql_error : S -> list Z;
  mysql_store_result : S -> option (list (list (option (list Z)))) * S;
  mysql_stmt_init : S -> bool * S;                          (** false: a null pointer *)
  mysql_stmt_prepare : S -> list Z -> Z * S;
  mysql_stmt_bind_param : S -> Z -> Z * S;                  (** a blob of that length *)
  mysql_stmt_send_long_data : S -> list Z -> Z * S;
  mysql_stmt_execute : S -> Z * S;
  mysql_stmt_bind_result : S -> Z * S;                      (** a blob and an empty buffer *)
  mysql_stmt_fetch : S -> Z * Z * S;                        (** the code and the length of the column *)
  mysql_stmt_fetch_column : S -> Z -> Z -> Z * list Z;      (** buffer_length, offset: the code, the bytes stored *)
  mysql_stmt_close : S -> S
}.

Definition MYSQL_DATA_TRUNCATED : Z := 101.

(** One write or read of a file, as the system carries it out. *)
Record file_io : Type := mkfile { can_open : bool; moved : nat }.

Section Sql.
Context {S : Type} `{Mysql S}.

Record sqlw : Type := mksqlw {
  db : S; stmts : Z; results : Z; disk : gmap (list Z) (list Z); opened : Z; shown : list (list Z); unseen : Z
}.
Definition eta_sqlw (w : sqlw) : sqlw := mksqlw (db w) (stmts w) (results w) (disk w) (opened w) (shown w) (unseen w).
#[export] Instance upd_db : Upd db := ltac:(build_upd eta_sqlw db).
#[export] Instance upd_stmts : Upd stmts := ltac:(build_upd eta_sqlw stmts).
#[export] Instance upd_results : Upd results := ltac:(build_upd eta_sqlw results).
#[export] Instance upd_disk : Upd disk := ltac:(build_upd eta_sqlw disk).
#[export] Instance upd_opened : Upd opened := ltac:(build_upd eta_sqlw opened).
#[export] Instance upd_shown : Upd shown := ltac:(build_upd eta_sqlw shown).
#[export] Instance upd_unseen : Upd unseen := ltac:(build_upd eta_sqlw unseen).

(** A call of the library. *)
Definition call {A} (f : S -> A * S) : M sqlw A := fun w => let '(a, s) := f (db w) in Ok a (w<|db := s|>).

(** A result that the program drops; the count of errors among them is for the theorems. *)
Definition drop_code (code : Z) : M sqlw unit := modify (fun w => if code =? 0 then w else w<|unseen := unseen w + 1|>).

Definition show (l : list Z) : M sqlw unit := modify (fun w => w<|shown := shown w ++ [l]|>).
Definition show_error (prefix : list Z) : M sqlw unit := let! e := gets (fun w => mysql_error (db w)) in show (prefix ++ e).

(** ** Queries *)

Definition SQL_SELECT_TBL_USR_01 : list Z := text "select * from tbl_usr;".
Definition SQL_INSERT_TBL_USR_01 : list Z := text "insert into tbl_usr (u_name,u_gender) values('zjq','man');".
Definition SQL_INSERT_TBL_USR_02 : list Z := text "insert into tbl_usr (u_name,u_gender) values('alice','woman');".
Definition SQL_DELETE_TBL_USR_01 : list Z := text "call delete_by_name01('zjq');".
Definition SQL_INSERT_TBL_USR_03 : list Z := text "insert into tbl_usr (u_name,u_gender,img) values('bob','man',?);".
Definition SQL_SELECT_TBL_USR_02 : list Z := text "select img from tbl_usr where u_name='bob';".

Definition query (q : list Z) : M sqlw Z := call (fun s => mysql_query s q).

(** A line of the table. *)
Definition row_line (row : list (option (list Z))) : list Z :=
  concat (map (fun c => default (text "NULL") c ++ [9]) row).

Definition zjq_mysql_selcet : M sqlw Z :=
  let! code := query SQL_SELECT_TBL_USR_01 in
  if negb (code =? 0) then show_error [];;; ret (-1)
  else
    let! res := call mysql_store_result in
    match res with
    | None => show_error [];;; ret (-2)
    | Some rows =>
      modify (fun w => w<|results := results w + 1|>);;;
      modify (fun w => w<|shown := shown w ++ map row_line rows|>);;;
      modify (fun w => w<|results := results w - 1|>);;;
      show (text "=========================");;;
      ret 0
    end.

Definition zjq_mysql_insert : M sqlw Z :=
  let! code := query SQL_INSERT_TBL_USR_01 in
  if code =? 0 then
    show (text "Insert 1 success");;;
    let! code := query SQL_INSERT_TBL_USR_02 in
    if code =? 0 then show (text "Insert 2 success");;; ret 0
    else show_error (text "Insert 2 failed: ");;; ret (-2)
  else show_error (text "Insert failed: ");;; ret (-1).

Definition zjq_mysql_delete : M sqlw Z :=
  let! code := query SQL_DELETE_TBL_USR_01 in
  if code =? 0 then show (text "delete success");;; ret 0
  else show_error (text "delete failed: ");;; ret (-1).

(** ** Images on the disk *)

Definition fopen : M sqlw unit := modify (fun w => w<|opened := opened w + 1|>).
Definition fclose : M sqlw unit := modify (fun w => w<|opened := opened w - 1|>).

Definition write_img (io : file_io) (filename buffer : list Z) : M sqlw Z :=
  if bool_decide (buffer = []) then ret (-3)
  else if negb (can_open io) then ret (-1)
  else
    fopen;;;
    let written := take (moved io) buffer in
    modify (fun w => w<|disk := <[filename := written]> (disk w)|>);;;
    if negb (bool_decide (length written = length buffer)) then ret (-2)
    else fclose;;; ret 0.

(** The result, and the buffer, which [resize] fills with zeros. *)
Definition read_img (io : file_io) (filename buffer : list Z) : M sqlw (Z * list Z) :=
  let! file := gets (fun w => disk w !! filename) in
  match file with
  | None => ret (-1, buffer)
  | Some data =>
    if negb (can_open io) then ret (-1, buffer)
    else
      fopen;;;
      let length_ := Z.of_nat (length data) in
      if length_ <=? 0 then fclose;;; ret (-2, buffer)
      else
        let got := take (moved io) data in
        let buffer := got ++ drop (length got) (take (length data) (buffer ++ replicate (length data) 0)) in
        fclose;;;
        if negb (Z.of_nat (length got) =? length_) then ret (-3, buffer) else ret (0, buffer)
  end.

(** ** Images in the database *)

Definition stmt_init : M sqlw bool :=
  let! ok := call mysql_stmt_init in
  if ok then modify (fun w => w<|stmts := stmts w + 1|>);;; ret true else ret false.
Definition stmt_close : M sqlw unit := modify (fun w => w<|db := mysql_stmt_close (db w)|><|stmts := stmts w - 1|>).

Definition chunk_size : Z := 1024.

(** The loop that sends the buffer in chunks. *)
Fixpoint send_chunks (fuel : nat) (buffer : list Z) (offset : Z) : M sqlw unit :=
  let size := Z.of_nat (length buffer) in
  if negb (offset <? size) then ret tt
  else
    match fuel with
    | O => throw OutOfFuel
    | Datatypes.S fuel =>
      let write_num := if chunk_size <? size - offset then chunk_size else size - offset in
      let! code := call (fun s => mysql_stmt_send_long_data s (take (Z.to_nat write_num) (drop (Z.to_nat offset) buffer))) in
      drop_code code;;;
      send_chunks fuel buffer (offset + write_num)
    end.

Definition mysql_write (buffer : list Z) : M sqlw Z :=
  let! stmt := stmt_init in
  if negb stmt then ret (-1)
  else
    let! code := call (fun s => mysql_stmt_prepare s SQL_INSERT_TBL_USR_03) in
    if negb (code =? 0) then stmt_close;;; ret (-2)
    else
      let! code := call (fun s => mysql_stmt_bind_param s (Z.of_nat (length buffer))) in
      if negb (code =? 0) then ret (-3)
      else
        send_chunks (length buffer) buffer 0;;;
        let! code := call mysql_stmt_execute in
        if negb (code =? 0) then ret (-4) else stmt_close;;; ret 0.

(** The loop that fetches the column in chunks. Its bound is [(int)len], which the
    comparison with [offset] makes unsigned again; the other numbers are unsigned too. *)
Fixpoint fetch_chunks (fuel : nat) (len offset : Z) (buffer : list Z) : M sqlw (list Z) :=
  if negb (offset <? u64 (s32 len)) then ret buffer
  else
    match fuel with
    | O => throw OutOfFuel
    | Datatypes.S fuel =>
      let read_num := if chunk_size <? u64 (len - offset) then chunk_size else u64 (len - offset) in
      let! '(code, d) := gets (fun w => mysql_stmt_fetch_column (db w) read_num offset) in
      drop_code code;;;
      let buffer := take (Z.to_nat offset) buffer ++ d ++ drop (Z.to_nat offset + length d) buffer in
      fetch_chunks fuel len (offset + read_num) buffer
    end.

Definition mysql_read (buffer : list Z) : M sqlw (Z * list Z) :=
  let! stmt := stmt_init in
  if negb stmt then ret (-1, buffer)
  else
    let! code := call (fun s => mysql_stmt_prepare s SQL_SELECT_TBL_USR_02) in
    if negb (code =? 0) then stmt_close;;; ret (-2, buffer)
    else
      let! code := call mysql_stmt_execute in
      if negb (code =? 0) then stmt_close;;; ret (-3, buffer)
      else
        let! code := call mysql_stmt_bind_result in
        if negb (code =? 0) then stmt_close;;; ret (-4, buffer)
        else
          let! '(flag, len) := call mysql_stmt_fetch in
          if negb (flag =? 0) && negb (flag =? MYSQL_DATA_TRUNCATED) then stmt_close;;; ret (-5, [])
          else
            let! buffer := fetch_chunks (Z.to_nat len) len 0 (replicate (Z.to_nat len) 0) in
            stmt_close;;; ret (0, buffer).

(** ** The operations of [sql_test], in order *)

Definition filename1 : list Z := text "./green.jpg".
Definition filename2 : list Z := text "./green_download.jpg".

(** One operation: [false] ends the test with its message. *)
Definition step (op : M sqlw Z) (message : list Z) (k : M sqlw bool) : M sqlw bool :=
  let! code := op in
  if negb (code =? 0) then show message;;; ret false else k.

Definition sql_test_steps (io_r io_w : file_io) : M sqlw bool :=
  step zjq_mysql_insert (text "Insert failed") (
  step zjq_mysql_selcet (text "Select  failed") (
  step zjq_mysql_delete (text "Delete failed") (
  step zjq_mysql_selcet (text "Select  failed") (
  let! '(code, buf_w) := read_img io_r filename1 [] in
  step (ret code) (text "Failed to read image from " ++ filename1) (
  step (mysql_write buf_w) (text "Failed to write image blob to mysql") (
  step zjq_mysql_selcet (text "Select after image write failed") (
  let! '(code, buf_r) := mysql_read [] in
  step (ret code) (text "Failed to read image blob from mysql") (
  step (write_img io_w filename2 buf_r) (text "Failed to write image to " ++ filename2) (
  ret true))))))))).

End Sql.
Arguments sqlw : clear implicits.
Arguments mksqlw {S}.
