(* ===== verification/SqlProps.v ===== *)
(** * An image goes to the database and comes back. *)
From S2P Require Import Prelude KcpBase CLib SqlStmts.
From Stdlib Require Import Lia.
From stdpp Require Import base list numbers strings gmap.
Open Scope Z_scope.
Open Scope c_scope.

(** What the documentation of the library says of the calls, in terms of the images in the
    rows named bob and of the value that has been sent for the parameter of the statement.
    Any call may fail: a failed [mysql_stmt_send_long_data] has sent a part of its bytes or
    none, a failed [mysql_stmt_fetch_column] has stored no more than the buffer takes. *)
Class MysqlLaws (S : Type) `{Mysql S} : Type := {
  images : S -> list (list Z);
  pending : S -> option (list Z);
  law_select s : images (mysql_query s SQL_SELECT_TBL_USR_01).2 = images s;
  law_insert1 s : images (mysql_query s SQL_INSERT_TBL_USR_01).2 = images s;
  law_insert2 s : images (mysql_query s SQL_INSERT_TBL_USR_02).2 = images s;
  law_delete s : images (mysql_query s SQL_DELETE_TBL_USR_01).2 = images s;
  law_store s : images (mysql_store_result s).2 = images s;
  law_init s : images (mysql_stmt_init s).2 = images s;
  law_prepare s q : images (mysql_stmt_prepare s q).2 = images s /\ pending (mysql_stmt_prepare s q).2 = None;
  law_bind s n : images (mysql_stmt_bind_param s n).2 = images s /\
    ((mysql_stmt_bind_param s n).1 = 0 -> pending (mysql_stmt_bind_param s n).2 = Some []);
  law_send s p d : pending s = Some p -> let '(code, s') := mysql_stmt_send_long_data s d in
    images s' = images s /\ exists n, pending s' = Some (p ++ take n d) /\ (code = 0 -> take n d = d);
  law_insert s p : pending s = Some p ->
    images (mysql_stmt_execute s).2 = if (mysql_stmt_execute s).1 =? 0 then images s ++ [p] else images s;
  law_execute s : pending s = None -> images (mysql_stmt_execute s).2 = images s;
  law_result s : images (mysql_stmt_bind_result s).2 = images s;
  law_fetch s : let '(flag, len, s') := mysql_stmt_fetch s in images s' = images s /\
    (flag = 0 \/ flag = MYSQL_DATA_TRUNCATED -> exists img, img ∈ images s /\ len = Z.of_nat (length img) /\
       forall n off, 0 <= n -> 0 <= off -> let '(code, d) := mysql_stmt_fetch_column s' n off in
         Z.of_nat (length d) <= n /\ (code = 0 -> d = take (Z.to_nat n) (drop (Z.to_nat off) img)));
  law_close s : images (mysql_stmt_close s) = images s
}.

Section Props.
Context {S : Type} `{MysqlLaws S}.
Implicit Types w : sqlw S.

Ltac sql_simpl := cbn [upd upd_db upd_stmts upd_results upd_disk upd_opened upd_shown upd_unseen db stmts results disk opened shown unseen].

Lemma wp_call {A} (f : S -> A * S) (Q : A -> sqlw S -> Prop) w : Q (f (db w)).1 (w<|db := (f (db w)).2|>) -> wp (call f) Q w.
Proof. unfold wp, call. by destruct (f (db w)). Qed.

(** What a query leaves alone. *)
Record quiet (w w' : sqlw S) : Prop := {
  q_stmts : stmts w' = stmts w; q_results : results w' = results w; q_disk : disk w' = disk w; q_opened : opened w' = opened w;
  q_images : images (db w') = images (db w); q_unseen : unseen w <= unseen w'
}.
Lemma quiet_refl w : quiet w w.
Proof. split; done || lia. Qed.
Lemma quiet_trans w1 w2 w3 : quiet w1 w2 -> quiet w2 w3 -> quiet w1 w3.
Proof. intros [] []. split; congruence || lia. Qed.

Lemma wp_show_error p (Q : unit -> sqlw S -> Prop) w : (forall l, Q tt (w<|shown := l|>)) -> wp (show_error p) Q w.
Proof. intros HQ. unfold show_error, show. wp_step. wp_step. wp_step. apply HQ. Qed.

Ltac sql_step :=
  first [ wp_step | apply wp_call | apply wp_show_error; intros ?
        | match goal with |- wp (if ?b then _ else _) _ _ => destruct b eqn:? end ].
Ltac quiet_done := split; sql_simpl; try lia; rewrite ?law_store, ?law_select, ?law_insert2, ?law_insert1, ?law_delete; done.

Lemma select_quiet w : wp zjq_mysql_selcet (fun _ w' => quiet w w') w.
Proof.
  unfold zjq_mysql_selcet, query. repeat sql_step; try quiet_done.
  sql_simpl. destruct (mysql_store_result _).1; repeat sql_step; quiet_done.
Qed.

Lemma insert_quiet w : wp zjq_mysql_insert (fun _ w' => quiet w w') w.
Proof. unfold zjq_mysql_insert, query, show. repeat sql_step; quiet_done. Qed.

Lemma delete_quiet w : wp zjq_mysql_delete (fun _ w' => quiet w w') w.
Proof. unfold zjq_mysql_delete, query, show. repeat sql_step; quiet_done. Qed.

(** ** Sending *)

Lemma wp_drop_code code (Q : unit -> sqlw S -> Prop) w :
  Q tt (w<|unseen := if code =? 0 then unseen w else unseen w + 1|>) -> wp (drop_code code) Q w.
Proof. unfold wp, drop_code, modify. destruct (code =? 0); [|done]. by destruct w. Qed.

(** What the parameter holds when [p] was there and [d] has been sent. *)
Definition sent (p d : list Z) w w' : Prop :=
  exists q, pending (db w') = Some (p ++ q) /\ (length q <= length d)%nat /\ (unseen w' = unseen w -> q = d) /\ quiet w w'.

Lemma send_chunks_spec fuel buffer : forall offset p w, 0 <= offset <= Z.of_nat (length buffer) ->
  Z.of_nat (length buffer) - offset <= Z.of_nat fuel -> pending (db w) = Some p ->
  wp (send_chunks fuel buffer offset) (fun _ w' => sent p (drop (Z.to_nat offset) buffer) w w') w.
Proof.
  induction fuel as [|fuel IH]; intros offset p w Ho Hf Hp; cbn [send_chunks];
    (destruct (offset <? Z.of_nat (length buffer)) eqn:E; cbn [negb];
     [|wp_step; exists []; rewrite drop_ge, app_nil_r by lia; by split; [|split; [|split; [|apply quiet_refl]]]]); [lia|].
  set (n := if chunk_size <? _ then _ else _).
  assert (0 < n <= Z.of_nat (length buffer) - offset) as Hn by (subst n; unfold chunk_size; destruct (1024 <? _) eqn:?; lia).
  wp_step. apply wp_call. pose proof (law_send (db w) p (take (Z.to_nat n) (drop (Z.to_nat offset) buffer)) Hp) as Hlaw.
  destruct (mysql_stmt_send_long_data _ _) as [code s']. cbn [fst snd]. destruct Hlaw as (Hi & m & Hp' & Hcode).
  set (d := take m _) in *. wp_step. apply wp_drop_code. sql_simpl.
  eapply wp_mono; [apply (IH (offset + n)); [lia | lia | sql_simpl; exact Hp']|].
  cbv beta. intros _ w' (q & E1 & Hl & Hq & Hquiet). destruct Hquiet as [Q1 Q2 Q3 Q4 Q5 Q6]. revert Hq Q1 Q2 Q3 Q4 Q5 Q6. sql_simpl. intros.
  assert (drop (Z.to_nat offset) buffer = take (Z.to_nat n) (drop (Z.to_nat offset) buffer) ++ drop (Z.to_nat (offset + n)) buffer) as Ed.
  { replace (Z.to_nat (offset + n)) with (Z.to_nat offset + Z.to_nat n)%nat by lia. by rewrite <- drop_drop, take_drop. }
  exists (d ++ q). rewrite E1, <- (assoc_L (++)). split; [done|].
  assert (length d <= Z.to_nat n)%nat by (unfold d; rewrite !length_take; lia).
  split; [rewrite length_app; rewrite length_drop in *; lia|]. split.
  - intros Hu. destruct (Z.eqb_spec code 0) as [Hc|Hc]; [|lia]. by rewrite Ed, Hq, Hcode.
  - split; try congruence. destruct (code =? 0); lia.
Qed.

(** [mysql_write]: the rows, and the statement it may leave open. *)
Definition written (buffer : list Z) (code : Z) w w' : Prop :=
  -4 <= code <= 0 /\ results w' = results w /\ disk w' = disk w /\ opened w' = opened w /\
  unseen w <= unseen w' /\
  (if code =? 0 then exists stored, images (db w') = images (db w) ++ [stored] /\ (length stored <= length buffer)%nat /\
     (unseen w' = unseen w -> stored = buffer)
   else images (db w') = images (db w)) /\
  stmts w' = (if (code =? -3) || (code =? -4) then stmts w + 1 else stmts w).

Ltac written_done := unfold written; sql_simpl; cbn [Z.eqb Pos.eqb orb]; splits; try lia; try done.

Lemma mysql_write_spec buffer w : wp (mysql_write buffer) (fun code w' => written buffer code w w') w.
Proof.
  unfold mysql_write, stmt_init, stmt_close. wp_step. wp_step. apply wp_call. pose proof (law_init (db w)) as Hi.
  destruct (mysql_stmt_init (db w)) as [ok s1]. cbn [fst snd] in *. destruct ok; [|wp_step; cbn [negb]; wp_step; written_done].
  wp_step. wp_step. wp_step. cbn [negb]. wp_step. apply wp_call. sql_simpl.
  destruct (law_prepare s1 SQL_INSERT_TBL_USR_03) as [Hi2 _]. destruct (mysql_stmt_prepare s1 _) as [code s2]. cbn [fst snd] in *.
  destruct (negb (code =? 0)); [wp_step; wp_step; wp_step; written_done; rewrite law_close; congruence|].
  wp_step. apply wp_call. sql_simpl. destruct (law_bind s2 (Z.of_nat (length buffer))) as [Hi3 Hb].
  destruct (mysql_stmt_bind_param s2 _) as [code3 s3]. cbn [fst snd] in *. destruct (code3 =? 0) eqn:E3; cbn [negb]; [|wp_step; written_done; congruence].
  wp_step. eapply wp_mono; [apply (send_chunks_spec (length buffer) buffer 0 []); [lia | lia | sql_simpl; apply Hb; lia]|].
  cbv beta. intros _ w4 (q & Hp & Hl & Hq & [Q1 Q2 Q3 Q4 Q5 Q6]). cbn [app] in Hp. rewrite drop_0 in Hl, Hq.
  revert Hq Q1 Q2 Q3 Q4 Q5 Q6. sql_simpl. intros.
  wp_step. apply wp_call. sql_simpl. pose proof (law_insert (db w4) q Hp) as Hx. destruct (mysql_stmt_execute (db w4)) as [code5 s5]. cbn [fst snd] in *.
  destruct (code5 =? 0) eqn:E5; cbn [negb]; [|wp_step; written_done; congruence].
  wp_step. wp_step. wp_step. written_done. exists q. rewrite law_close. split; [congruence | done].
Qed.

(** ** Fetching *)

Lemma fetch_chunks_spec fuel img : forall offset buffer w, 0 <= offset <= Z.of_nat (length img) -> Z.of_nat (length img) < 2147483648 ->
  Z.of_nat (length img) - offset <= Z.of_nat fuel -> length buffer = length img ->
  (forall n off, 0 <= n -> 0 <= off -> let '(code, d) := mysql_stmt_fetch_column (db w) n off in
     Z.of_nat (length d) <= n /\ (code = 0 -> d = take (Z.to_nat n) (drop (Z.to_nat off) img))) ->
  wp (fetch_chunks fuel (Z.of_nat (length img)) offset buffer) (fun r w' =>
    length r = length img /\ unseen w <= unseen w' /\ w' = w<|unseen := unseen w'|> /\
    (unseen w' = unseen w -> take (Z.to_nat offset) buffer = take (Z.to_nat offset) img -> r = img)) w.
Proof.
  set (size := Z.of_nat (length img)). assert (forall x, 0 <= x < 2147483648 -> u64 x = x) as Hu by (intros; unfold u64; apply Z.mod_small; lia).
  induction fuel as [|fuel IH]; intros offset buffer w Ho Hs Hf Hb Hc; cbn [fetch_chunks];
    rewrite (s32_id size), (Hu size) by lia; (destruct (offset <? size) eqn:E; cbn [negb];
     [|wp_step; splits; [done | lia | by destruct w | intros _; rewrite !take_ge by lia; done]]); [lia|].
  rewrite (Hu (size - offset)) by lia. set (n := if chunk_size <? size - offset then _ else _).
  assert (0 < n <= size - offset) as Hn by (subst n; unfold chunk_size; destruct (1024 <? _) eqn:?; lia).
  wp_step. wp_step. pose proof (Hc n offset ltac:(lia) ltac:(lia)) as Hd.
  destruct (mysql_stmt_fetch_column (db w) n offset) as [code d]. destruct Hd as [Hdl Hd]. wp_step. apply wp_drop_code.
  assert (length (take (Z.to_nat offset) buffer) = Z.to_nat offset) as Ht by (rewrite length_take; lia).
  eapply wp_mono; [apply (IH (offset + n)); try (lia || done); rewrite !length_app, Ht, length_drop; lia|].
  cbv beta. intros r w' (Hr & Hge & -> & Heq). revert Hge Heq. sql_simpl. generalize (unseen w') as u. intros u Hge Heq.
  destruct (Z.eqb_spec code 0) as [Hcode|Hcode]; splits; try done; try lia. specialize (Hd Hcode).
  intros Hu2 Htake. apply Heq; [done|]. assert (length d = Z.to_nat n) as Hdn by (rewrite Hd, length_take, length_drop; lia).
  rewrite (assoc_L (++)), take_app_length' by (rewrite length_app, Ht; lia). rewrite Htake, Hd.
  replace (Z.to_nat (offset + n)) with (Z.to_nat offset + Z.to_nat n)%nat by lia. apply take_take_drop.
Qed.

Definition images_small w : Prop := forall img, img ∈ images (db w) -> Z.of_nat (length img) < 2147483648.

(** [mysql_read] closes its statement on every way out. *)
Lemma mysql_read_spec buffer w : images_small w ->
  wp (mysql_read buffer) (fun r w' => quiet w w' /\ (r.1 = 0 -> exists img, img ∈ images (db w) /\ length r.2 = length img /\
    (unseen w' = unseen w -> r.2 = img))) w.
Proof.
  intros Hsmall. unfold mysql_read, stmt_init, stmt_close. wp_step. wp_step. apply wp_call. pose proof (law_init (db w)) as Hi.
  destruct (mysql_stmt_init (db w)) as [ok s1]. cbn [fst snd] in *. destruct ok; [|wp_step; cbn [negb]; wp_step; split; [quiet_done | done]].
  wp_step. wp_step. wp_step. cbn [negb]. wp_step. apply wp_call. sql_simpl.
  destruct (law_prepare s1 SQL_SELECT_TBL_USR_02) as [Hi2 Hp]. destruct (mysql_stmt_prepare s1 _) as [code s2]. cbn [fst snd] in *.
  destruct (negb (code =? 0)); [wp_step; wp_step; wp_step; split; [split; sql_simpl; try lia; try done; rewrite law_close; congruence | done]|].
  wp_step. apply wp_call. sql_simpl. pose proof (law_execute s2 Hp) as Hi3. destruct (mysql_stmt_execute s2) as [code3 s3]. cbn [fst snd] in *.
  destruct (negb (code3 =? 0)); [wp_step; wp_step; wp_step; split; [split; sql_simpl; try lia; try done; rewrite law_close; congruence | done]|].
  wp_step. apply wp_call. sql_simpl. pose proof (law_result s3) as Hi4. destruct (mysql_stmt_bind_result s3) as [code4 s4]. cbn [fst snd] in *.
  destruct (negb (code4 =? 0)); [wp_step; wp_step; wp_step; split; [split; sql_simpl; try lia; try done; rewrite law_close; congruence | done]|].
  wp_step. apply wp_call. sql_simpl. pose proof (law_fetch s4) as Hf. destruct (mysql_stmt_fetch s4) as [[flag len] s5]. cbn [fst snd] in *. destruct Hf as [Hi5 Hf].
  destruct (negb (flag =? 0) && negb (flag =? MYSQL_DATA_TRUNCATED)) eqn:Ef;
    [wp_step; wp_step; wp_step; split; [split; sql_simpl; try lia; try done; rewrite law_close; congruence | done]|].
  destruct Hf as (img & Hin & -> & Hc); [unfold MYSQL_DATA_TRUNCATED in *; lia|].
  assert (img ∈ images (db w)) as Hin' by congruence. pose proof (Hsmall _ Hin'). rewrite Nat2Z.id.
  wp_step. eapply wp_mono; [apply (fetch_chunks_spec (length img) img 0); try done; try lia; by rewrite length_replicate|].
  cbv beta. intros r w6 (Hr & Hge & -> & Heq). revert Hge Heq. sql_simpl. intros. wp_step. wp_step. wp_step. cbn [fst snd]. split.
  - split; sql_simpl; try lia; try done. rewrite law_close. congruence.
  - intros _. exists img. splits; [done | done |]. intros Hu. by apply Heq.
Qed.

(** ** Files *)

Definition same_db w w' : Prop := db w' = db w /\ stmts w' = stmts w /\ results w' = results w /\ unseen w' = unseen w.

Lemma read_img_spec io filename w : wp (read_img io filename []) (fun r w' => quiet w w' /\ (r.1 = 0 -> disk w !! filename = Some r.2)) w.
Proof.
  unfold read_img, fopen, fclose. wp_step. wp_step. destruct (disk w !! filename) as [data|] eqn:Ed; [|wp_step; split; [apply quiet_refl | done]].
  destruct (negb (can_open io)); [wp_step; split; [apply quiet_refl | done]|]. wp_step. wp_step.
  destruct (Z.of_nat (length data) <=? 0); [wp_step; wp_step; wp_step; split; [quiet_done | done]|]. wp_step. wp_step.
  destruct (Z.eqb_spec (Z.of_nat (length (take (moved io) data))) (Z.of_nat (length data))) as [El|El]; cbn [negb]; wp_step; (split; [quiet_done|]); [|done].
  cbn [fst snd]. intros _. assert (take (moved io) data = data) as -> by (apply take_ge; rewrite length_take in El; lia).
  rewrite drop_ge, app_nil_r; [done|]. rewrite length_take. lia.
Qed.

Lemma write_img_spec io filename buffer w : wp (write_img io filename buffer) (fun code w' =>
  same_db w w' /\ opened w' = (if code =? -2 then opened w + 1 else opened w) /\
  (code = 0 -> disk w' = <[filename := buffer]> (disk w))) w.
Proof.
  unfold write_img, fopen, fclose. case_bool_decide; [wp_step; by splits|]. destruct (negb (can_open io)); [wp_step; by splits|].
  wp_step. wp_step. wp_step. wp_step. case_bool_decide as El; cbn [negb].
  - wp_step. wp_step. wp_step. splits; sql_simpl; [done | cbn; lia|]. intros _. by rewrite (take_ge buffer) by (rewrite length_take in El; lia).
  - wp_step. splits; sql_simpl; done.
Qed.

(** ** The whole test *)

Lemma wp_step_op op message (k : M (sqlw S) bool) (Q : bool -> sqlw S -> Prop) (P : Z -> sqlw S -> Prop) w :
  wp op P w -> (forall code w', P code w' -> code <> 0 -> Q false (w'<|shown := shown w' ++ [message]|>)) ->
  (forall w', P 0 w' -> wp k Q w') -> wp (step op message k) Q w.
Proof.
  intros Hop Hbad Hk. unfold step, show. wp_step. eapply wp_mono; [exact Hop|]. cbv beta. intros code w' HP.
  destruct (Z.eqb_spec code 0) as [->|]; cbn [negb]; [by apply Hk|]. wp_step. wp_step. wp_step. by eapply Hbad.
Qed.

(** What the test promises. *)
Definition test_post w (ok : bool) w' : Prop :=
  results w' = results w /\ stmts w <= stmts w' <= stmts w + (if ok then 0 else 1) /\ opened w <= opened w' <= opened w + (if ok then 0 else 1) /\
  unseen w <= unseen w' /\
  (ok = true -> exists img stored chosen got, disk w !! filename1 = Some img /\ images (db w') = images (db w) ++ [stored] /\
     chosen ∈ images (db w) ++ [stored] /\ disk w' = <[filename2 := got]> (disk w) /\
     (length stored <= length img)%nat /\ length got = length chosen /\
     (unseen w' = unseen w -> stored = img /\ got = chosen)).

Lemma quiet_fails w w' l : quiet w w' -> test_post w false (w'<|shown := l|>).
Proof. intros []. unfold test_post. sql_simpl. splits; try lia; done. Qed.

Lemma sql_test_spec io_r io_w w : images_small w -> (forall img, disk w !! filename1 = Some img -> Z.of_nat (length img) < 2147483648) ->
  wp (sql_test_steps io_r io_w) (test_post w) w.
Proof.
  intros Hsmall Hfile. unfold sql_test_steps.
  eapply wp_step_op; [apply insert_quiet | intros ? ? Hq _; by apply quiet_fails|]. intros w1 Q1.
  eapply wp_step_op; [apply select_quiet | intros ? ? Hq _; by apply quiet_fails, (quiet_trans _ w1)|]. intros w2 Q2. pose proof (quiet_trans _ _ _ Q1 Q2) as P2.
  eapply wp_step_op; [apply delete_quiet | intros ? ? Hq _; by apply quiet_fails, (quiet_trans _ w2)|]. intros w3 Q3. pose proof (quiet_trans _ _ _ P2 Q3) as P3.
  eapply wp_step_op; [apply select_quiet | intros ? ? Hq _; by apply quiet_fails, (quiet_trans _ w3)|]. intros w4 Q4. pose proof (quiet_trans _ _ _ P3 Q4) as P4.
  wp_step. eapply wp_mono; [apply read_img_spec|]. cbv beta. intros [code img] w5 [Q5 Hread]. cbn [fst snd] in Hread. pose proof (quiet_trans _ _ _ P4 Q5) as P5.
  eapply (wp_step_op _ _ _ _ (fun c w' => c = code /\ w' = w5)); [by wp_step | intros ? ? [-> ->] _; by apply quiet_fails|]. intros ? [<- ->].
  specialize (Hread eq_refl). rewrite (q_disk _ _ P4) in Hread. specialize (Hfile _ Hread).
  destruct P5 as [S5 R5 D5 O5 I5 U5].
  eapply wp_step_op; [apply mysql_write_spec| |].
  { intros c w6 (Hc & Hr & Hd & Ho & Hu & Hi & Hst) Hne. unfold test_post. sql_simpl. destruct ((c =? -3) || (c =? -4)); splits; try lia; done. }
  intros w6 (_ & R6 & D6 & O6 & U6 & (stored & I6 & L6 & V6) & S6). cbn [Z.eqb Pos.eqb orb] in S6. rewrite I5 in I6.
  assert (forall w' l, quiet w6 w' -> test_post w false (w'<|shown := l|>)) as Hfail
    by (intros w' l []; unfold test_post; sql_simpl; splits; try lia; done).
  eapply wp_step_op; [apply select_quiet | intros ? ? Hq _; by apply Hfail|]. intros w7 Q7.
  assert (images_small w7) as Hsmall7.
  { intros i. rewrite (q_images _ _ Q7), I6. intros [Hi|Hi]%elem_of_app; [by apply Hsmall|]. apply list_elem_of_singleton in Hi as ->. lia. }
  wp_step. eapply wp_mono; [by apply mysql_read_spec|]. cbv beta. intros [code got] w8 [Q8 Hgot]. cbn [fst snd] in Hgot. pose proof (quiet_trans _ _ _ Q7 Q8) as P8.
  eapply (wp_step_op _ _ _ _ (fun c w' => c = code /\ w' = w8)); [by wp_step | intros ? ? [-> ->] _; by apply Hfail|]. intros ? [<- ->].
  destruct (Hgot eq_refl) as (chosen & Hin & Hlen & V8). rewrite (q_images _ _ Q7), I6 in Hin. pose proof (q_unseen _ _ Q7) as U7.
  pose proof (q_unseen _ _ Q8) as U8. destruct P8 as [S8 R8 D8 O8 I8 _].
  eapply wp_step_op; [apply write_img_spec| |].
  { intros c w9 ((Edb & Es & Er & Eu) & Ho & _) Hne. unfold test_post. sql_simpl. destruct (c =? -2); splits; try lia; done. }
  intros w9 ((Edb & Es & Er & Eu) & Ho & Hd). specialize (Hd eq_refl). cbn [Z.eqb Pos.eqb] in Ho. wp_step. unfold test_post. splits; try lia.
  intros _. exists img, stored, chosen, got. splits; [done | congruence | done | congruence | done | done |].
  intros Hu. split; [apply V6; lia | apply V8; lia].
Qed.
End Props.

(** The database example, in whatever state the table is and whatever fails, with images
    below 2 GB: it ends, it gives back every result, and on success every statement and
    file; then a row has been added to the table, and green_download.jpg is as long as one
    of the images of the table.  If none of the results it drops was an error, the new row
    is green.jpg and the download is one of the images, which is green.jpg itself when the
    table had none before. *)
Theorem sql_image_round_trip {S : Type} `{MysqlLaws S} io_r io_w (w : sqlw S) : images_small w ->
  (forall img, disk w !! filename1 = Some img -> Z.of_nat (length img) < 2147483648) ->
  exists ok w', sql_test_steps io_r io_w w = Ok ok w' /\ test_post w ok w' /\
    (ok = true -> unseen w' = unseen w -> images (db w) = [] -> disk w' !! filename2 = disk w !! filename1).
Proof.
  intros Hs Hf. destruct (wp_run _ _ _ (sql_test_spec io_r io_w w Hs Hf)) as (ok & w' & E & Hp). exists ok, w'. splits; [done | done |].
  intros -> Hu Hi. destruct Hp as (_ & _ & _ & _ & Hok). destruct (Hok eq_refl) as (img & stored & chosen & got & H1 & H2 & H3 & -> & _ & _ & H4).
  destruct (H4 Hu) as [-> ->]. rewrite Hi in H3. cbn [app] in H3. apply list_elem_of_singleton in H3 as ->. by rewrite lookup_insert_eq, H1.
Qed.

(** The statement of [mysql_write] is closed on every way out but two: when the parameter
    cannot be bound and when the execution fails, it stays open; otherwise only a success
    adds the image to the table. *)
Theorem mysql_write_leaks {S : Type} `{MysqlLaws S} buffer (w : sqlw S) :
  exists code w', mysql_write buffer w = Ok code w' /\ written buffer code w w'.
Proof. apply wp_run, mysql_write_spec. Qed.

(** ** A small database *)

(** [good_sends] calls that send a chunk succeed, and fetching a chunk may fail always. *)
Record demo_db : Type := mkdemo { rows : list (list Z); parameter : option (list Z); column : list Z; good_sends : nat; can_fetch : bool }.

#[export] Instance demo_mysql : Mysql demo_db := {
  mysql_query s q := (0, s);
  mysql_error s := [];
  mysql_store_result s := (Some [], s);
  mysql_stmt_init s := (true, s);
  mysql_stmt_prepare s q := (0, mkdemo (rows s) None (column s) (good_sends s) (can_fetch s));
  mysql_stmt_bind_param s n := (0, mkdemo (rows s) (Some []) (column s) (good_sends s) (can_fetch s));
  mysql_stmt_send_long_data s d :=
    match good_sends s with
    | O => (1, s)
    | Datatypes.S n => (0, mkdemo (rows s) (fmap (fun p => p ++ d) (parameter s)) (column s) n (can_fetch s))
    end;
  mysql_stmt_execute s := (0, match parameter s with Some p => mkdemo (rows s ++ [p]) None (column s) (good_sends s) (can_fetch s) | None => s end);
  mysql_stmt_bind_result s := (0, s);
  mysql_stmt_fetch s := match rows s with
                        | [] => (100, 0, s)
                        | img :: _ => (MYSQL_DATA_TRUNCATED, Z.of_nat (length img), mkdemo (rows s) (parameter s) img (good_sends s) (can_fetch s))
                        end;
  mysql_stmt_fetch_column s n off := if can_fetch s then (0, take (Z.to_nat n) (drop (Z.to_nat off) (column s))) else (1, []);
  mysql_stmt_close s := mkdemo (rows s) None (column s) (good_sends s) (can_fetch s)
}.

#[export] Instance demo_laws : MysqlLaws demo_db.
Proof.
  refine {| images := rows; pending := parameter |}; try done.
  - intros s p d E. cbn. destruct (good_sends s); cbn; (split; [done|]).
    + exists 0%nat. by rewrite app_nil_r.
    + exists (length d). by rewrite E, take_ge.
  - intros s p E. cbn. by rewrite E.
  - intros s E. cbn. by rewrite E.
  - intros s. cbn. destruct (rows s) as [|img l] eqn:E; cbn; [split; [done | by intros []]|]. split; [done|].
    intros _. exists img. split; [by apply elem_of_cons; left|]. split; [done|]. intros n off Hn _.
    destruct (can_fetch s); [|by cbn]. rewrite length_take. split; [lia | done].
Defined.

Definition demo_rows (l : list (list Z)) : demo_db := mkdemo l None [] 100 true.
Definition green : list Z := [255; 216; 255; 224; 0; 16].
Definition sql_world : sqlw demo_db := mksqlw (demo_rows []) 0 0 {[ filename1 := green ]} 0 [] 0.

Lemma sql_image_round_trip_witness : exists ok w', sql_test_steps (mkfile true 100) (mkfile true 100) sql_world = Ok ok w' /\ test_post sql_world ok w' /\
    (ok = true -> unseen w' = unseen sql_world -> images (db sql_world) = [] -> disk w' !! filename2 = disk sql_world !! filename1).
Proof.
  apply (sql_image_round_trip (mkfile true 100) (mkfile true 100) sql_world).
  - intros img Hin. by apply elem_of_nil in Hin.
  - intros img E. assert (disk sql_world !! filename1 = Some green) as E2 by (vm_compute; reflexivity). rewrite E2 in E. injection E as <-. reflexivity.
Defined.

(** With it the test succeeds and the download is the image. *)
Example sql_demo_succeeds : exists w', sql_test_steps (mkfile true 100) (mkfile true 100) sql_world = Ok true w' /\ disk w' !! filename2 = Some green.
Proof. eexists. split; vm_compute; reflexivity. Qed.

(** Run a second time over the same table, it downloads the image of the first run. *)
Example sql_second_run : 
  let w := mksqlw (demo_rows [green]) 0 0 {[ filename1 := [1; 2; 3] ]} 0 [] 0 in
  exists w', sql_test_steps (mkfile true 100) (mkfile true 100) w = Ok true w' /\ disk w' !! filename2 = Some green.
Proof. eexists. split; vm_compute; reflexivity. Qed.

(** A library that cannot fetch: the test succeeds, and the download is as many zeros.  One
    that sends a chunk and not the next: the test succeeds with half of the image. *)
Example sql_errors_dropped :
  (exists w', sql_test_steps (mkfile true 100) (mkfile true 100) (mksqlw (mkdemo [] None [] 100 false) 0 0 {[ filename1 := green ]} 0 [] 0) = Ok true w' /\
    disk w' !! filename2 = Some (replicate 6 0) /\ unseen w' = 1) /\
  (exists w', sql_test_steps (mkfile true 3000) (mkfile true 3000) (mksqlw (mkdemo [] None [] 1 true) 0 0 {[ filename1 := replicate 2048 7 ]} 0 [] 0) = Ok true w' /\
    disk w' !! filename2 = Some (replicate 1024 7) /\ unseen w' = 1).
Proof. split; eexists; (split; [vm_compute; reflexivity | split; vm_compute; reflexivity]). Qed.

Lemma mysql_write_leaks_witness : exists code w', mysql_write green sql_world = Ok code w' /\ written green code sql_world w'.
Proof. apply (mysql_write_leaks green sql_world). Defined.
