(* ===== verification/SqlMain.v ===== *)
(** * sqltest.cpp from [main] on: the pool of connections and the statements together.

    ConnPool.v has the pool and tells of each operation of [sql_test] only whether it
    succeeds; SqlStmts.v has the operations.  Here the test takes its connection from the
    pool, works on the database with it, and gives it back. *)
From S2P Require Import Prelude Threads KcpBase CLib ConnPool ConnPoolProps SqlStmts SqlProps.
From Stdlib Require Import Lia.
From stdpp Require Import base list numbers strings gmap.
Open Scope Z_scope.
Open Scope c_scope.

Section SqlMain.
Context {S : Type} `{Mysql S}.

(** The pool and the rest of the program. *)
Record progw : Type := mkprogw { pool : ConnectionPool; rest : sqlw S }.
Definition eta_progw (w : progw) : progw := mkprogw (pool w) (rest w).
#[export] Instance upd_pool : Upd pool := ltac:(build_upd eta_progw pool).
#[export] Instance upd_rest : Upd rest := ltac:(build_upd eta_progw rest).

Definition on_rest {A} (m : M (sqlw S) A) : M progw A :=
  fun w => match m (rest w) with Ok a r => Ok a (w<|rest := r|>) | Fault f => Fault f end.

(** A call on the pool by the only thread there is: one that waits never returns. *)
Definition on_pool {A} (f : ConnectionPool -> option (A * ConnectionPool)) : M progw A :=
  fun w => match f (pool w) with Some (a, p) => Ok a (w<|pool := p|>) | None => Fault OutOfFuel end.

(** A whole call of [acquire]: it waits when it falls asleep. *)
Definition call_acquire (p : ConnectionPool) : option (option conn * ConnectionPool) :=
  let a := length (acquires p) in
  match acquire a (p<|acquires := acquires p ++ [AStart]|>) with
  | Some p => match acquires p !! a with Some (AGot r) => Some (r, p) | _ => None end
  | None => None
  end.
Definition call_release (c : conn) (p : ConnectionPool) : option (unit * ConnectionPool) :=
  option_map (pair tt) (release (Some c) None p).
Definition call_shutdown : M progw unit := modify (fun w => w<|pool := shutdown (pool w)|>).

(** [sql_test]: every way out gives the connection back. *)
Definition sql_test_on_pool (io_r io_w : file_io) : M progw bool :=
  let! sql := on_pool call_acquire in
  match sql with
  | None => on_rest (show (text "Failed to acquire mysql connection from pool."));;; ret false
  | Some c =>
    let! ok := on_rest (sql_test_steps io_r io_w) in
    on_pool (call_release c);;;
    ret ok
  end.

(** [main], with the destructor of the pool at every [return]. *)
Definition sqltest_main (l : list attempt) (io_r io_w : file_io) : M progw Z :=
  let! ok := on_pool (fun p => Some (init 3 l p)) in
  if negb (ok : bool) then
    on_rest (show (text "Failed to initialize connection pool"));;; call_shutdown;;; ret (-1)
  else
    let! ok := sql_test_on_pool io_r io_w in
    if negb (ok : bool) then
      on_rest (show (text "Database example run failed"));;; call_shutdown;;; call_shutdown;;; ret (-2)
    else call_shutdown;;; call_shutdown;;; ret 0.
End SqlMain.
Arguments progw : clear implicits.
Arguments mkprogw {S}.

Section Props.
Context {S : Type} `{MysqlLaws S}.

(** The pool after [main]. *)
Definition all_closed (l : list attempt) (p : ConnectionPool) : Prop :=
  let '(created, shut, _) := create 3 l in connections p = [] /\ taken p = [] /\ closed p ≡ₚ created ++ shut.

Lemma wp_on_rest {A} (m : M (sqlw S) A) (Q : A -> progw S -> Prop) w :
  wp m (fun a r => Q a (w<|rest := r|>)) (rest w) -> wp (on_rest m) Q w.
Proof. unfold wp, on_rest. by destruct (m (rest w)). Qed.

Lemma wp_on_pool {A} (f : ConnectionPool -> option (A * ConnectionPool)) (Q : A -> progw S -> Prop) w a p :
  f (pool w) = Some (a, p) -> Q a (w<|pool := p|>) -> wp (on_pool f) Q w.
Proof. unfold wp, on_pool. by intros ->. Qed.

(** With the first connection of three, from the start of the program. *)
Lemma call_acquire_first c cs p : connections p = c :: cs -> active_flag p = true ->
  exists p1, call_acquire p = Some (Some c, p1) /\ connections p1 = cs /\ taken p1 = c :: taken p /\ closed p1 = closed p /\
    existsb asleep (acquires p1) = existsb asleep (acquires p).
Proof.
  intros Hc Ha. unfold call_acquire, acquire. cbn [acquires upd upd_acquires]. rewrite list_lookup_middle by done. unfold try_acquire. cbn. rewrite Hc, Ha. cbn.
  rewrite insert_app_r_alt, Nat.sub_diag by lia. cbn. rewrite list_lookup_middle by done. eexists. split; [reflexivity|]. cbn.
  splits; try done. rewrite existsb_app. cbn. by rewrite !orb_false_r.
Qed.

Lemma call_release_back c cs p : existsb asleep (acquires p) = false -> connections p = cs -> taken p = [c] ->
  exists p1, call_release c p = Some (tt, p1) /\ connections p1 = cs ++ [c] /\ taken p1 = [] /\ closed p1 = closed p.
Proof.
  intros Hs Hc Ht. unfold call_release, release, notify_one. cbn. rewrite Hs. cbn. eexists. split; [reflexivity|]. cbn. rewrite Hc, Ht. splits; try done.
  cbn. destruct (decide_rel elem_of c [c]) as [|Hn]; [done|]. destruct Hn. by left.
Qed.

(** What a code of [main] says of what was done. *)
Definition main_post (l : list attempt) (w : sqlw S) (code : Z) (w' : sqlw S) : Prop :=
  results w' = results w /\
  let '(_, _, ok) := create 3 l in
  code = -1 /\ ok = false \/ code = -2 /\ ok = true \/
  code = 0 /\ ok = true /\ stmts w' = stmts w /\ opened w' = opened w /\
    exists img stored chosen got, disk w !! filename1 = Some img /\ images (db w') = images (db w) ++ [stored] /\
      chosen ∈ images (db w) ++ [stored] /\ disk w' !! filename2 = Some got /\
      (length stored <= length img)%nat /\ length got = length chosen /\
      (unseen w' = unseen w -> stored = img /\ got = chosen /\ (images (db w) = [] -> got = img)).

End Props.

(** ** A run *)

Definition three : list attempt := [Connects 1; Connects 2; Connects 3].


(** With the small database everything succeeds. *)
Example sqltest_main_succeeds : exists p w', sqltest_main three (mkfile true 100) (mkfile true 100) (mkprogw new_ConnectionPool sql_world) = Ok 0 (mkprogw p w') /\
  closed p = [2; 3; 1] /\ disk w' !! filename2 = Some green.
Proof. do 2 eexists. split; [vm_compute; reflexivity|]. split; vm_compute; reflexivity. Qed.

(** When the third connection fails nothing is done with the database. *)
Example sqltest_main_no_pool : exists p w', sqltest_main [Connects 1; Connects 2; ConnectFails 3] (mkfile true 100) (mkfile true 100) (mkprogw new_ConnectionPool sql_world) = Ok (-1) (mkprogw p w') /\
  closed p = [3; 1; 2] /\ db w' = db sql_world.
Proof. do 2 eexists. split; [vm_compute; reflexivity|]. split; vm_compute; reflexivity. Qed.
