(* ===== verification/EdgeServer.v ===== *)
(** * tcpserver.cpp of test7: an epoll server with edge-triggered clients.

    The kernel's side is part of the state, since the program relies on it: for each
    connection, what has come and has not been read, as the pieces [recv] will give; and
    the edges, that is the descriptors for which [epoll_wait] has something to report. *)
From S2P Require Import Prelude KcpBase CLib SockIO.
From stdpp Require Import base list numbers gmap sets.
Open Scope Z_scope.
Open Scope c_scope.

Definition BUFFER_SIZE : Z := 1024.
Definition EPOLL_SIZE : Z := 1024.
Definition MAX_PORT : Z := 100.

(** ** The kernel *)

(** How a connection ends once its pieces are read: not yet, by the peer, by an error. *)
Inductive ending : Type := Open | Finished | Broken (errno : Z).
Record conn : Type := mkconn { pieces : list (list Z); ends : ending }.

(** [out] is what the server has printed; [came] is all that has come, and [refused] are the
    open descriptors that [epoll_ctl] would not add, both for the theorems. *)
Record kernel : Type := mkkernel {
  conns : gmap Z conn; watched : gset Z; edges : gset Z; refused : gset Z; out : list (Z * list Z); came : list (Z * list Z)
}.
Definition eta_kernel (k : kernel) : kernel := mkkernel (conns k) (watched k) (edges k) (refused k) (out k) (came k).
#[export] Instance upd_conns : Upd conns := ltac:(build_upd eta_kernel conns).
#[export] Instance upd_watched : Upd watched := ltac:(build_upd eta_kernel watched).
#[export] Instance upd_edges : Upd edges := ltac:(build_upd eta_kernel edges).
#[export] Instance upd_refused : Upd refused := ltac:(build_upd eta_kernel refused).
#[export] Instance upd_out : Upd out := ltac:(build_upd eta_kernel out).
#[export] Instance upd_came : Upd came := ltac:(build_upd eta_kernel came).

Definition EBADF : Z := 9.

(** Something to report. *)
Definition busy (c : conn) : bool := negb (bool_decide (pieces c = [])) || match ends c with Open => false | _ => true end.

(** [recv] on a socket that does not block. *)
Definition sys_recv (fd : Z) : M kernel recv_res :=
  let! c := gets (fun k => conns k !! fd) in
  match c with
  | None => ret (RErr EBADF)
  | Some (mkconn (d :: ps) e) => modify (fun k => k<|conns := <[fd := mkconn ps e]> (conns k)|>);;; ret (RData d)
  | Some (mkconn [] Open) => ret (RErr EAGAIN)
  | Some (mkconn [] Finished) => ret REof
  | Some (mkconn [] (Broken errno)) => ret (RErr errno)
  end.

(** [close], which also takes the descriptor out of the epoll set. *)
Definition sys_close (fd : Z) : M kernel unit :=
  modify (fun k => k<|conns := delete fd (conns k)|><|watched := watched k ∖ {[fd]}|><|edges := edges k ∖ {[fd]}|>
                    <|refused := refused k ∖ {[fd]}|>).

(** [epoll_ctl] with EPOLL_CTL_ADD, which may fail: what is there already makes an edge. *)
Definition epoll_add (fd : Z) (added : bool) : M kernel unit :=
  modify (fun k =>
    if added then
      k<|watched := {[fd]} ∪ watched k|>
       <|edges := if match conns k !! fd with Some c => busy c | None => false end then {[fd]} ∪ edges k else edges k|>
    else k<|refused := {[fd]} ∪ refused k|>).
Definition epoll_del (fd : Z) : M kernel unit :=
  modify (fun k => k<|watched := watched k ∖ {[fd]}|><|edges := edges k ∖ {[fd]}|>).

(** [accept]: a new descriptor with what its peer has sent already, or an error. *)
Definition sys_accept (a : option (Z * conn)) : M kernel Z :=
  match a with
  | None => ret (-1)
  | Some (fd, c) =>
    modify (fun k => k<|conns := <[fd := c]> (conns k)|><|came := came k ++ map (pair fd) (pieces c)|>);;; ret fd
  end.

(** ** [epoll_server] *)

Definition is_contain (fd : Z) (listen_fds : list Z) : bool := bool_decide (fd ∈ listen_fds).

(** The loop that reads a client until there is nothing left. *)
Fixpoint drain (fuel : nat) (clientfd : Z) : M kernel unit :=
  match fuel with
  | O => throw OutOfFuel
  | S fuel =>
    let! r := sys_recv clientfd in
    match r with
    | RErr e =>
      if e =? EAGAIN then ret tt
      else sys_close clientfd;;; epoll_del clientfd
    | REof => sys_close clientfd;;; epoll_del clientfd
    | RData d => modify (fun k => k<|out := out k ++ [(clientfd, d)]|>);;; drain fuel clientfd
    end
  end.

(** An event: the descriptor, and what [accept] gives and whether [epoll_ctl] adds it if it
    is a listening one. *)
Record event : Type := mkevent { ev_fd : Z; ev_accept : option (Z * conn); ev_added : bool }.

Definition on_event (listen_fds : list Z) (e : event) : M kernel unit :=
  if is_contain (ev_fd e) listen_fds then
    let! clientfd := sys_accept (ev_accept e) in
    if clientfd <? 0 then ret tt else epoll_add clientfd (ev_added e)
  else
    let! n := gets (fun k => match conns k !! ev_fd e with Some c => length (pieces c) | None => 0%nat end) in
    drain (S n) (ev_fd e).

Fixpoint on_events (listen_fds : list Z) (events : list event) : M kernel unit :=
  match events with
  | [] => ret tt
  | e :: events => on_event listen_fds e;;; on_events listen_fds events
  end.

(** A round: [epoll_wait] takes the edges it reports, then the loop over the events. *)
Definition reported (events : list event) (k : kernel) : kernel := k<|edges := edges k ∖ list_to_set (map ev_fd events)|>.
Definition epoll_round (listen_fds : list Z) (events : list event) : M kernel unit :=
  modify (reported events);;;
  on_events listen_fds events.

(** ** [main]: the listening sockets *)

(** What [socket], [bind] and [listen] give for one port. *)
Record setup : Type := mksetup { s_socket : Z; s_bind : Z; s_listen : Z }.

(** [port + i > 65535], with an [int] and a [size_t]. *)
Definition past_end (port i : Z) : bool := 65535 <? u64 (port + i).

(** The loop from [i] on: the result of [main] when it fails, or the ports that are listened
    on with their sockets. *)
Fixpoint listen_ports (n : nat) (port i : Z) (calls : Z -> setup) (listen_fds : list (Z * Z)) : Z + list (Z * Z) :=
  match n with
  | O => inr listen_fds
  | S n =>
    if past_end port i then inr listen_fds
    else
      let c := calls i in
      if s_socket c <? 0 then listen_ports n port (i + 1) calls listen_fds
      else if s_bind c <? 0 then inl (-2)
      else if s_listen c <? 0 then inl (-3)
      else listen_ports n port (i + 1) calls (listen_fds ++ [(port + i, s_socket c)])
  end.
Definition tcp7_main (port : Z) (calls : Z -> setup) : Z + list (Z * Z) := listen_ports (Z.to_nat MAX_PORT) port 0 calls [].

(** ** [client_routine_1]: a thread per client, with a socket that blocks *)

Fixpoint client_routine_1 (clientfd : Z) (turns : list recv_res) : M kernel unit :=
  match turns with
  | [] => throw OutOfFuel
  | r :: turns =>
    match r with
    | RErr _ => sys_close clientfd
    | REof => sys_close clientfd
    | RData d => modify (fun k => k<|out := out k ++ [(clientfd, d)]|>);;; client_routine_1 clientfd turns
    end
  end.

(** [oneone_server]: the descriptors that are handed to the thread pool. *)
Fixpoint oneone_server (accepts : list (option (Z * conn))) (submitted : list Z) : M kernel (list Z) :=
  match accepts with
  | [] => ret submitted
  | a :: accepts => let! clientfd := sys_accept a in oneone_server accepts (submitted ++ [clientfd])
  end.
