(* ===== verification/EdgeServerProps.v ===== *)
(** * Edge-triggered clients are never forgotten. *)
From S2P Require Import Prelude KcpBase CLib SockIO EdgeServer.
From Stdlib Require Import Lia.
From stdpp Require Import base list numbers gmap sets.
Open Scope Z_scope.
Open Scope c_scope.

Ltac k_simpl := cbn [upd upd_conns upd_watched upd_edges upd_refused upd_out upd_came conns watched edges refused out came].

(** What a descriptor has in a list of pieces. *)
Definition of_fd (fd : Z) (l : list (Z * list Z)) : list (list Z) := snd <$> filter (fun e => e.1 = fd) l.

Lemma of_fd_app fd l l' : of_fd fd (l ++ l') = of_fd fd l ++ of_fd fd l'.
Proof. unfold of_fd. by rewrite filter_app, fmap_app. Qed.
Lemma of_fd_same fd ps : of_fd fd (map (pair fd) ps) = ps.
Proof. induction ps as [|p ps IH]; [done|]. cbn [map]. unfold of_fd in *. rewrite filter_cons_True by done. cbn. by f_equal. Qed.
Lemma of_fd_other fd fd' ps : fd <> fd' -> of_fd fd (map (pair fd') ps) = [].
Proof. intros Hne. induction ps as [|p ps IH]; [done|]. cbn [map]. unfold of_fd in *. rewrite filter_cons_False by (cbn; congruence). done. Qed.

Definition conn_ok (c : conn) : Prop := match ends c with Broken e => e <> EAGAIN | _ => True end.

(** ** The loop that reads a client *)

Lemma minus_twice (X Y : gset Z) : X ∖ Y ∖ Y = X ∖ Y.
Proof. set_solver. Qed.

Definition drained (fd : Z) (c : conn) (k : kernel) : kernel :=
  let out' := out k ++ map (pair fd) (pieces c) in
  match ends c with
  | Open => mkkernel (<[fd := mkconn [] Open]> (conns k)) (watched k) (edges k) (refused k) out' (came k)
  | _ => mkkernel (delete fd (conns k)) (watched k ∖ {[fd]}) (edges k ∖ {[fd]}) (refused k ∖ {[fd]}) out' (came k)
  end.

Lemma drain_client_spec fuel fd : forall c k, conn_ok c -> conns k !! fd = Some c -> (length (pieces c) < fuel)%nat ->
  drain fuel fd k = Ok tt (drained fd c k).
Proof.
  induction fuel as [|fuel IH]; intros [ps e] k Hok Hk Hf; [lia|]. cbn [drain]. unfold sys_recv, gets, bind. rewrite Hk.
  destruct ps as [|p ps].
  - unfold drained. cbn [pieces ends map]. destruct e as [| |errno]; cbn [conn_ok ends] in Hok.
    + unfold ret. cbn. rewrite app_nil_r, insert_id by done. by destruct k.
    + unfold ret, sys_close, epoll_del, modify. k_simpl. by rewrite app_nil_r, !minus_twice.
    + unfold ret. rewrite (proj2 (Z.eqb_neq errno EAGAIN)) by done. unfold sys_close, epoll_del, modify. k_simpl. by rewrite app_nil_r, !minus_twice.
  - unfold modify, ret. erewrite (IH (mkconn ps e)); [| done | k_simpl; by rewrite lookup_insert_eq | cbn in *; lia].
    unfold drained. cbn [pieces ends map]. destruct e; k_simpl; rewrite <- (assoc_L (++)); cbn [app];
      rewrite ?insert_insert_eq, ?delete_insert_eq; done.
Qed.

(** ** The invariant *)

(** [R] are the descriptors that were reported and are still to be handled. *)
Record inv (listen_fds : list Z) (R : gset Z) (k : kernel) : Prop := {
  inv_conn fd c : conns k !! fd = Some c ->
    fd ∉ listen_fds /\ conn_ok c /\ of_fd fd (out k) ++ pieces c = of_fd fd (came k)
    /\ (fd ∉ refused k -> fd ∈ watched k /\ (busy c = true -> fd ∈ edges k \/ fd ∈ R));
  inv_none fd : conns k !! fd = None -> (fd ∈ watched k -> fd ∈ listen_fds) /\ of_fd fd (out k) = of_fd fd (came k) /\ fd ∉ refused k
}.

(** What [accept] may give with an event: a descriptor that is not open at that moment (it
    may have been closed in the same round). *)
Definition accept_ok (listen_fds : list Z) (k : kernel) (e : event) : Prop :=
  if is_contain (ev_fd e) listen_fds then
    match ev_accept e with
    | None => True
    | Some (fd, c) => 0 <= fd /\ fd ∉ listen_fds /\ conns k !! fd = None /\ conn_ok c
    end
  else True.

Fixpoint accepts_ok (listen_fds : list Z) (k : kernel) (events : list event) : Prop :=
  match events with
  | [] => True
  | e :: events => accept_ok listen_fds k e /\ forall k', on_event listen_fds e k = Ok tt k' -> accepts_ok listen_fds k' events
  end.

(** The client of an event is there. *)
Definition there (listen_fds : list Z) (k : kernel) (e : event) : Prop := ev_fd e ∉ listen_fds -> is_Some (conns k !! ev_fd e).

Definition accepted (listen_fds : list Z) (e : event) : option Z := if is_contain (ev_fd e) listen_fds then fst <$> ev_accept e else None.

Lemma is_contain_spec fd l : is_contain fd l = true <-> fd ∈ l.
Proof. unfold is_contain. apply bool_decide_eq_true. Qed.

(** What an event leaves alone. *)
Definition others (listen_fds : list Z) (e : event) (k k' : kernel) : Prop :=
  forall fd, fd <> ev_fd e -> of_fd fd (out k') = of_fd fd (out k) /\
    (Some fd <> accepted listen_fds e -> conns k' !! fd = conns k !! fd /\ of_fd fd (came k') = of_fd fd (came k)).

Lemma accept_event listen_fds R k e : inv listen_fds R k -> accept_ok listen_fds k e -> ev_fd e ∈ listen_fds ->
  exists k', on_event listen_fds e k = Ok tt k' /\ inv listen_fds (R ∖ {[ev_fd e]}) k' /\ others listen_fds e k k'
    /\ (forall a, accepted listen_fds e = Some a -> conns k !! a = None).
Proof.
  intros [Hc Hn] Hok Hl. unfold on_event, accept_ok, others, accepted in *. rewrite (proj2 (is_contain_spec _ _) Hl) in *.
  assert (forall X : gset Z, forall fd, fd ∉ listen_fds -> fd ∈ X -> fd ∈ X ∖ {[ev_fd e]}) as HR by (intros; apply elem_of_difference; split; [done | intros ->%elem_of_singleton; done]).
  destruct (ev_accept e) as [[fd c]|].
  - destruct Hok as (Hpos & Hnl & Hnone & Hcok). unfold sys_accept, bind, modify, ret. rewrite (proj2 (Z.ltb_ge fd 0)) by done.
    unfold epoll_add, modify. k_simpl. rewrite lookup_insert_eq. destruct (Hn fd Hnone) as (_ & Hout & Hnr).
    set (k' := if ev_added e then _ else _ : kernel).
    assert (conns k' = <[fd := c]> (conns k) /\ out k' = out k /\ came k' = came k ++ map (pair fd) (pieces c)) as (E1 & E2 & E3)
      by (unfold k'; by destruct (ev_added e)).
    assert (forall fd', fd' <> fd -> fd' ∈ watched k' <-> fd' ∈ watched k) as Hw by (intros; unfold k'; destruct (ev_added e); k_simpl; set_solver).
    assert (forall fd', fd' <> fd -> fd' ∈ refused k' <-> fd' ∈ refused k) as Hr by (intros; unfold k'; destruct (ev_added e); k_simpl; set_solver).
    assert (edges k ⊆ edges k') as He by (unfold k'; destruct (ev_added e), (busy c); k_simpl; set_solver).
    exists k'. splits; [done | split | | by intros a [= <-]].
    + intros fd' c'. rewrite E1, E2, E3, of_fd_app. destruct (decide (fd' = fd)) as [->|Hne].
      * rewrite lookup_insert_eq. intros [= <-]. splits; [done | done | by rewrite of_fd_same, Hout |].
        unfold k'. destruct (ev_added e); k_simpl; [|set_solver]. intros _. split; [set_solver|]. intros ->. left. set_solver.
      * rewrite lookup_insert_ne by done. intros Hf. destruct (Hc _ _ Hf) as (H1 & H2 & H4 & H5).
        splits; [done | done | by rewrite of_fd_other, app_nil_r by done |].
        rewrite Hr, Hw by done. intros Hnf. destruct (H5 Hnf) as [H6 H7]. split; [done|]. intros Hb. destruct (H7 Hb); [left; by apply He | right; by apply HR].
    + intros fd'. rewrite E1, E2, E3, of_fd_app. destruct (decide (fd' = fd)) as [->|Hne]; [by rewrite lookup_insert_eq|].
      rewrite lookup_insert_ne by done. intros Hf. destruct (Hn _ Hf) as (H1 & H2 & H3). rewrite of_fd_other, app_nil_r by done. rewrite Hw, Hr by done. done.
    + intros fd' Hne. rewrite E1, E2, E3, of_fd_app. split; [done|]. cbn. intros Hne2. rewrite lookup_insert_ne by congruence.
      rewrite of_fd_other, app_nil_r by congruence. done.
  - exists k. splits; [done | | done | done]. split; [|done]. intros fd c Hf. destruct (Hc _ _ Hf) as (H1 & H2 & H4 & H5). splits; try done.
    intros Hnf. destruct (H5 Hnf) as [H6 H7]. split; [done|]. intros Hb. destruct (H7 Hb); [by left | right; by apply HR].
Qed.

Lemma drain_event listen_fds R k e : inv listen_fds R k -> there listen_fds k e -> ev_fd e ∉ listen_fds ->
  exists k', on_event listen_fds e k = Ok tt k' /\ inv listen_fds (R ∖ {[ev_fd e]}) k' /\ others listen_fds e k k'
    /\ of_fd (ev_fd e) (out k') = of_fd (ev_fd e) (came k).
Proof.
  intros [Hc Hn] Hok Hl. unfold on_event, others, accepted in *. assert (is_contain (ev_fd e) listen_fds = false) as E by (apply bool_decide_false, Hl).
  rewrite E in *. destruct (Hok Hl) as [c Hk]. set (fd := ev_fd e) in *. destruct (Hc _ _ Hk) as (_ & Hcok & Hout & Hw).
  unfold bind, gets. rewrite Hk. rewrite (drain_client_spec _ _ c) by (done || lia). eexists. split; [reflexivity|].
  assert (forall fd' ps, fd' <> fd -> of_fd fd' (out k ++ map (pair fd) ps) = of_fd fd' (out k)) as Hoo
    by (intros; by rewrite of_fd_app, of_fd_other, app_nil_r by done).
  assert (of_fd fd (out k ++ map (pair fd) (pieces c)) = of_fd fd (came k)) as Hof by (by rewrite of_fd_app, of_fd_same).
  unfold drained. splits; [split | | by destruct (ends c)].
  - intros fd' c' Hf. destruct (ends c) eqn:Ee; k_simpl; cbn [conns] in Hf; destruct (decide (fd' = fd)) as [->|Hne];
      rewrite ?lookup_insert_eq, ?lookup_delete_eq, ?lookup_insert_ne, ?lookup_delete_ne in Hf by done; try done.
    1: { injection Hf as <-. splits; [done | done | by rewrite app_nil_r |]. intros Hnf. split; [by apply Hw | done]. }
    all: destruct (Hc _ _ Hf) as (H1 & H2 & H4 & H5); rewrite Hoo by done; splits; try done; set_solver.
  - intros fd' Hf. destruct (ends c) eqn:Ee; k_simpl; cbn [conns] in Hf; destruct (decide (fd' = fd)) as [->|Hne];
      rewrite ?lookup_insert_eq, ?lookup_delete_eq, ?lookup_insert_ne, ?lookup_delete_ne in Hf by done; try done.
    1: { destruct (Hn _ Hf) as (? & ? & ?). by rewrite Hoo. }
    1, 3: splits; [set_solver | done | set_solver].
    all: destruct (Hn _ Hf) as (H1 & H2 & H3); rewrite Hoo by done; splits; [set_solver | done | set_solver].
  - intros fd' Hne. destruct (ends c); k_simpl; rewrite ?lookup_insert_ne, ?lookup_delete_ne by done; by rewrite Hoo.
Qed.

Lemma event_inv listen_fds R k e : inv listen_fds R k -> accept_ok listen_fds k e -> there listen_fds k e ->
  exists k', on_event listen_fds e k = Ok tt k' /\ inv listen_fds (R ∖ {[ev_fd e]}) k' /\ others listen_fds e k k'
    /\ (forall a, accepted listen_fds e = Some a -> conns k !! a = None)
    /\ (ev_fd e ∉ listen_fds -> of_fd (ev_fd e) (out k') = of_fd (ev_fd e) (came k)).
Proof.
  intros Hinv Hok Ht. destruct (decide (ev_fd e ∈ listen_fds)) as [Hl|Hl].
  - destruct (accept_event _ _ _ _ Hinv Hok Hl) as (k' & ? & ? & ? & ?). exists k'. splits; done.
  - destruct (drain_event _ _ _ _ Hinv Ht Hl) as (k' & ? & ? & ? & ?). exists k'. splits; try done.
    unfold accepted. intros a. destruct (is_contain (ev_fd e) listen_fds) eqn:E; [|done]. by apply is_contain_spec in E.
Qed.

(** The client of another event is not the one that was accepted, and stays. *)
Lemma there_kept listen_fds k k' e e' : others listen_fds e k k' -> (forall a, accepted listen_fds e = Some a -> conns k !! a = None) ->
  there listen_fds k e' -> ev_fd e' <> ev_fd e -> there listen_fds k' e' /\ (ev_fd e' ∉ listen_fds -> of_fd (ev_fd e') (came k') = of_fd (ev_fd e') (came k)).
Proof.
  intros Ho Ha Ht Hne. assert (ev_fd e' ∉ listen_fds -> Some (ev_fd e') <> accepted listen_fds e) as Hna.
  { intros Hl E. symmetry in E. apply Ha in E. destruct (Ht Hl) as [c Hc]. congruence. }
  destruct (Ho (ev_fd e') Hne) as [_ H]. split; intros Hl; destruct (H (Hna Hl)) as [E1 E2]; [rewrite E1; by apply Ht | done].
Qed.

Lemma events_inv listen_fds events : forall R k, inv listen_fds R k -> NoDup (map ev_fd events) -> Forall (there listen_fds k) events ->
  accepts_ok listen_fds k events ->
  exists k', on_events listen_fds events k = Ok tt k' /\ inv listen_fds (R ∖ list_to_set (map ev_fd events)) k'
    /\ (forall fd, fd ∉ map ev_fd events -> of_fd fd (out k') = of_fd fd (out k))
    /\ (forall e, e ∈ events -> ev_fd e ∉ listen_fds -> of_fd (ev_fd e) (out k') = of_fd (ev_fd e) (came k)).
Proof.
  induction events as [|e events IH]; intros R k Hinv Hnd Ht Hok.
  { exists k. splits; [done | | done | by intros e He%elem_of_nil]. cbn. assert (R ∖ ∅ = R) as -> by (clear; set_solver). done. }
  destruct Hok as [Hoke Hok]. apply Forall_cons in Ht as [Hte Ht]. cbn [map] in Hnd. apply NoDup_cons in Hnd as [Hne Hnd].
  destruct (event_inv _ _ _ _ Hinv Hoke Hte) as (k1 & E1 & Hinv1 & Ho & Ha & Hout).
  assert (forall e', e' ∈ events -> ev_fd e' <> ev_fd e) as Hdiff by (intros e' He' E; apply Hne; rewrite <- E; apply list_elem_of_fmap; eauto).
  rewrite Forall_forall in Ht. destruct (IH (R ∖ {[ev_fd e]}) k1 Hinv1 Hnd) as (k2 & E2 & Hinv2 & Hsame & Hall); [| by apply Hok |].
  { apply Forall_forall. intros e' He'. apply (there_kept listen_fds k k1 e e'); [exact Ho | exact Ha | by apply Ht | by apply Hdiff]. }
  exists k2. splits.
  - cbn [on_events]. unfold bind. by rewrite E1.
  - cbn [map list_to_set]. assert (R ∖ ({[ev_fd e]} ∪ list_to_set (map ev_fd events)) = R ∖ {[ev_fd e]} ∖ list_to_set (map ev_fd events)) as -> by (clear; set_solver). done.
  - intros fd [Hn1 Hn2]%not_elem_of_cons. rewrite (Hsame fd Hn2). by apply Ho.
  - intros e' [->|He']%elem_of_cons Hl; [rewrite (Hsame _ Hne); by apply Hout|]. rewrite Hall by done.
    apply (there_kept listen_fds k k1 e e'); [exact Ho | exact Ha | by apply Ht | by apply Hdiff | done].
Qed.

(** ** The runs *)

(** What [epoll_wait] and [accept] may give in a round: each descriptor once, clients that
    are there, and at each [accept] a descriptor that is not open then. *)
Record fair (listen_fds : list Z) (k : kernel) (events : list event) : Prop := {
  fair_once : NoDup (map ev_fd events);
  fair_there : Forall (there listen_fds k) events;
  fair_accepts : accepts_ok listen_fds (reported events k) events
}.

(** News on a descriptor that is watched make an edge. *)
Definition edge (fd : Z) (k : kernel) : gset Z := if bool_decide (fd ∈ watched k) then {[fd]} ∪ edges k else edges k.

Lemma edge_in fd k : fd ∈ watched k -> fd ∈ edge fd k.
Proof. intros H. unfold edge. rewrite bool_decide_true by done. set_solver. Qed.
Lemma edge_mono fd k fd' : fd' ∈ edges k -> fd' ∈ edge fd k.
Proof. unfold edge. case_bool_decide; set_solver. Qed.

Inductive step (listen_fds : list Z) : kernel -> kernel -> Prop :=
  | step_data k fd ps d : conns k !! fd = Some (mkconn ps Open) ->
      step listen_fds k (k<|conns := <[fd := mkconn (ps ++ [d]) Open]> (conns k)|><|edges := edge fd k|><|came := came k ++ [(fd, d)]|>)
  | step_end k fd ps e : conns k !! fd = Some (mkconn ps Open) -> conn_ok (mkconn ps e) ->
      step listen_fds k (k<|conns := <[fd := mkconn ps e]> (conns k)|><|edges := edge fd k|>)
  | step_round k events k' : fair listen_fds k events -> epoll_round listen_fds events k = Ok tt k' -> step listen_fds k k'.

(** The start: [added] are the listening sockets that [epoll_ctl] could add. *)
Definition server_start (added : list Z) : kernel := mkkernel ∅ (list_to_set added) ∅ ∅ [] [].

Lemma start_inv listen_fds added : added ⊆ listen_fds -> inv listen_fds ∅ (server_start added).
Proof.
  intros Ha. split; cbn; [intros fd c Hf; by rewrite lookup_empty in Hf|]. intros fd _. rewrite elem_of_list_to_set.
  splits; [apply Ha | done | apply not_elem_of_empty].
Qed.

Lemma round_inv listen_fds k events : inv listen_fds ∅ k -> fair listen_fds k events ->
  exists k', epoll_round listen_fds events k = Ok tt k' /\ inv listen_fds ∅ k'
    /\ forall e, e ∈ events -> ev_fd e ∉ listen_fds -> of_fd (ev_fd e) (out k') = of_fd (ev_fd e) (came k).
Proof.
  intros [Hc Hn] [H1 H2 H3]. unfold epoll_round, bind, modify.
  assert (inv listen_fds (list_to_set (map ev_fd events)) (reported events k)) as Hinv0.
  { split; [|exact Hn]. intros fd c Hf. destruct (Hc _ _ Hf) as (A & B & D & E). splits; [done | done | done |].
    intros Hnf. destruct (E Hnf) as [F G]. split; [done|]. intros Hb. destruct (G Hb) as [He|He]; [|by apply elem_of_empty in He].
    unfold reported. k_simpl. destruct (decide (fd ∈ (list_to_set (map ev_fd events) : gset Z))); [by right | left; by apply elem_of_difference]. }
  destruct (events_inv listen_fds events _ _ Hinv0 H1 H2 H3) as (k' & E & Hinv & _ & Hall).
  exists k'. splits; [exact E | | exact Hall]. by rewrite difference_diag_L in Hinv.
Qed.

Lemma step_inv listen_fds k k' : inv listen_fds ∅ k -> step listen_fds k k' -> inv listen_fds ∅ k'.
Proof.
  intros Hinv Hs. destruct Hs as [k fd ps d Hk|k fd ps e Hk Hok|k events k' Hf Hr].
  3:{ destruct (round_inv _ _ _ Hinv Hf) as (k1 & E & Hinv1 & _). rewrite Hr in E. by injection E as ->. }
  all: destruct Hinv as [Hc Hn]; split; [intros fd' c Hf|intros fd' Hf]; revert Hf; k_simpl; destruct (decide (fd' = fd)) as [->|Hne];
    rewrite ?lookup_insert_eq, ?lookup_insert_ne by done; try done; intros Hf.
  - injection Hf as <-. destruct (Hc _ _ Hk) as (H1 & H2 & H4 & H5). splits; try done.
    + cbn [pieces] in *. by rewrite of_fd_app, <- H4, (of_fd_same fd [d] : of_fd fd [(fd, d)] = [d]), (assoc_L (++)).
    + intros Hnf. destruct (H5 Hnf) as [H6 _]. split; [done|]. intros _. left. by apply edge_in.
  - destruct (Hc _ _ Hf) as (H1 & H2 & H4 & H5). splits; try done.
    + by rewrite of_fd_app, (of_fd_other fd' fd [d] Hne : of_fd fd' [(fd, d)] = []), app_nil_r.
    + intros Hnf. destruct (H5 Hnf) as [H6 H7]. split; [done|]. intros Hb. destruct (H7 Hb); [left; by apply edge_mono | by right].
  - destruct (Hn _ Hf) as (H1 & H2 & H3). splits; try done. by rewrite of_fd_app, (of_fd_other fd' fd [d] Hne : of_fd fd' [(fd, d)] = []), app_nil_r.
  - injection Hf as <-. destruct (Hc _ _ Hk) as (H1 & H2 & H4 & H5). splits; try done.
    intros Hnf. destruct (H5 Hnf) as [H6 _]. split; [done|]. intros _. left. by apply edge_in.
  - destruct (Hc _ _ Hf) as (H1 & H2 & H4 & H5). splits; try done.
    intros Hnf. destruct (H5 Hnf) as [H6 H7]. split; [done|]. intros Hb. destruct (H7 Hb); [left; by apply edge_mono | by right].
  - exact (Hn _ Hf).
Qed.

(** C35: the edge-triggered server forgets no client that [epoll_ctl] has added.  Whatever
    has happened, such a connection is watched, and when it has something unread, or has
    ended, it is one that [epoll_wait] will report; what has been printed of a descriptor,
    followed by what is unread, is what has come on it, in order; and a round never fails,
    and prints all that had come before it from the clients it was about, also when a
    descriptor that it closes is given out again in the same round.  (The kernel reports
    each descriptor once a round and only clients that are there, and [accept] gives a
    descriptor that is not open.  The server does not look at the result of [epoll_ctl]: a
    client that could not be added is forgotten, [edge_refused_forgotten].) *)
Theorem edge_none_forgotten listen_fds added k : added ⊆ listen_fds -> star (step listen_fds) (server_start added) k ->
  (forall fd c, conns k !! fd = Some c -> fd ∉ refused k -> fd ∈ watched k /\ (busy c = true -> fd ∈ edges k)) /\
  (forall fd, of_fd fd (out k) ++ match conns k !! fd with Some c => pieces c | None => [] end = of_fd fd (came k)) /\
  (forall events, fair listen_fds k events -> exists k', epoll_round listen_fds events k = Ok tt k' /\
     forall e, e ∈ events -> ev_fd e ∉ listen_fds -> of_fd (ev_fd e) (out k') = of_fd (ev_fd e) (came k)).
Proof.
  intros Ha Hreach. assert (inv listen_fds ∅ k) as Hinv.
  { eapply (star_invariant (step listen_fds) (inv listen_fds ∅)); [intros; by eapply step_inv | exact Hreach | by apply start_inv]. }
  splits.
  - intros fd c Hf Hnf. destruct (inv_conn _ _ _ Hinv _ _ Hf) as (_ & _ & _ & H). destruct (H Hnf) as [Hw Hb]. split; [done|].
    intros Hbusy. destruct (Hb Hbusy) as [|He]; [done|]. by apply elem_of_empty in He.
  - intros fd. destruct (conns k !! fd) as [c|] eqn:E; [by destruct (inv_conn _ _ _ Hinv _ _ E) as (_ & _ & H & _)|].
    rewrite app_nil_r. by apply (inv_none _ _ _ Hinv).
  - intros events Hf. destruct (round_inv _ _ _ Hinv Hf) as (k' & ? & _ & ?). eauto.
Qed.

(** One client that came with a piece. *)
Definition one_client : kernel := mkkernel {[ 4 := mkconn [[104; 105]] Open ]} {[3; 4]} {[4]} ∅ [] [(4, [104; 105])].

Lemma join_fair added : fair [3] (server_start [3]) [mkevent 3 (Some (4, mkconn [[104; 105]] Open)) added].
Proof.
  split; [repeat constructor; set_solver | |].
  - constructor; [|constructor]. intros H. destruct H. by apply list_elem_of_singleton.
  - split; [|done]. change (0 <= 4 /\ 4 ∉ [3] /\ (∅ : gmap Z conn) !! 4 = None /\ True). splits; [lia | set_solver | apply lookup_empty | done].
Qed.

Lemma one_client_reached : star (step [3]) (server_start [3]) one_client.
Proof. apply star_one. eapply step_round; [apply (join_fair true) | vm_compute; reflexivity]. Qed.

Lemma edge_none_forgotten_witness :
  (forall fd c, conns one_client !! fd = Some c -> fd ∉ refused one_client -> fd ∈ watched one_client /\ (busy c = true -> fd ∈ edges one_client)) /\
  (forall fd, of_fd fd (out one_client) ++ match conns one_client !! fd with Some c => pieces c | None => [] end = of_fd fd (came one_client)) /\
  (forall events, fair [3] one_client events -> exists k', epoll_round [3] events one_client = Ok tt k' /\
     forall e, e ∈ events -> ev_fd e ∉ [3] -> of_fd (ev_fd e) (out k') = of_fd (ev_fd e) (came one_client)).
Proof. apply (edge_none_forgotten [3] [3] one_client); [done | apply one_client_reached]. Defined.

(** A client that [epoll_ctl] does not add: its message waits, nothing watches it and no
    edge will come. *)
Lemma edge_refused_forgotten : exists k, star (step [3]) (server_start [3]) k /\
  conns k !! 4 = Some (mkconn [[104; 105]] Open) /\ 4 ∉ watched k /\ 4 ∉ edges k.
Proof.
  eexists. split; [apply star_one; eapply step_round; [apply (join_fair false) | vm_compute; reflexivity]|].
  splits; [reflexivity | |]; refine (bool_decide_unpack _ _); vm_compute; exact I.
Qed.

(** ** The listening sockets *)

Lemma listen_ports_spec port calls : (forall i, 0 <= s_socket (calls i) /\ s_bind (calls i) = 0 /\ s_listen (calls i) = 0) ->
  0 <= port <= 65535 -> forall n i acc, 0 <= i -> port + i <= 65536 ->
  listen_ports n port i calls acc
  = inr (acc ++ map (fun j => (port + j, s_socket (calls j))) (seqZ i (Z.min (Z.of_nat n) (65536 - port - i)))).
Proof.
  intros Hc Hp n. induction n as [|n IH]; intros i acc Hi Hle; cbn [listen_ports].
  { replace (Z.min _ _) with 0 by lia. cbn. by rewrite app_nil_r. }
  unfold past_end, u64. rewrite Z.mod_small by lia. destruct (65535 <? port + i) eqn:E.
  { replace (Z.min _ _) with 0 by lia. cbn. by rewrite app_nil_r. }
  destruct (Hc i) as (Hs & Hb & Hl). rewrite (proj2 (Z.ltb_ge _ 0) Hs), Hb, Hl. cbn [Z.ltb Z.compare].
  rewrite IH by lia. rewrite (seqZ_cons i) by lia. rewrite <- (assoc_L (++)). cbn [map app]. repeat f_equal; lia.
Qed.

(** [main] listens on a hundred ports from the one it was given, or on those that are left. *)
Theorem tcp7_main_ports port calls : (forall i, 0 <= s_socket (calls i) /\ s_bind (calls i) = 0 /\ s_listen (calls i) = 0) -> 0 <= port <= 65535 ->
  tcp7_main port calls = inr (map (fun i => (port + i, s_socket (calls i))) (seqZ 0 (Z.min 100 (65536 - port)))).
Proof. intros Hc Hp. unfold tcp7_main. rewrite listen_ports_spec by (done || lia). by rewrite Z.sub_0_r. Qed.
