(* ===== verification/Coroutine.v ===== *)
(** * ucontext-backup.c, setjmp.c and coroutine.cpp: contexts that hand control to each other.

    A context is suspended at its beginning or behind its [swapcontext]; [swapcontext] is a
    change of the context that runs. What is printed is the output. *)
From S2P Require Import Prelude KcpBase CLib.
From Stdlib Require Import Lia.
From stdpp Require Import base list numbers.
Open Scope Z_scope.
Open Scope c_scope.

(** [main_ctx] or one of [ctx]. *)
Inductive context : Type := MainCtx | Ctx (i : nat).
Inductive resume_at : Type := AtEntry | BehindSwap | Returned.

Record machine : Type := mkmachine { count : Z; saved : list resume_at; output : list Z }.
Definition eta_machine (m : machine) : machine := mkmachine (count m) (saved m) (output m).
#[export] Instance upd_count : Upd count := ltac:(build_upd eta_machine count).
#[export] Instance upd_saved : Upd saved := ltac:(build_upd eta_machine saved).
#[export] Instance upd_output : Upd output := ltac:(build_upd eta_machine output).

(** A function of the form that both programs use:
    [while (count++ < limit) { print(first); swapcontext(me, &other); print(second); }] *)
Record body : Type := mkbody { first : Z; other : context; second : Z }.

Definition print (x : Z) : M machine unit := modify (fun m => m<|output := output m ++ [x]|>).

(** The test of the loop, up to the next change of context. *)
Definition loop_test (limit : Z) (b : body) (i : nat) : M machine context :=
  let! c := gets count in
  modify (fun m => m<|count := s32 (count m + 1)|>);;;
  if c <? limit then
    print (first b);;;
    modify (fun m => m<|saved := <[i := BehindSwap]> (saved m)|>);;;
    ret (other b)
  else
    modify (fun m => m<|saved := <[i := Returned]> (saved m)|>);;;
    ret MainCtx.                                                        (* uc_link *)

(** The context [i] runs until control goes elsewhere. *)
Definition resume (limit : Z) (bodies : list body) (i : nat) : M machine context :=
  let! b := of_option OutOfBounds (bodies !! i) in
  let! at_ := gets (fun m => saved m !! i) in
  match at_ with
  | Some AtEntry => loop_test limit b i
  | Some BehindSwap => print (second b);;; loop_test limit b i
  | _ => throw Aborted                                                  (* it has no stack any more *)
  end.

(** The contexts run until control is back in [main]. *)
Fixpoint until_main (fuel : nat) (limit : Z) (bodies : list body) (c : context) : M machine unit :=
  match c with
  | MainCtx => ret tt
  | Ctx i =>
    match fuel with
    | O => throw OutOfFuel
    | S fuel => let! c := resume limit bodies i in until_main fuel limit bodies c
    end
  end.

(** ** ucontext-backup.c: a scheduler *)

Definition scheduled : list body := [mkbody 1 MainCtx 4; mkbody 2 MainCtx 5; mkbody 3 MainCtx 6].

(** The loop of [main]: [while (count <= limit) swapcontext(&main_ctx, &ctx[count%3]);] *)
Fixpoint schedule (fuel : nat) (limit : Z) : M machine unit :=
  let! c := gets count in
  if negb (c <=? limit) then ret tt
  else
    match fuel with
    | O => throw OutOfFuel
    | S fuel => until_main 1 limit scheduled (Ctx (Z.to_nat (c mod 3)));;; schedule fuel limit
    end.

Definition fresh_machine (n : nat) : machine := mkmachine 0 (replicate n AtEntry) [].

(** The hooks: [read] and [write] print what they carry; [read_f] and [write_f] are what the
    next library gives. *)
Inductive hooked : Type := HookWrite (buf : list Z) | HookRead (buf : list Z).
Definition hook_write (write_f : Z) (buf : list Z) : M (list hooked) Z := modify (fun l => l ++ [HookWrite (cstr buf)]);;; ret write_f.
Definition hook_read (read_f : Z) (buf : list Z) : M (list hooked) Z := modify (fun l => l ++ [HookRead (cstr buf)]);;; ret read_f.

(** ** coroutine.cpp: two contexts that call each other *)

Definition paired : list body := [mkbody 1 (Ctx 1) 3; mkbody 2 (Ctx 0) 4].
Definition ucontext_test (fuel : nat) (limit : Z) : M machine unit := until_main fuel limit paired (Ctx 0);;; print 4.

(** ** setjmp.c, and [jmp_test] of coroutine.cpp *)

(** [func] prints its argument and jumps back to [setjmp], which then gives the next number;
    [longjmp] with 0 would give 1. *)
Fixpoint jmp_test (fuel : nat) (ret_ : Z) : M machine unit :=
  if (ret_ =? 0) || (ret_ =? 1) || (ret_ =? 2) || (ret_ =? 3) then
    match fuel with
    | O => throw OutOfFuel
    | S fuel => print ret_;;; let v := ret_ + 1 in jmp_test fuel (if v =? 0 then 1 else v)
    end
  else ret tt.

(** ** What they print *)

(** The turn of the scheduler at [count = k]: the end of the round before of the context, if
    it has run, and the beginning of the next one, if there is one. *)
Definition turn (limit k : Z) : list Z :=
  (if k <? 3 then [] else [k mod 3 + 4]) ++ (if k <? limit then [k mod 3 + 1] else []).

Record at_turn (limit k : Z) (m : machine) : Prop := {
  at_count : count m = k;
  at_saved j : (j < 3)%nat -> saved m !! j = Some (if k <=? Z.of_nat j then AtEntry else BehindSwap)
}.

Lemma scheduled_lookup k : 0 <= k -> exists b, scheduled !! Z.to_nat (k mod 3) = Some b /\
  first b = k mod 3 + 1 /\ other b = MainCtx /\ second b = k mod 3 + 4.
Proof.
  intros Hk. pose proof (Z.mod_pos_bound k 3 ltac:(lia)).
  assert (k mod 3 = 0 \/ k mod 3 = 1 \/ k mod 3 = 2) as [->|[->| ->]] by lia; eexists; by repeat split.
Qed.

(** One turn. *)
Lemma turn_spec limit k m : 0 <= k <= limit -> limit < 2147483647 -> at_turn limit k m ->
  exists m', until_main 1 limit scheduled (Ctx (Z.to_nat (k mod 3))) m = Ok tt m' /\ count m' = k + 1
    /\ output m' = output m ++ turn limit k /\ (k < limit -> at_turn limit (k + 1) m').
Proof.
  intros Hk Hl [Hc Hs]. destruct (scheduled_lookup k ltac:(lia)) as (b & Hb & E1 & E2 & E3).
  pose proof (Z.mod_pos_bound k 3 ltac:(lia)) as Hm. pose proof (Hs (Z.to_nat (k mod 3)) ltac:(lia)) as Hsk. rewrite Z2Nat.id in Hsk by lia.
  cbn [until_main]. unfold resume, bind, of_option, gets. rewrite Hb. cbv beta iota zeta. unfold ret at 1. cbv beta iota. rewrite Hsk.
  assert (forall x, 0 <= x <= limit -> s32 (x + 1) = x + 1) as H32 by (intros; apply s32_id; lia).
  assert (k <=? k mod 3 = (k <? 3)) as E4.
  { destruct (k <? 3) eqn:E; [rewrite Z.mod_small by lia; lia|]. lia. }
  rewrite E4. unfold turn.
  assert (forall w, count w = k -> (forall j, (j < 3)%nat -> saved w !! j = saved m !! j) -> exists m',
    match loop_test limit b (Z.to_nat (k mod 3)) w with Ok a w' => match a with MainCtx => ret tt | Ctx _ => throw OutOfFuel end w' | Fault f => Fault f end = Ok tt m'
    /\ count m' = k + 1 /\ output m' = output w ++ (if k <? limit then [k mod 3 + 1] else []) /\ (k < limit -> at_turn limit (k + 1) m')) as Hgo.
  { intros w Hw Hsv. unfold loop_test, bind, gets, modify, print, ret. rewrite Hw. destruct (k <? limit) eqn:E.
    - rewrite E2. eexists. split; [reflexivity|]. cbn [upd upd_count upd_saved upd_output count saved output]. rewrite E1, H32 by lia.
      splits; [done | done |]. intros _. split; [done|]. intros j Hj. cbn [saved]. destruct (decide (j = Z.to_nat (k mod 3))) as [->|Hne].
      + rewrite list_lookup_insert_eq; [f_equal; rewrite Z2Nat.id by lia; destruct (Z.leb_spec (k + 1) (k mod 3)); [|done]; pose proof (Z.mod_le k 3 ltac:(lia) ltac:(lia)); lia|].
        apply (lookup_lt_Some _ _ _ (eq_trans (Hsv _ Hj) (Hs _ Hj))).
      + rewrite list_lookup_insert_ne, Hsv, Hs by done. f_equal.
        destruct (Z.leb_spec k (Z.of_nat j)), (Z.leb_spec (k + 1) (Z.of_nat j)); try done; [|lia].
        assert (k = Z.of_nat j) by lia. exfalso. apply Hne. rewrite Z.mod_small by lia. lia.
    - eexists. split; [reflexivity|]. cbn [upd upd_count upd_saved upd_output count saved output]. rewrite H32 by lia.
      splits; [done | by rewrite app_nil_r | lia]. }
  destruct (k <? 3); [exact (Hgo m Hc (fun _ _ => eq_refl))|].
  destruct (Hgo (m<|output := output m ++ [second b]|>)) as (m' & Hr & H1 & H2 & H3); [exact Hc | done |].
  exists m'. splits; [exact Hr | done | rewrite H2; cbn; by rewrite E3, <- (assoc_L (++)) | done].
Qed.

Lemma schedule_spec limit fuel : forall k m, 0 <= k <= limit -> limit < 2147483647 -> limit - k < Z.of_nat fuel -> at_turn limit k m ->
  exists m', schedule fuel limit m = Ok tt m' /\ count m' = limit + 1 /\ output m' = output m ++ concat (map (turn limit) (seqZ k (limit + 1 - k))).
Proof.
  induction fuel as [|fuel IH]; intros k m Hk Hl Hf Ha; [lia|]. cbn [schedule]. unfold bind at 1, gets. rewrite (at_count _ _ _ Ha).
  rewrite (proj2 (Z.leb_le k limit)) by lia. cbn [negb]. unfold bind.
  destruct (turn_spec limit k m Hk Hl Ha) as (m1 & -> & Hc & Ho & Hn). rewrite (seqZ_cons k) by lia. cbn [map concat].
  replace (Z.succ k) with (k + 1) by lia. replace (Z.pred (limit + 1 - k)) with (limit + 1 - (k + 1)) by lia.
  destruct (Z.eq_dec k limit) as [->|Hne].
  - exists m1. replace (limit + 1 - (limit + 1)) with 0 by lia. cbn [seqZ map concat]. rewrite app_nil_r. splits; [| done | done].
    destruct fuel; cbn [schedule]; unfold bind, gets; rewrite Hc, (proj2 (Z.leb_gt (limit + 1) limit)) by lia; done.
  - destruct (IH (k + 1) m1) as (m' & Hr & Hc' & Ho'); [lia | done | lia | apply Hn; lia |].
    exists m'. splits; [done | done |]. by rewrite Ho', Ho, <- (assoc_L (++)).
Qed.

(** C40: the scheduler of ucontext-backup.c ends, after exactly one turn for each value of
    [count] up to the limit, dealt in rotation, and what it prints is the output of these
    turns, whatever the limit. *)
Theorem schedule_round_robin limit fuel : 0 <= limit < 2147483647 -> limit < Z.of_nat fuel ->
  exists m, schedule fuel limit (fresh_machine 3) = Ok tt m /\ count m = limit + 1 /\ output m = concat (map (turn limit) (seqZ 0 (limit + 1))).
Proof.
  intros Hl Hf. destruct (schedule_spec limit fuel 0 (fresh_machine 3)) as (m & H1 & H2 & H3); [lia | lia | lia | |].
  - split; [done|]. intros j Hj. assert (0 <=? Z.of_nat j = true) as -> by lia. by destruct j as [|[|[|]]]; try lia.
  - exists m. rewrite Z.sub_0_r in H3. by splits.
Qed.

(** With the limit of the source. *)
Lemma schedule_round_robin_witness : exists m, schedule 31 30 (fresh_machine 3) = Ok tt m /\ count m = 30 + 1 /\
  output m = concat (map (turn 30) (seqZ 0 (30 + 1))).
Proof. apply (schedule_round_robin 30 31); lia. Defined.

Example schedule_begins : take 12 (concat (map (turn 30) (seqZ 0 31))) = [1; 2; 3; 4; 1; 5; 2; 6; 3; 4; 1; 5].
Proof. vm_compute. reflexivity. Qed.

(** The two contexts of coroutine.cpp alternate until the first one returns; the second one
    is left behind its [swapcontext]. *)
Theorem ucontext_test_output : exists m, ucontext_test 21 20 (fresh_machine 2) = Ok tt m /\
  output m = [1; 2] ++ concat (replicate 9 [3; 1; 4; 2]) ++ [3; 4] /\ saved m = [Returned; BehindSwap].
Proof. eexists. split; [vm_compute; reflexivity|]. split; reflexivity. Qed.

(** [func] is called with 0, 1, 2 and 3. *)
Theorem jmp_test_output : exists m, jmp_test 4 0 (fresh_machine 0) = Ok tt m /\ output m = [0; 1; 2; 3].
Proof. eexists. split; [vm_compute; reflexivity | reflexivity]. Qed.
