(* ===== verification/HttpGet.v ===== *)
(** * httptest.cpp of test6: one HTTP request.

    The resolver, the socket calls and the rounds of [select] are arguments; the world holds
    the descriptors that are open, what was given to [send] and what was printed. *)
From S2P Require Import Prelude KcpBase CLib SockIO.
From Stdlib Require Import Lia.
From stdpp Require Import base list numbers strings.
Open Scope Z_scope.
Open Scope c_scope.

Record web_client : Type := mkwc { held : list Z; wires : list (Z * list Z); messages : list (list Z) }.
Definition eta_wc (w : web_client) : web_client := mkwc (held w) (wires w) (messages w).
#[export] Instance upd_held : Upd held := ltac:(build_upd eta_wc held).
#[export] Instance upd_wires : Upd wires := ltac:(build_upd eta_wc wires).
#[export] Instance upd_messages : Upd messages := ltac:(build_upd eta_wc messages).

Definition BUFFER_SIZE : Z := 4096.
Definition FD_SETSIZE : Z := 1024.

(** A round of the loop: what [select] returns, whether it sets the descriptor, and what
    [recv] would give. *)
Record turn : Type := mkturn { t_select : Z; t_isset : bool; t_recv : recv_res }.

(** [getaddrinfo] with the address as text (None: it fails), [socket], [connect], the count of [send], and the rounds. *)
Record network : Type := mknetwork { n_ip : option (list Z); n_socket : Z; n_connect : Z; n_sent : Z; n_turns : list turn }.

Definition host_to_ip (n : network) : list Z := default [] (n_ip n).

(** [close] of a descriptor that may be no descriptor. *)
Definition close_fd (fd : Z) : M web_client unit := modify (fun w => w<|held := List.filter (fun x => negb (x =? fd)) (held w)|>).

Definition http_create_socket (n : network) : M web_client Z :=
  let sockfd := n_socket n in
  (if sockfd <? 0 then ret tt else modify (fun w => w<|held := sockfd :: held w|>));;;
  if negb (n_connect n =? 0) then close_fd sockfd;;; ret (-1) else ret sockfd.

Definition crlf : list Z := [13; 10].
Definition get_request (hostname resourse : list Z) : list Z :=
  let request := text "GET " ++ resourse ++ text " HTTP/1.1" ++ crlf in
  let request := request ++ text "Host: " ++ hostname ++ crlf in
  let request := request ++ text "Connection: close" ++ crlf in
  request ++ crlf.

(** The loop of [select] and [recv]; an error of [recv] goes round again. *)
Fixpoint read_response (sockfd : Z) (turns : list turn) (response : list Z) : M web_client (list Z) :=
  match turns with
  | [] => throw OutOfFuel
  | t :: turns =>
    if negb ((0 <=? sockfd) && (sockfd <? FD_SETSIZE)) then throw OutOfBounds      (* FD_SET *)
    else if (t_select t <=? 0) || negb (t_isset t) then ret response
    else
      match t_recv t with
      | REof => ret response
      | RData d => read_response sockfd turns (response ++ take (Z.to_nat BUFFER_SIZE) d)
      | RErr _ => read_response sockfd turns response
      end
  end.

Definition http_send_get_request (n : network) (hostname resourse : list Z) : M web_client (list Z) :=
  let ip := host_to_ip n in
  if bool_decide (ip = []) then modify (fun w => w<|messages := messages w ++ [text "failed to resolve hostname"]|>);;; ret []
  else
    let! sockfd := http_create_socket n in
    let request := get_request hostname resourse in
    modify (fun w => w<|wires := wires w ++ [(sockfd, request)]|>);;;
    let send_num := if sockfd <? 0 then -1 else n_sent n in
    if negb (send_num =? Z.of_nat (length request)) then close_fd sockfd;;; ret []
    else
      let! response := read_response sockfd (n_turns n) [] in
      close_fd sockfd;;;
      ret response.

(** [main]. *)
Definition http_main (n : network) (args : list (list Z)) : M web_client Z :=
  match args with
  | hostname :: resourse :: _ =>
    let! response := http_send_get_request n hostname resourse in
    modify (fun w => w<|messages := messages w ++ [response]|>);;; ret 0
  | _ => ret (-1)
  end.

(** ** What it returns *)

(** The response: all that came before the first round that stops. *)
Definition stops (t : turn) : bool := (t_select t <=? 0) || negb (t_isset t) || match t_recv t with REof => true | _ => false end.
Fixpoint arrived (turns : list turn) : list Z :=
  match turns with
  | [] => []
  | t :: turns => if stops t then [] else match t_recv t with RData d => d | _ => [] end ++ arrived turns
  end.
Definition fits (t : turn) : Prop := match t_recv t with RData d => Z.of_nat (length d) <= BUFFER_SIZE | _ => True end.

Lemma read_response_spec sockfd turns : 0 <= sockfd < FD_SETSIZE -> Forall fits turns -> Exists (fun t => stops t = true) turns ->
  forall response w, read_response sockfd turns response w = Ok (response ++ arrived turns) w.
Proof.
  intros Hs Hf. induction Hf as [|t turns Ht Hf IH]; intros Hex response w; [by apply Exists_nil in Hex|]. cbn [read_response arrived].
  assert ((0 <=? sockfd) && (sockfd <? FD_SETSIZE) = true) as -> by lia. cbn [negb]. unfold stops at 1.
  destruct ((t_select t <=? 0) || negb (t_isset t)) eqn:E; cbn [orb]; [by rewrite app_nil_r|].
  destruct (t_recv t) as [d| |e] eqn:Er; [| by rewrite app_nil_r |].
  all: assert (Exists (fun t => stops t = true) turns) as Hex' by (apply Exists_cons in Hex as [Hst|]; [unfold stops in Hst; rewrite E, Er in Hst; done | done]).
  - unfold fits in Ht. rewrite Er in Ht. rewrite take_ge by (unfold BUFFER_SIZE in *; lia). by rewrite IH, <- (assoc_L (++)).
  - by rewrite IH.
Qed.

Lemma close_held fd (l : list Z) : fd ∉ l -> List.filter (fun x => negb (x =? fd)) l = l.
Proof.
  induction l as [|x l IH]; intros H; [done|]. apply not_elem_of_cons in H as [Hne H]. cbn.
  rewrite (proj2 (Z.eqb_neq x fd)) by done. cbn. by rewrite IH.
Qed.

(** The request, once the host is found and the connection made, is the GET request for the
    resource; the answer is what the server sent until it closed or fell silent, without the
    bytes of the rounds that failed; and no descriptor is left. *)
Theorem http_get_exact n hostname resourse ip w :
  n_ip n = Some ip -> ip <> [] -> 0 <= n_socket n < FD_SETSIZE -> n_socket n ∉ held w -> n_connect n = 0 ->
  n_sent n = Z.of_nat (length (get_request hostname resourse)) -> Forall fits (n_turns n) -> Exists (fun t => stops t = true) (n_turns n) ->
  http_send_get_request n hostname resourse w
  = Ok (arrived (n_turns n)) (w<|wires := wires w ++ [(n_socket n, text "GET " ++ resourse ++ text " HTTP/1.1" ++ crlf ++ text "Host: " ++ hostname ++ crlf
      ++ text "Connection: close" ++ crlf ++ crlf)]|>).
Proof.
  intros Hip Hne Hs Hh Hc Hn Hf Hex. unfold http_send_get_request, host_to_ip. rewrite Hip. cbn [default]. rewrite bool_decide_false by done.
  unfold http_create_socket, bind, modify, ret. rewrite (proj2 (Z.ltb_ge _ 0)) by lia. rewrite Hc. cbn [Z.eqb negb].
  rewrite (proj2 (Z.ltb_ge _ 0)) by lia. rewrite Hn, Z.eqb_refl. cbn [negb]. rewrite read_response_spec by done.
  unfold close_fd, modify. cbn [upd upd_held upd_wires held wires messages List.filter]. rewrite Z.eqb_refl. cbn [negb].
  rewrite close_held by done. cbn [app]. do 3 f_equal. unfold get_request. do 2 f_equal. by rewrite <- !(assoc_L (++)).
Qed.

(** Whatever fails, no descriptor is left. *)
Theorem http_get_closes n hostname resourse w : n_socket n < FD_SETSIZE -> n_socket n ∉ held w -> -1 ∉ held w ->
  Exists (fun t => stops t = true) (n_turns n) ->
  exists response w', http_send_get_request n hostname resourse w = Ok response w' /\ held w' = held w.
Proof.
  intros Hs Hh Hm Hex. unfold http_send_get_request. case_bool_decide; [by eexists _, _|].
  unfold http_create_socket, bind, modify, ret, close_fd.
  assert (forall s w0, 0 <= s < FD_SETSIZE -> exists r, read_response s (n_turns n) [] w0 = Ok r w0) as Hread.
  { intros s w0 Hs0. generalize (@nil Z). induction Hex as [t turns Ht|t turns _ IH]; intros r; cbn [read_response];
      (assert ((0 <=? s) && (s <? FD_SETSIZE) = true) as -> by lia); cbn [negb]; unfold stops in *;
      (destruct ((t_select t <=? 0) || negb (t_isset t)); [by eexists|]); destruct (t_recv t); try done; try (by eexists); apply IH. }
  assert (forall l : nat, (-1 =? Z.of_nat l) = false) as Hm1 by (intros; apply Z.eqb_neq; lia).
  unfold modify. destruct (n_socket n <? 0) eqn:E.
  - destruct (negb (n_connect n =? 0)); cbn [Z.ltb Z.compare]; rewrite ?E.
    + rewrite Hm1. cbn [negb]. eexists _, _. split; [reflexivity|]. cbn. rewrite (close_held (n_socket n)) by done. by rewrite close_held.
    + rewrite Hm1. cbn [negb]. eexists _, _. split; [reflexivity|]. cbn. by rewrite close_held.
  - destruct (negb (n_connect n =? 0)); cbn [Z.ltb Z.compare]; rewrite ?E.
    + rewrite Hm1. cbn [negb]. eexists _, _. split; [reflexivity|]. cbn. rewrite Z.eqb_refl. cbn. rewrite (close_held (n_socket n)) by done. by rewrite close_held.
    + destruct (negb (n_sent n =? _)).
      * eexists _, _. split; [reflexivity|]. cbn. rewrite Z.eqb_refl. cbn. by rewrite close_held.
      * edestruct (Hread (n_socket n)) as [r ->]; [lia|]. eexists _, _. split; [reflexivity|]. cbn. rewrite Z.eqb_refl. cbn. by rewrite close_held.
Qed.
