(* ===== verification/MulServer.v ===== *)
(** * The rest of server_mulport_epoll.c: its main function, and the two loops that nothing calls.

    The sockets' setup and the loop on [epoll_wait] around the events of SockIO.v, and the
    queue of a listening socket, whose edge is reported once for all that wait in it. *)
From S2P Require Import Prelude KcpBase CLib SockIO.
From Stdlib Require Import Lia.
From stdpp Require Import base list numbers.
Open Scope Z_scope.
Open Scope c_scope.

Definition SERVER_PORT : Z := 8080.

(** What [socket], [bind] and [listen] give for one port. *)
Record opening : Type := mkopening { o_socket : Z; o_bind : Z; o_listen : Z }.

(** The loop of [main] over the ports: its result when it fails, or the sockets. *)
Fixpoint open_ports (n : nat) (i : Z) (calls : Z -> opening) (sockfds : list (Z * Z)) : Z + list (Z * Z) :=
  match n with
  | O => inr sockfds
  | S n =>
    let o := calls (SERVER_PORT + i) in
    if o_socket o <? 0 then inl 1
    else if o_bind o <? 0 then inl 2
    else if o_listen o <? 0 then inl 3
    else open_ports n (i + 1) calls (sockfds ++ [(SERVER_PORT + i, o_socket o)])
  end.

(** An event with what the calls on its descriptor give. *)
Record main_input : Type := mkinput { in_fd : Z; in_accept : Z; in_recv : list (recv_res * poll_res); in_send : list (poll_res * Z) }.

(** The loop over the events; true when [main] returns. *)
Fixpoint main_events (events : list main_input) (s : epoll_server) : res epoll_server bool :=
  match events with
  | [] => Ok false s
  | e :: events =>
    match main_event (in_fd e) (in_accept e) (in_recv e) (in_send e) s with
    | Fault f => Fault f
    | Ok true s => Ok true s
    | Ok false s => main_events events s
    end
  end.

(** The loop on [epoll_wait] (None: it fails), and what [main] returns. *)
Fixpoint main_rounds (rounds : list (option (list main_input))) (s : epoll_server) : res epoll_server Z :=
  match rounds with
  | [] => Fault OutOfFuel
  | None :: _ => Ok 0 s
  | Some events :: rounds =>
    match main_events events s with
    | Fault f => Fault f
    | Ok true s => Ok 4 s
    | Ok false s => main_rounds rounds s
    end
  end.
Definition mul_main (calls : Z -> opening) (rounds : list (option (list main_input))) : res epoll_server Z :=
  match open_ports MAX_PORT 0 calls [] with
  | inl code => Ok code (mkepoll 1 false [] [] [] [])
  | inr fds => main_rounds rounds (mkepoll 1 false (map snd fds) [] [] [])
  end.

(** [client_cb]: what it sends back, until the client is gone. *)
Fixpoint client_cb (turns : list recv_res) (sent : list Z) : res unit (list Z) :=
  match turns with
  | [] => Fault OutOfFuel
  | RData (c :: d) :: turns => client_cb turns (sent ++ take (Z.to_nat MAX_BUFFER) (c :: d))
  | _ :: _ => Ok sent tt
  end.

(** [epoll_et_loop]: what it prints, and whether it closes the socket. *)
Fixpoint epoll_et_loop (turns : list recv_res) (printed : list (list Z)) : res unit (bool * list (list Z)) :=
  match turns with
  | [] => Fault OutOfFuel
  | RErr e :: _ => if e =? EAGAIN then Ok (false, printed) tt else Ok (true, printed) tt
  | REof :: _ => Ok (true, printed) tt
  | RData d :: turns =>
    let d := take (Z.to_nat MAX_BUFFER) d in
    let buffer := d ++ replicate (Z.to_nat MAX_BUFFER - length d) 0 in
    match strlen buffer with
    | None => Fault OutOfBounds
    | Some n => epoll_et_loop turns (printed ++ [take (Z.to_nat n) buffer])
    end
  end.

(** ** The queue of a listening socket *)

(** The connections that wait to be accepted, and the edge that [epoll_wait] has to report. *)
Record backlog : Type := mkbacklog { waiting : list Z; edge : bool }.

(** A connection comes. *)
Definition arrives (fd : Z) (b : backlog) : backlog := mkbacklog (waiting b ++ [fd]) true.

(** A round for this socket: the edge is reported and taken away, and the event of [main]
    accepts one connection. *)
Definition listen_round (sock : Z) (s : epoll_server) (b : backlog) : res epoll_server backlog :=
  if negb (edge b) then Ok b s
  else
    match waiting b with
    | [] => Ok (mkbacklog [] false) s
    | fd :: rest =>
      match main_event sock fd [] [] s with
      | Ok _ s => Ok (mkbacklog rest false) s
      | Fault f => Fault f
      end
    end.
Fixpoint listen_rounds (n : nat) (sock : Z) (s : epoll_server) (b : backlog) : res epoll_server backlog :=
  match n with
  | O => Ok b s
  | S n => match listen_round sock s b with Ok b s => listen_rounds n sock s b | Fault f => Fault f end
  end.

(** ** Properties *)

Lemma listen_quiet n sock s l : listen_rounds n sock s (mkbacklog l false) = Ok (mkbacklog l false) s.
Proof. induction n as [|n IH]; [done|]. cbn. exact IH. Qed.

(** The listening sockets are edge-triggered, and an event accepts one connection: of those
    that have come since the last round only the first is accepted, and the others wait,
    however many rounds follow, until another connection comes. *)
Theorem listen_forgets sock s fd rest n : listenfd sock (sockfds s) <> 0 -> 0 <= fd -> curfds s <= 1000 * 1000 ->
  let b := fold_left (fun b x => arrives x b) (fd :: rest) (mkbacklog [] false) in
  listen_rounds (S n) sock s b = Ok (mkbacklog rest false) (s<|curfds := s32 (curfds s + 1)|><|clients := clients s ++ [fd]|>).
Proof.
  intros Hs Hfd Hc. assert (forall l b, fold_left (fun b x => arrives x b) l b = mkbacklog (waiting b ++ l) (match l with [] => edge b | _ => true end)) as Hf.
  { clear. induction l as [|x l IH]; intros b; [cbn; rewrite app_nil_r; by destruct b|]. cbn [fold_left]. rewrite IH. cbn. rewrite <- (assoc_L (++)). by destruct l. }
  cbv zeta. rewrite Hf. cbn [waiting app listen_rounds]. unfold listen_round. cbn [edge negb waiting]. unfold main_event.
  destruct (Z.eqb_spec (listenfd sock (sockfds s)) 0); [done|]. cbn [negb]. rewrite (proj2 (Z.ltb_ge fd 0)) by done.
  rewrite (proj2 (Z.ltb_ge (1000 * 1000) (curfds s))) by done. apply listen_quiet.
Qed.

Lemma listen_forgets_witness :
  listen_rounds 5 3 (mkepoll 1 false [3] [] [] []) (mkbacklog [7; 8; 9] true) = Ok (mkbacklog [8; 9] false) (mkepoll 2 false [3] [7] [] []).
Proof. apply (listen_forgets 3 (mkepoll 1 false [3] [] [] []) 7 [8; 9] 4); [discriminate | discriminate | discriminate]. Defined.

(** Every port that [main] listens on is one of the hundred from SERVER_PORT on, in order. *)
Theorem open_ports_all calls : (forall p, 0 <= o_socket (calls p) /\ 0 <= o_bind (calls p) /\ 0 <= o_listen (calls p)) ->
  open_ports MAX_PORT 0 calls [] = inr (map (fun i => (SERVER_PORT + i, o_socket (calls (SERVER_PORT + i)))) (seqZ 0 100)).
Proof.
  intros Hc. assert (forall n i acc, open_ports n i calls acc = inr (acc ++ map (fun i => (SERVER_PORT + i, o_socket (calls (SERVER_PORT + i)))) (seqZ i (Z.of_nat n)))) as H.
  { induction n as [|n IH]; intros i acc; [cbn; by rewrite app_nil_r|]. cbn [open_ports]. destruct (Hc (SERVER_PORT + i)) as (H1 & H2 & H3).
    rewrite (proj2 (Z.ltb_ge _ 0) H1), (proj2 (Z.ltb_ge _ 0) H2), (proj2 (Z.ltb_ge _ 0) H3). rewrite IH, <- (assoc_L (++)).
    rewrite (seqZ_cons i) by lia. cbn [map app]. repeat f_equal; lia. }
  apply H.
Qed.

(** [client_cb] echoes what it receives. *)
Theorem client_cb_echoes ds : Forall (fun d => d <> [] /\ Z.of_nat (length d) <= MAX_BUFFER) ds ->
  forall e, client_cb (map RData ds ++ [e]) [] = match e with RData (_ :: _) => Fault OutOfFuel | _ => Ok (concat ds) tt end.
Proof.
  intros H e. assert (forall sent, client_cb (map RData ds ++ [e]) sent = match e with RData (_ :: _) => Fault OutOfFuel | _ => Ok (sent ++ concat ds) tt end) as Hg; [|apply Hg].
  induction H as [|d ds [Hne Hd] _ IH]; intros sent; cbn [map app concat].
  - cbn. destruct e as [[|]| |]; try done; by rewrite app_nil_r.
  - destruct d as [|c d]; [done|]. cbn [client_cb]. rewrite take_ge by (unfold MAX_BUFFER in *; lia). rewrite IH. by rewrite (assoc_L (++)).
Qed.
