(* ===== verification/MulClient.v ===== *)
(** * mul_port_client_epoll.c: a client that opens connections until a call fails.

    An iteration of the main loop is given what [socket], [connect] and [epoll_wait] answer. *)
From S2P Require Import Prelude KcpBase CLib SockIO.
From Stdlib Require Import Lia.
From stdpp Require Import base list numbers strings.
Open Scope Z_scope.
Open Scope c_scope.

Definition MAX_BUFFER : Z := 128.
Definition MAX_PORT : Z := 100.
Definition connections_max : Z := 340000.

(** The variables of [main], the sockets that are open with their ports, and what was sent. *)
Record load : Type := mkload {
  connections : Z; index : Z; isContinue : Z; sockets : list (Z * Z); sent : list (Z * list Z)
}.
Definition eta_load (l : load) : load := mkload (connections l) (index l) (isContinue l) (sockets l) (sent l).
#[export] Instance upd_connections : Upd connections := ltac:(build_upd eta_load connections).
#[export] Instance upd_index : Upd index := ltac:(build_upd eta_load index).
#[export] Instance upd_isContinue : Upd isContinue := ltac:(build_upd eta_load isContinue).
#[export] Instance upd_load_sockets : Upd sockets := ltac:(build_upd eta_load sockets).
#[export] Instance upd_load_sent : Upd sent := ltac:(build_upd eta_load sent).

Definition send_to (fd : Z) (d : list Z) : M load unit := modify (fun l => l<|sent := sent l ++ [(fd, d)]|>).
Definition close_socket (fd : Z) : M load unit := modify (fun l => l<|sockets := List.filter (fun e => negb (e.1 =? fd)) (sockets l)|>).

(** [sprintf(buffer, "Hello Server: client --> %d\n", connections)], and the other text. *)
Definition greeting (n : Z) : list Z := text "Hello Server: client --> " ++ decimal n ++ [10].
Definition data_from (fd : Z) : list Z := text "data from " ++ decimal fd ++ [10].

(** An event of a socket. *)
Record client_event : Type := mkevent { c_fd : Z; c_out : bool; c_in : bool; c_recv : recv_res }.

Definition on_client_event (e : client_event) : M load unit :=
  let clientfd := c_fd e in
  if c_out e then send_to clientfd (data_from clientfd)
  else if c_in e then
    match c_recv e with
    | RData (c :: d) =>
      let d := take (Z.to_nat MAX_BUFFER) (c :: d) in
      let rBuffer := d ++ replicate (Z.to_nat MAX_BUFFER - length d) 0 in
      if negb (bool_decide (0 ∈ rBuffer)) then throw OutOfBounds              (* printf, strcmp *)
      else if bool_decide (cstr rBuffer = text "quit") then modify (fun l => l<|isContinue := 0|>)
      else ret tt
    | RErr e => if e =? EINTR then ret tt else close_socket clientfd
    | _ => modify (fun l => l<|connections := s32 (connections l - 1)|>);;; close_socket clientfd
    end
  else close_socket clientfd.

Fixpoint on_client_events (events : list client_event) : M load unit :=
  match events with
  | [] => ret tt
  | e :: events => on_client_event e;;; on_client_events events
  end.

(** What the calls of an iteration give. *)
Record iteration : Type := mkiter { i_socket : Z; i_connect : Z; i_events : list client_event }.

(** One iteration; false when a call has failed and the client ends. *)
Definition iterate (port : Z) (it : iteration) : M load bool :=
  modify (fun l => l<|index := if MAX_PORT <=? index l + 1 then 0 else index l + 1|>);;;
  let! l := gets id in
  let! go :=
    if (connections l <? connections_max) && (isContinue l =? 0) then
      if i_socket it =? -1 then ret false
      else if i_connect it <? 0 then ret false
      else
        modify (fun l => l<|sockets := sockets l ++ [(i_socket it, u16 (port + index l))]|>);;;
        send_to (i_socket it) (greeting (connections l));;;
        modify (fun l => l<|connections := s32 (connections l + 1)|>);;;
        ret true
    else ret true in
  if negb go then ret false
  else
    let! l := gets id in
    if (Z.rem (connections l) 1000 =? 999) || (connections_max <=? connections l) then
      on_client_events (i_events it);;; ret true
    else ret true.

(** The loop of [main]: how many iterations it made before it ended. *)
Fixpoint load_main (port : Z) (its : list iteration) (n : Z) : M load Z :=
  match its with
  | [] => throw OutOfFuel
  | it :: its => let! go := iterate port it in if negb (go : bool) then ret n else load_main port its (n + 1)
  end.
Definition load_start : load := mkload 0 0 0 [] [].

(** ** What it does *)

(** The state after [n] connections on the sockets [fds], when nothing else has happened. *)
Definition after_connections (port : Z) (fds : list Z) : load :=
  mkload (Z.of_nat (length fds)) (Z.of_nat (length fds) mod 100) 0
    (imap (fun k fd => (fd, u16 (port + (Z.of_nat k + 1) mod 100))) fds) (imap (fun k fd => (fd, greeting (Z.of_nat k))) fds).

Lemma iterate_connects port fds fd c : Z.of_nat (length fds) < connections_max -> fd <> -1 -> 0 <= c ->
  iterate port (mkiter fd c []) (after_connections port fds) = Ok true (after_connections port (fds ++ [fd])).
Proof.
  unfold connections_max. intros Hl Hfd Hc. unfold iterate, after_connections, send_to, bind, gets, modify, ret, id.
  cbn [upd upd_index upd_connections upd_isContinue upd_load_sockets upd_load_sent connections index isContinue sockets sent i_socket i_connect i_events].
  rewrite (proj2 (Z.ltb_lt _ _)) by (unfold connections_max; lia). cbn [andb Z.eqb].
  rewrite (proj2 (Z.eqb_neq fd (-1))), (proj2 (Z.ltb_ge c 0)) by done. cbn [negb upd upd_connections upd_load_sockets upd_load_sent connections].
  assert ((if MAX_PORT <=? Z.of_nat (length fds) mod 100 + 1 then 0 else Z.of_nat (length fds) mod 100 + 1) = (Z.of_nat (length fds) + 1) mod 100) as ->.
  { unfold MAX_PORT. destruct (100 <=? Z.of_nat (length fds) mod 100 + 1) eqn:E; mod_lia. }
  rewrite length_app, !imap_app. cbn [length imap compose]. unfold compose. rewrite !Nat.add_0_r.
  cbn [negb upd upd_connections upd_load_sockets upd_load_sent connections index isContinue sockets sent].
  rewrite (s32_id (Z.of_nat (length fds) + 1)) by lia.
  replace (Z.of_nat (length fds + 1)) with (Z.of_nat (length fds) + 1) by lia.
  cbn [on_client_events]. unfold ret. destruct ((Z.rem (Z.of_nat (length fds) + 1) 1000 =? 999) || (connections_max <=? Z.of_nat (length fds) + 1)); done.
Qed.

Lemma load_main_connects port its last : forall fds n, Forall (fun it => i_socket it <> -1 /\ 0 <= i_connect it /\ i_events it = []) its ->
  Z.of_nat (length fds + length its) < connections_max -> i_connect last < 0 ->
  load_main port (its ++ [last]) n (after_connections port fds)
  = Ok (n + Z.of_nat (length its)) ((after_connections port (fds ++ map i_socket its))<|index := Z.of_nat (length fds + length its + 1) mod 100|>).
Proof.
  induction its as [|[fd c ev] its IH]; intros fds n H Hl Hc.
  - cbn [app map load_main length] in *. rewrite app_nil_r, !Nat.add_0_r in *. unfold iterate, bind, gets, modify, ret, id, after_connections.
    cbn [upd upd_index connections index isContinue sockets sent].
    rewrite (proj2 (Z.ltb_lt _ _)) by done. cbn [andb Z.eqb]. rewrite (proj2 (Z.ltb_lt (i_connect last) 0)) by done.
    destruct (i_socket last =? -1); cbn [negb upd upd_index]; rewrite Z.add_0_r; do 2 f_equal; unfold MAX_PORT;
      destruct (100 <=? Z.of_nat (length fds) mod 100 + 1) eqn:E; mod_lia.
  - apply Forall_cons in H as [(H1 & H2 & H3) H]. cbn in H1, H2, H3. subst ev. cbn [app map load_main length] in *. unfold bind.
    rewrite iterate_connects by (done || lia). cbn [negb]. rewrite IH by (done || (rewrite ?length_app; cbn; lia)).
    rewrite length_app, <- (assoc_L (++)). cbn [length app i_socket].
    replace (n + 1 + Z.of_nat (length its)) with (n + Z.of_nat (S (length its))) by lia.
    by replace (length fds + 1 + length its + 1)%nat with (length fds + S (length its) + 1)%nat by lia.
Qed.

(** As long as sockets are to be had, the connections go round the hundred ports, beginning
    with the second one, and each says which it is; the client ends with the first call that
    fails. *)
Theorem load_spreads port its last : Forall (fun it => i_socket it <> -1 /\ 0 <= i_connect it /\ i_events it = []) its ->
  Z.of_nat (length its) < connections_max -> i_connect last < 0 ->
  exists l, load_main port (its ++ [last]) 0 load_start = Ok (Z.of_nat (length its)) l /\
    sockets l = imap (fun k it => (i_socket it, u16 (port + (Z.of_nat k + 1) mod 100))) its /\
    sent l = imap (fun k it => (i_socket it, greeting (Z.of_nat k))) its.
Proof.
  intros H Hl Hc. eexists. split; [exact (load_main_connects port its last [] 0 H Hl Hc)|]. cbn [app]. unfold after_connections.
  cbn [upd upd_index sockets sent]. by rewrite !imap_fmap.
Qed.

(** A socket that can be written to is only ever written to: what comes on it is not read. *)
Lemma never_reads fd i r l : on_client_event (mkevent fd true i r) l = Ok tt (l<|sent := sent l ++ [(fd, data_from fd)]|>).
Proof. reflexivity. Qed.
