(* ===== verification/Rtt.v ===== *)
(** * tcp-udp-rtt: the programs that measure round trips over TCP and over KCP.

    The statistics that the KCP chat client of udp-rtt and the TCP client keep, the
    server of tcp-rtt and the flow of its client. *)
From S2P Require Import Prelude KcpBase CLib SockIO.
From Stdlib Require Import Lia.
From stdpp Require Import base list numbers gmap.
Open Scope Z_scope.
Open Scope c_scope.

Definition MESSAGE_SIZE : Z := 1024.

(** A report: the times in order, their average, the least and the greatest. *)
Record report : Type := mkreport { r_times : list Z; r_avg : Z; r_min : Z; r_max : Z }.

(** [rtt_vec[i]], which is not checked. *)
Definition vec_at {W} (v : list Z) (i : Z) : M W Z := if i <? 0 then throw OutOfBounds else of_option OutOfBounds (v !! Z.to_nat i).

(** The loop over [rtt_vec]: the times it prints, the sum, the least and the greatest. *)
Fixpoint stats_loop {W} (n : nat) (i : Z) (v times : list Z) (total least most : Z) : M W (list Z * Z * Z * Z) :=
  match n with
  | O => ret (times, total, least, most)
  | S n =>
    let! x := vec_at v i in
    stats_loop n (i + 1) v (times ++ [x]) (s64 (total + x)) (if x <? least then x else least) (if most <? x then x else most)
  end.

(** The whole report for [n] times; [n = 0] divides by zero. *)
Definition make_report {W} (n : Z) (v : list Z) : M W report :=
  let! first := vec_at v 0 in
  let! '(times, total, least, most) := stats_loop (Z.to_nat n) 0 v [] 0 first first in
  if n =? 0 then throw Aborted else ret (mkreport times (Z.quot total n) least most).

(** ** udp-rtt/chat_client.cc *)

Record rtt_client : Type := mkrtt { rtt_vec : list Z; loop_num : Z; start_time : Z; reports : list report }.
Definition eta_rtt (c : rtt_client) : rtt_client := mkrtt (rtt_vec c) (loop_num c) (start_time c) (reports c).
#[export] Instance upd_rtt_vec : Upd rtt_vec := ltac:(build_upd eta_rtt rtt_vec).
#[export] Instance upd_loop_num : Upd loop_num := ltac:(build_upd eta_rtt loop_num).
#[export] Instance upd_start_time : Upd start_time := ltac:(build_upd eta_rtt start_time).
#[export] Instance upd_reports : Upd reports := ltac:(build_upd eta_rtt reports).

(** [HandleMessage] at the time [now]. *)
Definition handle_rtt (g_loop_num now : Z) : M rtt_client unit :=
  modify (fun c => c<|rtt_vec := rtt_vec c ++ [s64 (now - start_time c)]|>);;;
  modify (fun c => c<|loop_num := s32 (loop_num c + 1)|>);;;
  let! c := gets id in
  if g_loop_num <=? loop_num c then
    modify (fun c => c<|loop_num := 0|>);;;
    let! r := make_report g_loop_num (rtt_vec c) in
    modify (fun c => c<|reports := reports c ++ [r]|>);;;
    modify (fun c => c<|rtt_vec := []|>)
  else ret tt.

(** The two threads in turn: a message is sent at a time, and its answer comes at another. *)
Fixpoint exchanges (g_loop_num : Z) (l : list (Z * Z)) : M rtt_client unit :=
  match l with
  | [] => ret tt
  | (sent, now) :: l =>
    modify (fun c => c<|start_time := sent|>);;;
    handle_rtt g_loop_num now;;;
    exchanges g_loop_num l
  end.
Definition rtt_start : rtt_client := mkrtt [] 0 0 [].

(** ** tcp-rtt *)

(** A turn of [rtt_server.c]: what it sends back for what it receives. *)
Definition rtt_server_turn (r : recv_res) : list Z :=
  let buffer := match r with RData d => take (Z.to_nat (MESSAGE_SIZE - 1)) d | _ => [] end in
  cstr (buffer ++ replicate (Z.to_nat MESSAGE_SIZE - length buffer) 0).

(** The calls for one round trip of [rtt_client.cpp], and the two readings of the clock. *)
Record trip : Type := mktrip { tr_socket : Z; tr_pton : Z; tr_connect : Z; tr_send : Z; tr_start : Z; tr_end : Z }.

(** [message] is 1024 times the letter a, without a terminator, so [strlen(message)] reads on
    behind it; [behind] is what is there. *)
Definition message : list Z := replicate (Z.to_nat MESSAGE_SIZE) 97.

(** The loop of [main]: None when it goes on, with the times; the result when a call fails. *)
Fixpoint tcp_trips (trips : list trip) (v : list Z) : M (list (list Z)) (Z + list Z) :=
  match trips with
  | [] => ret (inr v)
  | t :: trips =>
    if tr_socket t =? -1 then ret (inl (-1))
    else if tr_pton t <=? 0 then ret (inl (-1))
    else if tr_connect t =? -1 then ret (inl (-1))
    else
      let! n := of_option OutOfBounds (strlen message) in
      modify (fun w => w ++ [take (Z.to_nat n) message]);;;
      if tr_send t =? -1 then ret (inl (-1))
      else tcp_trips trips (v ++ [s64 (tr_end t - tr_start t)])
  end.
Definition tcp_rtt_main (trips : list trip) : M (list (list Z)) (Z + report) :=
  let! r := tcp_trips trips [] in
  match r with
  | inl code => ret (inl code)
  | inr v => let! rep := make_report (Z.of_nat (length trips)) v in ret (inr rep)
  end.

(** ** Properties *)

Definition sum (l : list Z) : Z := foldr Z.add 0 l.
(** Times of less than 2^31 milliseconds. *)
Definition moderate (x : Z) : Prop := 0 <= x < 2147483648.

Lemma vec_at_app {W} (a : list Z) x b (w : W) : vec_at (a ++ x :: b) (Z.of_nat (length a)) w = Ok x w.
Proof. unfold vec_at. rewrite (proj2 (Z.ltb_ge _ 0)) by lia. rewrite Nat2Z.id. by rewrite list_lookup_middle. Qed.

Lemma stats_loop_spec {W} (b : list Z) : forall a total least most (w : W), Forall moderate b ->
  0 <= total -> total + 2147483648 * Z.of_nat (length b) < 9223372036854775808 ->
  stats_loop (length b) (Z.of_nat (length a)) (a ++ b) a total least most w
  = Ok (a ++ b, total + sum b, foldl Z.min least b, foldl Z.max most b) w.
Proof.
  induction b as [|x b IH]; intros a total least most w H H1 H2; cbn [length stats_loop sum foldr foldl].
  - by rewrite app_nil_r, Z.add_0_r.
  - apply Forall_cons in H as [Hx H]. unfold moderate in Hx. cbn [length] in H2. unfold bind. rewrite vec_at_app.
    replace (Z.of_nat (length a) + 1) with (Z.of_nat (length (a ++ [x]))) by (rewrite length_app; cbn; lia).
    rewrite (s64_id (total + x)) by lia. assert (a ++ x :: b = (a ++ [x]) ++ b) as -> by (by rewrite <- (assoc_L (++))).
    rewrite IH by (done || lia). fold (sum b). f_equal. f_equal; [f_equal; [f_equal; lia|]|]; f_equal.
    + destruct (Z.ltb_spec x least); lia.
    + destruct (Z.ltb_spec most x); lia.
Qed.

(** The report for a list of times. *)
Definition report_of (l : list Z) : report :=
  mkreport l (Z.quot (sum l) (Z.of_nat (length l))) (foldl Z.min (hd 0 l) l) (foldl Z.max (hd 0 l) l).

Lemma make_report_spec {W} (l : list Z) (w : W) : l <> [] -> Forall moderate l -> Z.of_nat (length l) < 2147483648 ->
  make_report (Z.of_nat (length l)) l w = Ok (report_of l) w.
Proof.
  intros Hne H Hl. unfold make_report, bind. destruct l as [|x l]; [done|]. rewrite (vec_at_app [] x l w : vec_at (x :: l) 0 w = Ok x w).
  rewrite Nat2Z.id. pose proof (stats_loop_spec (x :: l) [] 0 x x w H ltac:(lia) ltac:(lia)) as Es. cbn [app length Z.of_nat Z.add] in Es |- *. change (Z.of_nat 0) with 0 in Es. rewrite Es.
  rewrite (proj2 (Z.eqb_neq _ 0)) by (cbn [length]; lia). done.
Qed.

Definition time_of (e : Z * Z) : Z := s64 (e.2 - e.1).

Lemma exchanges_app n l l' w : exchanges n (l ++ l') w = match exchanges n l w with Ok _ w => exchanges n l' w | Fault f => Fault f end.
Proof.
  revert w. induction l as [|[s t] l IH]; intros w; [done|]. cbn [app exchanges]. unfold bind, modify. destruct (handle_rtt n t _); [apply IH | done].
Qed.

(** Fewer answers than a report needs are kept. *)
Lemma exchanges_partial n l : forall c, loop_num c = Z.of_nat (length (rtt_vec c)) -> Z.of_nat (length (rtt_vec c) + length l) < n -> n < 2147483648 ->
  exists s, exchanges n l c = Ok tt (mkrtt (rtt_vec c ++ map time_of l) (Z.of_nat (length (rtt_vec c) + length l)) s (reports c)).
Proof.
  induction l as [|[s t] l IH]; intros c Hc Hl Hn; cbn [exchanges length map] in *.
  - exists (start_time c). unfold ret. rewrite app_nil_r, Nat.add_0_r, <- Hc. by destruct c.
  - unfold bind, modify, handle_rtt. unfold bind, modify, gets, id. cbn [upd upd_rtt_vec upd_loop_num upd_start_time rtt_vec loop_num start_time reports].
    rewrite Hc, s32_id by lia. rewrite (proj2 (Z.leb_gt n _)) by lia. unfold ret.
    destruct (IH (mkrtt (rtt_vec c ++ [s64 (t - s)]) (Z.of_nat (length (rtt_vec c)) + 1) s (reports c))) as [s' Hs'];
      [cbn; rewrite length_app; cbn; lia | cbn; rewrite length_app; cbn; lia | done |].
    exists s'. rewrite Hs'. cbn [rtt_vec reports]. rewrite <- (assoc_L (++)), length_app. cbn [app length]. do 3 f_equal; lia.
Qed.

(** The answer that completes a report. *)
Lemma exchanges_block n l c : rtt_vec c = [] -> loop_num c = 0 -> Z.of_nat (length l) = n -> 0 < n < 2147483648 -> Forall moderate (map time_of l) ->
  exists s, exchanges n l c = Ok tt (mkrtt [] 0 s (reports c ++ [report_of (map time_of l)])).
Proof.
  intros Hv Hn Hl Hb Hm. destruct (exists_last (l := l)) as (l0 & [s t] & ->); [intros ->; cbn in Hl; lia|].
  rewrite length_app in Hl. cbn [length] in Hl. rewrite exchanges_app.
  destruct (exchanges_partial n l0 c) as [s0 ->]; [by rewrite Hv, Hn | rewrite Hv; cbn; lia | lia |].
  rewrite Hv. cbn [app length Nat.add exchanges]. unfold bind at 1, modify at 1. unfold bind, modify, handle_rtt. unfold bind, modify, gets, id.
  cbn [upd upd_rtt_vec upd_loop_num upd_start_time rtt_vec loop_num start_time reports].
  rewrite s32_id by lia. rewrite (proj2 (Z.leb_le n _)) by lia.
  assert (map time_of l0 ++ [s64 (t - s)] = map time_of (l0 ++ [(s, t)])) as -> by (by rewrite map_app).
  assert (n = Z.of_nat (length (map time_of (l0 ++ [(s, t)])))) as En by (rewrite length_map, length_app; cbn; lia). rewrite En.
  rewrite make_report_spec; [| intros E; apply (f_equal length) in E; rewrite length_map, length_app in E; cbn in E; lia | done | lia].
  cbn [upd upd_rtt_vec upd_loop_num upd_reports rtt_vec loop_num start_time reports]. by exists s.
Qed.

(** The KCP client reports on every [g_loop_num] answers: the times in order, their average
    rounded towards zero, the least and the greatest; the answers since the last report are
    kept for the next one. *)
Theorem rtt_reports n blocks rest : 0 < n < 2147483648 -> Forall (fun b => Z.of_nat (length b) = n /\ Forall moderate (map time_of b)) blocks ->
  Z.of_nat (length rest) < n ->
  exists c, exchanges n (concat blocks ++ rest) rtt_start = Ok tt c /\ reports c = map (fun b => report_of (map time_of b)) blocks /\ rtt_vec c = map time_of rest.
Proof.
  intros Hn Hb Hr. assert (forall c, rtt_vec c = [] -> loop_num c = 0 -> exists c', exchanges n (concat blocks ++ rest) c = Ok tt c' /\
    reports c' = reports c ++ map (fun b => report_of (map time_of b)) blocks /\ rtt_vec c' = map time_of rest) as Hgo.
  { induction Hb as [|b blocks [Hl Hm] _ IH]; intros c Hv Hc; cbn [concat app map].
    - destruct (exchanges_partial n rest c) as [s ->]; [by rewrite Hv, Hc | rewrite Hv; cbn; lia | lia |].
      eexists. split; [reflexivity|]. cbn [reports rtt_vec]. by rewrite Hv, app_nil_r.
    - rewrite <- (assoc_L (++)), exchanges_app. destruct (exchanges_block n b c) as [s ->]; try done.
      destruct (IH (mkrtt [] 0 s (reports c ++ [report_of (map time_of b)]))) as (c' & H1 & H2 & H3); [done | done |].
      exists c'. splits; [done | | done]. rewrite H2. cbn [reports]. by rewrite <- (assoc_L (++)). }
  exact (Hgo rtt_start eq_refl eq_refl).
Qed.

(** The TCP client's message has no terminator: the first [strlen] runs out of it. *)
Theorem tcp_message_unterminated t trips w : tr_socket t <> -1 -> 0 < tr_pton t -> tr_connect t <> -1 ->
  tcp_rtt_main (t :: trips) w = Fault OutOfBounds.
Proof.
  intros H1 H2 H3. unfold tcp_rtt_main. cbn [tcp_trips]. unfold bind.
  rewrite (proj2 (Z.eqb_neq _ (-1)) H1), (proj2 (Z.leb_gt _ 0) H2), (proj2 (Z.eqb_neq _ (-1)) H3). reflexivity.
Qed.

(** With no round trips asked for, the report reads the first of no times. *)
Example tcp_no_trips w : tcp_rtt_main [] w = Fault OutOfBounds.
Proof. reflexivity. Qed.

(** The TCP server sends back what it received up to the first zero. *)
Theorem rtt_server_echoes d : Z.of_nat (length d) < MESSAGE_SIZE -> rtt_server_turn (RData d) = cstr (d ++ [0]).
Proof.
  unfold rtt_server_turn, MESSAGE_SIZE. intros H. rewrite take_ge by lia. destruct (Z.to_nat 1024 - length d)%nat as [|k] eqn:E; [lia|].
  clear. cbn [replicate]. induction d as [|c d IH]; [done|]. cbn [app cstr]. destruct (c =? 0); [done|]. f_equal. exact IH.
Qed.
