(* ===== verification/RttThreads.v ===== *)
(** * chat_client.cc of udp-rtt: the two threads of the client that measures round trips.

    The thread of [Start] sends a message and sleeps on a condition variable; the thread of
    [Run] receives, times the answer and wakes the other.  A step of either goes from one
    operation that the other can notice to the next: a lock, a wait, a notification, a call
    on the session, an access to [start_time].  A run is any sequence of such steps. *)
From S2P Require Import Prelude Threads KcpBase CLib Latency KcpSession ChatClient Rtt.
From stdpp Require Import base list numbers gmap.
Open Scope Z_scope.
Open Scope c_scope.

(** [get_ms] *)
Definition get_ms (t : timeval) : Z := s64 (tv_sec t * 1000 + Z.quot (tv_usec t) 1000).

(** Where the thread of [Start] is in its loop: before the lock; before [start_time] is
    set; before [Send], with the time it has set; before the wait; asleep; woken, before it has the mutex again; at
    the end of the block, before the mutex is given up. *)
Inductive main_at : Type := MLock | MTime | MSend (t : Z) | MWait | MAsleep | MWoken | MUnlock.

(** Where the thread of [Run] is in [HandleMessage]: not in it; before the time is taken;
    before the lock; before [notify_one]; before the mutex is given up. *)
Inductive handle_at : Type := HNone | HCompute | HLock | HNotify | HUnlock.

Inductive thread : Type := TMain | TNet.

#[export] Instance main_at_eq_dec : EqDecision main_at.
Proof. solve_decision. Defined.
#[export] Instance handle_at_eq_dec : EqDecision handle_at.
Proof. solve_decision. Defined.
#[export] Instance thread_eq_dec : EqDecision thread.
Proof. solve_decision. Defined.

(** What is remembered of a run: a message sent, with the time taken for it; a message handled,
    with the time it was taken at; a notification; a wake-up without one. *)
Inductive action : Type :=
  | ASent (t : Z)
  | AHandled (now : Z)
  | ANotified
  | ASpurious.

(** The program: the client with the place of its [Run], the times, the two places, the
    mutex, the fault that ended it if there was one, and what happened so far. *)
Record threads : Type := mkthreads {
  th_client : client;
  th_rtt : rtt_client;
  th_main : main_at;
  th_handle : handle_at;
  mtx_syn : option thread;
  th_fault : option fault;
  th_trace : list action;
}.
Definition eta_threads (s : threads) : threads :=
  mkthreads (th_client s) (th_rtt s) (th_main s) (th_handle s) (mtx_syn s) (th_fault s) (th_trace s).
#[export] Instance upd_th_client : Upd th_client := ltac:(build_upd eta_threads th_client).
#[export] Instance upd_th_rtt : Upd th_rtt := ltac:(build_upd eta_threads th_rtt).
#[export] Instance upd_th_main : Upd th_main := ltac:(build_upd eta_threads th_main).
#[export] Instance upd_th_handle : Upd th_handle := ltac:(build_upd eta_threads th_handle).
#[export] Instance upd_mtx_syn : Upd mtx_syn := ltac:(build_upd eta_threads mtx_syn).
#[export] Instance upd_th_fault : Upd th_fault := ltac:(build_upd eta_threads th_fault).
#[export] Instance upd_th_trace : Upd th_trace := ltac:(build_upd eta_threads th_trace).

Definition note (a : action) (s : threads) : threads := s<|th_trace := th_trace s ++ [a]|>.

(** A computation on the client or on the times, and what follows it. *)
Definition on_client {A} (m : M client A) (k : A -> threads -> threads) (s : threads) : threads :=
  match m (th_client s) with
  | Ok a c => k a (s<|th_client := c|>)
  | Fault f => s<|th_fault := Some f|>
  end.
Definition on_rtt {A} (m : M rtt_client A) (k : A -> threads -> threads) (s : threads) : threads :=
  match m (th_rtt s) with
  | Ok a c => k a (s<|th_rtt := c|>)
  | Fault f => s<|th_fault := Some f|>
  end.

(** [lock] waits while the mutex is taken. *)
Definition lock (who : thread) (s : threads) : option threads :=
  match mtx_syn s with None => Some (s<|mtx_syn := Some who|>) | Some _ => None end.
Definition unlock (s : threads) : threads := s<|mtx_syn := None|>.

(** [notify_one]: one thread at most sleeps. *)
Definition notify_one (s : threads) : threads :=
  match th_main s with MAsleep => s<|th_main := MWoken|> | _ => s end.

Definition to_main (p : main_at) (s : threads) : threads := s<|th_main := p|>.
Definition to_handle (p : handle_at) (s : threads) : threads := s<|th_handle := p|>.

Section Threads.
Context {alloc : Allocator}.

(** ** The loop of [Start] *)

Definition main_step (t : timeval) (s : threads) : option threads :=
  match th_main s with
  | MLock => option_map (to_main MTime) (lock TMain s)
  | MTime => Some (to_main (MSend (get_ms t)) (s<|th_rtt := (th_rtt s)<|start_time := get_ms t|>|>))
  | MSend taken => Some (on_client (client_send message MESSAGE_SIZE) (fun _ s => to_main MWait (note (ASent taken) s)) s)
  | MWait => Some (to_main MAsleep (unlock s))
  | MAsleep => None
  | MWoken => option_map (to_main MUnlock) (lock TMain s)
  | MUnlock => Some (to_main MLock (unlock s))
  end.

(** ** The thread of [Run] *)

(** The call of [Recv] and what follows it up to [HandleMessage], if it is called. *)
Definition rtt_recv (body : cstring) : M client bool :=
  let! ' (len, b) := on_session (fun s => Recv s (s_block body) max_body_size) in
  if len =? -3 then goto Exited;;; ret false
  else if len <=? 0 then goto AtUpdate;;; ret false
  else goto (AtRecv (string_resize (mkstring b (s_size body)) len));;; ret true.

(** [Run] outside [HandleMessage]; a thread that has ended takes no step. *)
Definition run_step (o : outside) (s : threads) : option threads :=
  match at_ (th_client s) with
  | AtRecv body => Some (on_client (rtt_recv body) (fun handles s => if (handles : bool) then to_handle HCompute s else s) s)
  | Ended | Exited => None
  | _ => Some (on_client (thread_step o) (fun _ s => s) s)
  end.

Definition net_step (g_loop_num : Z) (o : outside) (s : threads) : option threads :=
  match th_handle s with
  | HNone => run_step o s
  | HCompute =>
    let now := get_ms (o_time o) in
    Some (on_rtt (handle_rtt g_loop_num now) (fun _ s => to_handle HLock (note (AHandled now) s)) s)
  | HLock => option_map (to_handle HNotify) (lock TNet s)
  | HNotify => Some (to_handle HUnlock (note ANotified (notify_one s)))
  | HUnlock => Some (to_handle HNone (unlock s))
  end.

(** ** The program *)

Inductive rtt_event : Type :=
  | MainStep (t : timeval)
  | NetStep (o : outside)
  | Spurious.

(** Nothing more happens after [exit] or a fault. *)
Definition over (s : threads) : bool :=
  match th_fault s with
  | Some _ => true
  | None => match at_ (th_client s) with Exited => true | _ => false end
  end.

Definition rtt_step (g_loop_num : Z) (e : rtt_event) (s : threads) : option threads :=
  if over s then None
  else
    match e with
    | MainStep t => main_step t s
    | NetStep o => net_step g_loop_num o s
    | Spurious => match th_main s with MAsleep => Some (note ASpurious (to_main MWoken s)) | _ => None end
    end.

(** [main] up to [Start]; [r1] and [r2] are what [rand] gives. *)
Definition rtt_client_main (addr : sockaddr_in) (r1 r2 : Z) (w : world) : res net threads :=
  match new_client addr (client_opt r1 r2) w with
  | Ok c n => Ok (mkthreads c rtt_start MLock HNone None None []) n
  | Fault f => Fault f
  end.
End Threads.

(** ** What a run was *)

Definition sent_times (l : list action) : list Z := flat_map (fun a => match a with ASent t => [t] | _ => [] end) l.
Definition handled_times (l : list action) : list Z := flat_map (fun a => match a with AHandled t => [t] | _ => [] end) l.
(** The messages sent, each with the time its answer was taken at. *)
Definition paired (l : list action) : list (Z * Z) := zip (sent_times l) (handled_times l).

(** Every message handled is the answer to one sent before, and nobody wakes without a
    notification: [ahead] messages are not answered yet. *)
Fixpoint in_turn (ahead : nat) (l : list action) : bool :=
  match l with
  | [] => true
  | ASent _ :: l => in_turn (S ahead) l
  | AHandled _ :: l => match ahead with O => false | S ahead => in_turn ahead l end
  | ANotified :: l => in_turn ahead l
  | ASpurious :: _ => false
  end.
