(* ===== verification/RttThreadsProps.v ===== *)
(** * The waiting of the two threads of the round-trip client. *)
From S2P Require Import Prelude Threads KcpBase KcpCodec KcpSend KcpRecv KcpInput KcpFlush KcpInv KcpApi KcpDemo KcpStream KcpCalls KcpRecvSpec CLib Latency KcpSession KcpSessionSpec ChatClient ChatClientProps Rtt RttThreads.
From Stdlib Require Import Lia.
From stdpp Require Import base list numbers gmap.
Open Scope Z_scope.
Open Scope c_scope.

Definition main_holds (p : main_at) : bool := match p with MTime | MSend _ | MWait | MUnlock => true | _ => false end.
Definition handle_holds (p : handle_at) : bool := match p with HNotify | HUnlock => true | _ => false end.

(** Since the last message, nobody was notified; when one was handled, its notification is
    still to come. *)
Definition unheard (p : handle_at) (l : list action) : Prop :=
  exists before t since, l = before ++ ASent t :: since /\
    Forall (fun a => match a with AHandled _ => p = HLock \/ p = HNotify | _ => False end) since.

(** The mutex is held by the thread that is between its lock and its unlock, and a sender
    that sleeps, or is about to, has not been notified since its message. *)
Record sync_ok (s : threads) : Prop := mksync {
  s_main : main_holds (th_main s) = true <-> mtx_syn s = Some TMain;
  s_net : handle_holds (th_handle s) = true <-> mtx_syn s = Some TNet;
  s_unheard : th_main s = MWait \/ th_main s = MAsleep -> unheard (th_handle s) (th_trace s);
}.

Section Threads.
Context {alloc : Allocator}.

Lemma sync_fault f s : sync_ok s -> sync_ok (s<|th_fault := f|>).
Proof. intros []. by constructor. Qed.
Lemma sync_client c s : sync_ok s -> sync_ok (s<|th_client := c|>).
Proof. intros []. by constructor. Qed.

Lemma unheard_place p p' l : (p = HLock \/ p = HNotify -> p' = HLock \/ p' = HNotify) -> unheard p l -> unheard p' l.
Proof.
  intros H (l1 & t & l2 & -> & Hl). exists l1, t, l2. split; [done|]. eapply Forall_impl; [exact Hl|]. intros []; tauto.
Qed.

Lemma sync_main t s s' : sync_ok s -> main_step t s = Some s' -> sync_ok s'.
Proof.
  intros Hs. pose proof Hs as [H1 H2 H3]. unfold main_step, lock, unlock, to_main. destruct (th_main s) eqn:Em; cbn in H1.
  - destruct (mtx_syn s) eqn:E; [done|]. intros [= <-]. constructor; cbn; try done; [by rewrite H2 | by intros []].
  - intros [= <-]. constructor; cbn; try done. by intros [].
  - intros [= <-]. unfold on_client. destruct (client_send _ _ _) as [a c|f]; [|by apply sync_fault].
    constructor; cbn; try done. intros _. by exists (th_trace s), t0, [].
  - intros [= <-]. assert (mtx_syn s = Some TMain) as E by tauto. rewrite E in H2. constructor; cbn; try done.
    + destruct H2 as [H2 _]. split; [intros ?%H2; done | done].
    + intros _. apply H3. by left.
  - done.
  - destruct (mtx_syn s) eqn:E; [done|]. intros [= <-]. constructor; cbn; try done; [by rewrite H2 | by intros []].
  - intros [= <-]. assert (mtx_syn s = Some TMain) as E by tauto. rewrite E in H2. constructor; cbn; try done.
    + destruct H2 as [H2 _]. split; [intros ?%H2; done | done].
    + by intros [].
Qed.

Lemma sync_net n o s s' : sync_ok s -> net_step n o s = Some s' -> sync_ok s'.
Proof.
  intros Hs. pose proof Hs as [H1 H2 H3]. unfold net_step, lock, unlock, to_handle. destruct (th_handle s) eqn:Eh; cbn in H2.
  - unfold run_step, on_client. assert (forall c, sync_ok (to_handle HCompute (s<|th_client := c|>))) as Hc.
    { intros c. constructor; cbn; try done. intros H. eapply unheard_place; [|by apply H3]. by intros []. }
    destruct (at_ (th_client s)); try done; try (destruct (thread_step _ _); intros [= <-]; [by apply sync_client | by apply sync_fault]).
    destruct (rtt_recv _ _) as [[] c|f]; intros [= <-]; [apply Hc | by apply sync_client | by apply sync_fault].
  - unfold on_rtt. destruct (handle_rtt _ _ _); intros [= <-]; [|by apply sync_fault]. constructor; cbn; try done.
    intros H. destruct (H3 H) as (l1 & t & l2 & -> & Hl). exists l1, t, (l2 ++ [AHandled (get_ms (o_time o))]).
    split; [by rewrite <- (assoc_L (++))|]. apply Forall_app. split; [|constructor; [by left | done]].
    eapply Forall_impl; [exact Hl|]. intros []; tauto.
  - destruct (mtx_syn s) eqn:E; [done|]. intros [= <-]. constructor; cbn; try done; [by rewrite H1|].
    intros H. eapply unheard_place; [|by apply H3]. by right.
  - assert (mtx_syn s = Some TNet) as E by tauto. rewrite E in H1. intros [= <-]. unfold notify_one, to_main.
    destruct (th_main s) eqn:Em; constructor; cbn in H1 |- *; rewrite ?Em, ?E; try done; try tauto; try (by intros []); discriminate (proj1 H1 eq_refl).
  - intros [= <-]. assert (mtx_syn s = Some TNet) as E by tauto. rewrite E in H1. constructor; cbn; try done.
    + destruct H1 as [H1 _]. split; [intros ?%H1; done | done].
    + intros H. eapply unheard_place; [|by apply H3]. by intros [].
Qed.

Lemma sync_step n e s s' : sync_ok s -> rtt_step n e s = Some s' -> sync_ok s'.
Proof.
  intros Hs. unfold rtt_step. destruct (over s); [done|]. destruct e as [t|o|]; [by apply sync_main | by apply sync_net|].
  destruct (th_main s) eqn:Em; try done. intros [= <-]. destruct Hs as [H1 H2 _]. rewrite Em in H1. constructor; cbn; try done. by intros [].
Qed.

Lemma sync_run n es addr r1 r2 w s0 nt s : rtt_client_main addr r1 r2 w = Ok s0 nt -> steps (rtt_step n) es s0 s -> sync_ok s.
Proof.
  intros H0 Hr. apply (steps_invariant (rtt_step n) (fun _ => True) sync_ok es s0 s); [|by apply Forall_true|done|].
  - intros e s1 s2 _. apply sync_step.
  - unfold rtt_client_main in H0. destruct (new_client _ _ _); [|done]. injection H0 as <- <-. constructor; cbn; try done. by intros [].
Qed.

(** C18: in any interleaving the two are never both between their lock and their unlock; a
    sender that sleeps has not been notified since its last message, and a message handled
    since then is one whose notification is still to come, so none is lost; and while the
    thread of [Run] goes on, at least one of the two can take a step. *)
Theorem rtt_wakes n addr r1 r2 w s0 nt es s :
  rtt_client_main addr r1 r2 w = Ok s0 nt -> steps (rtt_step n) es s0 s ->
  ~ (main_holds (th_main s) = true /\ handle_holds (th_handle s) = true) /\
  (th_main s = MAsleep -> unheard (th_handle s) (th_trace s)) /\
  (over s = false -> at_ (th_client s) <> Ended -> forall t o,
     is_Some (rtt_step n (MainStep t) s) \/ is_Some (rtt_step n (NetStep o) s)).
Proof.
  intros H0 Hr. destruct (sync_run _ _ _ _ _ _ _ _ _ H0 Hr) as [H1 H2 H3]. splits.
  - intros [A%H1 B%H2]. congruence.
  - auto.
  - intros Ho He t o. unfold rtt_step. rewrite Ho. destruct (th_handle s) eqn:Eh.
    + right. unfold net_step. rewrite Eh. unfold run_step. unfold over in Ho. destruct (th_fault s); [done|].
      destruct (at_ (th_client s)); try done; by eexists.
    + right. unfold net_step. rewrite Eh. by eexists.
    + unfold net_step, lock. rewrite Eh. destruct (mtx_syn s) as [[]|] eqn:E; [left | discriminate (proj2 H2 eq_refl) | right; by eexists].
      pose proof (proj2 H1 eq_refl) as Hm. unfold main_step. destruct (th_main s); try done; by eexists.
    + right. unfold net_step. rewrite Eh. by eexists.
    + right. unfold net_step. rewrite Eh. by eexists.
Qed.

(** ** The times *)

Lemma in_turn_app l : forall k l', in_turn k (l ++ l') = true ->
  in_turn k l = true /\ (length (handled_times l) <= k + length (sent_times l))%nat /\
  in_turn (k + length (sent_times l) - length (handled_times l)) l' = true.
Proof.
  induction l as [|[t|t| |] l IH]; intros k l' H; cbn in *.
  - splits; [done | lia | by rewrite Nat.add_0_r, Nat.sub_0_r].
  - destruct (IH _ _ H) as (H1 & H2 & H3). fold (sent_times l) (handled_times l). splits; [done | lia | by rewrite Nat.add_succ_r].
  - destruct k as [|k]; [done|]. destruct (IH _ _ H) as (H1 & H2 & H3). fold (sent_times l) (handled_times l). splits; [done | lia | done].
  - by apply IH.
  - done.
Qed.

Lemma sent_app l l' : sent_times (l ++ l') = sent_times l ++ sent_times l'.
Proof. apply flat_map_app. Qed.
Lemma handled_app l l' : handled_times (l ++ l') = handled_times l ++ handled_times l'.
Proof. apply flat_map_app. Qed.

Lemma zip_last {A B} (l : list A) x (k : list B) : length l = length k -> zip (l ++ [x]) k = zip l k.
Proof. intros E. rewrite zip_with_app_l, take_ge, drop_ge by lia. apply app_nil_r. Qed.

(** While no answer is due: the threads are where this is possible. *)
Definition nothing_due (m : main_at) (h : handle_at) : bool :=
  match m, h with
  | (MUnlock | MLock | MTime | MSend _), (HNone | HCompute) => true
  | MWait, HLock => true
  | MAsleep, (HLock | HNotify) => true
  | MWoken, (HUnlock | HNone | HCompute) => true
  | _, _ => false
  end.

(** The two threads have done what exchanges one after the other do, but for the last
    message, which waits for its answer. *)
Record stats_ok (n : Z) (s : threads) : Prop := mkstats {
  t_stats : exists z, exchanges n (paired (th_trace s)) rtt_start = Ok tt ((th_rtt s)<|start_time := z|>);
  t_due : (length (sent_times (th_trace s)) = length (handled_times (th_trace s)) /\ nothing_due (th_main s) (th_handle s) = true) \/
    (exists l, sent_times (th_trace s) = l ++ [start_time (th_rtt s)] /\ length l = length (handled_times (th_trace s)) /\
       (th_main s = MWait \/ th_main s = MAsleep) /\ (th_handle s = HNone \/ th_handle s = HCompute));
  t_taken : match th_main s with MSend t => start_time (th_rtt s) = t | _ => True end;
}.

Lemma stats_main n t s s' : sync_ok s -> stats_ok n s -> main_step t s = Some s' -> stats_ok n s'.
Proof.
  intros [_ Hn _] [(z & H1) H2 H3']. unfold main_step, lock, unlock, to_main. destruct (th_main s) eqn:Em.
  - destruct (mtx_syn s); [done|]. intros [= <-]. constructor; cbn; [by exists z| |done]. left. destruct H2 as [|(? & _ & _ & [] & _)]; done.
  - intros [= <-]. constructor; cbn; [by exists z| |done]. left. destruct H2 as [|(? & _ & _ & [] & _)]; done.
  - intros [= <-]. destruct H2 as [[H2 H3]|(? & _ & _ & [] & _)]; [|done..]. unfold on_client. destruct (client_send _ _ _); constructor; cbn.
    + exists z. unfold paired in *. rewrite sent_app, handled_app. cbn. by rewrite app_nil_r, zip_last.
    + right. exists (sent_times (th_trace s)). rewrite sent_app, handled_app, app_nil_r. cbn.
      splits; [by rewrite <- H3' | done | by left |]. destruct (th_handle s); auto; done.
    + done.
    + by exists z.
    + left. by rewrite Em.
    + by rewrite Em.
  - intros [= <-]. constructor; cbn; [by exists z| |try done]. destruct H2 as [[H2 H3]|(l & H3 & H4 & _ & H5)]; [left|right; exists l; auto].
    split; [done|]. by destruct (th_handle s).
  - done.
  - destruct (mtx_syn s); [done|]. intros [= <-]. constructor; cbn; [by exists z| |done]. left. destruct H2 as [[H2 H3]|(? & _ & _ & [] & _)]; [|done..].
    split; [done|]. destruct (th_handle s); try done. discriminate (proj1 Hn eq_refl).
  - intros [= <-]. constructor; cbn; [by exists z| |done]. left. destruct H2 as [|(? & _ & _ & [] & _)]; done.
Qed.

Lemma stats_same n s s' : stats_ok n s -> th_rtt s' = th_rtt s -> th_trace s' = th_trace s -> th_main s' = th_main s -> th_handle s' = th_handle s -> stats_ok n s'.
Proof. intros [H1 H2 H3] E1 E2 E3 E4. constructor; by rewrite ?E1, ?E2, ?E3, ?E4. Qed.

(** An answer is timed from the message it answers. *)
Lemma stats_answer n now s c : stats_ok n s -> th_handle s = HCompute -> in_turn 0 (th_trace s ++ [AHandled now]) = true ->
  handle_rtt n now (th_rtt s) = Ok tt c -> stats_ok n (to_handle HLock (note (AHandled now) (s<|th_rtt := c|>))).
Proof.
  intros [(z & H1) H2 H3] Eh Ht Hc. destruct (in_turn_app _ _ _ Ht) as (_ & _ & Hlt). cbn in Hlt.
  destruct H2 as [[E _]|(l & El & Hl & Hm & _)]; [by rewrite E, Nat.sub_diag in Hlt|].
  unfold paired in H1. rewrite El, zip_last in H1 by done. constructor; cbn.
  - exists (start_time c). unfold paired. rewrite sent_app, handled_app, El. cbn. rewrite app_nil_r, zip_with_app by done.
    rewrite exchanges_app, H1. cbn -[handle_rtt]. unfold bind, modify, ret. cbn -[handle_rtt].
    assert (forall r, mkrtt (rtt_vec r) (loop_num r) (start_time r) (reports r) = r) as Er by (by intros []).
    rewrite Er, Hc. by rewrite Er.
  - left. rewrite sent_app, handled_app, El, !length_app, Hl. cbn. split; [lia|]. by destruct Hm as [-> | ->].
  - by destruct Hm as [-> | ->].
Qed.

Lemma stats_net n o s s' : sync_ok s -> stats_ok n s -> net_step n o s = Some s' -> in_turn 0 (th_trace s') = true -> stats_ok n s'.
Proof.
  intros [Hm Hn _] Hs. pose proof Hs as [(z & H1) H2 H3']. unfold net_step, lock, unlock. destruct (th_handle s) eqn:Eh.
  - assert (forall c, stats_ok n (to_handle HCompute (s<|th_client := c|>))) as Hc.
    { intros c. constructor; cbn; [by exists z| |try done]. destruct H2 as [[H2 H3]|(l & H3 & H4 & H5 & _)]; [left | right; exists l; auto].
      split; [done|]. by destruct (th_main s). }
    unfold run_step, on_client. destruct (at_ (th_client s)); try done; try (destruct (thread_step _ _); intros [= <-] _; by eapply stats_same).
    destruct (rtt_recv _ _) as [[] c|f]; intros [= <-] _; [apply Hc | by eapply stats_same | by eapply stats_same].
  - unfold on_rtt. destruct (handle_rtt _ _ _) as [[] c|] eqn:Ec; intros [= <-] Ht; [by apply stats_answer | by eapply stats_same].
  - destruct (mtx_syn s) eqn:E; [done|]. intros [= <-] _. constructor; cbn; [by exists z| |try done]. destruct H2 as [[H2 H3]|(l & _ & _ & _ & [])]; [left | done..].
    split; [done|]. destruct (th_main s); try done. discriminate (proj1 Hm eq_refl).
  - assert (mtx_syn s = Some TNet) as E by tauto. intros [= <-] _. unfold notify_one, to_main. destruct H2 as [[H2 H3]|(l & _ & _ & _ & [])]; [|done..].
    destruct (th_main s) eqn:Em; try done. constructor; cbn.
    + exists z. unfold paired in *. by rewrite sent_app, handled_app, !app_nil_r.
    + left. by rewrite sent_app, handled_app, !app_nil_r.
    + done.
  - intros [= <-] _. constructor; cbn; [by exists z| |try done]. destruct H2 as [[H2 H3]|(l & _ & _ & _ & [])]; [left | done..].
    split; [done|]. by destruct (th_main s).
Qed.

Lemma trace_step n e s s' : rtt_step n e s = Some s' -> exists l, th_trace s' = th_trace s ++ l /\ (e = Spurious -> l = [ASpurious]).
Proof.
  unfold rtt_step, main_step, net_step, run_step, lock, on_client, on_rtt, notify_one. intros H.
  repeat first [discriminate | progress (injection H as <-) | progress cbn in H | case_match];
  cbn; first [by exists []; rewrite app_nil_r | by eexists; split; [reflexivity|]].
Qed.

Lemma stats_run n es addr r1 r2 w s0 nt s : rtt_client_main addr r1 r2 w = Ok s0 nt -> steps (rtt_step n) es s0 s ->
  in_turn 0 (th_trace s) = true -> stats_ok n s.
Proof.
  intros H0 Hr. apply (steps_invariant (rtt_step n) (fun _ => True) (fun s => sync_ok s /\ (in_turn 0 (th_trace s) = true -> stats_ok n s)) es s0 s);
    [|by apply Forall_true|done|].
  - intros e s1 s2 _ [Hs Ht] He. split; [by eapply sync_step|]. intros H2. destruct (trace_step _ _ _ _ He) as (l & El & Hsp).
    assert (in_turn 0 (th_trace s1) = true) as H1 by (rewrite El in H2; by destruct (in_turn_app _ _ _ H2)). specialize (Ht H1). clear H1.
    unfold rtt_step in He. destruct (over s1); [done|]. destruct e as [t|o|]; [by eapply stats_main | by eapply stats_net|].
    rewrite (Hsp eq_refl) in El. rewrite El in H2. by apply in_turn_app in H2 as (_ & _ & ?).
  - split; [by eapply (sync_run n []); [|constructor]|]. intros _. unfold rtt_client_main in H0. destruct (new_client _ _ _); [|done]. injection H0 as <- <-.
    constructor; cbn; [by exists 0 | by left | done].
Qed.

(** When nobody wakes without a notification and every message handled answers one sent
    before, the two threads have done together what exchanges one after the other do, each
    answer timed from its message, and at most one message is without its answer. *)
Theorem rtt_threads_refine n es addr r1 r2 w s0 nt s :
  rtt_client_main addr r1 r2 w = Ok s0 nt -> steps (rtt_step n) es s0 s -> in_turn 0 (th_trace s) = true ->
  (exists z, exchanges n (paired (th_trace s)) rtt_start = Ok tt ((th_rtt s)<|start_time := z|>)) /\
  (length (handled_times (th_trace s)) <= length (sent_times (th_trace s)) <= S (length (handled_times (th_trace s))))%nat.
Proof.
  intros H0 Hr Ht. destruct (stats_run _ _ _ _ _ _ _ _ _ H0 Hr Ht) as [H1 H2 _]. split; [done|].
  destruct H2 as [[-> _]|(l & -> & Hl & _)]; [lia|]. rewrite length_app. cbn. lia.
Qed.

(** C34: what the two-thread program reports.  When nobody wakes without a notification and
    every message handled answers one sent before, each [g_loop_num] answers make a report:
    the times from each message to its answer, in order, their average, least and greatest;
    the answers since the last report are kept for the next. *)
Theorem rtt_threads_report n es addr r1 r2 w s0 nt s blocks rest :
  rtt_client_main addr r1 r2 w = Ok s0 nt -> steps (rtt_step n) es s0 s -> in_turn 0 (th_trace s) = true ->
  0 < n < 2147483648 -> paired (th_trace s) = concat blocks ++ rest ->
  Forall (fun b => Z.of_nat (length b) = n /\ Forall moderate (map time_of b)) blocks -> Z.of_nat (length rest) < n ->
  reports (th_rtt s) = map (fun b => report_of (map time_of b)) blocks /\ rtt_vec (th_rtt s) = map time_of rest.
Proof.
  intros H0 Hr Ht Hn Hp Hb Hl. destruct (stats_run _ _ _ _ _ _ _ _ _ H0 Hr Ht) as [[z H1] _ _]. rewrite Hp in H1.
  destruct (rtt_reports n blocks rest Hn Hb Hl) as (c & Hc & H2 & H3). rewrite H1 in Hc. by injection Hc as <-.
Qed.

(** ** No fault *)

Lemma stats_loop_total {W} (b : list Z) : forall a times total least most (w : W),
  exists x, stats_loop (length b) (Z.of_nat (length a)) (a ++ b) times total least most w = Ok x w.
Proof.
  induction b as [|y b IH]; intros a times total least most w; cbn [length stats_loop]; [by eexists|].
  unfold bind. rewrite vec_at_app. replace (Z.of_nat (length a) + 1) with (Z.of_nat (length (a ++ [y]))) by (rewrite length_app; cbn; lia).
  assert (a ++ y :: b = (a ++ [y]) ++ b) as -> by (by rewrite <- (assoc_L (++))). apply IH.
Qed.

(** Between two answers the times are those since the last report. *)
Definition rtt_ok (n : Z) (c : rtt_client) : Prop := loop_num c = Z.of_nat (length (rtt_vec c)) /\ loop_num c < n.

Lemma handle_rtt_total n now c : n < 2147483648 -> rtt_ok n c -> wp (handle_rtt n now) (fun _ c' => rtt_ok n c') c.
Proof.
  intros Hn [H1 H2]. unfold handle_rtt. wp_step. apply wp_modify. wp_step. apply wp_modify. wp_step. apply wp_gets.
  cbn [upd upd_rtt_vec upd_loop_num rtt_vec loop_num id]. rewrite s32_id by lia. destruct (Z.leb_spec n (loop_num c + 1)) as [Hle|Hlt].
  - wp_step. apply wp_modify. wp_step. cbn. set (v := rtt_vec c ++ _). assert (Z.of_nat (length v) = n) as Hv by (unfold v; rewrite length_app; cbn; lia).
    assert (forall w : rtt_client, exists r, make_report n v w = Ok r w) as Hr.
    { intros w. unfold make_report, bind. destruct v as [|x v]; [cbn in Hv; lia|]. rewrite (vec_at_app [] x v w : vec_at (x :: v) 0 w = Ok x w).
      destruct (stats_loop_total (x :: v) [] [] 0 x x w) as [[[[ts tt] le] mo] El]. cbn [app] in El. change (Z.of_nat (length [])) with 0 in El.
      rewrite <- Hv, Nat2Z.id, El. rewrite (proj2 (Z.eqb_neq _ 0)) by lia. by eexists. }
    match goal with |- wp _ _ ?w => destruct (Hr w) as [r Er] end. eapply wp_of_run; [exact Er|]. repeat wp_step. split; cbn; lia.
  - wp_step. split; cbn; [rewrite length_app; cbn; lia | lia].
Qed.

Context (alloc_ok : forall n size, malloc n size <> None).

Lemma rtt_recv_spec addr D A L body c : cok addr D A L c -> roomy body -> D < 2147483648 ->
  wp (rtt_recv body) (fun _ c' => cok addr D A L c') c.
Proof.
  intros Hc [Hb Hs] HD. unfold rtt_recv. wp_step. eapply (client_method_spec addr D A D A L _
    (fun x s' => x.1 <= max_body_size /\ (0 <= x.1 -> x.1 = Z.of_nat (length (next_message (session_ c))) /\ x.2 = splice (s_block body) 0 (next_message (session_ c)))) _ c Hc).
  { eapply wp_mono; [apply (Recv_spec [addr] D A _ (s_block body) max_body_size); [apply Hc | done | unfold max_body_size; lia | lia]|].
    intros [[r b] s'] n' (Hm & _ & _ & Hle & _ & H1 & _). done. }
  intros [len b] s' n'. cbv zeta. match goal with |- cok _ _ _ _ ?x -> _ => set (c1 := x) end. intros Hc1 (Hle & H1). cbn [fst snd] in *.
  assert (forall p a, place_ok p -> wp (goto p;;; ret a) (fun (_ : bool) c' => cok addr D A L c') c1) as Hgo.
  { intros p a Hp. wp_step. eapply wp_mono; [by apply (goto_spec addr D A L p c1 Hc1)|]. intros _ c' (Hc' & _). by wp_step. }
  destruct (Z.eqb_spec len (-3)) as [->|Hn3]; [by apply Hgo|]. destruct (Z.leb_spec len 0) as [Hl0|Hl0]; [by apply Hgo|].
  destruct (H1 ltac:(lia)) as [-> ->]. apply Hgo, (ChatClientProps.resize_spec (s_block body) (s_size body)); [done | done | lia].
Qed.

(** What holds after [k] steps. *)
Record safe_at (n : Z) (addr : sockaddr_in) (L : Z) (k : nat) (s : threads) : Prop := mksafe {
  f_client : cok addr (4096 * Z.of_nat k) (170 * Z.of_nat k) L (th_client s);
  f_rtt : rtt_ok n (th_rtt s);
  f_fault : th_fault s = None;
}.

(** What the thread of [Run] meets: [recvfrom] gives no more than the datagram has. *)
Definition rtt_outside_ok (e : rtt_event) : Prop := match e with NetStep o => outside_ok (Thread o) | _ => True end.

Lemma on_client_safe {A} n addr L k s (m : M client A) f : safe_at n addr L k s ->
  wp m (fun _ c' => cok addr (4096 * Z.of_nat k + 4096) (170 * Z.of_nat k + 170) L c') (th_client s) ->
  (forall a s, th_client (f a s) = th_client s /\ th_rtt (f a s) = th_rtt s /\ th_fault (f a s) = th_fault s) ->
  safe_at n addr L (S k) (on_client m f s).
Proof.
  intros [H1 H2 H3] (a & c & Hr & Hc)%wp_run Hf. unfold on_client. rewrite Hr. destruct (Hf a (s<|th_client := c|>)) as (E1 & E2 & E3).
  constructor; rewrite ?E1, ?E2, ?E3; [|done..]. cbn. eapply cok_le; [..|exact Hc]; lia.
Qed.

Lemma safe_later n addr L k s s' : safe_at n addr L k s -> th_client s' = th_client s -> rtt_ok n (th_rtt s') -> th_fault s' = th_fault s ->
  safe_at n addr L (S k) s'.
Proof. intros [H1 H2 H3] E1 E2 E3. constructor; rewrite ?E1, ?E3; [|done..]. eapply cok_le; [..|exact H1]; lia. Qed.

Lemma safe_step n addr L k e s s' : n < 2147483648 -> safe_at n addr L k s -> rtt_outside_ok e -> 4096 * Z.of_nat (S k) < 2147483648 ->
  rtt_step n e s = Some s' -> safe_at n addr L (S k) s'.
Proof.
  intros Hn Hs He Hk. pose proof Hs as [H1 H2 H3]. unfold rtt_step. destruct (over s); [done|]. destruct e as [t|o|].
  - unfold main_step, lock. destruct (th_main s); try (destruct (mtx_syn s); intros [= <-]; by eapply safe_later). intros [= <-].
    apply on_client_safe; [done | | done].
    eapply (client_method_spec addr _ _ _ _ L _ (fun _ _ => True)); [exact H1 | |].
    + change MESSAGE_SIZE with (Z.of_nat (length message)). eapply wp_mono; [apply (Send_spec alloc_ok [addr]); apply H1|]. by intros [r s1] n' (Hm & _).
    + intros b s1 n' c' Hc' _. eapply cok_le; [..|exact Hc']; lia.
  - assert (wp (happen (Thread o)) (fun _ c' => cok addr (4096 * Z.of_nat k + 4096) (170 * Z.of_nat k + 170) L c') (th_client s)) as Hh.
    { apply client_happen_spec; try done; lia. }
    unfold net_step, run_step, lock, on_rtt. destruct (th_handle s); try (destruct (mtx_syn s); intros [= <-]; by eapply safe_later).
    + pose proof (c_place _ _ _ _ _ H1) as Hp. destruct (at_ (th_client s)); intros [= <-]; try (by apply on_client_safe).
      apply on_client_safe; [done | | by intros []]. eapply wp_mono; [apply rtt_recv_spec; [exact H1 | done | lia]|].
      intros a c' Hc'. eapply cok_le; [..|exact Hc']; lia.
    + intros [= <-]. destruct (wp_run _ _ _ (handle_rtt_total n (get_ms (o_time o)) _ Hn H2)) as ([] & c & -> & Hc). by eapply safe_later.
    + intros [= <-]. eapply safe_later; try done; unfold notify_one; by destruct (th_main s).
  - destruct (th_main s); try done. intros [= <-]. by eapply safe_later.
Qed.

Lemma safe_runs n addr L es : forall k s s', n < 2147483648 -> safe_at n addr L k s -> Forall rtt_outside_ok es ->
  steps (rtt_step n) es s s' -> 4096 * Z.of_nat (k + length es) < 2147483648 -> safe_at n addr L (k + length es) s'.
Proof.
  induction es as [|e es IH]; intros k s s' Hn Hs He Hr Hk; inversion Hr as [|? ? ? s1 ? Hstep Hrest]; subst; [by rewrite Nat.add_0_r|].
  apply Forall_cons_1 in He as [He Hes]. cbn [length] in *. rewrite <- Nat.add_succ_comm in *. apply (IH (S k) s1); try done.
  eapply safe_step; try done. lia.
Qed.

(** Neither thread ever faults, whatever comes in and in whatever order they run: the
    blocks of the session are accounted for and the reports never read behind the times. *)
Theorem rtt_threads_safe n addr r1 r2 w es : 0 < n < 2147483648 ->
  Forall rtt_outside_ok es -> 4096 * Z.of_nat (length es) < 2147483648 ->
  exists s0 nt, rtt_client_main addr r1 r2 w = Ok s0 nt /\
    forall s, steps (rtt_step n) es s0 s -> th_fault s = None /\ Z.of_nat (length (rtt_vec (th_rtt s))) < n /\
      w_live (n_world (cl_net (th_client s))) = w_live w + heap (kcp_ (session_ (th_client s))).
Proof.
  intros Hn He Hl. destruct (wp_run _ _ _ (new_KcpSession_spec alloc_ok [addr] (client_opt r1 r2) addr (mknet w []) ltac:(by left)
    ltac:(cbn; lia) ltac:(cbn; lia))) as (x & nt & Hr & Hs & _ & _ & Hlive & Hsent).
  unfold rtt_client_main, new_client. rewrite Hr. cbn in Hlive, Hsent. do 2 eexists. split; [reflexivity|].
  intros s Hst. assert (safe_at n addr (w_live w) (0 + length es) s) as [F1 F2 F3].
  { revert Hl. change (length es) with (0 + length es)%nat. eapply (fun H => safe_runs n addr (w_live w) es 0 _ s (proj2 Hn) H He Hst).
    constructor; cbn; [|split; cbn; lia | done]. constructor; cbn; try done. by rewrite Hsent. }
  destruct F2 as [F2 F2'], F1. splits; [done | lia | lia].
Qed.
End Threads.

(** When [Run] has failed its thread ends, and nothing but a spurious wake-up moves a sender
    that sleeps: the program hangs. *)
Theorem rtt_hangs {alloc : Allocator} n s e : th_main s = MAsleep -> th_handle s = HNone -> at_ (th_client s) = Ended -> e <> Spurious ->
  rtt_step n e s = None.
Proof.
  intros Hm Hh Ha He. unfold rtt_step, main_step, net_step, run_step. rewrite Hm, Hh, Ha. destruct (over s), e; done.
Qed.

(** ** Runs *)

Definition at_ms (n : Z) : timeval := mktimeval 1000 (n * 1000).
(** The thread of [Run] at a time, and when it receives a datagram. *)
Definition net_at (n : Z) : rtt_event := NetStep (mkoutside (at_ms n) (-1) [] host).
Definition net_meets (n : Z) (d : list Z) : rtt_event := NetStep (mkoutside (at_ms n) (Z.of_nat (length d)) d host).
Definition main_at_ms (n : Z) : rtt_event := MainStep (at_ms n).

(** Two messages and their answers, which come in one datagram. *)
Definition two_answers : list rtt_event := Eval vm_compute in
  match peer_datagrams 5 [[98]; [99]] with
  | d :: _ =>
    replicate 4 (main_at_ms 10) ++ [net_at 20; net_meets 30 d; net_at 40; net_at 40] ++ replicate 4 (net_at 52) ++
    replicate 5 (main_at_ms 60) ++ [net_at 70] ++ [net_at 71; main_at_ms 75] ++ replicate 3 (net_at 80)
  | [] => []
  end.

Definition run_rtt (n : Z) (es : list rtt_event) : option threads :=
  match rtt_client_main host 1 5 world0 with
  | Ok s _ => run_steps (rtt_step n) es s
  | Fault _ => None
  end.

Example two_answers_times : option_map (fun s => (reports (th_rtt s), rtt_vec (th_rtt s), th_main s, th_handle s)) (run_rtt 2 two_answers)
  = Some ([mkreport [42; 11] 26 11 42], [], MWoken, HNone).
Proof. vm_compute. reflexivity. Qed.

Lemma run_rtt_steps n es s : run_rtt n es = Some s -> exists s0 nt, rtt_client_main host 1 5 world0 = Ok s0 nt /\ steps (rtt_step n) es s0 s.
Proof.
  unfold run_rtt. destruct (rtt_client_main host 1 5 world0) as [s0 nt|]; [|done]. intros H%run_steps_ok. by exists s0, nt.
Qed.

Definition dead : threads := mkthreads (mkclient host (mksession default_KcpOpt host dummy.1 0 0) (mknet world0 []) Exited []) rtt_start MLock HNone None None [].
(** The sender sleeps, and its answer has just been timed. *)
Definition answered : threads := Eval vm_compute in default dead (run_rtt 2 (take 9 two_answers)).
Definition reported : threads := Eval vm_compute in default dead (run_rtt 2 two_answers).
Lemma answered_runs : run_rtt 2 (take 9 two_answers) = Some answered.
Proof. vm_compute. reflexivity. Qed.
Lemma reported_runs : run_rtt 2 two_answers = Some reported.
Proof. vm_compute. reflexivity. Qed.

Lemma rtt_wakes_witness : unheard HLock (th_trace answered) /\ forall t o, is_Some (rtt_step 2 (MainStep t) answered) \/ is_Some (rtt_step 2 (NetStep o) answered).
Proof.
  destruct (run_rtt_steps _ _ _ answered_runs) as (s0 & nt & H0 & Hr).
  destruct (rtt_wakes 2 host 1 5 world0 s0 nt _ answered H0 Hr) as (_ & H1 & H2). split; [by apply H1 | by apply H2].
Defined.

Lemma rtt_threads_refine_witness : exists z, exchanges 2 [(1000010, 1000052); (1000060, 1000071)] rtt_start = Ok tt ((th_rtt reported)<|start_time := z|>).
Proof.
  destruct (run_rtt_steps _ _ _ reported_runs) as (s0 & nt & H0 & Hr).
  destruct (rtt_threads_refine 2 _ host 1 5 world0 s0 nt reported H0 Hr) as [H1 _]; [vm_compute; reflexivity|].
  exact H1.
Defined.

Lemma rtt_threads_report_witness : reports (th_rtt reported) = [mkreport [42; 11] 26 11 42].
Proof.
  destruct (run_rtt_steps _ _ _ reported_runs) as (s0 & nt & H0 & Hr).
  destruct (rtt_threads_report 2 _ host 1 5 world0 s0 nt reported [[(1000010, 1000052); (1000060, 1000071)]] [] H0 Hr) as [H1 _];
    [vm_compute; reflexivity | lia | vm_compute; reflexivity | repeat constructor; vm_compute; congruence | cbn; lia | exact H1].
Defined.

Lemma rtt_threads_safe_witness : exists s0 nt, rtt_client_main host 1 5 world0 = Ok s0 nt /\
  forall s, steps (rtt_step 2) two_answers s0 s -> th_fault s = None /\ Z.of_nat (length (rtt_vec (th_rtt s))) < 2 /\
    w_live (n_world (cl_net (th_client s))) = w_live world0 + heap (kcp_ (session_ (th_client s))).
Proof.
  apply (rtt_threads_safe demo_alloc_ok 2 host 1 5 world0 two_answers); [lia | repeat constructor; cbn; lia | vm_compute; reflexivity].
Defined.

(** A wake-up without a notification: the second message sets the time of the first anew,
    and the answer to the first, 90 ms after it, is timed as 10 ms. *)
Definition early_wake : list rtt_event := Eval vm_compute in
  match peer_datagrams 5 [[98]] with
  | d :: _ => replicate 4 (main_at_ms 10) ++ [Spurious] ++ replicate 6 (main_at_ms 90) ++ [net_at 91; net_meets 92 d; net_at 93; net_at 94; net_at 100]
  | [] => []
  end.
Example rtt_early_wake : option_map (fun s => (rtt_vec (th_rtt s), map time_of (paired (th_trace s)))) (run_rtt 2 early_wake) = Some ([10], [90]).
Proof. vm_compute. reflexivity. Qed.
